(* ===== verification/_CoqProject ===== *)
-Q . S2P
Prelude.v
GoStrings.v
Contracts.v
CommandState.v
GoJson.v
Base64.v
Utf8.v
Payload.v
Domain.v
JsonText.v
GoNet.v
RuntimeConfig.v
KafkaTopics.v
KafkaTopicProperties.v
TraceFile.v
TimeText.v
Pagination.v
HttpParams.v
HttpAuth.v
Observability.v
Tracing.v
Postgres.v
PostgresStore.v
Migration.v
PostgresCommands.v
PostgresLists.v
Lifecycle.v
PostgresRefine.v
StoreProperties.v
CommandProperties.v
DispatchProperties.v
TelemetryProperties.v
PageProperties.v
TenantFrame.v
MqttAuth.v
Host.v
StoreEffects.v
Demo.v
Kafka.v
Bridge.v
TDengine.v
Worker.v
WorkerSetup.v
Drain.v
WorkerProperties.v
Acks.v
Metrics.v
TelemetryOrigin.v
Tools.v
Dispatcher.v
DlqReplay.v
CoreService.v
Pipeline.v
PipelineProgress.v
MemoryStore.v
Repository.v
AdminApi.v
AdminProperties.v
PlatformApp.v
Bootstrap.v
CoreServer.v
ManagementServer.v
DemoRuntime.v
