(* ===== verification/Prelude.v ===== *)
(** * A verification development for the IoT platform

    The platform takes telemetry from devices over MQTT and HTTP, keeps it in
    PostgreSQL and TDengine with Kafka in between, and delivers commands to
    devices at least once with a bounded number of attempts.  This library models
    the Go code under src/ as executable Rocq functions and proves what the
    services rely on: what may be lost and what may not, who may see and change
    what, and when a retry is safe.

    ** How the parts interact

    Devices connect to the broker (EMQX), which asks the callback of
    mqtt_auth.go whom to admit and with which ACL.  Telemetry reaches the
    ingestion bridge (mqtt_bridge.go), which records it in the PostgreSQL inbox
    and publishes it to Kafka; the device worker (worker.go) consumes it, stores
    it and writes it to TDengine, and a compensation scan completes what failed.
    The core service (core/service.go) creates commands in PostgreSQL; the
    dispatcher (command_dispatcher.go) claims them and publishes them to Kafka;
    the worker delivers them over MQTT; devices acknowledge them
    (worker_ack.go).  What cannot be processed goes to a dead-letter topic that
    an operator replays (cmd/dlq-replay).  Operators and applications use the
    management API (adminapi/server.go), which checks a bearer token and forwards
    to the core service over gRPC.  Every service provisions its Kafka topics
    when it starts (kafka_topics.go), and is built, run and torn down by
    bootstrap/run.go or core/server.go.

    ** Files

    - Prelude: errors as the sentinels [errors.Is] can see, [result] and its
      monad, shared lemmas.
    - GoStrings, GoJson, Base64: byte strings with Go's UTF-8 decoding, the
      encoding/json scanner, encoding/base64; Utf8: encoding a rune and decoding
      it again; JsonText: json.Marshal of strings and objects, and a reader that
      gives them back.
    - Contracts, CommandState, Payload: internal/contracts (topics and fields;
      the command state machine; JSON budgets, unique fields, envelopes,
      results).
    - Domain, TimeText: domain.go, command_capacity.go; instants as text.
    - GoNet: strconv, time.ParseDuration, net.SplitHostPort, url.ParseQuery,
      path.Clean; RuntimeConfig: runtimeconfig/config.go.
    - KafkaTopics, KafkaTopicProperties: kafka_topics.go over an abstract admin
      client ([KafkaAdmin]) with a clock, and what provisioning guarantees.
    - TraceFile: trace_file.go over a file system whose every call may fail.
    - HttpParams, HttpAuth: http_parameters.go, http_auth.go, the labels of
      metrics.go; Observability: the request identifiers of observability.go,
      http_logging.go, http_tracing.go; Tracing: the log lines and the trace
      settings of observability.go, [StartTracing], [StopTracing] and
      [ProbeContext] of trace_file.go.
    - Pagination: pagination.go, list_filters.go, page_budget.go, and the general
      argument that keyset pages enumerate a query.
    - Postgres: the tables, statements, transactions, and a database whose every
      round trip may fail before or after it took effect.
    - PostgresStore, PostgresCommands, PostgresLists: postgres_store.go, one
      definition per method, each transaction with its statements in order.
    - Migration: the schema transaction of postgres_store.go with the hashing of
      legacy secrets, and [validBcryptEncoding] of mqtt_auth.go.
    - Lifecycle: the abstract specification of the store, a step relation on the
      tables and the invariant it keeps; PostgresRefine: each method refines it.
    - StoreProperties, CommandProperties, DispatchProperties,
      TelemetryProperties, PageProperties: what the store guarantees;
      TenantFrame: which tenant each method reads and changes.
    - MqttAuth: mqtt_auth.go.
    - Host: the surroundings of a service (store, Kafka, MQTT, TDengine) as a
      monad that records the trace of actions and takes their outcomes from a
      schedule.
    - Kafka, Bridge, TDengine, Worker, WorkerProperties, Acks: kafka_publisher.go
      and dead_letter.go, mqtt_bridge.go and mqtt_readiness.go,
      tdengine_writer.go, worker.go and worker_storage.go, worker_ack.go.
    - WorkerSetup: the construction, subscription and [Run] of worker and bridge;
      Drain: their admission and shutdown as a step function over any
      interleaving; Metrics: the counters and the middlewares of metrics.go.
    - StoreEffects: what the calls a service may make can do to the tables;
      TelemetryOrigin: authentication, broker ACL and bridge taken together;
      Pipeline: every service as a step of one system, over one database, and
      what holds of every run; PipelineProgress: a run that goes through.
    - Tools: cmd/migrate, cmd/e2eclient, cmd/e2espoof.
    - Dispatcher: command_dispatcher.go, against the class [CommandDispatchStore]
      with its laws, which the PostgreSQL store instantiates.
    - DlqReplay: cmd/dlq-replay/main.go.
    - CoreService: internal/core/service.go.
    - MemoryStore: memory_store.go and memory_pages.go; Repository: interfaces.go
      as a record of operations with the class [RepositoryLaws], the PostgreSQL
      store behind it (module [Pg]: its methods without a context), and the
      choices of worker_storage.go between optional interfaces.
    - AdminApi, AdminProperties: adminapi/server.go over a router ([Router]) and
      a core client; ManagementServer: its settings, [Run], and one exchange
      through the chain of middlewares; PlatformApp: platform.go, handlers.go,
      http_helpers.go.
    - Demo: demo/service.go and the factory of demo/runtime.go; DemoRuntime: the
      HTTP client, the MQTT bus, the loop and [Run] of demo/runtime.go.
    - Bootstrap: bootstrap/run.go, [Run] of core/server.go, grpc_tls.go and the
      opening of the databases; CoreServer: the RPC server and the auxiliary
      servers of core/server.go.

    ** What the theorems show

    Of the system as a whole: in every run of all the services together, with
    any contents of Kafka and MQTT and any failures, what a device is sent was
    requested for it (C2), what it can have recorded is its own (C3), a result
    came from the device the command was for (C6) and a confirmed delivery is
    not repeated (C5); and a run without failures takes a command to its device
    and the answer back (C4).

    Of the store: it refines the lifecycle under every fault schedule and keeps
    its tables well formed (C1, C7), final commands stay final (C8), superseded
    owners are fenced (C9), claims and keys do what their contracts say (C15,
    C31), no live command is stranded (C29), listings are exact (C30), and the
    in-memory store keeps the same contract (C23, C38).

    Of the services: they lose nothing they commit or acknowledge (C10 to C13,
    C35), publish within bounds (C14), and shut down without leaving a callback
    behind, always to the end (C17, C18).  Topics are provisioned in bounded
    time, and success means that the brokers hold the desired configuration
    (C16, C24).  A service releases what it opened on every way out (C25);
    legacy secrets are migrated as a whole or not at all (C26).  Admission to
    the broker is confined (C32), dead letters are replayed faithfully and never
    dropped (C33, C34), and the input contracts are characterised (C36, C37).

    Of the management API: it refuses what is not authenticated and confines a
    bound token to its tenant (C19, C20), a request has one reading (C27), is
    accounted for once in the log, the counters and the span under one identifier
    (C21), and its logs and spans disclose nothing (C28); the simulator's client
    and the gateway agree on every call (C22).  Traces stay within their budget
    (C39), and no log message can forge another (C40).

    Further theorems, among them the exactness of metrics, the bounded labels,
    the alteration of drifted topics only, the consumer group of a tenant set,
    the literals of TDengine statements, the readiness gate, the atomic demo
    topology, the resubscription after a reconnect, the bounded shutdown of the
    auxiliary servers and the round trips of topics, are stated in the files of
    their components.

    ** Choices

    - An instant is a number of nanoseconds from the Unix epoch, a duration a
      number of nanoseconds; the values the code reads from clocks are
      arguments.  Generations of the readiness gate are 64-bit and wrap.
    - Transactions are serial, as row locks and single statements make the
      command transitions; rows locked by others are a parameter of the queries
      that skip them.  A statement outside a transaction commits on its own.
      Telemetry ids are drawn without gaps.
    - Recursion is structural, over messages, rows, fetches, retry delays or the
      bytes of a text.  Only the JSON scanner takes fuel, two units more
      than twice the length of the text, and more never changes its answer
      ([json_fuel_enough]), and [time.ParseDuration] the length of its text
      ([duration_fuel_enough]); the client that follows page cursors takes one
      unit per listed row, which C30 shows is enough.  The dispatch loop takes
      its batch size.  The two loops that wait for Kafka take the rounds that fit
      before their deadline ([rounds]), which C16 shows is enough.
    - Code outside the repository is a parameter with named laws: bcrypt, SHA-256,
      the collation, jsonb and interval conversions of PostgreSQL ([PgEnv]), the
      JSON encoding of structs, RFC 3339 times ([TimeText]), Unicode folding
      ([Unicode]), temporary errors of the Kafka client ([KafkaClient]), error
      codes of the TDengine driver ([TaosDriver]), topic matching of the broker
      ([Broker]), the Kafka admin API ([KafkaAdmin], with the laws of its clock),
      the go-zero router, [http.ServeMux], the decoding of request bodies,
      [url.Parse] ([UrlParser]), [strconv.ParseFloat], the span contexts of
      OpenTelemetry ([Otel]), the loading of certificates, the embedded SQL
      scripts.  Every property with such a law has a witness with a concrete
      instance.
    - What may fail outside a database, an API call, a file operation, a bind,
      takes its outcome from a list, so a theorem covers every pattern of
      failures.  Channels and goroutines of [Run] are the sequence of what wakes
      it up; shutdown is any interleaving of atomic steps.  In Pipeline one
      handler, on one message, request or row, is one step: its transactions are
      serial already, and other services run between handlers.
    - The text of log messages and of errors is left out, except where code
      matches on text or a theorem is about it; counters are actions of the
      trace, and durations of requests are not recorded.

    ** Not modelled

    Generated protocol code, the static API documents, the SQL scripts, the
    exposition of metrics and their histograms, the go-zero servers, the
    OpenTelemetry SDK and the MQTT, HTTP, Kafka and database clients are outside
    the model: they are data for, or calls into, libraries.  Two handlers of one
    service that interleave between their transactions are covered by the store's
    theorems, which hold of any sequence of its methods, and not by those of
    Pipeline. *)


From stdpp Require Import prelude strings gmap sorting.
From Stdlib Require Import ZArith Lia.

(** ** Errors

    A Go error is observed by the program only through [errors.Is] (and, in the
    log, through its text).  It is modelled as the list of sentinels its chain
    of [%w] wrappings contains; [Opaque] stands for an error value that wraps
    no sentinel of the repository. *)
Inductive sentinel :=
| ErrInvalidTopicPart
| ErrInvalidEnvelope
| ErrTimestampOutOfRange
| ErrInvalidPayload
| ErrInvalidDeviceSecret
| ErrInvalidIdempotencyKey
| ErrInvalidCommandTransition
| ErrDuplicateTelemetry
| ErrIdentityMismatch
| ErrNotFound
| ErrAlreadyExists
| ErrIdempotencyConflict
| ErrAcknowledgementConflict
| ErrInvalidPage
| ErrInvalidCursor
| ErrListItemTooLarge
| ErrPublishBacklogFull
| ErrTDFieldRejected
| ErrTDengineWriterClosed
| ErrNoRows
| ContextCanceled
| ContextDeadlineExceeded
| Opaque (msg : string).

#[export] Instance sentinel_eq_dec : EqDecision sentinel.
Proof. solve_decision. Defined.

Definition error := list sentinel.

(** [errors.Is err target]. *)
Definition errors_is (e : error) (s : sentinel) : bool := bool_decide (s ∈ e).

(** ** Fallible computations: Go's [(T, error)] *)
Inductive result (A : Type) :=
| Ok (a : A)
| Err (e : error).
Arguments Ok {A} a.
Arguments Err {A} e.

#[export] Instance result_ret : MRet result := @Ok.
#[export] Instance result_bind : MBind result := fun A B f r =>
  match r with Ok a => f a | Err e => Err e end.

#[export] Instance result_eq_dec {A} `{EqDecision A} : EqDecision (result A).
Proof. solve_decision. Defined.

Definition is_ok {A} (r : result A) : bool :=
  match r with Ok _ => true | Err _ => false end.

Lemma result_bind_ok {A B} (f : A -> result B) (m : result A) b :
  m ≫= f = Ok b -> exists a, m = Ok a /\ f a = Ok b.
Proof. destruct m; simpl; [eauto | discriminate]. Qed.
