(* ===== verification/GoStrings.v ===== *)
(** * The part of Go's [strings], [unicode] and [unicode/utf8] the platform uses

    A Go string is a sequence of bytes: [string] here, one [ascii] per byte.
    [len] is the number of bytes.  The UTF-8 decoder is Go's: an ill-formed
    byte decodes to [RuneError] with width one, which is how [utf8.ValidString]
    tells it from an encoded U+FFFD. *)
From stdpp Require Import prelude strings.
From Stdlib Require Import ZArith Lia Ascii.
From S2P Require Import Prelude.

Local Open Scope Z_scope.

Definition bval (c : ascii) : Z := Z.of_N (Ascii.N_of_ascii c).
Definition len (s : string) : Z := Z.of_nat (String.length s).

(** ** UTF-8 *)
Definition RuneError : Z := 65533.

(** Number of bytes the first byte announces; 0 for a byte that starts nothing. *)
Definition seq_size (b0 : Z) : nat :=
  if b0 <? 128 then 1%nat
  else if b0 <? 194 then 0%nat
  else if b0 <? 224 then 2%nat
  else if b0 <? 240 then 3%nat
  else if b0 <? 245 then 4%nat else 0%nat.

Definition is_cont (c : ascii) : bool := (128 <=? bval c) && (bval c <=? 191).

(** The second byte has a narrower range after E0, ED, F0 and F4. *)
Definition second_ok (b0 : Z) (c : ascii) : bool :=
  let b := bval c in
  if b0 =? 224 then (160 <=? b) && (b <=? 191)
  else if b0 =? 237 then (128 <=? b) && (b <=? 159)
  else if b0 =? 240 then (144 <=? b) && (b <=? 191)
  else if b0 =? 244 then (128 <=? b) && (b <=? 143)
  else is_cont c.

Definition low6 (c : ascii) : Z := Z.land (bval c) 63.
Definition rune2 (b0 : Z) (c1 : ascii) : Z := Z.lor (Z.shiftl (Z.land b0 31) 6) (low6 c1).
Definition rune3 (b0 : Z) (c1 c2 : ascii) : Z :=
  Z.lor (Z.shiftl (Z.land b0 15) 12) (Z.lor (Z.shiftl (low6 c1) 6) (low6 c2)).
Definition rune4 (b0 : Z) (c1 c2 c3 : ascii) : Z :=
  Z.lor (Z.shiftl (Z.land b0 7) 18)
        (Z.lor (Z.shiftl (low6 c1) 12) (Z.lor (Z.shiftl (low6 c2) 6) (low6 c3))).

(** The runes of [range s], each with the number of bytes it consumed. *)
Fixpoint decode_runes (s : string) : list (Z * nat) :=
  match s with
  | EmptyString => []
  | String c0 s1 =>
    let b0 := bval c0 in
    let bad := (RuneError, 1%nat) :: decode_runes s1 in
    match seq_size b0 with
    | 1%nat => (b0, 1%nat) :: decode_runes s1
    | 2%nat =>
      match s1 with
      | String c1 s2 =>
        if second_ok b0 c1 then (rune2 b0 c1, 2%nat) :: decode_runes s2 else bad
      | _ => bad
      end
    | 3%nat =>
      match s1 with
      | String c1 (String c2 s3) =>
        if second_ok b0 c1 && is_cont c2
        then (rune3 b0 c1 c2, 3%nat) :: decode_runes s3 else bad
      | _ => bad
      end
    | 4%nat =>
      match s1 with
      | String c1 (String c2 (String c3 s4)) =>
        if second_ok b0 c1 && is_cont c2 && is_cont c3
        then (rune4 b0 c1 c2 c3, 4%nat) :: decode_runes s4 else bad
      | _ => bad
      end
    | _ => bad
    end
  end.

(** [utf8.ValidString]: no ill-formed byte. *)
Definition utf8_valid (s : string) : bool :=
  forallb (fun '(r, w) => negb ((r =? RuneError) && (w =? 1)%nat)) (decode_runes s).

Definition range_runes (s : string) : list Z := (decode_runes s).*1.

(** ** [unicode] *)
Definition is_control (r : Z) : bool :=
  ((0 <=? r) && (r <? 32)) || ((127 <=? r) && (r <? 160)).

Definition is_space (r : Z) : bool :=
  ((9 <=? r) && (r <=? 13)) || (r =? 32) || (r =? 133) || (r =? 160)
  || (r =? 5760) || ((8192 <=? r) && (r <=? 8202))
  || (r =? 8232) || (r =? 8233) || (r =? 8239) || (r =? 8287) || (r =? 12288).

(** ** [strings] *)
Fixpoint str_drop (n : nat) (s : string) : string :=
  match n, s with
  | S n', String _ s' => str_drop n' s'
  | _, _ => s
  end.

Fixpoint str_take (n : nat) (s : string) : string :=
  match n, s with
  | S n', String c s' => String c (str_take n' s')
  | _, _ => EmptyString
  end.

Fixpoint leading_space (l : list (Z * nat)) : nat :=
  match l with
  | (r, w) :: l' => if is_space r then (w + leading_space l')%nat else 0%nat
  | [] => 0%nat
  end.

Definition trim_left (s : string) : string := str_drop (leading_space (decode_runes s)) s.

(** [utf8.DecodeLastRuneInString]: look back for the byte that starts the last
    rune, at most four bytes, and decode from there to the end. *)
Fixpoint last_start (fuel : nat) (s : string) (start : nat) : nat :=
  match fuel with
  | O => start
  | S f =>
    match String.get start s with
    | Some c => if is_cont c then
                  match start with O => O | S p => last_start f s p end
                else start
    | None => start
    end
  end.

Definition decode_last_rune (s : string) : Z * nat :=
  match String.length s with
  | O => (RuneError, 0%nat)
  | S start =>
    match String.get start s with
    | Some c =>
      if bval c <? 128 then (bval c, 1%nat)
      else
        let from := match start with O => O | S p => last_start 3 s p end in
        match decode_runes (str_drop from s) with
        | [(r, w)] => if (from + w =? S start)%nat then (r, w) else (RuneError, 1%nat)
        | _ => (RuneError, 1%nat)
        end
    | None => (RuneError, 0%nat)
    end
  end.

Fixpoint trim_right_fuel (fuel : nat) (s : string) : string :=
  match fuel with
  | O => s
  | S f =>
    match s with
    | EmptyString => s
    | _ =>
      let '(r, w) := decode_last_rune s in
      if is_space r then trim_right_fuel f (str_take (String.length s - w) s) else s
    end
  end.

Definition trim_right (s : string) : string := trim_right_fuel (String.length s) s.

(** [strings.TrimSpace] *)
Definition trim_space (s : string) : string := trim_right (trim_left s).

(** [strings.IndexByte(s, c) >= 0], which is what [strings.Contains] and
    [strings.ContainsAny] reduce to for ASCII needles. *)
Fixpoint contains_byte (c : ascii) (s : string) : bool :=
  match s with
  | EmptyString => false
  | String d s' => Ascii.eqb c d || contains_byte c s'
  end.

Fixpoint contains_any (s : string) (chars : string) : bool :=
  match chars with
  | EmptyString => false
  | String c cs => contains_byte c s || contains_any s cs
  end.

(** [strings.Split(s, sep)] for a one-byte separator. *)
Fixpoint split_byte (c : ascii) (s : string) : list string :=
  match s with
  | EmptyString => [EmptyString]
  | String d s' =>
    if Ascii.eqb c d then EmptyString :: split_byte c s'
    else match split_byte c s' with
         | p :: ps => String d p :: ps
         | [] => [String d EmptyString]
         end
  end.

(** [strings.Join] for a one-byte separator. *)
Fixpoint join_byte (c : ascii) (ps : list string) : string :=
  match ps with
  | [] => EmptyString
  | [p] => p
  | p :: ps' => p +:+ String c (join_byte c ps')
  end.

(** [strings.Cut(s, sep)] for a one-byte separator. *)
Fixpoint cut_byte (c : ascii) (s : string) : option (string * string) :=
  match s with
  | EmptyString => None
  | String d s' =>
    if Ascii.eqb c d then Some (EmptyString, s')
    else match cut_byte c s' with
         | Some (a, b) => Some (String d a, b)
         | None => None
         end
  end.

(** [strings.CutPrefix] and [strings.HasPrefix] *)
Fixpoint cut_prefix (pre s : string) : option string :=
  match pre, s with
  | EmptyString, _ => Some s
  | String c pre', String d s' => if Ascii.eqb c d then cut_prefix pre' s' else None
  | String _ _, EmptyString => None
  end.

Definition has_prefix (s pre : string) : bool :=
  match cut_prefix pre s with Some _ => true | None => false end.

(** ** Lemmas *)
Section lemmas.
Implicit Types (c d : ascii) (s t u : string).

Lemma str_app_cons c s t : String c s +:+ t = String c (s +:+ t).
Proof. done. Qed.

Lemma str_app_nil_l t : "" +:+ t = t.
Proof. done. Qed.

Lemma str_app_nil_r s : s +:+ "" = s.
Proof. induction s as [|c s IH]; [done|]. by rewrite str_app_cons, IH. Qed.

Lemma str_app_assoc s t u : (s +:+ t) +:+ u = s +:+ (t +:+ u).
Proof. induction s as [|c s IH]; [done|]. by rewrite !str_app_cons, IH. Qed.

Lemma contains_byte_app c s t :
  contains_byte c (s +:+ t) = contains_byte c s || contains_byte c t.
Proof. induction s as [|d s IH]; [done|]. rewrite str_app_cons. simpl. by rewrite IH, orb_assoc. Qed.

Lemma contains_any_byte s chars c :
  contains_any s chars = false -> contains_byte c chars = true -> contains_byte c s = false.
Proof.
  induction chars as [|d cs IH]; simpl; [done|].
  intros [H1 H2]%orb_false_iff [->%Ascii.eqb_eq|H]%orb_true_iff; auto.
Qed.

Lemma split_byte_nonempty c s : split_byte c s <> [].
Proof. destruct s as [|d s]; simpl; [done|]. destruct (Ascii.eqb c d); [done|]. by case_match. Qed.

Lemma split_byte_none c s : contains_byte c s = false -> split_byte c s = [s].
Proof.
  induction s as [|d s IH]; simpl; [done|]. intros [Hd Hs]%orb_false_iff.
  by rewrite Hd, IH.
Qed.

Lemma split_byte_app c s t :
  contains_byte c s = false -> split_byte c (s +:+ String c t) = s :: split_byte c t.
Proof.
  induction s as [|d s IH]; intros H.
  - rewrite str_app_nil_l. simpl. by rewrite Ascii.eqb_refl.
  - simpl in H. apply orb_false_iff in H as [Hd Hs].
    rewrite str_app_cons. simpl. by rewrite Hd, IH.
Qed.

Lemma join_split c s : join_byte c (split_byte c s) = s.
Proof.
  induction s as [|d s IH]; simpl; [done|].
  pose proof (split_byte_nonempty c s) as Hne.
  destruct (Ascii.eqb_spec c d) as [->|Hcd];
    destruct (split_byte _ s) as [|p [|q ps]] eqn:E; try done; simpl in *; by rewrite <- IH.
Qed.

(** Splitting what was joined gives the parts back when none holds the
    separator. *)
Lemma split_join c p ps :
  Forall (fun q => contains_byte c q = false) (p :: ps) ->
  split_byte c (join_byte c (p :: ps)) = p :: ps.
Proof.
  revert p. induction ps as [|q ps IH]; intros p H; inversion H; subst.
  - by apply split_byte_none.
  - change (join_byte c (p :: q :: ps)) with (p +:+ String c (join_byte c (q :: ps))).
    rewrite split_byte_app; [|done]. by rewrite IH.
Qed.

Lemma split_byte_no_sep c s : Forall (fun p => contains_byte c p = false) (split_byte c s).
Proof.
  induction s as [|d s IH]; simpl; [by repeat constructor|].
  destruct (Ascii.eqb c d) eqn:E; [by constructor|].
  destruct (split_byte c s) as [|p ps].
  - constructor; simpl; [by rewrite E|constructor].
  - inversion IH; subst. constructor; simpl; [by rewrite E|done].
Qed.

Lemma cut_byte_app c s t :
  contains_byte c s = false -> cut_byte c (s +:+ String c t) = Some (s, t).
Proof.
  induction s as [|d s IH]; intros H.
  - rewrite str_app_nil_l. simpl. by rewrite Ascii.eqb_refl.
  - simpl in H. apply orb_false_iff in H as [Hd Hs].
    rewrite str_app_cons. simpl. by rewrite Hd, IH.
Qed.

Lemma cut_byte_Some c s a b :
  cut_byte c s = Some (a, b) -> s = a +:+ String c b /\ contains_byte c a = false.
Proof.
  revert a. induction s as [|d s IH]; intros a; simpl; [done|].
  destruct (Ascii.eqb_spec c d) as [->|Hne].
  - by intros [= <- <-].
  - destruct (cut_byte c s) as [[a' b']|] eqn:E; [|done]. intros [= <- <-].
    destruct (IH a') as [-> H]; [done|]. rewrite str_app_cons. split; [done|].
    simpl. apply Ascii.eqb_neq in Hne. by rewrite Hne, H.
Qed.

Lemma cut_prefix_app p s : cut_prefix p (p +:+ s) = Some s.
Proof. induction p as [|c p IH]; [done|]. rewrite str_app_cons. simpl. by rewrite Ascii.eqb_refl. Qed.

Lemma cut_prefix_Some p s t : cut_prefix p s = Some t -> s = p +:+ t.
Proof.
  revert s. induction p as [|c p IH]; intros s; simpl; [by intros [= ->]|].
  destruct s as [|d s]; [done|]. destruct (Ascii.eqb_spec c d) as [->|]; [|done].
  intros H%IH. by subst.
Qed.

Lemma str_app_length s t : String.length (s +:+ t) = (String.length s + String.length t)%nat.
Proof. induction s as [|c s IH]; [done|]. rewrite str_app_cons. simpl. by rewrite IH. Qed.

Lemma len_app s t : len (s +:+ t) = len s + len t.
Proof. unfold len. rewrite str_app_length. lia. Qed.

Lemma len_nonneg s : 0 <= len s.
Proof. unfold len. lia. Qed.
End lemmas.

Lemma str_app_inj_l (a b c : string) : a +:+ b = a +:+ c -> b = c.
Proof. induction a as [|x a IH]; simpl; intros E; [done|injection E as E; auto]. Qed.

Create HintDb gostr.
Create Rewrite HintDb gostr.
#[export] Hint Resolve split_byte_nonempty len_nonneg split_byte_no_sep : gostr.
#[export] Hint Rewrite str_app_nil_l str_app_nil_r str_app_assoc str_app_cons len_app : gostr.

(** [strings.Contains] *)
Fixpoint contains_sub (s sub : string) : bool :=
  has_prefix s sub || match s with EmptyString => false | String _ r => contains_sub r sub end.

(** ** Well-formed UTF-8, one rune at a time *)
Lemma second_ok_high b0 c : second_ok b0 c = true -> 128 <= bval c.
Proof. unfold second_ok, is_cont. repeat case_match; lia. Qed.

Lemma is_cont_high c : is_cont c = true -> 128 <= bval c.
Proof. unfold is_cont. lia. Qed.

Lemma seq_size_zero c : seq_size (bval c) <> 1%nat -> bval c <> 0.
Proof. intros Hs Hz. apply Hs. by rewrite Hz. Qed.

Lemma bval_zero c : bval c <> 0 -> Ascii.eqb Ascii.zero c = false.
Proof. intros Hz. apply Ascii.eqb_neq. by intros <-. Qed.

(** A valid string is empty or starts with a complete rune, which decodes the
    same whatever follows it. *)
Lemma decode_first c0 s1 :
  utf8_valid (String c0 s1) = true ->
  exists pre rest r, String c0 s1 = pre +:+ rest /\ (0 < String.length pre)%nat
    /\ (forall t, decode_runes (pre +:+ t) = (r, String.length pre) :: decode_runes t)
    /\ negb ((r =? RuneError) && (String.length pre =? 1)%nat) = true
    /\ (contains_byte Ascii.zero pre = true -> r = 0).
Proof.
  intros Hv. unfold utf8_valid in Hv. cbn [decode_runes] in Hv.
  destruct (seq_size (bval c0)) as [|[|[|[|[|n]]]]] eqn:Hs; simpl in Hv; try discriminate.
  - exists (String c0 ""), s1, (bval c0). split_and!; [by rewrite str_app_cons, str_app_nil_l|simpl; lia| |by apply andb_prop in Hv as [? _]|].
    + intros t. rewrite ?str_app_cons, str_app_nil_l; cbn [decode_runes]. by rewrite Hs.
    + cbn [contains_byte]. rewrite orb_false_r. intros <-%Ascii.eqb_eq. done.
  - destruct s1 as [|c1 s2]; [done|]. destruct (second_ok (bval c0) c1) eqn:E; [|done].
    exists (String c0 (String c1 "")), s2, (rune2 (bval c0) c1).
    split_and!; [by rewrite ?str_app_cons, str_app_nil_l|simpl; lia| |simpl; by rewrite andb_false_r|].
    + intros t. rewrite ?str_app_cons, str_app_nil_l; cbn [decode_runes]. by rewrite Hs, E.
    + apply second_ok_high in E. cbn [contains_byte]. rewrite !bval_zero; [done|lia|apply seq_size_zero; congruence].
  - destruct s1 as [|c1 [|c2 s3]]; [done|done|]. destruct (second_ok (bval c0) c1 && is_cont c2) eqn:E; [|done].
    exists (String c0 (String c1 (String c2 ""))), s3, (rune3 (bval c0) c1 c2).
    split_and!; [by rewrite ?str_app_cons, str_app_nil_l|simpl; lia| |simpl; by rewrite andb_false_r|].
    + intros t. rewrite ?str_app_cons, str_app_nil_l; cbn [decode_runes]. by rewrite Hs, E.
    + apply andb_prop in E as [?%second_ok_high ?%is_cont_high]. cbn [contains_byte].
      rewrite !bval_zero; [done|lia|lia|apply seq_size_zero; congruence].
  - destruct s1 as [|c1 [|c2 [|c3 s4]]]; [done|done|done|].
    destruct (second_ok (bval c0) c1 && is_cont c2 && is_cont c3) eqn:E; [|done].
    exists (String c0 (String c1 (String c2 (String c3 "")))), s4, (rune4 (bval c0) c1 c2 c3).
    split_and!; [by rewrite ?str_app_cons, str_app_nil_l|simpl; lia| |simpl; by rewrite andb_false_r|].
    + intros t. rewrite ?str_app_cons, str_app_nil_l; cbn [decode_runes]. by rewrite Hs, E.
    + apply andb_prop in E as [[?%second_ok_high ?%is_cont_high]%andb_prop ?%is_cont_high]. cbn [contains_byte].
      rewrite !bval_zero; [done|lia|lia|lia|apply seq_size_zero; congruence].
Qed.

Lemma utf8_ind (P : string -> Prop) :
  P "" ->
  (forall pre rest r, (forall t, decode_runes (pre +:+ t) = (r, String.length pre) :: decode_runes t) ->
     negb ((r =? RuneError) && (String.length pre =? 1)%nat) = true ->
     (contains_byte Ascii.zero pre = true -> r = 0) ->
     utf8_valid rest = true -> P rest -> P (pre +:+ rest)) ->
  forall s, utf8_valid s = true -> P s.
Proof.
  intros Hnil Hstep s. remember (String.length s) as n eqn:Hn. revert s Hn.
  induction n as [n IH] using lt_wf_ind. intros [|c0 s1] Hn Hv; [done|].
  destruct (decode_first _ _ Hv) as (pre & rest & r & E & Hl & Hd & Hr & Hz). rewrite E in *.
  assert (Hv' : utf8_valid rest = true).
  { unfold utf8_valid in *. rewrite Hd in Hv. simpl in Hv. by apply andb_prop in Hv as [_ ?]. }
  apply (Hstep pre rest r); [done..|]. eapply IH; [|reflexivity|done]. rewrite Hn, str_app_length. lia.
Qed.

Lemma utf8_valid_app s t : utf8_valid s = true -> utf8_valid t = true -> utf8_valid (s +:+ t) = true.
Proof.
  intros Hs Ht. revert s Hs. apply utf8_ind; [done|]. intros pre rest r Hd Hr _ _ IH. rewrite str_app_assoc.
  unfold utf8_valid in *. rewrite Hd. simpl. by rewrite Hr.
Qed.

(** A NUL byte of a valid string is the control rune 0. *)
Lemma contains_nul_control s :
  utf8_valid s = true -> existsb is_control (range_runes s) = false -> contains_byte Ascii.zero s = false.
Proof.
  revert s. apply (utf8_ind (fun s => existsb is_control (range_runes s) = false -> contains_byte Ascii.zero s = false)); [done|].
  intros pre rest r Hd _ Hz _ IH. unfold range_runes in *. rewrite Hd, contains_byte_app. simpl.
  intros [Hr Hrest]%orb_false_iff. rewrite IH, orb_false_r by done.
  destruct (contains_byte Ascii.zero pre); [|done]. rewrite Hz in Hr by done. done.
Qed.

(** ** strings.TrimSpace is idempotent *)
Lemma is_space_error : is_space RuneError = false.
Proof. reflexivity. Qed.

(** A prefix of a text that does not start with white space does not either. *)
Lemma leading_space_take n s :
  leading_space (decode_runes s) = 0%nat -> leading_space (decode_runes (str_take n s)) = 0%nat.
Proof.
  destruct s as [|c0 s]; [by destruct n|]. destruct n as [|n]; [done|]. cbn [str_take decode_runes].
  destruct (seq_size (bval c0)) as [|[|[|[|[|k]]]]]; cbn [leading_space]; try (by rewrite ?is_space_error).
  - destruct (is_space (bval c0)); [simpl; lia|done].
  - destruct s as [|c1 s]; [by destruct n|]. destruct n as [|n]; cbn [str_take]; [done|].
    destruct (second_ok _ _); cbn [leading_space]; [|done]. destruct (is_space _); [simpl; lia|done].
  - destruct s as [|c1 [|c2 s]]; [by destruct n|by destruct n as [|[|n]]|]. destruct n as [|[|n]]; cbn [str_take]; [done|done|].
    destruct (_ && _); cbn [leading_space]; [|done]. destruct (is_space _); [simpl; lia|done].
  - destruct s as [|c1 [|c2 [|c3 s]]]; [by destruct n|by destruct n as [|[|n]]|by destruct n as [|[|[|n]]]|].
    destruct n as [|[|[|n]]]; cbn [str_take]; [done..|].
    destruct (_ && _); cbn [leading_space]; [|done]. destruct (is_space _); [simpl; lia|done].
Qed.

Lemma last_start_le f s start : (last_start f s start <= start)%nat.
Proof.
  revert start. induction f as [|f IH]; intros start; cbn [last_start]; [lia|].
  destruct (String.get start s) as [c|]; [|lia]. destruct (is_cont c); [|lia]. destruct start as [|p]; [lia|]. specialize (IH p). lia.
Qed.

Lemma decode_last_width s r w : s <> "" -> decode_last_rune s = (r, w) -> is_space r = true -> (1 <= w)%nat.
Proof.
  unfold decode_last_rune. destruct (String.length s) as [|start] eqn:El; [by destruct s|]. intros _.
  destruct (String.get start s) as [c|]; [|by intros [= <- <-]]. destruct (bval c <? 128); [intros [= _ <-]; lia|].
  set (from := match start with O => O | S p => last_start 3 s p end).
  assert (Hf : (from <= start)%nat).
  { unfold from. destruct start as [|p]; [lia|]. pose proof (last_start_le 3 s p). lia. }
  destruct (decode_runes (str_drop from s)) as [|[r' w'] [|]]; try (intros [= _ <-]; lia).
  destruct (Nat.eqb_spec (from + w') (S start)) as [E|]; intros [= _ <-]; lia.
Qed.

Lemma str_take_take m n s : str_take m (str_take n s) = str_take (Nat.min m n) s.
Proof. revert m n. induction s as [|c s IH]; intros [|m] [|n]; simpl; try done. by rewrite IH. Qed.

Lemma str_take_all s : str_take (String.length s) s = s.
Proof. induction s as [|c s IH]; simpl; [done|by rewrite IH]. Qed.

Lemma str_take_len n s : (String.length (str_take n s) <= n)%nat.
Proof. revert n. induction s as [|c s IH]; intros [|n]; simpl; try lia. specialize (IH n). lia. Qed.

Lemma trim_right_prefix f s : exists n, trim_right_fuel f s = str_take n s.
Proof.
  revert s. induction f as [|f IH]; intros s; [exists (String.length s); by rewrite str_take_all|].
  cbn [trim_right_fuel]. destruct s as [|c s]; [by exists 0%nat|]. set (t := String c s).
  destruct (decode_last_rune t) as [r w]. destruct (is_space r); [|exists (String.length t); by rewrite str_take_all].
  destruct (IH (str_take (String.length t - w) t)) as [n ->]. rewrite str_take_take. eauto.
Qed.

Lemma trim_right_stable f s : (String.length s <= f)%nat ->
  forall g, trim_right_fuel g (trim_right_fuel f s) = trim_right_fuel f s.
Proof.
  revert s. induction f as [|f IH]; intros s Hl g.
  { destruct s; [|simpl in Hl; lia]. by destruct g. }
  destruct s as [|c s]; [by destruct g|]. set (t := String c s) in *.
  change (trim_right_fuel (S f) t) with (let '(r, w) := decode_last_rune t in if is_space r then trim_right_fuel f (str_take (String.length t - w) t) else t).
  destruct (decode_last_rune t) as [r w] eqn:Ed. destruct (is_space r) eqn:Es.
  - apply IH. apply decode_last_width in Ed; [|done|done]. pose proof (str_take_len (String.length t - w) t). lia.
  - destruct g as [|g]; [done|]. unfold t at 1. cbn [trim_right_fuel]. fold t. by rewrite Ed, Es.
Qed.

Lemma str_drop_drop m n s : str_drop m (str_drop n s) = str_drop (n + m) s.
Proof. revert n. induction s as [|c s IH]; intros [|n]; simpl; try done; first [apply IH | by destruct m]. Qed.

Lemma decode_runes_tail s r w l : decode_runes s = (r, w) :: l -> decode_runes (str_drop w s) = l.
Proof.
  destruct s as [|c0 s]; [done|]. cbn [decode_runes].
  destruct (seq_size (bval c0)) as [|[|[|[|[|k]]]]]; try (by intros [= _ <- <-]).
  - destruct s as [|c1 s]; [by intros [= _ <- <-]|]. destruct (second_ok _ _); by intros [= _ <- <-].
  - destruct s as [|c1 [|c2 s]]; try (by intros [= _ <- <-]). destruct (_ && _); by intros [= _ <- <-].
  - destruct s as [|c1 [|c2 [|c3 s]]]; try (by intros [= _ <- <-]). destruct (_ && _); by intros [= _ <- <-].
Qed.

Lemma trim_left_leading s : leading_space (decode_runes (trim_left s)) = 0%nat.
Proof.
  unfold trim_left. remember (decode_runes s) as l eqn:El. revert s El.
  induction l as [|[r w] l IH]; intros s El; cbn [leading_space]; [cbn [str_drop]; by rewrite <- El|].
  destruct (is_space r) eqn:Es; [|cbn [str_drop]; rewrite <- El; cbn [leading_space]; by rewrite Es].
  symmetry in El. apply decode_runes_tail in El. rewrite <- str_drop_drop. by apply IH.
Qed.

Lemma trim_space_idem s : trim_space (trim_space s) = trim_space s.
Proof.
  unfold trim_space. set (t := trim_left s). unfold trim_left at 1.
  assert (Hl : leading_space (decode_runes (trim_right t)) = 0%nat).
  { unfold trim_right. destruct (trim_right_prefix (String.length t) t) as [n ->]. apply leading_space_take, trim_left_leading. }
  rewrite Hl. simpl. unfold trim_right at 1. by apply trim_right_stable.
Qed.
