(* ===== verification/Contracts.v ===== *)
(** * Identity and field contracts: internal/contracts

    The validators every ingress path applies to names and identifiers
    (fields.go, metadata.go, idempotency.go and the secret check of jsonb.go),
    and the MQTT topic and username grammar of topic.go.  A validator returns
    [Ok tt] where the code returns a nil error. *)
From stdpp Require Import prelude strings.
From Stdlib Require Import ZArith Lia Ascii.
From S2P Require Import Prelude GoStrings.

Local Open Scope Z_scope.

(** ** fields.go *)
Definition TelemetryFieldMaxBytes : Z := 64.
Definition TelemetryVersionMaxBytes : Z := 32.

Definition ValidateStorageField (name value : string) (maxBytes : Z) : result unit :=
  if String.eqb value "" || (maxBytes <? len value) || negb (utf8_valid value)
  then Err [ErrInvalidEnvelope]
  else if existsb is_control (range_runes value) then Err [ErrInvalidEnvelope]
  else Ok tt.

(** ** topic.go *)
Definition TopicSuffixTelemetry : string := "telemetry".
Definition TopicSuffixCommand : string := "command".
Definition TopicSuffixAck : string := "ack".
Definition TelemetryTopicFilter : string := "tenant/+/device/+/telemetry".
Definition AckTopicFilter : string := "tenant/+/device/+/ack".

Definition IsValidTopicPart (part : string) : bool :=
  String.eqb part (trim_space part) && negb (contains_any part "/#+")
  && is_ok (ValidateStorageField "topic part" part TelemetryFieldMaxBytes).

Definition IsValidTenantID (id : string) : bool :=
  IsValidTopicPart id && negb (contains_byte ":" id).

Definition BuildDeviceTopic (tenantID deviceID suffix : string) : result string :=
  if negb (IsValidTenantID tenantID) || negb (IsValidTopicPart deviceID)
     || negb (IsValidTopicPart suffix)
  then Err [ErrInvalidTopicPart]
  else Ok ("tenant/" +:+ tenantID +:+ "/device/" +:+ deviceID +:+ "/" +:+ suffix).

Definition BuildDeviceUsername (tenantID deviceID : string) : result string :=
  if negb (IsValidTenantID tenantID) || negb (IsValidTopicPart deviceID)
  then Err [ErrInvalidTopicPart]
  else Ok (tenantID +:+ ":" +:+ deviceID).

Definition ParseDeviceUsername (username : string) : option (string * string) :=
  match cut_byte ":" username with
  | Some (tenantID, deviceID) =>
    if negb (IsValidTenantID tenantID) || negb (IsValidTopicPart deviceID) then None
    else Some (tenantID, deviceID)
  | None => None
  end.

Definition BuildTelemetryTopic (tenantID deviceID : string) : result string :=
  BuildDeviceTopic tenantID deviceID TopicSuffixTelemetry.
Definition BuildCommandTopic (tenantID deviceID : string) : result string :=
  BuildDeviceTopic tenantID deviceID TopicSuffixCommand.
Definition BuildAckTopic (tenantID deviceID : string) : result string :=
  BuildDeviceTopic tenantID deviceID TopicSuffixAck.

Definition BuildTenantCommandTopicFilter (tenantID : string) : result string :=
  if negb (IsValidTenantID tenantID) then Err [ErrInvalidTopicPart]
  else Ok ("tenant/" +:+ tenantID +:+ "/device/+/" +:+ TopicSuffixCommand).

Definition ParseDeviceTopic (topic : string) : option (string * string * string) :=
  match split_byte "/" topic with
  | [p0; p1; p2; p3; p4] =>
    if negb (String.eqb p0 "tenant") || negb (String.eqb p2 "device") then None
    else if negb (IsValidTenantID p1) || negb (IsValidTopicPart p3) || negb (IsValidTopicPart p4)
    then None
    else Some (p1, p3, p4)
  | _ => None
  end.

(** ** metadata.go *)
Definition ValidateTenantName (value : string) : result unit :=
  if String.eqb (trim_space value) "" || (256 <? len value) || negb (utf8_valid value)
  then Err [ErrInvalidPayload]
  else if existsb is_control (range_runes value) then Err [ErrInvalidPayload]
  else Ok tt.

Definition is_ascii_alnum (c : ascii) : bool :=
  let b := bval c in
  ((97 <=? b) && (b <=? 122)) || ((65 <=? b) && (b <=? 90)) || ((48 <=? b) && (b <=? 57)).

Definition is_product_tail (c : ascii) : bool :=
  is_ascii_alnum c || Ascii.eqb c "." || Ascii.eqb c "_" || Ascii.eqb c "-".

Fixpoint all_bytes (f : ascii -> bool) (s : string) : bool :=
  match s with
  | EmptyString => true
  | String c s' => f c && all_bytes f s'
  end.

Definition ValidateProductID (value : string) : result unit :=
  if (len value =? 0) || (64 <? len value) then Err [ErrInvalidPayload]
  else match value with
       | EmptyString => Ok tt
       | String c rest =>
         if is_ascii_alnum c && all_bytes is_product_tail rest then Ok tt
         else Err [ErrInvalidPayload]
       end.

Definition ValidateDeviceIdentity (tenant device : string) : result unit :=
  if negb (IsValidTenantID tenant) || negb (IsValidTopicPart device)
  then Err [ErrInvalidEnvelope] else Ok tt.

Definition ValidateCommandID (id : string) : result unit :=
  if negb (IsValidTopicPart id) then Err [ErrInvalidEnvelope] else Ok tt.

(** ** idempotency.go *)
Definition is_printable_key_byte (c : ascii) : bool := negb ((bval c <? 33) || (126 <? bval c)).

Definition ValidateIdempotencyKey (key : string) : result unit :=
  if 128 <? len key then Err [ErrInvalidIdempotencyKey]
  else if all_bytes is_printable_key_byte key then Ok tt
  else Err [ErrInvalidIdempotencyKey].

(** ** jsonb.go: the device secret *)
Definition ValidateDeviceSecret (secret : string) : result unit :=
  if (len secret =? 0) || (72 <? len secret) || negb (utf8_valid secret)
  then Err [ErrInvalidDeviceSecret] else Ok tt.

(** ** What a valid identifier is *)
Lemma storage_field_ok name value m :
  ValidateStorageField name value m = Ok tt <->
  value <> "" /\ len value <= m /\ utf8_valid value = true
  /\ existsb is_control (range_runes value) = false.
Proof.
  unfold ValidateStorageField. split.
  - destruct (String.eqb_spec value ""), (Z.ltb_spec m (len value)), (utf8_valid value); try done.
    simpl. by destruct (existsb _ _).
  - intros (Hne & Hlen & Hu & Hc). apply String.eqb_neq in Hne as ->.
    apply Z.ltb_ge in Hlen as ->. by rewrite Hu, Hc.
Qed.

Lemma topic_part_field part :
  IsValidTopicPart part = true -> ValidateStorageField "topic part" part TelemetryFieldMaxBytes = Ok tt.
Proof.
  unfold IsValidTopicPart. intros [_ H]%andb_true_iff.
  by destruct (ValidateStorageField _ _ _) as [[]|].
Qed.

Lemma topic_part_no_sep part c :
  IsValidTopicPart part = true -> contains_byte c "/#+" = true -> contains_byte c part = false.
Proof.
  unfold IsValidTopicPart. intros [[_ H%negb_true_iff]%andb_true_iff _]%andb_true_iff Hc.
  by eapply contains_any_byte.
Qed.

Lemma tenant_id_part id : IsValidTenantID id = true -> IsValidTopicPart id = true.
Proof. by intros [? _]%andb_true_iff. Qed.

Lemma tenant_id_no_colon id : IsValidTenantID id = true -> contains_byte ":" id = false.
Proof. by intros [_ ?%negb_true_iff]%andb_true_iff. Qed.

#[export] Hint Resolve topic_part_no_sep tenant_id_part tenant_id_no_colon topic_part_field : gostr.

(** Case analysis on a guard that is a disjunction of failed validators. *)
Ltac guards :=
  repeat match goal with
  | H : (if negb ?a || negb ?b || negb ?c then _ else _) = _ |- _ =>
      destruct a eqn:?, b eqn:?, c eqn:?; simpl in H; try discriminate H
  | H : (if negb ?a || negb ?b then _ else _) = _ |- _ =>
      destruct a eqn:?, b eqn:?; simpl in H; try discriminate H
  | H : (if negb ?a then _ else _) = _ |- _ =>
      destruct a eqn:?; simpl in H; try discriminate H
  end.

Lemma device_topic_join t d s :
  "tenant/" +:+ t +:+ "/device/" +:+ d +:+ "/" +:+ s = join_byte "/" ["tenant"; t; "device"; d; s].
Proof. done. Qed.

Lemma build_device_topic_ok t d s topic :
  BuildDeviceTopic t d s = Ok topic ->
  IsValidTenantID t = true /\ IsValidTopicPart d = true /\ IsValidTopicPart s = true
  /\ topic = join_byte "/" ["tenant"; t; "device"; d; s].
Proof. unfold BuildDeviceTopic. intros H. guards. injection H as <-. by rewrite device_topic_join. Qed.

Lemma split_device_topic t d s :
  IsValidTenantID t = true -> IsValidTopicPart d = true -> IsValidTopicPart s = true ->
  split_byte "/" (join_byte "/" ["tenant"; t; "device"; d; s]) = ["tenant"; t; "device"; d; s].
Proof. intros. apply split_join. repeat constructor; eauto with gostr. Qed.

(** A topic the platform builds parses back to the tenant, device and
    suffix it was built from. *)
Theorem device_topic_roundtrip t d s topic :
  BuildDeviceTopic t d s = Ok topic -> ParseDeviceTopic topic = Some (t, d, s).
Proof.
  intros (Ht & Hd & Hs & ->)%build_device_topic_ok.
  unfold ParseDeviceTopic. rewrite split_device_topic by done. simpl. by rewrite Ht, Hd, Hs.
Qed.

Lemma device_topic_roundtrip_witness :
  BuildDeviceTopic "acme" "d:1" "ack" = Ok "tenant/acme/device/d:1/ack"
  /\ ParseDeviceTopic "tenant/acme/device/d:1/ack" = Some ("acme", "d:1", "ack").
Proof. split; [reflexivity | apply (device_topic_roundtrip "acme" "d:1" "ack"); reflexivity]. Defined.

Lemma parse_device_topic_split topic t d s :
  ParseDeviceTopic topic = Some (t, d, s) ->
  split_byte "/" topic = ["tenant"; t; "device"; d; s]
  /\ IsValidTenantID t = true /\ IsValidTopicPart d = true /\ IsValidTopicPart s = true.
Proof.
  unfold ParseDeviceTopic. intros H.
  destruct (split_byte "/" topic) as [|p0 [|p1 [|p2 [|p3 [|p4 [|]]]]]]; try discriminate H.
  guards. apply String.eqb_eq in Heqb as ->, Heqb0 as ->. by injection H as -> -> ->.
Qed.

(** What the ingress accepts as a device topic is exactly what the builder
    produces: a parsed topic is the canonical topic of its own tenant, device
    and suffix, so the parser admits no second spelling of an identity. *)
Theorem parse_device_topic_canonical topic t d s :
  ParseDeviceTopic topic = Some (t, d, s) -> BuildDeviceTopic t d s = Ok topic.
Proof.
  intros (Hsplit & Ht & Hd & Hs)%parse_device_topic_split.
  unfold BuildDeviceTopic. rewrite Ht, Hd, Hs. simpl.
  by rewrite device_topic_join, <- Hsplit, join_split.
Qed.

Lemma parse_device_topic_canonical_witness :
  ParseDeviceTopic "tenant/acme/device/d:1/telemetry" = Some ("acme", "d:1", "telemetry")
  /\ BuildDeviceTopic "acme" "d:1" "telemetry" = Ok "tenant/acme/device/d:1/telemetry".
Proof.
  split; [reflexivity|].
  apply (parse_device_topic_canonical "tenant/acme/device/d:1/telemetry"); reflexivity.
Defined.

Lemma build_device_username_ok t d u :
  BuildDeviceUsername t d = Ok u ->
  IsValidTenantID t = true /\ IsValidTopicPart d = true /\ u = t +:+ String ":" d.
Proof. unfold BuildDeviceUsername. intros H. guards. by injection H as <-. Qed.

Lemma parse_device_username_Some u t d :
  ParseDeviceUsername u = Some (t, d) ->
  u = t +:+ String ":" d /\ IsValidTenantID t = true /\ IsValidTopicPart d = true.
Proof.
  unfold ParseDeviceUsername. destruct (cut_byte ":" u) as [[a b]|] eqn:E; [|done].
  intros H. guards. injection H as <- <-. by apply cut_byte_Some in E as [-> _].
Qed.

(** MQTT usernames and device identities are in one-to-one correspondence:
    the colon of a tenant identifier being forbidden, building and parsing a
    username are inverse to each other. *)
Theorem device_username_iff t d u :
  BuildDeviceUsername t d = Ok u <-> ParseDeviceUsername u = Some (t, d).
Proof.
  split.
  - intros (Ht & Hd & ->)%build_device_username_ok.
    unfold ParseDeviceUsername. rewrite cut_byte_app by eauto with gostr. by rewrite Ht, Hd.
  - intros (-> & Ht & Hd)%parse_device_username_Some.
    unfold BuildDeviceUsername. by rewrite Ht, Hd.
Qed.
