(* ===== verification/CommandState.v ===== *)
(** * The command state machine: internal/contracts/command_state.go

    [CommandStatus] and [CommandEvent] are string types in Go and stay strings
    here: a status is read back from a text column and an acknowledgement status
    comes from a device, so the machine must also answer for strings it does not
    know.  [Status] is the abstract lifecycle the whole platform follows, which
    the store's SQL guards refine (see PostgresCommands). *)
From stdpp Require Import prelude strings.
From Stdlib Require Import ZArith Lia.
From S2P Require Import Prelude GoStrings.

Definition CommandStatusCreated : string := "created".
Definition CommandStatusPublished : string := "published".
Definition CommandStatusSent : string := "sent".
Definition CommandStatusAcked : string := "acked".
Definition CommandStatusFailed : string := "failed".
Definition CommandStatusTimeout : string := "timeout".

Definition CommandEventPublished : string := "published".
Definition CommandEventDelivered : string := "delivered".
Definition CommandEventAcked : string := "acked".
Definition CommandEventFailed : string := "failed".
Definition CommandEventTimeout : string := "timeout".

Definition AdvanceCommandStatus (current event : string) : result string :=
  if String.eqb current CommandStatusCreated then
    if String.eqb event CommandEventFailed then Ok CommandStatusFailed
    else if String.eqb event CommandEventPublished then Ok CommandStatusPublished
    else if String.eqb event CommandEventAcked then Ok CommandStatusAcked
    else Err [ErrInvalidCommandTransition]
  else if String.eqb current CommandStatusPublished then
    if String.eqb event CommandEventDelivered then Ok CommandStatusSent
    else if String.eqb event CommandEventAcked then Ok CommandStatusAcked
    else if String.eqb event CommandEventFailed then Ok CommandStatusFailed
    else Err [ErrInvalidCommandTransition]
  else if String.eqb current CommandStatusSent then
    if String.eqb event CommandEventAcked then Ok CommandStatusAcked
    else if String.eqb event CommandEventFailed then Ok CommandStatusFailed
    else if String.eqb event CommandEventTimeout then Ok CommandStatusTimeout
    else Err [ErrInvalidCommandTransition]
  else Err [ErrInvalidCommandTransition].

(** ** The abstract lifecycle *)
Inductive Status := Created | Published | Sent | Acked | Failed | TimedOut.

#[export] Instance Status_eq_dec : EqDecision Status.
Proof. solve_decision. Defined.

Definition status_string (s : Status) : string :=
  match s with
  | Created => CommandStatusCreated
  | Published => CommandStatusPublished
  | Sent => CommandStatusSent
  | Acked => CommandStatusAcked
  | Failed => CommandStatusFailed
  | TimedOut => CommandStatusTimeout
  end.

Definition status_of_string (s : string) : option Status :=
  if String.eqb s CommandStatusCreated then Some Created
  else if String.eqb s CommandStatusPublished then Some Published
  else if String.eqb s CommandStatusSent then Some Sent
  else if String.eqb s CommandStatusAcked then Some Acked
  else if String.eqb s CommandStatusFailed then Some Failed
  else if String.eqb s CommandStatusTimeout then Some TimedOut
  else None.

Definition terminal (s : Status) : bool :=
  match s with Acked | Failed | TimedOut => true | _ => false end.

(** One edge of the platform's lifecycle, labelled with the audit event the
    store appends to command_events. *)
Inductive edge : Status -> string -> Status -> Prop :=
| edge_published : edge Created "published" Published
| edge_delivered s : s = Created \/ s = Published -> edge s "delivered" Sent
| edge_requeued : edge Published "requeued" Created
| edge_acked s : terminal s = false -> edge s "acked" Acked
| edge_failed s : terminal s = false -> edge s "failed" Failed
| edge_timeout : edge Sent "timeout" TimedOut.

Create HintDb lifecycle.
#[export] Hint Constructors edge : lifecycle.

(** Splits on the string comparisons of the goal and the hypotheses. *)
Ltac eqb_cases :=
  repeat match goal with
  | H : context [String.eqb ?a ?b] |- _ =>
      is_var a; destruct (String.eqb_spec a b); [subst a|]; simpl in H
  | |- context [String.eqb ?a ?b] =>
      is_var a; destruct (String.eqb_spec a b); [subst a|]; simpl
  end.

Lemma status_string_of s st : status_of_string s = Some st <-> s = status_string st.
Proof.
  split.
  - unfold status_of_string. intros H. eqb_cases; congruence || (by injection H as <-).
  - intros ->. by destruct st.
Qed.

Lemma status_string_inj s1 s2 : status_string s1 = status_string s2 -> s1 = s2.
Proof. by destruct s1, s2. Qed.

(** The events [AdvanceCommandStatus] accepts in a status. *)
Inductive transition : Status -> string -> Status -> Prop :=
| tr_created_failed : transition Created "failed" Failed
| tr_created_published : transition Created "published" Published
| tr_created_acked : transition Created "acked" Acked
| tr_published_delivered : transition Published "delivered" Sent
| tr_published_acked : transition Published "acked" Acked
| tr_published_failed : transition Published "failed" Failed
| tr_sent_acked : transition Sent "acked" Acked
| tr_sent_failed : transition Sent "failed" Failed
| tr_sent_timeout : transition Sent "timeout" TimedOut.
#[export] Hint Constructors transition : lifecycle.

Lemma advance_complete c e n : transition c e n -> AdvanceCommandStatus (status_string c) e = Ok (status_string n).
Proof. by destruct 1. Qed.

Lemma advance_sound current event next :
  AdvanceCommandStatus current event = Ok next ->
  exists c n, current = status_string c /\ next = status_string n /\ transition c event n.
Proof.
  unfold AdvanceCommandStatus. intros H.
  eqb_cases; simplify_eq;
    first [ exists Created; eexists; split_and!; [done | | constructor]; done
          | exists Published; eexists; split_and!; [done | | constructor]; done
          | exists Sent; eexists; split_and!; [done | | constructor]; done ].
Qed.

(** [AdvanceCommandStatus] is exactly the nine-edge machine: over all
    strings it accepts a pair of status and event if and only if the transition
    table has it, and the table only has edges of the platform lifecycle. *)
Theorem advance_command_status_spec current event next :
  AdvanceCommandStatus current event = Ok next <->
  exists c n, current = status_string c /\ next = status_string n
    /\ transition c event n /\ edge c event n.
Proof.
  split.
  - intros (c & n & -> & -> & H)%advance_sound. exists c, n. split_and!; try done.
    destruct H; auto with lifecycle.
  - intros (c & n & -> & -> & H & _). by apply advance_complete.
Qed.

Lemma advance_terminal s e : terminal s = true -> AdvanceCommandStatus (status_string s) e = Err [ErrInvalidCommandTransition].
Proof. by destruct s. Qed.

(** ** Runs *)
Fixpoint advance_run (current : string) (events : list string) : result string :=
  match events with
  | [] => Ok current
  | e :: es => next ← AdvanceCommandStatus current e; advance_run next es
  end.

(** The distance to the end of the lifecycle. *)
Definition rank (s : Status) : nat :=
  match s with Created => 3 | Published => 2 | Sent => 1 | _ => 0 end.

Lemma transition_rank c e n : transition c e n -> rank n < rank c.
Proof. destruct 1; simpl; lia. Qed.

(** The event machine has no cycle: every event sequence accepted from a
    status is no longer than the status's distance to the end of the lifecycle,
    so a command is driven to a terminal status by at most three events. *)
Theorem advance_run_bounded s events final :
  advance_run (status_string s) events = Ok final -> length events <= rank s.
Proof.
  revert s. induction events as [|e es IH]; intros s; simpl; [lia|].
  intros (next & Hadv & Hrun)%result_bind_ok.
  apply advance_sound in Hadv as (c & n & Hc & -> & Htr).
  apply status_string_inj in Hc as ->. apply IH in Hrun. apply transition_rank in Htr. lia.
Qed.

Lemma advance_run_bounded_witness :
  advance_run (status_string Created) ["published"; "delivered"; "acked"] = Ok CommandStatusAcked
  /\ length ["published"; "delivered"; "acked"] <= rank Created.
Proof. split; [reflexivity | eapply (advance_run_bounded Created); reflexivity]. Defined.
