(* ===== verification/GoJson.v ===== *)
(** * The part of Go's [encoding/json] the platform's validators use

    [json_parse] reads one JSON value surrounded by white space, as [json.Valid]
    and [json.Decoder] accept it; [json_tokens] is the token stream
    [Decoder.Token] delivers for it under [UseNumber] (a number keeps its
    literal).  The nesting limit is the standard library's 10000. *)
From stdpp Require Import prelude strings.
From Stdlib Require Import ZArith Lia Ascii.
From S2P Require Import Prelude GoStrings.

Local Open Scope Z_scope.

Definition dquote : ascii := "034"%char.
Definition backslash : ascii := "092"%char.

Set Warnings "-register-all".
Inductive json :=
| JNull
| JBool (b : bool)
| JNum (lit : string)
| JStr (s : string)
| JArr (elems : list json)
| JObj (members : list (string * json)).

Inductive token :=
| TDelim (c : ascii)
| TString (s : string)
| TNumber (lit : string)
| TBool (b : bool)
| TNull.

(** ** Encoding a rune *)
Definition chr (z : Z) : ascii := Ascii.ascii_of_N (Z.to_N z).

Definition encode_rune (r : Z) (tail : string) : string :=
  if (r <? 0) || (1114111 <? r) || ((55296 <=? r) && (r <=? 57343)) then
    String (chr 239) (String (chr 191) (String (chr 189) tail))
  else if r <? 128 then String (chr r) tail
  else if r <? 2048 then
    String (chr (192 + Z.shiftr r 6)) (String (chr (128 + Z.land r 63)) tail)
  else if r <? 65536 then
    String (chr (224 + Z.shiftr r 12))
      (String (chr (128 + Z.land (Z.shiftr r 6) 63)) (String (chr (128 + Z.land r 63)) tail))
  else
    String (chr (240 + Z.shiftr r 18))
      (String (chr (128 + Z.land (Z.shiftr r 12) 63))
        (String (chr (128 + Z.land (Z.shiftr r 6) 63)) (String (chr (128 + Z.land r 63)) tail))).

Definition string_of_runes (rs : list Z) : string := foldr encode_rune EmptyString rs.

(** Decoding a JSON string replaces ill-formed UTF-8 by U+FFFD. *)
Definition to_valid_utf8 (s : string) : string := string_of_runes (range_runes s).

(** ** Lexical elements *)
Definition is_ws (c : ascii) : bool :=
  Ascii.eqb c " " || Ascii.eqb c "009" || Ascii.eqb c "010" || Ascii.eqb c "013".

Fixpoint skip_ws (s : string) : string :=
  match s with
  | String c r => if is_ws c then skip_ws r else s
  | EmptyString => s
  end.

Definition hex_val (c : ascii) : option Z :=
  let b := bval c in
  if (48 <=? b) && (b <=? 57) then Some (b - 48)
  else if (97 <=? b) && (b <=? 102) then Some (b - 87)
  else if (65 <=? b) && (b <=? 70) then Some (b - 55)
  else None.

Definition hex4 (a b c d : ascii) : option Z :=
  x ← hex_val a; y ← hex_val b; z ← hex_val c; w ← hex_val d;
  Some (4096 * x + 256 * y + 16 * z + w).

Definition is_high (u : Z) : bool := (55296 <=? u) && (u <=? 56319).
Definition is_low (u : Z) : bool := (56320 <=? u) && (u <=? 57343).

Definition simple_escape (c : ascii) : option ascii :=
  if Ascii.eqb c dquote || Ascii.eqb c backslash || Ascii.eqb c "/" then Some c
  else if Ascii.eqb c "b" then Some "008"%char
  else if Ascii.eqb c "f" then Some "012"%char
  else if Ascii.eqb c "n" then Some "010"%char
  else if Ascii.eqb c "r" then Some "013"%char
  else if Ascii.eqb c "t" then Some "009"%char
  else None.

(** The rest of a string literal after its opening quote: the decoded text and
    the input after the closing quote.  An unpaired surrogate escape decodes to
    U+FFFD, which is why the JSONB check looks at the raw text. *)
Fixpoint scan_string (s : string) : option (string * string) :=
  match s with
  | EmptyString => None
  | String c r =>
    if Ascii.eqb c dquote then Some (EmptyString, r)
    else if Ascii.eqb c backslash then
      match r with
      | String e r1 =>
        if Ascii.eqb e "u" then
          match r1 with
          | String h1 (String h2 (String h3 (String h4 r5))) =>
            match hex4 h1 h2 h3 h4 with
            | None => None
            | Some u =>
              let single := '(t, rest) ← scan_string r5; Some (encode_rune u t, rest) in
              match r5 with
              | String b1 (String b2 (String l1 (String l2 (String l3 (String l4 r6))))) =>
                match hex4 l1 l2 l3 l4 with
                | Some v =>
                  if is_high u && Ascii.eqb b1 backslash && Ascii.eqb b2 "u" && is_low v then
                    '(t, rest) ← scan_string r6;
                    Some (encode_rune (65536 + 1024 * (u - 55296) + (v - 56320)) t, rest)
                  else single
                | None => single
                end
              | _ => single
              end
            end
          | _ => None
          end
        else
          match simple_escape e with
          | Some d => '(t, rest) ← scan_string r1; Some (String d t, rest)
          | None => None
          end
      | EmptyString => None
      end
    else if bval c <? 32 then None
    else '(t, rest) ← scan_string r; Some (String c t, rest)
  end.

Definition is_digit (c : ascii) : bool := (48 <=? bval c) && (bval c <=? 57).

Fixpoint take_digits (s : string) : string * string :=
  match s with
  | String c r =>
    if is_digit c then let '(d, rest) := take_digits r in (String c d, rest)
    else (EmptyString, s)
  | EmptyString => (EmptyString, s)
  end.

Definition scan_fraction (s : string) : option (string * string) :=
  match s with
  | String c r =>
    if Ascii.eqb c "." then
      match take_digits r with
      | (EmptyString, _) => None
      | (d, rest) => Some (String c d, rest)
      end
    else Some (EmptyString, s)
  | EmptyString => Some (EmptyString, s)
  end.

Definition scan_exponent (s : string) : option (string * string) :=
  match s with
  | String c r =>
    if Ascii.eqb c "e" || Ascii.eqb c "E" then
      let '(sign, r1) :=
        match r with
        | String g r' => if Ascii.eqb g "+" || Ascii.eqb g "-" then (String g EmptyString, r')
                         else (EmptyString, r)
        | EmptyString => (EmptyString, r)
        end in
      match take_digits r1 with
      | (EmptyString, _) => None
      | (d, rest) => Some (String c (sign +:+ d), rest)
      end
    else Some (EmptyString, s)
  | EmptyString => Some (EmptyString, s)
  end.

(** A number literal: a sign, an integer part with no leading zero, a fraction
    and an exponent. *)
Definition scan_number (s : string) : option (string * string) :=
  let '(neg, s1) :=
    match s with
    | String c r => if Ascii.eqb c "-" then (String c EmptyString, r) else (EmptyString, s)
    | EmptyString => (EmptyString, s)
    end in
  match s1 with
  | String c r =>
    if is_digit c then
      let '(int, s2) := if Ascii.eqb c "0" then (String c EmptyString, r) else take_digits s1 in
      '(frac, s3) ← scan_fraction s2;
      '(exp, s4) ← scan_exponent s3;
      Some (neg +:+ int +:+ frac +:+ exp, s4)
    else None
  | EmptyString => None
  end.

(** ** Values *)
Definition maxNestingDepth : Z := 10000.

Definition scan_scalar (s : string) : option (json * string) :=
  match cut_prefix "true" s, cut_prefix "false" s, cut_prefix "null" s with
  | Some r, _, _ => Some (JBool true, r)
  | _, Some r, _ => Some (JBool false, r)
  | _, _, Some r => Some (JNull, r)
  | _, _, _ => '(lit, r) ← scan_number s; Some (JNum lit, r)
  end.

Fixpoint scan_value (fuel : nat) (depth : Z) (s : string) : option (json * string) :=
  match fuel with
  | O => None
  | S f =>
    match skip_ws s with
    | EmptyString => None
    | String c r =>
      if Ascii.eqb c "{" then
        if maxNestingDepth <=? depth then None
        else match skip_ws r with
             | String d r' =>
               if Ascii.eqb d "}" then Some (JObj [], r')
               else '(ms, rest) ← scan_members f (depth + 1) r; Some (JObj ms, rest)
             | EmptyString => None
             end
      else if Ascii.eqb c "[" then
        if maxNestingDepth <=? depth then None
        else match skip_ws r with
             | String d r' =>
               if Ascii.eqb d "]" then Some (JArr [], r')
               else '(es, rest) ← scan_elems f (depth + 1) r; Some (JArr es, rest)
             | EmptyString => None
             end
      else if Ascii.eqb c dquote then '(t, rest) ← scan_string r; Some (JStr (to_valid_utf8 t), rest)
      else scan_scalar (String c r)
    end
  end
with scan_elems (fuel : nat) (depth : Z) (s : string) : option (list json * string) :=
  match fuel with
  | O => None
  | S f =>
    '(v, r) ← scan_value f depth s;
    match skip_ws r with
    | String c r' =>
      if Ascii.eqb c "," then '(vs, rest) ← scan_elems f depth r'; Some (v :: vs, rest)
      else if Ascii.eqb c "]" then Some ([v], r')
      else None
    | EmptyString => None
    end
  end
with scan_members (fuel : nat) (depth : Z) (s : string) : option (list (string * json) * string) :=
  match fuel with
  | O => None
  | S f =>
    match skip_ws s with
    | String q r0 =>
      if negb (Ascii.eqb q dquote) then None
      else
        '(k, r1) ← scan_string r0;
        match skip_ws r1 with
        | String c r2 =>
          if negb (Ascii.eqb c ":") then None
          else
            '(v, r3) ← scan_value f depth r2;
            match skip_ws r3 with
            | String d r4 =>
              if Ascii.eqb d "," then
                '(ms, rest) ← scan_members f depth r4; Some ((to_valid_utf8 k, v) :: ms, rest)
              else if Ascii.eqb d "}" then Some ([(to_valid_utf8 k, v)], r4)
              else None
            | EmptyString => None
            end
        | EmptyString => None
        end
    | EmptyString => None
    end
  end.

(** Two calls are made per byte at most ([scan_elems] hands its input to
    [scan_value] unchanged), so this fuel never runs out. *)
Definition json_fuel (s : string) : nat := (2 * String.length s + 2)%nat.

Definition json_parse (s : string) : option json :=
  match scan_value (json_fuel s) 0 s with
  | Some (v, rest) => match skip_ws rest with EmptyString => Some v | _ => None end
  | None => None
  end.

(** [json.Valid] *)
Definition json_valid (s : string) : bool :=
  match json_parse s with Some _ => true | None => false end.

Fixpoint tokens_of (v : json) : list token :=
  match v with
  | JNull => [TNull]
  | JBool b => [TBool b]
  | JNum lit => [TNumber lit]
  | JStr s => [TString s]
  | JArr es => TDelim "[" :: concat (map tokens_of es) ++ [TDelim "]"]
  | JObj ms => TDelim "{" :: concat (map (fun kv => TString kv.1 :: tokens_of kv.2) ms) ++ [TDelim "}"]
  end.

(** ** [json.Marshal] of a string: the number of bytes it writes

    HTML characters and U+2028/U+2029 are escaped, as the default encoder does. *)
Definition marshal_rune_len (rw : Z * nat) : Z :=
  let '(r, w) := rw in
  if (r =? RuneError) && (w =? 1)%nat then 6
  else if (r =? 34) || (r =? 92) || (r =? 8) || (r =? 9) || (r =? 10) || (r =? 12) || (r =? 13) then 2
  else if (r <? 32) || (r =? 60) || (r =? 62) || (r =? 38) || (r =? 8232) || (r =? 8233) then 6
  else Z.of_nat w.

Definition marshal_string_len (s : string) : Z :=
  2 + foldr (fun rw acc => marshal_rune_len rw + acc) 0 (decode_runes s).

(** A JSON text written with single quotes, for the examples. *)
Fixpoint jtext (s : string) : string :=
  match s with
  | EmptyString => EmptyString
  | String c r => String (if Ascii.eqb c "'" then dquote else c) (jtext r)
  end.

(** ** The fuel is enough *)
Definition shorter (r s : string) : Prop := (String.length r < String.length s)%nat.

Lemma skip_ws_le s : (String.length (skip_ws s) <= String.length s)%nat.
Proof. induction s as [|c s IH]; simpl; [lia|]. case_match; simpl; lia. Qed.

Lemma skip_ws_cons s c r : skip_ws s = String c r -> shorter r s.
Proof. intros H. pose proof (skip_ws_le s). rewrite H in *. unfold shorter. simpl in *. lia. Qed.

Lemma str_len_ind (P : string -> Prop) :
  (forall s, (forall r, shorter r s -> P r) -> P s) -> forall s, P s.
Proof.
  intros IH s. remember (String.length s) as n eqn:E. revert s E.
  induction (lt_wf n) as [n _ IHn]. intros s ->. apply IH. intros r Hr. by eapply IHn.
Qed.

(** Takes apart the option binds and the tests of a scanner's result. *)
Ltac scan_inv :=
  repeat match goal with
  | H : Some _ = Some _ |- _ => injection H as ?; subst
  | H : None = Some _ |- _ => discriminate H
  | H : (_ ≫= _) = Some _ |- _ => apply bind_Some in H as ([? ?] & ? & H)
  | H : (if ?b then _ else _) = Some _ |- _ => destruct b eqn:?
  | H : (match ?x with _ => _ end) = Some _ |- _ => destruct x eqn:?
  end.

Lemma scan_string_shorter s t r : scan_string s = Some (t, r) -> shorter r s.
Proof.
  revert t r. induction s as [s IH] using str_len_ind. intros t r H.
  destruct s as [|c s]; [done|]. unfold shorter in *. simpl in H.
  scan_inv; cbn [String.length] in *; try lia;
    match goal with
    | E : scan_string ?x = Some (_, ?y) |- _ =>
        assert (String.length y < String.length x)%nat
          by (eapply (IH x); [cbn [String.length]; lia | exact E]);
        cbn [String.length] in *; lia
    end.
Qed.

Lemma take_digits_le s : (String.length (take_digits s).2 <= String.length s)%nat.
Proof.
  induction s as [|c s IH]; simpl; [lia|]. case_match; [|simpl; lia].
  destruct (take_digits s); simpl in *; lia.
Qed.

Lemma take_digits_eq_le s d r : take_digits s = (d, r) -> (String.length r <= String.length s)%nat.
Proof. intros H. pose proof (take_digits_le s). by rewrite H in *. Qed.

Lemma scan_fraction_le s t r : scan_fraction s = Some (t, r) -> (String.length r <= String.length s)%nat.
Proof.
  unfold scan_fraction. intros H. scan_inv; simpl; try lia;
    match goal with E : take_digits _ = _ |- _ => apply take_digits_eq_le in E; simpl in *; lia end.
Qed.

Lemma scan_exponent_le s t r : scan_exponent s = Some (t, r) -> (String.length r <= String.length s)%nat.
Proof.
  unfold scan_exponent. intros H. scan_inv; simpl; try lia.
  match goal with E : take_digits _ = _ |- _ => apply take_digits_eq_le in E end.
  repeat case_match; simplify_eq; simpl in *; lia.
Qed.

Lemma scan_number_shorter s t r : scan_number s = Some (t, r) -> shorter r s.
Proof.
  unfold scan_number, shorter. intros H.
  destruct (match s with String c r => if Ascii.eqb c "-" then (String c "", r) else ("", s) | "" => ("", s) end)
    as [neg s1] eqn:E1.
  assert (String.length s1 <= String.length s)%nat by (repeat case_match; simplify_eq; simpl; lia).
  destruct s1 as [|c s1]; [done|]. destruct (is_digit c) eqn:Hd; [|done].
  destruct (if Ascii.eqb c "0" then (String c "", s1) else take_digits (String c s1)) as [int s2] eqn:E2.
  assert (String.length s2 < String.length (String c s1))%nat.
  { destruct (Ascii.eqb c "0"); [simplify_eq; simpl; lia|]. simpl in E2. rewrite Hd in E2.
    destruct (take_digits s1) as [d r'] eqn:E3. apply take_digits_eq_le in E3. simplify_eq. simpl. lia. }
  scan_inv.
  repeat match goal with
  | E : scan_fraction _ = _ |- _ => apply scan_fraction_le in E
  | E : scan_exponent _ = _ |- _ => apply scan_exponent_le in E
  end. simpl in *. lia.
Qed.

Lemma scan_scalar_shorter s v r : scan_scalar s = Some (v, r) -> shorter r s.
Proof.
  unfold scan_scalar, shorter. intros H.
  scan_inv;
    repeat match goal with
    | E : cut_prefix _ _ = Some _ |- _ => apply cut_prefix_Some in E; subst
    | E : scan_number _ = Some _ |- _ => apply scan_number_shorter in E; unfold shorter in E
    end; rewrite ?str_app_length; simpl in *; lia.
Qed.

(** Each scanner of the mutual group consumes input. *)
Lemma scan_value_group_shorter f :
  (forall d s v r, scan_value f d s = Some (v, r) -> shorter r s)
  /\ (forall d s v r, scan_elems f d s = Some (v, r) -> shorter r s)
  /\ (forall d s v r, scan_members f d s = Some (v, r) -> shorter r s).
Proof.
  induction f as [|f (IHv & IHe & IHm)]; [done|].
  unfold shorter in *. split_and!; intros d s v r H; simpl in H; scan_inv;
    repeat match goal with
    | E : skip_ws ?x = String _ _ |- _ => apply skip_ws_cons in E; unfold shorter in E
    | E : scan_value f _ _ = Some _ |- _ => apply IHv in E
    | E : scan_elems f _ _ = Some _ |- _ => apply IHe in E
    | E : scan_members f _ _ = Some _ |- _ => apply IHm in E
    | E : scan_string _ = Some _ |- _ => apply scan_string_shorter in E; unfold shorter in E
    | E : scan_scalar _ = Some _ |- _ => apply scan_scalar_shorter in E; unfold shorter in E
    end; simpl in *; lia.
Qed.

(** The scanners do not depend on the fuel once there is enough of it. *)
Lemma scan_fuel_enough f g :
  (forall d s, (2 * String.length s + 2 <= f)%nat -> (2 * String.length s + 2 <= g)%nat ->
     scan_value f d s = scan_value g d s)
  /\ (forall d s, (2 * String.length s + 3 <= f)%nat -> (2 * String.length s + 3 <= g)%nat ->
     scan_elems f d s = scan_elems g d s)
  /\ (forall d s, (2 * String.length s + 3 <= f)%nat -> (2 * String.length s + 3 <= g)%nat ->
     scan_members f d s = scan_members g d s).
Proof.
  revert g. induction f as [|f IH]; intros g; [split_and!; intros; lia|].
  destruct g as [|g]; [split_and!; intros; lia|].
  destruct (IH g) as (IHv & IHe & IHm). split_and!; intros d s Hf Hg; simpl.
  - destruct (skip_ws s) as [|c r] eqn:E; [done|]. apply skip_ws_cons in E. unfold shorter in E.
    rewrite (IHe (d + 1) r), (IHm (d + 1) r) by lia. done.
  - rewrite (IHv d s) by lia. destruct (scan_value g d s) as [[v r]|] eqn:E; [simpl|done].
    apply scan_value_group_shorter in E. unfold shorter in E.
    destruct (skip_ws r) as [|c r'] eqn:E'; [done|]. apply skip_ws_cons in E'. unfold shorter in E'.
    by rewrite (IHe d r') by lia.
  - destruct (skip_ws s) as [|q r0] eqn:E; [done|]. apply skip_ws_cons in E. unfold shorter in E.
    case_match; [done|]. destruct (scan_string r0) as [[k r1]|] eqn:E1; [simpl|done].
    apply scan_string_shorter in E1. unfold shorter in E1.
    destruct (skip_ws r1) as [|c r2] eqn:E2; [done|]. apply skip_ws_cons in E2. unfold shorter in E2.
    case_match; [done|]. rewrite (IHv d r2) by lia.
    destruct (scan_value g d r2) as [[v r3]|] eqn:E3; [simpl|done].
    apply scan_value_group_shorter in E3. unfold shorter in E3.
    destruct (skip_ws r3) as [|c' r4] eqn:E4; [done|]. apply skip_ws_cons in E4. unfold shorter in E4.
    by rewrite (IHm d r4) by lia.
Qed.

Lemma json_fuel_enough s f d : (json_fuel s <= f)%nat -> scan_value f d s = scan_value (json_fuel s) d s.
Proof. intros. apply scan_fuel_enough; unfold json_fuel in *; lia. Qed.
