(* ===== verification/Base64.v ===== *)
(** * encoding/base64, as dead letters and cursors use it *)
From stdpp Require Import prelude strings.
From Stdlib Require Import ZArith Lia Ascii.
From S2P Require Import Prelude GoStrings GoJson.

Local Open Scope Z_scope.

(** The two alphabets in use: [StdEncoding], padded, and [RawURLEncoding]. *)
Inductive Encoding := StdEncoding | RawURLEncoding.

Definition b64_char (enc : Encoding) (n : Z) : ascii :=
  if n <? 26 then chr (65 + n)
  else if n <? 52 then chr (71 + n)
  else if n <? 62 then chr (n - 4)
  else match enc with
       | StdEncoding => if n =? 62 then "+"%char else "/"%char
       | RawURLEncoding => if n =? 62 then "-"%char else "_"%char
       end.

Definition b64_value (enc : Encoding) (c : ascii) : option Z :=
  let b := bval c in
  if (65 <=? b) && (b <=? 90) then Some (b - 65)
  else if (97 <=? b) && (b <=? 122) then Some (b - 71)
  else if (48 <=? b) && (b <=? 57) then Some (b + 4)
  else match enc with
       | StdEncoding => if Ascii.eqb c "+" then Some 62 else if Ascii.eqb c "/" then Some 63 else None
       | RawURLEncoding => if Ascii.eqb c "-" then Some 62 else if Ascii.eqb c "_" then Some 63 else None
       end.

Definition pad (enc : Encoding) (n : nat) : string :=
  match enc with StdEncoding => str_take n "==" | RawURLEncoding => "" end.

Fixpoint EncodeToString (enc : Encoding) (s : string) : string :=
  match s with
  | EmptyString => ""
  | String a EmptyString =>
    let a := bval a in
    String (b64_char enc (a / 4)) (String (b64_char enc (a mod 4 * 16)) (pad enc 2))
  | String a (String b EmptyString) =>
    let a := bval a in let b := bval b in
    String (b64_char enc (a / 4)) (String (b64_char enc (a mod 4 * 16 + b / 16))
      (String (b64_char enc (b mod 16 * 4)) (pad enc 1)))
  | String a (String b (String c r)) =>
    let a := bval a in let b := bval b in let c := bval c in
    String (b64_char enc (a / 4)) (String (b64_char enc (a mod 4 * 16 + b / 16))
      (String (b64_char enc (b mod 16 * 4 + c / 64)) (String (b64_char enc (c mod 64)) (EncodeToString enc r))))
  end.

(** The decoder skips line breaks. *)
Fixpoint skip_breaks (s : string) : string :=
  match s with
  | EmptyString => ""
  | String c r => if (bval c =? 10) || (bval c =? 13) then skip_breaks r else String c (skip_breaks r)
  end.

Definition byte1 (x y : Z) : ascii := chr (x * 4 + y / 16).
Definition byte2 (y z : Z) : ascii := chr (y mod 16 * 16 + z / 4).
Definition byte3 (z t : Z) : ascii := chr (z mod 4 * 64 + t).

(** One quantum of four characters at a time; the last may be short, or padded
    where the encoding pads. *)
Fixpoint decode_quanta (enc : Encoding) (s : string) : option string :=
  match s with
  | EmptyString => Some ""
  | String c1 (String c2 (String c3 (String c4 r))) =>
    x ← b64_value enc c1; y ← b64_value enc c2;
    match b64_value enc c3 with
    | Some z =>
      match b64_value enc c4 with
      | Some t => tail ← decode_quanta enc r; Some (String (byte1 x y) (String (byte2 y z) (String (byte3 z t) tail)))
      | None => if (match enc with StdEncoding => true | _ => false end) && Ascii.eqb c4 "=" && String.eqb r ""
                then Some (String (byte1 x y) (String (byte2 y z) "")) else None
      end
    | None => if (match enc with StdEncoding => true | _ => false end) && Ascii.eqb c3 "=" && Ascii.eqb c4 "=" && String.eqb r ""
              then Some (String (byte1 x y) "") else None
    end
  | String c1 (String c2 EmptyString) =>
    match enc with
    | StdEncoding => None
    | RawURLEncoding => x ← b64_value enc c1; y ← b64_value enc c2; Some (String (byte1 x y) "")
    end
  | String c1 (String c2 (String c3 EmptyString)) =>
    match enc with
    | StdEncoding => None
    | RawURLEncoding =>
      x ← b64_value enc c1; y ← b64_value enc c2; z ← b64_value enc c3;
      Some (String (byte1 x y) (String (byte2 y z) ""))
    end
  | String _ EmptyString => None
  end.

Definition DecodeString (enc : Encoding) (s : string) : option string := decode_quanta enc (skip_breaks s).

(** ** Round trip *)

(** Linear arithmetic with division by constants. *)
Ltac dlia := Z.to_euclidean_division_equations; lia.

Lemma bval_range c : 0 <= bval c < 256.
Proof. unfold bval. pose proof (N_ascii_bounded c). lia. Qed.

Lemma bval_chr z : 0 <= z < 256 -> bval (chr z) = z.
Proof. intros Hz. unfold bval, chr. rewrite N_ascii_embedding by lia. lia. Qed.

Lemma chr_bval c : chr (bval c) = c.
Proof. unfold chr, bval. rewrite N2Z.id. apply ascii_N_embedding. Qed.

(** A character of the alphabet: its value, and that it is no line break. *)
Lemma b64_char_spec enc n :
  0 <= n < 64 ->
  b64_value enc (b64_char enc n) = Some n /\ (bval (b64_char enc n) =? 10) || (bval (b64_char enc n) =? 13) = false.
Proof.
  intros Hn. assert (Hall : forallb (fun k =>
    match b64_value enc (b64_char enc (Z.of_nat k)) with Some v => v =? Z.of_nat k | None => false end
    && negb ((bval (b64_char enc (Z.of_nat k)) =? 10) || (bval (b64_char enc (Z.of_nat k)) =? 13))) (seq 0 64) = true)
    by (destruct enc; vm_compute; reflexivity).
  rewrite forallb_forall in Hall. specialize (Hall (Z.to_nat n)).
  rewrite Z2Nat.id in Hall by lia. assert (In (Z.to_nat n) (seq 0 64)) as Hin%Hall by (apply in_seq; lia).
  apply andb_true_iff in Hin as [Hv Hb%negb_true_iff].
  destruct (b64_value enc (b64_char enc n)); [|done]. apply Z.eqb_eq in Hv as ->. done.
Qed.

Lemma skip_breaks_char enc n r : 0 <= n < 64 -> skip_breaks (String (b64_char enc n) r) = String (b64_char enc n) (skip_breaks r).
Proof. intros Hn. simpl. by destruct (b64_char_spec enc n Hn) as [_ ->]. Qed.

Lemma byte1_enc a v : 0 <= a < 256 -> 0 <= v < 16 -> byte1 (a / 4) (a mod 4 * 16 + v) = chr a.
Proof. intros. unfold byte1. f_equal. dlia. Qed.
Lemma byte2_enc u b v : 0 <= b < 256 -> 0 <= u < 4 -> 0 <= v < 4 -> byte2 (u * 16 + b / 16) (b mod 16 * 4 + v) = chr b.
Proof. intros. unfold byte2. f_equal. dlia. Qed.
Lemma byte3_enc u c : 0 <= c < 256 -> 0 <= u < 16 -> byte3 (u * 4 + c / 64) (c mod 64) = chr c.
Proof. intros. unfold byte3. f_equal. dlia. Qed.

(** Induction three bytes at a time. *)
Lemma triple_ind (P : string -> Prop) :
  P "" -> (forall a, P (String a "")) -> (forall a b, P (String a (String b ""))) ->
  (forall a b c r, P r -> P (String a (String b (String c r)))) -> forall s, P s.
Proof. intros H0 H1 H2 H3. fix IH 1. intros [|a [|b [|c r]]]; [exact H0|apply H1|apply H2|apply H3, IH]. Qed.

Lemma base64_roundtrip enc s : DecodeString enc (EncodeToString enc s) = Some s.
Proof.
  unfold DecodeString. induction s as [|a|a b|a b c r IH] using triple_ind; [done| | |].
  - pose proof (bval_range a). cbn [EncodeToString]. rewrite !skip_breaks_char by dlia.
    pose proof (b64_char_spec enc (bval a / 4) ltac:(dlia)) as [E1 _].
    pose proof (b64_char_spec enc (bval a mod 4 * 16) ltac:(dlia)) as [E2 _].
    pose proof (byte1_enc (bval a) 0 ltac:(dlia) ltac:(dlia)) as B1. rewrite Z.add_0_r in B1.
    destruct enc; simpl; rewrite E1; simpl; rewrite E2; simpl; by rewrite B1, chr_bval.
  - pose proof (bval_range a). pose proof (bval_range b). cbn [EncodeToString]. rewrite !skip_breaks_char by dlia.
    pose proof (b64_char_spec enc (bval a / 4) ltac:(dlia)) as [E1 _].
    pose proof (b64_char_spec enc (bval a mod 4 * 16 + bval b / 16) ltac:(dlia)) as [E2 _].
    pose proof (b64_char_spec enc (bval b mod 16 * 4) ltac:(dlia)) as [E3 _].
    pose proof (byte2_enc (bval a mod 4) (bval b) 0 ltac:(dlia) ltac:(dlia) ltac:(dlia)) as B2. rewrite Z.add_0_r in B2.
    destruct enc; simpl; rewrite E1; simpl; rewrite E2; simpl; rewrite E3; simpl;
      by rewrite byte1_enc, B2, !chr_bval by dlia.
  - pose proof (bval_range a). pose proof (bval_range b). pose proof (bval_range c).
    cbn [EncodeToString]. rewrite !skip_breaks_char by dlia.
    pose proof (b64_char_spec enc (bval a / 4) ltac:(dlia)) as [E1 _].
    pose proof (b64_char_spec enc (bval a mod 4 * 16 + bval b / 16) ltac:(dlia)) as [E2 _].
    pose proof (b64_char_spec enc (bval b mod 16 * 4 + bval c / 64) ltac:(dlia)) as [E3 _].
    pose proof (b64_char_spec enc (bval c mod 64) ltac:(dlia)) as [E4 _].
    cbn [decode_quanta]. rewrite E1. cbn [mbind option_bind]. rewrite E2. cbn [mbind option_bind]. rewrite E3, E4, IH.
    cbn [mbind option_bind]. by rewrite byte1_enc, byte2_enc, byte3_enc, !chr_bval by dlia.
Qed.
