(* ===== verification/Utf8.v ===== *)
(** * UTF-8

    Decoding the bytes of an encoded rune gives the rune back, and the bytes a
    well-formed rune was decoded from are its encoding; so a string is its runes,
    up to the bytes that belong to none. *)
From stdpp Require Import prelude strings.
From Stdlib Require Import ZArith Lia Ascii.
From S2P Require Import Prelude GoStrings GoJson Base64.

Local Open Scope Z_scope.

(** ** Bits as arithmetic *)
Lemma land_low x k : 0 <= k -> Z.land x (Z.ones k) = x mod 2 ^ k.
Proof. intros. by apply Z.land_ones. Qed.

Lemma lor_disjoint a b k : 0 <= k -> 0 <= b < 2 ^ k -> Z.lor (Z.shiftl a k) b = a * 2 ^ k + b.
Proof.
  intros Hk Hb. rewrite <- Z.shiftl_mul_pow2 by done. rewrite <- Z.add_lor_land.
  assert (Z.land (Z.shiftl a k) b = 0) as ->; [|lia].
  apply Z.bits_inj'. intros n Hn. rewrite Z.land_spec, Z.bits_0, Z.shiftl_spec by done.
  destruct (Z.lt_ge_cases n k).
  - rewrite Z.testbit_neg_r by lia. done.
  - destruct (decide (b = 0)) as [->|]; [by rewrite Z.bits_0, andb_false_r|].
    rewrite (Z.bits_above_log2 b n); [by rewrite andb_false_r|lia|]. apply Z.log2_lt_pow2; [lia|].
    apply Z.lt_le_trans with (2 ^ k); [lia|]. apply Z.pow_le_mono_r; lia.
Qed.

Definition scalar (r : Z) : Prop := 0 <= r <= 1114111 /\ ~ (55296 <= r <= 57343).

(** The bytes that make up a rune, as numbers. *)
Lemma land_63 x : Z.land x 63 = x mod 64.
Proof. exact (land_low x 6 ltac:(lia)). Qed.

Ltac bits_value :=
  unfold rune2, rune3, rune4, low6; rewrite !land_63;
  repeat match goal with |- context [?x mod 64] =>
    lazymatch goal with H : 0 <= x mod 64 < 64 |- _ => fail | _ => pose proof (Z.mod_pos_bound x 64 ltac:(lia)) end end.

Lemma rune2_value b0 c1 : rune2 b0 c1 = (b0 mod 32) * 64 + bval c1 mod 64.
Proof.
  bits_value. rewrite (land_low b0 5 ltac:(lia) : Z.land b0 31 = b0 mod 32). by rewrite (lor_disjoint _ _ 6) by (simpl; lia).
Qed.

Lemma rune3_value b0 c1 c2 : rune3 b0 c1 c2 = (b0 mod 16) * 4096 + (bval c1 mod 64) * 64 + bval c2 mod 64.
Proof.
  bits_value. rewrite (land_low b0 4 ltac:(lia) : Z.land b0 15 = b0 mod 16).
  rewrite (lor_disjoint (bval c1 mod 64) _ 6) by (simpl; lia). rewrite (lor_disjoint _ _ 12) by (simpl; lia). simpl. lia.
Qed.

Lemma rune4_value b0 c1 c2 c3 :
  rune4 b0 c1 c2 c3 = (b0 mod 8) * 262144 + (bval c1 mod 64) * 4096 + (bval c2 mod 64) * 64 + bval c3 mod 64.
Proof.
  bits_value. rewrite (land_low b0 3 ltac:(lia) : Z.land b0 7 = b0 mod 8).
  rewrite (lor_disjoint (bval c2 mod 64) _ 6) by (simpl; lia). rewrite (lor_disjoint (bval c1 mod 64) _ 12) by (simpl; lia).
  rewrite (lor_disjoint _ _ 18) by (simpl; lia). simpl. lia.
Qed.

(** ** Encoding, then decoding *)
Definition rune_size (r : Z) : nat :=
  if r <? 128 then 1%nat else if r <? 2048 then 2%nat else if r <? 65536 then 3%nat else 4%nat.

Ltac zdiv := Z.div_mod_to_equations; lia.
(** Decides the comparisons of a goal. *)
Ltac ztests := repeat match goal with
  | |- context [?a <? ?b] => destruct (Z.ltb_spec a b); try zdiv
  | |- context [?a =? ?b] => destruct (Z.eqb_spec a b); try zdiv
  | |- context [?a <=? ?b] => destruct (Z.leb_spec a b); try zdiv
  end.

Lemma seq_size_of c n : seq_size (bval c) = n ->
  match n with 2%nat => 194 <= bval c < 224 | 3%nat => 224 <= bval c < 240 | 4%nat => 240 <= bval c < 245 | _ => True end.
Proof. intros <-. unfold seq_size. by repeat case_match; try lia. Qed.

Lemma seq_size_is b n : match n with 2%nat => 194 <= b < 224 | 3%nat => 224 <= b < 240 | 4%nat => 240 <= b < 245 | _ => False end ->
  seq_size b = n.
Proof. unfold seq_size. destruct n as [|[|[|[|[|n]]]]]; intros Hb; try done; repeat case_match; lia. Qed.

(** What the decoder makes of a sequence of two, three and four bytes. *)
Lemma decode_two c0 c1 s : 194 <= bval c0 < 224 -> is_cont c1 = true ->
  decode_runes (String c0 (String c1 s)) = ((bval c0 mod 32) * 64 + bval c1 mod 64, 2%nat) :: decode_runes s.
Proof.
  intros H0 H1. cbn [decode_runes]. rewrite (seq_size_is _ 2 H0), rune2_value.
  unfold second_ok. rewrite H1. by repeat case_match; try lia.
Qed.

Lemma decode_three c0 c1 c2 s : 224 <= bval c0 < 240 -> second_ok (bval c0) c1 = true -> is_cont c2 = true ->
  decode_runes (String c0 (String c1 (String c2 s)))
  = ((bval c0 mod 16) * 4096 + (bval c1 mod 64) * 64 + bval c2 mod 64, 3%nat) :: decode_runes s.
Proof. intros H0 H1 H2. cbn [decode_runes]. by rewrite (seq_size_is _ 3 H0), H1, H2, rune3_value. Qed.

Lemma decode_four c0 c1 c2 c3 s :
  240 <= bval c0 < 245 -> second_ok (bval c0) c1 = true -> is_cont c2 = true -> is_cont c3 = true ->
  decode_runes (String c0 (String c1 (String c2 (String c3 s))))
  = ((bval c0 mod 8) * 262144 + (bval c1 mod 64) * 4096 + (bval c2 mod 64) * 64 + bval c3 mod 64, 4%nat) :: decode_runes s.
Proof. intros H0 H1 H2 H3. cbn [decode_runes]. by rewrite (seq_size_is _ 4 H0), H1, H2, H3, rune4_value. Qed.

Lemma cont_chr x : 0 <= x < 64 -> is_cont (chr (128 + x)) = true.
Proof. intros Hx. unfold is_cont. rewrite bval_chr by lia. by ztests. Qed.

(** The encoder's branches for a scalar value. *)
Lemma encode_scalar r tail : scalar r ->
  encode_rune r tail =
  if r <? 128 then String (chr r) tail
  else if r <? 2048 then String (chr (192 + r / 64)) (String (chr (128 + r mod 64)) tail)
  else if r <? 65536 then
    String (chr (224 + r / 4096)) (String (chr (128 + r / 64 mod 64)) (String (chr (128 + r mod 64)) tail))
  else
    String (chr (240 + r / 262144)) (String (chr (128 + r / 4096 mod 64)) (String (chr (128 + r / 64 mod 64)) (String (chr (128 + r mod 64)) tail))).
Proof.
  intros [H1 H2]. unfold encode_rune. change 63 with (Z.ones 6). rewrite !land_low, !Z.shiftr_div_pow2 by lia.
  destruct (Z.ltb_spec r 0); [lia|]. destruct (Z.ltb_spec 1114111 r); [lia|].
  destruct (Z.leb_spec 55296 r), (Z.leb_spec r 57343); try lia; done.
Qed.

Lemma decode_encode r tail : scalar r -> decode_runes (encode_rune r tail) = (r, rune_size r) :: decode_runes tail.
Proof.
  intros Hs. rewrite encode_scalar by done. destruct Hs as [H1 H2]. unfold rune_size.
  assert (Hmod : forall x, 0 <= x mod 64 < 64) by (intros; apply Z.mod_pos_bound; lia).
  destruct (Z.ltb_spec r 128); [|destruct (Z.ltb_spec r 2048); [|destruct (Z.ltb_spec r 65536)]].
  - cbn [decode_runes]. unfold seq_size. rewrite bval_chr by lia. by ztests.
  - rewrite decode_two; [|rewrite bval_chr by zdiv; zdiv|by apply cont_chr]. rewrite !bval_chr by zdiv. f_equal. f_equal. zdiv.
  - rewrite decode_three; [|rewrite bval_chr by zdiv; zdiv| |by apply cont_chr].
    + rewrite !bval_chr by zdiv. f_equal. f_equal. zdiv.
    + unfold second_ok. rewrite (cont_chr (r / 64 mod 64)), !bval_chr by (done || zdiv). by ztests.
  - rewrite decode_four; [|rewrite bval_chr by zdiv; zdiv| |by apply cont_chr|by apply cont_chr].
    + rewrite !bval_chr by zdiv. f_equal. f_equal. zdiv.
    + unfold second_ok. rewrite (cont_chr (r / 4096 mod 64)), !bval_chr by (done || zdiv). by ztests.
Qed.

(** ** Decoding, then encoding *)
Lemma cont_range c : is_cont c = true -> 128 <= bval c < 192.
Proof. unfold is_cont. intros [?%Z.leb_le ?%Z.leb_le]%andb_true_iff. lia. Qed.

Lemma second_ok_range b0 c : second_ok b0 c = true ->
  128 <= bval c < 192 /\ (b0 = 224 -> 160 <= bval c) /\ (b0 = 237 -> bval c < 160) /\ (b0 = 240 -> 144 <= bval c) /\ (b0 = 244 -> bval c < 144).
Proof.
  unfold second_ok, is_cont. repeat case_match; rewrite ?Z.eqb_eq, ?Z.eqb_neq in *; intros [?%Z.leb_le ?%Z.leb_le]%andb_true_iff; lia.
Qed.

(** The bytes of a well-formed sequence are the encoding of its value. *)
Lemma chr_eq x c : x = bval c -> chr x = c.
Proof. intros ->. apply chr_bval. Qed.

Ltac encode_bytes r :=
  rewrite encode_scalar by done; destruct (Z.ltb_spec r 128); try lia; destruct (Z.ltb_spec r 2048); try lia;
  destruct (Z.ltb_spec r 65536); try lia;
  repeat first [reflexivity | apply chr_eq; unfold r; zdiv | f_equal].

Lemma encode_two c0 c1 s : 194 <= bval c0 < 224 -> 128 <= bval c1 < 192 ->
  let r := (bval c0 mod 32) * 64 + bval c1 mod 64 in
  scalar r /\ 128 <= r < 2048 /\ encode_rune r s = String c0 (String c1 s).
Proof.
  intros H0 H1 r. assert (Hs : scalar r) by (unfold scalar, r; zdiv). assert (Hr : 128 <= r < 2048) by (unfold r; zdiv).
  split_and!; [done|lia|lia|]. encode_bytes r.
Qed.

Lemma encode_three c0 c1 c2 s : 224 <= bval c0 < 240 -> second_ok (bval c0) c1 = true -> 128 <= bval c2 < 192 ->
  let r := (bval c0 mod 16) * 4096 + (bval c1 mod 64) * 64 + bval c2 mod 64 in
  scalar r /\ 2048 <= r < 65536 /\ encode_rune r s = String c0 (String c1 (String c2 s)).
Proof.
  intros H0 H1%second_ok_range H2 r. assert (Hs : scalar r) by (unfold scalar, r; zdiv).
  assert (Hr : 2048 <= r < 65536) by (unfold r; zdiv). split_and!; [done|lia|lia|]. encode_bytes r.
Qed.

Lemma encode_four c0 c1 c2 c3 s :
  240 <= bval c0 < 245 -> second_ok (bval c0) c1 = true -> 128 <= bval c2 < 192 -> 128 <= bval c3 < 192 ->
  let r := (bval c0 mod 8) * 262144 + (bval c1 mod 64) * 4096 + (bval c2 mod 64) * 64 + bval c3 mod 64 in
  scalar r /\ 65536 <= r /\ encode_rune r s = String c0 (String c1 (String c2 (String c3 s))).
Proof.
  intros H0 H1%second_ok_range H2 H3 r. assert (Hs : scalar r) by (unfold scalar, r; zdiv).
  assert (Hr : 65536 <= r) by (unfold r; zdiv). split_and!; [done|lia|]. encode_bytes r.
Qed.

Lemma rune_size_of r n : match n with 1%nat => r < 128 | 2%nat => 128 <= r < 2048 | 3%nat => 2048 <= r < 65536 | 4%nat => 65536 <= r | _ => False end ->
  rune_size r = n.
Proof. unfold rune_size. destruct n as [|[|[|[|[|n]]]]]; intros Hr; try done; repeat case_match; lia. Qed.

(** The first rune of a string: a byte that belongs to no rune, or a scalar
    value whose encoding the string begins with. *)
Definition first_rune (c : ascii) (s : string) (r : Z) (w : nat) : Prop :=
  (r = RuneError /\ w = 1%nat /\ 128 <= bval c)
  \/ (scalar r /\ encode_rune r (str_drop w (String c s)) = String c s /\ w = rune_size r /\ (r < 128 <-> bval c < 128)).

Lemma decode_first_rune c s r w l : decode_runes (String c s) = (r, w) :: l -> first_rune c s r w.
Proof.
  cbn [decode_runes].
  assert (Hbad : forall x : list (Z * nat), 128 <= bval c -> (RuneError, 1%nat) :: x = (r, w) :: l -> first_rune c s r w)
    by (intros x Hb [= <- <- _]; by left).
  destruct (seq_size (bval c)) as [|[|[|[|[|k]]]]] eqn:Hsz; try (apply Hbad; revert Hsz; unfold seq_size; repeat case_match; lia).
  - intros [= <- <- _]. right. pose proof (bval_range c).
    assert (Hlt : bval c < 128) by (revert Hsz; unfold seq_size; repeat case_match; lia).
    assert (Hs : scalar (bval c)) by (unfold scalar; lia). split_and!; [done| |by rewrite (rune_size_of _ 1)|done].
    rewrite encode_scalar by done. destruct (Z.ltb_spec (bval c) 128); [|lia]. by rewrite chr_bval.
  - apply seq_size_of in Hsz. destruct s as [|c1 s]; [apply Hbad; lia|].
    destruct (second_ok (bval c) c1) eqn:H1; [|apply Hbad; lia]. intros [= <- <- _]. right. apply second_ok_range in H1.
    rewrite rune2_value. destruct (encode_two c c1 s) as (Hs & Hr & He); [lia..|].
    split_and!; [done|exact He|by rewrite (rune_size_of _ 2)|lia].
  - apply seq_size_of in Hsz. destruct s as [|c1 [|c2 s]]; [apply Hbad; lia..|].
    destruct (second_ok (bval c) c1) eqn:H1; [|apply Hbad; lia]. destruct (is_cont c2) eqn:H2; [|apply Hbad; lia].
    intros [= <- <- _]. right. apply cont_range in H2. rewrite rune3_value.
    destruct (encode_three c c1 c2 s) as (Hs & Hr & He); [lia|done|lia|]. split_and!; [done|exact He|by rewrite (rune_size_of _ 3)|lia].
  - apply seq_size_of in Hsz. destruct s as [|c1 [|c2 [|c3 s]]]; [apply Hbad; lia..|].
    destruct (second_ok (bval c) c1) eqn:H1; [|apply Hbad; lia]. destruct (is_cont c2) eqn:H2; [|apply Hbad; lia].
    destruct (is_cont c3) eqn:H3; [|apply Hbad; lia]. intros [= <- <- _]. right. apply cont_range in H2, H3. rewrite rune4_value.
    destruct (encode_four c c1 c2 c3 s) as (Hs & Hr & He); [lia|done|lia|lia|]. split_and!; [done|exact He|by rewrite (rune_size_of _ 4)|lia].
Qed.

(** ** Strings and their runes *)
Lemma str_drop_shorter w c s : (0 < w)%nat -> (String.length (str_drop w (String c s)) < String.length (String c s))%nat.
Proof.
  destruct w; [lia|]. intros _. cbn [str_drop String.length].
  assert (H : forall w s, (String.length (str_drop w s) <= String.length s)%nat); [|specialize (H w s); lia].
  clear. induction w as [|w IH]; intros [|c s]; simpl; try lia. specialize (IH s). lia.
Qed.

Lemma rune_size_pos r : (0 < rune_size r)%nat.
Proof. unfold rune_size. repeat case_match; lia. Qed.

Lemma first_rune_pos c s r w : first_rune c s r w -> (0 < w)%nat.
Proof. intros [(_ & -> & _)|(_ & _ & -> & _)]; [lia|apply rune_size_pos]. Qed.

(** Induction along the runes of a string. *)
Lemma rune_ind (P : string -> Prop) :
  P "" -> (forall c s r w, decode_runes (String c s) = (r, w) :: decode_runes (str_drop w (String c s)) ->
             first_rune c s r w -> P (str_drop w (String c s)) -> P (String c s)) ->
  forall s, P s.
Proof.
  intros H0 Hs. apply str_len_ind. intros [|c s] IH; [done|].
  destruct (decode_runes (String c s)) as [|[r w] l] eqn:E; [exfalso; revert E; cbn [decode_runes]; repeat case_match; done|].
  pose proof (decode_first_rune _ _ _ _ _ E) as Hf. pose proof (decode_runes_tail _ _ _ _ E) as <-.
  eapply Hs; [exact E|done|]. apply IH, str_drop_shorter. by eapply first_rune_pos.
Qed.

Lemma range_runes_scalar s : Forall scalar (range_runes s).
Proof.
  unfold range_runes. induction s as [|c s r w E Hf IH] using rune_ind; [constructor|]. rewrite E. constructor; [|exact IH].
  destruct Hf as [(-> & _)|(? & _)]; [unfold scalar, RuneError; simpl; lia|done].
Qed.

Lemma runes_of_string_of_runes rs : Forall scalar rs -> range_runes (string_of_runes rs) = rs.
Proof.
  induction 1 as [|r rs Hr _ IH]; [done|]. unfold range_runes in *. cbn [string_of_runes foldr].
  rewrite decode_encode by done. cbn [fmap list_fmap fst]. f_equal. exact IH.
Qed.

Lemma to_valid_utf8_idem s : to_valid_utf8 (to_valid_utf8 s) = to_valid_utf8 s.
Proof. unfold to_valid_utf8. by rewrite runes_of_string_of_runes by apply range_runes_scalar. Qed.

(** A well-formed string is left as it is. *)
Lemma to_valid_utf8_id s : utf8_valid s = true -> to_valid_utf8 s = s.
Proof.
  unfold to_valid_utf8, range_runes, utf8_valid. induction s as [|c s r w E Hf IH] using rune_ind; [done|].
  rewrite E. cbn [forallb fmap list_fmap fst string_of_runes foldr]. intros [Hr Hl]%andb_true_iff.
  destruct Hf as [(-> & -> & _)|(_ & He & _ & _)]; [done|]. fold (string_of_runes (decode_runes (str_drop w (String c s))).*1).
  by rewrite IH.
Qed.
