(* ===== verification/Payload.v ===== *)
(** * Payload contracts: internal/contracts/{jsonb,request_json,envelope,command_result,metadata,fields}.go

    What the platform accepts as a JSON payload before it is written to
    PostgreSQL, Kafka or a device: well-formed, unambiguous, without
    representation the database rejects, and bounded after expansion. *)
From stdpp Require Import prelude strings.
From Stdlib Require Import ZArith Lia Ascii.
From S2P Require Import Prelude GoStrings Contracts CommandState GoJson.

Local Open Scope Z_scope.

Definition MaxJSONBBytes : Z := 1048576.
Definition MaxTelemetryPayloadBytes : Z := MaxJSONBBytes - 4096.

(** ** jsonb.go *)

(** The scan of the escapes inside string literals: [escapes_out] walks the
    text between literals, [escapes_in] a literal.  The text is valid JSON when
    it runs, so an escape is never cut short; a slice out of range would panic,
    which is an error here. *)
Fixpoint escapes_in (s : string) (instr : bool) : result unit :=
  match s with
  | EmptyString => Ok tt
  | String c r =>
    if negb instr then escapes_in r (Ascii.eqb c dquote)
    else if Ascii.eqb c dquote then escapes_in r false
    else if Ascii.eqb c backslash then
      match r with
      | String e r1 =>
        if Ascii.eqb e "u" then
          match r1 with
          | String h1 (String h2 (String h3 (String h4 r5))) =>
            let u := match hex4 h1 h2 h3 h4 with Some u => u | None => 0 end in
            if is_high u then
              match r5 with
              | String b1 (String b2 (String l1 (String l2 (String l3 (String l4 r6))))) =>
                if negb (Ascii.eqb b1 backslash) || negb (Ascii.eqb b2 "u") then Err [ErrInvalidPayload]
                else match hex4 l1 l2 l3 l4 with
                     | Some low => if is_low low then escapes_in r6 true else Err [ErrInvalidPayload]
                     | None => Err [ErrInvalidPayload]
                     end
              | _ => Err [ErrInvalidPayload]
              end
            else if is_low u then Err [ErrInvalidPayload]
            else escapes_in r5 true
          | _ => Err [Opaque "slice bounds out of range"]
          end
        else escapes_in r1 true
      | EmptyString => Err [Opaque "index out of range"]
      end
    else escapes_in r true
  end.

Definition check_surrogates (raw : string) : result unit := escapes_in raw false.

(** [strconv.ParseInt(s, 10, 32)] *)
Fixpoint digits_value (acc : Z) (s : string) : option Z :=
  match s with
  | EmptyString => Some acc
  | String c r => if is_digit c then digits_value (10 * acc + (bval c - 48)) r else None
  end.

Definition parse_int32 (s : string) : option Z :=
  let '(neg, body) :=
    match s with
    | String c r => if Ascii.eqb c "-" then (true, r) else if Ascii.eqb c "+" then (false, r) else (false, s)
    | EmptyString => (false, s)
    end in
  match body with
  | EmptyString => None
  | _ =>
    v ← digits_value 0 body;
    let n := if neg then - v else v in
    if (-2147483648 <=? n) && (n <=? 2147483647) then Some n else None
  end.

(** [strings.IndexAny(number, "eE")]: the text before the exponent mark, and
    the text after it if there is one. *)
Fixpoint cut_exponent (s : string) : string * option string :=
  match s with
  | EmptyString => (EmptyString, None)
  | String c r =>
    if Ascii.eqb c "e" || Ascii.eqb c "E" then (EmptyString, Some r)
    else let '(m, e) := cut_exponent r in (String c m, e)
  end.

Fixpoint leading_zeros (s : string) : Z :=
  match s with
  | String c r => if Ascii.eqb c "0" then 1 + leading_zeros r else 0
  | EmptyString => 0
  end.

(** The integer digits, the fraction digits and the exponent of a literal. *)
Definition split_number (lit : string) : option (bool * string * string * Z) :=
  let '(neg, number) := match cut_prefix "-" lit with Some r => (true, r) | None => (false, lit) end in
  let '(mantissa, e) := cut_exponent number in
  exp ← match e with Some t => parse_int32 t | None => Some 0 end;
  let '(integer, fraction) := match cut_byte "." mantissa with Some p => p | None => (mantissa, EmptyString) end in
  Some (neg, integer, fraction, exp).

Definition number_cost (lit : string) : result Z :=
  match split_number lit with
  | None => Err [ErrInvalidPayload]
  | Some (neg, integer, fraction, exp) =>
    let leading := leading_zeros (integer +:+ fraction) in
    if (131072 <? len integer - leading + exp) || (16383 <? len fraction - exp)
       || (131072 <? exp) || (exp <? -16383 - len integer)
    then Err [ErrInvalidPayload]
    else
      let integerBytes := Z.max 1 (len integer + exp) in
      let fractionBytes := Z.max 0 (len fraction - exp) in
      Ok (integerBytes + fractionBytes
          + (if 0 <? fractionBytes then 1 else 0) + (if neg then 1 else 0))
  end.

(** What one token adds to [used], two bytes of separator included. *)
Definition token_cost (t : token) : result Z :=
  match t with
  | TString v =>
    if contains_byte "000" v then Err [ErrInvalidPayload] else Ok (2 + marshal_string_len v)
  | TNumber v => n ← number_cost v; Ok (2 + n)
  | TDelim _ => Ok 3
  | TBool _ | TNull => Ok 7
  end.

Fixpoint charge_tokens (limit used : Z) (ts : list token) : result unit :=
  match ts with
  | [] => Ok tt
  | t :: ts' =>
    c ← token_cost t;
    if limit <? used + c then Err [ErrInvalidPayload] else charge_tokens limit (used + c) ts'
  end.

Definition validateJSONBBudget (raw : string) (limit : Z) : result unit :=
  if limit <? len raw then Err [ErrInvalidPayload]
  else if negb (utf8_valid raw) then Err [ErrInvalidPayload]
  else match json_parse raw with
       | None => Err [ErrInvalidPayload]
       | Some v => _ ← check_surrogates raw; charge_tokens limit 0 (tokens_of v)
       end.

Definition ValidateJSONB (raw : string) : result unit := validateJSONBBudget raw MaxJSONBBytes.

(** ** request_json.go

    [unicode.SimpleFold] is a table of the Unicode database: a parameter, whose
    documented property is that iterating it cycles through the finite orbit of
    a rune. *)
Class Unicode := { simple_fold : Z -> Z }.

Section request_json.
Context `{Unicode}.

(** The loop of [foldJSONField] over the orbit of [r]; no orbit of the Unicode
    tables has more than four runes. *)
Fixpoint fold_orbit (fuel : nat) (r next smallest : Z) : Z :=
  match fuel with
  | O => smallest
  | S f => if next =? r then smallest
           else fold_orbit f r (simple_fold next) (if next <? smallest then next else smallest)
  end.

Definition foldJSONField (name : string) : string :=
  string_of_runes (map (fun r => fold_orbit 8 r (simple_fold r) r) (range_runes name)).

(** The loops of [value] over the members of an object and the elements of an
    array, [value] being the recursive call at the next depth. *)
Fixpoint unique_members (value : json -> result unit) (rename : string -> string)
    (seen : list string) (ms : list (string * json)) : result unit :=
  match ms with
  | [] => Ok tt
  | (k, v) :: ms' =>
    let name := rename k in
    if bool_decide (name ∈ seen) then Err [Opaque "duplicate JSON field"]
    else _ ← value v; unique_members value rename (name :: seen) ms'
  end.

Fixpoint unique_elems (value : json -> result unit) (es : list json) : result unit :=
  match es with
  | [] => Ok tt
  | v :: es' => _ ← value v; unique_elems value es'
  end.

Definition key_rename (foldRoot : bool) (depth : Z) : string -> string :=
  if (depth =? 0) && foldRoot then foldJSONField else id.

Fixpoint unique_value (foldRoot : bool) (depth : Z) (v : json) : result unit :=
  if 128 <? depth then Err [Opaque "JSON nesting exceeds 128 levels"]
  else match v with
  | JObj ms => unique_members (unique_value foldRoot (depth + 1)) (key_rename foldRoot depth) [] ms
  | JArr es => unique_elems (unique_value foldRoot (depth + 1)) es
  | _ => Ok tt
  end.

Definition validateUniqueJSON (raw : string) (foldRoot : bool) : result unit :=
  match json_parse raw with
  | Some v => unique_value foldRoot 0 v
  | None => Err [Opaque "JSON syntax"]
  end.

Definition ValidateUniqueJSON (raw : string) : result unit := validateUniqueJSON raw false.

Definition starts_with_brace (s : string) : bool :=
  match s with String c _ => Ascii.eqb c "{" | EmptyString => false end.

(** [DecodeRequestJSON], with the body the reader yields; decoding into the
    destination struct with unknown fields refused is [decode]. *)
Definition DecodeRequestJSON {A} (decode : string -> result A) (body : string) : result A :=
  let raw := str_take (Z.to_nat (MaxJSONBBytes + 1)) body in
  if MaxJSONBBytes <? len raw then Err [Opaque "request body too large"]
  else if negb (utf8_valid raw) then Err [Opaque "request body must contain valid UTF-8"]
  else
    _ ← validateUniqueJSON raw true;
    if negb (starts_with_brace (trim_space raw)) then Err [Opaque "request body must be a JSON object"]
    else _ ← ValidateJSONB raw; decode raw.

(** metadata.go: [ValidateCommandPayload] *)
Definition ValidateCommandPayload (payload : string) : result unit :=
  if len payload =? 0 then Ok tt
  else
    _ ← ValidateJSONB payload;
    match ValidateUniqueJSON payload with
    | Err _ => Err [ErrInvalidPayload]
    | Ok _ => if starts_with_brace (trim_space payload) then Ok tt else Err [ErrInvalidPayload]
    end.

(** ** command_result.go *)
Record CommandResult := MkCommandResult {
  res_Status : string;
  res_ErrorCode : string;
  res_Payload : string }.

Definition NormalizeCommandResult (result0 : CommandResult) : result CommandResult :=
  if negb (String.eqb (res_Status result0) CommandStatusAcked)
     && negb (String.eqb (res_Status result0) CommandStatusFailed)
  then Err [ErrInvalidPayload]
  else if (64 <? len (res_ErrorCode result0))
          || negb (String.eqb (trim_space (res_ErrorCode result0)) (res_ErrorCode result0))
  then Err [ErrInvalidPayload]
  else if negb (String.eqb (res_ErrorCode result0) "")
          && negb (is_ok (ValidateStorageField "errorCode" (res_ErrorCode result0) 64))
  then Err [ErrInvalidPayload]
  else if String.eqb (res_Status result0) CommandStatusAcked
          && negb (String.eqb (res_ErrorCode result0) "")
  then Err [ErrInvalidPayload]
  else
    let payload := if len (res_Payload result0) =? 0 then "{}" else res_Payload result0 in
    if 65536 <? len payload then Err [ErrInvalidPayload]
    else
      _ ← validateJSONBBudget payload 65536;
      _ ← ValidateCommandPayload payload;
      Ok (MkCommandResult (res_Status result0) (res_ErrorCode result0) payload).
End request_json.

(** ** envelope.go *)
Record Envelope := MkEnvelope {
  env_MsgID : string;
  env_TenantID : string;
  env_DeviceID : string;
  env_Ts : Z;
  env_Type : string;
  env_Version : string;
  env_TraceID : string;
  env_ProductID : string;
  env_Region : string;
  env_Seq : Z;
  env_Payload : string }.

Definition minEnvelopeTsMillis : Z := 946684800000.
(** Durations and instants are nanoseconds; an instant counts from the Unix epoch. *)
Definition maxEnvelopeClockSkew : Z := 5 * 60 * 1000000000.
Definition UnixMilli (t : Z) : Z := t / 1000000.

Definition ValidateTelemetryPayload (raw : string) : result unit :=
  if negb (starts_with_brace (trim_space raw)) || negb (utf8_valid raw) || negb (json_valid raw)
  then Err [ErrInvalidEnvelope]
  else match validateJSONBBudget raw MaxTelemetryPayloadBytes with
       | Err e => Err (ErrInvalidEnvelope :: e)
       | Ok _ => Ok tt
       end.

(** fields.go *)
Definition ValidateTelemetryFields (env : Envelope) : result unit :=
  _ ← ValidateStorageField "msgId" (env_MsgID env) TelemetryFieldMaxBytes;
  _ ← ValidateStorageField "tenantId" (env_TenantID env) TelemetryFieldMaxBytes;
  _ ← ValidateStorageField "deviceId" (env_DeviceID env) TelemetryFieldMaxBytes;
  _ ← ValidateStorageField "type" (env_Type env) TelemetryFieldMaxBytes;
  _ ← ValidateStorageField "version" (env_Version env) TelemetryVersionMaxBytes;
  if negb (IsValidTenantID (env_TenantID env)) || negb (IsValidTopicPart (env_DeviceID env))
  then Err [ErrInvalidEnvelope] else Ok tt.

Definition ErrEnvelopeTimestampOutOfRange : error := [ErrTimestampOutOfRange; ErrInvalidEnvelope].

Definition validateEnvelopeAt (env : Envelope) (now : Z) : result unit :=
  _ ← ValidateTelemetryPayload (env_Payload env);
  if env_Ts env <=? 0 then Err [ErrInvalidEnvelope]
  else
    _ ← ValidateTelemetryFields env;
    if (env_Ts env <? minEnvelopeTsMillis)
       || (UnixMilli (now + maxEnvelopeClockSkew) <? env_Ts env)
    then Err ErrEnvelopeTimestampOutOfRange
    else Ok tt.

(** [ValidateEnvelope] reads the clock. *)
Definition ValidateEnvelope (now : Z) (env : Envelope) : result unit := validateEnvelopeAt env now.

(** [ParseEnvelope], from the outcome of decoding the struct. *)
Definition ParseEnvelope (unmarshal : string -> result Envelope) (now : Z) (raw : string) : result Envelope :=
  match unmarshal raw with
  | Err _ => Err [ErrInvalidEnvelope]
  | Ok env => _ ← ValidateEnvelope now env; Ok env
  end.

(** ** The budget bounds the text PostgreSQL will store

    The reference: a number is printed without exponent, with its integer part
    stripped of leading zeros and its scale kept. *)
Fixpoint zeros (n : nat) : string :=
  match n with O => EmptyString | S k => String "0" (zeros k) end.

Fixpoint strip_zeros (s : string) : string :=
  match s with
  | String c r => if Ascii.eqb c "0" then strip_zeros r else s
  | EmptyString => EmptyString
  end.

Definition or_zero (s : string) : string := match s with EmptyString => "0" | _ => s end.

Definition plain_decimal (lit : string) : string :=
  match split_number lit with
  | None => EmptyString
  | Some (neg, integer, fraction, exp) =>
    let digits := integer +:+ fraction in
    let point := len integer + exp in
    let int_part := str_take (Z.to_nat point) (digits +:+ zeros (Z.to_nat (point - len digits))) in
    let frac_part := zeros (Z.to_nat (- point)) +:+ str_drop (Z.to_nat point) digits in
    (if neg then "-" else "") +:+ or_zero (strip_zeros int_part)
    +:+ (if 0 <? len fraction - exp then "." +:+ frac_part else "")
  end.

Fixpoint jsonb_text_len (v : json) : Z :=
  match v with
  | JNull => 4
  | JBool b => if b then 4 else 5
  | JNum lit => len (plain_decimal lit)
  | JStr s => marshal_string_len s
  | JArr es => 2 + foldr (fun e acc => jsonb_text_len e + 2 + acc) (-2) es
  | JObj ms => 2 + foldr (fun kv acc => marshal_string_len kv.1 + 2 + jsonb_text_len kv.2 + 2 + acc) (-2) ms
  end.

Lemma len_take n s : len (str_take n s) = Z.min (Z.of_nat n) (len s).
Proof.
  revert s. induction n as [|n IH]; intros s; [unfold len; simpl; lia|].
  destruct s as [|c s]; [unfold len; simpl; lia|]. unfold len in *. simpl. specialize (IH s). lia.
Qed.

Lemma len_drop n s : len (str_drop n s) = Z.max 0 (len s - Z.of_nat n).
Proof.
  revert s. induction n as [|n IH]; intros s; [unfold len; simpl; lia|].
  destruct s as [|c s]; [unfold len; simpl; lia|]. unfold len in *. simpl. specialize (IH s). lia.
Qed.

Lemma len_zeros n : len (zeros n) = Z.of_nat n.
Proof. induction n as [|n IH]; [done|]. unfold len in *. simpl. lia. Qed.

Lemma len_strip_zeros s : len (strip_zeros s) <= len s.
Proof. induction s as [|c s IH]; [done|]. unfold len in *. simpl. case_match; simpl in *; lia. Qed.

Lemma len_or_zero s : len (or_zero s) = Z.max 1 (len s).
Proof. destruct s as [|c s]; [done|]. unfold len. simpl. lia. Qed.

Lemma plain_decimal_le_cost lit c : number_cost lit = Ok c -> len (plain_decimal lit) <= c.
Proof.
  unfold number_cost, plain_decimal. destruct (split_number lit) as [[[[neg i] f] e]|]; [|done].
  case_match; [done|]. intros [= <-].
  set (ip := str_take _ _).
  assert (len (or_zero (strip_zeros ip)) <= Z.max 1 (len i + e)).
  { rewrite len_or_zero. pose proof (len_strip_zeros ip). subst ip. rewrite len_take in *. lia. }
  assert (len (if neg then "-" else "") = if neg then 1 else 0) as Hn by by destruct neg.
  pose proof (len_nonneg i). pose proof (len_nonneg f).
  assert (len "" = 0) as He0 by done. assert (len "." = 1) as He1 by done.
  rewrite !len_app, Hn. destruct (Z.ltb_spec 0 (len f - e)) as [Hf|Hf].
  - rewrite len_app, He1, len_app, len_zeros, len_drop, len_app. rewrite (Z.max_r 0 (len f - e)) by lia.
    destruct (Z.ltb_spec 0 (len f - e)), neg; lia.
  - rewrite He0. rewrite (Z.max_l 0 (len f - e)) by lia. destruct neg; simpl; lia.
Qed.

(** The cost of a token list without the limit. *)
Fixpoint total_cost (ts : list token) : result Z :=
  match ts with
  | [] => Ok 0
  | t :: ts' => c ← token_cost t; r ← total_cost ts'; Ok (c + r)
  end.

Lemma charge_tokens_total limit used ts :
  charge_tokens limit used ts = Ok tt -> used <= limit ->
  exists c, total_cost ts = Ok c /\ used + c <= limit.
Proof.
  revert used. induction ts as [|t ts IH]; intros used; simpl; [exists 0; split; [done|lia]|].
  intros (c & Hc & H)%result_bind_ok Hle. destruct (Z.ltb_spec limit (used + c)); [done|].
  destruct (IH _ H) as (r & Hr & ?); [lia|]. rewrite Hc, Hr. simpl. exists (c + r). split; [done|lia].
Qed.

Lemma total_cost_app ts1 ts2 c :
  total_cost (ts1 ++ ts2) = Ok c ->
  exists c1 c2, total_cost ts1 = Ok c1 /\ total_cost ts2 = Ok c2 /\ c = c1 + c2.
Proof.
  revert c. induction ts1 as [|t ts IH]; intros c; simpl; [intros ->; eauto|].
  intros (x & Hx & (y & Hy & [= <-])%result_bind_ok)%result_bind_ok.
  apply IH in Hy as (c1 & c2 & -> & -> & ->). rewrite Hx. simpl. do 2 eexists. split_and!; [done..|lia].
Qed.

(** A value and the members of a container, by induction on the tree. *)
Section json_ind.
Context (P : json -> Prop)
  (Hnull : P JNull) (Hbool : forall b, P (JBool b)) (Hnum : forall l, P (JNum l))
  (Hstr : forall s, P (JStr s))
  (Harr : forall es, Forall P es -> P (JArr es))
  (Hobj : forall ms, Forall (fun kv => P kv.2) ms -> P (JObj ms)).

Fixpoint json_tree_ind (v : json) : P v :=
  match v with
  | JNull => Hnull
  | JBool b => Hbool b
  | JNum l => Hnum l
  | JStr s => Hstr s
  | JArr es => Harr es
      ((fix go (l : list json) : Forall P l :=
          match l with
          | [] => Forall_nil_2 _
          | e :: l' => Forall_cons_2 _ _ _ (json_tree_ind e) (go l')
          end) es)
  | JObj ms => Hobj ms
      ((fix go (l : list (string * json)) : Forall (fun kv => P kv.2) l :=
          match l with
          | [] => Forall_nil_2 _
          | kv :: l' => Forall_cons_2 _ kv l' (json_tree_ind kv.2) (go l')
          end) ms)
  end.
End json_ind.

Lemma elems_text_le es c :
  Forall (fun v => forall c, total_cost (tokens_of v) = Ok c -> jsonb_text_len v + 2 <= c) es ->
  total_cost (concat (map tokens_of es)) = Ok c ->
  foldr (fun e acc => jsonb_text_len e + 2 + acc) (-2) es <= c - 2.
Proof.
  intros H. revert c. induction H as [|e es He _ IH]; intros c; simpl; [intros [= <-]; lia|].
  intros (c1 & c2 & H1 & H2 & ->)%total_cost_app. specialize (He _ H1). specialize (IH _ H2). lia.
Qed.

Lemma members_text_le (ms : list (string * json)) c :
  Forall (fun kv => forall c, total_cost (tokens_of kv.2) = Ok c -> jsonb_text_len kv.2 + 2 <= c) ms ->
  total_cost (concat (map (fun kv => TString kv.1 :: tokens_of kv.2) ms)) = Ok c ->
  foldr (fun kv acc => marshal_string_len kv.1 + 2 + jsonb_text_len kv.2 + 2 + acc) (-2) ms <= c - 2.
Proof.
  intros H. revert c. induction H as [|[k v] ms He _ IH]; intros c; [intros [= <-]; simpl; lia|].
  simpl map. simpl concat. rewrite app_comm_cons.
  intros (c1 & c2 & H1 & H2 & ->)%total_cost_app. specialize (IH _ H2). simpl in H1.
  apply result_bind_ok in H1 as (x & Hx & (y & Hy & [= <-])%result_bind_ok).
  specialize (He _ Hy). case_match; [done|]. injection Hx as <-. simpl in *. lia.
Qed.

(** Every token pays for its own text and a separator. *)
Lemma jsonb_text_le_cost v c : total_cost (tokens_of v) = Ok c -> jsonb_text_len v + 2 <= c.
Proof.
  revert c. induction v using json_tree_ind; intros c Hc; simpl in Hc.
  - injection Hc as <-. simpl. lia.
  - injection Hc as <-. simpl. destruct b; lia.
  - apply result_bind_ok in Hc as (x & (n & Hn & [= <-])%result_bind_ok & [= <-]).
    apply plain_decimal_le_cost in Hn. simpl. lia.
  - destruct (contains_byte "000" s); [done|]. simpl in Hc. injection Hc as <-. simpl. lia.
  - apply result_bind_ok in Hc as (x & (c1 & c2 & H1 & H2 & ->)%total_cost_app & [= <-]).
    simpl in H2. injection H2 as <-. pose proof (elems_text_le _ _ H H1). simpl. lia.
  - apply result_bind_ok in Hc as (x & (c1 & c2 & H1 & H2 & ->)%total_cost_app & [= <-]).
    simpl in H2. injection H2 as <-. pose proof (members_text_le _ _ H H1). simpl. lia.
Qed.

Lemma budget_ok raw limit :
  validateJSONBBudget raw limit = Ok tt ->
  len raw <= limit /\ utf8_valid raw = true
  /\ exists v, json_parse raw = Some v /\ check_surrogates raw = Ok tt
       /\ charge_tokens limit 0 (tokens_of v) = Ok tt.
Proof.
  unfold validateJSONBBudget. destruct (Z.ltb_spec limit (len raw)); [done|].
  destruct (utf8_valid raw); [simpl|done]. destruct (json_parse raw) as [v|] eqn:E; [|done].
  intros ([] & Hs & Hc)%result_bind_ok. eauto 10.
Qed.

(** C36: the JSONB budget is a bound on what PostgreSQL stores: when a payload
    is accepted under a limit, its fully expanded text, every exponent written
    out and every separator counted, is no longer than the limit, although the
    check never builds the expansion. *)
Theorem jsonb_budget_bounds_text raw limit :
  validateJSONBBudget raw limit = Ok tt ->
  exists v, json_parse raw = Some v /\ jsonb_text_len v + 2 <= limit.
Proof.
  intros (Hl & _ & v & Hp & _ & Hc)%budget_ok. exists v. split; [done|].
  pose proof (len_nonneg raw).
  apply charge_tokens_total in Hc as (c & Hc & ?); [|lia].
  apply jsonb_text_le_cost in Hc. lia.
Qed.

Lemma jsonb_budget_bounds_text_witness :
  validateJSONBBudget (jtext "{'a':[1e3,'x']}") 64 = Ok tt
  /\ exists v, json_parse (jtext "{'a':[1e3,'x']}") = Some v /\ jsonb_text_len v + 2 <= 64.
Proof. split; [reflexivity | apply jsonb_budget_bounds_text; reflexivity]. Defined.

(** ** Unambiguous JSON *)

(** The reference: how deep a value nests, and that no object repeats a field
    ([key] is how the fields of the outermost object are compared). *)
Fixpoint json_depth (v : json) : Z :=
  match v with
  | JArr es => foldr (fun e acc => Z.max (1 + json_depth e) acc) 0 es
  | JObj ms => foldr (fun kv acc => Z.max (1 + json_depth kv.2) acc) 0 ms
  | _ => 0
  end.

Fixpoint fields_distinct (key : string -> string) (v : json) : Prop :=
  match v with
  | JArr es => foldr (fun e acc => fields_distinct id e /\ acc) True es
  | JObj ms => NoDup (map (fun kv => key kv.1) ms)
               /\ foldr (fun kv acc => fields_distinct id kv.2 /\ acc) True ms
  | _ => True
  end.

Lemma result_bind_unit (m k : result unit) :
  (_ ← m; k) = Ok tt <-> m = Ok tt /\ k = Ok tt.
Proof. destruct m as [[]|]; simpl; naive_solver. Qed.

Section unique.
Context `{Unicode}.

Lemma unique_members_iff value rename seen ms :
  unique_members value rename seen ms = Ok tt <->
  NoDup (map (fun kv => rename kv.1) ms) /\ Forall (fun kv => rename kv.1 ∉ seen /\ value kv.2 = Ok tt) ms.
Proof.
  revert seen. induction ms as [|[k v] ms IH]; intros seen; simpl.
  - split; [repeat constructor|done].
  - case_bool_decide as E; [split; [done|intros [_ [? _]%Forall_cons]; simpl in *; naive_solver]|].
    rewrite result_bind_unit, IH, NoDup_cons, Forall_cons. simpl.
    rewrite !Forall_forall, list_elem_of_fmap. setoid_rewrite elem_of_cons. naive_solver.
Qed.

Lemma unique_elems_iff value es :
  unique_elems value es = Ok tt <-> Forall (fun v => value v = Ok tt) es.
Proof.
  induction es as [|v es IH]; simpl; [split; [constructor|done]|].
  rewrite result_bind_unit, IH, Forall_cons. done.
Qed.

Lemma nested_iff {A} (f : A -> json) (l : list A) d :
  d <= 128 ->
  Forall (fun e => d + 1 + json_depth (f e) <= 128 /\ fields_distinct id (f e)) l <->
  d + foldr (fun e acc => Z.max (1 + json_depth (f e)) acc) 0 l <= 128
  /\ foldr (fun e acc => fields_distinct id (f e) /\ acc) True l.
Proof.
  intros Hd. induction l as [|e l IH]; simpl; [split; [split; [lia|done]|constructor]|].
  rewrite Forall_cons, IH. split; [intros [[? ?] [? ?]]|intros [? [? ?]]]; split_and!; try done; lia.
Qed.

Lemma json_depth_nonneg v : 0 <= json_depth v.
Proof. destruct v as [| | | |es|ms]; simpl; try lia; [induction es|induction ms]; simpl; lia. Qed.

Lemma Forall_iff_under {A} (P Q R : A -> Prop) l :
  Forall R l -> (forall x, R x -> P x <-> Q x) -> Forall P l <-> Forall Q l.
Proof. intros HR Hi. rewrite !Forall_forall in *. naive_solver. Qed.

Lemma unique_value_iff foldRoot v : forall d, 0 <= d ->
  unique_value foldRoot d v = Ok tt <->
  d + json_depth v <= 128 /\ fields_distinct (key_rename foldRoot d) v.
Proof.
  assert (Hid : forall d, 0 <= d -> key_rename foldRoot (d + 1) = id).
  { intros d Hd. unfold key_rename. destruct (Z.eqb_spec (d + 1) 0); [lia|done]. }
  induction v as [| | | |es IH|ms IH] using json_tree_ind; intros d Hd;
    match goal with |- context [json_depth ?v] => pose proof (json_depth_nonneg v) end;
    simpl in *; (destruct (Z.ltb_spec 128 d); [split; [done|lia]|]); try (split; [split; [lia|done]|done]).
  - rewrite unique_elems_iff. rewrite <- (nested_iff id) by done.
    apply (Forall_iff_under _ _ _ _ IH). intros x Hx. rewrite Hx, Hid by lia. done.
  - rewrite unique_members_iff. pose proof (nested_iff snd ms d ltac:(done)) as Hn. simpl in Hn.
    enough (Forall (fun kv => key_rename foldRoot d kv.1 ∉ [] /\ unique_value foldRoot (d + 1) kv.2 = Ok tt) ms
            <-> Forall (fun kv => d + 1 + json_depth kv.2 <= 128 /\ fields_distinct id kv.2) ms) by tauto.
    apply (Forall_iff_under _ _ _ _ IH). intros x Hx. rewrite Hx, Hid by lia.
    split; [tauto|]. split; [apply not_elem_of_nil|done].
Qed.

(** [ValidateUniqueJSON] accepts exactly the texts that are one JSON value
    nested at most 128 levels deep in which no object, at any depth, repeats a
    field; a request body is checked in the same way with the fields of the
    outermost object compared up to case folding. *)
Theorem validate_unique_json_iff raw foldRoot :
  validateUniqueJSON raw foldRoot = Ok tt <->
  exists v, json_parse raw = Some v /\ json_depth v <= 128
    /\ fields_distinct (if foldRoot then foldJSONField else id) v.
Proof.
  unfold validateUniqueJSON. destruct (json_parse raw) as [v|]; [|naive_solver].
  rewrite unique_value_iff by lia. unfold key_rename. simpl. naive_solver.
Qed.

(** ** Acknowledgement results *)

Lemma normalize_status r r' :
  NormalizeCommandResult r = Ok r' ->
  res_Status r' = CommandStatusAcked \/ res_Status r' = CommandStatusFailed.
Proof.
  unfold NormalizeCommandResult. destruct (_ && _) eqn:Hst; [done|].
  do 3 (match goal with |- (if ?b then _ else _) = _ -> _ => destruct b; [done|] end).
  cbn zeta. destruct (65536 <? _); [done|].
  intros ([] & _ & ([] & _ & [= <-])%result_bind_ok)%result_bind_ok. simpl.
  apply andb_false_iff in Hst as [?%negb_false_iff%String.eqb_eq|?%negb_false_iff%String.eqb_eq]; auto.
Qed.

(** Normalising a device's result is idempotent, and a normalised result
    carries a terminal status, an error code only on failure, and a payload
    that is non-empty, one unambiguous JSON object and at most 64 KiB. *)
Theorem normalize_command_result_spec r r' :
  NormalizeCommandResult r = Ok r' ->
  NormalizeCommandResult r' = Ok r'
  /\ (res_Status r' = CommandStatusAcked \/ res_Status r' = CommandStatusFailed)
  /\ (res_ErrorCode r' <> "" -> res_Status r' = CommandStatusFailed)
  /\ 0 < len (res_Payload r') <= 65536
  /\ ValidateUniqueJSON (res_Payload r') = Ok tt
  /\ starts_with_brace (trim_space (res_Payload r')) = true.
Proof.
  destruct r as [st code payload]. unfold NormalizeCommandResult. simpl.
  set (p' := if len payload =? 0 then _ else _).
  assert (Hp : (if len p' =? 0 then "{}" else p') = p' /\ 0 < len p').
  { subst p'. destruct (Z.eqb_spec (len payload) 0); [done|].
    pose proof (len_nonneg payload). destruct (Z.eqb_spec (len payload) 0); [lia|split; [done|lia]]. }
  destruct Hp as [Hp Hpos].
  destruct (_ && _) eqn:Hst; [done|]. destruct (_ || _) eqn:Hcode; [done|].
  destruct (_ && _) eqn:Hfield in |- *; [done|]. destruct (_ && _) eqn:Hacked in |- *; [done|].
  destruct (65536 <? len p') eqn:Hsize; [done|].
  intros ([] & Hb & ([] & Hc & [= <-])%result_bind_ok)%result_bind_ok. simpl.
  rewrite Hst, Hcode, Hfield, Hacked, Hp, Hsize, Hb, Hc. simpl.
  apply Z.ltb_ge in Hsize. split_and!; try done.
  - apply andb_false_iff in Hst as [?%negb_false_iff%String.eqb_eq|?%negb_false_iff%String.eqb_eq]; auto.
  - intros Hne. apply andb_false_iff in Hst as [E%negb_false_iff|?%negb_false_iff%String.eqb_eq]; [|done].
    rewrite E in Hacked. apply negb_false_iff, String.eqb_eq in Hacked. done.
  - revert Hc. unfold ValidateCommandPayload. destruct (Z.eqb_spec (len p') 0); [lia|].
    intros ([] & _ & H1)%result_bind_ok. destruct (ValidateUniqueJSON p') as [[]|]; done.
  - revert Hc. unfold ValidateCommandPayload. destruct (Z.eqb_spec (len p') 0); [lia|].
    intros ([] & _ & H1)%result_bind_ok. destruct (ValidateUniqueJSON p') as [[]|]; [|done].
    destruct (starts_with_brace _); done.
Qed.
End unique.

#[local] Instance ascii_fold : Unicode :=
  {| simple_fold r := if (65 <=? r) && (r <=? 90) then r + 32
                      else if (97 <=? r) && (r <=? 122) then r - 32 else r |}.

Lemma normalize_command_result_spec_witness :
  let r := MkCommandResult CommandStatusFailed "E1" "" in
  let r' := MkCommandResult CommandStatusFailed "E1" "{}" in
  NormalizeCommandResult r = Ok r'
  /\ NormalizeCommandResult r' = Ok r'.
Proof.
  split; [reflexivity|].
  apply (normalize_command_result_spec (MkCommandResult CommandStatusFailed "E1" "")). reflexivity.
Defined.

(** ** Envelopes *)

(** The published contract of a telemetry envelope. *)
Definition storage_safe (maxBytes : Z) (value : string) : Prop :=
  value <> "" /\ len value <= maxBytes /\ utf8_valid value = true
  /\ existsb is_control (range_runes value) = false.

Record envelope_contract (now : Z) (env : Envelope) : Prop := {
  ec_payload : starts_with_brace (trim_space (env_Payload env)) = true
               /\ validateJSONBBudget (env_Payload env) MaxTelemetryPayloadBytes = Ok tt;
  ec_msg : storage_safe 64 (env_MsgID env);
  ec_type : storage_safe 64 (env_Type env);
  ec_version : storage_safe 32 (env_Version env);
  ec_tenant : IsValidTenantID (env_TenantID env) = true;
  ec_device : IsValidTopicPart (env_DeviceID env) = true;
  ec_ts : minEnvelopeTsMillis <= env_Ts env <= UnixMilli (now + maxEnvelopeClockSkew) }.

Lemma storage_field_result name value m :
  ValidateStorageField name value m = Ok tt \/ ValidateStorageField name value m = Err [ErrInvalidEnvelope].
Proof. unfold ValidateStorageField. repeat case_match; auto. Qed.

Lemma telemetry_payload_iff raw :
  ValidateTelemetryPayload raw = Ok tt <->
  starts_with_brace (trim_space raw) = true /\ validateJSONBBudget raw MaxTelemetryPayloadBytes = Ok tt.
Proof.
  unfold ValidateTelemetryPayload. destruct (starts_with_brace _); simpl; [|naive_solver].
  destruct (validateJSONBBudget raw _) as [[]|e] eqn:E.
  - apply budget_ok in E as (_ & -> & v & Hp & _). unfold json_valid. rewrite Hp. done.
  - destruct (_ || _); naive_solver.
Qed.

Lemma telemetry_fields_iff env :
  ValidateTelemetryFields env = Ok tt <->
  storage_safe 64 (env_MsgID env) /\ storage_safe 64 (env_Type env) /\ storage_safe 32 (env_Version env)
  /\ IsValidTenantID (env_TenantID env) = true /\ IsValidTopicPart (env_DeviceID env) = true.
Proof.
  unfold ValidateTelemetryFields. rewrite !result_bind_unit. setoid_rewrite storage_field_ok.
  unfold storage_safe, TelemetryFieldMaxBytes, TelemetryVersionMaxBytes.
  destruct (IsValidTenantID _) eqn:Ht, (IsValidTopicPart (env_DeviceID env)) eqn:Hd; simpl;
    try (split; [intros (_ & _ & _ & _ & _ & ?); done | intros (_ & _ & _ & ? & ?); done]).
  apply tenant_id_part in Ht. apply topic_part_field, storage_field_ok in Ht, Hd.
  unfold TelemetryFieldMaxBytes in *. tauto.
Qed.

(** C37: an envelope is accepted exactly when it meets the published contract:
    storage-safe fields, identifiers that are topic parts, a payload that is
    one JSON object within its budget, and a timestamp between 2000-01-01 and
    five minutes ahead of the server clock. *)
Theorem validate_envelope_iff env now :
  validateEnvelopeAt env now = Ok tt <-> envelope_contract now env.
Proof.
  unfold validateEnvelopeAt. rewrite result_bind_unit, telemetry_payload_iff.
  unfold minEnvelopeTsMillis in *. destruct (Z.leb_spec (env_Ts env) 0).
  { split; [naive_solver|]. intros []. unfold minEnvelopeTsMillis in *. lia. }
  rewrite result_bind_unit, telemetry_fields_iff.
  destruct (Z.ltb_spec (env_Ts env) 946684800000), (Z.ltb_spec (UnixMilli (now + maxEnvelopeClockSkew)) (env_Ts env));
    simpl; (split; [try naive_solver|intros []; unfold minEnvelopeTsMillis in *; try lia; tauto]).
  intros (? & (? & ? & ? & ? & ?) & _). constructor; try done.
Qed.

(** Every envelope the ingest check refuses is refused with an error that
    [errors.Is] recognises as [ErrInvalidEnvelope], which is what routes it to
    the dead-letter topic instead of a retry. *)
Theorem validate_envelope_error env now e :
  validateEnvelopeAt env now = Err e -> errors_is e ErrInvalidEnvelope = true.
Proof.
  unfold validateEnvelopeAt, ValidateTelemetryFields, ValidateTelemetryPayload. intros Herr.
  repeat (match type of Herr with
    | context [ValidateStorageField ?n ?v ?m] => let E := fresh in destruct (storage_field_result n v m) as [E|E]; rewrite E in Herr; clear E
    | context [if ?b then _ else _] => destruct b
    | context [match validateJSONBBudget ?r ?l with _ => _ end] => destruct (validateJSONBBudget r l) as [[]|]
    end; simpl in Herr; try discriminate Herr). all: by injection Herr as <-.
Qed.

Definition sample_envelope : Envelope :=
  MkEnvelope "m1" "acme" "d1" 1700000000000 "temp" "v1" "" "" "" 0 (jtext "{'c':21.5}").

Lemma validate_envelope_error_witness :
  errors_is [ErrTimestampOutOfRange; ErrInvalidEnvelope] ErrInvalidEnvelope = true.
Proof. apply (validate_envelope_error sample_envelope 1600000000000000000). vm_compute. reflexivity. Defined.
