(* ===== verification/Domain.v ===== *)
(** * The domain records: internal/platform/{domain,command_capacity}.go

    An instant ([time.Time]) is a number of nanoseconds from the Unix epoch; the
    zero [time.Time] is 0001-01-01T00:00:00Z.  A duration is a number of
    nanoseconds. *)
From stdpp Require Import prelude strings.
From Stdlib Require Import ZArith Lia Ascii.
From S2P Require Import Prelude GoStrings Contracts CommandState GoJson Payload.

Local Open Scope Z_scope.

Definition Millisecond : Z := 1000000.
Definition Second : Z := 1000000000.
Definition Minute : Z := 60 * Second.

Definition zero_time : Z := -62135596800 * Second.
Definition IsZero (t : Z) : bool := t =? zero_time.

Record Tenant := MkTenant { ten_ID : string; ten_Name : string }.

Record Device := MkDevice {
  dev_TenantID : string;
  dev_DeviceID : string;
  dev_ProductID : string;
  dev_Secret : string;
  dev_CreatedAt : Z }.

Record DeviceStatus := MkDeviceStatus {
  sta_TenantID : string;
  sta_DeviceID : string;
  sta_Online : bool;
  sta_LastSeenAt : Z }.

Record TelemetryRecord := MkTelemetryRecord {
  rec_MsgID : string;
  rec_TenantID : string;
  rec_DeviceID : string;
  rec_Ts : Z;
  rec_Type : string;
  rec_Version : string;
  rec_Payload : string;
  rec_TDengineWritten : bool;
  rec_ReceivedAt : Z }.

Record Command := MkCommand {
  cmd_ID : string;
  cmd_TenantID : string;
  cmd_DeviceID : string;
  cmd_Status : string;
  cmd_Payload : string;
  cmd_CreatedAt : Z;
  cmd_UpdatedAt : Z;
  cmd_DispatchAttempts : Z;
  cmd_DeadlineAt : Z;
  cmd_Result : option CommandResult }.

#[export] Instance TelemetryRecord_eq_dec : EqDecision TelemetryRecord.
Proof. solve_decision. Defined.
#[export] Instance CommandResult_eq_dec : EqDecision CommandResult.
Proof. solve_decision. Defined.
#[export] Instance Command_eq_dec : EqDecision Command.
Proof. solve_decision. Defined.

(** ** json.Marshal of a [json.RawMessage]

    The encoder validates the raw text and copies it without the white space
    between tokens, writing the characters that are unsafe in HTML as escapes. *)
Definition hex_digit (n : Z) : ascii := if n <? 10 then chr (48 + n) else chr (87 + n).

Definition unicode_escape (r : Z) (tail : string) : string :=
  String backslash (String "u" (String (hex_digit (r / 4096 mod 16)) (String (hex_digit (r / 256 mod 16))
    (String (hex_digit (r / 16 mod 16)) (String (hex_digit (r mod 16)) tail))))).

(** [instr]: inside a string literal; [esc]: just after a backslash there. *)
Fixpoint compact_from (s : string) (instr esc : bool) : string :=
  match s with
  | EmptyString => EmptyString
  | String c r =>
    let instr' := if instr then esc || negb (Ascii.eqb c dquote) else Ascii.eqb c dquote in
    let esc' := instr && negb esc && Ascii.eqb c backslash in
    if Ascii.eqb c "<" || Ascii.eqb c ">" || Ascii.eqb c "&" then unicode_escape (bval c) (compact_from r instr' esc')
    else if negb instr && is_ws c then compact_from r instr' esc'
    else match r with
         | String c1 (String c2 r2) =>
           if (bval c =? 226) && (bval c1 =? 128) && ((bval c2 =? 168) || (bval c2 =? 169))
           then unicode_escape (8232 + (bval c2 - 168)) (compact_from r2 instr' esc')
           else String c (compact_from r instr' esc')
         | _ => String c (compact_from r instr' esc')
         end
  end.

Definition marshal_raw (raw : string) : result string :=
  match raw with
  | EmptyString => Ok "null"
  | _ => if json_valid raw then Ok (compact_from raw false false) else Err [Opaque "json: error calling MarshalJSON"]
  end.

(** ** command_capacity.go *)
Definition businessBatchBytes : Z := 1048576.
Definition maxCommandValueBytes : Z := businessBatchBytes - 1024.

(** The encoded length of the probe command: the field names and punctuation,
    a 36-byte identifier, three quoted timestamps of nanosecond precision, the
    longest status and a ten-digit attempt count. *)
Definition command_frame : string :=
  jtext "{'id':'','tenantId':,'deviceId':,'status':'published','payload':,'createdAt':,'updatedAt':,'dispatchAttempts':2147483647,'deadlineAt':}".
Definition stamp_text : string := jtext "'9999-12-31T23:59:59.999999999Z'".

Definition probe_command_len (tenant device compacted : string) : Z :=
  len command_frame + 36 + marshal_string_len tenant + marshal_string_len device
  + len compacted + 3 * len stamp_text.

Section capacity.
Context `{Unicode}.

Definition ValidateCommandInput (tenant device payload : string) : result unit :=
  let payload := if len payload =? 0 then "{}" else payload in
  _ ← ValidateCommandPayload payload;
  value ← marshal_raw payload;
  if maxCommandValueBytes <? probe_command_len tenant device value then Err [ErrInvalidPayload] else Ok tt.
End capacity.
