(* ===== verification/JsonText.v ===== *)
(** * Writing JSON text

    [json.Marshal] of strings and of objects of strings, byte by byte, and what
    the reader of GoJson makes of it: the text is one value, it holds no control
    character, and it reads back as what was written with ill-formed UTF-8
    replaced. *)
From stdpp Require Import prelude strings.
From Stdlib Require Import ZArith Lia Ascii.
From S2P Require Import Prelude GoStrings GoJson Base64 Utf8 Payload Domain.

Local Open Scope Z_scope.

(** ** Strings *)
Definition escape_char (r : Z) : option ascii :=
  if (r =? 34) || (r =? 92) then Some (chr r)
  else if r =? 8 then Some "b"%char
  else if r =? 12 then Some "f"%char
  else if r =? 10 then Some "n"%char
  else if r =? 13 then Some "r"%char
  else if r =? 9 then Some "t"%char
  else None.

(** One rune, whose bytes in the source are [raw]. *)
Definition marshal_rune (r : Z) (w : nat) (raw tail : string) : string :=
  if (r =? RuneError) && (w =? 1)%nat then unicode_escape RuneError tail
  else match escape_char r with
       | Some c => String backslash (String c tail)
       | None =>
         if (r <? 32) || (r =? 60) || (r =? 62) || (r =? 38) || (r =? 8232) || (r =? 8233) then unicode_escape r tail
         else raw +:+ tail
       end.

Fixpoint marshal_runes (rs : list (Z * nat)) (s tail : string) : string :=
  match rs with
  | [] => tail
  | (r, w) :: rs' => marshal_rune r w (str_take w s) (marshal_runes rs' (str_drop w s) tail)
  end.

(** The literal, followed by [tail]. *)
Definition marshal_string_to (s tail : string) : string := String dquote (marshal_runes (decode_runes s) s (String dquote tail)).
Definition marshal_string (s : string) : string := marshal_string_to s "".

(** *** What a reader makes of the pieces *)
Lemma hex_digit_val n : 0 <= n < 16 -> hex_val (Domain.hex_digit n) = Some n.
Proof.
  intros Hn. assert (HF : Forall (fun n => hex_val (Domain.hex_digit n) = Some n) (seqZ 0 16)) by (by repeat constructor).
  rewrite Forall_forall in HF. apply HF, elem_of_seqZ. lia.
Qed.

Lemma hex4_escape u : 0 <= u < 65536 ->
  hex4 (Domain.hex_digit (u / 4096 mod 16)) (Domain.hex_digit (u / 256 mod 16)) (Domain.hex_digit (u / 16 mod 16)) (Domain.hex_digit (u mod 16)) = Some u.
Proof.
  intros Hu. unfold hex4. rewrite !hex_digit_val by (apply Z.mod_pos_bound; lia). cbn [mbind option_bind]. f_equal. zdiv.
Qed.

Lemma scan_escape u tail : 0 <= u < 65536 -> is_high u = false ->
  scan_string (unicode_escape u tail) = '(t, rest) ← scan_string tail; Some (encode_rune u t, rest).
Proof.
  intros Hu Hh. unfold unicode_escape. cbn [scan_string]. rewrite (Ascii.eqb_refl backslash), (Ascii.eqb_refl "u"), (hex4_escape u Hu).
  change (Ascii.eqb backslash dquote) with false. cbv iota zeta. rewrite Hh. cbn [andb].
  destruct tail as [|b1 [|b2 [|l1 [|l2 [|l3 [|l4 r6]]]]]]; try done. by destruct (hex4 l1 l2 l3 l4).
Qed.

Lemma scan_simple r c tail : escape_char r = Some c ->
  scan_string (String backslash (String c tail)) = '(t, rest) ← scan_string tail; Some (encode_rune r t, rest).
Proof.
  unfold escape_char. intros Hc.
  repeat match type of Hc with (if ?b then _ else _) = _ => destruct b eqn:? end; simplify_eq;
    repeat match goal with H : (_ || _) = true |- _ => apply orb_true_iff in H as [?|?] end;
    repeat match goal with H : (_ =? _) = true |- _ => apply Z.eqb_eq in H as -> end; reflexivity.
Qed.

(** Bytes that stand for themselves in a literal. *)
Definition plain_in_json (c : ascii) : Prop := 32 <= bval c /\ bval c <> 34 /\ bval c <> 92.
Fixpoint all_bytes (P : ascii -> Prop) (s : string) : Prop :=
  match s with EmptyString => True | String c s' => P c /\ all_bytes P s' end.

Lemma all_bytes_app P s t : all_bytes P (s +:+ t) <-> all_bytes P s /\ all_bytes P t.
Proof. induction s as [|c s IH]; [rewrite str_app_nil_l; simpl; tauto|]. rewrite str_app_cons. simpl. tauto. Qed.

Lemma scan_plain p tail : all_bytes plain_in_json p ->
  scan_string (p +:+ tail) = '(t, rest) ← scan_string tail; Some (p +:+ t, rest).
Proof.
  induction p as [|c p IH]; intros Hp.
  { rewrite str_app_nil_l. destruct (scan_string tail) as [[t rest]|]; [|done]. simpl. by rewrite str_app_nil_l. }
  destruct Hp as [(H1 & H2 & H3) Hp]. rewrite str_app_cons. cbn [scan_string].
  destruct (Ascii.eqb_spec c dquote) as [->|]; [done|]. destruct (Ascii.eqb_spec c backslash) as [->|]; [done|].
  destruct (Z.ltb_spec (bval c) 32); [lia|]. rewrite IH by done.
  destruct (scan_string tail) as [[t rest]|]; [|done]. simpl. by rewrite str_app_cons.
Qed.

(** The bytes of a scalar value outside ASCII. *)
Lemma encode_rune_app r tail : scalar r -> encode_rune r tail = encode_rune r "" +:+ tail.
Proof. intros Hr. rewrite !encode_scalar by done. repeat case_match; by rewrite !str_app_cons, str_app_nil_l. Qed.

Lemma encode_rune_high r : scalar r -> 128 <= r -> all_bytes (fun c => 128 <= bval c) (encode_rune r "").
Proof.
  intros Hr H128. rewrite encode_scalar by done. destruct Hr as [H1 _].
  repeat case_match; rewrite ?Z.ltb_lt, ?Z.ltb_ge in *; cbn [all_bytes]; split_and!; try done; try (rewrite bval_chr; zdiv).
Qed.

Lemma str_take_prefix p tail : str_take (String.length p) (p +:+ tail) = p.
Proof. induction p as [|c p IH]; [by destruct tail|]. rewrite str_app_cons. cbn. by rewrite IH. Qed.

Lemma encode_rune_length r : scalar r -> String.length (encode_rune r "") = rune_size r.
Proof. intros Hr. rewrite encode_scalar by done. unfold rune_size. by repeat case_match. Qed.

(** The source bytes of a rune are its encoding. *)
Lemma rune_bytes c s r w : scalar r -> encode_rune r (str_drop w (String c s)) = String c s -> w = rune_size r ->
  str_take w (String c s) = encode_rune r "".
Proof.
  intros Hr He ->. set (rest := str_drop _ _) in *. rewrite <- He, encode_rune_app, <- (encode_rune_length r Hr) by done.
  apply str_take_prefix.
Qed.

Lemma all_bytes_impl (P Q : ascii -> Prop) s : (forall c, P c -> Q c) -> all_bytes P s -> all_bytes Q s.
Proof. intros HPQ. induction s as [|c s IH]; [done|]. intros [? ?]. split; auto. Qed.

Lemma to_valid_cons c s r w : decode_runes (String c s) = (r, w) :: decode_runes (str_drop w (String c s)) ->
  to_valid_utf8 (String c s) = encode_rune r (to_valid_utf8 (str_drop w (String c s))).
Proof. intros E. unfold to_valid_utf8, range_runes. by rewrite E. Qed.

(** The runes that are written as they are. *)
Lemma kept_plain r w : scalar r -> escape_char r = None ->
  (r <? 32) || (r =? 60) || (r =? 62) || (r =? 38) || (r =? 8232) || (r =? 8233) = false ->
  all_bytes plain_in_json (encode_rune r "") /\ (w = rune_size r -> (r =? RuneError) && (w =? 1)%nat = false).
Proof.
  intros Hr Hesc Hno.
  assert (H32 : 32 <= r /\ r <> 34 /\ r <> 92).
  { split_and!.
    - destruct (Z.ltb_spec r 32); [done|lia].
    - intros ->. done.
    - intros ->. done. }
  split.
  - destruct (Z.lt_ge_cases r 128).
    + rewrite encode_scalar by done. destruct (Z.ltb_spec r 128); [|lia]. cbn. unfold plain_in_json. rewrite bval_chr by lia. lia.
    + eapply all_bytes_impl; [|by apply encode_rune_high]. intros c Hc. unfold plain_in_json. simpl in Hc. lia.
  - intros ->. destruct (Z.eqb_spec r RuneError) as [->|]; done.
Qed.

(** What the reader decodes a written rune to. *)
Lemma scan_marshal_rune c s r w tail : first_rune c s r w ->
  scan_string (marshal_rune r w (str_take w (String c s)) tail) = '(t, rest) ← scan_string tail; Some (encode_rune r t, rest).
Proof.
  unfold marshal_rune. intros [(-> & -> & _)|(Hr & He & Hw & _)]; [by apply scan_escape|].
  destruct ((r =? RuneError) && (w =? 1)%nat) eqn:Hbad.
  { apply andb_true_iff in Hbad as [->%Z.eqb_eq _]. by apply scan_escape. }
  destruct (escape_char r) as [e|] eqn:Hesc; [by apply scan_simple|].
  destruct (_ || _) eqn:Hno.
  - apply scan_escape; destruct Hr as [H1 H2].
    + rewrite !orb_true_iff, !Z.eqb_eq, Z.ltb_lt in Hno. lia.
    + unfold is_high. destruct (Z.leb_spec 55296 r), (Z.leb_spec r 56319); try done. lia.
  - destruct (kept_plain r w Hr Hesc Hno) as [Hplain _]. rewrite (rune_bytes _ _ _ _ Hr He Hw), scan_plain by done.
    destruct (scan_string tail) as [[t rest]|]; [|done]. cbn [mbind option_bind]. by rewrite (encode_rune_app r t).
Qed.

Lemma scan_marshal s tail :
  scan_string (marshal_runes (decode_runes s) s (String dquote tail)) = Some (to_valid_utf8 s, tail).
Proof.
  induction s as [|c s r w E Hf IH] using rune_ind; [done|]. rewrite E, (to_valid_cons _ _ _ _ E). cbn [marshal_runes].
  rewrite (scan_marshal_rune _ _ _ _ _ Hf), IH. done.
Qed.

(** No byte of a literal is a control character. *)
Lemma hex_digit_printable n : 0 <= n < 16 -> 32 <= bval (Domain.hex_digit n).
Proof. intros Hn. unfold Domain.hex_digit. destruct (n <? 10) eqn:E; rewrite bval_chr; rewrite ?Z.ltb_lt, ?Z.ltb_ge in E; lia. Qed.

Definition printable (s : string) : Prop := all_bytes (fun c => 32 <= bval c) s.

Lemma printable_app s t : printable (s +:+ t) <-> printable s /\ printable t.
Proof. apply all_bytes_app. Qed.

Lemma escape_printable u tail : printable tail -> printable (unicode_escape u tail).
Proof.
  intros Ht. unfold printable, unicode_escape. cbn [all_bytes]. split_and!; try done; apply hex_digit_printable, Z.mod_pos_bound; lia.
Qed.

Lemma marshal_rune_printable c s r w tail : first_rune c s r w -> printable tail -> printable (marshal_rune r w (str_take w (String c s)) tail).
Proof.
  unfold marshal_rune. intros [(-> & -> & _)|(Hr & He & Hw & _)] Ht; [by apply escape_printable|].
  destruct (_ && _); [by apply escape_printable|]. destruct (escape_char r) as [e|] eqn:Hesc.
  - split; [done|split; [|done]]. unfold escape_char in Hesc.
    repeat match type of Hesc with (if ?b then _ else _) = _ => destruct b eqn:Hb; [|clear Hb] end; simplify_eq; try done.
    apply orb_true_iff in Hb as [->%Z.eqb_eq| ->%Z.eqb_eq]; done.
  - destruct (_ || _) eqn:Hno; [by apply escape_printable|].
    destruct (kept_plain r w Hr Hesc Hno) as [Hplain _]. rewrite (rune_bytes _ _ _ _ Hr He Hw). apply printable_app. split; [|done].
    eapply all_bytes_impl; [|exact Hplain]. by intros ? [? _].
Qed.

Lemma marshal_printable s tail : printable tail -> printable (marshal_string_to s tail).
Proof.
  intros Ht. split; [done|]. induction s as [|c s r w E Hf IH] using rune_ind; [done|].
  rewrite E. cbn [marshal_runes]. by apply marshal_rune_printable.
Qed.

(** The length the budgets charge for a string is the length that is written. *)
Lemma marshal_rune_length c s r w tail : first_rune c s r w ->
  len (marshal_rune r w (str_take w (String c s)) tail) = marshal_rune_len (r, w) + len tail.
Proof.
  unfold marshal_rune, marshal_rune_len. intros Hf.
  destruct ((r =? RuneError) && (w =? 1)%nat) eqn:Hbad; [unfold len; simpl; lia|].
  destruct Hf as [(-> & -> & _)|(Hr & He & Hw & _)]; [done|].
  destruct (escape_char r) as [e|] eqn:Hesc.
  - assert ((r =? 34) || (r =? 92) || (r =? 8) || (r =? 9) || (r =? 10) || (r =? 12) || (r =? 13) = true) as ->; [|unfold len; simpl; lia].
    unfold escape_char in Hesc. repeat case_match; simplify_eq; rewrite ?orb_true_iff in *; tauto.
  - assert ((r =? 34) || (r =? 92) || (r =? 8) || (r =? 9) || (r =? 10) || (r =? 12) || (r =? 13) = false) as ->.
    { unfold escape_char in Hesc. repeat case_match; simplify_eq; rewrite ?orb_false_iff in *; tauto. }
    destruct (_ || _); [unfold len; simpl; lia|]. rewrite (rune_bytes _ _ _ _ Hr He Hw), len_app.
    unfold len at 1. rewrite encode_rune_length by done. by rewrite Hw.
Qed.

Lemma marshal_string_length s : len (marshal_string s) = marshal_string_len s.
Proof.
  unfold marshal_string, marshal_string_to, marshal_string_len.
  assert (H : len (marshal_runes (decode_runes s) s (String dquote "")) = 1 + foldr (fun rw acc => marshal_rune_len rw + acc) 0 (decode_runes s)).
  { induction s as [|c s r w E Hf IH] using rune_ind; [done|]. rewrite E. cbn [marshal_runes foldr].
    rewrite marshal_rune_length by done. lia. }
  unfold len in *. cbn [String.length]. lia.
Qed.

(** ** Objects of strings *)
Fixpoint marshal_members (ms : list (string * string)) (tail : string) : string :=
  match ms with
  | [] => String "}" tail
  | (k, v) :: ms' =>
    marshal_string_to k (String ":" (marshal_string_to v
      (match ms' with [] => String "}" tail | _ => String "," (marshal_members ms' tail) end)))
  end.

Definition marshal_object (ms : list (string * string)) : string := String "{" (marshal_members ms "").

Definition read_member (kv : string * string) : string * json := (to_valid_utf8 kv.1, JStr (to_valid_utf8 kv.2)).

Lemma scan_literal f d s tail : (0 < f)%nat -> scan_value f d (marshal_string_to s tail) = Some (JStr (to_valid_utf8 s), tail).
Proof.
  destruct f as [|f]; [lia|]. intros _. unfold marshal_string_to. cbn [scan_value skip_ws]. change (is_ws dquote) with false. cbv iota.
  change (Ascii.eqb dquote "{") with false. change (Ascii.eqb dquote "[") with false. rewrite Ascii.eqb_refl, scan_marshal.
  cbn [mbind option_bind]. by rewrite to_valid_utf8_idem.
Qed.

Lemma scan_marshal_members ms tail f d : ms <> [] -> (length ms < f)%nat ->
  scan_members f d (marshal_members ms tail) = Some (map read_member ms, tail).
Proof.
  revert f. induction ms as [|[k v] ms IH]; intros f Hne Hf; [done|]. clear Hne. destruct f as [|f]; [simpl in Hf; lia|].
  cbn [marshal_members]. unfold marshal_string_to at 1. cbn [scan_members].
  change (skip_ws (String dquote ?x)) with (String dquote x). cbv match. rewrite Ascii.eqb_refl, scan_marshal. cbn [negb mbind option_bind].
  change (skip_ws (String ":" ?x)) with (String ":" x). cbv match. rewrite Ascii.eqb_refl. cbn [negb]. rewrite scan_literal by (simpl in Hf; lia). cbn [mbind option_bind].
  destruct ms as [|kv ms].
  - change (skip_ws (String "}" tail)) with (String "}" tail). cbv match. by rewrite to_valid_utf8_idem.
  - change (skip_ws (String "," ?x)) with (String "," x). cbv match. rewrite Ascii.eqb_refl.
    rewrite IH; [|done|simpl in *; lia]. cbn [mbind option_bind]. by rewrite to_valid_utf8_idem.
Qed.

(** An object of strings reads back. *)
Lemma parse_marshal_object ms : ms <> [] -> json_parse (marshal_object ms) = Some (JObj (map read_member ms)).
Proof.
  intros Hne. unfold json_parse.
  rewrite <- (json_fuel_enough _ (S (json_fuel (marshal_object ms) + S (length ms)))) by lia.
  set (f := (json_fuel _ + _)%nat). unfold marshal_object. cbn [scan_value]. change (skip_ws (String "{" ?x)) with (String "{" x). cbv match.
  rewrite Ascii.eqb_refl. change (maxNestingDepth <=? 0) with false. cbv match.
  assert (Hq : exists x, marshal_members ms "" = String dquote x).
  { destruct ms as [|[k v] ms]; [done|]. cbn [marshal_members]. unfold marshal_string_to at 1. eauto. }
  destruct Hq as [x Hx]. rewrite Hx. change (skip_ws (String dquote x)) with (String dquote x). cbv match.
  change (Ascii.eqb dquote "}") with false. cbv match. rewrite <- Hx, scan_marshal_members by (done || unfold f; lia). done.
Qed.

Lemma members_printable ms tail : printable tail -> printable (marshal_members ms tail).
Proof.
  intros Ht. induction ms as [|[k v] ms IH]; [done|]. cbn [marshal_members].
  apply marshal_printable. split; [done|]. apply marshal_printable. destruct ms; done.
Qed.

Lemma object_printable ms : printable (marshal_object ms).
Proof. split; [done|]. by apply members_printable. Qed.

Lemma printable_no_newline s : printable s -> contains_byte "010" s = false.
Proof.
  induction s as [|c s IH]; [done|]. intros [Hc Hs]. cbn [contains_byte]. rewrite IH by done.
  destruct (Ascii.eqb_spec "010"%char c) as [<-|]; [by vm_compute in Hc|done].
Qed.
