(* ===== verification/GoNet.v ===== *)
(** * Numbers, durations and addresses as text: Go's [strconv], [time], [net], [net/url] and [path]

    What the platform uses of them: decimal integers of 64 bits, durations,
    host and port, query strings, and the lexical clean-up of a path that an
    HTTP router performs before it matches routes. *)
From stdpp Require Import prelude strings gmap.
From Stdlib Require Import ZArith Lia Ascii SpecFloat.
From S2P Require Import Prelude GoStrings GoJson Base64 Payload Domain.

Local Open Scope Z_scope.

(** ** strconv *)
Definition min_int64 : Z := -9223372036854775808.
Definition max_int64 : Z := 9223372036854775807.
Definition in_int64 (n : Z) : bool := (min_int64 <=? n) && (n <=? max_int64).

(** The digits of [s], all of them decimal and at least one. *)
Definition decimal (s : string) : option Z :=
  match s with EmptyString => None | _ => digits_value 0 s end.

(** [strconv.Atoi] on a 64-bit platform; [None] is a syntax or a range error. *)
Definition Atoi (s : string) : option Z :=
  let signed := match s with
                | String c r => if Ascii.eqb c "-" then Z.opp <$> decimal r
                                else if Ascii.eqb c "+" then decimal r else decimal s
                | EmptyString => None
                end in
  match signed with
  | Some n => if in_int64 n then Some n else None
  | None => None
  end.

(** The decimal digits of [n], written before [tail]; an integer of 64 bits has
    at most nineteen. *)
Fixpoint decimal_digits (fuel : nat) (n : Z) (tail : string) : string :=
  let s := String (chr (48 + n mod 10)) tail in
  match fuel with
  | O => s
  | S fuel' => if n <? 10 then s else decimal_digits fuel' (n / 10) s
  end.

(** [strconv.Itoa], and [%d] of an integer. *)
Definition Itoa (n : Z) : string :=
  if n <? 0 then String "-" (decimal_digits 20 (- n) "") else decimal_digits 20 n "".

Lemma digits_value_digit acc d s :
  0 <= d < 10 -> digits_value acc (String (chr (48 + d)) s) = digits_value (10 * acc + d) s.
Proof.
  intros Hd. cbn [digits_value]. unfold is_digit. rewrite bval_chr by lia.
  rewrite (proj2 (Z.leb_le _ _)), (proj2 (Z.leb_le _ _)) by lia. simpl. f_equal. lia.
Qed.

Lemma digits_value_decimal fuel n tail :
  0 <= n < 10 ^ (Z.of_nat fuel + 1) -> digits_value 0 (decimal_digits fuel n tail) = digits_value n tail.
Proof.
  revert n tail. induction fuel as [|fuel IH]; intros n tail Hn; cbn [decimal_digits].
  - simpl in Hn. rewrite digits_value_digit by (apply Z.mod_pos_bound; lia). rewrite Z.mod_small by lia. done.
  - pose proof (Z.mod_pos_bound n 10 ltac:(lia)) as Hm. destruct (Z.ltb_spec n 10).
    + rewrite digits_value_digit by lia. rewrite Z.mod_small by lia. done.
    + rewrite IH.
      * rewrite digits_value_digit by lia. f_equal. pose proof (Z.div_mod n 10). lia.
      * rewrite Nat2Z.inj_succ, Z.add_succ_l, Z.pow_succ_r in Hn by lia.
        split; [apply Z.div_pos; lia|apply Z.div_lt_upper_bound; lia].
Qed.

Lemma decimal_digits_first fuel n tail : 0 <= n ->
  exists d r, decimal_digits fuel n tail = String (chr (48 + d)) r /\ 0 <= d < 10.
Proof.
  revert n tail. induction fuel as [|fuel IH]; intros n tail Hn; cbn [decimal_digits];
    pose proof (Z.mod_pos_bound n 10 ltac:(lia)); [eauto|].
  destruct (n <? 10); [eauto|]. apply IH. apply Z.div_pos; lia.
Qed.

Lemma decimal_decimal_digits n : 0 <= n < 10 ^ 21 -> decimal (decimal_digits 20 n "") = Some n.
Proof.
  intros Hn. unfold decimal. destruct (decimal_digits_first 20 n "") as (d & r & E & _); [lia|].
  pose proof (digits_value_decimal 20 n "" Hn) as Hv. rewrite E in *. exact Hv.
Qed.

Lemma digit_not_sign d : 0 <= d < 10 -> Ascii.eqb (chr (48 + d)) "-" = false /\ Ascii.eqb (chr (48 + d)) "+" = false.
Proof.
  intros Hd. split; apply Ascii.eqb_neq; intros E; apply (f_equal bval) in E; rewrite bval_chr in E by lia;
    change (bval _) with 45 in E || change (bval _) with 43 in E; lia.
Qed.

(** An integer of 64 bits is read back as it was written. *)
Lemma atoi_itoa n : min_int64 <= n <= max_int64 -> Atoi (Itoa n) = Some n.
Proof.
  intros Hn. unfold Atoi, Itoa. unfold min_int64, max_int64 in Hn.
  assert (Hr : in_int64 n = true) by (unfold in_int64, min_int64, max_int64; lia).
  destruct (Z.ltb_spec n 0).
  - rewrite Ascii.eqb_refl, decimal_decimal_digits by lia. simpl. by rewrite Z.opp_involutive, Hr.
  - destruct (decimal_digits_first 20 n "") as (d & r & E & Hd); [lia|]. rewrite E.
    destruct (digit_not_sign d Hd) as [-> ->]. rewrite <- E, decimal_decimal_digits by lia. by rewrite Hr.
Qed.

Lemma atoi_range s n : Atoi s = Some n -> min_int64 <= n <= max_int64.
Proof. unfold Atoi, in_int64. intros H. repeat case_match; simplify_eq; lia. Qed.

(** ** time.ParseDuration *)

(** [leadingInt]: the value, the digits left over; [None] when the value leaves
    the 63 bits a duration has. *)
Fixpoint leadingInt (x : Z) (s : string) : option (Z * string) :=
  match s with
  | String c r =>
    if negb (is_digit c) then Some (x, s)
    else if 2 ^ 63 / 10 <? x then None
    else let x := x * 10 + (bval c - 48) in
         if 2 ^ 63 <? x then None else leadingInt x r
  | EmptyString => Some (x, s)
  end.

(** [leadingFraction]: the digits that fit in 63 bits, how many they are, and
    what follows all the digits. *)
Fixpoint leadingFraction (x : Z) (places : nat) (overflow : bool) (s : string) : Z * nat * string :=
  match s with
  | String c r =>
    if negb (is_digit c) then (x, places, s)
    else if overflow then leadingFraction x places overflow r
    else if (2 ^ 63 - 1) / 10 <? x then leadingFraction x places true r
    else let y := x * 10 + (bval c - 48) in
         if 2 ^ 63 <? y then leadingFraction x places true r else leadingFraction y (S places) false r
  | EmptyString => (x, places, s)
  end.

(** float64 *)
Definition float_of_Z (z : Z) : spec_float := binary_normalize 53 1024 z 0 false.

Fixpoint float_scale (places : nat) : spec_float :=
  match places with O => float_of_Z 1 | S p => SFmul 53 1024 (float_scale p) (float_of_Z 10) end.

(** The conversion of a positive float64 to an integer drops the fraction. *)
Definition float_trunc (f : spec_float) : Z :=
  match f with
  | S754_finite false m e => if 0 <=? e then Z.shiftl (Zpos m) e else Z.shiftr (Zpos m) (- e)
  | _ => 0
  end.

(** [uint64(float64(f) * (float64(unit) / scale))] *)
Definition fraction_of (f unit : Z) (places : nat) : Z :=
  float_trunc (SFmul 53 1024 (float_of_Z f) (SFdiv 53 1024 (float_of_Z unit) (float_scale places))).

Definition unit_map : list (string * Z) :=
  [("ns", 1); ("us", 1000); (String (chr 194) (String (chr 181) "s"), 1000); (String (chr 206) (String (chr 188) "s"), 1000);
   ("ms", 1000000); ("s", 1000000000); ("m", 60000000000); ("h", 3600000000000)].

Fixpoint assoc {A} (k : string) (l : list (string * A)) : option A :=
  match l with [] => None | (k', v) :: l' => if String.eqb k k' then Some v else assoc k l' end.

(** The unit of a component: everything up to a digit or a point. *)
Fixpoint span_unit (s : string) : string * string :=
  match s with
  | String c r => if Ascii.eqb c "." || is_digit c then ("", s) else let '(u, t) := span_unit r in (String c u, t)
  | EmptyString => ("", "")
  end.

(** The optional fraction after the integer part, how many places it has, what
    follows it, and whether it has digits at all. *)
Definition duration_fraction (s : string) : Z * nat * string * bool :=
  match s with
  | String c r => if Ascii.eqb c "."
                  then let '(f, places, t) := leadingFraction 0 0 false r in
                       (f, places, t, negb (String.length t =? String.length r)%nat)
                  else (0, 0%nat, s, false)
  | EmptyString => (0, 0%nat, s, false)
  end.

(** One component: the value it adds, and what follows it. *)
Definition duration_component (s : string) : option (Z * string) :=
  match leadingInt 0 s with
  | None => None
  | Some (v, s1) =>
    let pre := negb (String.length s1 =? String.length s)%nat in
    let '(f, places, s2, post) := duration_fraction s1 in
    if negb pre && negb post then None
    else
      let '(u, s3) := span_unit s2 in
      match assoc u unit_map with
      | None => None
      | Some unit =>
        if 2 ^ 63 / unit <? v then None
        else let v := v * unit in
             if 0 <? f then let v := v + fraction_of f unit places in if 2 ^ 63 <? v then None else Some (v, s3)
             else Some (v, s3)
      end
  end.

(** The loop over the components; every component consumes a byte. *)
Fixpoint duration_loop (fuel : nat) (d : Z) (s : string) : option Z :=
  match s with
  | EmptyString => Some d
  | _ =>
    match fuel with
    | O => None
    | S fuel' =>
      match duration_component s with
      | None => None
      | Some (v, r) => if 2 ^ 63 <? d + v then None else duration_loop fuel' (d + v) r
      end
    end
  end.

Definition ParseDuration (s : string) : option Z :=
  let '(neg, s) := match s with
                   | String c r => if Ascii.eqb c "-" then (true, r) else if Ascii.eqb c "+" then (false, r) else (false, s)
                   | EmptyString => (false, s)
                   end in
  if String.eqb s "0" then Some 0
  else if String.eqb s "" then None
  else match duration_loop (String.length s) 0 s with
       | None => None
       | Some d => if neg then Some (- d) else if 2 ^ 63 - 1 <? d then None else Some d
       end.

Example duration_text :
  map ParseDuration ["5m"; "1.5h"; "250ms"; "-2h30m"; "0"; "5"; "1h.5s"; "0.3333333333333333333h"; "9223372036854775808ns"; ".s"]
  = [Some (5 * Minute); Some (90 * Minute); Some (250 * Millisecond); Some (- (150 * Minute)); Some 0; None;
     Some (60 * Minute + 500 * Millisecond); Some 1200000000000; None; None].
Proof. vm_compute. reflexivity. Qed.

(** The fuel is enough: every component is shorter than what it was read from. *)
Lemma leading_int_le x s v r : leadingInt x s = Some (v, r) -> (String.length r <= String.length s)%nat.
Proof.
  revert x. induction s as [|c s IH]; intros x; cbn [leadingInt]; [by intros [= <- <-]|].
  destruct (negb (is_digit c)); [by intros [= <- <-]|].
  destruct (_ <? _); [done|]. destruct (_ <? _); [done|]. intros H%IH. simpl. lia.
Qed.

Lemma leading_fraction_le x p o s : (String.length (leadingFraction x p o s).2 <= String.length s)%nat.
Proof.
  revert x p o. induction s as [|c s IH]; intros x p o; cbn [leadingFraction]; [done|].
  destruct (negb (is_digit c)); [done|].
  repeat case_match; simpl; (etransitivity; [apply IH|lia]).
Qed.

Lemma span_unit_le s u t : span_unit s = (u, t) -> (String.length u + String.length t = String.length s)%nat.
Proof.
  revert u t. induction s as [|c s IH]; intros u t; cbn [span_unit]; [by intros [= <- <-]|].
  destruct (_ || _); [by intros [= <- <-]|]. destruct (span_unit s) as [u' t'] eqn:E.
  intros [= <- <-]. specialize (IH u' t' eq_refl). simpl. lia.
Qed.

Lemma duration_fraction_le s f p t post : duration_fraction s = (f, p, t, post) -> (String.length t <= String.length s)%nat.
Proof.
  destruct s as [|c r]; cbn [duration_fraction]; [by intros [= _ _ <- _]|]. destruct (Ascii.eqb c "."); [|by intros [= _ _ <- _]].
  pose proof (leading_fraction_le 0 0 false r) as Hl. destruct (leadingFraction 0 0 false r) as [[f' p'] t'].
  intros [= _ _ <- _]. simpl in *. lia.
Qed.

Lemma duration_component_shorter s v r : duration_component s = Some (v, r) -> (String.length r < String.length s)%nat.
Proof.
  unfold duration_component. destruct (leadingInt 0 s) as [[v0 s1]|] eqn:E1; [|done]. apply leading_int_le in E1.
  destruct (duration_fraction s1) as [[[f p] s2] post] eqn:E2. apply duration_fraction_le in E2.
  destruct (negb _ && negb post); [done|]. destruct (span_unit s2) as [u s3] eqn:E3. apply span_unit_le in E3.
  destruct u as [|c u]; [done|]. simpl in E3. repeat case_match; intros; simplify_eq; lia.
Qed.

Lemma duration_fuel_enough s : forall f d, (String.length s <= f)%nat -> duration_loop f d s = duration_loop (String.length s) d s.
Proof.
  induction s as [s IH] using str_len_ind. intros f d Hf.
  destruct s as [|c s]; [by destruct f|]. destruct f as [|f]; [simpl in Hf; lia|].
  cbn [duration_loop String.length]. destruct (duration_component (String c s)) as [[v r]|] eqn:E; [|done].
  apply duration_component_shorter in E. simpl in E, Hf. destruct (_ <? _); [done|].
  assert (Hr : shorter r (String c s)) by (unfold shorter; simpl; lia).
  rewrite (IH r Hr), (IH r Hr (String.length s)) by lia. done.
Qed.

(** ** net.SplitHostPort *)

(** The text before and after the last occurrence of a byte. *)
Fixpoint cut_last (c : ascii) (s : string) : option (string * string) :=
  match s with
  | EmptyString => None
  | String d r =>
    match cut_last c r with
    | Some (a, b) => Some (String d a, b)
    | None => if Ascii.eqb c d then Some ("", r) else None
    end
  end.

(** In brackets, the first closing one must stand just before the last colon. *)
Definition SplitHostPort (hostport : string) : option (string * string) :=
  match cut_last ":" hostport with
  | None => None
  | Some (before, port) =>
    match hostport with
    | String c rest =>
      if Ascii.eqb c "[" then
        match cut_byte "]" rest with
        | None => None
        | Some (host, after) =>
          if String.eqb after (String ":" port) && negb (contains_byte "[" rest) && negb (contains_byte "]" after)
          then Some (host, port) else None
        end
      else if contains_byte ":" before || contains_byte "[" hostport || contains_byte "]" hostport then None
      else Some (before, port)
    | EmptyString => None
    end
  end.

Example split_host_port_text :
  map SplitHostPort [":8080"; "[::1]:80"; "a:b:c"; "localhost"; "[::1]"; "h:"; "[a]b:1"; "[a:1"]
  = [Some ("", "8080"); Some ("::1", "80"); None; None; None; Some ("h", ""); None; None].
Proof. reflexivity. Qed.

(** ** net/url *)

(** [url.QueryUnescape] *)
Fixpoint QueryUnescape (s : string) : option string :=
  match s with
  | EmptyString => Some EmptyString
  | String c r =>
    if Ascii.eqb c "%" then
      match r with
      | String a (String b r') =>
        x ← hex_val a; y ← hex_val b; t ← QueryUnescape r'; Some (String (chr (16 * x + y)) t)
      | _ => None
      end
    else t ← QueryUnescape r; Some (String (if Ascii.eqb c "+" then " "%char else c) t)
  end.

(** [url.Values] *)
Notation Values := (gmap string (list string)).

(** [Values.Get] *)
Definition values_get (v : Values) (key : string) : string :=
  match v !! key with Some (x :: _) => x | _ => "" end.

Definition values_add (key value : string) (v : Values) : Values := <[key := default [] (v !! key) ++ [value]]> v.

(** One pair of a query string: [None] is an error. *)
Definition query_pair (pair : string) (m : Values) : option Values :=
  if contains_byte ";" pair then None
  else if String.eqb pair "" then Some m
  else
    let '(key, value) := match cut_byte "=" pair with Some kv => kv | None => (pair, "") end in
    k ← QueryUnescape key; v ← QueryUnescape value; Some (values_add k v m).

Fixpoint query_pairs (pairs : list string) (m : Values) : option Values :=
  match pairs with
  | [] => Some m
  | p :: ps => m' ← query_pair p m; query_pairs ps m'
  end.

(** [url.ParseQuery]: the values, unless some pair is malformed. *)
Definition ParseQuery (query : string) : option Values :=
  if String.eqb query "" then Some ∅ else query_pairs (split_byte "&" query) ∅.

Example parse_query_text :
  (fun q => map_to_list <$> ParseQuery q) <$> ["pageSize=10&cursor=a%2Bb+c"; "a=1&a=2"; "a;b"; "x=%4"; ""; "&&k"]
  = [Some [("cursor", ["a+b c"]); ("pageSize", ["10"])]; Some [("a", ["1"; "2"])]; None; None; Some []; Some [("k", [""])]].
Proof. vm_compute. reflexivity. Qed.

(** ** path.Clean *)
Fixpoint clean_elems (rooted : bool) (out : list string) (elems : list string) : list string :=
  match elems with
  | [] => out
  | e :: es =>
    if String.eqb e "" || String.eqb e "." then clean_elems rooted out es
    else if String.eqb e ".." then
      match out with
      | p :: out' => if String.eqb p ".." then clean_elems rooted (".." :: out) es else clean_elems rooted out' es
      | [] => clean_elems rooted (if rooted then [] else [".."]) es
      end
    else clean_elems rooted (e :: out) es
  end.

Definition path_clean (path : string) : string :=
  let rooted := has_prefix path "/" in
  let body := join_byte "/" (rev (clean_elems rooted [] (split_byte "/" path))) in
  if rooted then "/" +:+ body else if String.eqb body "" then "." else body.

Example path_clean_text :
  map path_clean ["/a//b/./c/"; "/a/../../b"; "a/../.."; ""; "/"; "../a/.."] = ["/a/b/c"; "/b"; ".."; "."; "/"; ".."].
Proof. reflexivity. Qed.
