(* ===== verification/RuntimeConfig.v ===== *)
(** * Configuration from the environment: internal/runtimeconfig/config.go

    The environment is a function from names to values; an unset variable reads
    as the empty string, as [os.Getenv] has it. *)
From stdpp Require Import prelude strings gmap.
From Stdlib Require Import ZArith Lia Ascii.
From S2P Require Import Prelude GoStrings GoJson Base64 Payload Domain GoNet.

Local Open Scope Z_scope.

Definition Env := string -> string.

(** Arithmetic of a 64-bit integer wraps around. *)
Definition wrap64 (n : Z) : Z := (n + 2 ^ 63) mod 2 ^ 64 - 2 ^ 63.

Section config.
Context (env : Env).

Definition EnvOrDefault (key fallback : string) : string :=
  if negb (String.eqb (env key) "") then env key else fallback.

Definition Int (key : string) (fallback : Z) : Z :=
  if negb (String.eqb (env key) "") then match Atoi (env key) with Some n => n | None => fallback end else fallback.

Definition Duration (key : string) (fallback : Z) : Z :=
  if negb (String.eqb (env key) "") then
    match ParseDuration (env key) with
    | Some d => d
    | None => match Atoi (env key) with Some ms => wrap64 (ms * Millisecond) | None => fallback end
    end
  else fallback.

Definition ListenAddr (addrKey portKey fallback : string) : string :=
  if negb (String.eqb (env addrKey) "") then env addrKey
  else if negb (String.eqb (env portKey) "")
       then match Atoi (env portKey) with Some _ => ":" +:+ env portKey | None => fallback end
       else fallback.

Definition ListenHost (addrKey fallback : string) : string :=
  if negb (String.eqb (env addrKey) "") then
    match SplitHostPort (env addrKey) with
    | Some (host, _) => if negb (String.eqb host "") then host else fallback
    | None => fallback
    end
  else fallback.

Definition ListenPort (addrKey portKey : string) (fallback : Z) : Z :=
  let by_port := Int portKey fallback in
  if negb (String.eqb (env addrKey) "") then
    match SplitHostPort (env addrKey) with
    | Some (_, port) => match Atoi port with Some p => p | None => by_port end
    | None => by_port
    end
  else by_port.

Definition KafkaTopicReplicationFactor : Z := Int "KAFKA_TOPIC_REPLICATION_FACTOR" 1.
Definition KafkaTopicMinInsyncReplicas : Z := Int "KAFKA_TOPIC_MIN_INSYNC_REPLICAS" 1.
Definition KafkaTopicPartitions : Z := Int "KAFKA_TOPIC_PARTITIONS" 1.
Definition KafkaDLQRetentionMs : Z := Int "KAFKA_DLQ_RETENTION_MS" (7 * 24 * 60 * 60 * 1000).
End config.

Fixpoint keep_nonempty (parts : list string) : list string :=
  match parts with
  | [] => []
  | part :: rest => let part := trim_space part in
                    if negb (String.eqb part "") then part :: keep_nonempty rest else keep_nonempty rest
  end.

Definition SplitCSV (value : string) : list string := keep_nonempty (split_byte "," value).

(** ** What the readers promise *)

(** A list of names is read back as it was written, when every name is trimmed,
    not empty and free of commas. *)
Lemma split_csv_join p ps :
  Forall (fun q => contains_byte "," q = false /\ trim_space q = q /\ q <> "") (p :: ps) ->
  SplitCSV (join_byte "," (p :: ps)) = p :: ps.
Proof.
  intros H. unfold SplitCSV. rewrite split_join by (eapply Forall_impl; [exact H|]; by intros q (? & _)).
  induction H as [|q l (_ & Ht & Hne) _ IH]; [done|]. cbn [keep_nonempty]. rewrite Ht.
  apply String.eqb_neq in Hne as ->. simpl. by rewrite IH.
Qed.

(** No empty name is ever read. *)
Lemma split_csv_nonempty value : Forall (fun q => q <> "") (SplitCSV value).
Proof.
  unfold SplitCSV. induction (split_byte "," value) as [|part rest IH]; cbn [keep_nonempty]; [constructor|].
  destruct (String.eqb_spec (trim_space part) ""); simpl; [done|]. by constructor.
Qed.

(** An integer setting is the number the deployment wrote, or the default. *)
Lemma int_reads env key fallback n :
  min_int64 <= n <= max_int64 -> env key = Itoa n -> Int env key fallback = n.
Proof.
  intros Hn He. unfold Int. rewrite He, (atoi_itoa n Hn).
  destruct (String.eqb_spec (Itoa n) "") as [E|]; [|done]. pose proof (atoi_itoa n Hn) as Ha. by rewrite E in Ha.
Qed.

Lemma wrap64_id n : min_int64 <= n <= max_int64 -> wrap64 n = n.
Proof. unfold wrap64, min_int64, max_int64. intros. rewrite Z.mod_small; lia. Qed.

(** A number of milliseconds without a unit that leaves the 64 bits of a
    duration is not refused: it wraps around to another one. *)
Example duration_wraps :
  Duration (fun _ => "9223372036855") "COMMAND_ACK_TIMEOUT" (5 * Minute) = -9223372036854551616
  /\ Duration (fun _ => "300000") "COMMAND_ACK_TIMEOUT" 0 = 5 * Minute.
Proof. split; vm_compute; reflexivity. Qed.
