(* ===== verification/KafkaTopics.v ===== *)
(** * Provisioning Kafka topics: internal/platform/kafka_topics.go

    At start-up a service creates its topics and corrects the drift of their
    configuration.  The brokers, the network and the clock are the class
    [KafkaAdmin]; a context is its deadline.  A computation runs on the state of
    that world, records the requests it made, and is [None] when a loop ran out
    of fuel, which [KafkaTopicProperties] shows it never does. *)
From stdpp Require Import prelude strings gmap.
From Stdlib Require Import ZArith Lia.
From S2P Require Import Prelude GoStrings Domain GoNet RuntimeConfig.

Local Open Scope Z_scope.

Record KafkaTopicConfig := MkKafkaTopicConfig {
  ktc_SetupTimeout : Z;
  ktc_ReplicationFactor : Z;
  ktc_MinInsyncReplicas : Z;
  ktc_NumPartitions : Z;
  ktc_RetentionMs : Z;
  ktc_MinMessageBytes : Z }.

(** ** Messages of the Kafka admin protocol *)
Definition ConfigEntry := (string * string)%type.

Record TopicConfig := MkTopicConfig {
  tc_Topic : string;
  tc_NumPartitions : Z;
  tc_ReplicationFactor : Z;
  tc_ConfigEntries : list ConfigEntry }.

#[export] Instance topic_config_eq_dec : EqDecision TopicConfig.
Proof. solve_decision. Defined.

Record Partition := MkPartition { pt_Error : option error; pt_Replicas : list Z }.
Record Topic := MkTopic { tp_Name : string; tp_Error : option error; tp_Partitions : list Partition }.
Record DescribedResource := MkDescribedResource {
  dr_ResourceName : string;
  dr_Error : option error;
  dr_ConfigEntries : list ConfigEntry }.
Record KafkaBroker := MkKafkaBroker { kb_Host : string; kb_Port : Z }.

(** ** The configuration of a topic *)
Definition normalized (c : KafkaTopicConfig) : KafkaTopicConfig :=
  MkKafkaTopicConfig (ktc_SetupTimeout c)
    (if ktc_ReplicationFactor c <=? 0 then 1 else ktc_ReplicationFactor c)
    (if ktc_MinInsyncReplicas c <=? 0 then 1 else ktc_MinInsyncReplicas c)
    (if ktc_NumPartitions c <=? 0 then 1 else ktc_NumPartitions c)
    (ktc_RetentionMs c) (ktc_MinMessageBytes c).

Definition topic_entries (cfg : KafkaTopicConfig) : list ConfigEntry :=
  (if ktc_ReplicationFactor cfg <? ktc_MinInsyncReplicas cfg then []
   else [("min.insync.replicas", Itoa (ktc_MinInsyncReplicas cfg))])
  ++ (if 0 <? ktc_RetentionMs cfg then [("retention.ms", Itoa (ktc_RetentionMs cfg))] else [])
  ++ (if 0 <? ktc_MinMessageBytes cfg then [("max.message.bytes", Itoa (ktc_MinMessageBytes cfg))] else []).

Fixpoint topic_configs (cfg : KafkaTopicConfig) (topics : list string) : list TopicConfig :=
  match topics with
  | [] => []
  | topic :: rest =>
    if String.eqb topic "" then topic_configs cfg rest
    else MkTopicConfig topic (ktc_NumPartitions cfg) (ktc_ReplicationFactor cfg) (topic_entries cfg) :: topic_configs cfg rest
  end.

Definition buildTopicConfigs (topics : list string) (cfg : KafkaTopicConfig) : list TopicConfig :=
  topic_configs (normalized cfg) topics.

Definition deadLetterBatchBytes : Z := Z.shiftl 2 20.

Definition with_min_message_bytes (cfg : KafkaTopicConfig) (n : Z) : KafkaTopicConfig :=
  MkKafkaTopicConfig (ktc_SetupTimeout cfg) (ktc_ReplicationFactor cfg) (ktc_MinInsyncReplicas cfg)
    (ktc_NumPartitions cfg) (ktc_RetentionMs cfg) n.
Definition businessTopicConfig (cfg : KafkaTopicConfig) : KafkaTopicConfig :=
  with_min_message_bytes cfg (Z.max (ktc_MinMessageBytes cfg) businessBatchBytes).
Definition deadLetterTopicConfig (cfg : KafkaTopicConfig) : KafkaTopicConfig :=
  with_min_message_bytes cfg (Z.max (ktc_MinMessageBytes cfg) deadLetterBatchBytes).

(** bootstrap/run.go and core/server.go *)
Definition topicConfigFromEnv (env : Env) : KafkaTopicConfig :=
  MkKafkaTopicConfig 0 (KafkaTopicReplicationFactor env) (KafkaTopicMinInsyncReplicas env) (KafkaTopicPartitions env) 0 0.
Definition dlqTopicConfigFromEnv (env : Env) : KafkaTopicConfig :=
  let cfg := topicConfigFromEnv env in
  MkKafkaTopicConfig (ktc_SetupTimeout cfg) (ktc_ReplicationFactor cfg) (ktc_MinInsyncReplicas cfg)
    (ktc_NumPartitions cfg) (KafkaDLQRetentionMs env) (ktc_MinMessageBytes cfg).

(** The live values by name; a later entry of the answer replaces an earlier one. *)
Definition live_values (live : list ConfigEntry) : gmap string string :=
  foldl (fun values '(name, value) => <[name := value]> values) ∅ live.

Definition entry_satisfied (values : gmap string string) (entry : ConfigEntry) : bool :=
  let '(name, value) := entry in
  (String.eqb name "max.message.bytes"
   && match Atoi (default "" (values !! name)), Atoi value with
      | Some current, Some minimum => minimum <=? current
      | _, _ => false
      end)
  || match values !! name with Some current => String.eqb current value | None => false end.

Definition driftedConfigEntries (live desired : list ConfigEntry) : list ConfigEntry :=
  List.filter (fun entry => negb (entry_satisfied (live_values live) entry)) desired.

(** ** The world of the admin client

    [ka_select d ctx] waits for a timer of [d] or the end of [ctx], and answers
    whether it was the context. *)
Class KafkaAdmin := {
  ka_state : Type;
  ka_conn : Type;
  ka_now : ka_state -> Z;
  ka_Metadata : Z -> string -> list string -> ka_state -> result (list Topic) * ka_state;
  ka_DescribeConfigs : Z -> string -> string -> list string -> ka_state -> result (list DescribedResource) * ka_state;
  ka_IncrementalAlterConfigs : Z -> string -> string -> list ConfigEntry -> ka_state -> result (list (option error)) * ka_state;
  ka_DialContext : Z -> string -> ka_state -> result ka_conn * ka_state;
  ka_SetDeadline : ka_conn -> Z -> ka_state -> result unit * ka_state;
  ka_Controller : ka_conn -> ka_state -> result KafkaBroker * ka_state;
  ka_CreateTopics : ka_conn -> list TopicConfig -> ka_state -> result unit * ka_state;
  ka_Close : ka_conn -> ka_state -> ka_state;
  ka_select : Z -> Z -> ka_state -> bool * ka_state }.

Section setup.
Context `{KafkaAdmin}.

(** What was asked of the brokers, with the answer where it matters. *)
Inductive KEvent :=
| EDialled (address : string)
| EClosed
| ECreated (configs : list TopicConfig)
| EMetadata (topics : list Topic)
| EDescribed (topic : string) (entries : list ConfigEntry)
| EAltered (topic : string) (configs : list ConfigEntry).

(** Go's [(T, error)] over that world. *)
Definition Setup (A : Type) := ka_state -> option (result A * ka_state * list KEvent).

#[export] Instance setup_ret : MRet Setup := fun A a s => Some (Ok a, s, []).
#[export] Instance setup_bind : MBind Setup := fun A B f m s =>
  match m s with
  | None => None
  | Some (Err e, s1, l) => Some (Err e, s1, l)
  | Some (Ok a, s1, l) => match f a s1 with None => None | Some (r, s2, l') => Some (r, s2, l ++ l') end
  end.

Definition fail {A} (e : error) : Setup A := fun s => Some (Err e, s, []).
Definition emit (e : KEvent) : Setup unit := fun s => Some (Ok tt, s, [e]).
Definition request {A} (op : ka_state -> result A * ka_state) : Setup A := fun s =>
  let '(r, s1) := op s in Some (r, s1, []).
Definition now : Setup Z := fun s => Some (Ok (ka_now s), s, []).
(** The outcome of [m] as a value. *)
Definition outcome {A} (m : Setup A) : Setup (result A) := fun s =>
  match m s with None => None | Some (r, s1, l) => Some (Ok r, s1, l) end.
Definition yield_result {A} (r : result A) : Setup A := fun s => Some (r, s, []).
Definition out_of_fuel {A} : Setup A := fun _ => None.

(** ** Contexts: [context.WithTimeout], [ctx.Err()] *)
Definition WithTimeout (ctx timeout : Z) : Setup Z := t ← now; mret (Z.min ctx (t + timeout)).
Definition ctx_done (ctx t : Z) : bool := ctx <=? t.
Definition ctx_err (ctx : Z) : Setup bool := t ← now; mret (ctx_done ctx t).

(** ** Waiting for an altered configuration to be visible *)
Definition describe (ctx : Z) (addr topic : string) (names : list string) : Setup (list DescribedResource) :=
  request (ka_DescribeConfigs ctx addr topic names).

Definition one_resource (topic : string) (resources : list DescribedResource) : result DescribedResource :=
  match resources with
  | [res] => if negb (String.eqb (dr_ResourceName res) topic) then Err [Opaque "missing config response"]
             else match dr_Error res with Some e => Err (Opaque "describe configs" :: e) | None => Ok res end
  | _ => Err [Opaque "missing config response"]
  end.

Fixpoint visibility_loop (fuel : nat) (ctx : Z) (addr topic : string) (names : list string) (desired : list ConfigEntry) : Setup unit :=
  match fuel with
  | O => out_of_fuel
  | S fuel' =>
    answer ← outcome (describe ctx addr topic names);
    match answer with
    | Err e => fail (Opaque "waiting for config visibility" :: e)
    | Ok resources =>
      res ← yield_result (one_resource topic resources);
      _ ← emit (EDescribed topic (dr_ConfigEntries res));
      match driftedConfigEntries (dr_ConfigEntries res) desired with
      | [] => mret tt
      | _ =>
        done ← request (fun s => let '(b, s1) := ka_select (25 * Millisecond) ctx s in (Ok b, s1));
        if (done : bool) then fail [Opaque "waiting for config visibility"; ContextDeadlineExceeded]
        else visibility_loop fuel' ctx addr topic names desired
      end
    end
  end.

(** The rounds of a loop that waits [period] between rounds and ends at [ctx]:
    one at once, one per period, and one that finds the context done. *)
Definition rounds (period ctx t : Z) : nat := (Z.to_nat ((ctx - t) / period) + 2)%nat.

Definition waitForKafkaConfigVisibility (ctx : Z) (addr topic : string) (names : list string) (desired : list ConfigEntry) : Setup unit :=
  t ← now;
  visibility_loop (rounds (25 * Millisecond) ctx t) ctx addr topic names desired.

(** ** Reconciliation *)
Definition topics_by_name (topics : list Topic) : gmap string Topic :=
  foldl (fun m topic => <[tp_Name topic := topic]> m) ∅ topics.

Definition partition_check (tc : TopicConfig) (p : Partition) : result unit :=
  match pt_Error p with
  | Some e => Err (Opaque "partition metadata" :: e)
  | None => if negb (Z.of_nat (length (pt_Replicas p)) =? tc_ReplicationFactor tc)
            then Err [Opaque "replication factor; operational change required"] else Ok tt
  end.

Fixpoint partitions_check (tc : TopicConfig) (ps : list Partition) : result unit :=
  match ps with [] => Ok tt | p :: rest => _ ← partition_check tc p; partitions_check tc rest end.

Definition metadata_check (topics : gmap string Topic) (tc : TopicConfig) : result unit :=
  match topics !! tc_Topic tc with
  | None => Err [Opaque "missing metadata"]
  | Some live =>
    match tp_Error live with
    | Some e => Err (Opaque "metadata" :: e)
    | None =>
      if negb (Z.of_nat (length (tp_Partitions live)) =? tc_NumPartitions tc)
      then Err [Opaque "partition count; operational change required"]
      else partitions_check tc (tp_Partitions live)
    end
  end.

Definition alter_check (answers : list (option error)) : result unit :=
  match answers with
  | [None] => Ok tt
  | [Some e] => Err (Opaque "incremental alter configs" :: e)
  | _ => Err [Opaque "missing incremental config response"]
  end.

Definition first_resource (resources : list DescribedResource) : result DescribedResource :=
  match resources with
  | [] => Err [Opaque "missing config response"]
  | res :: _ => match dr_Error res with Some e => Err (Opaque "describe configs" :: e) | None => Ok res end
  end.

(** The body of the loop over the desired topics. *)
Definition reconcile_topic (ctx : Z) (addr : string) (topics : gmap string Topic) (tc : TopicConfig) : Setup unit :=
  _ ← yield_result (metadata_check topics tc);
  match tc_ConfigEntries tc with
  | [] => mret tt
  | _ =>
    let names := map fst (tc_ConfigEntries tc) in
    resources ← describe ctx addr (tc_Topic tc) names;
    res ← yield_result (first_resource resources);
    _ ← emit (EDescribed (tc_Topic tc) (dr_ConfigEntries res));
    match driftedConfigEntries (dr_ConfigEntries res) (tc_ConfigEntries tc) with
    | [] => mret tt
    | drift =>
      _ ← emit (EAltered (tc_Topic tc) drift);
      answers ← request (ka_IncrementalAlterConfigs ctx addr (tc_Topic tc) drift);
      _ ← yield_result (alter_check answers);
      waitForKafkaConfigVisibility ctx addr (tc_Topic tc) names (tc_ConfigEntries tc)
    end
  end.

Fixpoint reconcile_topics (ctx : Z) (addr : string) (topics : gmap string Topic) (desired : list TopicConfig) : Setup unit :=
  match desired with
  | [] => mret tt
  | tc :: rest => _ ← reconcile_topic ctx addr topics tc; reconcile_topics ctx addr topics rest
  end.

Definition reconcileKafkaTopicsWithClient (ctx : Z) (addr : string) (desired : list TopicConfig) : Setup unit :=
  meta ← request (ka_Metadata ctx addr (map tc_Topic desired));
  _ ← emit (EMetadata meta);
  reconcile_topics ctx addr (topics_by_name meta) desired.

(** ** Connections *)
Definition close_conn (conn : ka_conn) : Setup unit :=
  _ ← request (fun s => (Ok tt, ka_Close conn s)); emit EClosed.

Definition dialKafkaSetup (ctx : Z) (address : string) : Setup ka_conn :=
  conn ← request (ka_DialContext ctx address);
  _ ← emit (EDialled address);
  armed ← outcome (request (ka_SetDeadline conn ctx));
  match armed with
  | Err e => _ ← close_conn conn; fail e
  | Ok _ => mret conn
  end.

(** One bootstrap address: dial it and ask it for the controller. *)
Definition probe_controller (probe : Z) (address : string) : Setup KafkaBroker :=
  conn ← dialKafkaSetup probe address;
  controller ← outcome (request (ka_Controller conn));
  _ ← close_conn conn;
  yield_result controller.

(** [left_] addresses are left, the one at hand included; [failures] are the
    errors so far, joined at the end. *)
Fixpoint discover_loop (ctx : Z) (brokers : list string) (failures : error) : Setup KafkaBroker :=
  match brokers with
  | [] => fail failures
  | address :: rest =>
    expired ← ctx_err ctx;
    if (expired : bool) then fail [ContextDeadlineExceeded]
    else
      t ← now;
      probe ← WithTimeout ctx (Z.quot (ctx - t) (Z.of_nat (length brokers) + 1));
      found ← outcome (probe_controller probe address);
      match found with
      | Ok controller => mret controller
      | Err e => discover_loop ctx rest (failures ++ Opaque "bootstrap" :: e)
      end
  end.

Definition discoverKafkaController (ctx : Z) (brokers : list string) : Setup KafkaBroker := discover_loop ctx brokers [].

(** ** One attempt *)
Definition JoinHostPort (host : string) (port : string) : string :=
  if contains_sub host ":" then "[" +:+ host +:+ "]:" +:+ port else host +:+ ":" +:+ port.

Definition isr_exceeds (cfg : KafkaTopicConfig) : bool :=
  ktc_ReplicationFactor (normalized cfg) <? ktc_MinInsyncReplicas (normalized cfg).

(** With the connection to the controller open. *)
Definition provision (ctx : Z) (addr : string) (conn : ka_conn) (configs : list TopicConfig) : Setup unit :=
  _ ← emit (ECreated configs);
  _ ← request (ka_CreateTopics conn configs);
  reconcileKafkaTopicsWithClient ctx addr configs.

Definition provision_topics (ctx : Z) (brokers : list string) (configs : list TopicConfig) : Setup unit :=
  controller ← discoverKafkaController ctx brokers;
  let addr := JoinHostPort (kb_Host controller) (Itoa (kb_Port controller)) in
  conn ← dialKafkaSetup ctx addr;
  r ← outcome (provision ctx addr conn configs);
  _ ← close_conn conn;
  yield_result r.

Definition ensure_body (ctx : Z) (brokers : list string) (cfg : KafkaTopicConfig) (topics : list string) : Setup unit :=
  match brokers, topics with
  | [], _ | _, [] => mret tt
  | _, _ =>
    if isr_exceeds cfg then fail [Opaque "min.insync.replicas exceeds replication factor"]
    else match buildTopicConfigs topics cfg with
         | [] => mret tt
         | configs => provision_topics ctx brokers configs
         end
  end.

(** The deferred function turns any outcome into the error of a context that is done. *)
Definition ensureKafkaTopics (ctx : Z) (brokers : list string) (cfg : KafkaTopicConfig) (topics : list string) : Setup unit :=
  ctx ← WithTimeout ctx (5 * Second);
  r ← outcome (ensure_body ctx brokers cfg topics);
  expired ← ctx_err ctx;
  if (expired : bool) then fail [ContextDeadlineExceeded] else yield_result r.

(** ** Until it succeeds or the time is over *)
Definition init_failed : error := [Opaque "Kafka topic initialization failed"; ContextDeadlineExceeded].

Fixpoint until_loop (fuel : nat) (ctx : Z) (brokers : list string) (cfg : KafkaTopicConfig) (topics : list string) : Setup unit :=
  match fuel with
  | O => out_of_fuel
  | S fuel' =>
    attemptCtx ← WithTimeout ctx (5 * Second);
    last ← outcome (ensureKafkaTopics attemptCtx brokers cfg topics);
    match last with
    | Ok _ => mret tt
    | Err _ =>
      expired ← ctx_err ctx;
      if (expired : bool) then fail init_failed
      else
        done ← request (fun s => let '(b, s1) := ka_select (500 * Millisecond) ctx s in (Ok b, s1));
        if (done : bool) then fail init_failed else until_loop fuel' ctx brokers cfg topics
    end
  end.

Definition ensureKafkaTopicsUntil (ctx : Z) (brokers : list string) (cfg : KafkaTopicConfig) (topics : list string) : Setup unit :=
  if isr_exceeds cfg then fail [Opaque "min.insync.replicas exceeds replication factor"]
  else t ← now; until_loop (rounds (500 * Millisecond) ctx t) ctx brokers cfg topics.

(** [context.Background()] has no deadline of its own. *)
Definition initializeKafkaTopics (brokers : list string) (cfg : KafkaTopicConfig) (topics : list string) : Setup unit :=
  let timeout := if ktc_SetupTimeout cfg <=? 0 then 60 * Second else ktc_SetupTimeout cfg in
  t ← now;
  ensureKafkaTopicsUntil (t + timeout) brokers cfg topics.
End setup.
