(* ===== verification/KafkaTopicProperties.v ===== *)
(** * What provisioning topics guarantees

    It ends by its deadline whatever the brokers answer, closes every connection
    it opened, shares its time between the bootstrap addresses, alters only what
    has drifted, and succeeds only when it saw every topic as it should be. *)
From stdpp Require Import prelude strings gmap.
From Stdlib Require Import ZArith Lia.
From S2P Require Import Prelude GoStrings Domain GoNet RuntimeConfig KafkaTopics.

Local Open Scope Z_scope.

(** Time does not run backwards; a timer that fired has run its length; the wait
    of a context that is done already answers so. *)
Class KafkaClock `{KafkaAdmin} := {
  clock_metadata : forall ctx addr names s, ka_now s <= ka_now (ka_Metadata ctx addr names s).2;
  clock_describe : forall ctx addr topic names s, ka_now s <= ka_now (ka_DescribeConfigs ctx addr topic names s).2;
  clock_alter : forall ctx addr topic cs s, ka_now s <= ka_now (ka_IncrementalAlterConfigs ctx addr topic cs s).2;
  clock_dial : forall ctx addr s, ka_now s <= ka_now (ka_DialContext ctx addr s).2;
  clock_deadline : forall conn d s, ka_now s <= ka_now (ka_SetDeadline conn d s).2;
  clock_controller : forall conn s, ka_now s <= ka_now (ka_Controller conn s).2;
  clock_create : forall conn cs s, ka_now s <= ka_now (ka_CreateTopics conn cs s).2;
  clock_close : forall conn s, ka_now s <= ka_now (ka_Close conn s);
  clock_select : forall d ctx s, ka_now s <= ka_now (ka_select d ctx s).2;
  select_timer : forall d ctx s, (ka_select d ctx s).1 = false -> ka_now s + d <= ka_now (ka_select d ctx s).2;
  select_expired : forall d ctx s, ctx <= ka_now s -> (ka_select d ctx s).1 = true }.

Create HintDb setup.
#[export] Hint Resolve clock_metadata clock_describe clock_alter clock_dial clock_deadline clock_controller
  clock_create clock_close clock_select : setup.

(** ** Termination *)
Section terminates.
Context `{KafkaClock}.

Definition halts_at {A} (m : Setup A) (s : ka_state) : Prop :=
  exists r s' l, m s = Some (r, s', l) /\ ka_now s <= ka_now s'.
Definition halts {A} (m : Setup A) : Prop := forall s, halts_at m s.

Lemma halts_at_bind {A B} (m : Setup A) (f : A -> Setup B) s :
  halts_at m s -> (forall a s1 l, m s = Some (Ok a, s1, l) -> ka_now s <= ka_now s1 -> halts_at (f a) s1) -> halts_at (m ≫= f) s.
Proof.
  intros (r & s1 & l & E & Ht) Hf. unfold halts_at, mbind, setup_bind. rewrite E. destruct r as [a|e]; [|eauto 10].
  destruct (Hf _ _ _ E Ht) as (r' & s2 & l' & -> & Ht'). repeat eexists. lia.
Qed.

Lemma halts_bind {A B} (m : Setup A) (f : A -> Setup B) : halts m -> (forall a, halts (f a)) -> halts (m ≫= f).
Proof. intros Hm Hf s. apply halts_at_bind; [apply Hm|intros; apply Hf]. Qed.
Lemma halts_ret {A} (a : A) : halts (mret a).
Proof. intros s. repeat eexists. lia. Qed.
Lemma halts_fail {A} e : halts (@fail _ A e).
Proof. intros s. repeat eexists. lia. Qed.
Lemma halts_emit e : halts (emit e).
Proof. intros s. repeat eexists. lia. Qed.
Lemma halts_yield {A} (r : result A) : halts (yield_result r).
Proof. intros s. repeat eexists. lia. Qed.
Lemma halts_now : halts now.
Proof. intros s. repeat eexists. lia. Qed.
Lemma halts_request {A} (op : ka_state -> result A * ka_state) : (forall s, ka_now s <= ka_now (op s).2) -> halts (request op).
Proof. intros Hop s. unfold halts_at, request. specialize (Hop s). destruct (op s). eauto. Qed.
Lemma halts_at_outcome {A} (m : Setup A) s : halts_at m s -> halts_at (outcome m) s.
Proof. intros (r & s1 & l & E & Ht). unfold halts_at, outcome. rewrite E. eauto. Qed.
Lemma halts_outcome {A} (m : Setup A) : halts m -> halts (outcome m).
Proof. intros Hm s. apply halts_at_outcome, Hm. Qed.
Lemma halts_timeout ctx d : halts (WithTimeout ctx d).
Proof. apply halts_bind; [apply halts_now|intros; apply halts_ret]. Qed.
Lemma halts_ctx_err ctx : halts (ctx_err ctx).
Proof. apply halts_bind; [apply halts_now|intros; apply halts_ret]. Qed.
Lemma halts_select d ctx : halts (request (fun s => let '(b, s1) := ka_select d ctx s in (Ok b, s1))).
Proof. apply halts_request. intros s. pose proof (clock_select d ctx s). by destruct (ka_select d ctx s). Qed.
End terminates.

#[export] Hint Resolve halts_bind halts_ret halts_fail halts_emit halts_yield halts_now halts_request halts_outcome
  halts_timeout halts_ctx_err halts_select : setup.

(** Bind by bind and case by case. *)
Ltac halting :=
  repeat (intros; match goal with
          | |- halts (_ ≫= _) => apply halts_bind
          | |- halts (match ?x with _ => _ end) => destruct x
          | |- halts _ => solve [eauto with setup]
          end).

Section loops.
Context `{KafkaClock}.

(** A round that waits for [period] before the next one: [n] more rounds are
    enough when they cover the time that is left. *)
Lemma wait_then_halts {A} (period ctx : Z) (n : nat) (giveup : error) (next : Setup A) s :
  ctx - ka_now s < Z.of_nat n * period ->
  (forall n' s1, n = S n' -> ctx - ka_now s1 < Z.of_nat n' * period -> halts_at next s1) ->
  halts_at (request (fun s => let '(b, s1) := ka_select period ctx s in (Ok b, s1)) ≫=
            (fun done : bool => if done then fail giveup else next)) s.
Proof.
  intros Hleft Hnext. apply halts_at_bind; [apply halts_select|]. intros done s1 l E _.
  unfold request in E. pose proof (select_timer period ctx s) as Ht. pose proof (select_expired period ctx s) as He.
  destruct (ka_select period ctx s) as [b s2]. simplify_eq/=. destruct done; [apply halts_fail|].
  destruct n as [|n]; [specialize (He ltac:(lia)); done|]. specialize (Ht eq_refl). apply (Hnext n); [done|lia].
Qed.

Lemma rounds_enough period ctx t : 0 < period -> exists n, rounds period ctx t = S n /\ ctx - t < Z.of_nat n * period.
Proof.
  intros Hp. exists (Z.to_nat ((ctx - t) / period) + 1)%nat. unfold rounds. split; [lia|].
  pose proof (Z.mul_succ_div_gt (ctx - t) period Hp).
  assert ((ctx - t) / period <= Z.of_nat (Z.to_nat ((ctx - t) / period))) by lia. nia.
Qed.

Lemma visibility_loop_halts n ctx addr topic names desired s :
  ctx - ka_now s < Z.of_nat n * (25 * Millisecond) -> halts_at (visibility_loop (S n) ctx addr topic names desired) s.
Proof.
  revert s. induction n as [n IH] using lt_wf_ind; intros s Hleft. cbn [visibility_loop].
  apply halts_at_bind; [apply halts_outcome; unfold describe; eauto with setup|]. intros [resources|e] s1 l1 _ Ht1; [|apply halts_fail].
  apply halts_at_bind; [apply halts_yield|]. intros res s2 l2 _ Ht2.
  apply halts_at_bind; [apply halts_emit|]. intros _ s3 l3 _ Ht3.
  destruct driftedConfigEntries; [apply halts_ret|].
  apply (wait_then_halts _ _ n); [lia|]. intros n' s4 -> ?. apply IH; [lia|done].
Qed.

Lemma wait_visibility_halts ctx addr topic names desired : halts (waitForKafkaConfigVisibility ctx addr topic names desired).
Proof.
  intros s. apply halts_at_bind; [apply halts_now|]. intros t s1 l E _. injection E as <- <- _.
  destruct (rounds_enough (25 * Millisecond) ctx (ka_now s)) as (n & -> & ?); [done|]. by apply visibility_loop_halts.
Qed.
Hint Resolve wait_visibility_halts : setup.

Lemma reconcile_topic_halts ctx addr topics tc : halts (reconcile_topic ctx addr topics tc).
Proof. unfold reconcile_topic, describe. halting. Qed.
Hint Resolve reconcile_topic_halts : setup.

Lemma reconcile_topics_halts ctx addr topics desired : halts (reconcile_topics ctx addr topics desired).
Proof. induction desired; simpl; halting. Qed.
Hint Resolve reconcile_topics_halts : setup.

Lemma close_conn_halts conn : halts (close_conn conn).
Proof. unfold close_conn. apply halts_bind; [apply halts_request; intros; simpl; auto with setup|halting]. Qed.
Hint Resolve close_conn_halts : setup.

Lemma dial_halts ctx address : halts (dialKafkaSetup ctx address).
Proof. unfold dialKafkaSetup. halting. Qed.
Hint Resolve dial_halts : setup.

Lemma probe_halts ctx address : halts (probe_controller ctx address).
Proof. unfold probe_controller. halting. Qed.
Hint Resolve probe_halts : setup.

Lemma discover_halts ctx brokers failures : halts (discover_loop ctx brokers failures).
Proof. revert failures. induction brokers; intros failures; cbn [discover_loop]; halting. Qed.
Hint Resolve discover_halts : setup.

Lemma ensure_halts ctx brokers cfg topics : halts (ensureKafkaTopics ctx brokers cfg topics).
Proof.
  unfold ensureKafkaTopics, ensure_body, provision_topics, provision, discoverKafkaController, reconcileKafkaTopicsWithClient.
  halting; apply halts_outcome; halting; apply halts_outcome; halting.
Qed.

Lemma until_loop_halts n ctx brokers cfg topics s :
  ctx - ka_now s < Z.of_nat n * (500 * Millisecond) -> halts_at (until_loop (S n) ctx brokers cfg topics) s.
Proof.
  revert s. induction n as [n IH] using lt_wf_ind; intros s Hleft. cbn [until_loop].
  apply halts_at_bind; [apply halts_timeout|]. intros attempt s1 l1 _ Ht1.
  apply halts_at_bind; [apply halts_outcome, ensure_halts|]. intros [[]|e] s2 l2 _ Ht2; [apply halts_ret|].
  apply halts_at_bind; [apply halts_ctx_err|]. intros [] s3 l3 _ Ht3; [apply halts_fail|].
  apply (wait_then_halts _ _ n); [lia|]. intros n' s4 -> ?. apply IH; [lia|done].
Qed.

Lemma initialize_halts brokers cfg topics : halts (initializeKafkaTopics brokers cfg topics).
Proof.
  unfold initializeKafkaTopics, ensureKafkaTopicsUntil. apply halts_bind; [apply halts_now|]. intros t s.
  destruct (isr_exceeds cfg); [apply halts_fail|]. apply halts_at_bind; [apply halts_now|]. intros t' s1 l E _.
  injection E as <- <- _. edestruct (rounds_enough (500 * Millisecond)) as (n & -> & ?); [done|]. by apply until_loop_halts.
Qed.
End loops.

(** ** Runs *)
Lemma setup_bind_inv `{KafkaAdmin} {A B} (m : Setup A) (f : A -> Setup B) s r s' l :
  (m ≫= f) s = Some (r, s', l) ->
  (exists e, m s = Some (Err e, s', l) /\ r = Err e) \/
  (exists a s1 l1 l2, m s = Some (Ok a, s1, l1) /\ f a s1 = Some (r, s', l2) /\ l = l1 ++ l2).
Proof.
  unfold mbind, setup_bind. destruct (m s) as [[[[a|e] s1] l1]|]; [| |discriminate].
  - destruct (f a s1) as [[[r' s2] l2]|] eqn:E; [|discriminate]. intros [= <- <- <-]. eauto 10.
  - intros [= <- <- <-]. eauto.
Qed.

Lemma outcome_inv `{KafkaAdmin} {A} (m : Setup A) s r s' l :
  outcome m s = Some (r, s', l) -> exists o, r = Ok o /\ m s = Some (o, s', l).
Proof. unfold outcome. destruct (m s) as [[[o s1] l1]|]; [|discriminate]. intros [= <- <- <-]. eauto. Qed.

Lemma request_inv `{KafkaAdmin} {A} (op : ka_state -> result A * ka_state) s r s' l :
  request op s = Some (r, s', l) -> op s = (r, s') /\ l = [].
Proof. unfold request. destruct (op s). by intros [= <- <- <-]. Qed.

(** A successful run, step by step. *)
Ltac run_ok H :=
  repeat match type of H with
  | (_ ≫= _) _ = Some (Ok _, _, _) =>
    let a := fresh "a" in let s := fresh "s" in let l1 := fresh "l" in let l2 := fresh "l" in
    let Hr := fresh "Hrun" in let E := fresh "El" in
    apply setup_bind_inv in H as [(? & _ & H)|(a & s & l1 & l2 & Hr & H & E)]; [discriminate H|]
  end.

(** *** Facts about every trace *)
Section traces.
Context `{KafkaAdmin}.
Variable P : list KEvent -> Prop.
Hypothesis P_nil : P [].
Hypothesis P_app : forall l l', P l -> P l' -> P (l ++ l').

Definition traces {A} (m : Setup A) : Prop := forall s r s' l, m s = Some (r, s', l) -> P l.

Lemma traces_bind {A B} (m : Setup A) (f : A -> Setup B) : traces m -> (forall a, traces (f a)) -> traces (m ≫= f).
Proof.
  intros Hm Hf s r s' l [(e & E & _)|(a & s1 & l1 & l2 & E1 & E2 & ->)]%setup_bind_inv; [by eapply Hm|].
  apply P_app; [by eapply Hm|by eapply Hf].
Qed.
Lemma traces_ret {A} (a : A) : traces (mret a).
Proof. by intros s r s' l [= <- <- <-]. Qed.
Lemma traces_fail {A} e : traces (@fail _ A e).
Proof. by intros s r s' l [= <- <- <-]. Qed.
Lemma traces_yield {A} (o : result A) : traces (yield_result o).
Proof. by intros s r s' l [= <- <- <-]. Qed.
Lemma traces_now : traces now.
Proof. by intros s r s' l [= <- <- <-]. Qed.
Lemma traces_request {A} (op : ka_state -> result A * ka_state) : traces (request op).
Proof. by intros s r s' l [_ ->]%request_inv. Qed.
Lemma traces_outcome {A} (m : Setup A) : traces m -> traces (outcome m).
Proof. intros Hm s r s' l (o & _ & E)%outcome_inv. by eapply Hm. Qed.
Lemma traces_emit e : P [e] -> traces (emit e).
Proof. by intros He s r s' l [= <- <- <-]. Qed.
Lemma traces_timeout ctx d : traces (WithTimeout ctx d).
Proof. apply traces_bind; [apply traces_now|intros; apply traces_ret]. Qed.
Lemma traces_ctx_err ctx : traces (ctx_err ctx).
Proof. apply traces_bind; [apply traces_now|intros; apply traces_ret]. Qed.
Lemma traces_fuel {A} : traces (@out_of_fuel _ A).
Proof. by intros s r s' l. Qed.
End traces.

Ltac tracing :=
  repeat (intros; match goal with
          | |- traces _ (_ ≫= _) => apply traces_bind; [by auto with setup| |]
          | |- traces _ (match ?x with _ => _ end) => destruct x
          | |- traces _ (mret _) => by apply traces_ret; auto with setup
          | |- traces _ (fail _) => by apply traces_fail; auto with setup
          | |- traces _ (yield_result _) => by apply traces_yield; auto with setup
          | |- traces _ now => by apply traces_now; auto with setup
          | |- traces _ (request _) => by apply traces_request; auto with setup
          | |- traces _ (describe _ _ _ _) => by apply traces_request; auto with setup
          | |- traces _ (WithTimeout _ _) => by apply traces_timeout; auto with setup
          | |- traces _ (ctx_err _) => by apply traces_ctx_err; auto with setup
          | |- traces _ out_of_fuel => by apply traces_fuel; auto with setup
          | |- traces _ (outcome _) => apply traces_outcome
          | |- traces _ (emit _) => apply traces_emit; [by auto with setup]
          | |- traces _ _ => solve [eauto with setup]
          end).

(** *** What is altered *)
Section alters.
Context `{KafkaAdmin}.

(** Every alteration follows the description it corrects, at once, and sets the
    entries of a desired topic that had drifted in it. *)
Definition alters_drift (desired : list TopicConfig) (l : list KEvent) : Prop :=
  forall l1 t cs l2, l = l1 ++ EAltered t cs :: l2 ->
  exists l0 es tc, l1 = l0 ++ [EDescribed t es] /\ tc ∈ desired /\ tc_Topic tc = t /\ cs = driftedConfigEntries es (tc_ConfigEntries tc).

Lemma alters_nil desired : alters_drift desired [].
Proof. intros [] ? ? ?; discriminate. Qed.

Lemma alters_app desired l l' : alters_drift desired l -> alters_drift desired l' -> alters_drift desired (l ++ l').
Proof.
  intros Hl Hl' l1 t cs l2 E. symmetry in E. apply app_eq_inv in E as [(k & E1 & E2)|(k & E1 & E2)].
  - destruct (Hl' k t cs l2 E2) as (l0 & es & tc & -> & ?). exists (l ++ l0), es, tc. by rewrite E1, <- app_assoc.
  - destruct k as [|e k]; simplify_list_eq; [destruct (Hl' [] t cs l2 eq_refl) as (l0 & ? & ? & E & _); by destruct l0|].
    destruct (Hl l1 t cs k eq_refl) as (l0 & es & tc & -> & ?). eauto 10.
Qed.

Definition quiet (e : KEvent) : bool := match e with EAltered _ _ => false | _ => true end.

Lemma alters_quiet desired e : quiet e = true -> alters_drift desired [e].
Proof. intros He l1 t cs l2 E. destruct l1 as [|? []]; simplify_list_eq. Qed.
Hint Resolve alters_quiet alters_nil alters_app : setup.

Lemma visibility_alters desired fuel ctx addr topic names entries :
  traces (alters_drift desired) (visibility_loop fuel ctx addr topic names entries).
Proof. induction fuel; cbn [visibility_loop]; tracing. Qed.
Hint Resolve visibility_alters : setup.

Lemma described_alters {A} desired tc es (k : unit -> Setup A) :
  tc ∈ desired -> (forall u, traces (alters_drift desired) (k u)) ->
  traces (alters_drift desired)
    (emit (EDescribed (tc_Topic tc) es) ≫= fun _ => emit (EAltered (tc_Topic tc) (driftedConfigEntries es (tc_ConfigEntries tc))) ≫= k).
Proof.
  intros Htc Hk s r s' l [(e & [=] & _)|(u & s1 & l1 & l2 & [= <- <- <-] & E & ->)]%setup_bind_inv.
  apply setup_bind_inv in E as [(e & [=] & _)|(v & s2 & l1 & l3 & [= <- <- <-] & E & ->)].
  rewrite app_assoc. apply alters_app; [|by eapply Hk].
  intros [|? [|? []]] t cs l2 El; simplify_list_eq. by exists [], es, tc.
Qed.

Lemma reconcile_topic_alters desired ctx addr topics tc :
  tc ∈ desired -> traces (alters_drift desired) (reconcile_topic ctx addr topics tc).
Proof.
  intros Htc. unfold reconcile_topic, waitForKafkaConfigVisibility.
  apply traces_bind; [auto with setup|tracing|intros _]. destruct (tc_ConfigEntries tc) as [|entry more] eqn:Hes; [tracing|].
  rewrite <- Hes. apply traces_bind; [auto with setup|tracing|intros resources].
  apply traces_bind; [auto with setup|tracing|intros res].
  destruct (driftedConfigEntries (dr_ConfigEntries res) (tc_ConfigEntries tc)) eqn:Ed; [tracing|].
  rewrite <- Ed. apply described_alters; [done|]. tracing.
Qed.

Lemma reconcile_alters desired ctx addr topics rest :
  rest ⊆ desired -> traces (alters_drift desired) (reconcile_topics ctx addr topics rest).
Proof.
  induction rest as [|tc rest IH]; intros Hsub; cbn [reconcile_topics]; [tracing|].
  apply traces_bind; [auto with setup|apply reconcile_topic_alters; set_solver|intros _; apply IH; set_solver].
Qed.

Lemma close_alters desired conn : traces (alters_drift desired) (close_conn conn).
Proof. unfold close_conn. tracing. Qed.
Hint Resolve close_alters : setup.

Lemma discover_alters desired ctx brokers failures : traces (alters_drift desired) (discover_loop ctx brokers failures).
Proof. revert failures. induction brokers; intros failures; cbn [discover_loop]; unfold probe_controller, dialKafkaSetup; tracing. Qed.
Hint Resolve discover_alters : setup.

Lemma ensure_alters ctx brokers cfg topics : traces (alters_drift (buildTopicConfigs topics cfg)) (ensureKafkaTopics ctx brokers cfg topics).
Proof.
  unfold ensureKafkaTopics, ensure_body, provision_topics, provision, discoverKafkaController, reconcileKafkaTopicsWithClient, dialKafkaSetup.
  destruct (buildTopicConfigs topics cfg) as [|tc rest] eqn:Eb; [tracing|]. tracing. all: intros; by apply reconcile_alters.
Qed.
Hint Resolve ensure_alters : setup.

Lemma until_alters fuel ctx brokers cfg topics : traces (alters_drift (buildTopicConfigs topics cfg)) (until_loop fuel ctx brokers cfg topics).
Proof. induction fuel; cbn [until_loop]; tracing. Qed.
Hint Resolve until_alters : setup.

Lemma initialize_alters brokers cfg topics : traces (alters_drift (buildTopicConfigs topics cfg)) (initializeKafkaTopics brokers cfg topics).
Proof. unfold initializeKafkaTopics, ensureKafkaTopicsUntil. tracing. Qed.
End alters.

(** *** Connections *)
Section connections.
Context `{KafkaAdmin}.

(** How many connections a trace leaves open. *)
Fixpoint left_open (l : list KEvent) : Z :=
  match l with
  | [] => 0
  | EDialled _ :: l => 1 + left_open l
  | EClosed :: l => left_open l - 1
  | _ :: l => left_open l
  end.
Definition balanced (l : list KEvent) : Prop := left_open l = 0.

Lemma left_open_app l l' : left_open (l ++ l') = left_open l + left_open l'.
Proof. induction l as [|[] l IH]; simpl; rewrite ?IH; lia. Qed.
Lemma balanced_app l l' : balanced l -> balanced l' -> balanced (l ++ l').
Proof. unfold balanced. rewrite left_open_app. lia. Qed.
Lemma balanced_nil : balanced [].
Proof. done. Qed.
Lemma balanced_event e : left_open [e] = 0 -> balanced [e].
Proof. done. Qed.
Hint Resolve balanced_app balanced_nil balanced_event : setup.

Lemma close_conn_run conn s r s' l : close_conn conn s = Some (r, s', l) -> r = Ok tt /\ s' = ka_Close conn s /\ l = [EClosed].
Proof. by intros [= <- <- <-]. Qed.

Lemma dial_opens ctx address s r s' l :
  dialKafkaSetup ctx address s = Some (r, s', l) -> left_open l = if is_ok r then 1 else 0.
Proof.
  intros [(e & E & ->)|(conn & s1 & l1 & l2 & [_ ->]%request_inv & E & ->)]%setup_bind_inv.
  { apply request_inv in E as [_ ->]. done. }
  apply setup_bind_inv in E as [(e & [=] & _)|(u & s2 & l3 & l4 & [= <- <- <-] & E & ->)].
  apply setup_bind_inv in E as [(e & (? & [=] & _)%outcome_inv & _)|(o & s3 & l5 & l6 & E1 & E & ->)].
  apply outcome_inv in E1 as (o' & [= ->] & [_ ->]%request_inv). destruct o' as [[]|e]; [by injection E as <- <- <-|].
  apply setup_bind_inv in E as [(e' & (E & _ & _)%close_conn_run & _)|(u' & s4 & l7 & l8 & (_ & _ & ->)%close_conn_run & [= <- <- <-] & ->)];
    done.
Qed.

(** A connection that is used and then closed, whatever the outcome. *)
Lemma connection_closed {A} ctx address (use : ka_conn -> Setup A) :
  (forall conn, traces balanced (use conn)) ->
  traces balanced (conn ← dialKafkaSetup ctx address; o ← outcome (use conn); _ ← close_conn conn; yield_result o).
Proof.
  intros Huse s r s' l [(e & Ed%dial_opens & _)|(conn & s1 & l1 & l2 & Ed%dial_opens & E & ->)]%setup_bind_inv; [done|].
  apply setup_bind_inv in E as [(e & (? & [=] & _)%outcome_inv & _)|(o & s2 & l3 & l4 & (o' & _ & Eu%Huse)%outcome_inv & E & ->)].
  apply setup_bind_inv in E as [(e' & ([=] & _ & _)%close_conn_run & _)|(u' & s4 & l7 & l8 & (_ & _ & ->)%close_conn_run & [= <- <- <-] & ->)].
  unfold balanced in *. rewrite !left_open_app, Ed, Eu. done.
Qed.

Lemma probe_balanced ctx address : traces balanced (probe_controller ctx address).
Proof. apply connection_closed. tracing. Qed.
Hint Resolve probe_balanced : setup.

Lemma discover_balanced ctx brokers failures : traces balanced (discover_loop ctx brokers failures).
Proof. revert failures. induction brokers; intros failures; cbn [discover_loop]; tracing. Qed.
Hint Resolve discover_balanced : setup.

Lemma visibility_balanced fuel ctx addr topic names entries : traces balanced (visibility_loop fuel ctx addr topic names entries).
Proof. induction fuel; cbn [visibility_loop]; tracing. Qed.
Hint Resolve visibility_balanced : setup.

Lemma reconcile_balanced ctx addr topics desired : traces balanced (reconcile_topics ctx addr topics desired).
Proof. induction desired; cbn [reconcile_topics]; unfold reconcile_topic, waitForKafkaConfigVisibility; tracing. Qed.
Hint Resolve reconcile_balanced : setup.

Lemma provision_balanced ctx brokers configs : traces balanced (provision_topics ctx brokers configs).
Proof.
  unfold provision_topics. apply traces_bind; [auto with setup|unfold discoverKafkaController; tracing|intros controller].
  apply connection_closed. unfold provision, reconcileKafkaTopicsWithClient. tracing.
Qed.
Hint Resolve provision_balanced : setup.

Lemma until_balanced fuel ctx brokers cfg topics : traces balanced (until_loop fuel ctx brokers cfg topics).
Proof. induction fuel; cbn [until_loop]; unfold ensureKafkaTopics, ensure_body; tracing. Qed.
Hint Resolve until_balanced : setup.

Lemma initialize_balanced brokers cfg topics : traces balanced (initializeKafkaTopics brokers cfg topics).
Proof. unfold initializeKafkaTopics, ensureKafkaTopicsUntil. tracing. Qed.
End connections.

(** *** What a success has seen *)
Section success.
Context `{KafkaAdmin}.

(** The last description of the topic in the trace shows nothing to correct. *)
Definition settled (tc : TopicConfig) (l : list KEvent) : Prop :=
  exists l1 es l2, l = l1 ++ EDescribed (tc_Topic tc) es :: l2
    /\ driftedConfigEntries es (tc_ConfigEntries tc) = [] /\ forall cs, EAltered (tc_Topic tc) cs ∉ l2.

Lemma settled_app tc l l' : settled tc l' -> settled tc (l ++ l').
Proof. intros (l1 & es & l2 & -> & ?). exists (l ++ l1), es, l2. by rewrite <- app_assoc. Qed.

Lemma settled_extend tc l l' : settled tc l -> (forall cs, EAltered (tc_Topic tc) cs ∉ l') -> settled tc (l ++ l').
Proof. intros (l1 & es & l2 & -> & ? & Hn) Hn'. exists l1, es, (l2 ++ l'). rewrite <- app_assoc. set_solver. Qed.

Lemma visibility_settled tc fuel ctx addr names s u s' l :
  visibility_loop fuel ctx addr (tc_Topic tc) names (tc_ConfigEntries tc) s = Some (Ok u, s', l) -> settled tc l.
Proof.
  revert s s' l. induction fuel as [|fuel IH]; intros s s' l; cbn [visibility_loop]; [done|]. intros E.
  run_ok E. destruct a as [resources|e]; [|done]. run_ok E.
  injection Hrun1 as <- <- <-. injection Hrun0 as _ _ <-. subst. apply settled_app.
  destruct (driftedConfigEntries (dr_ConfigEntries a) (tc_ConfigEntries tc)) eqn:Ed.
  - injection E as <- <- <-. exists [], (dr_ConfigEntries a), []. set_solver.
  - run_ok E. destruct a0; [done|]. subst. repeat apply settled_app. by eapply IH.
Qed.

Lemma reconcile_topic_settled ctx addr topics tc s u s' l :
  tc_ConfigEntries tc <> [] -> reconcile_topic ctx addr topics tc s = Some (Ok u, s', l) ->
  metadata_check topics tc = Ok tt /\ settled tc l.
Proof.
  intros Hne E. unfold reconcile_topic in E. run_ok E. injection Hrun as -> _ <-. destruct a. split; [done|]. subst.
  destruct (tc_ConfigEntries tc) as [|entry more] eqn:Hes; [done|]. rewrite <- Hes in E. cbv zeta in E. run_ok E. subst.
  injection Hrun1 as <- <- <-. do 3 apply settled_app. destruct (driftedConfigEntries (dr_ConfigEntries a0) (tc_ConfigEntries tc)) eqn:Ed.
  - injection E as <- <- <-. exists [], (dr_ConfigEntries a0), []. set_solver.
  - unfold waitForKafkaConfigVisibility in E. run_ok E. subst. repeat apply settled_app. by eapply visibility_settled.
Qed.

Lemma reconcile_settled ctx addr topics desired s u s' l :
  Forall (fun tc => tc_ConfigEntries tc <> []) desired ->
  (forall tc tc', tc ∈ desired -> tc' ∈ desired -> tc_Topic tc = tc_Topic tc' -> tc = tc') ->
  reconcile_topics ctx addr topics desired s = Some (Ok u, s', l) ->
  forall tc, tc ∈ desired -> metadata_check topics tc = Ok tt /\ settled tc l.
Proof.
  intros Hne. revert s s' l. induction Hne as [|tc0 rest Htc0 _ IH]; intros s s' l Hinj E tc Hin; [set_solver|].
  cbn [reconcile_topics] in E. run_ok E. subst l.
  pose proof (reconcile_alters rest ctx addr topics rest ltac:(done) _ _ _ _ E) as Halt.
  destruct (decide (tc ∈ rest)) as [Hr|Hr].
  - destruct (IH _ _ _ ltac:(set_solver) E tc Hr). split; [done|]. by apply settled_app.
  - assert (tc = tc0) as -> by set_solver. destruct (reconcile_topic_settled _ _ _ _ _ _ _ _ Htc0 Hrun). split; [done|].
    apply settled_extend; [done|]. intros cs (k1 & k2 & ->)%list_elem_of_split.
    destruct (Halt k1 _ cs k2 eq_refl) as (? & ? & tc' & _ & Hin' & Et & _). apply Hr. by rewrite (Hinj tc0 tc'); [|set_solver|set_solver|].
Qed.
End success.

(** ** The configuration a success has seen *)
Lemma topic_configs_elem cfg topics tc :
  tc ∈ topic_configs cfg topics <->
  tc_Topic tc ∈ topics /\ tc_Topic tc <> "" /\ tc = MkTopicConfig (tc_Topic tc) (ktc_NumPartitions cfg) (ktc_ReplicationFactor cfg) (topic_entries cfg).
Proof.
  induction topics as [|topic topics IH]; simpl; [split; [by intros ?%elem_of_nil|by intros (?%elem_of_nil & _)]|].
  destruct (String.eqb_spec topic "") as [->|Hne].
  - rewrite IH, elem_of_cons. naive_solver.
  - rewrite elem_of_cons, IH, elem_of_cons. split.
    + intros [->|?]; simpl; naive_solver.
    + intros ([->|?] & ? & E); [left; rewrite E; done|naive_solver].
Qed.

(** An entry without drift: the text is the desired one, except that a larger
    message limit is left alone. *)
Lemma no_drift_value es desired name value :
  driftedConfigEntries es desired = [] -> (name, value) ∈ desired ->
  (name <> "max.message.bytes" -> live_values es !! name = Some value) /\
  (name = "max.message.bytes" -> forall m, Atoi value = Some m ->
   exists current n, live_values es !! name = Some current /\ Atoi current = Some n /\ m <= n).
Proof.
  intros Hd Hin. assert (Hs : entry_satisfied (live_values es) (name, value) = true).
  { destruct (entry_satisfied (live_values es) (name, value)) eqn:E; [done|]. exfalso.
    assert (Hf : List.In (name, value) (driftedConfigEntries es desired)).
    { unfold driftedConfigEntries. apply filter_In. rewrite E. split; [by apply list_elem_of_In|done]. }
    by rewrite Hd in Hf. }
  unfold entry_satisfied in Hs. apply orb_true_iff in Hs as [[->%String.eqb_eq Hs]%andb_true_iff|Hs].
  - split; [done|]. intros _ m Em. rewrite Em in Hs. destruct (live_values es !! "max.message.bytes") as [current|] eqn:El; simpl in Hs.
    + destruct (Atoi current) as [n|] eqn:En; [|done]. exists current, n. split_and!; [done..|lia].
    + done.
  - destruct (live_values es !! name) as [current|] eqn:El; [|done]. apply String.eqb_eq in Hs as ->.
    split; [done|]. intros _ m Em. exists value, m. split_and!; [done..|lia].
Qed.

(** The other direction, for what is altered: an entry is only set when the
    live one was different, and a message limit only when it was below. *)
Lemma drift_value es desired name value :
  (name, value) ∈ driftedConfigEntries es desired ->
  (name, value) ∈ desired /\ live_values es !! name <> Some value /\
  forall current n m, name = "max.message.bytes" -> live_values es !! name = Some current -> Atoi current = Some n -> Atoi value = Some m -> n < m.
Proof.
  intros Hin. apply list_elem_of_In in Hin. unfold driftedConfigEntries in Hin. apply filter_In in Hin as [Hin Hs].
  split; [by apply list_elem_of_In|]. apply negb_true_iff in Hs. unfold entry_satisfied in Hs. apply orb_false_iff in Hs as [Hmax Heq].
  split; [intros E; rewrite E, String.eqb_refl in Heq; done|]. intros current n m -> Ec En Em.
  rewrite Ec in Hmax. simpl in Hmax. rewrite En, Em in Hmax. lia.
Qed.

Lemma metadata_check_ok topics tc : metadata_check topics tc = Ok tt ->
  exists live, topics !! tc_Topic tc = Some live /\ tp_Error live = None
    /\ Z.of_nat (length (tp_Partitions live)) = tc_NumPartitions tc
    /\ Forall (fun p => pt_Error p = None /\ Z.of_nat (length (pt_Replicas p)) = tc_ReplicationFactor tc) (tp_Partitions live).
Proof.
  unfold metadata_check. destruct (topics !! tc_Topic tc) as [live|]; [|done]. destruct (tp_Error live) eqn:Ee; [done|].
  destruct (Z.eqb_spec (Z.of_nat (length (tp_Partitions live))) (tc_NumPartitions tc)); [|done]. intros Hp.
  exists live. split_and!; [done..|]. clear -Hp. induction (tp_Partitions live) as [|p ps IH]; [constructor|].
  cbn [partitions_check] in Hp. apply result_bind_ok in Hp as ([] & Hp & Hps). constructor; [|by apply IH].
  unfold partition_check in Hp. destruct (pt_Error p); [done|]. split; [done|].
  destruct (Z.eqb_spec (Z.of_nat (length (pt_Replicas p))) (tc_ReplicationFactor tc)); done.
Qed.

Section initialized.
Context `{KafkaAdmin}.

(** What is known of a topic when its set-up has succeeded: the answers in the
    trace [l] show its partitions and replicas, and after the last alteration of
    the topic its configuration. *)
Record provisioned (cfg : KafkaTopicConfig) (topic : string) (l : list KEvent) : Prop := {
  prov_metadata : exists metas live, EMetadata metas ∈ l /\ topics_by_name metas !! topic = Some live /\ tp_Error live = None
    /\ Z.of_nat (length (tp_Partitions live)) = ktc_NumPartitions cfg
    /\ Forall (fun p => pt_Error p = None /\ Z.of_nat (length (pt_Replicas p)) = ktc_ReplicationFactor cfg) (tp_Partitions live);
  prov_config : exists l1 es l2, l = l1 ++ EDescribed topic es :: l2 /\ (forall cs, EAltered topic cs ∉ l2)
    /\ live_values es !! "min.insync.replicas" = Some (Itoa (ktc_MinInsyncReplicas cfg))
    /\ (0 < ktc_RetentionMs cfg -> live_values es !! "retention.ms" = Some (Itoa (ktc_RetentionMs cfg)))
    /\ (0 < ktc_MinMessageBytes cfg -> exists current n, live_values es !! "max.message.bytes" = Some current
          /\ Atoi current = Some n /\ ktc_MinMessageBytes cfg <= n) }.

Lemma until_loop_ok fuel ctx brokers cfg topics s u s' l :
  until_loop fuel ctx brokers cfg topics s = Some (Ok u, s', l) ->
  exists ctx' s1 l1 l2, ensureKafkaTopics ctx' brokers cfg topics s1 = Some (Ok tt, s', l2) /\ l = l1 ++ l2.
Proof.
  revert s l. induction fuel as [|fuel IH]; intros s l; cbn [until_loop]; [done|]. intros E. run_ok E.
  apply outcome_inv in Hrun0 as (o & [= ->] & Hrun0). destruct o as [[]|e].
  - injection E as <- <- <-. subst. rewrite app_nil_r. eauto 10.
  - run_ok E. destruct a0; [done|]. run_ok E. destruct a0; [done|].
    destruct (IH _ _ E) as (ctx' & s5 & k1 & k2 & Hk & ->). subst. exists ctx', s5. eexists _, k2. split; [done|].
    by rewrite !app_assoc.
Qed.

Lemma provision_ok ctx addr conn configs s u s' l :
  provision ctx addr conn configs s = Some (Ok u, s', l) ->
  exists meta s1 l2, l = [ECreated configs; EMetadata meta] ++ l2
    /\ reconcile_topics ctx addr (topics_by_name meta) configs s1 = Some (Ok tt, s', l2).
Proof.
  unfold provision, reconcileKafkaTopicsWithClient. intros E. run_ok E. destruct u. injection Hrun as <- <- <-.
  apply request_inv in Hrun0 as [_ ->]. apply request_inv in Hrun1 as [_ ->]. injection Hrun2 as <- <- <-. subst. eauto.
Qed.

Lemma provision_topics_ok ctx brokers configs s u s' l :
  provision_topics ctx brokers configs s = Some (Ok u, s', l) ->
  exists addr meta s1 s2 l1 l2, l = l1 ++ EMetadata meta :: l2 ++ [EClosed]
    /\ reconcile_topics ctx addr (topics_by_name meta) configs s1 = Some (Ok tt, s2, l2).
Proof.
  unfold provision_topics. intros E. run_ok E. apply outcome_inv in Hrun1 as (o & [= ->] & Ep).
  apply close_conn_run in Hrun2 as (_ & _ & ->). injection E as -> _ <-.
  apply provision_ok in Ep as (meta & s5 & k & -> & Er). subst. eexists _, meta, _, _, (l0 ++ l2 ++ [ECreated configs]), _.
  split; [|exact Er]. by simplify_list_eq.
Qed.

Lemma ensure_ok ctx brokers cfg topics s u s' l :
  brokers <> [] -> isr_exceeds cfg = false -> buildTopicConfigs topics cfg <> [] ->
  ensureKafkaTopics ctx brokers cfg topics s = Some (Ok u, s', l) ->
  exists ctx' addr meta s1 s2 l1 l2, l = l1 ++ EMetadata meta :: l2 ++ [EClosed]
    /\ reconcile_topics ctx' addr (topics_by_name meta) (buildTopicConfigs topics cfg) s1 = Some (Ok tt, s2, l2).
Proof.
  intros Hb Hisr Hne E. unfold ensureKafkaTopics in E. run_ok E. destruct a1; [done|]. injection E as -> _ <-.
  apply outcome_inv in Hrun0 as (o & [= <-] & E). unfold ensure_body in E.
  destruct brokers as [|b brokers]; [done|]. destruct topics as [|topic topics]; [done|]. rewrite Hisr in E.
  destruct (buildTopicConfigs (topic :: topics) cfg) as [|tc configs]; [done|].
  apply provision_topics_ok in E as (addr & meta & s5 & s6 & k1 & k2 & -> & Er). injection Hrun as _ _ <-. injection Hrun1 as _ _ <-.
  subst. eexists _, addr, meta, s5, s6, k1, k2. by simplify_list_eq.
Qed.

Lemma reconciled_provisioned ctx addr meta topics cfg s s' l l1 topic :
  isr_exceeds cfg = false -> ktc_MinMessageBytes cfg <= max_int64 -> topic ∈ topics -> topic <> "" ->
  reconcile_topics ctx addr (topics_by_name meta) (buildTopicConfigs topics cfg) s = Some (Ok tt, s', l) ->
  provisioned (normalized cfg) topic (l1 ++ EMetadata meta :: l ++ [EClosed]).
Proof.
  intros Hisr Hmax Hin Hne E. set (n := normalized cfg) in *.
  set (tc := MkTopicConfig topic (ktc_NumPartitions n) (ktc_ReplicationFactor n) (topic_entries n)).
  assert (Hentries : ("min.insync.replicas", Itoa (ktc_MinInsyncReplicas n)) ∈ topic_entries n).
  { unfold topic_entries. unfold isr_exceeds in Hisr. fold n in Hisr. rewrite Hisr. set_solver. }
  assert (Hall : forall tc', tc' ∈ buildTopicConfigs topics cfg -> tc' = MkTopicConfig (tc_Topic tc') (ktc_NumPartitions n) (ktc_ReplicationFactor n) (topic_entries n))
    by (intros tc' Htc'%topic_configs_elem; tauto).
  destruct (reconcile_settled _ _ _ _ _ _ _ _ ltac:(apply Forall_forall; intros tc' ->%Hall; simpl; intros Hnil; rewrite Hnil in Hentries; set_solver)
              ltac:(intros t1 t2 H1%Hall H2%Hall Heq; rewrite H1, H2, Heq; done) E tc) as [Hm Hs].
  { apply topic_configs_elem. done. }
  split.
  - apply metadata_check_ok in Hm as (live & ? & ? & ? & ?). exists meta, live. split; [set_solver|]. done.
  - destruct Hs as (k1 & es & k2 & -> & Hd & Hk). exists (l1 ++ EMetadata meta :: k1), es, (k2 ++ [EClosed]).
    split; [by simplify_list_eq|]. split; [set_solver|].
    pose proof (fun name value => no_drift_value es (topic_entries n) name value Hd) as Hv.
    split; [by apply Hv|]. split.
    + intros Hr. apply Hv; [|done]. clear -Hr. unfold topic_entries. rewrite (proj2 (Z.ltb_lt _ _) Hr). set_solver.
    + intros Hr. eapply Hv; [|done|apply atoi_itoa; unfold min_int64; split; [lia|exact Hmax]].
      clear -Hr. unfold topic_entries. rewrite (proj2 (Z.ltb_lt _ _) Hr). set_solver.
Qed.

(** C24: setting up the topics of a service succeeds only when the brokers
    have shown that every named topic exists with the configured numbers of
    partitions and replicas and no error, and, in the last description of the
    topic that was read after any alteration of it, that min.insync.replicas
    and the retention are the configured ones and the message limit is at
    least the configured one; for every cluster, clock and fault. *)
Theorem kafka_setup_success brokers cfg topics s s' l topic :
  initializeKafkaTopics brokers cfg topics s = Some (Ok tt, s', l) ->
  brokers <> [] -> ktc_MinMessageBytes cfg <= max_int64 -> topic ∈ topics -> topic <> "" ->
  provisioned (normalized cfg) topic l.
Proof.
  intros E Hb Hmax Hin Hne. unfold initializeKafkaTopics, ensureKafkaTopicsUntil in E. run_ok E. injection Hrun as _ _ <-.
  destruct (isr_exceeds cfg) eqn:Hisr; [done|]. run_ok E. injection Hrun as _ _ <-.
  apply until_loop_ok in E as (ctx & s3 & k1 & k2 & E & ->). apply ensure_ok in E as (ctx' & addr & meta & s4 & s5 & k3 & k4 & -> & Er); [|done|done|].
  - subst. simpl. rewrite app_assoc. by eapply reconciled_provisioned.
  - intros Hnil. assert (Hf : MkTopicConfig topic (ktc_NumPartitions (normalized cfg)) (ktc_ReplicationFactor (normalized cfg)) (topic_entries (normalized cfg)) ∈ buildTopicConfigs topics cfg)
      by (by apply topic_configs_elem). rewrite Hnil in Hf. set_solver.
Qed.

(** Whatever the outcome of setting up topics, a configuration is altered
    only for a topic that was asked for, right after a description of it, and
    only in entries of the desired configuration whose described value was
    different; a message limit is never lowered. *)
Theorem kafka_alters_only_drift brokers cfg topics s r s' l l1 t cs l2 :
  initializeKafkaTopics brokers cfg topics s = Some (r, s', l) -> l = l1 ++ EAltered t cs :: l2 ->
  t ∈ topics /\ exists l0 es, l1 = l0 ++ [EDescribed t es]
  /\ forall name value, (name, value) ∈ cs ->
     (name, value) ∈ topic_entries (normalized cfg) /\ live_values es !! name <> Some value
     /\ forall current n m, name = "max.message.bytes" -> live_values es !! name = Some current ->
        Atoi current = Some n -> Atoi value = Some m -> n < m.
Proof.
  intros E El. destruct (initialize_alters _ _ _ _ _ _ _ E l1 t cs l2 El) as (l0 & es & tc & -> & Hin & <- & ->).
  apply topic_configs_elem in Hin as (? & ? & Etc). split; [done|]. exists l0, es. split; [done|]. intros name value.
  rewrite Etc. simpl. apply drift_value.
Qed.

(** C16: setting up topics returns after finitely many rounds whatever the
    brokers answer, because the rounds of its two waiting loops are bounded by
    the time that is left, and it leaves no connection open. *)
Theorem kafka_setup_terminates `{!KafkaClock} brokers cfg topics s :
  exists r s' l, initializeKafkaTopics brokers cfg topics s = Some (r, s', l) /\ ka_now s <= ka_now s' /\ left_open l = 0.
Proof.
  destruct (initialize_halts brokers cfg topics s) as (r & s' & l & E & Ht). exists r, s', l. split_and!; [done..|].
  by apply (initialize_balanced _ _ _ _ _ _ _ E).
Qed.
End initialized.

(** ** Sharing the time between bootstrap addresses *)

(** Dialling and asking for the controller end by the deadline they were given. *)
Class KafkaTimely `{KafkaAdmin} := {
  dial_timely : forall ctx addr s, ka_now (ka_DialContext ctx addr s).2 <= Z.max (ka_now s) ctx;
  arm_instant : forall conn d s, ka_now (ka_SetDeadline conn d s).2 = ka_now s;
  controller_timely : forall conn d s s1, ka_SetDeadline conn d s = (Ok tt, s1) -> ka_now (ka_Controller conn s1).2 <= Z.max (ka_now s1) d;
  close_instant : forall conn s, ka_now (ka_Close conn s) = ka_now s }.

Section timely.
Context `{KafkaTimely}.

Lemma dial_setup_time ctx address s r s' l :
  dialKafkaSetup ctx address s = Some (r, s', l) -> ka_now s' <= Z.max (ka_now s) ctx
  /\ forall conn, r = Ok conn -> exists s0, ka_SetDeadline conn ctx s0 = (Ok tt, s').
Proof.
  pose proof (dial_timely ctx address s) as Hd. intros [(e & E & ->)|(conn & s1 & l1 & l2 & [Ed ->]%request_inv & E & ->)]%setup_bind_inv.
  { apply request_inv in E as [Ed _]. rewrite Ed in Hd. done. }
  rewrite Ed in Hd. apply setup_bind_inv in E as [(e & [=] & _)|(u & s2 & l3 & l4 & [= <- <- <-] & E & ->)].
  apply setup_bind_inv in E as [(e & (? & [=] & _)%outcome_inv & _)|(o & s3 & l5 & l6 & E1 & E & ->)].
  apply outcome_inv in E1 as (o' & [= ->] & [Ea _]%request_inv). pose proof (arm_instant conn ctx s1) as Ha. rewrite Ea in Ha. simpl in *.
  destruct o' as [[]|e].
  - injection E as <- <- <-. split; [lia|]. intros conn' [= <-]. eauto.
  - apply setup_bind_inv in E as [(e' & (E & _ & _)%close_conn_run & _)|(u' & s4 & l7 & l8 & (_ & -> & _)%close_conn_run & [= <- <- <-] & _)];
      [done|]. rewrite close_instant. split; [lia|done].
Qed.

Lemma probe_time ctx address s r s' l : probe_controller ctx address s = Some (r, s', l) -> ka_now s' <= Z.max (ka_now s) ctx.
Proof.
  intros [(e & [Hd _]%dial_setup_time & _)|(conn & s1 & l1 & l2 & [Hd Ha]%dial_setup_time & E & _)]%setup_bind_inv; [done|].
  destruct (Ha conn eq_refl) as [s0 Ea]. pose proof (controller_timely _ _ _ _ Ea) as Hc.
  apply setup_bind_inv in E as [(e & (? & [=] & _)%outcome_inv & _)|(o & s2 & l3 & l4 & (o' & _ & [Ec _]%request_inv)%outcome_inv & E & _)].
  rewrite Ec in Hc. simpl in Hc.
  apply setup_bind_inv in E as [(e' & ([=] & _ & _)%close_conn_run & _)|(u' & s4 & l7 & l8 & (_ & -> & _)%close_conn_run & [= <- <- <-] & _)].
  rewrite close_instant. lia.
Qed.

(** However the bootstrap addresses behave, the search for the controller
    gives each of [n] addresses its share and leaves at least one part in
    [n + 1] of the time of the attempt for what follows. *)
Theorem discover_reserves_time ctx brokers s r s' l :
  ka_now s <= ctx -> discoverKafkaController ctx brokers s = Some (r, s', l) ->
  ctx - ka_now s <= (Z.of_nat (length brokers) + 1) * (ctx - ka_now s').
Proof.
  unfold discoverKafkaController. generalize ([] : error). intros failures. revert failures s r s' l.
  induction brokers as [|address rest IH]; intros failures s r s' l Hs E; cbn [discover_loop] in E.
  { injection E as <- <- <-. simpl. lia. }
  apply setup_bind_inv in E as [(e & [=] & _)|(expired & s1 & l1 & l2 & [= <- <- <-] & E & ->)].
  destruct (ctx_done ctx (ka_now s)); [injection E as <- <- <-; nia|].
  apply setup_bind_inv in E as [(e & [=] & _)|(t & s2 & l3 & l4 & [= <- <- <-] & E & ->)].
  apply setup_bind_inv in E as [(e & [=] & _)|(probe & s3 & l5 & l6 & [= <- <- <-] & E & ->)].
  set (n := Z.of_nat (length (address :: rest))) in *. assert (Hn : n = Z.of_nat (length rest) + 1) by (unfold n; simpl; lia).
  pose proof (Z.quot_pos (ctx - ka_now s) (n + 1) ltac:(lia) ltac:(lia)) as Hq0.
  pose proof (Z.mul_quot_le (ctx - ka_now s) (n + 1) ltac:(lia) ltac:(lia)) as Hq.
  apply setup_bind_inv in E as [(e & (? & [=] & _)%outcome_inv & _)|(found & s4 & l7 & l8 & (o & [= ->] & Ht%probe_time)%outcome_inv & E & ->)].
  change (Z.of_nat (S (length rest))) with n in Ht. set (q := Z.quot (ctx - ka_now s) (n + 1)) in *.
  assert (Hs4 : ctx - ka_now s - q <= ctx - ka_now s4) by lia.
  assert (Hle : q <= ctx - ka_now s) by nia.
  assert (Hleft : n * (ctx - ka_now s) <= (n + 1) * (ctx - ka_now s4)) by nia.
  destruct o as [controller|e]; [injection E as <- <- <-; nia|].
  apply IH in E; [|lia]. rewrite <- Hn in E. nia.
Qed.
End timely.

(** ** A small cluster

    One broker; an alteration is visible to the descriptions that come after the
    next wait, and a wait takes the time it is asked to, up to the deadline. *)
Record toy_cluster := MkToyCluster { toy_clock : Z; toy_visible : list ConfigEntry; toy_stored : list ConfigEntry }.

#[local] Instance toy_admin : KafkaAdmin := {
  ka_state := toy_cluster;
  ka_conn := unit;
  ka_now := toy_clock;
  ka_Metadata _ _ names s := (Ok (map (fun name => MkTopic name None [MkPartition None [1]]) names), s);
  ka_DescribeConfigs _ _ topic _ s := (Ok [MkDescribedResource topic None (toy_visible s)], s);
  ka_IncrementalAlterConfigs _ _ _ cs s := (Ok [None], MkToyCluster (toy_clock s) (toy_visible s) (toy_stored s ++ cs));
  ka_DialContext _ _ s := (Ok tt, s);
  ka_SetDeadline _ _ s := (Ok tt, s);
  ka_Controller _ s := (Ok (MkKafkaBroker "broker" 9092), s);
  ka_CreateTopics _ _ s := (Ok tt, s);
  ka_Close _ s := s;
  ka_select d ctx s :=
    if ctx <=? toy_clock s + Z.max d 0 then (true, MkToyCluster (Z.max ctx (toy_clock s)) (toy_visible s) (toy_stored s))
    else (false, MkToyCluster (toy_clock s + Z.max d 0) (toy_stored s) (toy_stored s)) }.

#[local] Instance toy_clock_laws : KafkaClock.
Proof.
  split; simpl; try (intros; lia); intros d ctx s; destruct (Z.leb_spec ctx (toy_clock s + Z.max d 0)); simpl; try done; lia.
Qed.

#[local] Instance toy_timely : KafkaTimely.
Proof. split; simpl; intros; simplify_eq/=; lia. Qed.

Definition toy_config : KafkaTopicConfig := MkKafkaTopicConfig 0 0 0 0 0 deadLetterBatchBytes.
Definition toy_start : @ka_state toy_admin :=
  let live := [("min.insync.replicas", "1"); ("max.message.bytes", "1048588")] in MkToyCluster 0 live live.

Lemma kafka_setup_success_witness :
  exists s' l, initializeKafkaTopics ["broker:9092"] toy_config ["iot.dlq"] toy_start = Some (Ok tt, s', l)
  /\ provisioned (normalized toy_config) "iot.dlq" l.
Proof.
  eexists _, _. split; [vm_compute; reflexivity|]. eapply (kafka_setup_success ["broker:9092"] toy_config ["iot.dlq"] toy_start);
    [vm_compute; reflexivity|done|vm_compute; discriminate|set_solver|done].
Defined.

Lemma kafka_alters_only_drift_witness :
  exists r s' l l1 l2, initializeKafkaTopics ["broker:9092"] toy_config ["iot.dlq"] toy_start = Some (r, s', l)
  /\ l = l1 ++ EAltered "iot.dlq" [("max.message.bytes", "2097152")] :: l2 /\ "iot.dlq" ∈ ["iot.dlq"].
Proof.
  eexists _, _, _, [EDialled _; EClosed; EDialled _; ECreated _; EMetadata _; EDescribed _ _], _.
  split; [vm_compute; reflexivity|]. split; [reflexivity|].
  refine (proj1 (kafka_alters_only_drift ["broker:9092"] toy_config ["iot.dlq"] toy_start _ _ _
    [EDialled _; EClosed; EDialled _; ECreated _; EMetadata _; EDescribed _ _] "iot.dlq" [("max.message.bytes", "2097152")] _ _ _));
    [vm_compute; reflexivity|reflexivity].
Defined.

Lemma kafka_setup_terminates_witness :
  exists r s' l, initializeKafkaTopics ["broker:9092"] toy_config ["iot.dlq"] toy_start = Some (r, s', l)
  /\ ka_now toy_start <= ka_now s' /\ left_open l = 0.
Proof. apply (@kafka_setup_terminates toy_admin toy_clock_laws ["broker:9092"] toy_config ["iot.dlq"] toy_start). Defined.

Lemma discover_reserves_time_witness :
  ka_now toy_start <= 5 * Second /\
  exists r s' l, discoverKafkaController (5 * Second) ["a:1"; "b:2"] toy_start = Some (r, s', l)
  /\ 5 * Second - ka_now toy_start <= 3 * (5 * Second - ka_now s').
Proof.
  split; [done|]. eexists _, _, _. split; [vm_compute; reflexivity|].
  apply (discover_reserves_time (5 * Second) ["a:1"; "b:2"] toy_start (Ok (MkKafkaBroker "broker" 9092)) toy_start [EDialled "a:1"; EClosed]); [done|vm_compute; reflexivity].
Defined.
