(* ===== verification/TraceFile.v ===== *)
(** * The bounded trace file: traceFileWriter of internal/platform/trace_file.go

    Spans are appended to a file that is rotated to numbered backups before it
    would outgrow its budget.  The file system is a map from paths to contents,
    and every call to it may fail: [fs_faults] says how, and is exhausted when
    everything succeeds.  A write that fails has written as many bytes as its
    fault says. *)
From stdpp Require Import prelude strings gmap.
From Stdlib Require Import ZArith Lia.
From S2P Require Import Prelude GoStrings GoJson Base64 Payload Domain GoNet.

Local Open Scope Z_scope.

(** ** The file system *)
Record FS := MkFS { fs_files : gmap string string; fs_faults : list (option Z) }.

Inductive fs_error := NotExist | IOError.

Definition File (A : Type) := FS -> (A + fs_error) * FS.

#[export] Instance file_ret : MRet File := fun A a fs => (inl a, fs).
#[export] Instance file_bind : MBind File := fun A B f m fs =>
  match m fs with (inl a, fs') => f a fs' | (inr e, fs') => (inr e, fs') end.

(** The fault of the next call, if any. *)
Definition next_fault (fs : FS) : option Z * FS :=
  match fs_faults fs with [] => (None, fs) | f :: rest => (f, MkFS (fs_files fs) rest) end.

Definition syscall {A} (run : gmap string string -> (A + fs_error) * gmap string string) : File A := fun fs =>
  let '(fault, fs1) := next_fault fs in
  match fault with
  | Some _ => (inr IOError, fs1)
  | None => let '(r, files) := run (fs_files fs1) in (r, MkFS files (fs_faults fs1))
  end.

(** [os.Stat]: the size. *)
Definition Stat (path : string) : File Z :=
  syscall (fun files => (match files !! path with Some c => inl (len c) | None => inr NotExist end, files)).

Definition Remove (path : string) : File unit :=
  syscall (fun files => match files !! path with Some _ => (inl tt, delete path files) | None => (inr NotExist, files) end).

Definition Rename (from to_ : string) : File unit :=
  syscall (fun files => match files !! from with
                        | Some c => (inl tt, <[to_ := c]> (delete from files))
                        | None => (inr NotExist, files)
                        end).

(** [os.OpenFile] with [O_CREATE|O_APPEND|O_WRONLY] *)
Definition OpenAppend (path : string) : File unit :=
  syscall (fun files => (inl tt, <[path := default "" (files !! path)]> files)).

(** [file.Write]: a failing write has appended a part of [p]. *)
Definition WriteFile (path p : string) : File Z := fun fs =>
  let '(fault, fs1) := next_fault fs in
  let append q := MkFS (<[path := default "" (fs_files fs1 !! path) +:+ q]> (fs_files fs1)) (fs_faults fs1) in
  match fault with
  | Some n => (inr IOError, append (String.substring 0 (Z.to_nat (Z.min n (len p))) p))
  | None => (inl (len p), append p)
  end.

Definition CloseFile : File unit := syscall (fun files => (inl tt, files)).

(** [err != nil && !errors.Is(err, os.ErrNotExist)] *)
Definition unless_absent {A} (m : File A) : File (option A) := fun fs =>
  match m fs with
  | (inl a, fs') => (inl (Some a), fs')
  | (inr NotExist, fs') => (inl None, fs')
  | (inr IOError, fs') => (inr IOError, fs')
  end.

(** The outcome of [m], when the caller goes on after an error. *)
Definition file_outcome {A} (m : File A) : File (A + fs_error) := fun fs => let '(r, fs') := m fs in (inl r, fs').

Definition file_fail {A} (e : fs_error) : File A := fun fs => (inr e, fs).

(** ** The writer *)
Record traceFileWriter := MkTraceFileWriter { tw_path : string; tw_maxBytes : Z; tw_backups : nat }.

Definition traceFileMaxBytes : Z := Z.shiftl 8 20.
Definition traceFileBackups : nat := 2.

(** The file of index [i]: the current one, then the backups. *)
Definition trace_path (w : traceFileWriter) (i : nat) : string :=
  match i with O => tw_path w | _ => tw_path w +:+ "." +:+ Itoa (Z.of_nat i) end.

Definition clean_file (w : traceFileWriter) (i : nat) : File unit :=
  size ← unless_absent (Stat (trace_path w i));
  match size with
  | Some size => if tw_maxBytes w <? size then Remove (trace_path w i) else mret tt
  | None => mret tt
  end.

Fixpoint clean_files (w : traceFileWriter) (indices : list nat) : File unit :=
  match indices with [] => mret tt | i :: rest => _ ← clean_file w i; clean_files w rest end.

Definition cleanOversized (w : traceFileWriter) : File unit := clean_files w (seq 0 (S (tw_backups w))).

(** Shifts every file to the next index, the last one first. *)
Fixpoint rotate (w : traceFileWriter) (i : nat) : File unit :=
  match i with
  | O => mret tt
  | S j => _ ← unless_absent (Rename (trace_path w j) (trace_path w (S j))); rotate w j
  end.

(** The answer is the number of bytes written. *)
Definition Write (w : traceFileWriter) (p : string) : File Z :=
  if tw_maxBytes w <? len p then file_fail IOError
  else
    stat ← unless_absent (Stat (tw_path w));
    _ ← (match stat with Some size => if tw_maxBytes w <? size + len p then rotate w (tw_backups w) else mret tt | None => mret tt end);
    _ ← OpenAppend (tw_path w);
    written ← file_outcome (WriteFile (tw_path w) p);
    _ ← CloseFile;
    match written with inl n => mret n | inr e => file_fail e end.

(** ** The budget *)
Definition within (w : traceFileWriter) (files : gmap string string) : Prop :=
  forall i c, (i <= tw_backups w)%nat -> files !! trace_path w i = Some c -> len c <= tw_maxBytes w.

(** The files of others. *)
Definition untouched (w : traceFileWriter) (files files' : gmap string string) : Prop :=
  forall path, (forall i, (i <= tw_backups w)%nat -> path <> trace_path w i) -> files' !! path = files !! path.

Lemma trace_path_inj w i j : (i <= 1000)%nat -> (j <= 1000)%nat -> trace_path w i = trace_path w j -> i = j.
Proof.
  intros Hi Hj E. destruct i as [|i], j as [|j]; [done| | |].
  - exfalso. apply (f_equal len) in E. cbn [trace_path] in E. rewrite !len_app in E. unfold len in E. simpl in E. lia.
  - exfalso. apply (f_equal len) in E. cbn [trace_path] in E. rewrite !len_app in E. unfold len in E. simpl in E. lia.
  - cbn [trace_path] in E. apply str_app_inj_l, str_app_inj_l in E. apply (f_equal Atoi) in E.
    rewrite !atoi_itoa in E by (unfold min_int64, max_int64; lia). injection E as E. lia.
Qed.

Lemma file_bind_inv {A B} (m : File A) (f : A -> File B) fs r fs' :
  (m ≫= f) fs = (r, fs') ->
  (exists e, m fs = (inr e, fs') /\ r = inr e) \/ (exists a fs1, m fs = (inl a, fs1) /\ f a fs1 = (r, fs')).
Proof. unfold mbind, file_bind. destruct (m fs) as [[a|e] fs1]; [eauto 6|]. intros [= <- <-]. eauto. Qed.

(** *** Steps that keep an invariant of the files and leave other paths alone *)
Section keeps.
Variable w : traceFileWriter.

Definition keeps {A} (m : File A) : Prop := forall fs r fs', m fs = (r, fs') ->
  within w (fs_files fs) -> within w (fs_files fs') /\ untouched w (fs_files fs) (fs_files fs').

Lemma untouched_refl files : untouched w files files.
Proof. by intros path. Qed.
Lemma untouched_trans a b c : untouched w a b -> untouched w b c -> untouched w a c.
Proof. intros Hab Hbc path Hp. by rewrite Hbc, Hab. Qed.

Lemma keeps_bind {A B} (m : File A) (f : A -> File B) : keeps m -> (forall a, keeps (f a)) -> keeps (m ≫= f).
Proof.
  intros Hm Hf fs r fs' [(e & E & _)|(a & fs1 & E1 & E2)]%file_bind_inv Hw; [by eapply Hm|].
  destruct (Hm _ _ _ E1 Hw) as [Hw1 Hu1]. destruct (Hf _ _ _ _ E2 Hw1) as [Hw2 Hu2]. eauto using untouched_trans.
Qed.
Lemma keeps_ret {A} (a : A) : keeps (mret a).
Proof. intros fs r fs' [= <- <-] Hw. eauto using untouched_refl. Qed.
Lemma keeps_fail {A} e : keeps (@file_fail A e).
Proof. intros fs r fs' [= <- <-] Hw. eauto using untouched_refl. Qed.
Lemma keeps_unless {A} (m : File A) : keeps m -> keeps (unless_absent m).
Proof. intros Hm fs r fs' E Hw. unfold unless_absent in E. destruct (m fs) as [[a|[]] fs1] eqn:E1; injection E as <- <-; by eapply Hm. Qed.

Lemma next_fault_files fs f fs1 : next_fault fs = (f, fs1) -> fs_files fs1 = fs_files fs.
Proof. unfold next_fault. destruct (fs_faults fs); by intros [= <- <-]. Qed.

(** What a system call does, when it does something. *)
Lemma syscall_inv {A} (run : gmap string string -> (A + fs_error) * gmap string string) fs r fs' :
  syscall run fs = (r, fs') -> (r = inr IOError /\ fs_files fs' = fs_files fs) \/ run (fs_files fs) = (r, fs_files fs').
Proof.
  unfold syscall. destruct (next_fault fs) as [[n|] fs1] eqn:Ef; apply next_fault_files in Ef.
  - intros [= <- <-]. eauto.
  - rewrite Ef. destruct (run (fs_files fs)) as [r' files]. intros [= <- <-]. eauto.
Qed.

Lemma keeps_syscall {A} (run : gmap string string -> (A + fs_error) * gmap string string) :
  (forall files r files', run files = (r, files') -> within w files -> within w files' /\ untouched w files files') -> keeps (syscall run).
Proof. intros Hrun fs r fs' [[_ ->]| E]%syscall_inv Hw; eauto using untouched_refl. Qed.

Lemma keeps_stat path : keeps (Stat path).
Proof. apply keeps_syscall. intros files r files' [= _ <-] Hw. eauto using untouched_refl. Qed.

Lemma keeps_close : keeps CloseFile.
Proof. apply keeps_syscall. intros files r files' [= _ <-] Hw. eauto using untouched_refl. Qed.

Lemma within_insert files i c : len c <= tw_maxBytes w -> within w files -> within w (<[trace_path w i := c]> files).
Proof. intros Hc Hw j d Hj [[_ <-]|[_ Hd]]%lookup_insert_Some; [done|by eapply Hw]. Qed.
Lemma within_delete files path : within w files -> within w (delete path files).
Proof. intros Hw j d Hj [_ Hd]%lookup_delete_Some. by eapply Hw. Qed.

Lemma untouched_insert files i c : (i <= tw_backups w)%nat -> untouched w files (<[trace_path w i := c]> files).
Proof. intros Hi path Hp. rewrite lookup_insert_ne; [done|]. intros <-. by eapply Hp. Qed.
Lemma untouched_delete files i : (i <= tw_backups w)%nat -> untouched w files (delete (trace_path w i) files).
Proof. intros Hi path Hp. rewrite lookup_delete_ne; [done|]. intros <-. by eapply Hp. Qed.

Lemma keeps_remove i : (i <= tw_backups w)%nat -> keeps (Remove (trace_path w i)).
Proof.
  intros Hi. apply keeps_syscall. intros files r files' E Hw.
  destruct (files !! trace_path w i); injection E as _ <-; eauto using untouched_refl, within_delete, untouched_delete.
Qed.

Lemma keeps_rename j : (S j <= tw_backups w)%nat -> keeps (Rename (trace_path w j) (trace_path w (S j))).
Proof.
  intros Hj. apply keeps_syscall. intros files r files' E Hw.
  destruct (files !! trace_path w j) as [c|] eqn:Ec; injection E as _ <-; [|eauto using untouched_refl].
  change (tw_path w +:+ "." +:+ Itoa (Z.of_nat (S j))) with (trace_path w (S j)).
  split; [apply within_insert; [eapply Hw; [|done]; lia|by apply within_delete]|].
  eapply untouched_trans; [apply (untouched_delete _ j); lia|by apply untouched_insert].
Qed.

Lemma keeps_rotate i : (i <= tw_backups w)%nat -> keeps (rotate w i).
Proof.
  induction i as [|j IH]; intros Hi; cbn [rotate]; [apply keeps_ret|].
  apply keeps_bind; [by apply keeps_unless, keeps_rename|intros _; apply IH; lia].
Qed.

Lemma keeps_clean indices : Forall (fun i => (i <= tw_backups w)%nat) indices -> keeps (clean_files w indices).
Proof.
  induction 1 as [|i rest Hi _ IH]; cbn [clean_files]; [apply keeps_ret|]. apply keeps_bind; [|done].
  apply keeps_bind; [apply keeps_unless, keeps_stat|]. intros [size|]; [destruct (_ <? _); [by apply keeps_remove|]|]; apply keeps_ret.
Qed.
End keeps.

(** *** Appending stays within the budget when there is room *)
Definition room (w : traceFileWriter) (p : string) (fs : FS) : Prop :=
  len (default "" (fs_files fs !! tw_path w)) + len p <= tw_maxBytes w.

Lemma open_append_inv path fs r fs' :
  OpenAppend path fs = (r, fs') ->
  fs_files fs' = fs_files fs \/ fs_files fs' = <[path := default "" (fs_files fs !! path)]> (fs_files fs).
Proof. intros [[_ ?]|[= _ ?]]%syscall_inv; eauto. Qed.

Lemma len_substring n p : len (String.substring 0 n p) <= len p.
Proof. revert p. unfold len. induction n as [|n IH]; intros [|c p]; simpl; try lia. specialize (IH p). lia. Qed.

Lemma write_file_inv path p fs r fs' :
  WriteFile path p fs = (r, fs') ->
  exists q, len q <= len p /\ fs_files fs' = <[path := default "" (fs_files fs !! path) +:+ q]> (fs_files fs).
Proof.
  unfold WriteFile. destruct (next_fault fs) as [[n|] fs1] eqn:Ef; apply next_fault_files in Ef; intros [= <- <-]; simpl; rewrite Ef.
  - eexists. split; [apply len_substring|done].
  - exists p. split; [lia|done].
Qed.

Definition append_to (w : traceFileWriter) (p : string) : File Z :=
  _ ← OpenAppend (tw_path w);
  written ← file_outcome (WriteFile (tw_path w) p);
  _ ← CloseFile;
  match written with inl n => mret n | inr e => file_fail e end.

Lemma append_keeps w p fs r fs' :
  append_to w p fs = (r, fs') -> room w p fs -> within w (fs_files fs) ->
  within w (fs_files fs') /\ untouched w (fs_files fs) (fs_files fs').
Proof.
  intros E Hroom Hw. unfold room in Hroom.
  assert (Hcur : forall files c, within w files -> len c <= tw_maxBytes w ->
            within w (<[tw_path w := c]> files) /\ untouched w files (<[tw_path w := c]> files)).
  { intros files c Hf Hc. split; [by apply (within_insert w files 0)|apply (untouched_insert w files 0); lia]. }
  assert (Hp : 0 <= len p) by apply len_nonneg.
  apply file_bind_inv in E as [(e & E & _)|(u & fs1 & E1 & E)].
  { apply open_append_inv in E as [->| ->]; [eauto using untouched_refl|apply Hcur; [done|lia]]. }
  assert (H1 : default "" (fs_files fs1 !! tw_path w) = default "" (fs_files fs !! tw_path w)
               /\ within w (fs_files fs1) /\ untouched w (fs_files fs) (fs_files fs1)).
  { apply open_append_inv in E1 as [->| ->]; [eauto using untouched_refl|]. rewrite lookup_insert_eq. split; [done|apply Hcur; [done|lia]]. }
  destruct H1 as (Hd & Hw1 & Hu1). apply file_bind_inv in E as [(e & E & _)|(o & fs2 & E2 & E)].
  { unfold file_outcome in E. destruct (WriteFile (tw_path w) p fs1) as [? ?]. discriminate. }
  unfold file_outcome in E2. destruct (WriteFile (tw_path w) p fs1) as [o' fs2'] eqn:Ew. injection E2 as <- <-.
  apply write_file_inv in Ew as (q & Hq & Ef). rewrite Hd in Ef.
  destruct (Hcur (fs_files fs1) (default "" (fs_files fs !! tw_path w) +:+ q) Hw1) as [Hw2 Hu2]; [rewrite len_app; lia|].
  rewrite <- Ef in Hw2, Hu2.
  assert (Hrest : keeps w (_ ← CloseFile; match o' with inl n => mret n | inr e => file_fail e end)).
  { apply keeps_bind; [apply keeps_close|]. intros _. destruct o'; [apply keeps_ret|apply keeps_fail]. }
  destruct (Hrest _ _ _ E Hw2) as [Hw3 Hu3]. split; [done|]. eauto using untouched_trans.
Qed.

(** *** Rotation empties the current file *)
Lemma rotate_clears w i fs u fs' : (0 < i)%nat -> rotate w i fs = (inl u, fs') -> fs_files fs' !! tw_path w = None.
Proof.
  revert fs. induction i as [|j IH]; intros fs Hi E; [lia|]. cbn [rotate] in E.
  apply file_bind_inv in E as [(e & _ & E)|(o & fs1 & E1 & E)]; [done|]. destruct j as [|j]; [|by apply (IH fs1); [lia|]].
  injection E as <- <-. unfold unless_absent in E1.
  destruct (Rename (trace_path w 0) (trace_path w 1) fs) as [[a|[]] fs2] eqn:Er; simplify_eq;
    apply syscall_inv in Er as [[Er _]|Er]; try done; destruct (fs_files fs !! trace_path w 0) eqn:E0; try done; simplify_eq.
  - match goal with Hf : _ = fs_files _ |- _ => rewrite <- Hf end.
    rewrite lookup_insert_ne, lookup_delete_eq; [done|]. intros Heq. by apply (trace_path_inj w 1 0) in Heq; [|lia..].
  - match goal with Hf : _ = fs_files _ |- _ => by rewrite <- Hf end.
Qed.

(** *** Cleaning at start-up *)
Definition within_at (w : traceFileWriter) (files : gmap string string) (i : nat) : Prop :=
  forall c, files !! trace_path w i = Some c -> len c <= tw_maxBytes w.

Lemma clean_file_ok w i fs r fs' : clean_file w i fs = (r, fs') ->
  (forall j, within_at w (fs_files fs) j -> within_at w (fs_files fs') j) /\ (forall u, r = inl u -> within_at w (fs_files fs') i).
Proof.
  intros [(e & E & ->)|(o & fs1 & E1 & E)]%file_bind_inv; unfold unless_absent in *.
  { destruct (Stat (trace_path w i) fs) as [[size|[]] fs2] eqn:Es; simplify_eq.
    apply syscall_inv in Es as [[_ Ef]|[= _ Ef]]; by rewrite ?Ef, <- ?Ef. }
  assert (Hs : fs_files fs1 = fs_files fs /\ forall c, fs_files fs !! trace_path w i = Some c -> o = Some (len c)).
  { destruct (Stat (trace_path w i) fs) as [[size|[]] fs2] eqn:Es; simplify_eq;
      apply syscall_inv in Es as [[Es Ef]|[= Es Ef]]; try done; destruct (fs_files fs !! trace_path w i); simplify_eq; naive_solver. }
  destruct Hs as [Hf Ho].
  assert (Hskip : r = inl tt -> fs' = fs1 -> (forall size, o = Some size -> size <= tw_maxBytes w) ->
            (forall j, within_at w (fs_files fs) j -> within_at w (fs_files fs') j) /\ (forall u, r = inl u -> within_at w (fs_files fs') i)).
  { intros -> -> Hsize. rewrite Hf. split; [done|]. intros _ _ c Hc. by apply Hsize, Ho. }
  destruct o as [size|]; [|injection E as <- <-; by apply Hskip].
  destruct (Z.ltb_spec (tw_maxBytes w) size); [|injection E as <- <-; apply Hskip; naive_solver].
  apply syscall_inv in E as [[-> Ef]|E]; [rewrite Ef, Hf; naive_solver|]. rewrite Hf in E.
  destruct (fs_files fs !! trace_path w i) eqn:Ei; injection E as <- Ef; rewrite <- Ef.
  - split; [intros j Hj c [_ Hc]%lookup_delete_Some; by apply Hj|]. intros u _ c [Hne _]%lookup_delete_Some. done.
  - split; [done|]. by intros u [=].
Qed.

Lemma clean_files_ok w indices fs u fs' : clean_files w indices fs = (inl u, fs') ->
  (forall j, within_at w (fs_files fs) j -> within_at w (fs_files fs') j) /\ Forall (within_at w (fs_files fs')) indices.
Proof.
  revert fs. induction indices as [|i rest IH]; intros fs; cbn [clean_files]; [by intros [= <- <-]|].
  intros [(e & _ & [=])|(v & fs1 & [Hj1 Hi1]%clean_file_ok & [Hj2 Hi2]%IH)]%file_bind_inv. split; [auto|].
  constructor; [|done]. apply Hj2. by eapply Hi1.
Qed.

Lemma clean_within w fs u fs' : cleanOversized w fs = (inl u, fs') -> within w (fs_files fs').
Proof.
  intros [_ Hall]%clean_files_ok i c Hi Hc. rewrite Forall_forall in Hall. eapply (Hall i); [|done]. apply elem_of_seq. lia.
Qed.

(** *** Writing *)
Lemma write_keeps w p : (0 < tw_backups w)%nat -> keeps w (Write w p).
Proof.
  intros Hb fs r fs' E Hw. unfold Write in E. destruct (Z.ltb_spec (tw_maxBytes w) (len p)) as [|Hp].
  { by eapply (keeps_fail w). }
  apply file_bind_inv in E as [(e & E & _)|(stat & fs1 & E1 & E)].
  { by eapply (keeps_unless w (Stat (tw_path w)) (keeps_stat w (tw_path w))). }
  assert (Hs : fs_files fs1 = fs_files fs /\ stat = len <$> fs_files fs !! tw_path w).
  { unfold unless_absent in E1. destruct (Stat (tw_path w) fs) as [[size|[]] fs2] eqn:Es; simplify_eq;
      apply syscall_inv in Es as [[Es Ef]|[= Es Ef]]; try done; destruct (fs_files fs !! tw_path w); simplify_eq; done. }
  destruct Hs as [Hf ->]. rewrite <- Hf in Hw.
  apply file_bind_inv in E as [(e & E & _)|(v & fs2 & E2 & E)].
  { rewrite <- Hf. destruct (fs_files fs !! tw_path w) as [c|]; simpl in E; [destruct (_ <? _)|]; try discriminate.
    by eapply (keeps_rotate w (tw_backups w)). }
  assert (H2 : room w p fs2 /\ within w (fs_files fs2) /\ untouched w (fs_files fs1) (fs_files fs2)).
  { unfold room. rewrite <- Hf in E2. destruct (fs_files fs1 !! tw_path w) as [c|] eqn:Ec; simpl in E2;
      [destruct (Z.ltb_spec (tw_maxBytes w) (len c + len p))|].
    - pose proof (rotate_clears w _ _ _ _ Hb E2) as ->. split; [simpl; unfold len at 1; simpl; lia|].
      by eapply (keeps_rotate w (tw_backups w)).
    - injection E2 as <- <-. rewrite Ec. eauto using untouched_refl.
    - injection E2 as <- <-. rewrite Ec. split; [simpl; unfold len at 1; simpl; lia|eauto using untouched_refl]. }
  destruct H2 as (Hroom & Hw2 & Hu2). destruct (append_keeps w p fs2 r fs' E Hroom Hw2) as [Hw3 Hu3].
  rewrite <- Hf. eauto using untouched_trans.
Qed.

(** The records written one after the other; a failed write does not stop the exporter. *)
Fixpoint write_all (w : traceFileWriter) (records : list string) (fs : FS) : FS :=
  match records with [] => fs | p :: rest => write_all w rest (Write w p fs).2 end.

(** Once the start-up clean-up has succeeded, the current trace file and
    each of its backups stay within the size budget whatever is written and
    however calls to the file system fail, partial writes and interrupted
    rotations included, and no other file is touched. *)
Theorem trace_files_bounded w fs u fs1 records :
  (0 < tw_backups w)%nat -> cleanOversized w fs = (inl u, fs1) ->
  within w (fs_files (write_all w records fs1)) /\ untouched w (fs_files fs1) (fs_files (write_all w records fs1)).
Proof.
  intros Hb Hc%clean_within. revert fs1 Hc. induction records as [|p rest IH]; intros fs1 Hw; cbn [write_all].
  { eauto using untouched_refl. }
  destruct (Write w p fs1) as [r fs2] eqn:E. destruct (write_keeps w p Hb _ _ _ E Hw) as [Hw2 Hu2].
  destruct (IH fs2 Hw2). simpl. eauto using untouched_trans.
Qed.

Lemma trace_files_bounded_witness :
  let w := MkTraceFileWriter "t" 4 2 in
  let fs := MkFS {[ "t" := "abcdef"; "u" := "other file" ]} [None; None; None; None; None; Some 1] in
  cleanOversized w fs = (inl tt, (cleanOversized w fs).2)
  /\ within w (fs_files (write_all w ["abc"; "de"; "fgh"] (cleanOversized w fs).2)).
Proof.
  intros w fs. split; [vm_compute; reflexivity|].
  apply (trace_files_bounded w fs tt (cleanOversized w fs).2 ["abc"; "de"; "fgh"]); [simpl; lia|vm_compute; reflexivity].
Defined.
