(* ===== verification/TimeText.v ===== *)
(** * Instants as text: [time.RFC3339Nano] *)
From stdpp Require Import prelude strings.
From Stdlib Require Import ZArith Lia Ascii.
From S2P Require Import Prelude GoStrings GoJson Base64 Domain.

Local Open Scope Z_scope.

(** The years 0 to 9999, outside which [json.Marshal] of a time fails. *)
Definition year_in_range (t : Z) : bool := (-62167219200 * Second <=? t) && (t <? 253402300800 * Second).

(** [t.Format(time.RFC3339Nano)] and [time.Parse(time.RFC3339Nano, s)]. *)
Class TimeText := {
  format_rfc3339nano : Z -> string;
  parse_rfc3339nano : string -> option Z }.

(** In those years a timestamp is read back as it was written. *)
Class TimeTextLaws `{TimeText} := {
  format_parses t : -62167219200 * Second <= t < 253402300800 * Second -> parse_rfc3339nano (format_rfc3339nano t) = Some t;
  format_length t : -62167219200 * Second <= t < 253402300800 * Second -> 0 < len (format_rfc3339nano t) <= 35;
  format_utf8 t : utf8_valid (format_rfc3339nano t) = true }.

(** ** A concrete notation, for the examples *)
Fixpoint digits (n : nat) (z : Z) : string :=
  match n with O => "" | S n' => String (chr (48 + z mod 64)) (digits n' (z / 64)) end.

Fixpoint undigits (s : string) : Z :=
  match s with EmptyString => 0 | String c r => bval c - 48 + 64 * undigits r end.

Lemma undigits_digits n z : 0 <= z < 64 ^ Z.of_nat n -> undigits (digits n z) = z.
Proof.
  revert z. induction n as [|n IH]; intros z Hz; simpl; [simpl in Hz; lia|].
  rewrite Nat2Z.inj_succ, Z.pow_succ_r in Hz by lia. pose proof (Z.mod_pos_bound z 64 ltac:(lia)).
  rewrite bval_chr, IH by (rewrite ?Z.div_lt_upper_bound; lia || (split; [apply Z.div_pos|apply Z.div_lt_upper_bound]; lia)).
  pose proof (Z.div_mod z 64). lia.
Qed.

Lemma digits_length n z : len (digits n z) = Z.of_nat n.
Proof. revert z. unfold len. induction n as [|n IH]; intros z; simpl; [done|]. specialize (IH (z / 64)). lia. Qed.

Lemma utf8_valid_ascii c s : bval c < 128 -> utf8_valid s = true -> utf8_valid (String c s) = true.
Proof.
  intros Hc Hs. unfold utf8_valid in *. cbn [decode_runes]. unfold seq_size. rewrite (proj2 (Z.ltb_lt _ _) Hc). simpl.
  rewrite Hs, (proj2 (Z.eqb_neq _ _)); [done|]. unfold RuneError. lia.
Qed.

Lemma digits_utf8 n z : utf8_valid (digits n z) = true.
Proof.
  revert z. induction n as [|n IH]; intros z; simpl; [done|]. pose proof (Z.mod_pos_bound z 64 ltac:(lia)).
  apply utf8_valid_ascii; [rewrite bval_chr; lia|apply IH].
Qed.

#[local] Instance sample_time : TimeText := {|
  format_rfc3339nano t := digits 13 (t + 2 ^ 70);
  parse_rfc3339nano s := Some (undigits s - 2 ^ 70) |}.

#[local] Instance sample_time_laws : TimeTextLaws.
Proof.
  split.
  - intros t Ht. cbn [parse_rfc3339nano format_rfc3339nano sample_time].
    rewrite undigits_digits; [f_equal; lia|]. unfold Second in Ht. change (64 ^ Z.of_nat 13) with (2 ^ 78). lia.
  - intros t _. cbn [format_rfc3339nano sample_time]. rewrite digits_length. lia.
  - intros t. apply digits_utf8.
Qed.
