(* ===== verification/Pagination.v ===== *)
(** * Keyset pagination: internal/platform/{pagination,list_filters,page_budget}.go

    Cursors, the normalisation of list requests, the byte budget of a page, and
    the loop every list method runs over its rows. *)
From stdpp Require Import prelude strings sorting.
From Stdlib Require Import ZArith Lia Ascii.
From S2P Require Import Prelude GoStrings Contracts CommandState GoJson Base64 Payload Domain TimeText.

Local Open Scope Z_scope.

(** ** pagination.go *)
Definition defaultPageSize : Z := 50.
Definition maxPageSize : Z := 100.
Definition errInvalidCursor : error := [ErrInvalidCursor; ErrInvalidPage].

Record PageRequest := MkPageRequest {
  pg_Size : Z;
  pg_Cursor : string;
  pg_TenantID : string;
  pg_DeviceID : string;
  pg_StartTime : Z;
  pg_HasStartTime : bool;
  pg_EndTime : Z;
  pg_HasEndTime : bool;
  pg_Type : string;
  pg_Status : string;
  pg_Sort : string }.

Definition NormalizePageRequest (size : Z) (cursor : string) : result PageRequest :=
  if 4096 <? len cursor then Err errInvalidCursor
  else
    let size := if size =? 0 then defaultPageSize else size in
    if (size <? 1) || (maxPageSize <? size) then Err [ErrInvalidPage]
    else Ok (MkPageRequest size cursor "" "" zero_time false zero_time false "" "" "").

Definition zero_byte : ascii := Ascii.zero.

Definition encodeCursor (parts : list string) : string := EncodeToString RawURLEncoding (join_byte zero_byte parts).

(** [nil, nil] for the empty cursor is [Ok None]. *)
Definition decodeCursor (cursor : string) (count : nat) : result (option (list string)) :=
  if String.eqb cursor "" then Ok None
  else
    match DecodeString RawURLEncoding cursor with
    | None => Err errInvalidCursor
    | Some decoded =>
      if negb (utf8_valid decoded) then Err errInvalidCursor
      else
        let parts := split_byte zero_byte decoded in
        if negb (length parts =? count)%nat then Err errInvalidCursor
        else if existsb (fun part => String.eqb part "") parts then Err errInvalidCursor
        else Ok (Some parts)
    end.

Definition encodeDeviceCursor (tenantID deviceID : string) : string := encodeCursor [tenantID; deviceID].

Definition decodeDeviceCursor (cursor : string) : result (string * string) :=
  parts ← decodeCursor cursor 2;
  match parts with
  | Some (tenantID :: deviceID :: _) => Ok (tenantID, deviceID)
  | _ => Ok ("", "")
  end.

(** ** list_filters.go *)

(** [stamp.Year()] outside 1 .. 9999 *)
Definition year_unsupported (stamp : Z) : bool := (stamp <? zero_time) || (253402300800 * Second <=? stamp).

Definition bad_bound (stamp : Z) : bool :=
  negb (IsZero stamp) && (year_unsupported stamp || negb (stamp mod Millisecond =? 0)).

Definition known_status (st : string) : bool :=
  existsb (String.eqb st) [CommandStatusCreated; CommandStatusPublished; CommandStatusSent;
                           CommandStatusAcked; CommandStatusFailed; CommandStatusTimeout].

Definition NormalizeListRequest (page : PageRequest) (kind : string) : result PageRequest :=
  n ← NormalizePageRequest (pg_Size page) (pg_Cursor page);
  if negb (IsValidTenantID (pg_TenantID page)) then Err [ErrInvalidPage]
  else if (String.eqb kind "telemetry" || negb (String.eqb (pg_DeviceID page) ""))
          && negb (is_ok (ValidateDeviceIdentity (pg_TenantID page) (pg_DeviceID page)))
  then Err [ErrInvalidPage]
  else
    let sort := if String.eqb (pg_Sort page) "" then "desc" else pg_Sort page in
    if negb (String.eqb sort "asc") && negb (String.eqb sort "desc") then Err [ErrInvalidPage]
    else
      let hasStart := pg_HasStartTime page || negb (IsZero (pg_StartTime page)) in
      let hasEnd := pg_HasEndTime page || negb (IsZero (pg_EndTime page)) in
      if hasStart && hasEnd && negb (pg_StartTime page <? pg_EndTime page) then Err [ErrInvalidPage]
      else if bad_bound (pg_StartTime page) || bad_bound (pg_EndTime page) then Err [ErrInvalidPage]
      else if negb (String.eqb (pg_Type page) "") && negb (is_ok (ValidateStorageField "type" (pg_Type page) 64))
      then Err [ErrInvalidPage]
      else if negb (String.eqb (pg_Status page) "") && negb (known_status (pg_Status page)) then Err [ErrInvalidPage]
      else Ok (MkPageRequest (pg_Size n) (pg_Cursor page) (pg_TenantID page) (pg_DeviceID page)
                 (pg_StartTime page) hasStart (pg_EndTime page) hasEnd (pg_Type page) (pg_Status page) sort).

Record listCursor := MkListCursor { lc_Version : Z; lc_Scope : string; lc_Time : string; lc_ID : string }.

(** encoding/json on [listCursor], and the digest of the JSON text of a query. *)
Class CursorEnv := {
  sha256_hex_of_query : string -> PageRequest -> string;
  cursor_time :: TimeText;
  marshal_cursor : listCursor -> string;
  unmarshal_cursor : string -> option listCursor }.

(** What the cursors rely on: decoding inverts encoding on valid UTF-8, and the
    encoder escapes a byte into at most six. *)
Class CursorLaws `{CursorEnv} := {
  digest_length k p : len (sha256_hex_of_query k p) = 64;
  digest_utf8 k p : utf8_valid (sha256_hex_of_query k p) = true;
  cursor_time_laws :: TimeTextLaws;
  cursor_decodes s ti id : utf8_valid s = true -> utf8_valid ti = true -> utf8_valid id = true ->
    unmarshal_cursor (marshal_cursor (MkListCursor 1 s ti id)) = Some (MkListCursor 1 s ti id);
  cursor_text s ti id : 0 < len (marshal_cursor (MkListCursor 1 s ti id)) <= 64 + 6 * (len s + len ti + len id) }.

Section page_cursor.
Context `{CursorEnv}.

Definition cursorScope (page : PageRequest) (kind : string) : string :=
  sha256_hex_of_query kind
    (MkPageRequest 0 "" (pg_TenantID page) (pg_DeviceID page) (pg_StartTime page) (pg_HasStartTime page)
       (pg_EndTime page) (pg_HasEndTime page) (pg_Type page) (pg_Status page) (pg_Sort page)).

Definition encodePageCursor (page : PageRequest) (kind : string) (at_ : Z) (id : string) : string :=
  EncodeToString RawURLEncoding (marshal_cursor (MkListCursor 1 (cursorScope page kind) (format_rfc3339nano at_) id)).

Definition decodePageCursor (page : PageRequest) (kind : string) : result (Z * string) :=
  if String.eqb (pg_Cursor page) "" then Ok (zero_time, "")
  else if 4096 <? len (pg_Cursor page) then Err errInvalidCursor
  else
    match DecodeString RawURLEncoding (pg_Cursor page) with
    | None => Err errInvalidCursor
    | Some raw =>
      match unmarshal_cursor raw with
      | None => Err errInvalidCursor
      | Some c =>
        if negb (lc_Version c =? 1) || negb (String.eqb (lc_Scope c) (cursorScope page kind)) || String.eqb (lc_ID c) ""
        then Err errInvalidCursor
        else if negb (is_ok (ValidateStorageField "cursor id" (lc_ID c) 64)) then Err errInvalidCursor
        else
          match parse_rfc3339nano (lc_Time c) with
          | None => Err errInvalidCursor
          | Some stamp =>
            if String.eqb kind "telemetry" && negb (stamp mod Millisecond =? 0)
               || String.eqb kind "commands" && negb (stamp mod 1000 =? 0)
            then Err errInvalidCursor
            else Ok (stamp, lc_ID c)
          end
      end
    end.
End page_cursor.

Definition with_cursor (page : PageRequest) (c : string) : PageRequest :=
  MkPageRequest (pg_Size page) c (pg_TenantID page) (pg_DeviceID page) (pg_StartTime page) (pg_HasStartTime page)
    (pg_EndTime page) (pg_HasEndTime page) (pg_Type page) (pg_Status page) (pg_Sort page).

(** The cursor takes no part in the rest of the request. *)
Lemma normalize_with_cursor page kind p c :
  NormalizeListRequest (with_cursor page "") kind = Ok p -> len c <= 4096 ->
  NormalizeListRequest (with_cursor page c) kind = Ok (with_cursor p c) /\ 1 <= pg_Size p <= maxPageSize.
Proof.
  unfold NormalizeListRequest, NormalizePageRequest. cbn [pg_Size pg_Cursor with_cursor]. intros Hp Hc.
  rewrite (proj2 (Z.ltb_ge 4096 (len c))) by done. change (4096 <? len "") with false in Hp.
  destruct ((_ <? 1) || (maxPageSize <? _)) eqn:E; [done|]. cbn [mbind result_bind] in *.
  cbn [pg_Size pg_Cursor pg_TenantID pg_DeviceID pg_StartTime pg_HasStartTime pg_EndTime pg_HasEndTime pg_Type pg_Status pg_Sort with_cursor] in *.
  repeat match goal with
         | Hq : (if ?b then Err _ else _) = Ok _ |- _ => destruct b; [discriminate Hq|]
         end.
  injection Hp as <-. split; [done|]. cbn [pg_Size]. lia.
Qed.

Lemma encode_length s : len (EncodeToString RawURLEncoding s) <= 2 * len s.
Proof.
  unfold len. induction s as [|a|a b|a b c r IH] using triple_ind; simpl in *; lia.
Qed.

Lemma encode_nonempty s : s <> "" -> EncodeToString RawURLEncoding s <> "".
Proof. by destruct s as [|a [|b [|c r]]]. Qed.

Lemma len_pos_nonempty s : 0 < len s -> s <> "".
Proof. by intros Hl ->. Qed.

Lemma cursor_field_ok name v n :
  ValidateStorageField name v n = Ok tt ->
  v <> "" /\ len v <= n /\ utf8_valid v = true /\ contains_byte zero_byte v = false.
Proof.
  unfold ValidateStorageField. destruct (String.eqb_spec v ""); [done|]. simpl.
  destruct (n <? len v) eqn:E; [done|]. destruct (utf8_valid v) eqn:Hv; [|done]. simpl.
  destruct (existsb _ _) eqn:Hc; [done|]. intros _. split_and!; [done|lia|done|by apply contains_nul_control].
Qed.

Lemma page_cursor_roundtrip `{CursorLaws} page kind at_ id :
  ValidateStorageField "cursor id" id 64 = Ok tt -> -62167219200 * Second <= at_ < 253402300800 * Second ->
  at_ mod (if String.eqb kind "telemetry" then Millisecond else 1000) = 0 ->
  let c := encodePageCursor page kind at_ id in
  decodePageCursor (with_cursor page c) kind = Ok (at_, id) /\ c <> "" /\ len c <= 4096.
Proof.
  intros Hid Hr Hm c. pose proof (cursor_field_ok _ _ _ Hid) as (Hne & Hl & Hu & _).
  set (m := marshal_cursor (MkListCursor 1 (cursorScope page kind) (format_rfc3339nano at_) id)).
  assert (Hlen : 0 < len m <= 1104).
  { pose proof (cursor_text (cursorScope page kind) (format_rfc3339nano at_) id). pose proof (format_length _ Hr).
    pose proof (digest_length kind (with_cursor (MkPageRequest 0 "" (pg_TenantID page) (pg_DeviceID page)
       (pg_StartTime page) (pg_HasStartTime page) (pg_EndTime page) (pg_HasEndTime page) (pg_Type page) (pg_Status page)
       (pg_Sort page)) "")) as Hd. unfold with_cursor in Hd. simpl in Hd. unfold cursorScope in *. subst m. unfold cursorScope. lia. }
  assert (Hc : c <> "" /\ len c <= 4096).
  { split; [apply encode_nonempty, len_pos_nonempty; fold m; lia|].
    pose proof (encode_length m). unfold c, encodePageCursor. fold m. lia. }
  split; [|done]. unfold decodePageCursor. cbn [pg_Cursor with_cursor].
  rewrite (proj2 (String.eqb_neq c "")) by apply Hc. rewrite (proj2 (Z.ltb_ge 4096 (len c))) by apply Hc.
  unfold c, encodePageCursor. rewrite base64_roundtrip, cursor_decodes by (first [done|apply digest_utf8|apply format_utf8]).
  cbn [lc_Version lc_Scope lc_Time lc_ID]. change (cursorScope (with_cursor page _) kind) with (cursorScope page kind).
  rewrite String.eqb_refl, (proj2 (String.eqb_neq id "")) by done. cbn [negb orb Z.eqb Pos.eqb].
  rewrite Hid, format_parses by done. cbn [negb is_ok].
  destruct (String.eqb_spec kind "telemetry") as [->|]; [by rewrite Hm|].
  destruct (String.eqb kind "commands"); [by rewrite Hm|done].
Qed.

Lemma device_cursor_roundtrip tenant device :
  ValidateStorageField "topic part" tenant 64 = Ok tt -> ValidateStorageField "topic part" device 64 = Ok tt ->
  let c := encodeDeviceCursor tenant device in
  decodeDeviceCursor c = Ok (tenant, device) /\ c <> "" /\ len c <= 4096.
Proof.
  intros (Ht & Hlt & Hut & Hzt)%cursor_field_ok (Hd & Hld & Hud & Hzd)%cursor_field_ok c.
  set (m := join_byte zero_byte [tenant; device]).
  assert (Hm : m = tenant +:+ String zero_byte device) by done.
  assert (Hlen : 0 < len m <= 129).
  { rewrite Hm, len_app. unfold len in *. simpl. lia. }
  assert (Hc : c <> "" /\ len c <= 4096).
  { split; [apply encode_nonempty, len_pos_nonempty; fold m; lia|].
    pose proof (encode_length m). unfold c, encodeDeviceCursor, encodeCursor. fold m. lia. }
  split; [|done]. unfold decodeDeviceCursor, decodeCursor. rewrite (proj2 (String.eqb_neq c "")) by apply Hc.
  unfold c, encodeDeviceCursor, encodeCursor. fold m. rewrite base64_roundtrip.
  assert (Hum : utf8_valid m = true).
  { rewrite Hm. apply utf8_valid_app; [done|]. by apply (utf8_valid_app (String zero_byte "") device). }
  rewrite Hum.
  unfold m. rewrite split_join by (repeat constructor; done). cbn.
  by rewrite !(proj2 (String.eqb_neq _ _)) by done.
Qed.

(** ** page_budget.go *)
Definition MaxListResponseBytes : Z := 2097152.
Definition listContentBytes : Z := MaxListResponseBytes - 4096.

(** [responsePageBudget.accept]: the answer and the budget used after it. *)
Definition accept (used bytes : Z) (count : nat) (limit : Z) : result (bool * Z) :=
  if limit <=? Z.of_nat count then Ok (false, used)
  else if listContentBytes - used <? bytes
  then if (count =? 0)%nat then Err [ErrListItemTooLarge] else Ok (false, used)
  else Ok (true, used + bytes).

Definition tenantListBytes (t : Tenant) : Z := 512 + len (ten_ID t) + len (ten_Name t).
Definition deviceListBytes (d : Device) : Z := 512 + len (dev_TenantID d) + len (dev_DeviceID d) + len (dev_ProductID d).
Definition telemetryListBytes (t : TelemetryRecord) : Z :=
  512 + len (rec_MsgID t) + len (rec_TenantID t) + len (rec_DeviceID t) + len (rec_Type t) + len (rec_Version t)
  + len (rec_Payload t).

(** The loop of the list methods: scan a row, ask the budget, stop at the first
    row refused with the last one accepted as the next cursor.  [out[len(out)-1]]
    of an empty page would panic; [None] is that outcome. *)
Section fill.
Context {T : Type} (bytes : T -> Z) (limit : Z).

Fixpoint page_loop (rows : list (result T)) (used : Z) (out : list T) : option (result (list T * option T)) :=
  match rows with
  | [] => Some (Ok (out, None))
  | Err e :: _ => Some (Err e)
  | Ok item :: rows' =>
    match accept used (bytes item) (length out) limit with
    | Err e => Some (Err e)
    | Ok (true, used') => page_loop rows' used' (out ++ [item])
    | Ok (false, _) => l ← last out; Some (Ok (out, Some l))
    end
  end.

Definition fill_page (rows : list (result T)) : option (result (list T * option T)) := page_loop rows 0 [].

Definition total_bytes (l : list T) : Z := foldr (fun t n => bytes t + n) 0 l.

Lemma total_bytes_app l l' : total_bytes (l ++ l') = total_bytes l + total_bytes l'.
Proof. unfold total_bytes. induction l as [|a l IH]; simpl; [done|]. rewrite IH. lia. Qed.

(** A page never panics, keeps to the limit and to the budget, and is a prefix
    of the rows. *)
Lemma page_loop_sound rows used out :
  1 <= limit -> total_bytes out = used -> used <= listContentBytes -> Z.of_nat (length out) <= limit ->
  match page_loop rows used out with
  | None => False
  | Some (Err _) => True
  | Some (Ok (out', next)) =>
    Z.of_nat (length out') <= limit /\ total_bytes out' <= listContentBytes
    /\ (exists acc rest, out' = out ++ acc /\ rows = map Ok acc ++ rest
          /\ (next = None -> rest = []) /\ (forall l, next = Some l -> last out' = Some l))
  end.
Proof.
  intros Hl. revert used out. induction rows as [|[item|e] rows IH]; intros used out Hu Hb Hn; simpl.
  - split_and!; [done|lia|]. exists [], []. rewrite app_nil_r. split_and!; done.
  - unfold accept. destruct (limit <=? Z.of_nat (length out)) eqn:E1.
    + destruct (last out) as [l|] eqn:El; simpl; [|apply last_None in El; subst out; apply Z.leb_le in E1; simpl in E1; lia].
      split_and!; [done|lia|]. exists [], (Ok item :: rows). rewrite app_nil_r. split_and!; [done..|].
      intros l' [= <-]. done.
    + destruct (listContentBytes - used <? bytes item) eqn:E2.
      * destruct (length out =? 0)%nat eqn:E3; simpl; [done|].
        destruct (last out) as [l|] eqn:El; simpl; [|apply last_None in El; subst out; done].
        split_and!; [done|lia|]. exists [], (Ok item :: rows). rewrite app_nil_r. split_and!; [done..|].
        intros l' [= <-]. done.
      * specialize (IH (used + bytes item) (out ++ [item])).
        destruct (page_loop rows _ _) as [[[out' next]|e]|]; [|done|].
        -- destruct IH as (Ha & Hb' & acc & rest & -> & -> & Hr & Hlast).
           { rewrite total_bytes_app. simpl. lia. }
           { lia. }
           { rewrite length_app. simpl. lia. }
           split_and!; [done..|]. exists (item :: acc), rest. rewrite <- app_assoc. split_and!; [done|done|done|].
           intros l Hl'. rewrite <- (Hlast l Hl'). by rewrite <- app_assoc.
        -- apply IH; [rewrite total_bytes_app; simpl; lia|lia|]. rewrite length_app. simpl. lia.
  - done.
Qed.

(** When every row scans and fits, a page is a prefix of the rows, not empty
    unless they are, and it is the last page exactly when it is all of them. *)
Lemma page_loop_progress ts used out :
  1 <= limit -> Forall (fun t => bytes t <= listContentBytes) ts -> (out = [] -> used = 0) ->
  exists acc rest next, page_loop (map Ok ts) used out = Some (Ok (out ++ acc, next)) /\ ts = acc ++ rest
    /\ (out ++ acc = [] -> ts = []) 
    /\ match next with None => rest = [] | Some l => last (out ++ acc) = Some l /\ rest <> [] end.
Proof.
  intros Hl. revert used out. induction ts as [|t ts IH]; intros used out Hfit Hz; simpl.
  { exists [], [], None. rewrite app_nil_r. done. }
  apply Forall_cons in Hfit as [Ht Hfit].
  assert (Hstop : out <> [] -> exists acc rest next,
      (l ← last out; Some (Ok (out, Some l))) = Some (Ok (out ++ acc, next)) /\ t :: ts = acc ++ rest
      /\ (out ++ acc = [] -> t :: ts = []) 
      /\ match next with None => rest = [] | Some l => last (out ++ acc) = Some l /\ rest <> [] end).
  { intros Hne. destruct (last out) as [l|] eqn:El; [|by apply last_None in El].
    exists [], (t :: ts), (Some l). rewrite app_nil_r. simpl. split_and!; [done|done|done|done|done]. }
  unfold accept. destruct (limit <=? Z.of_nat (length out)) eqn:E1.
  { apply Hstop. intros ->. apply Z.leb_le in E1. simpl in E1. lia. }
  destruct (listContentBytes - used <? bytes t) eqn:E2.
  { destruct (length out =? 0)%nat eqn:E3; simpl; [|apply Hstop; by intros ->].
    destruct out; [|done]. rewrite Hz in E2 by done. lia. }
  destruct (IH (used + bytes t) (out ++ [t]) Hfit) as (acc & rest & next & Hp & -> & He & Hn); [by destruct out|].
  rewrite <- app_assoc in Hp, He, Hn. exists (t :: acc), rest, next. split_and!; [done|done|by destruct out|done].
Qed.
End fill.

(** ** Following the cursors enumerates the rows *)
Section enumerate.
Context {T : Type} (le : relation T) `{!forall x y, Decision (le x y)} `{!Transitive le} `{!Total le}.

(** The rows after [x] in the order. *)
Definition after (x y : T) : Prop := le x y /\ ~ le y x.
#[export] Instance after_dec x y : Decision (after x y).
Proof. unfold after. apply _. Defined.

Lemma filter_keeps (P : T -> Prop) `{!forall x, Decision (P x)} (l : list T) : (forall y, y ∈ l -> P y) -> filter P l = l.
Proof.
  induction l as [|a l IH]; intros Hall; [done|]. rewrite filter_cons, decide_True by (apply Hall; left).
  f_equal. apply IH. intros y Hy. apply Hall. by right.
Qed.

Lemma filter_drops (P : T -> Prop) `{!forall x, Decision (P x)} (l : list T) : (forall y, y ∈ l -> ~ P y) -> filter P l = [].
Proof.
  induction l as [|a l IH]; intros Hall; [done|]. rewrite filter_cons, decide_False by (apply Hall; left).
  apply IH. intros y Hy. apply Hall. by right.
Qed.

Lemma sorted_filter_after pre x post :
  StronglySorted le (pre ++ x :: post) ->
  (forall y z, y ∈ pre ++ x :: post -> z ∈ pre ++ x :: post -> le y z -> le z y -> y = z) ->
  NoDup (pre ++ x :: post) ->
  filter (after x) (pre ++ x :: post) = post.
Proof.
  intros Hs Hu Hd. rewrite filter_app, filter_cons.
  apply StronglySorted_app in Hs as (Hpp & Hpre & Hpost).
  replace (filter (after x) pre) with (@nil T).
  - rewrite decide_False by (intros [? []]; auto). simpl.
    apply filter_keeps. intros y Hy.
    apply StronglySorted_cons in Hpost as [Hx _]. rewrite Forall_forall in Hx. split; [by apply Hx|].
    intros Hyx. assert (y = x) as ->.
    { apply Hu; [set_solver|set_solver|done|]. by apply Hx. }
    apply NoDup_app in Hd as (_ & _ & Hd). by apply NoDup_cons in Hd as [[] _].
  - symmetry. apply filter_drops. intros y Hy [_ []]. apply Hpp; [done|set_solver].
Qed.

(** The rows of a table that a query selects, in its order. *)
Context (table : list T) (keep : T -> Prop) `{!forall x, Decision (keep x)}.
Hypothesis Hnodup : NoDup table.
Hypothesis Hkeys : forall y z, y ∈ table -> z ∈ table -> keep y -> keep z -> le y z -> le z y -> y = z.

Definition selected : list T := merge_sort le (filter keep table).

Lemma selected_elem x : x ∈ selected <-> keep x /\ x ∈ table.
Proof. unfold selected. rewrite merge_sort_Permutation. apply list_elem_of_filter. Qed.

(** Restarting the query after one of its rows yields exactly the rest. *)
Lemma selected_after (P : T -> Prop) `{!forall x, Decision (P x)} pre x post :
  selected = pre ++ x :: post -> (forall y, y ∈ table -> P y <-> keep y /\ after x y) ->
  merge_sort le (filter P table) = post.
Proof.
  intros Hsel HP.
  assert (Hs : StronglySorted le (pre ++ x :: post)) by (rewrite <- Hsel; apply StronglySorted_merge_sort; apply _).
  assert (Hin : forall y, y ∈ pre ++ x :: post -> keep y /\ y ∈ table) by (intros y; by rewrite <- Hsel, selected_elem).
  assert (Hd : NoDup (pre ++ x :: post)).
  { rewrite <- Hsel. unfold selected. rewrite merge_sort_Permutation. by apply NoDup_filter. }
  assert (Hf : filter (after x) (pre ++ x :: post) = post) by (apply sorted_filter_after; [done| |done]; intros y z []%Hin []%Hin; auto).
  apply (StronglySorted_unique_strong le).
  - intros y z Hy Hz. rewrite merge_sort_Permutation in Hy. apply list_elem_of_filter in Hy as [HPy Hy].
    apply HP in HPy as [Hky _]; [|done]. destruct (Hin z) as [Hkz Hzt]; [set_solver|]. by apply Hkeys.
  - apply StronglySorted_merge_sort; apply _.
  - apply StronglySorted_app in Hs as (_ & _ & Hs). by apply StronglySorted_cons in Hs as [_ Hs].
  - rewrite merge_sort_Permutation, <- Hf, <- Hsel. unfold selected. rewrite merge_sort_Permutation.
    rewrite list_filter_filter. 
    apply NoDup_Permutation; [by apply NoDup_filter..|]. intros y. rewrite !list_elem_of_filter.
    split; [intros [Hp Hy]; apply HP in Hp; naive_solver|intros [[??] ?]]. rewrite HP by done. naive_solver.
Qed.
End enumerate.

(** ** A client that follows the cursors

    [list_page cursor] is one call; the client stops when it is given no cursor. *)
Section follow.
Context {T : Type} (list_page : string -> result (list T * string)).

Fixpoint follow (fuel : nat) (cursor : string) : result (list T) :=
  match fuel with
  | O => Err [Opaque "more pages"]
  | S fuel' =>
    page ← list_page cursor;
    if String.eqb page.2 "" then Ok page.1 else rest ← follow fuel' page.2; Ok (page.1 ++ rest)
  end.

(** [stands cursor rest]: the rows that are still to come at this cursor. *)
Lemma follow_all (stands : string -> list T -> Prop) :
  (forall c rest, stands c rest -> exists acc rest' next,
     list_page c = Ok (acc, next) /\ rest = acc ++ rest'
     /\ (next = "" /\ rest' = [] \/ next <> "" /\ acc <> [] /\ stands next rest')) ->
  forall fuel c rest, stands c rest -> (length rest < fuel)%nat -> follow fuel c = Ok rest.
Proof.
  intros Hstep. induction fuel as [|fuel IH]; intros c rest Hs Hf; [lia|]. simpl.
  destruct (Hstep _ _ Hs) as (acc & rest' & next & -> & -> & [[-> ->]|(Hn & Ha & Hs')]); simpl.
  - by rewrite app_nil_r.
  - rewrite (proj2 (String.eqb_neq _ _)) by done. rewrite (IH next rest'); [done|done|].
    rewrite length_app in Hf. destruct acc; [done|]. simpl in Hf. lia.
Qed.
End follow.

(** ** Pages of a query *)
Section pages.
Context {R T : Type} (le : relation R) `{!forall x y, Decision (le x y)} `{!Transitive le} `{!Total le}.
Context (table : list R) (keep : R -> Prop) `{!forall x, Decision (keep x)}.
Context (scan : R -> result T) (bytes : T -> Z) (limit : Z).
Context (list_page : string -> result (list T * string)) (enc : T -> string).

(** What a list method makes of the rows its query answered. *)
Definition finish (r : option (result (list T * option T))) : result (list T * string) :=
  match r with
  | None => Err [Opaque "runtime error: index out of range [-1]"]
  | Some (Err e) => Err e
  | Some (Ok (out, next)) => Ok (out, match next with Some l => enc l | None => "" end)
  end.

Definition serve (rows : list R) : result (list T * string) :=
  finish (fill_page bytes limit (map scan (take (Z.to_nat (limit + 1)) rows))).

Hypothesis Hlimit : 1 <= limit.
Hypothesis Hnodup : NoDup table.
Hypothesis Hkeys : forall y z, y ∈ table -> z ∈ table -> keep y -> keep z -> le y z -> le z y -> y = z.
Hypothesis Hfirst : list_page "" = serve (merge_sort le (filter keep table)).
Hypothesis Hnext : forall x t, x ∈ table -> keep x -> scan x = Ok t ->
  enc t <> "" /\ exists (P : R -> Prop) (_ : forall y, Decision (P y)),
    (forall y, y ∈ table -> P y <-> keep y /\ after le x y) /\ list_page (enc t) = serve (merge_sort le (filter P table)).

Lemma map_ok_split (rows : list R) (acc rest : list T) :
  map scan rows = map Ok (acc ++ rest) ->
  exists ra rr, rows = ra ++ rr /\ map scan ra = map Ok acc /\ map scan rr = map Ok rest.
Proof. rewrite map_app. apply map_eq_app. Qed.

Lemma serve_spec rows ts :
  map scan rows = map Ok ts -> Forall (fun t => bytes t <= listContentBytes) ts ->
  exists acc rest next, serve rows = Ok (acc, next) /\ ts = acc ++ rest
    /\ (next = "" /\ rest = [] \/ exists l, next = enc l /\ last acc = Some l).
Proof.
  intros Hrows Hfit. unfold serve, fill_page. rewrite <- firstn_map, Hrows, firstn_map.
  set (n := Z.to_nat (limit + 1)). change (@firstn T) with (@take T).
  destruct (page_loop_progress bytes limit (take n ts) 0 [] Hlimit) as (acc & rest & next & Hp & Hts & _ & Hn);
    [by apply Forall_take|done|]. simpl in Hp, Hn.
  pose proof (page_loop_sound bytes limit (map Ok (take n ts)) 0 [] Hlimit) as Hs. rewrite Hp in *.
  destruct Hs as (Hlen & _); [done|done|simpl; lia|].
  destruct next as [l|].
  - destruct Hn as [Hl _]. exists acc, (rest ++ drop n ts), (enc l).
    split_and!; [done| |eauto]. by rewrite app_assoc, <- Hts, take_drop.
  - subst rest. rewrite app_nil_r in Hts. exists acc, [], "". split_and!; [done| |by left].
    rewrite app_nil_r, <- Hts. symmetry. apply take_ge. rewrite <- Hts, length_take in Hlen. lia.
Qed.

Lemma pages_exact ts :
  map scan (selected le table keep) = map Ok ts -> Forall (fun t => bytes t <= listContentBytes) ts ->
  follow list_page (S (length ts)) "" = Ok ts.
Proof.
  intros Hts Hfit.
  set (stands := fun (c : string) (rest : list T) => exists pre post, selected le table keep = pre ++ post
    /\ map scan post = map Ok rest /\ Forall (fun t => bytes t <= listContentBytes) rest
    /\ list_page c = serve post).
  apply (follow_all list_page stands); [|exists [], (selected le table keep); done|lia].
  intros c rest (pre & post & Hsel & Hpost & Hf & Hc).
  destruct (serve_spec post rest Hpost Hf) as (acc & rest' & next & Hs & -> & Hn). rewrite <- Hc in Hs.
  exists acc, rest', next. split_and!; [done|done|].
  destruct Hn as [[-> ->]|(l & -> & Hl)]; [by left|right].
  apply last_Some in Hl as [acc' ->]. rewrite <- app_assoc in Hpost. simpl in Hpost.
  apply map_ok_split in Hpost as (ra & rr & -> & _ & Hrr). destruct rr as [|x rr]; [done|].
  injection Hrr as Hx Hrr. assert (Hin : x ∈ selected le table keep) by (rewrite Hsel; set_solver).
  apply selected_elem in Hin as [Hk Hin].
  destruct (Hnext x l Hin Hk Hx) as (Hne & P & HP & HPk & Hpg).
  split_and!; [done|by destruct acc'|]. exists (pre ++ ra ++ [x]), rr. split_and!; [|done| |].
  - by rewrite Hsel, <- !app_assoc.
  - by apply Forall_app in Hf as [_ ?].
  - rewrite Hpg. f_equal. apply (selected_after le table keep Hnodup Hkeys P (pre ++ ra) x rr); [by rewrite Hsel, app_assoc|done].
Qed.
End pages.
