(* ===== verification/HttpParams.v ===== *)
(** * The one reading of a management request: internal/platform/http_parameters.go

    [ManagementRequest] reads the tenant, the device and the command from the
    path, and the query; authorization, handlers and the labels of the metrics
    ([routeLabel] and [statusLabel] of metrics.go) share it. *)
From stdpp Require Import prelude strings gmap.
From Stdlib Require Import ZArith Lia Ascii.
From S2P Require Import Prelude GoStrings Contracts GoJson Base64 Payload Domain GoNet TimeText Pagination.

Local Open Scope Z_scope.

Record ManagementParameters := MkManagementParameters {
  mp_Resource : string;
  mp_TenantID : string;
  mp_DeviceID : string;
  mp_CommandID : string;
  mp_Query : Values }.

(** What the services read of a request; header names are in canonical form,
    and [rq_Params] is what the context holds under [managementParametersKey]. *)
Record Request := MkRequest {
  rq_Method : string;
  rq_Path : string;
  rq_RawQuery : string;
  rq_Header : gmap string (list string);
  rq_Body : string;
  rq_Params : option ManagementParameters }.

(** [Header.Get] and [Header.Values] *)
Definition header_get (r : Request) (name : string) : string := values_get (rq_Header r) name.
Definition header_values (r : Request) (name : string) : list string := default [] (rq_Header r !! name).

Definition api_prefix : string := "/api/v1/".

Definition scope (resource tenant device command : string) : ManagementParameters :=
  MkManagementParameters resource tenant device command ∅.

(** The segments under a device of a tenant. *)
Definition device_resource (tenant device : string) (rest : list string) : result ManagementParameters :=
  _ ← ValidateDeviceIdentity tenant device;
  match rest with
  | [] => Ok (scope "device" tenant device "")
  | [sub] =>
    if String.eqb sub "status" || String.eqb sub "telemetry" || String.eqb sub "commands"
    then Ok (scope (if String.eqb sub "commands" then "deviceCommands" else sub) tenant device "")
    else Err [ErrNotFound]
  | [sub; id; last] =>
    if String.eqb sub "commands" && String.eqb last "acknowledgements" then Ok (scope "acknowledgements" tenant device id)
    else Err [ErrNotFound]
  | _ => Err [ErrNotFound]
  end.

(** The resource a path addresses. *)
Definition management_path (path : string) : result ManagementParameters :=
  match cut_prefix api_prefix path with
  | None => Err [ErrNotFound]
  | Some rest =>
    match split_byte "/" rest with
    | [p0] => if String.eqb p0 "tenants" then Ok (scope "tenants" "" "" "") else Err [ErrInvalidEnvelope]
    | p0 :: p1 :: p2 :: more =>
      if negb (String.eqb p0 "tenants") || negb (IsValidTenantID p1) then Err [ErrInvalidEnvelope]
      else if String.eqb p2 "devices" then
        match more with
        | [] => Ok (scope "devices" p1 "" "")
        | device :: rest => device_resource p1 device rest
        end
      else if String.eqb p2 "commands" then
        match more with
        | [] => Ok (scope "commands" p1 "" "")
        | [id] => Ok (scope "command" p1 "" id)
        | _ => Err [ErrNotFound]
        end
      else Err [ErrNotFound]
    | _ => Err [ErrInvalidEnvelope]
    end
  end.

(** The query parameters a resource takes; only a GET takes any. *)
Definition allowed_query (method resource : string) : list string :=
  let one_of names := existsb (String.eqb resource) names in
  if negb (String.eqb method "GET") then []
  else
    (if one_of ["tenants"; "devices"; "telemetry"; "commands"; "deviceCommands"] then ["pageSize"; "cursor"] else [])
    ++ (if one_of ["telemetry"; "commands"; "deviceCommands"] then ["startTime"; "endTime"; "sort"] else [])
    ++ (if one_of ["telemetry"] then ["type"] else [])
    ++ (if one_of ["commands"; "deviceCommands"] then ["status"] else [])
    ++ (if one_of ["commands"] then ["deviceId"] else []).

(** Every parameter is allowed and has one value that is not empty. *)
Definition query_ok (allowed : list string) (query : Values) : bool :=
  forallb (fun '(key, values) => existsb (String.eqb key) allowed
                                 && match values with [v] => negb (String.eqb v "") | _ => false end)
    (map_to_list query).

Definition with_query (p : ManagementParameters) (query : Values) : ManagementParameters :=
  MkManagementParameters (mp_Resource p) (mp_TenantID p) (mp_DeviceID p) (mp_CommandID p) query.

Definition page_size_ok (raw : string) : bool :=
  String.eqb raw "" || match Atoi raw with Some n => (1 <=? n) && (n <=? maxPageSize) | None => false end.

Definition ManagementRequest (r : Request) : result ManagementParameters :=
  match rq_Params r with
  | Some p => Ok p
  | None =>
    p ← management_path (rq_Path r);
    _ ← (if negb (String.eqb (mp_CommandID p) "") then ValidateCommandID (mp_CommandID p) else Ok tt);
    match ParseQuery (rq_RawQuery r) with
    | None => Err [Opaque "invalid query encoding"]
    | Some query =>
      if negb (query_ok (allowed_query (rq_Method r) (mp_Resource p)) query) then Err [Opaque "unsupported query parameter"]
      else if negb (page_size_ok (values_get query "pageSize")) then Err [Opaque "pageSize out of range"]
      else if 4096 <? len (values_get query "cursor") then Err [Opaque "cursor exceeds 4096 bytes"]
      else if (1 <? length (header_values r "Idempotency-Key"))%nat then Err [Opaque "Idempotency-Key must have exactly one value"]
      else Ok (with_query p query)
    end
  end.

Definition withManagementParameters (r : Request) (p : ManagementParameters) : Request :=
  MkRequest (rq_Method r) (rq_Path r) (rq_RawQuery r) (rq_Header r) (rq_Body r) (Some p).

(** ** metrics.go: labels *)
Definition statusLabel (status : Z) : string :=
  if (200 <=? status) && (status <? 300) then "2xx"
  else if (300 <=? status) && (status <? 400) then "3xx"
  else if (400 <=? status) && (status <? 500) then "4xx"
  else if 500 <=? status then "5xx" else "unknown".

Definition route_prefix : string := "/api/v1/tenants/{tenantId}".

(** The label of a resource. *)
Definition resource_label (resource : string) : string :=
  if String.eqb resource "tenants" then "/api/v1/tenants"
  else if String.eqb resource "devices" then route_prefix +:+ "/devices"
  else if String.eqb resource "device" then route_prefix +:+ "/devices/{deviceId}"
  else if String.eqb resource "status" || String.eqb resource "telemetry" then route_prefix +:+ "/devices/{deviceId}/" +:+ resource
  else if String.eqb resource "deviceCommands" then route_prefix +:+ "/devices/{deviceId}/commands"
  else if String.eqb resource "commands" then route_prefix +:+ "/commands"
  else if String.eqb resource "command" then route_prefix +:+ "/commands/{commandId}"
  else if String.eqb resource "acknowledgements" then route_prefix +:+ "/devices/{deviceId}/commands/{commandId}/acknowledgements"
  else "other".

Definition routeLabel (path : string) : string :=
  if existsb (String.eqb path) ["/healthz"; "/readyz"; "/metrics"; "/schemas/mqtt-envelope.json"] then path
  else match ManagementRequest (MkRequest "GET" path "" ∅ "" None) with
       | Err _ => "other"
       | Ok p => resource_label (mp_Resource p)
       end.

(** ** A path has one reading *)

(** The path of a resource, segment by segment. *)
Definition resource_segments (p : ManagementParameters) : option (list string) :=
  let under more := Some ("tenants" :: mp_TenantID p :: more) in
  let device more := under ("devices" :: mp_DeviceID p :: more) in
  if String.eqb (mp_Resource p) "tenants" then Some ["tenants"]
  else if String.eqb (mp_Resource p) "devices" then under ["devices"]
  else if String.eqb (mp_Resource p) "device" then device []
  else if String.eqb (mp_Resource p) "status" then device ["status"]
  else if String.eqb (mp_Resource p) "telemetry" then device ["telemetry"]
  else if String.eqb (mp_Resource p) "deviceCommands" then device ["commands"]
  else if String.eqb (mp_Resource p) "acknowledgements" then device ["commands"; mp_CommandID p; "acknowledgements"]
  else if String.eqb (mp_Resource p) "commands" then under ["commands"]
  else if String.eqb (mp_Resource p) "command" then under ["commands"; mp_CommandID p]
  else None.

Definition device_resources : list string := ["device"; "status"; "telemetry"; "deviceCommands"; "acknowledgements"].
Definition command_resources : list string := ["acknowledgements"; "command"].

(** What the parameters of a resource look like: a tenant except for the list
    of tenants, a device and a command exactly where the resource has one. *)
Definition listed (l : list string) (p : ManagementParameters) : bool := existsb (String.eqb (mp_Resource p)) l.

Record scope_ok (p : ManagementParameters) : Prop := {
  sc_tenant : if listed ["tenants"] p then mp_TenantID p = "" else IsValidTenantID (mp_TenantID p) = true;
  sc_device : if listed device_resources p then IsValidTopicPart (mp_DeviceID p) = true else mp_DeviceID p = "";
  sc_command : if listed command_resources p then contains_byte "/" (mp_CommandID p) = false else mp_CommandID p = "" }.

Definition addresses (path : string) (p : ManagementParameters) : Prop :=
  exists segs, resource_segments p = Some segs /\ path = api_prefix +:+ join_byte "/" segs /\ scope_ok p /\ mp_Query p = ∅.

Lemma split_join_eq s p ps : split_byte "/" s = p :: ps -> s = join_byte "/" (p :: ps).
Proof. intros <-. by rewrite join_split. Qed.

Ltac scope_solver :=
  eexists; split; [reflexivity|]; split; [reflexivity|]; split; [split; (exact eq_refl || assumption)|reflexivity].

Lemma device_resource_addresses tenant device rest p :
  IsValidTenantID tenant = true -> Forall (fun q => contains_byte "/" q = false) rest ->
  device_resource tenant device rest = Ok p ->
  addresses (api_prefix +:+ join_byte "/" ("tenants" :: tenant :: "devices" :: device :: rest)) p.
Proof.
  intros Ht Hsep. unfold device_resource, ValidateDeviceIdentity. rewrite Ht.
  destruct (IsValidTopicPart device) eqn:Hd; [|done]. cbn [negb orb].
  destruct rest as [|sub [|id [|last [|? ?]]]]; cbn -[join_byte String.append]; try done.
  - intros [= <-]. scope_solver.
  - destruct (String.eqb_spec sub "status") as [->|]; [intros [= <-]; scope_solver|].
    destruct (String.eqb_spec sub "telemetry") as [->|]; [intros [= <-]; scope_solver|].
    destruct (String.eqb_spec sub "commands") as [->|]; [intros [= <-]; scope_solver|done].
  - destruct (String.eqb_spec sub "commands") as [->|]; [|done].
    destruct (String.eqb_spec last "acknowledgements") as [->|]; [|done]. intros [= <-].
    assert (contains_byte "/" id = false) by (by inversion Hsep as [|? ? _ Hs]; inversion Hs). scope_solver.
Qed.

Lemma management_path_sound path p : management_path path = Ok p -> addresses path p.
Proof.
  unfold management_path. destruct (cut_prefix api_prefix path) as [rest|] eqn:Hp; [|done].
  apply cut_prefix_Some in Hp as ->. destruct (split_byte "/" rest) as [|p0 [|p1 [|p2 more]]] eqn:Hs; [done| |done|].
  - pose proof (split_join_eq _ _ _ Hs) as ->. destruct (String.eqb_spec p0 "tenants") as [->|]; [|done].
    intros [= <-]. scope_solver.
  - pose proof (split_byte_no_sep "/" rest) as Hsep. rewrite Hs in Hsep. apply split_join_eq in Hs as ->.
    destruct (String.eqb_spec p0 "tenants") as [->|]; [|done].
    destruct (IsValidTenantID p1) eqn:Ht; [|done]. cbn [negb orb].
    destruct (String.eqb_spec p2 "devices") as [->|].
    + destruct more as [|device rest]; [intros [= <-]; scope_solver|]. apply device_resource_addresses; [done|].
      do 4 (apply Forall_cons in Hsep as [_ Hsep]). done.
    + destruct (String.eqb_spec p2 "commands") as [->|]; [|done]. destruct more as [|id [|? ?]]; [intros [= <-]; scope_solver| |done].
      intros [= <-]. do 3 (apply Forall_cons in Hsep as [_ Hsep]). apply Forall_cons in Hsep as [Hid _]. scope_solver.
Qed.

Lemma cut_api s : cut_prefix api_prefix (api_prefix +:+ s) = Some s.
Proof. apply cut_prefix_app. Qed.

Lemma part_no_slash part : IsValidTopicPart part = true -> contains_byte "/" part = false.
Proof. intros H. by eapply topic_part_no_sep. Qed.

#[local] Hint Resolve part_no_slash tenant_id_part : params.

Lemma split_segments p segs :
  scope_ok p -> resource_segments p = Some segs -> split_byte "/" (join_byte "/" segs) = segs.
Proof.
  intros Hok Hs. enough (Hf : segs <> [] /\ Forall (fun q => contains_byte "/" q = false) segs).
  { destruct Hf as [Hne Hf]. destruct segs as [|q qs]; [done|]. by apply split_join. }
  destruct Hok as [Ht Hd Hc].
  assert (Ht' : contains_byte "/" (mp_TenantID p) = false) by (destruct (listed ["tenants"] p); [by rewrite Ht|eauto with params]).
  assert (Hd' : contains_byte "/" (mp_DeviceID p) = false) by (destruct (listed device_resources p); [eauto with params|by rewrite Hd]).
  assert (Hc' : contains_byte "/" (mp_CommandID p) = false) by (destruct (listed command_resources p); [done|by rewrite Hc]).
  unfold resource_segments in Hs. cbv zeta in Hs.
  repeat (case_match; [injection Hs as <-; split; [done|]; by repeat constructor|]). done.
Qed.

Lemma scope_eta p : mp_Query p = ∅ -> scope (mp_Resource p) (mp_TenantID p) (mp_DeviceID p) (mp_CommandID p) = p.
Proof. destruct p. simpl. by intros ->. Qed.

#[local] Arguments IsValidTenantID : simpl never.
#[local] Arguments IsValidTopicPart : simpl never.

Lemma management_path_complete path p : addresses path p -> management_path path = Ok p.
Proof.
  intros (segs & Hs & -> & Hok & Hq). unfold management_path. rewrite cut_api, (split_segments p segs Hok Hs).
  rewrite <- (scope_eta p Hq). destruct Hok as [Ht Hd Hc]. unfold listed in Ht, Hd, Hc. unfold resource_segments in Hs. cbv zeta in Hs.
  repeat match type of Hs with
  | (if String.eqb ?r ?s then _ else _) = _ =>
      let E := fresh "E" in destruct (String.eqb_spec r s) as [E|]; [rewrite E in Ht, Hd, Hc; rewrite E; injection Hs as <-|]
  end; [..|done].
  all: simpl in Ht, Hd, Hc |- *; unfold device_resource, ValidateDeviceIdentity; rewrite ?Ht, ?Hd, ?Hc; reflexivity.
Qed.

(** ** The contract of a request *)

Definition single_value (allowed : list string) (key : string) (values : list string) : Prop :=
  key ∈ allowed /\ exists v, values = [v] /\ v <> "".

Lemma query_ok_iff allowed query : query_ok allowed query = true <-> map_Forall (single_value allowed) query.
Proof.
  unfold query_ok. rewrite forallb_forall, map_Forall_to_list, Forall_forall. unfold single_value.
  setoid_rewrite <- list_elem_of_In. split; intros H [key values] Hin; specialize (H _ Hin); simpl in *.
  - apply andb_prop in H as [Ha Hv]. apply existsb_exists in Ha as (k & Hk & ->%String.eqb_eq). split; [by apply list_elem_of_In|].
    destruct values as [|v [|]]; try done. exists v. split; [done|]. by apply String.eqb_neq, negb_true_iff.
  - destruct H as (Hk & v & -> & Hv%String.eqb_neq). rewrite Hv. rewrite (proj2 (existsb_exists _ _)); [done|].
    exists key. split; [by apply list_elem_of_In|apply String.eqb_refl].
Qed.

Lemma page_size_ok_iff raw :
  page_size_ok raw = true <-> raw = "" \/ exists n, Atoi raw = Some n /\ 1 <= n <= maxPageSize.
Proof.
  unfold page_size_ok. rewrite orb_true_iff, String.eqb_eq. destruct (Atoi raw) as [n|]; [|naive_solver].
  rewrite andb_true_iff, !Z.leb_le. naive_solver.
Qed.

(** A request as it arrives, before authorization stored its reading. *)
Definition fresh (r : Request) : Prop := rq_Params r = None.

Record request_contract (r : Request) (p : ManagementParameters) : Prop := {
  rc_path : addresses (rq_Path r) (with_query p ∅);
  rc_command : mp_CommandID p <> "" -> IsValidTopicPart (mp_CommandID p) = true;
  rc_query : ParseQuery (rq_RawQuery r) = Some (mp_Query p);
  rc_parameters : map_Forall (single_value (allowed_query (rq_Method r) (mp_Resource p))) (mp_Query p);
  rc_size : values_get (mp_Query p) "pageSize" = ""
            \/ exists n, Atoi (values_get (mp_Query p) "pageSize") = Some n /\ 1 <= n <= maxPageSize;
  rc_cursor : len (values_get (mp_Query p) "cursor") <= 4096;
  rc_key : (length (header_values r "Idempotency-Key") <= 1)%nat }.

Lemma with_query_path p q : addresses q (with_query p ∅) -> with_query (with_query p ∅) (mp_Query p) = p.
Proof. by destruct p. Qed.

Lemma addresses_no_query path p : addresses path p -> with_query p ∅ = p.
Proof. intros (_ & _ & _ & _ & Hq). destruct p. simpl in *. by subst. Qed.

Lemma management_request_read r p : fresh r -> ManagementRequest r = Ok p <-> request_contract r p.
Proof.
  unfold fresh, ManagementRequest. intros ->. split.
  - intros (p0 & Hp & H)%result_bind_ok. apply result_bind_ok in H as ([] & Hc & H).
    destruct (ParseQuery (rq_RawQuery r)) as [query|] eqn:Eq; [|done]. destruct (query_ok _ query) eqn:Hq; [|done].
    destruct (page_size_ok _) eqn:Hsz; [|done]. simpl in H. destruct (Z.ltb_spec 4096 (len (values_get query "cursor"))); [done|].
    destruct (Nat.ltb_spec 1 (length (header_values r "Idempotency-Key"))); [done|]. injection H as <-.
    apply management_path_sound in Hp as Ha. apply query_ok_iff in Hq. apply page_size_ok_iff in Hsz.
    split; cbn [mp_CommandID mp_Query mp_Resource with_query]; try done.
    + pose proof (addresses_no_query _ _ Ha) as E. destruct p0; simpl in *. injection E as <-. exact Ha.
    + intros Hne%String.eqb_neq. rewrite Hne in Hc. unfold ValidateCommandID in Hc. by destruct (IsValidTopicPart (mp_CommandID p0)).
  - intros [Hpath Hcmd Hq Hpar Hsz Hcur Hkey]. rewrite (management_path_complete _ _ Hpath), Hq.
    cbn [mbind result_bind mp_CommandID mp_Resource with_query].
    apply query_ok_iff in Hpar as ->. apply page_size_ok_iff in Hsz as ->. cbn [negb].
    rewrite (proj2 (Z.ltb_ge _ _) Hcur), (proj2 (Nat.ltb_ge _ _) Hkey), (with_query_path p _ Hpath).
    destruct (String.eqb_spec (mp_CommandID p) "") as [|Hne]; [done|]. unfold ValidateCommandID. by rewrite (Hcmd Hne).
Qed.


(** ** Labels are bounded *)
Definition probe_paths : list string := ["/healthz"; "/readyz"; "/metrics"; "/schemas/mqtt-envelope.json"].
Definition resources : list string :=
  ["tenants"; "devices"; "device"; "status"; "telemetry"; "deviceCommands"; "commands"; "command"; "acknowledgements"].
Definition route_labels : list string := "other" :: probe_paths ++ map resource_label resources.

Lemma resource_label_listed resource : resource_label resource ∈ "other" :: map resource_label resources.
Proof.
  destruct (existsb (String.eqb resource) resources) eqn:E.
  - apply existsb_exists in E as (r & Hr & ->%String.eqb_eq). right. apply list_elem_of_fmap. exists r. split; [done|]. by apply list_elem_of_In.
  - apply elem_of_cons. left. unfold resource_label. cbn [existsb resources] in E. rewrite !orb_false_iff in E.
    destruct E as (-> & -> & -> & -> & -> & -> & -> & -> & -> & _). done.
Qed.

(** The labels of request metrics, spans and access logs are bounded and
    carry no identifier: whatever path a client asks for, its label is one of
    fourteen fixed texts, and two paths of the same resource have the same label,
    whatever tenant, device and command they name. *)
Theorem route_label_bounded path :
  routeLabel path ∈ route_labels /\ length route_labels = 14%nat
  /\ (forall path1 path2 p1 p2, addresses path1 p1 -> addresses path2 p2 -> mp_Resource p1 = mp_Resource p2 ->
        (mp_CommandID p1 <> "" -> IsValidTopicPart (mp_CommandID p1) = true) ->
        (mp_CommandID p2 <> "" -> IsValidTopicPart (mp_CommandID p2) = true) ->
        routeLabel path1 = routeLabel path2).
Proof.
  split_and!; [|done|].
  - unfold routeLabel, route_labels. destruct (existsb _ _) eqn:E.
    + apply existsb_exists in E as (x & Hx & ->%String.eqb_eq). right. apply elem_of_app. left. by apply list_elem_of_In.
    + destruct (ManagementRequest _) as [p|]; [|left]. pose proof (resource_label_listed (mp_Resource p)) as Hr.
      apply elem_of_cons in Hr as [->|Hr]; [left|]. right. apply elem_of_app. by right.
  - assert (Hlabel : forall path p, addresses path p -> (mp_CommandID p <> "" -> IsValidTopicPart (mp_CommandID p) = true) ->
      routeLabel path = resource_label (mp_Resource p)).
    { intros pa p Ha Hc. unfold routeLabel. destruct (existsb _ _) eqn:E; [exfalso|].
      - apply existsb_exists in E as (x & Hx & ->%String.eqb_eq). apply management_path_complete in Ha.
        simpl in Hx. destruct Hx as [<-|[<-|[<-|[<-|[]]]]]; discriminate Ha.
      - unfold ManagementRequest. cbn [rq_Params rq_Path rq_RawQuery rq_Method]. rewrite (management_path_complete _ _ Ha).
        cbn [mbind result_bind]. change (ParseQuery "") with (Some (∅ : Values)).
        destruct (String.eqb_spec (mp_CommandID p) "") as [|Hne]; [done|]. unfold ValidateCommandID. by rewrite (Hc Hne). }
    intros p1 p2 q1 q2 H1 H2 Hr Hc1 Hc2. by rewrite (Hlabel _ _ H1 Hc1), (Hlabel _ _ H2 Hc2), Hr.
Qed.

Definition sample_get (path query : string) : Request := MkRequest "GET" path query ∅ "" None.

