(* ===== verification/HttpAuth.v ===== *)
(** * Bearer tokens: internal/platform/http_auth.go

    The middleware in front of every management route.  A handler is a function
    of the request; what the middleware answers itself is a status code. *)
From stdpp Require Import prelude strings gmap.
From Stdlib Require Import ZArith Lia Ascii.
From S2P Require Import Prelude GoStrings Contracts GoJson Base64 Payload Domain GoNet TimeText Pagination HttpParams.

Local Open Scope Z_scope.

(** [json.Unmarshal] into a [map[string]string]: a later member of the same name
    wins, [null] is the zero value. *)
Fixpoint string_members (ms : list (string * json)) (m : gmap string string) : option (gmap string string) :=
  match ms with
  | [] => Some m
  | (k, JStr v) :: ms' => string_members ms' (<[k := v]> m)
  | (k, JNull) :: ms' => string_members ms' (<[k := ""]> m)
  | _ => None
  end.

Definition unmarshal_string_map (raw : string) : option (gmap string string) :=
  match json_parse raw with
  | Some (JObj ms) => string_members ms ∅
  | Some JNull => Some ∅
  | _ => None
  end.

Definition token_entry_ok (kv : string * string) : bool :=
  negb (String.eqb (trim_space kv.1) "") && IsValidTenantID kv.2.

Definition ParseTenantBoundTokens (raw : string) : result (gmap string string) :=
  if String.eqb (trim_space raw) "" then Ok ∅
  else match unmarshal_string_map raw with
       | None => Err [Opaque "json"]
       | Some tokens => if forallb token_entry_ok (map_to_list tokens) then Ok tokens
                        else Err [Opaque "tenant-bound tokens require non-empty token and tenantId"]
       end.

Definition public_path (path : string) : bool :=
  String.eqb path "/healthz" || String.eqb path "/readyz" || String.eqb path "/schemas/mqtt-envelope.json".

(** [writeError] is what answering an error code amounts to. *)
Definition BearerTokenMiddlewareWithTenants {A} (writeError : Z -> A) (token : string) (tenantTokens : gmap string string)
    (next : Request -> A) (r : Request) : A :=
  if public_path (rq_Path r) then next r
  else
    match cut_prefix "Bearer " (header_get r "Authorization") with
    | None => writeError 401
    | Some provided =>
      if String.eqb provided "" then writeError 401
      else
        let global := negb (String.eqb token "") && String.eqb provided token in
        let bound := tenantTokens !! provided in
        if negb global && negb (match bound with Some _ => true | None => false end) then writeError 401
        else
          match ManagementRequest r with
          | Err e => if errors_is e ErrNotFound then writeError 404 else writeError 400
          | Ok params =>
            if negb global && (String.eqb (mp_TenantID params) "" || negb (String.eqb (mp_TenantID params) (default "" bound)))
            then writeError 403
            else next (withManagementParameters r params)
          end
    end.

Definition BearerTokenMiddleware {A} (writeError : Z -> A) (token : string) (next : Request -> A) (r : Request) : A :=
  BearerTokenMiddlewareWithTenants writeError token ∅ next r.

(** ** What a token allows *)
Definition presents (r : Request) (provided : string) : Prop :=
  header_get r "Authorization" = "Bearer " +:+ provided.

Definition global_token (token provided : string) : Prop := token <> "" /\ provided = token.

(** What the middleware does with a request that is not public. *)
Inductive auth_outcome {A} (writeError : Z -> A) (token : string) (tokens : gmap string string) (next : Request -> A) (r : Request) : A -> Prop :=
| auth_refused status : status ∈ [400; 401; 403; 404] -> auth_outcome writeError token tokens next r (writeError status)
| auth_global provided params : presents r provided -> provided <> "" -> global_token token provided ->
    ManagementRequest r = Ok params ->
    auth_outcome writeError token tokens next r (next (withManagementParameters r params))
| auth_bound provided tenant params : presents r provided -> provided <> "" -> tokens !! provided = Some tenant ->
    ManagementRequest r = Ok params -> mp_TenantID params = tenant -> tenant <> "" ->
    auth_outcome writeError token tokens next r (next (withManagementParameters r params)).

Lemma bearer_outcome {A} (writeError : Z -> A) token tokens next r :
  public_path (rq_Path r) = false ->
  auth_outcome writeError token tokens next r (BearerTokenMiddlewareWithTenants writeError token tokens next r).
Proof.
  intros Hpub. unfold BearerTokenMiddlewareWithTenants. rewrite Hpub.
  destruct (cut_prefix "Bearer " _) as [provided|] eqn:Hc; [|constructor; set_solver]. apply cut_prefix_Some in Hc.
  destruct (String.eqb_spec provided ""); [constructor; set_solver|].
  destruct (negb (String.eqb token "") && String.eqb provided token) eqn:Hg; cbn [negb andb].
  - apply andb_true_iff in Hg as [Hne%negb_true_iff%String.eqb_neq ->%String.eqb_eq].
    destruct (ManagementRequest r) as [params|e] eqn:Hm; [|destruct (errors_is e ErrNotFound); constructor; set_solver].
    by eapply auth_global.
  - destruct (tokens !! provided) as [tenant|] eqn:Hb; [|constructor; set_solver]. cbn [negb from_option id].
    destruct (ManagementRequest r) as [params|e] eqn:Hm; [|destruct (errors_is e ErrNotFound); constructor; set_solver].
    destruct (String.eqb_spec (mp_TenantID params) ""); [constructor; set_solver|].
    destruct (String.eqb_spec (mp_TenantID params) tenant) as [Ht|]; cbn [negb orb]; [|constructor; set_solver].
    eapply auth_bound; try done. congruence.
Qed.

(** A bound token of the configuration names a valid tenant. *)
Lemma bound_tokens_valid raw tokens provided tenant :
  ParseTenantBoundTokens raw = Ok tokens -> tokens !! provided = Some tenant ->
  trim_space provided <> "" /\ IsValidTenantID tenant = true.
Proof.
  unfold ParseTenantBoundTokens. destruct (String.eqb _ ""); [intros [= <-]; by rewrite lookup_empty|].
  destruct (unmarshal_string_map raw) as [m|]; [|done]. destruct (forallb token_entry_ok _) eqn:Hf; [|done]. intros [= <-] Hp.
  rewrite forallb_forall in Hf. specialize (Hf (provided, tenant)). unfold token_entry_ok in Hf. simpl in Hf.
  destruct (andb_prop _ _ (Hf ltac:(apply list_elem_of_In, elem_of_map_to_list; done))) as [Ht ?].
  split; [|done]. by apply String.eqb_neq, negb_true_iff.
Qed.
