(* ===== verification/Observability.v ===== *)
(** * Request identifiers, access logs and spans

    internal/platform/{observability,http_logging,http_tracing}.go: the identifier
    a request carries from the HTTP edge to the core, the response writer that
    remembers the status, and what is written to the access log and to a span. *)
From stdpp Require Import prelude strings gmap.
From Stdlib Require Import ZArith Lia Ascii.
From S2P Require Import Prelude GoStrings GoJson Base64 GoNet Domain Pagination HttpParams.

Local Open Scope Z_scope.

(** ** Request identifiers

    A context is what it holds under [requestIDContextKey]. *)
Definition Ctx := option string.

Definition hex_digit (n : Z) : ascii := chr (if n <? 10 then 48 + n else 87 + n).
Fixpoint hex_encode (s : string) : string :=
  match s with
  | EmptyString => ""
  | String c rest => String (hex_digit (bval c / 16)) (String (hex_digit (bval c mod 16)) (hex_encode rest))
  end.

(** [random] is what [crypto/rand] filled the buffer with, unless it failed. *)
Definition NewRequestID (random : option string) (nano : Z) : string :=
  match random with Some buf => hex_encode buf | None => Itoa nano end.

Definition RequestIDFromContext (ctx : Ctx) : string := default "" ctx.

(** [fresh] is the answer of [NewRequestID], should it be asked. *)
Definition ContextWithRequestID (fresh : string) (ctx : Ctx) (requestID : string) : Ctx :=
  let requestID := trim_space requestID in Some (if String.eqb requestID "" then fresh else requestID).

Definition EnsureRequestID (fresh : string) (ctx : Ctx) (requestID : string) : Ctx * string :=
  let existing := RequestIDFromContext ctx in
  if negb (String.eqb existing "") then (ContextWithRequestID fresh ctx existing, existing)
  else
    let requestID := trim_space requestID in
    let requestID := if String.eqb requestID "" then fresh else requestID in
    (ContextWithRequestID fresh ctx requestID, requestID).

(** The context of the handler and the header of the response. *)
Definition RequestIDHTTPMiddleware (fresh : string) (ctx : Ctx) (r : Request) : Ctx * string :=
  EnsureRequestID fresh ctx (header_get r "X-Request-Id").

(** The values of x-request-id in the outgoing metadata. *)
Definition UnaryClientRequestIDInterceptor (fresh : string) (ctx : Ctx) (outgoing : list string) : Ctx * list string :=
  let '(ctx, requestID) := EnsureRequestID fresh ctx "" in (ctx, outgoing ++ [requestID]).

Definition UnaryServerRequestIDInterceptor (fresh : string) (ctx : Ctx) (incoming : list string) : Ctx * string :=
  EnsureRequestID fresh ctx (default "" (head incoming)).

(** ** The response writer that remembers the status *)
Inductive Wire := SentHeader (code : Z) | SentBody (bytes : string).
Record accessLogResponse := MkAccessLogResponse { al_status : Z; al_wroteHeader : bool; al_sent : list Wire }.

Definition new_response : accessLogResponse := MkAccessLogResponse 200 false [].

Definition WriteHeader (code : Z) (w : accessLogResponse) : accessLogResponse :=
  if al_wroteHeader w then w
  else if 200 <=? code then MkAccessLogResponse code true (al_sent w ++ [SentHeader code])
  else MkAccessLogResponse (al_status w) (al_wroteHeader w) (al_sent w ++ [SentHeader code]).

Definition Write (bytes : string) (w : accessLogResponse) : accessLogResponse :=
  let w := if al_wroteHeader w then w else WriteHeader 200 w in
  MkAccessLogResponse (al_status w) (al_wroteHeader w) (al_sent w ++ [SentBody bytes]).

(** What a handler does with it, and how it ends. *)
Inductive HandlerAct := HWriteHeader (code : Z) | HWrite (bytes : string).
Inductive HandlerEnd := Returned | Panicked | Aborted.

Definition handler_act (w : accessLogResponse) (a : HandlerAct) : accessLogResponse :=
  match a with HWriteHeader code => WriteHeader code w | HWrite bytes => Write bytes w end.
Definition run_handler (acts : list HandlerAct) (w : accessLogResponse) : accessLogResponse := foldl handler_act w acts.

(** ** http_logging.go *)
Inductive Level := LInfo | LError.
Inductive LogEntry :=
| LogPanic (route stack : string)
| LogRequest (level : Level) (method route : string) (status durationMs : Z) (requestId : string).

(** The response, the log, and whether the panic goes on to the server. *)
Definition SafeHTTPLoggingMiddleware (stack : string) (durationMs : Z) (ctx : Ctx) (r : Request) (acts : list HandlerAct) (how : HandlerEnd)
  : accessLogResponse * list LogEntry * bool :=
  let response := run_handler acts new_response in
  let route := routeLabel (rq_Path r) in
  let entry response := LogRequest (if 500 <=? al_status response then LError else LInfo) (rq_Method r) route (al_status response) durationMs
                          (RequestIDFromContext ctx) in
  match how with
  | Aborted => (response, [], true)
  | Panicked => let response := WriteHeader 500 response in (response, [LogPanic route stack; entry response], false)
  | Returned => (response, [entry response], false)
  end.

(** ** http_tracing.go *)
Record Span := MkSpan { sp_name : string; sp_method : string; sp_route : string; sp_target : string; sp_status : option Z; sp_error : bool }.

Definition traced_methods : list string := ["GET"; "HEAD"; "POST"; "PUT"; "PATCH"; "DELETE"; "CONNECT"; "OPTIONS"; "TRACE"].

(** A handler that does not return ends the span without a status. *)
Definition SafeHTTPTracingMiddleware (r : Request) (acts : list HandlerAct) (how : HandlerEnd) : option Span :=
  let route := routeLabel (rq_Path r) in
  if String.eqb route "/healthz" || String.eqb route "/readyz" || String.eqb route "/metrics" then None
  else
    let method := if bool_decide (rq_Method r ∈ traced_methods) then rq_Method r else "_OTHER" in
    let response := run_handler acts new_response in
    match how with
    | Returned => Some (MkSpan route method route route (Some (al_status response)) (500 <=? al_status response))
    | _ => Some (MkSpan route method route route None false)
    end.

(** ** One status on the wire, and the same in the log *)
Definition final_status (e : Wire) : option Z := match e with SentHeader code => if 200 <=? code then Some code else None | SentBody _ => None end.
Definition is_body (e : Wire) : bool := match e with SentBody _ => true | _ => false end.

(** The status that [net/http] gives a response without one is 200. *)
Definition status_ok (w : accessLogResponse) : Prop :=
  if al_wroteHeader w then omap final_status (al_sent w) = [al_status w]
  else al_status w = 200 /\ omap final_status (al_sent w) = [] /\ existsb is_body (al_sent w) = false.

Lemma write_header_ok code w : status_ok w -> status_ok (WriteHeader code w).
Proof.
  unfold status_ok, WriteHeader. destruct (al_wroteHeader w) eqn:E; [by rewrite E|]. intros (Hs & Hf & Hb).
  destruct (200 <=? code) eqn:Ec; cbn [al_wroteHeader al_status al_sent].
  - by rewrite omap_app, Hf; simpl; rewrite Ec.
  - rewrite omap_app, Hf, existsb_app, Hb. simpl. by rewrite Ec.
Qed.

Lemma write_ok bytes w : status_ok w -> status_ok (Write bytes w) /\ al_wroteHeader (Write bytes w) = true.
Proof.
  intros Hw. unfold Write. set (w' := if al_wroteHeader w then w else WriteHeader 200 w).
  assert (H : status_ok w' /\ al_wroteHeader w' = true).
  { unfold w'. destruct (al_wroteHeader w) eqn:E; [done|]. split; [by apply write_header_ok|]. unfold WriteHeader. by rewrite E. }
  destruct H as [H Hwr]. unfold status_ok in *. cbn [al_wroteHeader al_status al_sent]. rewrite Hwr in *.
  by rewrite omap_app, H.
Qed.

Lemma run_handler_ok acts w : status_ok w -> status_ok (run_handler acts w).
Proof.
  revert w. induction acts as [|[code|bytes] acts IH]; intros w Hw; [done|apply IH, write_header_ok, Hw|apply IH, write_ok, Hw].
Qed.

(** What of a handler's behaviour reaches the log: the codes, never the bodies. *)
Definition shape (acts : list HandlerAct) : list (option Z) :=
  map (fun a => match a with HWriteHeader code => Some code | HWrite _ => None end) acts.

Lemma shape_status acts acts' w w' :
  shape acts = shape acts' -> al_status w = al_status w' -> al_wroteHeader w = al_wroteHeader w' ->
  al_status (run_handler acts w) = al_status (run_handler acts' w')
  /\ al_wroteHeader (run_handler acts w) = al_wroteHeader (run_handler acts' w').
Proof.
  revert acts' w w'. induction acts as [|a acts IH]; intros [|a' acts'] w w' Hs Hst Hwr; try done. injection Hs as Ha Hs.
  simpl. apply IH; [done|..]; destruct a as [code|bytes], a' as [code'|bytes']; simplify_eq; simpl;
    unfold Write, WriteHeader; rewrite <- Hwr; destruct (al_wroteHeader w) eqn:E; simpl; repeat case_match; simpl; congruence.
Qed.

Definition entry_labels (e : LogEntry) : list string := match e with LogPanic route _ => [route] | LogRequest _ _ route _ _ _ => [route] end.



(** ** One identifier from the edge to the core *)

(** What [NewRequestID] answers. *)
Definition usable_id (id : string) : Prop := id <> "" /\ trim_space id = id.

(** Bytes that [strings.TrimSpace] leaves alone. *)
Definition plain_byte (c : ascii) : bool := (33 <=? bval c) && (bval c <? 127).
Fixpoint plain (s : string) : bool := match s with EmptyString => true | String c rest => plain_byte c && plain rest end.

Lemma plain_byte_not_space c : plain_byte c = true -> is_space (bval c) = false /\ seq_size (bval c) = 1%nat /\ bval c < 128.
Proof. unfold plain_byte. intros H. split_and!; [| |lia]; by destruct c as [[] [] [] [] [] [] [] []]. Qed.

Lemma plain_get s n c : plain s = true -> String.get n s = Some c -> plain_byte c = true.
Proof.
  revert n. induction s as [|d s IH]; intros n; [done|]. simpl. intros [Hd Hs]%andb_true_iff. destruct n; [by intros [= <-]|eauto].
Qed.

Lemma plain_last s : plain s = true -> is_space (decode_last_rune s).1 = false.
Proof.
  intros Hp. unfold decode_last_rune. destruct (String.length s) as [|n]; [done|]. destruct (String.get n s) as [d|] eqn:Eg; [|done].
  apply (plain_get _ _ _ Hp) in Eg. apply plain_byte_not_space in Eg as (Hsp & _ & Hlt). by rewrite (proj2 (Z.ltb_lt _ _) Hlt).
Qed.

Lemma plain_trim s : plain s = true -> trim_space s = s.
Proof.
  intros Hp. unfold trim_space. assert (Hl : trim_left s = s).
  { destruct s as [|c s]; [done|]. unfold trim_left. cbn [decode_runes]. simpl in Hp. apply andb_true_iff in Hp as [Hc _].
    apply plain_byte_not_space in Hc as (Hsp & -> & _). cbn [leading_space]. by rewrite Hsp. }
  rewrite Hl. unfold trim_right. pose proof (plain_last s Hp) as Hs. destruct (String.length s); [done|]. cbn [trim_right_fuel].
  destruct s; [done|]. destruct (decode_last_rune _). simpl in Hs. by rewrite Hs.
Qed.

Lemma hex_digit_plain n : 0 <= n < 16 -> plain_byte (hex_digit n) = true.
Proof.
  intros Hn. assert (HF : Forall (fun n => plain_byte (hex_digit n) = true) (seqZ 0 16)) by (by repeat constructor).
  rewrite Forall_forall in HF. apply HF, elem_of_seqZ. lia.
Qed.

Lemma hex_encode_plain s : plain (hex_encode s) = true.
Proof.
  induction s as [|c s IH]; [done|]. cbn [hex_encode plain]. pose proof (bval_range c).
  rewrite !hex_digit_plain, IH by (first [apply Z.mod_pos_bound; lia | split; [apply Z.div_pos; lia|apply Z.div_lt_upper_bound; lia]]). done.
Qed.

Lemma random_id_usable buf nano : buf <> "" -> usable_id (NewRequestID (Some buf) nano).
Proof. intros Hne. split; [by destruct buf|]. apply plain_trim, hex_encode_plain. Qed.

Lemma ensure_usable fresh requestID : usable_id fresh ->
  exists id, EnsureRequestID fresh None requestID = (Some id, id) /\ usable_id id /\ (trim_space requestID <> "" -> id = trim_space requestID).
Proof.
  intros [Hne Ht]. unfold EnsureRequestID, ContextWithRequestID. simpl.
  destruct (String.eqb_spec (trim_space requestID) "") as [E|E].
  - exists fresh. rewrite Ht. apply String.eqb_neq in Hne as Hne'. rewrite Hne'. done.
  - exists (trim_space requestID). rewrite trim_space_idem. apply String.eqb_neq in E as E'. rewrite E'.
    split_and!; [done| |done]. split; [done|apply trim_space_idem].
Qed.

Lemma ensure_keeps fresh id requestID : usable_id id -> EnsureRequestID fresh (Some id) requestID = (Some id, id).
Proof.
  intros [Hne Ht]. unfold EnsureRequestID, ContextWithRequestID. simpl. apply String.eqb_neq in Hne. by rewrite Hne, Ht, Hne.
Qed.

(** The core's handlers see the identifier that was sent. *)
Lemma server_keeps_id fresh id : usable_id fresh -> usable_id id -> UnaryServerRequestIDInterceptor fresh None [id] = (Some id, id).
Proof.
  intros Hf [Hne Ht]. unfold UnaryServerRequestIDInterceptor. simpl. destruct (ensure_usable fresh id Hf) as (id' & -> & _ & Hown).
  rewrite Ht in Hown. by rewrite (Hown Hne).
Qed.

(** A request keeps one identifier from the edge to the core: what the
    middleware sets in the response header, what the client interceptor sends,
    what the core's handlers see and what the core answers with are the same,
    never empty and without white space around it, and it is the client's own
    identifier when it sent one. *)
Lemma request_id_end_to_end fresh1 fresh2 fresh3 r :
  usable_id fresh1 -> usable_id fresh3 ->
  exists id,
    usable_id id
    /\ RequestIDHTTPMiddleware fresh1 None r = (Some id, id)
    /\ UnaryClientRequestIDInterceptor fresh2 (Some id) [] = (Some id, [id])
    /\ UnaryServerRequestIDInterceptor fresh3 None [id] = (Some id, id)
    /\ (trim_space (header_get r "X-Request-Id") <> "" -> id = trim_space (header_get r "X-Request-Id")).
Proof.
  intros H1 H3. destruct (ensure_usable fresh1 (header_get r "X-Request-Id") H1) as (id & Hr & Hid & Hown). exists id. split_and!; try done.
  - unfold UnaryClientRequestIDInterceptor. by rewrite ensure_keeps.
  - by apply server_keeps_id.
Qed.
