(* ===== verification/Tracing.v ===== *)
(** * Service logs and tracing

    internal/platform/observability.go (the structured log and the settings of
    tracing) and the life of the file exporter in internal/platform/trace_file.go.
    The OpenTelemetry library, which turns span contexts into headers, and
    [strconv.ParseFloat] are parameters. *)
From stdpp Require Import prelude strings gmap.
From Stdlib Require Import ZArith Lia Ascii SpecFloat.
From S2P Require Import Prelude GoStrings GoJson Base64 Utf8 Payload Domain JsonText GoNet RuntimeConfig TraceFile TimeText HttpParams Observability.

Local Open Scope Z_scope.

(** ** The structured log *)
Record structuredLogWriter := MkLogWriter { lw_service : string }.

(** What the underlying writer does with the bytes. *)
Inductive WriteOutcome := WroteAll | WroteSome (n : nat) (e : error).

Section log.
Context `{TimeText}.

(** [json.Marshal] of a map writes its keys in order; values that are strings
    cannot fail to encode. *)
Definition log_record (service line : string) (now : Z) : list (string * string) :=
  [("level", "info"); ("msg", line); ("service", service); ("ts", format_rfc3339nano now)].

(** What [Write] answers, and the bytes that reached the output. *)
Definition log_Write (w : structuredLogWriter) (now : Z) (out : WriteOutcome) (p : string) : result Z * string :=
  let line := trim_space p in
  if String.eqb line "" then (Ok (len p), "")
  else
    let bytes := marshal_object (log_record (lw_service w) line now) +:+ String "010" "" in
    match out with
    | WroteAll => (Ok (len p), bytes)
    | WroteSome n e => (Err e, str_take n bytes)
    end.

(** The standard logger after [ConfigureStdLogger]: no prefix, the writer of the
    service, and the service as a field of every entry of the framework's log. *)
Record StdLogger := MkStdLogger { sl_flags : Z; sl_fields : list (string * string); sl_out : structuredLogWriter }.

Definition ConfigureStdLogger (serviceName : string) (l : StdLogger) : StdLogger :=
  MkStdLogger 0 (sl_fields l ++ [("service", serviceName)]) (MkLogWriter serviceName).

(** The messages of a service, each with the time it was logged at. *)
Fixpoint log_all (w : structuredLogWriter) (msgs : list (Z * string)) : string :=
  match msgs with
  | [] => ""
  | (now, p) :: rest => (log_Write w now WroteAll p).2 +:+ log_all w rest
  end.

Definition logged (msgs : list (Z * string)) : list (Z * string) := filter (fun m => trim_space m.2 <> "") msgs.

Definition log_entry (service : string) (m : Z * string) : json :=
  JObj [("level", JStr "info"); ("msg", JStr (to_valid_utf8 (trim_space m.2))); ("service", JStr (to_valid_utf8 service));
        ("ts", JStr (to_valid_utf8 (format_rfc3339nano m.1)))].

Lemma log_record_reads service m :
  json_parse (marshal_object (log_record service (trim_space m.2) m.1)) = Some (log_entry service m).
Proof. by rewrite parse_marshal_object. Qed.

(** C40: a log message cannot forge another one: whatever bytes the messages of a
    service contain, line breaks and broken UTF-8 included, the log is one line
    per message that is not blank, in order, and each line is a JSON object that
    reads back as the level, the message, the service and the time. *)
Theorem log_lines_faithful w msgs :
  exists lines, split_byte "010" (log_all w msgs) = lines ++ [""]
    /\ map json_parse lines = map (fun m => Some (log_entry (lw_service w) m)) (logged msgs).
Proof.
  induction msgs as [|[now p] msgs (lines & Hs & Hp)]; [by exists []|]. cbn [log_all]. unfold log_Write, logged in *.
  rewrite filter_cons. destruct (String.eqb_spec (trim_space p) "") as [E|E].
  - exists lines. rewrite decide_False by (cbn; tauto). simpl. rewrite str_app_nil_l. done.
  - rewrite decide_True by done. exists (marshal_object (log_record (lw_service w) (trim_space p) now) :: lines). split.
    + cbn [snd]. rewrite str_app_assoc, str_app_cons, str_app_nil_l, split_byte_app, Hs by (apply printable_no_newline, object_printable). done.
    + cbn [map]. rewrite Hp. f_equal. apply (log_record_reads _ (now, p)).
Qed.
End log.

(** ** Settings *)
Record TraceSettings := MkTraceSettings {
  tc_Name : string;
  tc_Endpoint : string;
  tc_Batcher : string;
  tc_Sampler : spec_float;
  tc_OtlpHttpPath : string;
  tc_OtlpHttpSecure : bool;
  tc_Disabled : bool }.

(** [strings.EqualFold(s, "true")]: no letter of the word folds outside ASCII. *)
Definition lower_byte (c : ascii) : ascii := if (65 <=? bval c) && (bval c <=? 90) then chr (bval c + 32) else c.
Fixpoint lower_ascii (s : string) : string :=
  match s with EmptyString => "" | String c r => String (lower_byte c) (lower_ascii r) end.
Definition is_true_word (s : string) : bool := String.eqb (lower_ascii s) "true".

(** [filepath.Dir] *)
Fixpoint upto_last_slash (s : string) : string :=
  match s with
  | EmptyString => ""
  | String c r => if contains_byte "/" s then String c (upto_last_slash r) else ""
  end.
Definition filepath_Dir (path : string) : string := path_clean (upto_last_slash path).

Example filepath_Dir_text : map filepath_Dir ["/tmp/a-traces.log"; "a.log"; "x/y/z"; "/a"; "a//b"; ""] = ["/tmp"; "."; "x/y"; "/"; "a"; "."].
Proof. reflexivity. Qed.

(** [strings.ReplaceAll(s, "/", "-")] *)
Fixpoint slashes_to_dashes (s : string) : string :=
  match s with EmptyString => "" | String c r => String (if Ascii.eqb c "/" then "-"%char else c) (slashes_to_dashes r) end.

(** The float64 nearest to one tenth. *)
Definition tenth : spec_float := SFdiv 53 1024 (float_of_Z 1) (float_of_Z 10).

Definition float_le (a b : spec_float) : bool := match SFcompare a b with Some Lt | Some Eq => true | _ => false end.
Definition float_finite (f : spec_float) : bool := match f with S754_zero _ | S754_finite _ _ _ => true | _ => false end.

Section settings.
Context (env : Env) (ParseFloat : string -> result spec_float).

Definition default_endpoint (serviceName batcher endpoint : string) : string :=
  if String.eqb endpoint "" && String.eqb batcher "file" then "/tmp/" +:+ slashes_to_dashes serviceName +:+ "-traces.log" else endpoint.

Definition sampler_setting : spec_float :=
  let v := trim_space (env "OTEL_SAMPLER") in
  if String.eqb v "" then tenth
  else match ParseFloat v with
       | Ok sample => if float_finite sample && float_le (float_of_Z 0) sample && float_le sample (float_of_Z 1) then sample else tenth
       | Err _ => tenth
       end.

(** The settings, and the directory that is created for the endpoint. *)
Definition ensureTraceEndpointDir (endpoint : string) : option string :=
  let dir := filepath_Dir endpoint in
  if String.eqb dir "." || String.eqb dir "" then None else Some dir.

Definition traceSettings (serviceName : string) : TraceSettings * option string :=
  if is_true_word (env "OTEL_DISABLED") then (MkTraceSettings serviceName "" "" (float_of_Z 0) "" false true, None)
  else
    let raw := trim_space (env "OTEL_BATCHER") in
    let batcher := if String.eqb raw "" then "file" else raw in
    let endpoint := default_endpoint serviceName batcher (trim_space (env "OTEL_ENDPOINT")) in
    (MkTraceSettings serviceName endpoint batcher sampler_setting (trim_space (env "OTEL_HTTP_PATH"))
       (is_true_word (trim_space (env "OTEL_HTTP_SECURE"))) false,
     if String.eqb batcher "file" && negb (String.eqb endpoint "") then ensureTraceEndpointDir endpoint else None).

Definition TraceConfig (serviceName : string) : TraceSettings :=
  let cfg := (traceSettings serviceName).1 in
  if String.eqb (tc_Batcher cfg) "file"
  then MkTraceSettings (tc_Name cfg) (tc_Endpoint cfg) (tc_Batcher cfg) (tc_Sampler cfg) (tc_OtlpHttpPath cfg) (tc_OtlpHttpSecure cfg) true
  else cfg.

(** ** The life of the exporter *)
Record TracerProvider := MkTracerProvider { pv_service : string; pv_sampler : spec_float; pv_writer : traceFileWriter }.

(** [fileTracing.provider] and the file system. *)
Record Tracing := MkTracing { tr_provider : option TracerProvider; tr_fs : FS }.

Inductive TraceEvent :=
| TMkdir (dir : string)
| TStartAgent (cfg : TraceSettings)
| TSetProvider (p : TracerProvider)
| TShutdown (p : TracerProvider)
| TStopAgent.

(** [mkdir] and [exporter] are the errors of creating the directory and the
    exporter, if any. *)
Definition StartTracing (serviceName : string) (mkdir exporter : option error) (st : Tracing) : Tracing * list TraceEvent :=
  let '(cfg, made) := traceSettings serviceName in
  let pre := match made with Some dir => [TMkdir dir] | None => [] end in
  if tc_Disabled cfg then (st, pre)
  else if negb (String.eqb (tc_Batcher cfg) "file") then (st, pre ++ [TStartAgent cfg])
  else
    match tr_provider st with
    | Some _ => (st, pre)
    | None =>
      let pre := pre ++ [TMkdir (filepath_Dir (tc_Endpoint cfg))] in
      match mkdir with
      | Some _ => (st, pre)
      | None =>
        let writer := MkTraceFileWriter (tc_Endpoint cfg) traceFileMaxBytes traceFileBackups in
        let '(cleaned, fs) := cleanOversized writer (tr_fs st) in
        match cleaned, exporter with
        | inr _, _ => (MkTracing None fs, pre)
        | inl _, Some _ => (MkTracing None fs, pre)
        | inl _, None =>
          let p := MkTracerProvider (tc_Name cfg) (tc_Sampler cfg) writer in
          (MkTracing (Some p) fs, pre ++ [TSetProvider p])
        end
      end
    end.

Definition StopTracing (st : Tracing) : Tracing * list TraceEvent :=
  (MkTracing None (tr_fs st), match tr_provider st with Some p => [TShutdown p] | None => [TStopAgent] end).

(** What happens to it: a start, a stop, or a batch of spans that the current
    provider exports to its file. *)
Inductive TraceStep := SStart (serviceName : string) (mkdir exporter : option error) | SStop | SExport (record : string).

Definition trace_step (st : Tracing) (s : TraceStep) : Tracing * list TraceEvent :=
  match s with
  | SStart name mkdir exporter => StartTracing name mkdir exporter st
  | SStop => StopTracing st
  | SExport record =>
    (match tr_provider st with
     | Some p => MkTracing (Some p) (TraceFile.Write (pv_writer p) record (tr_fs st)).2
     | None => st
     end, [])
  end.

Fixpoint trace_run (st : Tracing) (ss : list TraceStep) : Tracing * list TraceEvent :=
  match ss with
  | [] => (st, [])
  | s :: ss' => let '(st, l) := trace_step st s in let '(st, l') := trace_run st ss' in (st, l ++ l')
  end.

Definition unit_interval (f : spec_float) : Prop :=
  float_finite f = true /\ float_le (float_of_Z 0) f = true /\ float_le f (float_of_Z 1) = true.

Lemma sampler_unit : unit_interval sampler_setting.
Proof.
  assert (unit_interval tenth) by (split_and!; vm_compute; reflexivity). unfold sampler_setting.
  destruct (String.eqb _ ""); [done|]. destruct (ParseFloat _) as [f|]; [|done]. destruct (_ && _) eqn:E; [|done].
  apply andb_true_iff in E as [[? ?]%andb_true_iff ?]. done.
Qed.

(** A provider of the service: bounded files, and a sampling rate. *)
Definition provider_ok (files : gmap string string) (p : TracerProvider) : Prop :=
  tw_maxBytes (pv_writer p) = traceFileMaxBytes /\ tw_backups (pv_writer p) = traceFileBackups
  /\ within (pv_writer p) files /\ unit_interval (pv_sampler p).

Definition tracing_ok (st : Tracing) : Prop :=
  match tr_provider st with Some p => provider_ok (fs_files (tr_fs st)) p | None => True end.

(** The provider in charge after some events, unless one was started while
    another was running or stopped twice. *)
Fixpoint in_charge (l : list TraceEvent) (current : option TracerProvider) : option (option TracerProvider) :=
  match l with
  | [] => Some current
  | TSetProvider p :: l' => match current with None => in_charge l' (Some p) | Some _ => None end
  | TShutdown p :: l' => match current with Some _ => in_charge l' None | None => None end
  | _ :: l' => in_charge l' current
  end.

Lemma in_charge_app l l' c : in_charge (l ++ l') c = in_charge l c ≫= in_charge l'.
Proof. revert c. induction l as [|e l IH]; intros c; [done|]. destruct e, c; simpl; auto. Qed.

Lemma start_keeps name mkdir exporter st st' l : StartTracing name mkdir exporter st = (st', l) -> tracing_ok st ->
  tracing_ok st' /\ in_charge l (tr_provider st) = Some (tr_provider st').
Proof.
  unfold StartTracing. destruct (traceSettings name) as [cfg made] eqn:Hcfg.
  assert (Hs : tc_Disabled cfg = false -> unit_interval (tc_Sampler cfg)).
  { intros Hd. unfold traceSettings in Hcfg. destruct (is_true_word _); injection Hcfg as <- <-; [done|]. apply sampler_unit. }
  assert (Hpre : forall l c, in_charge (match made with Some dir => [TMkdir dir] | None => [] end ++ l) c = in_charge l c) by (by destruct made).
  destruct (tc_Disabled cfg) eqn:Hd.
  { intros [= <- <-] Hok. split; [done|]. by destruct made. }
  destruct (negb _). { intros [= <- <-] Hok. split; [done|]. by rewrite Hpre. }
  destruct (tr_provider st) as [p|] eqn:Hp. { intros [= <- <-] Hok. split; [done|]. rewrite Hp. by destruct made. }
  destruct mkdir. { intros [= <- <-] Hok. split; [done|]. by rewrite Hp, Hpre. }
  destruct (cleanOversized _ (tr_fs st)) as [cleaned fs] eqn:Hc. destruct cleaned as [u|e].
  2:{ intros [= <- <-] Hok. split; [done|]. by rewrite Hpre. }
  destruct exporter. { intros [= <- <-] Hok. split; [done|]. by rewrite Hpre. }
  intros [= <- <-] Hok. rewrite <- app_assoc, Hpre. split; [|done]. apply clean_within in Hc. split_and!; [done..|]. auto.
Qed.

Lemma trace_step_keeps s st st' l : trace_step st s = (st', l) -> tracing_ok st ->
  tracing_ok st' /\ in_charge l (tr_provider st) = Some (tr_provider st').
Proof.
  destruct s as [name mkdir exporter| |record]; cbn [trace_step].
  - apply start_keeps.
  - intros [= <- <-] _. split; [done|]. by destruct (tr_provider st).
  - intros [= <- <-] Hok. unfold tracing_ok in *. destruct (tr_provider st) as [p|] eqn:Hp; [|by rewrite Hp]. simpl.
    destruct (TraceFile.Write (pv_writer p) record (tr_fs st)) as [r fs] eqn:E. destruct Hok as (Hm & Hb & Hw & Hs).
    destruct (write_keeps (pv_writer p) record ltac:(rewrite Hb; unfold traceFileBackups; lia) _ _ _ E Hw) as [Hw' _]. by unfold provider_ok.
Qed.

(** C39: tracing never outgrows its budget and never leaks an exporter: over any
    sequence of starts, stops and exported spans, with any environment and any
    failures of the file system, at most one provider is in charge, each is shut
    down before another starts, and while one is in charge its file and each of
    its two backups hold at most 8 MiB and it samples at a rate between 0 and 1. *)
Theorem tracing_bounded fs ss st l :
  trace_run (MkTracing None fs) ss = (st, l) ->
  in_charge l None = Some (tr_provider st) /\ tracing_ok st.
Proof.
  assert (H : forall st0, tracing_ok st0 -> forall st l, trace_run st0 ss = (st, l) ->
    in_charge l (tr_provider st0) = Some (tr_provider st) /\ tracing_ok st); [|by apply H].
  clear. induction ss as [|s ss IH]; intros st0 Hok st l; cbn [trace_run]; [by intros [= <- <-]|].
  destruct (trace_step st0 s) as [st1 l1] eqn:E1. destruct (trace_run st1 ss) as [st2 l2] eqn:E2. intros [= <- <-].
  apply trace_step_keeps in E1 as [Hok1 Hc1]; [|done]. apply IH in E2 as [Hc2 Hok2]; [|done].
  split; [|done]. by rewrite in_charge_app, Hc1.
Qed.
End settings.

Lemma tracing_bounded_witness :
  let env := fun key => if String.eqb key "OTEL_ENDPOINT" then "t" else "" in
  let fs := MkFS {[ "t" := "old" ]} [] in
  let run := trace_run env (fun _ => Err [Opaque "syntax"]) (MkTracing None fs)
    [SStart "core" None None; SExport "span"; SStart "core" None None; SStop; SStart "core" None None; SExport "more"] in
  in_charge run.2 None = Some (tr_provider run.1) /\ tracing_ok run.1 /\ is_Some (tr_provider run.1).
Proof.
  intros env fs run.
  destruct (tracing_bounded env (fun _ => Err [Opaque "syntax"]) fs
    [SStart "core" None None; SExport "span"; SStart "core" None None; SStop; SStart "core" None None; SExport "more"] run.1 run.2
    (surjective_pairing run)) as [H1 H2].
  split; [exact H1|]. split; [exact H2|]. vm_compute. eexists. reflexivity.
Defined.

(** ** Probes are never sampled *)
Record SpanContext := MkSpanContext { sc_TraceID : string; sc_SpanID : string; sc_TraceFlags : Z }.

Definition FlagsSampled : Z := 1.

(** The OpenTelemetry library: identifiers from their hexadecimal form (an
    error leaves the zero identifier), and the headers of a span context. *)
Class Otel := {
  TraceIDFromHex : string -> string;
  SpanIDFromHex : string -> string;
  span_valid : SpanContext -> bool;
  traceparent : SpanContext -> string;
  tracestate : SpanContext -> list (string * string);
  header_sampled : string -> bool }.

(** A header says what the flags of its context say; what else is written is
    the trace state. *)
Class OtelLaws `{Otel} := {
  header_sampled_flags sc : span_valid sc = true -> header_sampled (traceparent sc) = Z.testbit (sc_TraceFlags sc) 0;
  span_valid_flags sc flags : span_valid (MkSpanContext (sc_TraceID sc) (sc_SpanID sc) flags) = span_valid sc;
  tracestate_keys sc kv : kv ∈ tracestate sc -> kv.1 = "tracestate" }.

Section probe.
Context `{Otel}.

(** [propagation.TraceContext{}.Inject] *)
Definition Inject (sc : SpanContext) : list (string * string) :=
  if span_valid sc then ("traceparent", traceparent sc) :: tracestate sc else [].

(** The span context of the caller and its outgoing metadata, before and after;
    [fresh] is the answer of [NewRequestID], should it be asked. *)
Definition ProbeContext (fresh : string) (sc : SpanContext) (md : gmap string (list string)) : SpanContext * gmap string (list string) :=
  let sc := if span_valid sc then sc else MkSpanContext (TraceIDFromHex fresh) (SpanIDFromHex (str_take 16 fresh)) 0 in
  let sc := MkSpanContext (sc_TraceID sc) (sc_SpanID sc) (Z.ldiff (sc_TraceFlags sc) FlagsSampled) in
  (sc, foldl (fun md kv => <[kv.1 := [kv.2]]> md) md (Inject sc)).

Lemma set_keys_other md (kvs : list (string * string)) key :
  Forall (fun kv => kv.1 <> key) kvs -> foldl (fun md kv => <[kv.1 := [kv.2]]> md) md kvs !! key = (md : gmap string (list string)) !! key.
Proof.
  revert md. induction kvs as [|kv kvs IH]; intros md Hk; [done|]. inversion Hk; subst. simpl. rewrite IH by done.
  by rewrite lookup_insert_ne.
Qed.

(** A readiness probe leaves no span in the core: the context it calls with is
    never sampled, keeps the identity of a trace it was part of, and, as long as
    the context is valid, carries one traceparent that says so in place of any
    it inherited, with every other header as it was. *)
Theorem probe_context_unsampled `{!OtelLaws} fresh sc md :
  let '(sc', md') := ProbeContext fresh sc md in
  Z.testbit (sc_TraceFlags sc') 0 = false
  /\ (span_valid sc = true -> sc_TraceID sc' = sc_TraceID sc /\ sc_SpanID sc' = sc_SpanID sc /\ span_valid sc' = true)
  /\ (span_valid sc' = true -> exists tp, md' !! "traceparent" = Some [tp] /\ header_sampled tp = false)
  /\ forall key, key <> "traceparent" -> key <> "tracestate" -> md' !! key = md !! key.
Proof.
  unfold ProbeContext. cbn zeta. set (sc0 := if span_valid sc then sc else _).
  set (sc' := MkSpanContext _ _ (Z.ldiff _ _)).
  assert (Hflag : Z.testbit (sc_TraceFlags sc') 0 = false).
  { unfold sc', FlagsSampled. cbn [sc_TraceFlags]. rewrite Z.ldiff_spec. change (Z.testbit 1 0) with true. by rewrite andb_false_r. }
  assert (Hstate : forall key, key <> "tracestate" -> Forall (fun kv => kv.1 <> key) (tracestate sc')).
  { intros key Hk. apply Forall_forall. intros kv Hkv%tracestate_keys. congruence. }
  split_and!; [done| | |].
  - intros Hv. unfold sc', sc0. rewrite Hv. simpl. split_and!; [done|done|]. by rewrite span_valid_flags.
  - intros Hv. unfold Inject. rewrite Hv. simpl. rewrite set_keys_other, lookup_insert_eq by (by apply Hstate).
    eexists. split; [done|]. by rewrite header_sampled_flags.
  - intros key Hk1 Hk2. apply set_keys_other. unfold Inject. destruct (span_valid sc'); [|constructor].
    constructor; [simpl; congruence|by apply Hstate].
Qed.
End probe.
