(* ===== verification/Postgres.v ===== *)
(** * The database under internal/platform/postgres_store.go

    The tables of migrations/, what the store relies on from PostgreSQL (a
    parameter), and transactions whose every round trip may fail: before the
    server acted on it, or after, when only the reply was lost. *)
From stdpp Require Import prelude strings gmap.
From Stdlib Require Import ZArith Lia.
From S2P Require Import Prelude GoStrings Domain.

Local Open Scope Z_scope.

(** ** PostgreSQL, the driver, bcrypt and struct decoding, as far as the store uses them *)
Class PgEnv := {
  (** the instant a timestamptz column keeps of a Go time *)
  pg_time : Z -> Z;
  (** [$n::interval] of the text of a Go duration *)
  pg_interval : Z -> result Z;
  (** [$n::jsonb], as the text it is read back as *)
  jsonb_cast : string -> result string;
  (** [=] on jsonb *)
  jsonb_eq : string -> string -> bool;
  (** [<=] of the collation of text columns *)
  text_leb : string -> string -> bool;
  (** bcrypt *)
  bcrypt_hash : string -> result string;
  bcrypt_matches : string -> string -> bool;
  (** [json.Marshal] and [json.Unmarshal] of a [CommandResult] *)
  marshal_result : Payload.CommandResult -> result string;
  unmarshal_result : string -> result (option Payload.CommandResult) }.

(** ** Tables *)
Record DeviceRow := MkDeviceRow {
  dr_product_id : string;
  dr_secret_hash : string;
  dr_created_at : Z;
  dr_updated_at : Z }.

Record StateRow := MkStateRow {
  sr_connected : bool;
  sr_last_seen_at : option Z;
  sr_last_msg_id : option string;
  sr_updated_at : Z }.

Record TelemetryRow := MkTelemetryRow {
  tr_id : Z;
  tr_ts : Z;
  tr_type : string;
  tr_version : string;
  tr_payload : string;
  tr_tdengine_written : bool;
  tr_received_at : Z }.

Record CommandRow := MkCommandRow {
  cr_tenant_id : string;
  cr_device_id : string;
  cr_status : string;
  cr_payload : string;
  cr_next_dispatch_at : Z;
  cr_dispatch_attempts : Z;
  cr_deadline_at : option Z;
  cr_created_at : Z;
  cr_updated_at : Z;
  cr_idempotency_key : option string;
  cr_result : option string }.

#[export] Instance CommandRow_eq_dec : EqDecision CommandRow.
Proof. solve_decision. Defined.

Record EventRow := MkEventRow { ev_command_id : string; ev_event_type : string; ev_detail : string }.

Record AckRow := MkAckRow {
  ak_command_id : string;
  ak_tenant_id : string;
  ak_device_id : string;
  ak_ack_status : string;
  ak_ack_payload : string;
  ak_created_at : Z }.

(** Primary keys are the keys of maps; command_events and command_ack, which
    are only appended to, are lists in the order of their serial ids.
    [telemetry_seq] is the last id given to a telemetry record. *)
Record DB := MkDB {
  tenants : gmap string string;
  devices : gmap (string * string) DeviceRow;
  device_state : gmap (string * string) StateRow;
  telemetry_records : gmap (string * string * string) TelemetryRow;
  telemetry_seq : Z;
  commands : gmap string CommandRow;
  command_ack : list AckRow;
  command_events : list EventRow }.

Definition empty_db : DB := MkDB ∅ ∅ ∅ ∅ 0 ∅ [] [].

Definition set_commands (m : gmap string CommandRow) (db : DB) : DB :=
  MkDB (tenants db) (devices db) (device_state db) (telemetry_records db) (telemetry_seq db) m
       (command_ack db) (command_events db).
Definition add_events (es : list EventRow) (db : DB) : DB :=
  MkDB (tenants db) (devices db) (device_state db) (telemetry_records db) (telemetry_seq db) (commands db)
       (command_ack db) (command_events db ++ es).
Definition add_ack (a : AckRow) (db : DB) : DB :=
  MkDB (tenants db) (devices db) (device_state db) (telemetry_records db) (telemetry_seq db) (commands db)
       (command_ack db ++ [a]) (command_events db).

(** ** Statements and transactions *)

(** A statement is atomic: it yields a value and the new tables, or an error
    and no change. *)
Definition Stmt (A : Type) := DB -> result (A * DB).

(** The body of a transaction between [BeginTx] and the return of the method:
    it runs statements, and ends in [tx.Commit] or returns without it, in which
    case the deferred [tx.Rollback] undoes it.  [onerr] is what the method makes
    of a statement's error. *)
Inductive Tx (A : Type) : Type :=
| Commit (a : A)
| Return (r : result A)
| Exec {B : Type} (stmt : Stmt B) (onerr : error -> error) (k : B -> Tx A).
Arguments Commit {A} a.
Arguments Return {A} r.
Arguments Exec {A B} stmt onerr k.

Notation "x <- s ; k" := (Exec s (fun e => e) (fun x => k)) (at level 100, s at next level, right associativity).
Notation "x <- s 'translating' f ; k" := (Exec s f (fun x => k)) (at level 100, s at next level, f at next level, right associativity).

(** What the transaction means when nothing fails under it. *)
Fixpoint tx_meaning {A} (t : Tx A) (db0 db : DB) : result A * DB :=
  match t with
  | Commit a => (Ok a, db)
  | Return r => (r, db0)
  | Exec stmt onerr k =>
    match stmt db with
    | Ok (b, db') => tx_meaning (k b) db0 db'
    | Err e => (Err (onerr e), db0)
    end
  end.

Definition meaning {A} (t : Tx A) (db : DB) : result A * DB := tx_meaning t db db.

(** ** Running against a database that may fail

    Each round trip takes one fault from the schedule; after the schedule, no
    round trip fails. *)
Inductive fault := NoFault | FailBefore (e : error) | FailAfter (e : error).

Record World := MkWorld { committed : DB; faults : list fault }.

Definition next_fault (w : World) : fault * World :=
  match faults w with
  | [] => (NoFault, w)
  | f :: fs => (f, MkWorld (committed w) fs)
  end.

(** The statements of an open transaction work on [db]. *)
Fixpoint run_body {A} (t : Tx A) (db : DB) (w : World) : result A * World :=
  match t with
  | Return r => (r, w)
  | Commit a =>
    let '(f, w) := next_fault w in
    match f with
    | NoFault => (Ok a, MkWorld db (faults w))
    | FailBefore e => (Err e, w)
    | FailAfter e => (Err e, MkWorld db (faults w))
    end
  | Exec stmt onerr k =>
    let '(f, w) := next_fault w in
    match f, stmt db with
    | NoFault, Ok (b, db') => run_body (k b) db' w
    | NoFault, Err e => (Err (onerr e), w)
    | FailBefore e, _ | FailAfter e, _ => (Err (onerr e), w)
    end
  end.

Definition BeginTx {A} (t : Tx A) (w : World) : result A * World :=
  let '(f, w) := next_fault w in
  match f with
  | NoFault => run_body t (committed w) w
  | FailBefore e | FailAfter e => (Err e, w)
  end.

(** A single statement outside a transaction commits on its own. *)
Definition db_exec {A} (stmt : Stmt A) (w : World) : result A * World :=
  let '(f, w) := next_fault w in
  match f, stmt (committed w) with
  | FailBefore e, _ => (Err e, w)
  | NoFault, Ok (a, db') => (Ok a, MkWorld db' (faults w))
  | NoFault, Err e => (Err e, w)
  | FailAfter e, Ok (_, db') => (Err e, MkWorld db' (faults w))
  | FailAfter e, Err _ => (Err e, w)
  end.

(** A query leaves the tables alone. *)
Definition query {A} (f : DB -> result A) : Stmt A := fun db => a ← f db; Ok (a, db).

Definition stmt_meaning {A} (s : Stmt A) (db : DB) : result A * DB :=
  match s db with Ok (a, db') => (Ok a, db') | Err e => (Err e, db) end.

(** ** All or nothing *)

(** How the outcome of a run relates to the meaning of what ran. *)
Definition atomic_outcome {A} (m : result A * DB) (db : DB) (r : result A) (db' : DB) : Prop :=
  (r = m.1 /\ db' = m.2) \/ (exists e, r = Err e) /\ (db' = db \/ db' = m.2).

Lemma next_fault_committed w f w' : next_fault w = (f, w') -> committed w' = committed w.
Proof. unfold next_fault. destruct (faults w); intros [= <- <-]; done. Qed.

Lemma next_fault_none w : faults w = [] -> next_fault w = (NoFault, w).
Proof. unfold next_fault. by intros ->. Qed.

Lemma run_body_atomic {A} (t : Tx A) db w r w' :
  run_body t db w = (r, w') ->
  atomic_outcome (tx_meaning t (committed w) db) (committed w) r (committed w').
Proof.
  revert db w. induction t as [a|r0|B stmt onerr k IH]; intros db w; simpl.
  - destruct (next_fault w) as [f w1] eqn:Hf. apply next_fault_committed in Hf.
    destruct f; intros [= <- <-]; unfold atomic_outcome; simpl; eauto 6.
  - intros [= <- <-]. left. done.
  - destruct (next_fault w) as [f w1] eqn:Hf. apply next_fault_committed in Hf.
    destruct f as [|e|e]; try (intros [= <- <-]; right; eauto; fail).
    destruct (stmt db) as [[b db']|e]; [|intros [= <- <-]; left; done].
    rewrite <- Hf. apply IH.
Qed.

Lemma begin_tx_atomic {A} (t : Tx A) w r w' :
  BeginTx t w = (r, w') -> atomic_outcome (meaning t (committed w)) (committed w) r (committed w').
Proof.
  unfold BeginTx. destruct (next_fault w) as [f w1] eqn:Hf. apply next_fault_committed in Hf.
  destruct f; try (intros [= <- <-]; right; eauto; fail).
  intros H%run_body_atomic. unfold meaning. by rewrite <- Hf.
Qed.

Lemma db_exec_atomic {A} (s : Stmt A) w r w' :
  db_exec s w = (r, w') -> atomic_outcome (stmt_meaning s (committed w)) (committed w) r (committed w').
Proof.
  unfold db_exec, stmt_meaning, atomic_outcome. destruct (next_fault w) as [f w1] eqn:Hf. apply next_fault_committed in Hf.
  rewrite <- Hf. destruct (s (committed w1)) as [[a db']|e]; destruct f; intros [= <- <-]; simpl; eauto 6.
Qed.

Lemma run_body_no_fault {A} (t : Tx A) db w :
  faults w = [] ->
  run_body t db w = (let '(r, db') := tx_meaning t (committed w) db in (r, MkWorld db' [])).
Proof.
  revert db. induction t as [a|r0|B stmt onerr k IH]; intros db Hw; simpl;
    rewrite ?next_fault_none by done; rewrite ?Hw; [done| |].
  - destruct w. simpl in *. by subst.
  - destruct (stmt db) as [[b db']|e]; [auto|]. destruct w. simpl in *. by subst.
Qed.

Lemma begin_tx_no_fault {A} (t : Tx A) w :
  faults w = [] -> BeginTx t w = (let '(r, db') := meaning t (committed w) in (r, MkWorld db' [])).
Proof. intros Hw. unfold BeginTx. rewrite next_fault_none by done. by apply run_body_no_fault. Qed.
