(* ===== verification/PostgresStore.v ===== *)
(** * Tenants, devices and telemetry in PostgreSQL: internal/platform/postgres_store.go

    Each method is the guards it runs before touching the database, then its
    statement or its transaction; [now] is what [time.Now] returns there.  The
    context a method takes only decides whether a round trip fails, which the
    fault schedule of [World] covers. *)
From stdpp Require Import prelude strings gmap sorting.
From Stdlib Require Import ZArith Lia.
From S2P Require Import Prelude GoStrings Contracts CommandState GoJson Payload Domain Postgres.

Local Open Scope Z_scope.

(** ** Methods *)
Definition Op (A : Type) := World -> result A * World.

#[export] Instance op_ret : MRet Op := fun A a w => (Ok a, w).
#[export] Instance op_bind : MBind Op := fun A B f m w =>
  let '(r, w) := m w in
  match r with Ok a => f a w | Err e => (Err e, w) end.

(** A check that does not reach the database. *)
Definition check {A} (r : result A) : Op A := fun w => (r, w).
Definition reject {A} (e : error) : Op A := fun w => (Err e, w).
Definition map_err {A} (f : error -> error) (m : Op A) : Op A := fun w =>
  let '(r, w) := m w in (match r with Ok a => Ok a | Err e => Err (f e) end, w).

Definition duplicate_key : error := [Opaque "ERROR: duplicate key value violates unique constraint (SQLSTATE 23505)"].

Definition translateSQLError (err : error) : error :=
  if existsb (fun s => match s with Opaque msg => contains_sub msg "duplicate key value" | _ => false end) err
  then [ErrAlreadyExists] else err.

Section store.
Context `{Unicode} `{PgEnv}.

(** mqtt_auth.go *)
Definition HashDeviceSecret (secret : string) : result string :=
  _ ← ValidateDeviceSecret secret; bcrypt_hash secret.

Definition VerifyDeviceSecret (hash secret : string) : bool :=
  negb (String.eqb hash "") && negb (String.eqb secret "") && bcrypt_matches hash secret.

(** ** Tenants *)
Definition sql_insert_tenant (id name : string) : Stmt unit := fun db =>
  match tenants db !! id with
  | Some _ => Err duplicate_key
  | None => Ok (tt, MkDB (<[id := name]> (tenants db)) (devices db) (device_state db) (telemetry_records db)
                         (telemetry_seq db) (commands db) (command_ack db) (command_events db))
  end.

Definition CreateTenantContext (t : Tenant) : Op Tenant :=
  _ ← check (ValidateTenantName (ten_Name t));
  if negb (IsValidTenantID (ten_ID t)) then reject [ErrInvalidTopicPart]
  else
    _ ← map_err translateSQLError (db_exec (sql_insert_tenant (ten_ID t) (ten_Name t)));
    mret t.

(** ** Devices *)
Definition sql_tenant_exists (id : string) : Stmt bool :=
  query (fun db => Ok (bool_decide (is_Some (tenants db !! id)))).

Definition sql_device_exists (tenant device : string) : Stmt bool :=
  query (fun db => Ok (bool_decide (is_Some (devices db !! (tenant, device))))).

Definition sql_insert_device (d : Device) (hash : string) : Stmt unit := fun db =>
  match devices db !! (dev_TenantID d, dev_DeviceID d), tenants db !! dev_TenantID d with
  | Some _, _ => Err duplicate_key
  | None, None => Err [Opaque "ERROR: insert or update on table devices violates foreign key constraint fk_devices_tenant"]
  | None, Some _ =>
    let at_ := pg_time (dev_CreatedAt d) in
    Ok (tt, MkDB (tenants db)
                 (<[(dev_TenantID d, dev_DeviceID d) := MkDeviceRow (dev_ProductID d) hash at_ at_]> (devices db))
                 (device_state db) (telemetry_records db)
                 (telemetry_seq db) (commands db) (command_ack db) (command_events db))
  end.

Definition set_device_state (tenant device : string) (row : StateRow) (db : DB) : DB :=
  MkDB (tenants db) (devices db) (<[(tenant, device) := row]> (device_state db)) (telemetry_records db)
       (telemetry_seq db) (commands db) (command_ack db) (command_events db).

Definition sql_init_device_state (tenant device : string) (at_ : Z) : Stmt unit := fun db =>
  Ok (tt, set_device_state tenant device
    match device_state db !! (tenant, device) with
    | Some row => MkStateRow (sr_connected row) (sr_last_seen_at row) (sr_last_msg_id row) (pg_time at_)
    | None => MkStateRow false None None (pg_time at_)
    end db).

Definition create_device_tx (now : Z) (d : Device) : Tx Device :=
  exists_ <- sql_tenant_exists (dev_TenantID d);
  if negb exists_ then Return (Err [ErrNotFound])
  else
    let d := MkDevice (dev_TenantID d) (dev_DeviceID d) (dev_ProductID d) (dev_Secret d) now in
    match HashDeviceSecret (dev_Secret d) with
    | Err e => Return (Err e)
    | Ok hash =>
      _ <- sql_insert_device d hash translating translateSQLError;
      _ <- sql_init_device_state (dev_TenantID d) (dev_DeviceID d) (dev_CreatedAt d);
      Commit (MkDevice (dev_TenantID d) (dev_DeviceID d) (dev_ProductID d) "" (dev_CreatedAt d))
    end.

Definition CreateDeviceContext (now : Z) (d : Device) : Op Device :=
  _ ← check (ValidateProductID (dev_ProductID d));
  if negb (IsValidTenantID (dev_TenantID d)) || negb (IsValidTopicPart (dev_DeviceID d))
  then reject [ErrInvalidTopicPart]
  else BeginTx (create_device_tx now d).

Definition sql_get_device (tenant device : string) : Stmt (option DeviceRow) :=
  query (fun db => Ok (devices db !! (tenant, device))).

Definition GetDeviceContext (tenantID deviceID : string) : Op Device :=
  row ← db_exec (sql_get_device tenantID deviceID);
  match row with
  | None => reject [ErrNotFound]
  | Some r => mret (MkDevice tenantID deviceID (dr_product_id r) "" (dr_created_at r))
  end.

Definition AuthenticateDeviceContext (tenantID deviceID secret : string) (w : World) : bool * World :=
  let '(r, w) := db_exec (sql_get_device tenantID deviceID) w in
  (match r with
   | Ok (Some row) => VerifyDeviceSecret (dr_secret_hash row) secret
   | _ => false
   end, w).

(** ** Telemetry *)

(** The methods that answer [(stored, ErrDuplicateTelemetry)] return a value
    and an error at once. *)
Inductive Recorded :=
| Fresh (rec : TelemetryRecord)
| Duplicate (stored : TelemetryRecord).

Definition recorded_record (r : Recorded) : TelemetryRecord :=
  match r with Fresh rec | Duplicate rec => rec end.

Definition requireDevice {A} (tenantID deviceID : string) (k : Tx A) : Tx A :=
  exists_ <- sql_device_exists tenantID deviceID;
  if negb exists_ then Return (Err [ErrNotFound]) else k.

Definition sql_jsonb (raw : string) : Stmt string := query (fun _ => jsonb_cast raw).

Definition tel_key (rec : TelemetryRecord) : string * string * string :=
  (rec_MsgID rec, rec_TenantID rec, rec_DeviceID rec).

(** The statement's row count. *)
Definition sql_insert_telemetry (rec : TelemetryRecord) (payloadBytes : string) : Stmt Z := fun db =>
  stored ← jsonb_cast payloadBytes;
  match telemetry_records db !! tel_key rec with
  | Some _ => Ok (0, db)
  | None =>
    let id := telemetry_seq db + 1 in
    let row := MkTelemetryRow id (rec_Ts rec) (rec_Type rec) (rec_Version rec) stored false (pg_time (rec_ReceivedAt rec)) in
    Ok (1, MkDB (tenants db) (devices db) (device_state db) (<[tel_key rec := row]> (telemetry_records db))
                id (commands db) (command_ack db) (command_events db))
  end.

Definition record_of_row (key : string * string * string) (row : TelemetryRow) : TelemetryRecord :=
  let '(msg, tenant, device) := key in
  MkTelemetryRecord msg tenant device (tr_ts row) (tr_type row) (tr_version row) (tr_payload row)
                    (tr_tdengine_written row) (tr_received_at row).

Definition sql_get_telemetry (key : string * string * string) : Stmt TelemetryRecord :=
  query (fun db => match telemetry_records db !! key with
                   | Some row => Ok (record_of_row key row)
                   | None => Err [ErrNoRows]
                   end).

(** The upsert only moves [last_seen_at] forward. *)
Definition sql_mark_seen (rec : TelemetryRecord) (now : Z) : Stmt unit := fun db =>
  let seen := pg_time (rec_ReceivedAt rec) in
  let key := (rec_TenantID rec, rec_DeviceID rec) in
  match device_state db !! key with
  | None => Ok (tt, set_device_state (rec_TenantID rec) (rec_DeviceID rec)
                      (MkStateRow true (Some seen) (Some (rec_MsgID rec)) (pg_time now)) db)
  | Some row =>
    if match sr_last_seen_at row with None => true | Some last => last <? seen end
    then Ok (tt, set_device_state (rec_TenantID rec) (rec_DeviceID rec)
                   (MkStateRow true (Some seen) (Some (rec_MsgID rec)) (Z.max (sr_updated_at row) (pg_time now))) db)
    else Ok (tt, db)
  end.

Definition restore_telemetry_tx (now : Z) (rec : TelemetryRecord) : Tx Recorded :=
  requireDevice (rec_TenantID rec) (rec_DeviceID rec)
    (normalized <- sql_jsonb (rec_Payload rec);
     match ValidateTelemetryPayload normalized with
     | Err e => Return (Err e)
     | Ok _ =>
       match marshal_raw (rec_Payload rec) with
       | Err e => Return (Err e)
       | Ok payloadBytes =>
         inserted <- sql_insert_telemetry rec payloadBytes;
         if inserted =? 0 then
           stored <- sql_get_telemetry (tel_key rec);
           Return (Ok (Duplicate stored))
         else
           _ <- sql_mark_seen rec now;
           Commit (Fresh rec)
       end
     end).

Definition clear_written (rec : TelemetryRecord) : TelemetryRecord :=
  MkTelemetryRecord (rec_MsgID rec) (rec_TenantID rec) (rec_DeviceID rec) (rec_Ts rec) (rec_Type rec)
    (rec_Version rec) (rec_Payload rec) false (rec_ReceivedAt rec).

Definition RestoreTelemetryContext (now : Z) (rec : TelemetryRecord) : Op Recorded :=
  _ ← check (ValidateTelemetryPayload (rec_Payload rec));
  if IsZero (rec_ReceivedAt rec) then reject [ErrInvalidEnvelope]
  else BeginTx (restore_telemetry_tx now (clear_written rec)).

(** [received] and [now] are the two readings of the clock. *)
Definition RecordTelemetryContext (received now : Z) (env : Envelope) : Op Recorded :=
  RestoreTelemetryContext now
    (MkTelemetryRecord (env_MsgID env) (env_TenantID env) (env_DeviceID env) (env_Ts env) (env_Type env)
       (env_Version env) (env_Payload env) false received).

Definition sql_mark_written (key : string * string * string) : Stmt unit := fun db =>
  Ok (tt, MkDB (tenants db) (devices db) (device_state db)
    (alter (fun row => MkTelemetryRow (tr_id row) (tr_ts row) (tr_type row) (tr_version row) (tr_payload row)
                         true (tr_received_at row)) key (telemetry_records db))
    (telemetry_seq db) (commands db) (command_ack db) (command_events db)).

Definition MarkTelemetryTDengineWrittenContext (msgID tenantID deviceID : string) : Op unit :=
  db_exec (sql_mark_written (msgID, tenantID, deviceID)).

(** [ORDER BY id] *)
Definition id_le (a b : (string * string * string) * TelemetryRow) : Prop := tr_id a.2 <= tr_id b.2.
#[export] Instance id_le_dec a b : Decision (id_le a b).
Proof. unfold id_le. apply _. Defined.

Definition unwritten (olderThan afterID : Z) (tenantIDs : list string)
    (kr : (string * string * string) * TelemetryRow) : Prop :=
  tr_tdengine_written kr.2 = false /\ tr_received_at kr.2 <= pg_time olderThan /\ afterID < tr_id kr.2
  /\ (tenantIDs = [] \/ kr.1.1.2 ∈ tenantIDs).
#[export] Instance unwritten_dec o a ts kr : Decision (unwritten o a ts kr).
Proof. unfold unwritten. apply _. Defined.

Definition sql_list_unwritten (olderThan afterID : Z) (tenantIDs : list string) (limit : Z)
    : Stmt (list ((string * string * string) * TelemetryRow)) :=
  query (fun db => Ok (take (Z.to_nat limit)
    (merge_sort id_le (filter (unwritten olderThan afterID tenantIDs) (map_to_list (telemetry_records db)))))).

(** The rows scanned, and the id of the last of them as the next cursor. *)
Definition ListUnwrittenTelemetry (olderThan afterID : Z) (tenantIDs : list string) (limit : Z)
    : Op (list TelemetryRecord * Z) :=
  if limit <? 1 then mret ([], afterID)
  else
    rows ← db_exec (sql_list_unwritten olderThan afterID tenantIDs limit);
    mret (map (fun kr => let r := record_of_row kr.1 kr.2 in clear_written r) rows,
          match last rows with Some kr => tr_id kr.2 | None => afterID end).

(** ** Device status *)
Definition sql_get_state (tenant device : string) : Stmt (option StateRow) :=
  query (fun db => Ok (device_state db !! (tenant, device))).

Definition GetDeviceStatusContext (ttl now : Z) (tenantID deviceID : string) : Op DeviceStatus :=
  row ← db_exec (sql_get_state tenantID deviceID);
  match row with
  | None => reject [ErrNotFound]
  | Some r =>
    mret (match sr_last_seen_at r with
          | Some t => MkDeviceStatus tenantID deviceID
                        (if (0 <? ttl) && (ttl <? now - t) then false else sr_connected r) t
          | None => MkDeviceStatus tenantID deviceID (sr_connected r) zero_time
          end)
  end.
End store.
