(* ===== verification/Migration.v ===== *)
(** * Opening the store: the schema transaction and the legacy secrets

    [ensureSchema], [migrateLegacyDeviceSecrets] of internal/platform/postgres_store.go
    and [validBcryptEncoding] of mqtt_auth.go.  An older installation kept device
    secrets in plain text; opening the store replaces them by bcrypt hashes in
    the transaction that upgrades the schema. *)
From stdpp Require Import prelude strings gmap.
From Stdlib Require Import ZArith Lia Ascii.
From S2P Require Import Prelude GoStrings Contracts Postgres PostgresStore.

Local Open Scope Z_scope.

(** ** validBcryptEncoding *)

(** The position of a byte in the alphabet of bcrypt. *)
Definition bcrypt_value (c : ascii) : option Z :=
  let b := bval c in
  if (46 <=? b) && (b <=? 47) then Some (b - 46)
  else if (65 <=? b) && (b <=? 90) then Some (b - 63)
  else if (97 <=? b) && (b <=? 122) then Some (b - 69)
  else if (48 <=? b) && (b <=? 57) then Some (b + 6)
  else None.

Fixpoint bcrypt_values (s : string) : option (list Z) :=
  match s with
  | EmptyString => Some []
  | String c rest => v ← bcrypt_value c; vs ← bcrypt_values rest; Some (v :: vs)
  end.

(** The number of bytes that a strict, unpadded decoder yields: the bits that
    complete the last character must be zero. *)
Definition strict_length (vs : list Z) : option Z :=
  let n := Z.of_nat (length vs) in
  let final := default 0 (last vs) in
  match n mod 4 with
  | 0 => Some (n / 4 * 3)
  | 2 => if Z.land final 15 =? 0 then Some (n / 4 * 3 + 1) else None
  | 3 => if Z.land final 3 =? 0 then Some (n / 4 * 3 + 2) else None
  | _ => None
  end.

Definition hash_offset (hash : string) : option nat :=
  if has_prefix hash "$2a$" || has_prefix hash "$2b$" || has_prefix hash "$2y$" then Some 7%nat
  else if has_prefix hash "$2$" then Some 6%nat
  else None.

(** [bcrypt.Cost] reads the cost out of the header. *)
Definition validBcryptEncoding (bcrypt_Cost : string -> result Z) (hash : string) : bool :=
  match hash_offset hash with
  | None => false
  | Some offset =>
    if negb (len hash =? Z.of_nat offset + 53) || negb (has_prefix (str_drop (offset - 1) hash) "$") then false
    else if negb (is_ok (bcrypt_Cost hash)) then false
    else
      match bcrypt_values (str_drop offset hash) with
      | None => false
      | Some vs =>
        match strict_length (take 22 vs), strict_length (drop 22 vs) with
        | Some salt, Some digest => (salt =? 16) && (digest =? 23)
        | _, _ => false
        end
      end
  end.

(** ** The devices table of an older installation; a missing column is all NULL *)
Record LegacyRow := MkLegacyRow { lr_secret : option string; lr_secret_hash : option string }.
Record LegacyDB := MkLegacyDB { ld_secret_column : bool; ld_devices : gmap (string * string) LegacyRow }.

(** A statement of the open transaction takes the next fault. *)
Definition TxM (A : Type) := list fault -> result A * list fault.
#[export] Instance txm_ret : MRet TxM := fun A a fs => (Ok a, fs).
#[export] Instance txm_bind : MBind TxM := fun A B f m fs =>
  match m fs with (Ok a, fs) => f a fs | (Err e, fs) => (Err e, fs) end.

Definition tx_stmt {A} (r : result A) : TxM A := fun fs =>
  match fs with
  | [] | NoFault :: _ => (r, tail fs)
  | FailBefore e :: fs | FailAfter e :: fs => (Err e, fs)
  end.
Definition tx_pure {A} (r : result A) : TxM A := fun fs => (r, fs).

Section migrate.
Context `{PgEnv} (bcrypt_Cost : string -> result Z).
(** The two embedded scripts, as they change the table of devices. *)
Context (UpgradeSQL InitialSQL : LegacyDB -> result LegacyDB).

(** tenant, device, secret, [COALESCE(secret_hash,'')] *)
Definition credential : Type := (string * string) * (string * string).

Definition legacy_credentials (db : LegacyDB) : list credential :=
  omap (fun '(key, row) => match lr_secret row with Some secret => Some (key, (secret, default "" (lr_secret_hash row))) | None => None end)
       (map_to_list (ld_devices db)).

Definition migrated_hash (secret hash : string) : result string :=
  if String.eqb hash "" then
    match HashDeviceSecret secret with Ok h => Ok h | Err e => Err (Opaque "legacy device credential is invalid" :: e) end
  else if negb (validBcryptEncoding bcrypt_Cost hash) then Err [Opaque "legacy device hash is invalid; migration rolled back"]
  else Ok hash.

Definition set_hash (key : string * string) (hash : string) (db : LegacyDB) : LegacyDB :=
  MkLegacyDB (ld_secret_column db) (alter (fun _ => MkLegacyRow None (Some hash)) key (ld_devices db)).

Fixpoint migrate_credentials (cs : list credential) (db : LegacyDB) : TxM LegacyDB :=
  match cs with
  | [] => mret db
  | (key, (secret, hash)) :: rest =>
    hash ← tx_pure (migrated_hash secret hash);
    _ ← tx_stmt (Ok tt);
    migrate_credentials rest (set_hash key hash db)
  end.

Definition migrateLegacyDeviceSecrets (db : LegacyDB) : TxM LegacyDB :=
  legacy ← tx_stmt (Ok (ld_secret_column db));
  if negb legacy then mret db
  else credentials ← tx_stmt (Ok (legacy_credentials db)); migrate_credentials credentials db.

(** The transaction without its commit: begin, the advisory lock, the scripts, the secrets. *)
Definition schema_body (db : LegacyDB) : TxM LegacyDB :=
  _ ← tx_stmt (Ok tt);
  _ ← tx_stmt (Ok tt);
  db ← tx_stmt (UpgradeSQL db);
  db ← tx_stmt (InitialSQL db);
  migrateLegacyDeviceSecrets db.

(** The outcome and what is committed. *)
Definition ensureSchema (db : LegacyDB) (fs : list fault) : result unit * LegacyDB :=
  match schema_body db fs with
  | (Err e, _) => (Err e, db)
  | (Ok db', fs) =>
    match fs with
    | FailBefore e :: _ => (Err e, db)
    | FailAfter e :: _ => (Err e, db')
    | _ => (Ok tt, db')
    end
  end.

(** ** What the migration leaves *)

(** The row that [migrate_credentials] makes of one. *)
Definition row_migrated (old new : LegacyRow) : Prop :=
  lr_secret new = None
  /\ match lr_secret old with
     | None => new = old
     | Some secret =>
       match lr_secret_hash old with
       | Some hash => if String.eqb hash "" then exists h, HashDeviceSecret secret = Ok h /\ lr_secret_hash new = Some h
                      else lr_secret_hash new = Some hash /\ validBcryptEncoding bcrypt_Cost hash = true
       | None => exists h, HashDeviceSecret secret = Ok h /\ lr_secret_hash new = Some h
       end
     end.

Lemma migrated_hash_row row secret h :
  lr_secret row = Some secret -> migrated_hash secret (default "" (lr_secret_hash row)) = Ok h -> row_migrated row (MkLegacyRow None (Some h)).
Proof.
  intros Hs. unfold migrated_hash, row_migrated. rewrite Hs. simpl. intros E. split; [done|].
  destruct (lr_secret_hash row) as [old|]; simpl in *.
  - destruct (String.eqb old ""); [|destruct (validBcryptEncoding bcrypt_Cost old); simplify_eq/=; done].
    destruct (HashDeviceSecret secret); simplify_eq/=; eauto.
  - destruct (HashDeviceSecret secret); simplify_eq/=; eauto.
Qed.

Lemma tx_stmt_ok {A} (r : result A) fs a fs' : tx_stmt r fs = (Ok a, fs') -> r = Ok a.
Proof. destruct fs as [|[] fs]; simpl; congruence. Qed.

Lemma txm_bind_ok {A B} (m : TxM A) (f : A -> TxM B) fs b fs' :
  (m ≫= f) fs = (Ok b, fs') -> exists a fs1, m fs = (Ok a, fs1) /\ f a fs1 = (Ok b, fs').
Proof. unfold mbind, txm_bind. destruct (m fs) as [[a|e] fs1]; [eauto|done]. Qed.

(** The rows with a credential are migrated, the others kept. *)
Lemma migrate_credentials_rows cs db fs db' fs' :
  NoDup cs.*1 ->
  (forall key secret hash, (key, (secret, hash)) ∈ cs ->
     exists row, ld_devices db !! key = Some row /\ lr_secret row = Some secret /\ hash = default "" (lr_secret_hash row)) ->
  migrate_credentials cs db fs = (Ok db', fs') ->
  ld_secret_column db' = ld_secret_column db
  /\ forall key, match ld_devices db !! key with
                 | None => ld_devices db' !! key = None
                 | Some row => exists row', ld_devices db' !! key = Some row'
                               /\ (if bool_decide (key ∈ cs.*1) then row_migrated row row' else row' = row)
                 end.
Proof.
  revert db fs. induction cs as [|[key [secret hash]] cs IH]; intros db fs Hnd Hcs E; cbn [migrate_credentials] in E.
  { injection E as <- <-. split; [done|]. intros key. destruct (ld_devices db !! key) as [row|]; [|done]. by exists row. }
  apply txm_bind_ok in E as (h & fs1 & Eh & E). apply txm_bind_ok in E as (u & fs2 & _ & E). injection Eh as Eh <-.
  destruct (Hcs key secret hash) as (row & Hrow & Hsec & ->); [set_solver|]. apply NoDup_cons in Hnd as [Hnin Hnd].
  apply IH in E as [Hcol Hall]; [|done|].
  2: { intros k s o Hin. destruct (Hcs k s o) as (r & Hr & ?); [set_solver|]. exists r. split; [|done].
       simpl. rewrite lookup_alter_ne; [done|]. intros ->. apply Hnin. by apply (list_elem_of_fmap_2 fst) in Hin. }
  split; [done|]. intros k. specialize (Hall k). simpl in Hall. destruct (decide (k = key)) as [->|Hne].
  - rewrite lookup_alter_eq, Hrow in Hall. rewrite Hrow. destruct Hall as (row' & Hl & Hif). exists row'. split; [done|].
    rewrite bool_decide_eq_true_2 by set_solver. rewrite bool_decide_eq_false_2 in Hif by done. subst row'.
    by apply migrated_hash_row with secret.
  - rewrite lookup_alter_ne in Hall by done. destruct (ld_devices db !! k) as [r|]; [|done]. destruct Hall as (row' & Hl & Hif).
    exists row'. split; [done|]. destruct (decide (k ∈ cs.*1)) as [Hin|Hin].
    + rewrite bool_decide_eq_true_2 in Hif by done. rewrite bool_decide_eq_true_2 by set_solver. done.
    + rewrite bool_decide_eq_false_2 in Hif by done. rewrite bool_decide_eq_false_2 by set_solver. done.
Qed.

Lemma legacy_credentials_elem db key secret hash :
  (key, (secret, hash)) ∈ legacy_credentials db <->
  exists row, ld_devices db !! key = Some row /\ lr_secret row = Some secret /\ hash = default "" (lr_secret_hash row).
Proof.
  unfold legacy_credentials. rewrite list_elem_of_omap. split.
  - intros ([k row] & Hin & E). apply elem_of_map_to_list in Hin. destruct (lr_secret row) as [s|] eqn:Es; [|done].
    injection E as <- <- <-. by exists row.
  - intros (row & Hl & Hs & ->). exists (key, row). split; [by apply elem_of_map_to_list|]. by rewrite Hs.
Qed.

Lemma legacy_credentials_keys db : NoDup (legacy_credentials db).*1.
Proof.
  unfold legacy_credentials. pose proof (NoDup_fst_map_to_list (ld_devices db)) as Hnd.
  induction (map_to_list (ld_devices db)) as [|[k row] l IH]; [constructor|]. simpl. apply NoDup_cons in Hnd as [Hnin Hnd].
  destruct (lr_secret row) as [s|]; [|auto]. simpl. constructor; [|auto]. intros Hin. apply Hnin. simpl.
  apply list_elem_of_fmap in Hin as ([k' p] & -> & Hin). apply list_elem_of_omap in Hin as ([k'' r] & Hin & E).
  destruct (lr_secret r); [|done]. injection E as -> _. by apply (list_elem_of_fmap_2 fst) in Hin.
Qed.

(** Every secret of a table is gone and every device keeps its identity. *)
Definition migrated (db db' : LegacyDB) : Prop :=
  forall key, match ld_devices db !! key with
              | None => ld_devices db' !! key = None
              | Some row => exists row', ld_devices db' !! key = Some row' /\ row_migrated row row'
              end.

(** A table without the column has no secrets. *)
Definition column_ok (db : LegacyDB) : Prop :=
  ld_secret_column db = false -> forall key row, ld_devices db !! key = Some row -> lr_secret row = None.

Lemma migrate_secrets_migrated db fs db' fs' :
  column_ok db -> migrateLegacyDeviceSecrets db fs = (Ok db', fs') -> migrated db db'.
Proof.
  intros Hcol E. unfold migrateLegacyDeviceSecrets in E. apply txm_bind_ok in E as (legacy & fs1 & El & E).
  apply tx_stmt_ok in El. injection El as <-. intros key. destruct (ld_secret_column db) eqn:Ec; simpl in E.
  - apply txm_bind_ok in E as (cs & fs2 & Ecs & E). apply tx_stmt_ok in Ecs. injection Ecs as <-.
    apply migrate_credentials_rows in E as [_ Hall]; [|apply legacy_credentials_keys|by intros ??? ?%legacy_credentials_elem].
    specialize (Hall key). destruct (ld_devices db !! key) as [row|] eqn:El; [|done]. destruct Hall as (row' & Hl & Hif).
    exists row'. split; [done|]. destruct (lr_secret row) as [s|] eqn:Es.
    + rewrite bool_decide_eq_true_2 in Hif; [done|]. apply list_elem_of_fmap.
      exists (key, (s, default "" (lr_secret_hash row))). split; [done|]. apply legacy_credentials_elem. by exists row.
    + rewrite bool_decide_eq_false_2 in Hif.
      * subst row'. split; [done|]. by rewrite Es.
      * intros Hin. apply list_elem_of_fmap in Hin as ([k [s h]] & -> & Hin). apply legacy_credentials_elem in Hin as (r & Hr & Hs & _).
        simpl in El. congruence.
  - injection E as <- <-. destruct (ld_devices db !! key) as [row|] eqn:El; [|done]. exists row. split; [done|].
    assert (Hs : lr_secret row = None) by (by apply (Hcol Ec key)). split; [done|]. by rewrite Hs.
Qed.

(** A device whose secret had no hash authenticates with that secret. *)
Definition hashed_authenticate (db db' : LegacyDB) : Prop :=
  forall key row row' secret,
    ld_devices db !! key = Some row -> ld_devices db' !! key = Some row' ->
    lr_secret row = Some secret -> default "" (lr_secret_hash row) = "" ->
    exists h, lr_secret_hash row' = Some h /\ VerifyDeviceSecret h secret = true.

Lemma migrated_authenticate db db' :
  (forall s h, bcrypt_hash s = Ok h -> h <> "" /\ bcrypt_matches h s = true) -> migrated db db' -> hashed_authenticate db db'.
Proof.
  intros Hbcrypt Hm key row row' secret Hr Hr' Hs Hh. specialize (Hm key). rewrite Hr in Hm.
  destruct Hm as (row'' & Hr'' & _ & Hm). simplify_eq. rewrite Hs in Hm.
  assert (Hex : exists h, HashDeviceSecret secret = Ok h /\ lr_secret_hash row'' = Some h).
  { destruct (lr_secret_hash row) as [old|]; simpl in *; [subst old; exact Hm|done]. }
  destruct Hex as (h & Hhash & Hl). exists h. split; [done|]. unfold HashDeviceSecret in Hhash.
  destruct (ValidateDeviceSecret secret) eqn:Ev; [|done]. simpl in Hhash. apply Hbcrypt in Hhash as [Hne Hmatch].
  unfold VerifyDeviceSecret. rewrite Hmatch, andb_true_r. apply String.eqb_neq in Hne. rewrite Hne. simpl.
  apply negb_true_iff, String.eqb_neq. by intros ->.
Qed.

End migrate.

#[local] Instance migration_pg : PgEnv := {|
  pg_time t := t; pg_interval d := Ok d; jsonb_cast s := Ok s; jsonb_eq := String.eqb; text_leb _ _ := true;
  bcrypt_hash s := Ok ("hash:" +:+ s); bcrypt_matches h s := String.eqb h ("hash:" +:+ s);
  marshal_result _ := Ok ""; unmarshal_result _ := Ok None |}.

Definition sample_hash : string := "$2a$10$N9qo8uLOickgx2ZMRZoMyeIjZAgcfl7p92ldGxad68LJZdL17lhWy".

Definition sample_legacy : LegacyDB :=
  MkLegacyDB true {[("acme", "d1") := MkLegacyRow (Some "s3cret") None; ("acme", "d2") := MkLegacyRow (Some "old") (Some sample_hash)]}.

