(* ===== verification/PostgresCommands.v ===== *)
(** * Commands in PostgreSQL: internal/platform/postgres_store.go

    [now] is the process clock where the method reads it and [dbnow] the
    server's [NOW()]; [locked] is the set of command rows other sessions hold
    locked, which [FOR UPDATE SKIP LOCKED] passes over. *)
From stdpp Require Import prelude strings gmap sorting.
From Stdlib Require Import ZArith Lia.
From S2P Require Import Prelude GoStrings Contracts CommandState GoJson Payload Domain Postgres PostgresStore.

Local Open Scope Z_scope.

(** command_dispatcher.go *)
Definition maxDispatchAttempts : Z := 10.

Section commands.
Context `{Unicode} `{PgEnv}.

(** ** Reading *)

(** [scanCommandRow] *)
Definition scanCommandRow (id : string) (row : CommandRow) : result Command :=
  res ← match cr_result row with
        | None => Ok None
        | Some raw => if len raw =? 0 then Ok None else unmarshal_result raw
        end;
  Ok (MkCommand id (cr_tenant_id row) (cr_device_id row) (cr_status row) (cr_payload row) (cr_created_at row)
        (cr_updated_at row) (cr_dispatch_attempts row)
        (match cr_deadline_at row with Some t => t | None => zero_time end) res).

(** [scanCommands] *)
Fixpoint scanCommands (rows : list (string * CommandRow)) : result (list Command) :=
  match rows with
  | [] => Ok []
  | (id, row) :: rows' => cmd ← scanCommandRow id row; out ← scanCommands rows'; Ok (cmd :: out)
  end.

Definition sql_get_command (id : string) : Stmt (option CommandRow) :=
  query (fun db => Ok (commands db !! id)).

Definition GetCommandContext (id : string) : Op Command :=
  row ← db_exec (sql_get_command id);
  match row with
  | None => reject [ErrNotFound]
  | Some r => check (scanCommandRow id r)
  end.

Definition GetCommandForDelivery (id : string) : Op Command := GetCommandContext id.

(** ** Creation *)
Definition nullif_empty (s : string) : option string := if String.eqb s "" then None else Some s.

Definition has_key (tenant key : string) (kr : string * CommandRow) : Prop :=
  cr_tenant_id kr.2 = tenant /\ cr_idempotency_key kr.2 = Some key.
#[export] Instance has_key_dec t k kr : Decision (has_key t k kr).
Proof. unfold has_key. apply _. Defined.

(** The row the unique index on (tenant_id, idempotency_key) finds. *)
Definition find_key (tenant key : string) (db : DB) : option (string * CommandRow) :=
  snd <$> list_find (has_key tenant key) (map_to_list (commands db)).

(** [Some id] is the returned row, [None] the conflict on the request key. *)
Definition sql_insert_command (cmd : Command) (now : Z) (key : string) : Stmt (option string) := fun db =>
  stored ← jsonb_cast (cmd_Payload cmd);
  let k := nullif_empty key in
  match k ≫= fun k => find_key (cmd_TenantID cmd) k db with
  | Some _ => Ok (None, db)
  | None =>
    match commands db !! cmd_ID cmd with
    | Some _ => Err duplicate_key
    | None =>
      let at_ := pg_time now in
      let row := MkCommandRow (cmd_TenantID cmd) (cmd_DeviceID cmd) (cmd_Status cmd) stored at_ 0 None at_ at_ k None in
      Ok (Some (cmd_ID cmd), set_commands (<[cmd_ID cmd := row]> (commands db)) db)
    end
  end.

Definition sql_find_command (tenant key device payload : string) : Stmt (string * CommandRow * bool) :=
  query (fun db =>
    p ← jsonb_cast payload;
    match find_key tenant key db with
    | None => Err [ErrNoRows]
    | Some (id, row) => Ok (id, row, String.eqb (cr_device_id row) device && jsonb_eq (cr_payload row) p)
    end).

Definition sql_insert_event (e : EventRow) : Stmt unit := fun db => Ok (tt, add_events [e] db).

(** [newID] is what [uuid.NewV7] returns. *)
Definition create_command_tx (now : Z) (newID : result string) (tenantID deviceID key payload : string) : Tx Command :=
  requireDevice tenantID deviceID
    (let payload := if len payload =? 0 then "{}" else payload in
     normalized <- sql_jsonb payload;
     match ValidateCommandInput tenantID deviceID normalized with
     | Err e => Return (Err e)
     | Ok _ =>
       match newID with
       | Err e => Return (Err e)
       | Ok id =>
         let cmd := MkCommand id tenantID deviceID CommandStatusCreated normalized now now 0 zero_time None in
         storedID <- sql_insert_command cmd now key;
         match storedID with
         | None =>
           found <- sql_find_command tenantID key deviceID normalized;
           let '(id', row, matches) := found in
           if negb matches then Return (Err [ErrIdempotencyConflict])
           else match scanCommandRow id' row with
                | Err e => Return (Err e)
                | Ok cmd' => Commit cmd'
                end
         | Some _ =>
           _ <- sql_insert_event (MkEventRow id "created" "{}");
           Commit cmd
         end
       end
     end).

Definition CreateCommandWithKey (now : Z) (newID : result string) (tenantID deviceID key payload : string) : Op Command :=
  _ ← check (ValidateCommandInput tenantID deviceID payload);
  _ ← check (ValidateIdempotencyKey key);
  BeginTx (create_command_tx now newID tenantID deviceID key payload).

Definition CreateCommand (now : Z) (newID : result string) (tenantID deviceID payload : string) : Op Command :=
  CreateCommandWithKey now newID tenantID deviceID "" payload.

(** ** Acknowledgement *)
Definition with_status (st : string) (at_ : Z) (row : CommandRow) : CommandRow :=
  MkCommandRow (cr_tenant_id row) (cr_device_id row) st (cr_payload row) (cr_next_dispatch_at row)
    (cr_dispatch_attempts row) (cr_deadline_at row) (cr_created_at row) at_ (cr_idempotency_key row) (cr_result row).

Definition with_result (res : string) (row : CommandRow) : CommandRow :=
  MkCommandRow (cr_tenant_id row) (cr_device_id row) (cr_status row) (cr_payload row) (cr_next_dispatch_at row)
    (cr_dispatch_attempts row) (cr_deadline_at row) (cr_created_at row) (cr_updated_at row) (cr_idempotency_key row) (Some res).

Definition sql_result_equals (id encoded : string) : Stmt bool :=
  query (fun db =>
    e ← jsonb_cast encoded;
    match commands db !! id with
    | None => Err [ErrNoRows]
    | Some row => match cr_result row with
                  | Some res => Ok (jsonb_eq res e)
                  | None => Err [Opaque "cannot scan NULL into *bool"]
                  end
    end).

Definition sql_set_result (id next : string) (now : Z) (encoded : string) : Stmt unit := fun db =>
  e ← jsonb_cast encoded;
  Ok (tt, set_commands (alter (fun row => with_result e (with_status next (pg_time now) row)) id (commands db)) db).

Definition sql_insert_ack (id tenant device st encoded : string) (now : Z) : Stmt unit := fun db =>
  e ← jsonb_cast encoded;
  Ok (tt, add_ack (MkAckRow id tenant device st e (pg_time now)) db).

Definition sql_insert_event_detail (id event encoded : string) : Stmt unit := fun db =>
  e ← jsonb_cast encoded;
  Ok (tt, add_events [MkEventRow id event e] db).

Definition is_terminal_status (st : string) : bool :=
  String.eqb st CommandStatusAcked || String.eqb st CommandStatusTimeout || String.eqb st CommandStatusFailed.

Definition acknowledged (cmd : Command) (next : string) (now : Z) (normalized : CommandResult) : Command :=
  MkCommand (cmd_ID cmd) (cmd_TenantID cmd) (cmd_DeviceID cmd) next (cmd_Payload cmd) (cmd_CreatedAt cmd) now
    (cmd_DispatchAttempts cmd) (cmd_DeadlineAt cmd) (Some normalized).

Definition ack_command_tx (now : Z) (id tenantID deviceID : string) (normalized : CommandResult) (encoded : string) : Tx Command :=
  row <- sql_get_command id;
  match row with
  | None => Return (Err [ErrNotFound])
  | Some row =>
    match scanCommandRow id row with
    | Err e => Return (Err e)
    | Ok cmd =>
      if negb (String.eqb (cmd_TenantID cmd) tenantID) || negb (String.eqb (cmd_DeviceID cmd) deviceID)
      then Return (Err [ErrNotFound])
      else if is_terminal_status (cmd_Status cmd) then
        match cmd_Result cmd with
        | Some _ =>
          equal <- sql_result_equals id encoded;
          if negb equal then Return (Err [ErrAcknowledgementConflict]) else Commit cmd
        | None => Commit cmd
        end
      else
        match AdvanceCommandStatus (cmd_Status cmd) (res_Status normalized) with
        | Err e => Return (Err e)
        | Ok next =>
          _ <- sql_set_result id next now encoded;
          _ <- sql_insert_ack id tenantID deviceID (res_Status normalized) encoded now;
          _ <- sql_insert_event_detail id (res_Status normalized) encoded;
          Commit (acknowledged cmd next now normalized)
        end
    end
  end.

Definition AckCommandResultContext (now : Z) (id tenantID deviceID : string) (input : CommandResult) : Op Command :=
  _ ← check (ValidateDeviceIdentity tenantID deviceID);
  _ ← check (ValidateCommandID id);
  normalized ← check (NormalizeCommandResult input);
  encoded ← check (marshal_result normalized);
  BeginTx (ack_command_tx now id tenantID deviceID normalized encoded).

Definition AckCommandContext (now : Z) (id tenantID deviceID : string) : Op Command :=
  AckCommandResultContext now id tenantID deviceID (MkCommandResult CommandStatusAcked "" "").

(** ** Updates that write their audit events in the same statement *)

(** [UPDATE commands SET ... WHERE id IN ids] *)
Definition update_rows (ids : list string) (f : CommandRow -> CommandRow) (m : gmap string CommandRow) : gmap string CommandRow :=
  map_imap (fun id row => Some (if bool_decide (id ∈ ids) then f row else row)) m.

(** [updateCommandsWithEvent]: [changed] is the set of rows the UPDATE matches.
    The events of one statement are written in the order it returns them. *)
Definition updateCommandsWithEvent (changed : DB -> list string) (assignment : CommandRow -> CommandRow) (event : string) : Stmt Z :=
  fun db =>
    let ids := changed db in
    Ok (Z.of_nat (length ids),
        add_events (map (fun id => MkEventRow id event "{}") ids)
          (set_commands (update_rows ids assignment (commands db)) db)).

(** [WHERE id = $1 AND pred] *)
Definition where_id (id : string) (pred : CommandRow -> bool) (db : DB) : list string :=
  match commands db !! id with
  | Some row => if pred row then [id] else []
  | None => []
  end.

(** [ORDER BY created_at, id] *)
Definition row_le (a b : string * CommandRow) : Prop :=
  cr_created_at a.2 < cr_created_at b.2 \/ (cr_created_at a.2 = cr_created_at b.2 /\ text_leb a.1 b.1 = true).
#[export] Instance row_le_dec a b : Decision (row_le a b).
Proof. unfold row_le. apply _. Defined.

(** [SELECT id ... WHERE pred ORDER BY created_at, id LIMIT n FOR UPDATE SKIP LOCKED] *)
Definition select_batch (locked : gset string) (pred : CommandRow -> bool) (n : nat) (db : DB) : list (string * CommandRow) :=
  take n (merge_sort row_le (filter (fun kr => pred kr.2 = true /\ kr.1 ∉ locked) (map_to_list (commands db)))).

(** [updateCommandBatchWithEvent] *)
Definition updateCommandBatchWithEvent (locked : gset string) (assignment : CommandRow -> CommandRow)
    (pred : CommandRow -> bool) (event : string) : Stmt Z :=
  updateCommandsWithEvent (fun db => (select_batch locked pred 500 db).*1) assignment event.

Definition status_is (st : string) (row : CommandRow) : bool := String.eqb (cr_status row) st.

Definition reschedule_at (next updated : Z) (row : CommandRow) : CommandRow :=
  MkCommandRow (cr_tenant_id row) (cr_device_id row) (cr_status row) (cr_payload row) next
    (cr_dispatch_attempts row) (cr_deadline_at row) (cr_created_at row) updated (cr_idempotency_key row) (cr_result row).

Definition with_deadline (t : Z) (row : CommandRow) : CommandRow :=
  MkCommandRow (cr_tenant_id row) (cr_device_id row) (cr_status row) (cr_payload row) (cr_next_dispatch_at row)
    (cr_dispatch_attempts row) (Some t) (cr_created_at row) (cr_updated_at row) (cr_idempotency_key row) (cr_result row).

Definition count_attempt (row : CommandRow) : CommandRow :=
  MkCommandRow (cr_tenant_id row) (cr_device_id row) (cr_status row) (cr_payload row) (cr_next_dispatch_at row)
    (cr_dispatch_attempts row + 1) (cr_deadline_at row) (cr_created_at row) (cr_updated_at row) (cr_idempotency_key row) (cr_result row).

(** ** Dispatch *)
Definition claimable (dbnow : Z) (row : CommandRow) : bool :=
  status_is CommandStatusCreated row && (cr_next_dispatch_at row <=? dbnow) && (cr_dispatch_attempts row <? maxDispatchAttempts).

Definition claim_row (dbnow lease : Z) (row : CommandRow) : CommandRow :=
  count_attempt (reschedule_at (dbnow + lease) dbnow row).

Definition sql_claim (locked : gset string) (dbnow limit lease : Z) : Stmt (list (string * CommandRow)) := fun db =>
  l ← pg_interval lease;
  let claimed := select_batch locked (claimable dbnow) (Z.to_nat limit) db in
  Ok (map (fun kr => (kr.1, claim_row dbnow l kr.2)) claimed,
      set_commands (update_rows claimed.*1 (claim_row dbnow l) (commands db)) db).

Definition ClaimCommandsForDispatchContext (locked : gset string) (dbnow limit lease : Z) : Op (list Command) :=
  if limit <? 1 then mret []
  else rows ← db_exec (sql_claim locked dbnow limit lease); check (scanCommands rows).

(** The attempt and the unexpired lease identify the claim. *)
Definition holds_claim (dbnow attempt : Z) (row : CommandRow) : bool :=
  status_is CommandStatusCreated row && (cr_dispatch_attempts row =? attempt) && (dbnow <? cr_next_dispatch_at row).

Definition MarkCommandPublishedContext (dbnow : Z) (id : string) (attempt : Z) : Op Z :=
  db_exec (updateCommandsWithEvent (where_id id (holds_claim dbnow attempt))
             (with_status CommandStatusPublished dbnow) "published").

Definition MarkCommandSentContext (dbnow : Z) (id : string) (deadline : Z) : Op Z :=
  db_exec (updateCommandsWithEvent
             (where_id id (fun row => status_is CommandStatusCreated row || status_is CommandStatusPublished row))
             (fun row => with_deadline (pg_time deadline) (with_status CommandStatusSent dbnow row)) "delivered").

Definition sql_reschedule (dbnow : Z) (id : string) (attempt retryAfter : Z) : Stmt unit := fun db =>
  d ← pg_interval retryAfter;
  Ok (tt, set_commands (update_rows (where_id id (holds_claim dbnow attempt) db)
                          (reschedule_at (dbnow + d) dbnow) (commands db)) db).

Definition RescheduleCommandContext (dbnow : Z) (id : string) (attempt retryAfter : Z) : Op unit :=
  db_exec (sql_reschedule dbnow id attempt retryAfter).

Definition RequeueCommandContext (dbnow : Z) (id : string) (retryAfter : Z) : Op Z :=
  db_exec (fun db =>
    d ← pg_interval retryAfter;
    updateCommandsWithEvent (where_id id (status_is CommandStatusPublished))
      (fun row => with_status CommandStatusCreated dbnow (reschedule_at (dbnow + d) dbnow row)) "requeued" db).

(** ** Scans *)
Definition expired (now : Z) (grace : option Z) (row : CommandRow) : bool :=
  status_is CommandStatusSent row &&
  match cr_deadline_at row, grace with
  | Some t, _ => t <=? now
  | None, Some g => cr_updated_at row + g <=? now
  | None, None => false
  end.

Definition ExpireCommandsContext (locked : gset string) (now nullDeadlineGrace : Z) : Op Z :=
  let at_ := pg_time now in
  db_exec (fun db =>
    grace ← (if 0 <? nullDeadlineGrace then g ← pg_interval nullDeadlineGrace; Ok (Some g) else Ok None);
    updateCommandBatchWithEvent locked (with_status CommandStatusTimeout at_) (expired at_ grace) "timeout" db).

Definition stale (staleBefore maxAttempts : Z) (row : CommandRow) : bool :=
  status_is CommandStatusPublished row && (cr_updated_at row <=? staleBefore) && (cr_dispatch_attempts row <? maxAttempts).

Definition exhausted (dbnow staleBefore maxAttempts : Z) (row : CommandRow) : bool :=
  (maxAttempts <=? cr_dispatch_attempts row)
  && ((status_is CommandStatusCreated row && (cr_next_dispatch_at row <=? dbnow))
      || (status_is CommandStatusPublished row && (cr_updated_at row <=? staleBefore))).

(** Two statements, each with its own [NOW()] and its own skipped rows. *)
Definition RecoverStaleCommandsContext (locked1 locked2 : gset string) (dbnow1 dbnow2 staleBefore maxAttempts : Z) : Op (Z * Z) :=
  let before := pg_time staleBefore in
  requeued ← db_exec (updateCommandBatchWithEvent locked1
     (fun row => with_status CommandStatusCreated dbnow1 (reschedule_at dbnow1 dbnow1 row))
     (stale before maxAttempts) "requeued");
  failed ← db_exec (updateCommandBatchWithEvent locked2 (with_status CommandStatusFailed dbnow2)
     (exhausted dbnow2 before maxAttempts) "failed");
  mret (requeued, failed).
End commands.
