(* ===== verification/PostgresLists.v ===== *)
(** * The list methods of internal/platform/postgres_store.go

    Each page is one query, limited to one row more than the page holds, and the
    loop of [Pagination] over its rows. *)
From stdpp Require Import prelude strings gmap sorting.
From Stdlib Require Import ZArith Lia.
From S2P Require Import Prelude GoStrings Contracts CommandState GoJson Payload Domain Pagination Postgres PostgresStore PostgresCommands.

Local Open Scope Z_scope.

(** The dynamic type of an optional query argument. *)
Definition listBoundTime (stamp : Z) (present : bool) : option Z := if negb present then None else Some stamp.
Definition nullTime (value : Z) : option Z := if IsZero value then None else Some value.

(** [$n IS NULL OR P $n] *)
Definition is_null_or {A} (arg : option A) (P : A -> bool) : bool := match arg with None => true | Some a => P a end.

Section lists.
Context `{Unicode} `{PgEnv} `{CursorEnv}.

(** [a > b] on text *)
Definition text_gt (a b : string) : bool := negb (text_leb a b).

(** ** Tenants *)
Definition tenant_le (a b : string * string) : Prop := text_leb a.1 b.1 = true.
#[export] Instance tenant_le_dec a b : Decision (tenant_le a b).
Proof. unfold tenant_le. apply _. Defined.

Definition scan_tenant (kr : string * string) : result Tenant := Ok (MkTenant kr.1 kr.2).

Definition ListTenantsContext : Op (list Tenant) :=
  rows ← db_exec (query (fun db => Ok (merge_sort tenant_le (map_to_list (tenants db)))));
  mret (map (fun kr => MkTenant kr.1 kr.2) rows).

Definition tenants_after (after : string) (kr : string * string) : Prop := text_gt kr.1 after = true.
#[export] Instance tenants_after_dec a kr : Decision (tenants_after a kr).
Proof. unfold tenants_after. apply _. Defined.

Definition sql_tenants_page (after : string) (limit : Z) : Stmt (list (string * string)) :=
  query (fun db => Ok (take (Z.to_nat limit) (merge_sort tenant_le (filter (tenants_after after) (map_to_list (tenants db)))))).

Definition ListTenantsPageContext (page : PageRequest) : Op (list Tenant * string) :=
  page ← check (NormalizePageRequest (pg_Size page) (pg_Cursor page));
  parts ← check (decodeCursor (pg_Cursor page) 1);
  let after := match parts with Some [p] => p | _ => "" end in
  rows ← db_exec (sql_tenants_page after (pg_Size page + 1));
  check (finish (fun last => encodeCursor [ten_ID last]) (fill_page tenantListBytes (pg_Size page) (map scan_tenant rows))).

(** ** Devices *)
Definition device_le (a b : (string * string) * DeviceRow) : Prop := text_leb a.1.2 b.1.2 = true.
#[export] Instance device_le_dec a b : Decision (device_le a b).
Proof. unfold device_le. apply _. Defined.

Definition device_of_row (kr : (string * string) * DeviceRow) : Device :=
  MkDevice kr.1.1 kr.1.2 (dr_product_id kr.2) "" (dr_created_at kr.2).

(** [ORDER BY tenant_id, device_id] *)
Definition device_key_le (a b : (string * string) * DeviceRow) : Prop :=
  text_gt b.1.1 a.1.1 = true \/ (a.1.1 = b.1.1 /\ text_leb a.1.2 b.1.2 = true).
#[export] Instance device_key_le_dec a b : Decision (device_key_le a b).
Proof. unfold device_key_le. apply _. Defined.

Definition ListDevicesContext : Op (list Device) :=
  rows ← db_exec (query (fun db => Ok (merge_sort device_key_le (map_to_list (devices db)))));
  mret (map device_of_row rows).

Definition devices_after (tenant after : string) (kr : (string * string) * DeviceRow) : Prop :=
  kr.1.1 = tenant /\ text_gt kr.1.2 after = true.
#[export] Instance devices_after_dec t a kr : Decision (devices_after t a kr).
Proof. unfold devices_after. apply _. Defined.

Definition sql_devices_page (tenant after : string) (limit : Z) : Stmt (list ((string * string) * DeviceRow)) :=
  query (fun db => Ok (take (Z.to_nat limit) (merge_sort device_le (filter (devices_after tenant after) (map_to_list (devices db)))))).

Definition ListDevicesPageContext (page : PageRequest) : Op (list Device * string) :=
  page ← check (NormalizeListRequest page "devices");
  after ← check (decodeDeviceCursor (pg_Cursor page));
  let '(afterTenant, afterDevice) := after in
  if negb (String.eqb afterTenant "") && negb (String.eqb afterTenant (pg_TenantID page)) then reject errInvalidCursor
  else
    rows ← db_exec (sql_devices_page (pg_TenantID page) afterDevice (pg_Size page + 1));
    check (finish (fun last => encodeDeviceCursor (dev_TenantID last) (dev_DeviceID last))
             (fill_page deviceListBytes (pg_Size page) (map (fun kr => Ok (device_of_row kr)) rows))).

(** ** Telemetry *)
Definition telemetry_scan (kr : (string * string * string) * TelemetryRow) : TelemetryRecord :=
  clear_written (record_of_row kr.1 kr.2).

Definition received_le (a b : (string * string * string) * TelemetryRow) : Prop := tr_received_at a.2 <= tr_received_at b.2.
#[export] Instance received_le_dec a b : Decision (received_le a b).
Proof. unfold received_le. apply _. Defined.

Definition of_device (tenant device : string) (kr : (string * string * string) * TelemetryRow) : Prop :=
  kr.1.1.2 = tenant /\ kr.1.2 = device.
#[export] Instance of_device_dec t d kr : Decision (of_device t d kr).
Proof. unfold of_device. apply _. Defined.

Definition ListTelemetryContext (tenantID deviceID : string) : Op (list TelemetryRecord) :=
  rows ← db_exec (query (fun db => Ok (merge_sort received_le (filter (of_device tenantID deviceID) (map_to_list (telemetry_records db))))));
  mret (map telemetry_scan rows).

(** [ORDER BY ts, msg_id] in either direction *)
Definition ts_le (a b : (string * string * string) * TelemetryRow) : Prop :=
  tr_ts a.2 < tr_ts b.2 \/ (tr_ts a.2 = tr_ts b.2 /\ text_leb a.1.1.1 b.1.1.1 = true).
#[export] Instance ts_le_dec a b : Decision (ts_le a b).
Proof. unfold ts_le. apply _. Defined.

(** [(k, id) > (at, after)] when ascending, [<] when descending *)
Definition beyond (asc : bool) (at_ : Z) (after : string) (k : Z) (id : string) : bool :=
  if asc then (at_ <? k) || ((k =? at_) && text_gt id after)
  else (k <? at_) || ((k =? at_) && text_gt after id).

Definition directed {A} (asc : bool) (le : relation A) : relation A := if asc then le else flip le.
#[export] Instance directed_dec {A} asc (le : relation A) `{!forall x y, Decision (le x y)} x y : Decision (directed asc le x y).
Proof. destruct asc; unfold directed, flip; apply _. Defined.

Definition telemetry_where (tenant device : string) (start end_ : option Z) (type : string)
    (kr : (string * string * string) * TelemetryRow) : Prop :=
  kr.1.1.2 = tenant /\ kr.1.2 = device
  /\ is_null_or start (fun s => s <=? tr_ts kr.2) = true /\ is_null_or end_ (fun e => tr_ts kr.2 <? e) = true
  /\ (type = "" \/ tr_type kr.2 = type).
#[export] Instance telemetry_where_dec t d s e ty kr : Decision (telemetry_where t d s e ty kr).
Proof. unfold telemetry_where. apply _. Defined.

Definition telemetry_after (asc : bool) (after : option Z) (afterID : string) (kr : (string * string * string) * TelemetryRow) : Prop :=
  is_null_or after (fun a => beyond asc a afterID (tr_ts kr.2) kr.1.1.1) = true.
#[export] Instance telemetry_after_dec asc a i kr : Decision (telemetry_after asc a i kr).
Proof. unfold telemetry_after. apply _. Defined.

Definition sql_telemetry_page (asc : bool) (tenant device : string) (start end_ : option Z) (type : string)
    (after : option Z) (afterID : string) (limit : Z) : Stmt (list ((string * string * string) * TelemetryRow)) :=
  query (fun db => Ok (take (Z.to_nat limit) (merge_sort (directed asc ts_le)
    (filter (fun kr => telemetry_where tenant device start end_ type kr /\ telemetry_after asc after afterID kr)
            (map_to_list (telemetry_records db)))))).

Definition ListTelemetryPageContext (page : PageRequest) : Op (list TelemetryRecord * string) :=
  page ← check (NormalizeListRequest page "telemetry");
  after ← check (decodePageCursor page "telemetry");
  let '(afterAt, afterID) := after in
  let asc := String.eqb (pg_Sort page) "asc" in
  let afterMillis := if negb (String.eqb (pg_Cursor page) "") then Some (UnixMilli afterAt) else None in
  let startMillis := if pg_HasStartTime page then Some (UnixMilli (pg_StartTime page)) else None in
  let endMillis := if pg_HasEndTime page then Some (UnixMilli (pg_EndTime page)) else None in
  rows ← db_exec (sql_telemetry_page asc (pg_TenantID page) (pg_DeviceID page) startMillis endMillis (pg_Type page)
                    afterMillis afterID (pg_Size page + 1));
  check (finish (fun last => encodePageCursor page "telemetry" (rec_Ts last * Millisecond) (rec_MsgID last))
           (fill_page telemetryListBytes (pg_Size page) (map (fun kr => Ok (telemetry_scan kr)) rows))).

(** ** Commands *)
Definition commandListBytes (c : Command) : Z :=
  (match cmd_Result c with
   | None => 4
   | Some r => match marshal_result r with Ok b => len b | Err _ => 0 end
   end) + 512 + len (cmd_ID c) + len (cmd_TenantID c) + len (cmd_DeviceID c) + len (cmd_Status c) + len (cmd_Payload c).

Definition scan_command (kr : string * CommandRow) : result Command := scanCommandRow kr.1 kr.2.

Definition ListCommandsContext : Op (list Command) :=
  rows ← db_exec (query (fun db => Ok (merge_sort (directed false row_le) (map_to_list (commands db)))));
  check (PostgresCommands.scanCommands rows).

Definition command_where (tenant device status : string) (start end_ : option Z) (kr : string * CommandRow) : Prop :=
  cr_tenant_id kr.2 = tenant /\ (device = "" \/ cr_device_id kr.2 = device) /\ (status = "" \/ cr_status kr.2 = status)
  /\ is_null_or start (fun s => pg_time s <=? cr_created_at kr.2) = true
  /\ is_null_or end_ (fun e => cr_created_at kr.2 <? pg_time e) = true.
#[export] Instance command_where_dec t d st s e kr : Decision (command_where t d st s e kr).
Proof. unfold command_where. apply _. Defined.

Definition command_after (asc : bool) (after : option Z) (afterID : string) (kr : string * CommandRow) : Prop :=
  is_null_or after (fun a => beyond asc (pg_time a) afterID (cr_created_at kr.2) kr.1) = true.
#[export] Instance command_after_dec asc a i kr : Decision (command_after asc a i kr).
Proof. unfold command_after. apply _. Defined.

Definition sql_commands_page (asc : bool) (tenant : string) (after : option Z) (afterID device status : string)
    (start end_ : option Z) (limit : Z) : Stmt (list (string * CommandRow)) :=
  query (fun db => Ok (take (Z.to_nat limit) (merge_sort (directed asc row_le)
    (filter (fun kr => command_where tenant device status start end_ kr /\ command_after asc after afterID kr)
            (map_to_list (commands db)))))).

Definition ListCommandsPageContext (page : PageRequest) : Op (list Command * string) :=
  page ← check (NormalizeListRequest page "commands");
  after ← check (decodePageCursor page "commands");
  let '(createdAt, id) := after in
  let asc := String.eqb (pg_Sort page) "asc" in
  rows ← db_exec (sql_commands_page asc (pg_TenantID page) (nullTime createdAt) id (pg_DeviceID page) (pg_Status page)
                    (listBoundTime (pg_StartTime page) (pg_HasStartTime page))
                    (listBoundTime (pg_EndTime page) (pg_HasEndTime page)) (pg_Size page + 1));
  check (finish (fun last => encodePageCursor page "commands" (cmd_CreatedAt last) (cmd_ID last))
           (fill_page commandListBytes (pg_Size page) (map scan_command rows))).
End lists.
