(* ===== verification/Lifecycle.v ===== *)
(** * The command lifecycle as a specification of the store

    [lifecycle_step] says what one database effect may do to the commands, their
    audit trail and their acknowledgements; the methods of PostgresCommands
    refine it under every fault schedule.  The invariants of reachable databases
    are proved on the specification. *)
From stdpp Require Import prelude strings gmap sorting.
From Stdlib Require Import ZArith Lia.
From S2P Require Import Prelude GoStrings CommandState Domain Postgres PostgresCommands.

Local Open Scope Z_scope.

(** ** One command *)
Definition same_identity (row row' : CommandRow) : Prop :=
  cr_tenant_id row' = cr_tenant_id row /\ cr_device_id row' = cr_device_id row
  /\ cr_payload row' = cr_payload row /\ cr_created_at row' = cr_created_at row
  /\ cr_idempotency_key row' = cr_idempotency_key row.

Definition row_edge (row : CommandRow) (event : string) (row' : CommandRow) : Prop :=
  exists s s', cr_status row = status_string s /\ cr_status row' = status_string s' /\ edge s event s'.

(** What one step does to the row of a command, the events and the
    acknowledgement statuses it appends for it. *)
Inductive row_step : option CommandRow -> option CommandRow -> list string -> list string -> Prop :=
| rs_same o : row_step o o [] []
| rs_create row :
    cr_status row = CommandStatusCreated -> cr_dispatch_attempts row = 0 -> cr_deadline_at row = None ->
    cr_result row = None -> row_step None (Some row) ["created"] []
| rs_claim row row' :
    same_identity row row' -> cr_status row = CommandStatusCreated -> cr_status row' = cr_status row ->
    cr_result row' = cr_result row -> cr_dispatch_attempts row < maxDispatchAttempts ->
    cr_dispatch_attempts row' = cr_dispatch_attempts row + 1 ->
    row_step (Some row) (Some row') [] []
| rs_defer row row' :
    same_identity row row' -> cr_status row = CommandStatusCreated -> cr_status row' = cr_status row ->
    cr_result row' = cr_result row -> cr_dispatch_attempts row' = cr_dispatch_attempts row ->
    row_step (Some row) (Some row') [] []
| rs_edge row row' event :
    same_identity row row' -> row_edge row event row' -> cr_result row' = cr_result row ->
    cr_dispatch_attempts row' = cr_dispatch_attempts row -> event <> "created" ->
    row_step (Some row) (Some row') [event] []
| rs_ack row row' event res :
    same_identity row row' -> row_edge row event row' -> event = cr_status row' ->
    (event = CommandStatusAcked \/ event = CommandStatusFailed) ->
    cr_result row' = Some res -> cr_dispatch_attempts row' = cr_dispatch_attempts row ->
    row_step (Some row) (Some row') [event] [event].

(** ** The database *)
Definition trail (id : string) (es : list EventRow) : list string :=
  ev_event_type <$> filter (fun e => ev_command_id e = id) es.
Definition acks_of (id : string) (as_ : list AckRow) : list string :=
  ak_ack_status <$> filter (fun a => ak_command_id a = id) as_.

Definition keys_unique (db : DB) : Prop := forall i j ri rj k,
  commands db !! i = Some ri -> commands db !! j = Some rj ->
  cr_tenant_id ri = cr_tenant_id rj -> cr_idempotency_key ri = Some k -> cr_idempotency_key rj = Some k -> i = j.

Definition device_known (db : DB) (row : CommandRow) : Prop :=
  is_Some (devices db !! (cr_tenant_id row, cr_device_id row)).

(** What is known of telemetry is kept: a stored record never changes, except
    that it may become marked as written to TDengine, a device is never seen
    earlier than before, and identifiers stay distinct and increasing. *)
Definition row_le_written (row row' : TelemetryRow) : Prop :=
  tr_id row' = tr_id row /\ tr_ts row' = tr_ts row /\ tr_type row' = tr_type row /\ tr_version row' = tr_version row
  /\ tr_payload row' = tr_payload row /\ tr_received_at row' = tr_received_at row
  /\ (tr_tdengine_written row = true -> tr_tdengine_written row' = true).

Definition ids_ok (db : DB) : Prop :=
  (forall k row, telemetry_records db !! k = Some row -> tr_id row <= telemetry_seq db)
  /\ (forall k k' row row', telemetry_records db !! k = Some row -> telemetry_records db !! k' = Some row' ->
       tr_id row = tr_id row' -> k = k').

Record telemetry_le (db db' : DB) : Prop := {
  tl_rows : forall k row, telemetry_records db !! k = Some row ->
    exists row', telemetry_records db' !! k = Some row' /\ row_le_written row row';
  tl_seen : forall k row t, device_state db !! k = Some row -> sr_last_seen_at row = Some t ->
    exists row' t', device_state db' !! k = Some row' /\ sr_last_seen_at row' = Some t' /\ t <= t';
  tl_ids : ids_ok db -> ids_ok db' }.

Lemma row_le_written_refl row : row_le_written row row.
Proof. done. Qed.

Lemma telemetry_le_same db db' :
  telemetry_records db' = telemetry_records db -> device_state db' = device_state db ->
  telemetry_seq db' = telemetry_seq db -> telemetry_le db db'.
Proof.
  intros Ht Hd Hs. split; unfold ids_ok; rewrite ?Ht, ?Hd, ?Hs; eauto using row_le_written_refl.
  intros k row t Hrow Hseen. exists row, t. split_and!; [done..|lia].
Qed.

#[export] Instance telemetry_le_preorder : PreOrder telemetry_le.
Proof.
  split; [intros db; by apply telemetry_le_same|].
  intros d1 d2 d3 [R1 S1 I1] [R2 S2 I2]. split; [| |auto].
  - intros k row (row1 & Hrow1 & H1)%R1. apply R2 in Hrow1 as (row2 & ? & H2). exists row2. split; [done|].
    unfold row_le_written in *. naive_solver congruence.
  - intros k row t Hrow Hs. destruct (S1 k row t) as (row1 & t1 & Hr1 & Ht1 & ?); [done..|].
    destruct (S2 k row1 t1) as (row2 & t2 & ? & ? & ?); [done..|]. exists row2, t2. split_and!; [done..|lia].
Qed.

Record lifecycle_step (db db' : DB) : Prop := {
  ls_rows : exists es as_,
    command_events db' = command_events db ++ es /\ command_ack db' = command_ack db ++ as_
    /\ forall id, row_step (commands db !! id) (commands db' !! id) (trail id es) (acks_of id as_);
  ls_devices : forall k, is_Some (devices db !! k) -> is_Some (devices db' !! k);
  ls_created : forall id row, commands db !! id = None -> commands db' !! id = Some row -> device_known db row;
  ls_keys : keys_unique db -> keys_unique db';
  ls_telemetry : telemetry_le db db' }.

Lemma trail_app id es es' : trail id (es ++ es') = trail id es ++ trail id es'.
Proof. unfold trail. by rewrite filter_app, fmap_app. Qed.

Lemma acks_of_app id es es' : acks_of id (es ++ es') = acks_of id es ++ acks_of id es'.
Proof. unfold acks_of. by rewrite filter_app, fmap_app. Qed.

Lemma trail_single id e : trail id [e] = if decide (ev_command_id e = id) then [ev_event_type e] else [].
Proof. unfold trail. rewrite filter_cons. by case_decide. Qed.

Lemma acks_single id a : acks_of id [a] = if decide (ak_command_id a = id) then [ak_ack_status a] else [].
Proof. unfold acks_of. rewrite filter_cons. by case_decide. Qed.

(** The events one statement writes for the rows it changed. *)
Lemma trail_batch id ids event :
  NoDup ids ->
  trail id (map (fun i => MkEventRow i event "{}") ids) = if decide (id ∈ ids) then [event] else [].
Proof.
  induction 1 as [|i ids Hi Hnd IH]; [done|].
  rewrite map_cons.
  change (trail id ([MkEventRow i event "{}"] ++ map (fun i => MkEventRow i event "{}") ids) = if decide (id ∈ i :: ids) then [event] else []).
  rewrite trail_app, trail_single, IH. simpl.
  destruct (decide (i = id)) as [->|]; repeat case_decide; set_solver.
Qed.

Lemma lookup_update_rows ids f m i :
  update_rows ids f m !! i = (fun row => if bool_decide (i ∈ ids) then f row else row) <$> m !! i.
Proof. unfold update_rows. rewrite map_lookup_imap. by destruct (m !! i). Qed.

Lemma keys_unique_identity db db' :
  (forall i row', commands db' !! i = Some row' -> exists row, commands db !! i = Some row /\ same_identity row row') ->
  keys_unique db -> keys_unique db'.
Proof.
  intros Hid Hk i j ri rj k Hi Hj Ht Hki Hkj.
  apply Hid in Hi as (ri0 & Hi & Et & _ & _ & _ & Ek). apply Hid in Hj as (rj0 & Hj & Et' & _ & _ & _ & Ek').
  eapply (Hk i j ri0 rj0 k); congruence.
Qed.

(** ** What the statements of the store do *)

(** A step that leaves the commands alone. *)
Lemma lifecycle_frame db db' :
  commands db' = commands db -> command_events db' = command_events db -> command_ack db' = command_ack db ->
  (forall k, is_Some (devices db !! k) -> is_Some (devices db' !! k)) -> telemetry_le db db' -> lifecycle_step db db'.
Proof.
  intros Hc He Ha Hd Ht. split; try done.
  - exists [], []. rewrite He, Ha, Hc, !app_nil_r. split_and!; [done..|]. constructor.
  - rewrite Hc. congruence.
  - unfold keys_unique. by rewrite Hc.
Qed.

(** An update of existing rows, with or without events. *)
Lemma lifecycle_update db ids f es :
  (forall id, id ∈ ids -> forall row, commands db !! id = Some row ->
    same_identity row (f row) /\ row_step (Some row) (Some (f row)) (trail id es) []) ->
  (forall id, id ∉ ids -> trail id es = []) ->
  (forall id, id ∈ ids -> commands db !! id <> None) ->
  lifecycle_step db (add_events es (set_commands (update_rows ids f (commands db)) db)).
Proof.
  intros Hf Hout Hdom. split; simpl.
  - exists es, []. rewrite app_nil_r. split_and!; [done..|]. intros id. rewrite lookup_update_rows.
    case_bool_decide as Hin.
    + destruct (commands db !! id) as [row|] eqn:E; [|by apply Hdom in Hin]. by apply Hf.
    + rewrite Hout by done. destruct (commands db !! id); constructor.
  - done.
  - intros id row. rewrite lookup_update_rows. by intros ->.
  - apply keys_unique_identity. intros i row'. simpl. rewrite lookup_update_rows.
    destruct (commands db !! i) as [row|] eqn:E; [|done]. intros [= <-]. exists row. split; [done|].
    case_bool_decide; [by apply (Hf i)|done].
  - by apply telemetry_le_same.
Qed.

Lemma add_no_events db : add_events [] db = db.
Proof. destruct db. unfold add_events. simpl. by rewrite app_nil_r. Qed.

Lemma lifecycle_update_silent db ids f :
  (forall id row, id ∈ ids -> commands db !! id = Some row ->
    same_identity row (f row) /\ row_step (Some row) (Some (f row)) [] []) ->
  (forall id, id ∈ ids -> commands db !! id <> None) ->
  lifecycle_step db (set_commands (update_rows ids f (commands db)) db).
Proof.
  intros Hf Hdom. rewrite <- add_no_events. apply lifecycle_update; [|done..].
  intros id Hin row Hrow. by apply (Hf id).
Qed.

(** [updateCommandsWithEvent], from what it knows of the rows it changes. *)
Lemma update_with_event_lifecycle changed f event db n db' :
  updateCommandsWithEvent changed f event db = Ok (n, db') ->
  event <> "created" -> NoDup (changed db) ->
  (forall id, id ∈ changed db -> exists row, commands db !! id = Some row
     /\ same_identity row (f row) /\ row_edge row event (f row)
     /\ cr_result (f row) = cr_result row /\ cr_dispatch_attempts (f row) = cr_dispatch_attempts row) ->
  lifecycle_step db db'.
Proof.
  intros [= <- <-] Hne Hnd Hrows. apply lifecycle_update.
  - intros id Hin row Hrow. rewrite trail_batch, decide_True by done.
    apply Hrows in Hin as (row0 & Hrow0 & ? & ? & ? & ?). simplify_eq. split; [done|]. by constructor.
  - intros id Hout. by rewrite trail_batch, decide_False.
  - intros id (row & -> & _)%Hrows. done.
Qed.

Lemma where_id_elem id pred db i :
  i ∈ where_id id pred db -> i = id /\ exists row, commands db !! id = Some row /\ pred row = true.
Proof.
  unfold where_id. destruct (commands db !! id) as [row|]; [|by intros ?%elem_of_nil].
  destruct (pred row) eqn:Hp; [|by intros ?%elem_of_nil]. intros ->%list_elem_of_singleton. eauto.
Qed.

Lemma where_id_nodup id pred db : NoDup (where_id id pred db).
Proof. unfold where_id. repeat case_match; auto using NoDup_singleton, NoDup_nil_2. Qed.

Section batch.
Context `{PgEnv}.

Lemma select_batch_elem locked pred n db kr :
  kr ∈ select_batch locked pred n db ->
  commands db !! kr.1 = Some kr.2 /\ pred kr.2 = true /\ kr.1 ∉ locked.
Proof.
  unfold select_batch. intros Hin. eapply elem_of_sublist in Hin; [|apply sublist_take].
  rewrite merge_sort_Permutation in Hin. apply list_elem_of_filter in Hin as [[? ?] Hin].
  by apply elem_of_map_to_list' in Hin.
Qed.

Lemma select_batch_nodup locked pred n db : NoDup (select_batch locked pred n db).*1.
Proof.
  eapply sublist_NoDup; [|apply fmap_sublist, sublist_take].
  rewrite merge_sort_Permutation. eapply sublist_NoDup; [|apply fmap_sublist, sublist_filter].
  apply NoDup_fst_map_to_list.
Qed.

Lemma select_batch_length locked pred n db : (length (select_batch locked pred n db) <= n)%nat.
Proof. unfold select_batch. rewrite length_take. lia. Qed.

Lemma select_batch_ids locked pred n db id :
  id ∈ (select_batch locked pred n db).*1 ->
  exists row, commands db !! id = Some row /\ pred row = true /\ id ∉ locked.
Proof. intros ([i row] & -> & Hin)%list_elem_of_fmap. apply select_batch_elem in Hin. eauto. Qed.
End batch.

(** ** Invariants of the lifecycle *)

(** A path through the lifecycle, one edge per audit event. *)
Inductive path : list string -> Status -> Prop :=
| path_created : path ["created"] Created
| path_edge es s e s' : path es s -> edge s e s' -> path (es ++ [e]) s'.

(** What holds of a command, its audit trail and its acknowledgements: the
    trail spells a path to the current status, the attempts are bounded, and
    there is exactly one acknowledgement when there is a result and none
    otherwise. *)
Record row_ok (row : CommandRow) (events acks : list string) : Prop := {
  co_audit : exists s, cr_status row = status_string s /\ path events s;
  co_attempts : 0 <= cr_dispatch_attempts row <= maxDispatchAttempts;
  co_result : match cr_result row with
              | Some _ => acks = [cr_status row]
                          /\ (cr_status row = CommandStatusAcked \/ cr_status row = CommandStatusFailed)
              | None => acks = []
              end }.

Definition command_ok (o : option CommandRow) (events acks : list string) : Prop :=
  match o with
  | Some row => row_ok row events acks
  | None => events = [] /\ acks = []
  end.

Record db_ok (db : DB) : Prop := {
  ok_commands : forall id, command_ok (commands db !! id) (trail id (command_events db)) (acks_of id (command_ack db));
  ok_devices : forall id row, commands db !! id = Some row -> device_known db row;
  ok_keys : keys_unique db;
  ok_ids : ids_ok db }.

Lemma empty_db_ok : db_ok empty_db.
Proof.
  split; [done|intros id row; simpl; by rewrite lookup_empty| |].
  - intros i j ri rj k. simpl. by rewrite lookup_empty.
  - split; intros k; simpl; intros *; by rewrite lookup_empty.
Qed.

Lemma edge_nonterminal s e s' : edge s e s' -> terminal s = false.
Proof. by destruct 1 as [|? [->| ->]| | | |]. Qed.

(** A live command has no result yet. *)
Lemma live_no_result row event row' tr ak :
  row_ok row tr ak -> row_edge row event row' -> cr_result row = None /\ ak = [].
Proof.
  intros [_ _ Hr] (s & s' & Hs & _ & Ht%edge_nonterminal). destruct (cr_result row); [|done].
  destruct Hr as [_ [Hr|Hr]]; rewrite Hr in Hs; by destruct s.
Qed.

Lemma path_row_edge row event row' tr :
  (exists s, cr_status row = status_string s /\ path tr s) -> row_edge row event row' ->
  exists s, cr_status row' = status_string s /\ path (tr ++ [event]) s.
Proof.
  intros (s & Hs & Hp) (s1 & s2 & Hs1 & Hs2 & He). rewrite Hs in Hs1. apply status_string_inj in Hs1 as ->.
  exists s2. split; [done|]. by econstructor.
Qed.

Lemma row_step_ok o o' es as_ tr ak :
  row_step o o' es as_ -> command_ok o tr ak -> command_ok o' (tr ++ es) (ak ++ as_).
Proof.
  intros Hstep. destruct Hstep as [o|row Hst Hatt Hdl Hres|row row' Hid Hst Hst' Hres Hlt Hatt|row row' Hid Hst Hst' Hres Hatt
    |row row' ev Hid Hedge Hres Hatt Hne|row row' ev res Hid Hedge Hev Hev' Hres Hatt]; simpl; rewrite ?app_nil_r; [done|..].
  - intros [-> ->]. split; simpl; [|unfold maxDispatchAttempts; lia|by rewrite Hres].
    exists Created. split; [done|constructor].
  - intros [Hau Hat Hr]. split; [by rewrite Hst'|lia|by rewrite Hres, Hst'].
  - intros [Hau Hat Hr]. split; [by rewrite Hst'|lia|by rewrite Hres, Hst'].
  - intros Hok. destruct (live_no_result _ _ _ _ _ Hok Hedge) as [Hn ->]. destruct Hok as [Hau Hat Hr].
    split; [by eapply path_row_edge|lia|by rewrite Hres, Hn].
  - intros Hok. destruct (live_no_result _ _ _ _ _ Hok Hedge) as [Hn ->]. destruct Hok as [Hau Hat Hr].
    split; [by eapply path_row_edge|lia|]. rewrite Hres. subst ev. auto.
Qed.

Lemma row_step_identity o row row' es as_ :
  row_step o (Some row') es as_ -> o = Some row -> same_identity row row'.
Proof. by inversion 1; intros; simplify_eq. Qed.

Lemma lifecycle_step_ok db db' : lifecycle_step db db' -> db_ok db -> db_ok db'.
Proof.
  intros [(es & as_ & He & Ha & Hrows) Hdev Hnew Hkeys [_ _ Hids]] [Hc Hd Hk Hi]. split; [|intros id row' Hrow'|auto..].
  - intros id. rewrite He, Ha, trail_app, acks_of_app. eapply row_step_ok; auto.
  - specialize (Hrows id). rewrite Hrow' in Hrows.
    destruct (commands db !! id) as [row|] eqn:Hrow; [|by eapply Hdev, Hnew].
    destruct (row_step_identity _ row _ _ _ Hrows) as (Et & Ed & _); [done|].
    apply Hdev. rewrite Et, Ed. by eapply Hd.
Qed.

Lemma lifecycle_steps_ok db db' : rtc lifecycle_step db db' -> db_ok db -> db_ok db'.
Proof. induction 1; eauto using lifecycle_step_ok. Qed.

(** ** Finality *)
Definition is_final (row : CommandRow) : Prop := exists s, cr_status row = status_string s /\ terminal s = true.

Lemma final_no_edge row event row' : is_final row -> ~ row_edge row event row'.
Proof.
  intros (s & Hs & Ht) (s1 & s2 & Hs1 & _ & He%edge_nonterminal). rewrite Hs in Hs1.
  apply status_string_inj in Hs1 as ->. congruence.
Qed.

Lemma final_not_created row : is_final row -> cr_status row <> CommandStatusCreated.
Proof. intros (s & -> & Ht). by destruct s. Qed.

(** A final command keeps its row and its trail. *)
Lemma lifecycle_step_final db db' id row :
  lifecycle_step db db' -> commands db !! id = Some row -> is_final row ->
  commands db' !! id = Some row /\ trail id (command_events db') = trail id (command_events db)
  /\ acks_of id (command_ack db') = acks_of id (command_ack db).
Proof.
  intros [(es & as_ & He & Ha & Hrows) _ _ _ _] Hrow Hf. specialize (Hrows id). rewrite Hrow in Hrows.
  rewrite He, Ha, trail_app, acks_of_app.
  inversion Hrows; subst; rewrite ?app_nil_r; try done;
    solve [ exfalso; by eapply final_not_created | exfalso; by eapply final_no_edge ].
Qed.

Lemma lifecycle_steps_final db db' id row :
  rtc lifecycle_step db db' -> commands db !! id = Some row -> is_final row ->
  commands db' !! id = Some row /\ trail id (command_events db') = trail id (command_events db)
  /\ acks_of id (command_ack db') = acks_of id (command_ack db).
Proof.
  induction 1 as [|db db1 db' Hs _ IH]; intros Hrow Hf; [done|].
  destruct (lifecycle_step_final _ _ _ _ Hs Hrow Hf) as (Hrow1 & <- & <-). auto.
Qed.

(** Commands are never deleted, and what a request fixed stays fixed. *)
Lemma lifecycle_steps_identity db db' id row :
  rtc lifecycle_step db db' -> commands db !! id = Some row ->
  exists row', commands db' !! id = Some row' /\ same_identity row row'.
Proof.
  induction 1 as [|db db1 db' Hs _ IH] in row |- *; intros Hrow; [by exists row|].
  destruct Hs as [(es & as_ & _ & _ & Hrows) _ _ _ _]. specialize (Hrows id). rewrite Hrow in Hrows.
  destruct (commands db1 !! id) as [row1|] eqn:E1; [|by inversion Hrows].
  destruct (IH row1 eq_refl) as (row' & ? & Hid'). exists row'. split; [done|].
  pose proof (row_step_identity _ _ _ _ _ Hrows eq_refl) as Hid. unfold same_identity in *. naive_solver congruence.
Qed.

Lemma lifecycle_steps_attempts db db' id row :
  rtc lifecycle_step db db' -> commands db !! id = Some row ->
  exists row', commands db' !! id = Some row' /\ cr_dispatch_attempts row <= cr_dispatch_attempts row'.
Proof.
  induction 1 as [|db db1 db' Hs _ IH] in row |- *; intros Hrow; [exists row; split; [done|lia]|].
  destruct Hs as [(es & as_ & _ & _ & Hrows) _ _ _ _]. specialize (Hrows id). rewrite Hrow in Hrows.
  destruct (commands db1 !! id) as [row1|] eqn:E1; [|by inversion Hrows].
  destruct (IH row1 eq_refl) as (row' & ? & ?). exists row'. split; [done|].
  inversion Hrows; subst; lia.
Qed.

Lemma lifecycle_steps_telemetry db db' : rtc lifecycle_step db db' -> telemetry_le db db'.
Proof. induction 1 as [|db db1 db' Hs _ IH]; [done|]. etrans; [|done]. by destruct Hs. Qed.

(** ** Delivery is confirmed once *)
Definition past_delivery (row : CommandRow) : Prop :=
  exists s, cr_status row = status_string s /\ s <> Created /\ s <> Published.

Lemma past_delivery_edge row event row' : past_delivery row -> row_edge row event row' -> past_delivery row'.
Proof.
  intros (s & Hs & H1 & H2) (s1 & s2 & Hs1 & Hs2 & He). rewrite Hs in Hs1. apply status_string_inj in Hs1 as ->.
  exists s2. split; [done|]. by destruct He as [|? [->| ->]| | | |].
Qed.

Lemma past_delivery_not_created row : past_delivery row -> cr_status row <> CommandStatusCreated.
Proof. intros (s & -> & ? & ?). by destruct s. Qed.

(** A command whose delivery was confirmed never becomes deliverable again. *)
Lemma lifecycle_steps_past_delivery db db' id row :
  rtc lifecycle_step db db' -> commands db !! id = Some row -> past_delivery row ->
  exists row', commands db' !! id = Some row' /\ past_delivery row'.
Proof.
  induction 1 as [|db db1 db' Hs _ IH] in row |- *; intros Hrow Hp; [by exists row|].
  destruct Hs as [(es & as_ & _ & _ & Hrows) _ _ _ _]. specialize (Hrows id). rewrite Hrow in Hrows.
  destruct (commands db1 !! id) as [row1|] eqn:E1; [|by inversion Hrows]. apply (IH row1 eq_refl).
  inversion Hrows; subst; [done|by destruct (past_delivery_not_created row)..|by eapply past_delivery_edge|by eapply past_delivery_edge].
Qed.
