(* ===== verification/PostgresRefine.v ===== *)
(** * The store refines the command lifecycle

    Every method of PostgresStore and PostgresCommands, run against a database
    that may fail at any round trip, changes the committed tables by steps of
    [lifecycle_step]. *)
From stdpp Require Import prelude strings gmap sorting.
From Stdlib Require Import ZArith Lia.
From S2P Require Import Prelude GoStrings Contracts CommandState GoJson Payload Domain Postgres PostgresStore PostgresCommands Lifecycle.

Local Open Scope Z_scope.

(** A method whose every run relates the committed tables before and after. *)
Definition op_rel {A} (R : relation DB) (op : Op A) : Prop := forall w r w',
  op w = (r, w') -> R (committed w) (committed w').

(** ** Composing methods *)
Section op_rel.
Context (R : relation DB) `{!PreOrder R}.

Lemma op_rel_check {A} (r : result A) : op_rel R (check r).
Proof. by intros w r' w' [= <- <-]. Qed.

Lemma op_rel_reject {A} e : op_rel R (@reject A e).
Proof. by intros w r' w' [= <- <-]. Qed.

Lemma op_rel_ret {A} (a : A) : op_rel R (mret a : Op A).
Proof. by intros w r' w' [= <- <-]. Qed.

Lemma op_rel_bind {A B} (m : Op A) (f : A -> Op B) :
  op_rel R m -> (forall a, op_rel R (f a)) -> op_rel R (m ≫= f).
Proof.
  intros Hm Hf w r w'. unfold mbind, op_bind. destruct (m w) as [[a|e] w1] eqn:E; intros E2.
  - etrans; [by eapply Hm|by eapply Hf].
  - injection E2 as <- <-. by eapply Hm.
Qed.

Lemma op_rel_map_err {A} g (m : Op A) : op_rel R m -> op_rel R (map_err g m).
Proof. intros Hm w r w'. unfold map_err. destruct (m w) as [r1 w1] eqn:E. intros [= <- <-]. by eapply Hm. Qed.

Lemma op_rel_exec {A} (s : Stmt A) :
  (forall db a db', s db = Ok (a, db') -> R db db') -> op_rel R (db_exec s).
Proof.
  intros Hs w r w' Ho%db_exec_atomic. unfold stmt_meaning in Ho.
  destruct (s (committed w)) as [[a db']|e] eqn:E; simpl in Ho.
  - destruct Ho as [[_ ->]|[_ [->| ->]]]; [|done|]; by eapply Hs.
  - by destruct Ho as [[_ ->]|[_ [->| ->]]].
Qed.

Lemma op_rel_tx {A} (t : Tx A) :
  (forall db r db', meaning t db = (r, db') -> R db db') -> op_rel R (BeginTx t).
Proof.
  intros Ht w r w' Ho%begin_tx_atomic. destruct (meaning t (committed w)) as [r0 db'] eqn:E.
  destruct Ho as [[_ ->]|[_ [->| ->]]]; [|done|]; by eapply Ht.
Qed.

Lemma op_rel_query {A} (f : DB -> result A) : op_rel R (db_exec (query f)).
Proof. apply op_rel_exec. unfold query. by intros db a db' (x & _ & [= _ <-])%result_bind_ok. Qed.
End op_rel.

(** Splits a method into its guards and its statements. *)
Ltac refine_steps :=
  repeat first
    [ apply op_rel_bind; [apply _| |intros ?]
    | apply op_rel_map_err
    | apply op_rel_check; apply _ | apply op_rel_reject; apply _ | apply op_rel_ret; apply _ | apply op_rel_query; apply _
    | match goal with |- op_rel _ (if ?b then _ else _) => destruct b end
    | match goal with |- op_rel _ (match ?x with _ => _ end) => destruct x end ].

(** ** Refining the lifecycle *)
Notation refines := (op_rel (rtc lifecycle_step)).

Lemma refines_exec {A} (s : Stmt A) :
  (forall db a db', s db = Ok (a, db') -> lifecycle_step db db') -> refines (db_exec s).
Proof. intros Hs. apply op_rel_exec; [apply _|]. intros. by eapply rtc_once, Hs. Qed.

Lemma refines_tx {A} (t : Tx A) :
  (forall db r db', meaning t db = (r, db') -> rtc lifecycle_step db db') -> refines (BeginTx t).
Proof. apply op_rel_tx, _. Qed.

Lemma query_inv {A} (f : DB -> result A) db a db' : query f db = Ok (a, db') -> f db = Ok a /\ db' = db.
Proof. unfold query. intros (x & Hx & [= <- <-])%result_bind_ok. done. Qed.

(** A step on the other tables. *)
Lemma tables_frame db db' :
  commands db' = commands db -> command_events db' = command_events db -> command_ack db' = command_ack db ->
  (forall k, is_Some (devices db !! k) -> is_Some (devices db' !! k)) ->
  telemetry_records db' = telemetry_records db -> device_state db' = device_state db ->
  telemetry_seq db' = telemetry_seq db -> lifecycle_step db db'.
Proof. intros. apply lifecycle_frame; try done. by apply telemetry_le_same. Qed.

Lemma lifecycle_refl db : lifecycle_step db db.
Proof. by apply tables_frame. Qed.

(** One statement of a transaction: it failed, or it yielded [Hok]. *)
Tactic Notation "tx_stmt" hyp(H) "as" ident(b) ident(db1) ident(Hok) :=
  cbn [tx_meaning] in H;
  match type of H with
  | context [match ?s ?d with Ok _ => _ | Err _ => _ end] =>
      destruct (s d) as [[b db1]|] eqn:Hok; [|by injection H as <- <-; apply rtc_refl]
  end.

Tactic Notation "tx_query" hyp(H) "as" simple_intropattern(p) :=
  unfold sql_tenant_exists, sql_device_exists, sql_jsonb, sql_get_telemetry, sql_get_command,
    sql_find_command, sql_result_equals in H;
  apply query_inv in H as [p ->].

Section methods.
Context `{Unicode} `{PgEnv}.

(** ** Tenants, devices, telemetry *)
Lemma CreateTenant_refines t : refines (CreateTenantContext t).
Proof.
  unfold CreateTenantContext. refine_steps. apply refines_exec. intros db x db'.
  unfold sql_insert_tenant. destruct (tenants db !! _); intros [= <- <-]. by apply tables_frame.
Qed.

Lemma insert_device_frame d hash db a db' :
  sql_insert_device d hash db = Ok (a, db') -> lifecycle_step db db'.
Proof.
  unfold sql_insert_device. destruct (devices db !! _) eqn:E; [done|].
  destruct (tenants db !! _); [|done]. intros [= <- <-].
  apply tables_frame; try done. intros k Hk. simpl. rewrite lookup_insert_is_Some. destruct (decide ((dev_TenantID d, dev_DeviceID d) = k)); auto.
Qed.

(** The state of a device changes without losing when it was last seen. *)
Lemma set_device_state_frame t d row db :
  (forall row0 x, device_state db !! (t, d) = Some row0 -> sr_last_seen_at row0 = Some x ->
     exists y, sr_last_seen_at row = Some y /\ x <= y) ->
  lifecycle_step db (set_device_state t d row db).
Proof.
  intros Hseen. apply lifecycle_frame; [done..|]. split; simpl; [|intros k row0 x Hrow0 Hx|done].
  - intros k r Hr. exists r. done.
  - destruct (decide ((t, d) = k)) as [<-|Hne].
    + destruct (Hseen _ _ Hrow0 Hx) as (y & Hy & ?). exists row, y. by rewrite lookup_insert_eq.
    + exists row0, x. rewrite lookup_insert_ne by done. split_and!; [done..|lia].
Qed.

Lemma CreateDevice_refines now d : refines (CreateDeviceContext now d).
Proof.
  unfold CreateDeviceContext. refine_steps. apply refines_tx. intros db r db' Hm.
  unfold meaning, create_device_tx in Hm.
  tx_stmt Hm as b db1 H1. tx_query H1 as _.
  destruct b; simpl in Hm; [|by injection Hm as <- <-; apply rtc_refl].
  destruct (HashDeviceSecret _); [|by injection Hm as <- <-; apply rtc_refl].
  tx_stmt Hm as b2 db2 H2. injection Hm as <- <-.
  apply insert_device_frame in H2. eapply rtc_l; [done|]. apply rtc_once. apply set_device_state_frame.
  intros row0 x -> Hx. simpl. exists x. split; [done|lia].
Qed.

Lemma MarkTelemetryTDengineWritten_refines m t d : refines (MarkTelemetryTDengineWrittenContext m t d).
Proof.
  apply refines_exec. intros db a db' [= <- <-]. apply lifecycle_frame; [done..|].
  assert (Hlk : forall k row, telemetry_records db !! k = Some row -> exists row',
    alter (fun row => MkTelemetryRow (tr_id row) (tr_ts row) (tr_type row) (tr_version row) (tr_payload row) true (tr_received_at row))
      (m, t, d) (telemetry_records db) !! k = Some row' /\ row_le_written row row').
  { intros k row Hrow. destruct (decide ((m, t, d) = k)) as [<-|Hne].
    - rewrite lookup_alter_eq, Hrow. by eexists.
    - rewrite lookup_alter_ne by done. by exists row. }
  split; simpl; [done| |].
  - intros k row x Hrow Hx. exists row, x. split_and!; [done..|lia].
  - intros [Hle Hinj]. split; simpl; intros *; rewrite !lookup_alter_Some; naive_solver.
Qed.

Lemma insert_telemetry_frame rec p db n db' : sql_insert_telemetry rec p db = Ok (n, db') -> lifecycle_step db db'.
Proof.
  unfold sql_insert_telemetry. intros (x & _ & Hs)%result_bind_ok.
  destruct (telemetry_records db !! _) eqn:Hnew; injection Hs as <- <-; [apply lifecycle_refl|].
  apply lifecycle_frame; [done..|]. split; simpl.
  - intros k row Hrow. exists row. split; [|done]. rewrite lookup_insert_ne; congruence.
  - intros k row t Hrow Ht. exists row, t. split_and!; [done..|lia].
  - intros [Hle Hinj]. split; simpl.
    + intros k row [[<- <-]|[_ Hk%Hle]]%lookup_insert_Some; simpl; lia.
    + intros k k' row row' [[<- <-]|[_ Hk]]%lookup_insert_Some [[<- <-]|[_ Hk']]%lookup_insert_Some; simpl; intros E; try done.
      * apply Hle in Hk'. lia.
      * apply Hle in Hk. lia.
      * by eapply Hinj.
Qed.

Lemma mark_seen_frame rec now db a db' : sql_mark_seen rec now db = Ok (a, db') -> lifecycle_step db db'.
Proof.
  unfold sql_mark_seen. intros Hs.
  destruct (device_state db !! _) as [row|] eqn:Hrow.
  - destruct (sr_last_seen_at row) as [t|] eqn:Ht.
    + destruct (Z.ltb_spec t (pg_time (rec_ReceivedAt rec))); injection Hs as <- <-; [|apply lifecycle_refl].
      apply set_device_state_frame. intros row0 x Hr Hx. simplify_eq. eexists. split; [done|]. lia.
    + injection Hs as <- <-. apply set_device_state_frame. intros row0 x Hr Hx. congruence.
  - injection Hs as <- <-. apply set_device_state_frame. congruence.
Qed.

Lemma RestoreTelemetry_refines now rec : refines (RestoreTelemetryContext now rec).
Proof.
  unfold RestoreTelemetryContext. refine_steps. apply refines_tx. intros db r db' Hm.
  unfold meaning, restore_telemetry_tx, requireDevice in Hm.
  tx_stmt Hm as b db1 H1. tx_query H1 as _.
  destruct b; simpl in Hm; [|by injection Hm as <- <-; apply rtc_refl].
  tx_stmt Hm as norm db2 H2. tx_query H2 as _.
  destruct (ValidateTelemetryPayload norm); [|by injection Hm as <- <-; apply rtc_refl].
  destruct (marshal_raw _); [|by injection Hm as <- <-; apply rtc_refl].
  tx_stmt Hm as n db3 H3. apply insert_telemetry_frame in H3. destruct (n =? 0).
  - tx_stmt Hm as st db4 H4. injection Hm as <- <-. apply rtc_refl.
  - tx_stmt Hm as st db4 H4. injection Hm as <- <-. apply mark_seen_frame in H4.
    eapply rtc_l; [done|]. by apply rtc_once.
Qed.

(** ** Commands *)

(** Shows that an assignment keeps what a lifecycle edge must keep. *)
Ltac assignment_edge from to_ :=
  split_and!; try done; exists from, to_; split_and!; [done|done|eauto with lifecycle].

Lemma status_is_eq st row : status_is st row = true -> cr_status row = st.
Proof. by intros ?%String.eqb_eq. Qed.

Lemma MarkCommandPublished_refines dbnow id attempt : refines (MarkCommandPublishedContext dbnow id attempt).
Proof.
  apply refines_exec. intros db n db' Hu. eapply update_with_event_lifecycle; [done|done|apply where_id_nodup|].
  intros i [-> (row & Hrow & Hp)]%where_id_elem. exists row. unfold holds_claim in Hp.
  apply andb_true_iff in Hp as [[Hs%status_is_eq _]%andb_true_iff _]. assignment_edge Created Published.
Qed.

Lemma MarkCommandSent_refines dbnow id deadline : refines (MarkCommandSentContext dbnow id deadline).
Proof.
  apply refines_exec. intros db n db' Hu. eapply update_with_event_lifecycle; [done|done|apply where_id_nodup|].
  intros i [-> (row & Hrow & Hp)]%where_id_elem. exists row.
  apply orb_true_iff in Hp as [Hs%status_is_eq|Hs%status_is_eq];
    [assignment_edge Created Sent|assignment_edge Published Sent].
Qed.

Lemma RequeueCommand_refines dbnow id retryAfter : refines (RequeueCommandContext dbnow id retryAfter).
Proof.
  apply refines_exec. intros db n db' (d & _ & Hu)%result_bind_ok.
  eapply update_with_event_lifecycle; [done|done|apply where_id_nodup|].
  intros i [-> (row & Hrow & Hs%status_is_eq)]%where_id_elem. exists row. assignment_edge Published Created.
Qed.

Lemma RescheduleCommand_refines dbnow id attempt retryAfter : refines (RescheduleCommandContext dbnow id attempt retryAfter).
Proof.
  apply refines_exec. intros db n db' (d & _ & [= <- <-])%result_bind_ok.
  apply lifecycle_update_silent; intros i.
  - intros row [-> (row' & Hrow' & Hp)]%where_id_elem Hrow. simplify_eq. unfold holds_claim in Hp.
    apply andb_true_iff in Hp as [[Hs%status_is_eq _]%andb_true_iff _]. split; [done|]. by apply rs_defer.
  - intros [-> (row' & Hrow' & _)]%where_id_elem. congruence.
Qed.

Lemma batch_lifecycle locked f pred event db n db' :
  updateCommandBatchWithEvent locked f pred event db = Ok (n, db') -> event <> "created" ->
  (forall row, pred row = true -> same_identity row (f row) /\ row_edge row event (f row)
     /\ cr_result (f row) = cr_result row /\ cr_dispatch_attempts (f row) = cr_dispatch_attempts row) ->
  lifecycle_step db db'.
Proof.
  intros Hu Hne Hf. eapply update_with_event_lifecycle; [done|done|apply select_batch_nodup|].
  intros i (row & Hrow & Hp & _)%select_batch_ids. eauto.
Qed.

Lemma ExpireCommands_refines locked now grace : refines (ExpireCommandsContext locked now grace).
Proof.
  apply refines_exec. intros db n db' (g & _ & Hu)%result_bind_ok. eapply batch_lifecycle; [done|done|].
  intros row [Hs%status_is_eq _]%andb_true_iff. assignment_edge Sent TimedOut.
Qed.

Lemma RecoverStaleCommands_refines l1 l2 n1 n2 before maxAttempts :
  refines (RecoverStaleCommandsContext l1 l2 n1 n2 before maxAttempts).
Proof.
  unfold RecoverStaleCommandsContext. refine_steps; apply refines_exec; intros db n db' Hu;
    (eapply batch_lifecycle; [done|done|]); intros row Hp.
  - apply andb_true_iff in Hp as [[Hs%status_is_eq _]%andb_true_iff _]. assignment_edge Published Created.
  - apply andb_true_iff in Hp as [_ [[Hs%status_is_eq _]%andb_true_iff|[Hs%status_is_eq _]%andb_true_iff]%orb_true_iff];
      [assignment_edge Created Failed|assignment_edge Published Failed].
Qed.

Lemma claim_lifecycle locked dbnow limit lease db rows db' :
  sql_claim locked dbnow limit lease db = Ok (rows, db') -> lifecycle_step db db'.
Proof.
  intros (l & _ & [= <- <-])%result_bind_ok. apply lifecycle_update_silent; intros i.
  - intros row (row' & Hrow' & Hp & _)%select_batch_ids Hrow. simplify_eq.
    apply andb_true_iff in Hp as [[Hs%status_is_eq _]%andb_true_iff Ha%Z.ltb_lt]. split; [done|].
    by apply rs_claim.
  - intros (row' & Hrow' & _)%select_batch_ids. congruence.
Qed.

Lemma ClaimCommands_refines locked dbnow limit lease : refines (ClaimCommandsForDispatchContext locked dbnow limit lease).
Proof. unfold ClaimCommandsForDispatchContext. refine_steps. apply refines_exec. intros *. apply claim_lifecycle. Qed.

(** ** Creation and acknowledgement *)
Lemma find_key_none tenant key db :
  find_key tenant key db = None ->
  forall id row, commands db !! id = Some row -> ~ has_key tenant key (id, row).
Proof.
  unfold find_key. intros Hn%fmap_None id row Hrow. rewrite list_find_None in Hn.
  rewrite Forall_forall in Hn. apply Hn. by apply elem_of_map_to_list.
Qed.

Lemma find_key_some tenant key db id row :
  find_key tenant key db = Some (id, row) -> commands db !! id = Some row /\ has_key tenant key (id, row).
Proof.
  unfold find_key. intros ([i kr] & (Hi & Hk & _)%list_find_Some & Heq)%fmap_Some. simpl in Heq. subst kr.
  split; [|done]. apply elem_of_map_to_list, list_elem_of_lookup. eauto.
Qed.

Lemma insert_command_inv cmd now key db r db' :
  sql_insert_command cmd now key db = Ok (r, db') ->
  (exists k found, r = None /\ db' = db /\ nullif_empty key = Some k /\ find_key (cmd_TenantID cmd) k db = Some found)
  \/ exists stored, r = Some (cmd_ID cmd) /\ commands db !! cmd_ID cmd = None
       /\ jsonb_cast (cmd_Payload cmd) = Ok stored
       /\ (forall k, nullif_empty key = Some k -> find_key (cmd_TenantID cmd) k db = None)
       /\ db' = set_commands (<[cmd_ID cmd := MkCommandRow (cmd_TenantID cmd) (cmd_DeviceID cmd) (cmd_Status cmd) stored
                 (pg_time now) 0 None (pg_time now) (pg_time now) (nullif_empty key) None]> (commands db)) db.
Proof.
  intros (stored & Hs & Hi)%result_bind_ok. cbn zeta in Hi.
  destruct (nullif_empty key ≫= _) as [found|] eqn:Hf.
  - injection Hi as <- <-. apply bind_Some in Hf as (k & Hk & Hf). left. eauto 10.
  - destruct (commands db !! cmd_ID cmd) eqn:Hc; [done|]. injection Hi as <- <-. right.
    exists stored. split_and!; try done. intros k Hk. rewrite Hk in Hf. done.
Qed.

Lemma create_lifecycle db id row detail :
  commands db !! id = None -> cr_status row = CommandStatusCreated -> cr_dispatch_attempts row = 0 ->
  cr_deadline_at row = None -> cr_result row = None -> device_known db row ->
  (forall k, cr_idempotency_key row = Some k -> find_key (cr_tenant_id row) k db = None) ->
  lifecycle_step db (add_events [MkEventRow id "created" detail] (set_commands (<[id := row]> (commands db)) db)).
Proof.
  intros Hnew Hst Hatt Hdl Hres Hdev Hkey. split; simpl.
  - exists [MkEventRow id "created" detail], []. rewrite app_nil_r. split_and!; [done..|]. intros i. rewrite trail_single. simpl.
    destruct (decide (id = i)) as [<-|Hne].
    + rewrite lookup_insert_eq, Hnew. by constructor.
    + rewrite lookup_insert_ne by done. constructor.
  - done.
  - intros i r Hi. destruct (decide (id = i)) as [<-|Hne]; rewrite ?lookup_insert_eq, ?lookup_insert_ne by done; congruence.
  - intros Hk i j ri rj k. simpl. rewrite !lookup_insert_Some.
    intros [[<- <-]|[Hi Hri]] [[<- <-]|[Hj Hrj]] Ht Hki Hkj; try done.
    + exfalso. eapply (find_key_none _ _ _ (Hkey _ Hki)); [exact Hrj|]. by split.
    + exfalso. eapply (find_key_none _ _ _ (Hkey _ Hkj)); [exact Hri|]. by split.
    + by eapply Hk.
  - by apply telemetry_le_same.
Qed.

Lemma CreateCommandWithKey_refines now newID t d key payload : refines (CreateCommandWithKey now newID t d key payload).
Proof.
  unfold CreateCommandWithKey. refine_steps. apply refines_tx. intros db r db' Hm.
  unfold meaning, create_command_tx, requireDevice in Hm.
  tx_stmt Hm as b db1 H1. tx_query H1 as Hdev.
  destruct b; cbn [negb] in Hm; [|by injection Hm as <- <-; apply rtc_refl].
  tx_stmt Hm as norm db2 H2. tx_query H2 as _.
  destruct (ValidateCommandInput t d norm); [|by injection Hm as <- <-; apply rtc_refl].
  destruct newID as [id|]; [|by injection Hm as <- <-; apply rtc_refl].
  tx_stmt Hm as st db3 H3.
  apply insert_command_inv in H3 as [(k & found & -> & -> & _)|(stored & -> & Hnew & _ & Hkey & ->)].
  - tx_stmt Hm as f db4 H4. tx_query H4 as _. destruct f as [[id' row] matches].
    destruct matches; cbn [negb] in Hm; [|by injection Hm as <- <-; apply rtc_refl].
    destruct (scanCommandRow id' row); injection Hm as <- <-; apply rtc_refl.
  - cbn in Hm. injection Hm as <- <-. apply rtc_once. apply create_lifecycle; try done.
    injection Hdev as Hdev. by apply bool_decide_eq_true in Hdev.
Qed.

Lemma ack_lifecycle db id row row' event res detail ak :
  commands db !! id = Some row -> same_identity row row' -> row_edge row event row' -> event = cr_status row' ->
  (event = CommandStatusAcked \/ event = CommandStatusFailed) ->
  cr_result row' = Some res -> cr_dispatch_attempts row' = cr_dispatch_attempts row ->
  ak_command_id ak = id -> ak_ack_status ak = event ->
  lifecycle_step db (add_events [MkEventRow id event detail] (add_ack ak (set_commands (<[id := row']> (commands db)) db))).
Proof.
  intros Hrow Hid Hedge Hev Hcases Hres Hatt Hak1 Hak2. split; simpl.
  - do 2 eexists. split_and!; [done..|]. intros i. rewrite trail_single, acks_single. simpl. rewrite Hak1, Hak2.
    destruct (decide (id = i)) as [<-|Hne].
    + rewrite lookup_insert_eq, Hrow. by econstructor.
    + rewrite lookup_insert_ne by done. constructor.
  - done.
  - intros i r Hi. destruct (decide (id = i)) as [<-|Hne]; rewrite ?lookup_insert_eq, ?lookup_insert_ne by done; congruence.
  - apply keys_unique_identity. intros i r. simpl. rewrite lookup_insert_Some. intros [[<- <-]|[Hi Hri]]; [eauto|].
    exists r. done.
  - by apply telemetry_le_same.
Qed.

Lemma scan_row_fields id row cmd :
  scanCommandRow id row = Ok cmd ->
  cmd_ID cmd = id /\ cmd_TenantID cmd = cr_tenant_id row /\ cmd_DeviceID cmd = cr_device_id row
  /\ cmd_Status cmd = cr_status row.
Proof. intros (res & _ & [= <-])%result_bind_ok. done. Qed.

(** The event machine only follows lifecycle edges. *)
Lemma advance_row_edge row event next now e :
  AdvanceCommandStatus (cr_status row) event = Ok next ->
  (event = CommandStatusAcked \/ event = CommandStatusFailed) ->
  row_edge row event (with_result e (with_status next now row)) /\ event = next.
Proof.
  intros (c & n & Hc & -> & Htr)%advance_sound Hev. split; [exists c, n; split_and!; try done; simpl|].
  - destruct Htr; auto with lifecycle.
  - destruct Htr; done || (by destruct Hev).
Qed.

Lemma alter_some_insert {A} (f : A -> A) (m : gmap string A) i x : m !! i = Some x -> alter f i m = <[i := f x]> m.
Proof.
  intros Hi. apply map_eq. intros j. destruct (decide (i = j)) as [<-|].
  - by rewrite lookup_alter_eq, Hi, lookup_insert_eq.
  - by rewrite lookup_alter_ne, lookup_insert_ne.
Qed.

Lemma ack_tx_lifecycle now id t d normalized encoded db r db' :
  (res_Status normalized = CommandStatusAcked \/ res_Status normalized = CommandStatusFailed) ->
  meaning (ack_command_tx now id t d normalized encoded) db = (r, db') -> rtc lifecycle_step db db'.
Proof.
  intros Hst Hm. unfold meaning, ack_command_tx in Hm.
  tx_stmt Hm as row db1 H1. tx_query H1 as Hrow. injection Hrow as Hrow.
  destruct row as [row|]; [|by injection Hm as <- <-; apply rtc_refl].
  destruct (scanCommandRow id row) as [cmd|] eqn:Hscan; [|by injection Hm as <- <-; apply rtc_refl].
  destruct (_ || _); [by injection Hm as <- <-; apply rtc_refl|].
  destruct (is_terminal_status (cmd_Status cmd)).
  - destruct (cmd_Result cmd); [|by injection Hm as <- <-; apply rtc_refl].
    tx_stmt Hm as eq db2 H2. tx_query H2 as _. destruct eq; injection Hm as <- <-; apply rtc_refl.
  - apply scan_row_fields in Hscan as (_ & _ & _ & Hs).
    destruct (AdvanceCommandStatus _ _) as [next|] eqn:Hadv; [|by injection Hm as <- <-; apply rtc_refl].
    rewrite Hs in Hadv.
    tx_stmt Hm as x2 db2 H2. tx_stmt Hm as x3 db3 H3. tx_stmt Hm as x4 db4 H4. injection Hm as <- <-.
    apply result_bind_ok in H2 as (e & He & [= <- <-]), H3 as (e3 & He3 & [= <- <-]), H4 as (e4 & He4 & [= <- <-]).
    apply rtc_once. rewrite (alter_some_insert _ _ _ row) by done.
    destruct (advance_row_edge row (res_Status normalized) next (pg_time now) e) as [Hedge Heq]; [done..|].
    by eapply ack_lifecycle.
Qed.

Lemma AckCommandResult_refines now id t d input : refines (AckCommandResultContext now id t d input).
Proof.
  unfold AckCommandResultContext. intros w r w'. unfold mbind, op_bind, check.
  destruct (ValidateDeviceIdentity t d); [|by intros [= <- <-]; apply rtc_refl].
  destruct (ValidateCommandID id); [|by intros [= <- <-]; apply rtc_refl].
  destruct (NormalizeCommandResult input) as [normalized|] eqn:Hn; [|by intros [= <- <-]; apply rtc_refl].
  destruct (marshal_result normalized) as [encoded|]; [|by intros [= <- <-]; apply rtc_refl].
  apply refines_tx. intros db r' db'. apply ack_tx_lifecycle.
  by apply normalize_status in Hn.
Qed.
End methods.
