(* ===== verification/StoreProperties.v ===== *)
(** * What the PostgreSQL store guarantees

    Any sequence of calls, from any number of processes, against a database
    that may fail at any round trip. *)
From stdpp Require Import prelude strings gmap sorting.
From Stdlib Require Import ZArith Lia.
From S2P Require Import Prelude GoStrings Contracts CommandState GoJson Payload Domain Postgres PostgresStore PostgresCommands Lifecycle PostgresRefine.

Local Open Scope Z_scope.

(** ** A concrete database environment, for the examples *)
Definition json_field (name : string) (ms : list (string * json)) : string :=
  match list_find (fun kv => kv.1 = name) ms with
  | Some (_, (_, JStr v)) => v
  | _ => ""
  end.

Definition quote (s : string) : string := String dquote (s +:+ String dquote "").

#[local] Instance sample_unicode : Unicode := {| simple_fold r := r |}.

#[local] Instance sample_pg : PgEnv := {|
  pg_time t := t;
  pg_interval d := Ok d;
  jsonb_cast s := if json_valid s then Ok s else Err [Opaque "invalid input syntax for type json"];
  jsonb_eq := String.eqb;
  text_leb a b := (String.length a <=? String.length b)%nat;
  bcrypt_hash s := Ok ("bcrypt:" +:+ s);
  bcrypt_matches h s := String.eqb h ("bcrypt:" +:+ s);
  marshal_result r := Ok (jtext "{'status':" +:+ quote (res_Status r) +:+ jtext ",'errorCode':" +:+ quote (res_ErrorCode r)
                          +:+ jtext ",'payload':" +:+ res_Payload r +:+ "}");
  unmarshal_result s := match json_parse s with
                        | Some v => let ms := match v with JObj ms => ms | _ => [] end in
                                    Ok (Some (MkCommandResult (json_field "status" ms) (json_field "errorCode" ms) "{}"))
                        | None => Err [Opaque "json"]
                        end |}.

(** A tenant, a device and one command in the given status. *)
Definition sample_row (st : string) (attempts : Z) (res : option string) : CommandRow :=
  MkCommandRow "acme" "d1" st "{}" 100 attempts None 50 60 (Some "k1") res.

Definition sample_db (st : string) (attempts : Z) (res : option string) : DB :=
  MkDB {["acme" := "Acme"]} {[("acme", "d1") := MkDeviceRow "p" "bcrypt:s" 1 1]}
       {[("acme", "d1") := MkStateRow false None None 1]} ∅ 0
       {["c1" := sample_row st attempts res]} [] [].

(** ** Calls *)
Section calls.
Context `{Unicode} `{PgEnv}.

(** One call of a method that writes, with the clocks it reads, the locks it
    meets and the identifier it draws. *)
Inductive StoreCall :=
| CallCreateTenant (t : Tenant)
| CallCreateDevice (now : Z) (d : Device)
| CallRestoreTelemetry (now : Z) (rec : TelemetryRecord)
| CallMarkWritten (msg tenant device : string)
| CallCreateCommand (now : Z) (newID : result string) (tenant device key payload : string)
| CallAck (now : Z) (id tenant device : string) (input : CommandResult)
| CallClaim (locked : gset string) (dbnow limit lease : Z)
| CallMarkPublished (dbnow : Z) (id : string) (attempt : Z)
| CallMarkSent (dbnow : Z) (id : string) (deadline : Z)
| CallReschedule (dbnow : Z) (id : string) (attempt retryAfter : Z)
| CallRequeue (dbnow : Z) (id : string) (retryAfter : Z)
| CallExpire (locked : gset string) (now grace : Z)
| CallRecover (l1 l2 : gset string) (n1 n2 staleBefore : Z).

Definition store_call (c : StoreCall) (w : World) : World :=
  match c with
  | CallCreateTenant t => (CreateTenantContext t w).2
  | CallCreateDevice now d => (CreateDeviceContext now d w).2
  | CallRestoreTelemetry now rec => (RestoreTelemetryContext now rec w).2
  | CallMarkWritten m t d => (MarkTelemetryTDengineWrittenContext m t d w).2
  | CallCreateCommand now newID t d k p => (CreateCommandWithKey now newID t d k p w).2
  | CallAck now id t d input => (AckCommandResultContext now id t d input w).2
  | CallClaim l n lim lease => (ClaimCommandsForDispatchContext l n lim lease w).2
  | CallMarkPublished n id a => (MarkCommandPublishedContext n id a w).2
  | CallMarkSent n id dl => (MarkCommandSentContext n id dl w).2
  | CallReschedule n id a r => (RescheduleCommandContext n id a r w).2
  | CallRequeue n id r => (RequeueCommandContext n id r w).2
  | CallExpire l n g => (ExpireCommandsContext l n g w).2
  | CallRecover l1 l2 n1 n2 b => (RecoverStaleCommandsContext l1 l2 n1 n2 b maxDispatchAttempts w).2
  end.

Definition store_calls (cs : list StoreCall) (w : World) : World := foldl (flip store_call) w cs.

Lemma refines_snd {A} (op : Op A) w : refines op -> rtc lifecycle_step (committed w) (committed (op w).2).
Proof. intros Hr. destruct (op w) as [r w'] eqn:E. by eapply Hr. Qed.

Lemma store_call_lifecycle c w : rtc lifecycle_step (committed w) (committed (store_call c w)).
Proof.
  destruct c; apply refines_snd; auto using CreateTenant_refines, CreateDevice_refines, RestoreTelemetry_refines,
    MarkTelemetryTDengineWritten_refines, CreateCommandWithKey_refines, AckCommandResult_refines, ClaimCommands_refines,
    MarkCommandPublished_refines, MarkCommandSent_refines, RescheduleCommand_refines, RequeueCommand_refines,
    ExpireCommands_refines, RecoverStaleCommands_refines.
Qed.

Lemma store_calls_lifecycle cs w : rtc lifecycle_step (committed w) (committed (store_calls cs w)).
Proof.
  revert w. induction cs as [|c cs IH]; intros w; simpl; [apply rtc_refl|].
  etrans; [apply store_call_lifecycle|apply IH].
Qed.

(** C1: the store refines the command lifecycle: whatever sequence of store
    methods runs, and whichever of their round trips to PostgreSQL fail before
    or after taking effect, the committed tables move by lifecycle steps, each
    of which changes a command row together with its audit event and its
    acknowledgement or not at all. *)
Theorem store_refines_lifecycle cs w :
  rtc lifecycle_step (committed w) (committed (store_calls cs w)).
Proof. apply store_calls_lifecycle. Qed.

(** C7: starting from an empty database, after any sequence of calls and
    failures, every command's audit trail spells a path of the lifecycle that
    ends in the command's current status, its dispatch attempts are within the
    cap of ten, it has exactly one acknowledgement, of that status, when it has
    a result and none otherwise, its device exists, and no two commands of a
    tenant share a request key. *)
Theorem reachable_db_ok cs fs : db_ok (committed (store_calls cs (MkWorld empty_db fs))).
Proof. eapply lifecycle_steps_ok; [apply store_calls_lifecycle|apply empty_db_ok]. Qed.

(** C8: a command that was acknowledged, failed or timed out is final: no
    later sequence of calls and failures changes its row, its audit trail or
    its acknowledgements. *)
Theorem terminal_command_final cs w id row :
  commands (committed w) !! id = Some row -> is_final row ->
  commands (committed (store_calls cs w)) !! id = Some row
  /\ trail id (command_events (committed (store_calls cs w))) = trail id (command_events (committed w))
  /\ acks_of id (command_ack (committed (store_calls cs w))) = acks_of id (command_ack (committed w)).
Proof. apply lifecycle_steps_final, store_calls_lifecycle. Qed.

(** A command is never lost, and its tenant, device, payload, creation
    time and request key never change, over any sequence of calls and
    failures. *)
Theorem command_identity_immutable cs w id row :
  commands (committed w) !! id = Some row ->
  exists row', commands (committed (store_calls cs w)) !! id = Some row' /\ same_identity row row'.
Proof. apply lifecycle_steps_identity, store_calls_lifecycle. Qed.
End calls.

Lemma terminal_command_final_witness :
  let w := MkWorld (sample_db CommandStatusAcked 1 None) [FailAfter [ContextDeadlineExceeded]] in
  let cs := [CallExpire ∅ 1000 10; CallRequeue 1000 "c1" 5] in
  commands (committed (store_calls cs w)) !! "c1" = Some (sample_row CommandStatusAcked 1 None).
Proof.
  apply (terminal_command_final [CallExpire ∅ 1000 10; CallRequeue 1000 "c1" 5]
    (MkWorld (sample_db CommandStatusAcked 1 None) [FailAfter [ContextDeadlineExceeded]])); [reflexivity|].
  exists Acked. split; reflexivity.
Defined.

Lemma command_identity_immutable_witness :
  let w := MkWorld (sample_db CommandStatusCreated 1 None) [] in
  exists row', commands (committed (store_calls [CallClaim ∅ 1000 1 30] w)) !! "c1" = Some row'
    /\ same_identity (sample_row CommandStatusCreated 1 None) row'.
Proof.
  apply (command_identity_immutable [CallClaim ∅ 1000 1 30] (MkWorld (sample_db CommandStatusCreated 1 None) [])).
  reflexivity.
Defined.
