(* ===== verification/CommandProperties.v ===== *)
(** * What each command operation does, branch by branch *)
From stdpp Require Import prelude strings gmap sorting.
From Stdlib Require Import ZArith Lia.
From S2P Require Import Prelude GoStrings Contracts CommandState GoJson Payload Domain Postgres PostgresStore PostgresCommands Lifecycle PostgresRefine StoreProperties.

Local Open Scope Z_scope.

Lemma world_eta w : faults w = [] -> MkWorld (committed w) [] = w.
Proof. destruct w. simpl. by intros ->. Qed.

Section ack.
Context `{Unicode} `{PgEnv}.

(** The checks an acknowledgement passes before the database is asked. *)
Definition ack_accepted (id t d : string) (input n : CommandResult) (enc : string) : Prop :=
  ValidateDeviceIdentity t d = Ok tt /\ ValidateCommandID id = Ok tt
  /\ NormalizeCommandResult input = Ok n /\ marshal_result n = Ok enc.

Lemma ack_no_fault now id t d input n enc w :
  faults w = [] -> ack_accepted id t d input n enc ->
  AckCommandResultContext now id t d input w
  = (let '(r, db') := meaning (ack_command_tx now id t d n enc) (committed w) in (r, MkWorld db' [])).
Proof.
  intros Hw (H1 & H2 & H3 & H4). unfold AckCommandResultContext, mbind, op_bind, check.
  rewrite H1, H2, H3, H4. by apply begin_tx_no_fault.
Qed.

Lemma ack_tx_live now id t d n enc db row cmd next e :
  commands db !! id = Some row -> scanCommandRow id row = Ok cmd ->
  cr_tenant_id row = t -> cr_device_id row = d -> is_terminal_status (cr_status row) = false ->
  AdvanceCommandStatus (cr_status row) (res_Status n) = Ok next -> jsonb_cast enc = Ok e ->
  meaning (ack_command_tx now id t d n enc) db
  = (Ok (acknowledged cmd next now n),
     add_events [MkEventRow id (res_Status n) e] (add_ack (MkAckRow id t d (res_Status n) e (pg_time now))
       (set_commands (<[id := with_result e (with_status next (pg_time now) row)]> (commands db)) db))).
Proof.
  intros Hrow Hscan Ht Hd Hlive Hadv Hcast.
  pose proof (scan_row_fields _ _ _ Hscan) as (_ & Et & Ed & Es).
  unfold meaning, ack_command_tx. cbn [tx_meaning]. unfold sql_get_command, query. cbn [mbind result_bind].
  rewrite Hrow. cbn. rewrite Hscan, Et, Ed, Es, Ht, Hd, !String.eqb_refl, Hlive, Hadv. cbn.
  unfold sql_set_result, sql_insert_ack, sql_insert_event_detail. rewrite Hcast. cbn.
  by rewrite (alter_some_insert _ _ _ row).
Qed.

Lemma ack_tx_terminal now id t d n enc db row cmd :
  commands db !! id = Some row -> scanCommandRow id row = Ok cmd ->
  cr_tenant_id row = t -> cr_device_id row = d -> is_terminal_status (cr_status row) = true ->
  meaning (ack_command_tx now id t d n enc) db
  = match cmd_Result cmd with
    | None => (Ok cmd, db)
    | Some _ => match sql_result_equals id enc db with
                | Ok (true, _) => (Ok cmd, db)
                | Ok (false, _) => (Err [ErrAcknowledgementConflict], db)
                | Err e => (Err e, db)
                end
    end.
Proof.
  intros Hrow Hscan Ht Hd Hterm. pose proof (scan_row_fields _ _ _ Hscan) as (_ & Et & Ed & Es).
  unfold meaning, ack_command_tx. cbn [tx_meaning]. unfold sql_get_command at 1, query at 1. cbn [mbind result_bind].
  rewrite Hrow. cbn [tx_meaning]. rewrite Hscan, Et, Ed, Es, Ht, Hd, !String.eqb_refl, Hterm. cbn [negb orb tx_meaning].
  destruct (cmd_Result cmd); [|done]. cbn [tx_meaning].
  destruct (sql_result_equals id enc db) as [[[] db1]|e] eqn:E; cbn; try done.
  unfold sql_result_equals in E. by apply query_inv in E as [_ ->].
Qed.

(** An acknowledgement for a command of another tenant or another device
    answers exactly like one for a command that does not exist: [ErrNotFound]
    and no change, so the existence of the command is not revealed. *)
Theorem ack_foreign_not_found now id t d input n enc w :
  faults w = [] -> ack_accepted id t d input n enc ->
  (forall row, commands (committed w) !! id = Some row ->
     (cr_tenant_id row <> t \/ cr_device_id row <> d) /\ is_ok (scanCommandRow id row) = true) ->
  AckCommandResultContext now id t d input w = (Err [ErrNotFound], w).
Proof.
  intros Hw Hacc Hfor. rewrite (ack_no_fault _ _ _ _ _ _ _ _ Hw Hacc).
  unfold meaning, ack_command_tx. cbn [tx_meaning]. unfold sql_get_command, query. cbn [mbind result_bind].
  destruct (commands (committed w) !! id) as [row|] eqn:Hrow; simpl; [|by rewrite world_eta].
  destruct (Hfor row eq_refl) as [Hne Hok]. destruct (scanCommandRow id row) as [cmd|] eqn:Hscan; [|done].
  apply scan_row_fields in Hscan as (_ & -> & -> & _).
  destruct (_ || _) eqn:E; simpl; [by rewrite world_eta|].
  apply orb_false_iff in E as [?%negb_false_iff%String.eqb_eq ?%negb_false_iff%String.eqb_eq]. naive_solver.
Qed.

(** Acknowledging a live command of the device records the device's
    result: the status becomes the reported one, and the row, the
    acknowledgement and the audit event are written together. *)
Theorem ack_live_command now id t d input n enc e w row cmd :
  faults w = [] -> ack_accepted id t d input n enc -> jsonb_cast enc = Ok e ->
  commands (committed w) !! id = Some row -> scanCommandRow id row = Ok cmd ->
  cr_tenant_id row = t -> cr_device_id row = d ->
  (exists s, cr_status row = status_string s /\ terminal s = false) ->
  exists w', AckCommandResultContext now id t d input w = (Ok (acknowledged cmd (res_Status n) now n), w')
    /\ commands (committed w') !! id = Some (with_result e (with_status (res_Status n) (pg_time now) row))
    /\ command_ack (committed w') = command_ack (committed w) ++ [MkAckRow id t d (res_Status n) e (pg_time now)]
    /\ command_events (committed w') = command_events (committed w) ++ [MkEventRow id (res_Status n) e].
Proof.
  intros Hw Hacc Hcast Hrow Hscan Ht Hd (s & Hs & Hlive).
  assert (Hadv : AdvanceCommandStatus (cr_status row) (res_Status n) = Ok (res_Status n)).
  { destruct Hacc as (_ & _ & [->| ->]%normalize_status & _); rewrite Hs; by destruct s. }
  rewrite (ack_no_fault _ _ _ _ _ _ _ _ Hw Hacc).
  erewrite ack_tx_live; [|done..|by rewrite Hs; destruct s|done|done].
  eexists. split; [done|]. simpl. by rewrite lookup_insert_eq.
Qed.

(** Jsonb equality is reflexive, and a result the store wrote can be read back. *)
Definition jsonb_eq_reflexive : Prop := forall a, jsonb_eq a a = true.
Definition result_readable : Prop := forall r enc e,
  marshal_result r = Ok enc -> jsonb_cast enc = Ok e ->
  len e <> 0 /\ exists r', unmarshal_result e = Ok (Some r').

(** Acknowledgements are delivered at least once and recorded once: after
    one was recorded, repeating it succeeds with the recorded status and
    changes nothing, and a different result is refused as a conflict, also
    without change. *)
Theorem ack_repeat now now' id t d input n enc e w row cmd input' n' enc' e' :
  jsonb_eq_reflexive -> result_readable ->
  faults w = [] -> ack_accepted id t d input n enc -> jsonb_cast enc = Ok e ->
  commands (committed w) !! id = Some row -> scanCommandRow id row = Ok cmd ->
  cr_tenant_id row = t -> cr_device_id row = d ->
  (exists s, cr_status row = status_string s /\ terminal s = false) ->
  ack_accepted id t d input' n' enc' -> jsonb_cast enc' = Ok e' ->
  let w1 := (AckCommandResultContext now id t d input w).2 in
  (e' = e -> exists c, AckCommandResultContext now' id t d input' w1 = (Ok c, w1) /\ cmd_Status c = res_Status n)
  /\ (jsonb_eq e e' = false ->
      AckCommandResultContext now' id t d input' w1 = (Err [ErrAcknowledgementConflict], w1)).
Proof.
  intros Hrefl Hread Hw Hacc Hcast Hrow Hscan Ht Hd (s & Hs & Hlive) Hacc' Hcast'.
  assert (Hst : res_Status n = CommandStatusAcked \/ res_Status n = CommandStatusFailed)
    by (destruct Hacc as (_ & _ & ?%normalize_status & _); done).
  assert (Hadv : AdvanceCommandStatus (cr_status row) (res_Status n) = Ok (res_Status n))
    by (destruct Hst as [->| ->]; rewrite Hs; by destruct s).
  rewrite (ack_no_fault _ _ _ _ _ _ _ _ Hw Hacc).
  erewrite ack_tx_live; [|done..|by rewrite Hs; destruct s|done|done].
  destruct (Hread n enc e) as (Hlen & r' & Hr'); [by destruct Hacc as (_ & _ & _ & ?)|done|].
  set (row1 := with_result e (with_status (res_Status n) (pg_time now) row)).
  assert (Hscan1 : exists c, scanCommandRow id row1 = Ok c /\ cmd_Status c = res_Status n /\ cmd_Result c = Some r').
  { unfold scanCommandRow. simpl. destruct (Z.eqb_spec (len e) 0); [done|]. rewrite Hr'. eauto. }
  destruct Hscan1 as (c & Hc & Hcs & Hcr). cbn [snd].
  set (db1 := add_events _ _).
  assert (Hm : meaning (ack_command_tx now' id t d n' enc') db1
      = ((if jsonb_eq e e' then Ok c else Err [ErrAcknowledgementConflict]), db1)).
  { rewrite (ack_tx_terminal _ _ _ _ _ _ _ row1 c); simpl; try done; [|by rewrite lookup_insert_eq|by destruct Hst as [->| ->]].
    rewrite Hcr. unfold sql_result_equals, query. rewrite Hcast'. cbn. rewrite lookup_insert_eq. simpl. by destruct (jsonb_eq e e'). }
  rewrite (ack_no_fault _ _ _ _ _ n' enc') by done. cbn [committed]. rewrite Hm. split.
  - intros ->. exists c. by rewrite Hrefl.
  - intros Hne. by rewrite Hne.
Qed.
End ack.

#[local] Existing Instance sample_unicode.
#[local] Existing Instance sample_pg.

Lemma sample_readable : result_readable.
Proof.
  intros r enc e _. simpl. destruct (json_valid enc) eqn:Hv; [|done]. intros [= <-]. split; [by destruct enc|].
  unfold json_valid in Hv. destruct (json_parse enc); [|done]. eauto.
Qed.

Lemma sample_eq_reflexive : jsonb_eq_reflexive.
Proof. intros a. apply String.eqb_refl. Qed.

Definition sample_acked : CommandResult := MkCommandResult CommandStatusAcked "" "".
Definition sample_normal : CommandResult := MkCommandResult CommandStatusAcked "" "{}".
Definition sample_encoded (r : CommandResult) : string := match marshal_result r with Ok e => e | Err _ => "" end.

Lemma sample_ack_accepted : ack_accepted "c1" "acme" "d1" sample_acked sample_normal (sample_encoded sample_normal).
Proof. split_and!; vm_compute; reflexivity. Qed.

Lemma ack_foreign_not_found_witness :
  let w := MkWorld (sample_db CommandStatusSent 1 None) [] in
  AckCommandResultContext 7 "c1" "acme" "d2" sample_acked w = (Err [ErrNotFound], w).
Proof.
  apply (ack_foreign_not_found 7 "c1" "acme" "d2" sample_acked sample_normal (sample_encoded sample_normal)).
  - reflexivity.
  - split_and!; vm_compute; reflexivity.
  - intros row [= <-]. split; [right; discriminate|reflexivity].
Defined.

Lemma ack_live_command_witness :
  let row := sample_row CommandStatusSent 1 None in
  exists w', AckCommandResultContext 7 "c1" "acme" "d1" sample_acked (MkWorld (sample_db CommandStatusSent 1 None) [])
      = (Ok (acknowledged (MkCommand "c1" "acme" "d1" CommandStatusSent "{}" 50 60 1 zero_time None) CommandStatusAcked 7 sample_normal), w')
    /\ commands (committed w') !! "c1"
       = Some (with_result (sample_encoded sample_normal) (with_status CommandStatusAcked 7 row)).
Proof.
  destruct (ack_live_command 7 "c1" "acme" "d1" sample_acked sample_normal (sample_encoded sample_normal)
    (sample_encoded sample_normal) (MkWorld (sample_db CommandStatusSent 1 None) []) (sample_row CommandStatusSent 1 None)
    (MkCommand "c1" "acme" "d1" CommandStatusSent "{}" 50 60 1 zero_time None)) as (w' & H1 & H2 & _);
    [reflexivity|apply sample_ack_accepted|vm_compute; reflexivity|reflexivity|reflexivity|reflexivity|reflexivity
    |exists Sent; split; reflexivity|].
  exists w'. split; [exact H1|exact H2].
Defined.

Lemma ack_repeat_witness :
  let w := MkWorld (sample_db CommandStatusSent 1 None) [] in
  let w1 := (AckCommandResultContext 7 "c1" "acme" "d1" sample_acked w).2 in
  exists c, AckCommandResultContext 9 "c1" "acme" "d1" sample_acked w1 = (Ok c, w1) /\ cmd_Status c = CommandStatusAcked.
Proof.
  refine (proj1 (ack_repeat 7 9 "c1" "acme" "d1" sample_acked sample_normal (sample_encoded sample_normal)
    (sample_encoded sample_normal) (MkWorld (sample_db CommandStatusSent 1 None) []) (sample_row CommandStatusSent 1 None)
    (MkCommand "c1" "acme" "d1" CommandStatusSent "{}" 50 60 1 zero_time None)
    sample_acked sample_normal (sample_encoded sample_normal) (sample_encoded sample_normal) _ _ _ _ _ _ _ _ _ _ _ _) eq_refl);
    try reflexivity; auto using sample_readable, sample_eq_reflexive, sample_ack_accepted;
    try (vm_compute; reflexivity).
  exists Sent. split; reflexivity.
Defined.
