(* ===== verification/DispatchProperties.v ===== *)
(** * Request keys, claims, fencing and progress of commands *)
From stdpp Require Import prelude strings gmap sorting.
From Stdlib Require Import ZArith Lia.
From S2P Require Import Prelude GoStrings Contracts CommandState GoJson Payload Domain Postgres PostgresStore PostgresCommands Lifecycle PostgresRefine StoreProperties CommandProperties.

Local Open Scope Z_scope.

(** Evaluates the next statement of a transaction. *)
Ltac txs := cbn [tx_meaning mbind result_bind option_bind negb cmd_Payload cmd_TenantID cmd_ID].

Section keys.
Context `{Unicode} `{PgEnv}.

(** The checks a keyed request passes before its row is inserted, and the
    payload as the database stores it. *)
Definition create_accepted (t d key payload norm stored : string) (db : DB) : Prop :=
  ValidateCommandInput t d payload = Ok tt /\ ValidateIdempotencyKey key = Ok tt /\ key <> ""
  /\ is_Some (devices db !! (t, d))
  /\ jsonb_cast (if len payload =? 0 then "{}" else payload) = Ok norm
  /\ ValidateCommandInput t d norm = Ok tt /\ jsonb_cast norm = Ok stored.

Lemma nullif_nonempty key : key <> "" -> nullif_empty key = Some key.
Proof. intros Hne. unfold nullif_empty. by destruct (String.eqb_spec key ""). Qed.

Lemma find_key_unique t key db id row :
  keys_unique db -> commands db !! id = Some row -> has_key t key (id, row) -> find_key t key db = Some (id, row).
Proof.
  intros Hk Hrow [Ht Hkey]. destruct (find_key t key db) as [[id' row']|] eqn:E.
  - apply find_key_some in E as [Hrow' [Ht' Hkey']]. simpl in *.
    assert (id' = id) as -> by (eapply Hk; [exact Hrow'|exact Hrow|congruence|done|done]). congruence.
  - by destruct (find_key_none _ _ _ E _ _ Hrow).
Qed.

(** C31: a request key names one command: when the tenant already has a command
    under the key, a request for the same device with an equal payload returns
    that command, whatever identifier was drawn for the retry, and any other
    request is refused as a conflict; neither changes the database. *)
Theorem create_command_key_reuse now newid t d key payload norm stored w id row cmd :
  faults w = [] -> create_accepted t d key payload norm stored (committed w) -> keys_unique (committed w) ->
  commands (committed w) !! id = Some row -> has_key t key (id, row) -> scanCommandRow id row = Ok cmd ->
  CreateCommandWithKey now (Ok newid) t d key payload w
  = ((if String.eqb (cr_device_id row) d && jsonb_eq (cr_payload row) stored
      then Ok cmd else Err [ErrIdempotencyConflict]), w).
Proof.
  intros Hw (H1 & H2 & Hne & [drow Hdev] & H4 & H5 & H6) Hk Hrow Hkey Hscan.
  pose proof (find_key_unique _ _ _ _ _ Hk Hrow Hkey) as Hf.
  unfold CreateCommandWithKey, mbind, op_bind, check. rewrite H1, H2, begin_tx_no_fault by done.
  unfold meaning, create_command_tx, requireDevice, sql_device_exists, sql_jsonb, query. txs.
  rewrite bool_decide_true by (by rewrite Hdev). txs. rewrite H4. txs. rewrite H5.
  unfold sql_insert_command. txs. rewrite H6. txs. rewrite (nullif_nonempty key) by done. txs. rewrite Hf. txs.
  unfold sql_find_command, query. rewrite H6. txs. rewrite Hf. txs.
  destruct (_ && _); txs; rewrite ?Hscan; txs; by rewrite world_eta.
Qed.
End keys.

#[local] Existing Instance sample_unicode.
#[local] Existing Instance sample_pg.

Lemma create_command_key_reuse_witness :
  let w := MkWorld (sample_db CommandStatusSent 1 None) [] in
  CreateCommandWithKey 9 (Ok "c2") "acme" "d1" "k1" "{}" w
  = (Ok (MkCommand "c1" "acme" "d1" CommandStatusSent "{}" 50 60 1 zero_time None), w).
Proof.
  refine (create_command_key_reuse 9 "c2" "acme" "d1" "k1" "{}" "{}" "{}" (MkWorld (sample_db CommandStatusSent 1 None) [])
    "c1" (sample_row CommandStatusSent 1 None) (MkCommand "c1" "acme" "d1" CommandStatusSent "{}" 50 60 1 zero_time None)
    _ _ _ _ _ _); try reflexivity.
  - split_and!; try (vm_compute; reflexivity); [discriminate|by exists (MkDeviceRow "p" "bcrypt:s" 1 1)].
  - intros i j ri rj k. simpl. rewrite !lookup_singleton_Some. naive_solver.
  - split; reflexivity.
Defined.

Section dispatch.
Context `{PgEnv}.

(** ** Claims *)

(** The collation orders text totally. *)
Definition collation_order : Prop :=
  (forall a b, text_leb a b = true \/ text_leb b a = true)
  /\ (forall a b c, text_leb a b = true -> text_leb b c = true -> text_leb a c = true).

Lemma row_le_total : collation_order -> Total row_le.
Proof.
  intros [Ht _] [i r] [j r']. unfold row_le. simpl.
  destruct (Z.lt_trichotomy (cr_created_at r) (cr_created_at r')) as [|[|]]; auto.
  destruct (Ht i j); auto 6.
Qed.

Lemma row_le_trans : collation_order -> Transitive row_le.
Proof.
  intros [_ Ht] [i r] [j r'] [k r'']. unfold row_le. simpl.
  intros [?|[? ?]] [?|[? ?]]; [left; lia..|]. right. split; [lia|eauto].
Qed.

(** The rows a batch leaves behind come after all it took. *)
Lemma select_batch_oldest locked pred n db id row :
  collation_order -> commands db !! id = Some row -> pred row = true -> id ∉ locked ->
  id ∉ (select_batch locked pred n db).*1 ->
  (forall kr, kr ∈ select_batch locked pred n db -> row_le kr (id, row)) /\ length (select_batch locked pred n db) = n.
Proof.
  intros Hord Hrow Hp Hl Hout. pose proof (row_le_total Hord). pose proof (row_le_trans Hord).
  unfold select_batch in *. set (l := merge_sort _ _) in *.
  assert (Hs : StronglySorted row_le l) by (apply StronglySorted_merge_sort; apply _).
  assert (Hin' : (id, row) ∈ l).
  { unfold l. rewrite merge_sort_Permutation. apply list_elem_of_filter. split; [done|]. by apply elem_of_map_to_list. }
  rewrite <- (take_drop n l) in Hin', Hs. apply elem_of_app in Hin' as [Hin'|Hin'].
  { destruct Hout. apply list_elem_of_fmap. by exists (id, row). }
  split.
  - intros kr Hin. apply StronglySorted_app in Hs as (Hs & _ & _). by apply Hs.
  - rewrite length_take. assert (drop n l <> []) by (intros E; rewrite E in Hin'; by apply elem_of_nil in Hin').
    destruct (decide (n <= length l)%nat); [lia|]. rewrite drop_ge in * by lia. done.
Qed.

Lemma claimable_parts dbnow row :
  claimable dbnow row = true ->
  cr_status row = CommandStatusCreated /\ cr_next_dispatch_at row <= dbnow /\ cr_dispatch_attempts row < maxDispatchAttempts.
Proof. unfold claimable, status_is. rewrite !andb_true_iff, String.eqb_eq, Z.leb_le, Z.ltb_lt. tauto. Qed.

(** C15: a claim takes at most the requested number of due, unlocked, created
    commands, oldest first; each claimed command is handed out as stored, with
    one more attempt and a lease that now excludes every other claim, and a due
    command is only passed over when the batch is full of older ones. *)
Theorem claim_commands_spec locked dbnow limit lease l db rows db' :
  collation_order -> pg_interval lease = Ok l -> 0 < l ->
  sql_claim locked dbnow limit lease db = Ok (rows, db') ->
  (length rows <= Z.to_nat limit)%nat
  /\ (forall id row', (id, row') ∈ rows -> exists row,
        commands db !! id = Some row /\ cr_status row = CommandStatusCreated /\ cr_next_dispatch_at row <= dbnow
        /\ cr_dispatch_attempts row < maxDispatchAttempts /\ id ∉ locked
        /\ commands db' !! id = Some row' /\ cr_dispatch_attempts row' = cr_dispatch_attempts row + 1
        /\ claimable dbnow row' = false /\ holds_claim dbnow (cr_dispatch_attempts row') row' = true)
  /\ (forall id row, commands db !! id = Some row -> claimable dbnow row = true -> id ∉ locked -> id ∉ rows.*1 ->
        length rows = Z.to_nat limit
        /\ forall id' row', (id', row') ∈ rows -> cr_created_at row' <= cr_created_at row).
Proof.
  intros Hord Hl Hpos. unfold sql_claim. rewrite Hl. intros [= <- <-].
  set (batch := select_batch locked (claimable dbnow) (Z.to_nat limit) db).
  split_and!.
  - rewrite length_map. apply select_batch_length.
  - intros id row' ([id0 row] & [= -> ->] & Hin)%list_elem_of_fmap. simpl.
    pose proof (select_batch_elem _ _ _ _ _ Hin) as (Hrow & Hp & Hlk). simpl in *.
    pose proof (claimable_parts _ _ Hp) as (Hs & Hdue & Hcap).
    exists row. split_and!; try done.
    + rewrite lookup_update_rows, Hrow. simpl. rewrite bool_decide_true; [done|].
      apply list_elem_of_fmap. by exists (id0, row).
    + unfold claimable, claim_row. simpl. destruct (Z.leb_spec (dbnow + l) dbnow); [lia|]. by rewrite andb_false_r.
    + unfold holds_claim, claim_row, status_is. simpl. rewrite Hs, Z.eqb_refl. simpl. apply Z.ltb_lt. lia.
  - intros id row Hrow Hp Hlk Hout. rewrite length_map.
    assert (Hout' : id ∉ batch.*1).
    { intros ([i r] & -> & Hin)%list_elem_of_fmap. apply Hout. apply list_elem_of_fmap.
      exists (i, claim_row dbnow l r). split; [done|]. apply list_elem_of_fmap. by exists (i, r). }
    destruct (select_batch_oldest locked (claimable dbnow) (Z.to_nat limit) db id row) as [Hold Hlen]; [done..|].
    split; [done|]. intros id' row' ([i r] & [= -> ->] & Hin)%list_elem_of_fmap. simpl.
    destruct (Hold _ Hin) as [|[? _]]; simpl in *; lia.
Qed.

(** ** Fencing *)
Lemma update_no_rows f m : update_rows [] f m = m.
Proof.
  apply map_eq. intros i. rewrite lookup_update_rows. by destruct (m !! i).
Qed.

Lemma set_same_commands db : set_commands (commands db) db = db.
Proof. by destruct db. Qed.

Lemma exec_unchanged {A} (s : Stmt A) w :
  (forall a db', s (committed w) = Ok (a, db') -> db' = committed w) -> committed (db_exec s w).2 = committed w.
Proof.
  intros Hs. destruct (db_exec s w) as [r w'] eqn:E. apply db_exec_atomic in E. unfold stmt_meaning in E.
  destruct (s (committed w)) as [[a db']|e] eqn:Es; simpl in *.
  - rewrite (Hs _ _ eq_refl) in E. destruct E as [[_ ->]|[_ [->| ->]]]; done.
  - destruct E as [[_ ->]|[_ [->| ->]]]; done.
Qed.

Lemma where_id_empty dbnow attempt id db row :
  commands db !! id = Some row -> cr_dispatch_attempts row <> attempt ->
  where_id id (holds_claim dbnow attempt) db = [].
Proof.
  intros Hrow Hne. unfold where_id, holds_claim. rewrite Hrow.
  destruct (Z.eqb_spec (cr_dispatch_attempts row) attempt); [done|]. by rewrite andb_false_r.
Qed.
End dispatch.

Section fencing.
Context `{Unicode} `{PgEnv}.

(** C9: an owner whose claim was superseded is fenced off for good: once a
    command was claimed again, whatever else happened since and whichever
    round trips failed, the earlier owner's attempts to mark it published or to
    reschedule it leave the database unchanged. *)
Theorem stale_claim_fenced cs w id row attempt dbnow retryAfter :
  commands (committed w) !! id = Some row -> attempt < cr_dispatch_attempts row ->
  let w1 := store_calls cs w in
  committed (MarkCommandPublishedContext dbnow id attempt w1).2 = committed w1
  /\ committed (RescheduleCommandContext dbnow id attempt retryAfter w1).2 = committed w1.
Proof.
  intros Hrow Hlt w1.
  destruct (lifecycle_steps_attempts _ (committed w1) id row (store_calls_lifecycle cs w) Hrow) as (row' & Hrow' & Hle).
  assert (Hw : where_id id (holds_claim dbnow attempt) (committed w1) = []) by (eapply where_id_empty; [done|lia]).
  split; apply exec_unchanged.
  - intros n db'. unfold updateCommandsWithEvent. rewrite Hw. intros [= _ <-]. simpl.
    by rewrite update_no_rows, set_same_commands, add_no_events.
  - intros n db' (d & _ & Hs)%result_bind_ok. rewrite Hw in Hs. injection Hs as _ <-.
    by rewrite update_no_rows, set_same_commands.
Qed.
End fencing.

(** ** Progress *)


Lemma sample_collation : collation_order.
Proof. split; intros *; simpl; rewrite !Nat.leb_le; lia. Qed.

Lemma claim_commands_spec_witness :
  let row' := count_attempt (reschedule_at 1030 1000 (sample_row CommandStatusCreated 1 None)) in
  sql_claim ∅ 1000 1 30 (sample_db CommandStatusCreated 1 None)
    = Ok ([("c1", row')], set_commands {["c1" := row']} (sample_db CommandStatusCreated 1 None))
  /\ holds_claim 1000 2 row' = true.
Proof.
  pose (row' := count_attempt (reschedule_at 1030 1000 (sample_row CommandStatusCreated 1 None))).
  assert (Hc : sql_claim ∅ 1000 1 30 (sample_db CommandStatusCreated 1 None)
    = Ok ([("c1", row')], set_commands {["c1" := row']} (sample_db CommandStatusCreated 1 None)))
    by (vm_compute; reflexivity).
  split; [exact Hc|].
  destruct (claim_commands_spec ∅ 1000 1 30 30 (sample_db CommandStatusCreated 1 None) [("c1", row')]
    (set_commands {["c1" := row']} (sample_db CommandStatusCreated 1 None)) sample_collation eq_refl) as (_ & H1 & _);
    [lia|exact Hc|].
  destruct (H1 "c1" row') as (row & _ & _ & _ & _ & _ & _ & _ & _ & Hh); [left|exact Hh].
Defined.

Lemma stale_claim_fenced_witness :
  let w := MkWorld (sample_db CommandStatusCreated 2 None) [] in
  committed (MarkCommandPublishedContext 80 "c1" 1 w).2 = committed w
  /\ committed (RescheduleCommandContext 80 "c1" 1 5 w).2 = committed w.
Proof.
  apply (stale_claim_fenced [] (MkWorld (sample_db CommandStatusCreated 2 None) []) "c1"
           (sample_row CommandStatusCreated 2 None)); [reflexivity|simpl; lia].
Defined.

