(* ===== verification/TelemetryProperties.v ===== *)
(** * What the store guarantees about telemetry, device status and device credentials *)
From stdpp Require Import prelude strings gmap sorting.
From Stdlib Require Import ZArith Lia.
From S2P Require Import Prelude GoStrings Contracts CommandState GoJson Payload Domain Postgres PostgresStore PostgresCommands Lifecycle PostgresRefine StoreProperties.

Local Open Scope Z_scope.

Section telemetry.
Context `{Unicode} `{PgEnv}.

(** Over any sequence of calls and failures, a stored telemetry record
    keeps its content and its identifier, a record marked as written to
    TDengine stays marked, and the time a device was last seen never moves
    back. *)
Theorem telemetry_monotone cs w : telemetry_le (committed w) (committed (store_calls cs w)).
Proof. apply lifecycle_steps_telemetry, store_calls_lifecycle. Qed.

(** ** Recording *)
Definition recorded_ok (rec : TelemetryRecord) (db : DB) (r : result Recorded) (db' : DB) : Prop :=
  match r with
  | Ok (Duplicate stored) =>
    db' = db /\ exists row, telemetry_records db !! tel_key rec = Some row /\ stored = record_of_row (tel_key rec) row
  | Ok (Fresh rec') =>
    rec' = rec /\ telemetry_records db !! tel_key rec = None
    /\ is_Some (devices db !! (rec_TenantID rec, rec_DeviceID rec))
    /\ exists row st,
         telemetry_records db' = <[tel_key rec := row]> (telemetry_records db)
         /\ tr_ts row = rec_Ts rec /\ tr_tdengine_written row = false /\ tr_received_at row = pg_time (rec_ReceivedAt rec)
         /\ device_state db' !! (rec_TenantID rec, rec_DeviceID rec) = Some st
         /\ (exists seen, sr_last_seen_at st = Some seen /\ pg_time (rec_ReceivedAt rec) <= seen)
         /\ tr_type row = rec_Type rec /\ tr_version row = rec_Version rec
  | Err _ => db' = db
  end.

Lemma mark_seen_spec rec now db :
  exists st, forall r db', sql_mark_seen rec now db = Ok (r, db') ->
    telemetry_records db' = telemetry_records db
    /\ device_state db' !! (rec_TenantID rec, rec_DeviceID rec) = Some st
    /\ exists seen, sr_last_seen_at st = Some seen /\ pg_time (rec_ReceivedAt rec) <= seen.
Proof.
  unfold sql_mark_seen. destruct (device_state db !! _) as [row|] eqn:Hrow.
  - destruct (sr_last_seen_at row) as [t|] eqn:Ht; [destruct (Z.ltb_spec t (pg_time (rec_ReceivedAt rec)))|].
    + eexists. intros r db' [= <- <-]. simpl. rewrite lookup_insert_eq. split_and!; [done..|]. eexists. split; [done|lia].
    + exists row. intros r db' [= <- <-]. split_and!; [done..|]. exists t. done.
    + eexists. intros r db' [= <- <-]. simpl. rewrite lookup_insert_eq. split_and!; [done..|]. eexists. split; [done|lia].
  - eexists. intros r db' [= <- <-]. simpl. rewrite lookup_insert_eq. split_and!; [done..|]. eexists. split; [done|lia].
Qed.

Lemma restore_meaning now rec db r db' :
  meaning (restore_telemetry_tx now rec) db = (r, db') -> recorded_ok rec db r db'.
Proof.
  unfold meaning, restore_telemetry_tx, requireDevice. cbn [tx_meaning]. unfold sql_device_exists, query. cbn [mbind result_bind].
  case_bool_decide as Hdev; cbn [negb tx_meaning]; [|by intros [= <- <-]].
  unfold sql_jsonb, query. destruct (jsonb_cast (rec_Payload rec)) as [norm|]; cbn [mbind result_bind]; [|by intros [= <- <-]].
  destruct (ValidateTelemetryPayload norm); [|by intros [= <- <-]].
  destruct (marshal_raw (rec_Payload rec)) as [payload|]; [|by intros [= <- <-]]. cbn [tx_meaning].
  unfold sql_insert_telemetry. destruct (jsonb_cast payload) as [stored|]; cbn [mbind result_bind]; [|by intros [= <- <-]].
  destruct (telemetry_records db !! tel_key rec) as [row|] eqn:Hrow; cbn -[sql_mark_seen].
  - rewrite Hrow. intros [= <- <-]. simpl. eauto.
  - destruct (sql_mark_seen rec now _) as [[x db2]|] eqn:Hs; intros [= <- <-]; [|done].
    destruct (mark_seen_spec rec now (MkDB (tenants db) (devices db) (device_state db)
      (<[tel_key rec := MkTelemetryRow (telemetry_seq db + 1) (rec_Ts rec) (rec_Type rec) (rec_Version rec) stored false
          (pg_time (rec_ReceivedAt rec))]> (telemetry_records db))
      (telemetry_seq db + 1) (commands db) (command_ack db) (command_events db))) as (st & Hst).
    destruct (Hst _ _ Hs) as (Ht & Hd & Hseen). simpl. split_and!; try done.
    do 2 eexists. split_and!; done.
Qed.

Lemma restore_telemetry_outcome now rec w r w' :
  RestoreTelemetryContext now rec w = (r, w') ->
  match r with
  | Ok _ => recorded_ok (clear_written rec) (committed w) r (committed w')
  | Err _ => committed w' = committed w
             \/ exists rec', recorded_ok (clear_written rec) (committed w) (Ok (Fresh rec')) (committed w')
  end.
Proof.
  unfold RestoreTelemetryContext, mbind, op_bind, check.
  destruct (ValidateTelemetryPayload (rec_Payload rec)); [|intros [= <- <-]; by left].
  destruct (IsZero (rec_ReceivedAt rec)); [intros [= <- <-]; by left|].
  intros Ho%begin_tx_atomic.
  destruct (meaning (restore_telemetry_tx now (clear_written rec)) (committed w)) as [r0 db'] eqn:Hm.
  apply restore_meaning in Hm. destruct Ho as [[-> ->]|[(e & ->) [->| ->]]]; simpl in *; [|by left|].
  - destruct r0 as [r0|e0]; [done|by left].
  - destruct r0 as [[rec'|st]|e0]; simpl in Hm; [right; by exists rec'|left; by destruct Hm|by left].
Qed.

(** Telemetry is recorded once per message identity: under every fault
    schedule, a call that reports a duplicate changed nothing, in particular
    not the device's liveness, and hands back the stored record; a call that
    reports a fresh record found the identity unused and a known device, and
    stored the record unwritten with its original receive time; and a call that
    fails either changed nothing or, when the reply to its commit was lost,
    stored the record, so that its repetition reports a duplicate. *)
Theorem record_telemetry_once now rec w r w' :
  RestoreTelemetryContext now rec w = (r, w') ->
  match r with
  | Ok _ => recorded_ok (clear_written rec) (committed w) r (committed w')
  | Err _ => committed w' = committed w
             \/ exists rec', recorded_ok (clear_written rec) (committed w) (Ok (Fresh rec')) (committed w')
  end.
Proof. apply restore_telemetry_outcome. Qed.

(** ** The compensation scan *)
Lemma id_le_total : Total id_le.
Proof. intros a b. unfold id_le. lia. Qed.
Lemma id_le_trans : Transitive id_le.
Proof. intros a b c. unfold id_le. lia. Qed.

Lemma sorted_last_max (l : list ((string * string * string) * TelemetryRow)) x y :
  StronglySorted id_le l -> x ∈ l -> last l = Some y -> tr_id x.2 <= tr_id y.2.
Proof.
  intros Hs Hx (l' & ->)%last_Some. apply elem_of_app in Hx as [Hx| ->%list_elem_of_singleton]; [|lia].
  apply StronglySorted_app in Hs as (Hs & _ & _). apply (Hs x y Hx). by left.
Qed.

(** The compensation scan skips nothing: the page it returns holds only
    unwritten records old enough and beyond the cursor, in increasing order,
    and every such record of the requested tenants is in the page or lies
    beyond the cursor the page returns. *)
Theorem list_unwritten_complete olderThan afterID tenantIDs limit w out cursor w' :
  0 < limit -> ids_ok (committed w) ->
  ListUnwrittenTelemetry olderThan afterID tenantIDs limit w = (Ok (out, cursor), w') ->
  afterID <= cursor /\ (length out <= Z.to_nat limit)%nat
  /\ forall k row, telemetry_records (committed w) !! k = Some row -> unwritten olderThan afterID tenantIDs (k, row) ->
       clear_written (record_of_row k row) ∈ out \/ cursor < tr_id row.
Proof.
  intros Hlim [_ Hinj]. unfold ListUnwrittenTelemetry. destruct (Z.ltb_spec limit 1); [lia|].
  unfold mbind, op_bind. destruct (db_exec _ w) as [[rows|e] w1] eqn:E; [|done]. intros [= <- <- <-].
  unfold db_exec in E. destruct (next_fault w) as [f wf] eqn:Hf. apply next_fault_committed in Hf. rewrite Hf in E.
  unfold sql_list_unwritten, query in E. cbn [mbind result_bind] in E.
  assert (Hrows : rows = take (Z.to_nat limit) (merge_sort id_le
    (filter (unwritten olderThan afterID tenantIDs) (map_to_list (telemetry_records (committed w))))))
    by (destruct f; by simplify_eq).
  clear E. set (l := merge_sort _ _) in Hrows.
  pose proof id_le_total. pose proof id_le_trans.
  assert (Hs : StronglySorted id_le l) by (apply StronglySorted_merge_sort; apply _).
  assert (Hin : forall kr, kr ∈ l <-> unwritten olderThan afterID tenantIDs kr /\ telemetry_records (committed w) !! kr.1 = Some kr.2).
  { intros kr. unfold l. rewrite merge_sort_Permutation, list_elem_of_filter, elem_of_map_to_list'. done. }
  assert (Hafter : forall kr, kr ∈ rows -> afterID < tr_id kr.2).
  { intros kr Hk. rewrite Hrows in Hk. eapply elem_of_sublist in Hk; [|apply sublist_take].
    apply Hin in Hk as [(_ & _ & ? & _) _]. done. }
  split_and!.
  - destruct (last rows) as [kr|] eqn:Hl; [|lia]. apply last_Some_elem_of in Hl. apply Hafter in Hl. lia.
  - rewrite length_map, Hrows, length_take. lia.
  - intros k row Hrow Hun.
    assert (Hkr : (k, row) ∈ l) by (by apply Hin).
    assert (Hout : (k, row) ∈ rows -> clear_written (record_of_row k row) ∈ map (fun kr => clear_written (record_of_row kr.1 kr.2)) rows).
    { intros Hk. apply list_elem_of_fmap. by exists (k, row). }
    rewrite <- (take_drop (Z.to_nat limit) l), <- Hrows in Hkr, Hs. apply elem_of_app in Hkr as [Hkr|Hkr]; [by auto|].
    destruct (last rows) as [[k1 row1]|] eqn:Hl; [|right; destruct Hun as (_ & _ & ? & _); done].
    apply last_Some_elem_of in Hl. apply StronglySorted_app in Hs as (Hs & _ & _).
    pose proof (Hs _ _ Hl Hkr) as Hle. unfold id_le in Hle. simpl in *.
    destruct (decide (tr_id row1 = tr_id row)) as [Heq|]; [|right; lia]. left. apply Hout.
    assert (Hk1 : telemetry_records (committed w) !! k1 = Some row1).
    { rewrite Hrows in Hl. eapply elem_of_sublist in Hl; [|apply sublist_take]. by apply Hin in Hl as [_ ?]. }
    assert (k1 = k) as -> by (by eapply Hinj). congruence.
Qed.

(** ** Credentials *)

(** Authentication fails closed: it succeeds only when the database
    answered, the device exists, and the secret is non-empty and matches the
    stored hash; and it never changes the database. *)
Theorem authenticate_fails_closed tenantID deviceID secret w ok w' :
  AuthenticateDeviceContext tenantID deviceID secret w = (ok, w') ->
  committed w' = committed w
  /\ (ok = true -> secret <> "" /\ exists row, devices (committed w) !! (tenantID, deviceID) = Some row
                     /\ dr_secret_hash row <> "" /\ bcrypt_matches (dr_secret_hash row) secret = true).
Proof.
  unfold AuthenticateDeviceContext, db_exec. destruct (next_fault w) as [f wf] eqn:Hf.
  apply next_fault_committed in Hf. rewrite Hf. unfold sql_get_device, query. cbn [mbind result_bind].
  destruct f; intros [= <- <-]; simpl; split; try done.
  destruct (devices (committed w) !! (tenantID, deviceID)) as [row|]; [|done].
  unfold VerifyDeviceSecret. intros [[Hh Hs]%andb_true_iff Hm]%andb_true_iff.
  apply negb_true_iff, String.eqb_neq in Hh, Hs. eauto.
Qed.

(** A device is reported online only if it is connected and, where a
    heartbeat limit is set, was seen within it; the report follows the stored
    state otherwise. *)
Theorem device_status_spec ttl now tenantID deviceID w st w' :
  GetDeviceStatusContext ttl now tenantID deviceID w = (Ok st, w') ->
  exists row, device_state (committed w) !! (tenantID, deviceID) = Some row
    /\ sta_LastSeenAt st = default zero_time (sr_last_seen_at row)
    /\ (sta_Online st = true <->
         sr_connected row = true /\ (0 < ttl -> forall t, sr_last_seen_at row = Some t -> now - t <= ttl)).
Proof.
  unfold GetDeviceStatusContext, mbind, op_bind, db_exec. destruct (next_fault w) as [f wf] eqn:Hf.
  apply next_fault_committed in Hf. rewrite Hf. unfold sql_get_state, query. cbn [mbind result_bind].
  destruct f; try done. destruct (device_state (committed w) !! (tenantID, deviceID)) as [row|]; [|done].
  intros [= <- _]. exists row. split; [done|].
  destruct (sr_last_seen_at row) as [t|]; simpl; (split; [done|]).
  - destruct (Z.ltb_spec 0 ttl), (Z.ltb_spec ttl (now - t)); simpl; split;
      try (intros [? Hx]; try done; specialize (Hx ltac:(done) t eq_refl); lia); try (intros ?; split; [done|intros; simplify_eq; lia]); done.
  - naive_solver.
Qed.
End telemetry.

#[local] Existing Instance sample_unicode.
#[local] Existing Instance sample_pg.

Definition sample_record : TelemetryRecord :=
  MkTelemetryRecord "m1" "acme" "d1" 1700000000000 "temp" "v1" (jtext "{'c':21.5}") false 500.

(** The database after the record, and the world in which the reply to its
    commit is lost: begin, four statements, the device state, the commit. *)
Definition sample_recorded : World :=
  (RestoreTelemetryContext 600 sample_record (MkWorld (sample_db CommandStatusSent 1 None) [])).2.

Lemma record_telemetry_once_witness :
  exists rec', recorded_ok sample_record (sample_db CommandStatusSent 1 None) (Ok (Fresh rec')) (committed sample_recorded).
Proof.
  pose (w := MkWorld (sample_db CommandStatusSent 1 None)
    [NoFault; NoFault; NoFault; NoFault; NoFault; FailAfter [ContextDeadlineExceeded]]).
  destruct (RestoreTelemetryContext 600 sample_record w) as [r w'] eqn:E.
  pose proof (record_telemetry_once 600 sample_record w r w' E) as Hp.
  assert (Hr : r = Err [ContextDeadlineExceeded] /\ committed w' = committed sample_recorded)
    by (vm_compute in E; injection E as <- <-; split; vm_compute; reflexivity).
  destruct Hr as [-> Hw]. rewrite Hw in Hp. destruct Hp as [Hp|Hp]; [|exact Hp].
  exfalso. apply (f_equal telemetry_seq) in Hp. vm_compute in Hp. discriminate.
Defined.

Lemma list_unwritten_complete_witness :
  ListUnwrittenTelemetry 700 0 [] 10 sample_recorded
    = (Ok ([clear_written (record_of_row ("m1", "acme", "d1")
         (MkTelemetryRow 1 1700000000000 "temp" "v1" (jtext "{'c':21.5}") false 500))], 1), sample_recorded)
  /\ 0 <= 1.
Proof.
  assert (E : ListUnwrittenTelemetry 700 0 [] 10 sample_recorded
    = (Ok ([clear_written (record_of_row ("m1", "acme", "d1")
         (MkTelemetryRow 1 1700000000000 "temp" "v1" (jtext "{'c':21.5}") false 500))], 1), sample_recorded))
    by (vm_compute; reflexivity).
  split; [exact E|]. eapply (list_unwritten_complete 700 0 [] 10 sample_recorded); [lia| |exact E].
  apply (tl_ids (sample_db CommandStatusSent 1 None)).
  - apply lifecycle_steps_telemetry, (store_call_lifecycle (CallRestoreTelemetry 600 sample_record) (MkWorld (sample_db CommandStatusSent 1 None) [])).
  - split; intros k; simpl; intros *; by rewrite lookup_empty.
Defined.

Lemma authenticate_fails_closed_witness :
  "s" <> "" /\ exists row, devices (sample_db CommandStatusSent 1 None) !! ("acme", "d1") = Some row
    /\ dr_secret_hash row <> "" /\ bcrypt_matches (dr_secret_hash row) "s" = true.
Proof.
  apply (authenticate_fails_closed "acme" "d1" "s" (MkWorld (sample_db CommandStatusSent 1 None) []) true
    (MkWorld (sample_db CommandStatusSent 1 None) [])); reflexivity.
Defined.

Lemma device_status_spec_witness :
  exists row, device_state (sample_db CommandStatusSent 1 None) !! ("acme", "d1") = Some row
    /\ zero_time = default zero_time (sr_last_seen_at row)
    /\ (false = true <-> sr_connected row = true /\ (0 < 60 -> forall t, sr_last_seen_at row = Some t -> 100 - t <= 60)).
Proof.
  apply (device_status_spec 60 100 "acme" "d1" (MkWorld (sample_db CommandStatusSent 1 None) [])
    (MkDeviceStatus "acme" "d1" false zero_time) (MkWorld (sample_db CommandStatusSent 1 None) [])). reflexivity.
Defined.
