(* ===== verification/PageProperties.v ===== *)
(** * Pagination is exact

    On tables that do not change between the calls, a client that follows the
    cursors of a list method is given every row the query selects, once and in
    order. *)
From stdpp Require Import prelude strings gmap sorting.
From Stdlib Require Import ZArith Lia Ascii.
From S2P Require Import Prelude GoStrings Contracts CommandState GoJson Base64 Payload Domain TimeText Pagination Postgres PostgresStore PostgresCommands PostgresLists PostgresRefine StoreProperties DispatchProperties.

Local Open Scope Z_scope.

Section properties.
Context `{Unicode} `{PgEnv} `{CursorEnv}.

(** A deterministic collation: only equal texts compare equal; and the empty
    text is below all others. *)
Definition collation_deterministic : Prop :=
  collation_order /\ (forall a b, text_leb a b = true -> text_leb b a = true -> a = b)
  /\ (forall a, a <> "" -> text_leb a "" = false).

(** A timestamptz keeps microseconds. *)
Definition keeps_microseconds : Prop := forall t, t mod 1000 = 0 -> pg_time t = t.

Lemma directed_total {A} asc (le : relation A) : Total le -> Total (directed asc le).
Proof. intros Ht x y. destruct asc; unfold directed, flip; destruct (Ht x y); auto. Qed.

Lemma directed_trans {A} asc (le : relation A) : Transitive le -> Transitive (directed asc le).
Proof. intros Ht x y z. destruct asc; unfold directed, flip; eauto. Qed.

(** What the row comparison of a cursor selects is what comes after its row. *)
Lemma beyond_after asc k id k' id' :
  collation_deterministic ->
  beyond asc k id k' id' = true <->
  (if asc then k < k' \/ k = k' /\ text_leb id id' = true else k' < k \/ k' = k /\ text_leb id' id = true)
  /\ ~ (if asc then k' < k \/ k' = k /\ text_leb id' id = true else k < k' \/ k = k' /\ text_leb id id' = true).
Proof.
  intros [[Ht _] _]. unfold beyond, text_gt.
  destruct asc; (rewrite orb_true_iff, andb_true_iff, negb_true_iff, Z.ltb_lt, Z.eqb_eq; destruct (Ht id id');
    destruct (text_leb id id') eqn:?, (text_leb id' id) eqn:?; naive_solver lia).
Qed.

(** A client's view of a list method on the tables of [w]. *)
Definition listing {T} (method : PageRequest -> Op (list T * string)) (page : PageRequest) (w : World) (cursor : string) :
    result (list T * string) :=
  (method (with_cursor page cursor) w).1.

Lemma exec_query {A} (f : DB -> result A) w :
  faults w = [] -> db_exec (query f) w = (match f (committed w) with Ok a => Ok a | Err e => Err e end, w).
Proof.
  intros Hw. unfold db_exec, query. rewrite next_fault_none by done. destruct w as [db fs]. simpl in *. subst fs.
  by destruct (f db).
Qed.

Lemma list_filter_iff' {A} (P Q : A -> Prop) `{!forall x, Decision (P x)} `{!forall x, Decision (Q x)} (l : list A) :
  (forall x, x ∈ l -> P x <-> Q x) -> filter P l = filter Q l.
Proof.
  induction l as [|a l IH]; intros Hpq; [done|]. rewrite !filter_cons, IH by (intros; apply Hpq; by right).
  pose proof (Hpq a (list_elem_of_here _ _)). repeat case_decide; tauto.
Qed.

(** ** Commands *)
Definition commands_listable (db : DB) : Prop := forall id row, commands db !! id = Some row ->
  ValidateStorageField "cursor id" id 64 = Ok tt /\ cr_created_at row mod 1000 = 0
  /\ zero_time < cr_created_at row < 253402300800 * Second.

(** The commands a request asks for, in its order. *)
Definition matching_commands (p : PageRequest) (db : DB) : list (string * CommandRow) :=
  selected (directed (String.eqb (pg_Sort p) "asc") row_le) (map_to_list (commands db))
    (command_where (pg_TenantID p) (pg_DeviceID p) (pg_Status p) (listBoundTime (pg_StartTime p) (pg_HasStartTime p))
       (listBoundTime (pg_EndTime p) (pg_HasEndTime p))).

Lemma command_keys asc db y z :
  collation_deterministic -> y ∈ map_to_list (commands db) -> z ∈ map_to_list (commands db) ->
  directed asc row_le y z -> directed asc row_le z y -> y = z.
Proof.
  intros (_ & Ha & _). destruct y as [i r], z as [j r']. rewrite !elem_of_map_to_list. intros Hi Hj Hyz Hzy.
  assert (i = j) as ->; [|congruence].
  destruct asc; unfold directed, flip, row_le in *; simpl in *; apply Ha; naive_solver lia.
Qed.

Lemma scan_commands_map rows cmds : PostgresCommands.scanCommands rows = Ok cmds -> map scan_command rows = map Ok cmds.
Proof.
  revert cmds. induction rows as [|[id row] rows IH]; intros cmds; simpl; [by intros [= <-]|].
  intros (c & Hc & (out & Ho & [= <-])%result_bind_ok)%result_bind_ok. simpl. unfold scan_command at 1. simpl.
  by rewrite Hc, (IH _ Ho).
Qed.

Lemma commands_page_run page p c at_ id w :
  faults w = [] -> NormalizeListRequest (with_cursor page c) "commands" = Ok (with_cursor p c) ->
  decodePageCursor (with_cursor p c) "commands" = Ok (at_, id) ->
  let asc := String.eqb (pg_Sort p) "asc" in
  listing ListCommandsPageContext page w c =
  serve scan_command commandListBytes (pg_Size p) (fun l => encodePageCursor p "commands" (cmd_CreatedAt l) (cmd_ID l))
    (merge_sort (directed asc row_le)
      (filter (fun kr => command_where (pg_TenantID p) (pg_DeviceID p) (pg_Status p)
                           (listBoundTime (pg_StartTime p) (pg_HasStartTime p))
                           (listBoundTime (pg_EndTime p) (pg_HasEndTime p)) kr
                         /\ command_after asc (nullTime at_) id kr) (map_to_list (commands (committed w))))).
Proof.
  intros Hw Hn Hd asc. unfold listing, ListCommandsPageContext, mbind, op_bind, check. rewrite Hn, Hd. cbn [fst snd].
  unfold sql_commands_page. rewrite exec_query by done. reflexivity.
Qed.

(** C30: a client that follows the cursors of [ListCommandsPageContext] gets
    exactly the tenant's commands that match its filters, each once, in the
    order asked for, whatever the page size and however the byte budget cuts the
    pages; the cursors always lead on and the listing ends after at most one
    page per command. *)
Theorem commands_pages_exact `{!CursorLaws} page p w cmds :
  collation_deterministic -> keeps_microseconds -> faults w = [] ->
  NormalizeListRequest (with_cursor page "") "commands" = Ok p ->
  commands_listable (committed w) ->
  PostgresCommands.scanCommands (matching_commands p (committed w)) = Ok cmds ->
  Forall (fun c => commandListBytes c <= listContentBytes) cmds ->
  follow (listing ListCommandsPageContext page w) (S (length cmds)) "" = Ok cmds.
Proof.
  intros Hcol Hus Hw Hp Hl Hscan Hfit. pose proof (normalize_with_cursor page _ p "" Hp ltac:(done)) as [Hp0 Hsize].
  pose proof (directed_total (String.eqb (pg_Sort p) "asc") _ (row_le_total (proj1 Hcol))).
  pose proof (directed_trans (String.eqb (pg_Sort p) "asc") _ (row_le_trans (proj1 Hcol))).
  eapply (pages_exact (directed (String.eqb (pg_Sort p) "asc") row_le) (map_to_list (commands (committed w))) _
    scan_command commandListBytes (pg_Size p) _ (fun l => encodePageCursor p "commands" (cmd_CreatedAt l) (cmd_ID l)));
    [lia|apply NoDup_map_to_list|intros y z ?? _ _; by apply (command_keys _ (committed w))| | |by apply scan_commands_map, Hscan|done].
  - rewrite (commands_page_run page p "" zero_time "" w Hw Hp0) by done. unfold matching_commands, selected. f_equal.
    f_equal. apply list_filter_iff. intros kr. unfold command_after. simpl. tauto.
  - intros [id row] c Hin _ (res & _ & [= <-])%result_bind_ok. simpl.
    apply elem_of_map_to_list in Hin. destruct (Hl _ _ Hin) as (Hid & Hm & Hr).
    destruct (page_cursor_roundtrip p "commands" (cr_created_at row) id) as (Hd & Hne & Hlen); [done|unfold zero_time in *; lia|done|].
    split; [done|]. eexists _, _. split; [|apply commands_page_run; [done|by apply normalize_with_cursor|exact Hd]].
    intros [id' row'] _. apply and_iff_compat_l. unfold command_after, nullTime, IsZero.
    rewrite (proj2 (Z.eqb_neq _ _)) by lia. simpl. rewrite Hus, beyond_after by done. unfold after, directed, flip, row_le.
    simpl. destruct (String.eqb (pg_Sort p) "asc"); naive_solver lia.
Qed.

(** ** Telemetry *)
Definition telemetry_listable (db : DB) : Prop := forall k row, telemetry_records db !! k = Some row ->
  ValidateStorageField "cursor id" k.1.1 64 = Ok tt
  /\ -62167219200 * Second <= tr_ts row * Millisecond < 253402300800 * Second.

Definition millis (stamp : Z) (present : bool) : option Z := if present then Some (UnixMilli stamp) else None.

Definition matching_telemetry (p : PageRequest) (db : DB) : list ((string * string * string) * TelemetryRow) :=
  selected (directed (String.eqb (pg_Sort p) "asc") ts_le) (map_to_list (telemetry_records db))
    (telemetry_where (pg_TenantID p) (pg_DeviceID p) (millis (pg_StartTime p) (pg_HasStartTime p))
       (millis (pg_EndTime p) (pg_HasEndTime p)) (pg_Type p)).

Lemma ts_le_total : collation_order -> Total ts_le.
Proof.
  intros [Ht _] x y. unfold ts_le. destruct (Z.lt_trichotomy (tr_ts x.2) (tr_ts y.2)) as [|[|]]; auto.
  destruct (Ht x.1.1.1 y.1.1.1); auto 6.
Qed.

Lemma ts_le_trans : collation_order -> Transitive ts_le.
Proof.
  intros [_ Ht] x y z. unfold ts_le. intros [?|[? ?]] [?|[? ?]]; [left; lia..|]. right. split; [lia|eauto].
Qed.

(** Within one device a message has one row. *)
Lemma telemetry_keys asc db tenant device start end_ type y z :
  collation_deterministic -> y ∈ map_to_list (telemetry_records db) -> z ∈ map_to_list (telemetry_records db) ->
  telemetry_where tenant device start end_ type y -> telemetry_where tenant device start end_ type z ->
  directed asc ts_le y z -> directed asc ts_le z y -> y = z.
Proof.
  intros (_ & Ha & _). destruct y as [[[m t] d] r], z as [[[m' t'] d'] r']. unfold telemetry_where.
  rewrite !elem_of_map_to_list. simpl. intros Hy Hz (-> & -> & _) (-> & -> & _) Hyz Hzy.
  assert (m = m') as ->; [|congruence].
  destruct asc; unfold directed, flip, ts_le in *; simpl in *; apply Ha; naive_solver lia.
Qed.

Lemma telemetry_page_run page p c at_ id w :
  faults w = [] -> NormalizeListRequest (with_cursor page c) "telemetry" = Ok (with_cursor p c) ->
  decodePageCursor (with_cursor p c) "telemetry" = Ok (at_, id) ->
  let asc := String.eqb (pg_Sort p) "asc" in
  listing ListTelemetryPageContext page w c =
  serve (fun kr => Ok (telemetry_scan kr)) telemetryListBytes (pg_Size p)
    (fun l => encodePageCursor p "telemetry" (rec_Ts l * Millisecond) (rec_MsgID l))
    (merge_sort (directed asc ts_le)
      (filter (fun kr => telemetry_where (pg_TenantID p) (pg_DeviceID p) (millis (pg_StartTime p) (pg_HasStartTime p))
                           (millis (pg_EndTime p) (pg_HasEndTime p)) (pg_Type p) kr
                         /\ telemetry_after asc (if negb (String.eqb c "") then Some (UnixMilli at_) else None) id kr)
        (map_to_list (telemetry_records (committed w))))).
Proof.
  intros Hw Hn Hd asc. unfold listing, ListTelemetryPageContext, mbind, op_bind, check. rewrite Hn, Hd. cbn [fst snd].
  unfold sql_telemetry_page. rewrite exec_query by done. reflexivity.
Qed.

Lemma millis_exact ts : UnixMilli (ts * Millisecond) = ts /\ (ts * Millisecond) mod Millisecond = 0.
Proof. unfold UnixMilli, Millisecond. split; [by rewrite Z.div_mul|by rewrite Z.mod_mul]. Qed.

(** A client that follows the cursors of [ListTelemetryPageContext] gets
    exactly the device's records of the type and period it asks for, each once,
    in the order asked for, and the listing ends. *)
Theorem telemetry_pages_exact `{!CursorLaws} page p w :
  let recs := map telemetry_scan (matching_telemetry p (committed w)) in
  collation_deterministic -> faults w = [] ->
  NormalizeListRequest (with_cursor page "") "telemetry" = Ok p ->
  telemetry_listable (committed w) ->
  Forall (fun r => telemetryListBytes r <= listContentBytes) recs ->
  follow (listing ListTelemetryPageContext page w) (S (length recs)) "" = Ok recs.
Proof.
  intros recs Hcol Hw Hp Hl Hfit. pose proof (normalize_with_cursor page _ p "" Hp ltac:(done)) as [Hp0 Hsize].
  pose proof (directed_total (String.eqb (pg_Sort p) "asc") _ (ts_le_total (proj1 Hcol))).
  pose proof (directed_trans (String.eqb (pg_Sort p) "asc") _ (ts_le_trans (proj1 Hcol))).
  eapply (pages_exact (directed (String.eqb (pg_Sort p) "asc") ts_le) (map_to_list (telemetry_records (committed w))) _
    (fun kr => Ok (telemetry_scan kr)) telemetryListBytes (pg_Size p) _
    (fun l => encodePageCursor p "telemetry" (rec_Ts l * Millisecond) (rec_MsgID l)));
    [lia|apply NoDup_map_to_list|intros y z; by apply (telemetry_keys _ (committed w))| | |by rewrite <- map_map|done].
  - rewrite (telemetry_page_run page p "" zero_time "" w Hw Hp0) by done. unfold matching_telemetry, selected. f_equal.
    f_equal. apply list_filter_iff. intros kr. unfold telemetry_after. simpl. tauto.
  - intros [[[msg t] d] row] r Hin _ [= <-]. cbn [telemetry_scan clear_written record_of_row fst snd rec_Ts rec_MsgID].
    apply elem_of_map_to_list in Hin. destruct (Hl _ _ Hin) as (Hid & Hr). destruct (millis_exact (tr_ts row)) as [Hms Hmod].
    destruct (page_cursor_roundtrip p "telemetry" (tr_ts row * Millisecond) msg) as (Hd & Hne & Hlen); [done|done|done|].
    split; [done|]. eexists _, _. split; [|apply telemetry_page_run; [done|by apply normalize_with_cursor|exact Hd]].
    intros [[[msg' t'] d'] row'] _. apply and_iff_compat_l. unfold telemetry_after.
    rewrite (proj2 (String.eqb_neq _ _)) by done. simpl. rewrite Hms, beyond_after by done. unfold after, directed, flip, ts_le.
    simpl. destruct (String.eqb (pg_Sort p) "asc"); naive_solver lia.
Qed.

(** ** Devices *)
Definition devices_listable (db : DB) : Prop := forall k row, devices db !! k = Some row ->
  ValidateStorageField "topic part" k.1 64 = Ok tt /\ ValidateStorageField "topic part" k.2 64 = Ok tt.

Definition of_tenant (tenant : string) (kr : (string * string) * DeviceRow) : Prop := kr.1.1 = tenant.
#[export] Instance of_tenant_dec t kr : Decision (of_tenant t kr).
Proof. unfold of_tenant. apply _. Defined.

Definition matching_devices (tenant : string) (db : DB) : list ((string * string) * DeviceRow) :=
  selected device_le (map_to_list (devices db)) (of_tenant tenant).

Lemma devices_page_run page p c at_ id w :
  faults w = [] -> NormalizeListRequest (with_cursor page c) "devices" = Ok (with_cursor p c) ->
  decodeDeviceCursor c = Ok (at_, id) -> at_ = "" \/ at_ = pg_TenantID p ->
  listing ListDevicesPageContext page w c =
  serve (fun kr => Ok (device_of_row kr)) deviceListBytes (pg_Size p)
    (fun l => encodeDeviceCursor (dev_TenantID l) (dev_DeviceID l))
    (merge_sort device_le (filter (devices_after (pg_TenantID p) id) (map_to_list (devices (committed w))))).
Proof.
  intros Hw Hn Hd Hat. unfold listing, ListDevicesPageContext, mbind, op_bind, check. rewrite Hn.
  cbn [pg_Cursor with_cursor]. rewrite Hd. cbn [fst snd pg_TenantID pg_Size with_cursor].
  assert (negb (String.eqb at_ "") && negb (String.eqb at_ (pg_TenantID p)) = false) as ->
    by (destruct Hat as [->| ->]; [done|]; by rewrite String.eqb_refl, andb_false_r).
  unfold sql_devices_page. rewrite exec_query by done. reflexivity.
Qed.

Lemma device_le_total : collation_order -> Total device_le.
Proof. intros [Ht _] x y. apply Ht. Qed.

Lemma device_le_trans : collation_order -> Transitive device_le.
Proof. intros [_ Ht] x y z. apply Ht. Qed.

(** A client that follows the cursors of [ListDevicesPageContext] gets
    exactly the devices of its tenant, each once, in the order of their
    identifiers, and never one of another tenant. *)
Theorem devices_pages_exact page p w :
  let ds := map device_of_row (matching_devices (pg_TenantID p) (committed w)) in
  collation_deterministic -> faults w = [] ->
  NormalizeListRequest (with_cursor page "") "devices" = Ok p ->
  devices_listable (committed w) -> Forall (fun d => deviceListBytes d <= listContentBytes) ds ->
  follow (listing ListDevicesPageContext page w) (S (length ds)) "" = Ok ds.
Proof.
  intros ds Hcol Hw Hp Hl Hfit. pose proof (normalize_with_cursor page _ p "" Hp ltac:(done)) as [Hp0 Hsize].
  pose proof (device_le_total (proj1 Hcol)). pose proof (device_le_trans (proj1 Hcol)). destruct Hcol as (Hord & Ha & Hempty).
  eapply (pages_exact device_le (map_to_list (devices (committed w))) _ (fun kr => Ok (device_of_row kr))
    deviceListBytes (pg_Size p) _ (fun l => encodeDeviceCursor (dev_TenantID l) (dev_DeviceID l)));
    [lia|apply NoDup_map_to_list| | | |by rewrite <- map_map|done].
  - intros [[t d] r] [[t' d'] r']. unfold of_tenant, device_le. rewrite !elem_of_map_to_list. simpl.
    intros Hy Hz -> -> Hyz Hzy. assert (d = d') as -> by auto. congruence.
  - rewrite (devices_page_run page p "" "" "" w Hw Hp0) by auto. unfold matching_devices, selected. f_equal. f_equal.
    apply list_filter_iff'. intros [[t d] r] Hin%elem_of_map_to_list. destruct (Hl _ _ Hin) as [_ Hd].
    apply cursor_field_ok in Hd as [Hd _]. unfold devices_after, of_tenant, text_gt. simpl in *. rewrite Hempty by done. naive_solver.
  - intros [[t d] row] r Hin Ht [= <-]. unfold of_tenant in Ht. simpl in Ht. subst t. simpl.
    apply elem_of_map_to_list in Hin. destruct (Hl _ _ Hin) as (Hvt & Hvd). simpl in *.
    destruct (device_cursor_roundtrip (pg_TenantID p) d) as (Hd & Hne & Hlen); [done|done|].
    split; [done|]. eexists _, _. split; [|eapply devices_page_run; [done|by apply normalize_with_cursor|exact Hd|by right]].
    intros [[t' d'] row'] _. unfold devices_after, of_tenant, after, device_le, text_gt. simpl.
    destruct (proj1 Hord d d'), (text_leb d' d) eqn:?, (text_leb d d') eqn:?; naive_solver.
Qed.

(** ** Any answer *)
Lemma query_ok_rows {A} (f : DB -> A) w r w' :
  db_exec (query (fun db => Ok (f db))) w = (Ok r, w') -> r = f (committed w) /\ committed w' = committed w.
Proof.
  intros Hq%db_exec_atomic. unfold atomic_outcome, stmt_meaning, query in Hq. simpl in Hq.
  destruct Hq as [[[= ->] ->]|[[e [=]] _]]. done.
Qed.

Lemma fill_page_elem {R T} (scan : R -> result T) bytes limit rows out next :
  1 <= limit -> fill_page bytes limit (map scan rows) = Some (Ok (out, next)) ->
  Z.of_nat (length out) <= limit /\ total_bytes bytes out <= listContentBytes
  /\ (forall t, t ∈ out -> exists x, x ∈ rows /\ scan x = Ok t).
Proof.
  intros Hl Hf. pose proof (page_loop_sound bytes limit (map scan rows) 0 [] Hl) as Hs.
  unfold fill_page in Hf. rewrite Hf in Hs. destruct Hs as (Hlen & Hb & acc & rest & -> & Hrows & _); [done|done|simpl; lia|].
  split_and!; [done|done|]. intros t Hin. assert (Hin' : Ok t ∈ map scan rows).
  { rewrite Hrows. apply elem_of_app. left. apply list_elem_of_fmap. eauto. }
  apply list_elem_of_fmap in Hin' as (x & Hx & ?). eauto.
Qed.

Lemma normalize_tenant page kind p :
  NormalizeListRequest page kind = Ok p ->
  pg_TenantID p = pg_TenantID page /\ pg_DeviceID p = pg_DeviceID page /\ pg_Status p = pg_Status page
  /\ 1 <= pg_Size p <= maxPageSize.
Proof.
  intros Hp. assert (Hlen : len (pg_Cursor page) <= 4096).
  { unfold NormalizeListRequest, NormalizePageRequest in Hp. destruct (4096 <? _) eqn:E; [done|]. lia. }
  revert Hp. unfold NormalizeListRequest, NormalizePageRequest.
  destruct (4096 <? _); [done|]. destruct ((_ <? 1) || (maxPageSize <? _)) eqn:E; [done|]. cbn [mbind result_bind]. intros Hp.
  repeat match goal with
         | Hq : (if ?b then Err _ else _) = Ok _ |- _ => destruct b; [discriminate Hq|]
         end.
  injection Hp as <-. cbn [pg_TenantID pg_DeviceID pg_Status pg_Size]. split_and!; [done..|lia|lia].
Qed.

(** Every page of commands, on any tables and for any request and cursor,
    holds at most a hundred commands that together fit the response budget, all
    of them stored, of the tenant asked for and of the device and status asked
    for; and listing writes nothing. *)
Theorem commands_page_sound page w out next w' :
  ListCommandsPageContext page w = (Ok (out, next), w') ->
  committed w' = committed w /\ Z.of_nat (length out) <= maxPageSize /\ total_bytes commandListBytes out <= listContentBytes
  /\ forall c, c ∈ out -> cmd_TenantID c = pg_TenantID page
       /\ (pg_DeviceID page = "" \/ cmd_DeviceID c = pg_DeviceID page)
       /\ (pg_Status page = "" \/ cmd_Status c = pg_Status page)
       /\ exists row, commands (committed w) !! cmd_ID c = Some row /\ scanCommandRow (cmd_ID c) row = Ok c.
Proof.
  unfold ListCommandsPageContext, mbind, op_bind, check.
  destruct (NormalizeListRequest page "commands") as [p|] eqn:Hp; [|done].
  destruct (decodePageCursor p "commands") as [[at_ id]|]; [|done].
  destruct (db_exec _ w) as [[rows|] w1] eqn:Hq; [|done]. apply query_ok_rows in Hq as [-> Hw].
  apply normalize_tenant in Hp as (Ht & Hd & Hs & Hsz).
  destruct (fill_page _ _ _) as [[[out' next']|]|] eqn:Hf; intros [= -> _ <-].
  destruct (fill_page_elem _ _ _ _ _ _ (proj1 Hsz) Hf) as (Hlen & Hb & Hel). split_and!; [done|lia|done|].
  intros c Hc. destruct (Hel c Hc) as ([i row] & (k & Hk & _)%elem_of_take & Hscan).
  apply list_elem_of_lookup_2 in Hk. rewrite merge_sort_Permutation in Hk.
  apply list_elem_of_filter in Hk as [[(Hwt & Hwd & Hws & _) _] Hrow%elem_of_map_to_list].
  destruct (scan_row_fields _ _ _ Hscan) as (-> & -> & -> & ->). simpl in *. rewrite <- Ht, <- Hd, <- Hs. eauto 6.
Qed.
End properties.

(** ** A concrete codec and collation, for the examples *)
Lemma b64_no_dot s : contains_byte "."%char (EncodeToString RawURLEncoding s) = false.
Proof.
  assert (Hdot : forall n, 0 <= n < 64 -> Ascii.eqb "."%char (b64_char RawURLEncoding n) = false).
  { intros n Hn. assert (Hall : forallb (fun k => negb (Ascii.eqb "."%char (b64_char RawURLEncoding (Z.of_nat k)))) (seq 0 64) = true)
      by (vm_compute; reflexivity).
    rewrite forallb_forall in Hall. specialize (Hall (Z.to_nat n)). rewrite in_seq, Z2Nat.id in Hall by lia.
    apply negb_true_iff, Hall. lia. }
  induction s as [|a|a b|a b c r IH] using triple_ind; [done| | |]; cbn [EncodeToString pad contains_byte];
    repeat match goal with |- context [bval ?x] => lazymatch goal with
           | _ : 0 <= bval x < 256 |- _ => fail | _ => pose proof (bval_range x) end end;
    rewrite !Hdot by dlia; [done|done|exact IH].
Qed.

#[local] Instance sample_cursor : CursorEnv := {|
  sha256_hex_of_query kind page := "aaaaaaaaaaaaaaaaaaaaaaaaaaaaaaaaaaaaaaaaaaaaaaaaaaaaaaaaaaaaaaaa";
  cursor_time := sample_time;
  marshal_cursor c := join_byte "."%char (map (EncodeToString RawURLEncoding) [lc_Scope c; lc_Time c; lc_ID c]);
  unmarshal_cursor s :=
    match map (DecodeString RawURLEncoding) (split_byte "."%char s) with
    | [Some scope; Some time; Some id] => Some (MkListCursor 1 scope time id)
    | _ => None
    end |}.

#[local] Instance sample_cursor_laws : CursorLaws.
Proof.
  split; [done|done|exact sample_time_laws| |].
  - intros s ti id _ _ _. cbn [unmarshal_cursor marshal_cursor sample_cursor lc_Scope lc_Time lc_ID].
    cbn [map]. rewrite split_join by (repeat constructor; apply b64_no_dot). cbn [map]. by rewrite !base64_roundtrip.
  - intros s ti id. cbn [marshal_cursor sample_cursor lc_Scope lc_Time lc_ID map].
    pose proof (encode_length s). pose proof (encode_length ti). pose proof (encode_length id). 
    cbn [join_byte]. autorewrite with gostr. unfold len in *. simpl. rewrite !str_app_length. simpl. lia.
Qed.

#[local] Existing Instance sample_unicode.

(** Text ordered by its binary code. *)
#[local] Instance page_pg : PgEnv := {|
  pg_time t := t;
  pg_interval := @pg_interval sample_pg;
  jsonb_cast := @jsonb_cast sample_pg;
  jsonb_eq := @jsonb_eq sample_pg;
  text_leb a b := Pos.leb (encode a) (encode b);
  bcrypt_hash := @bcrypt_hash sample_pg;
  bcrypt_matches := @bcrypt_matches sample_pg;
  marshal_result := @marshal_result sample_pg;
  unmarshal_result := @unmarshal_result sample_pg |}.

Lemma page_pg_collation : collation_deterministic.
Proof.
  unfold collation_deterministic, collation_order. cbn [text_leb page_pg]. split_and!.
  - intros a b. rewrite !Pos.leb_le. lia.
  - intros a b c. rewrite !Pos.leb_le. apply Pos.le_trans.
  - intros a b. rewrite !Pos.leb_le. intros Hab Hba. apply (inj encode), Pos.le_antisym; done.
  - intros a Ha. apply Pos.leb_gt. assert (E : encode a <> encode "") by (by intros E%(inj encode)).
    change (encode "") with 1%positive in *. lia.
Qed.

Definition listed_row (device st : string) (created : Z) : CommandRow :=
  MkCommandRow "acme" device st "{}" 100 0 None created created None None.

Definition listed_db : DB :=
  MkDB {["acme" := "Acme"]} (list_to_map [(("acme", "d1"), MkDeviceRow "p" "h" 1 1); (("acme", "d2"), MkDeviceRow "p" "h" 1 1);
                                          (("acme", "d3"), MkDeviceRow "p" "h" 1 1); (("other", "d4"), MkDeviceRow "p" "h" 1 1)])
       ∅ (list_to_map [(("m1", "acme", "d1"), MkTelemetryRow 1 500 "t" "1" "{}" false 1);
                       (("m2", "acme", "d1"), MkTelemetryRow 2 500 "t" "1" "{}" true 2);
                       (("m3", "acme", "d1"), MkTelemetryRow 3 700 "t" "1" "{}" false 3);
                       (("m1", "acme", "d2"), MkTelemetryRow 4 600 "t" "1" "{}" false 4)]) 4
       (list_to_map [("c1", listed_row "d1" CommandStatusCreated 5000); ("c2", listed_row "d1" CommandStatusSent 5000);
                     ("c3", listed_row "d2" CommandStatusSent 9000)]) [] [].

Definition listed_page (size : Z) (device sort : string) : PageRequest :=
  MkPageRequest size "" "acme" device zero_time false zero_time false "" "" sort.

Definition normalized (page : PageRequest) (kind : string) : PageRequest :=
  match NormalizeListRequest page kind with Ok p => p | Err _ => page end.

(** Decide a statement about every row of a concrete table. *)
Lemma map_forall_dec {K V} `{Countable K} (m : gmap K V) (P : K -> V -> Prop) `{!forall k v, Decision (P k v)} :
  bool_decide (Forall (fun kv => P kv.1 kv.2) (map_to_list m)) = true -> forall k v, m !! k = Some v -> P k v.
Proof.
  intros Hall%bool_decide_eq_true k v Hk. rewrite Forall_forall in Hall. apply (Hall (k, v)). by apply elem_of_map_to_list.
Qed.

Lemma commands_pages_exact_witness :
  let w := MkWorld listed_db [] in
  let page := listed_page 1 "" "" in
  let ids := result_bind _ _ (fun l => Ok (map cmd_ID l)) (follow (listing ListCommandsPageContext page w) 4 "") in
  ids = Ok ["c3"; "c2"; "c1"] /\
  follow (listing ListCommandsPageContext page w) 4 "" = PostgresCommands.scanCommands (matching_commands (normalized page "commands") listed_db).
Proof.
  intros w page ids. split; [vm_compute; reflexivity|].
  destruct (PostgresCommands.scanCommands (matching_commands (normalized page "commands") listed_db)) as [cmds|] eqn:E;
    [|vm_compute in E; discriminate E].
  assert (Hlen : length cmds = 3%nat) by (vm_compute in E; injection E as <-; reflexivity).
  pose proof (commands_pages_exact page (normalized page "commands") w cmds page_pg_collation) as Hex. rewrite Hlen in Hex.
  apply Hex; [intros t _; reflexivity|reflexivity|vm_compute; reflexivity| |exact E|].
  - intros id row Hrow. revert id row Hrow. 
    apply (map_forall_dec (commands listed_db) (fun id row => ValidateStorageField "cursor id" id 64 = Ok tt /\ cr_created_at row mod 1000 = 0
      /\ zero_time < cr_created_at row < 253402300800 * Second)). vm_compute. reflexivity.
  - vm_compute in E. injection E as <-. repeat constructor; vm_compute; discriminate.
Defined.

Lemma telemetry_pages_exact_witness :
  let w := MkWorld listed_db [] in
  let page := listed_page 2 "d1" "asc" in
  follow (listing ListTelemetryPageContext page w) 4 ""
  = Ok (map telemetry_scan (matching_telemetry (normalized page "telemetry") listed_db)).
Proof.
  intros w page.
  pose proof (telemetry_pages_exact page (normalized page "telemetry") w page_pg_collation) as Hex.
  apply Hex; [reflexivity|vm_compute; reflexivity| |].
  - intros k row Hrow. revert k row Hrow. apply (map_forall_dec (telemetry_records listed_db) (fun k row => ValidateStorageField "cursor id" k.1.1 64 = Ok tt
      /\ -62167219200 * Second <= tr_ts row * Millisecond < 253402300800 * Second)). vm_compute. reflexivity.
  - refine (proj1 (bool_decide_eq_true _) _). vm_compute. reflexivity.
Defined.

Lemma devices_pages_exact_witness :
  let w := MkWorld listed_db [] in
  let page := listed_page 2 "" "" in
  follow (listing ListDevicesPageContext page w) 4 "" = Ok (map device_of_row (matching_devices "acme" listed_db)).
Proof.
  intros w page.
  pose proof (devices_pages_exact page (normalized page "devices") w page_pg_collation) as Hex.
  apply Hex; [reflexivity|vm_compute; reflexivity| |].
  - intros k row Hrow. revert k row Hrow. apply (map_forall_dec (devices listed_db) (fun k row => ValidateStorageField "topic part" k.1 64 = Ok tt
      /\ ValidateStorageField "topic part" k.2 64 = Ok tt)). vm_compute. reflexivity.
  - refine (proj1 (bool_decide_eq_true _) _). vm_compute. reflexivity.
Defined.

Lemma commands_page_sound_witness :
  let page := listed_page 1 "d1" "" in
  let r := ListCommandsPageContext page (MkWorld listed_db []) in
  match r with
  | (Ok (out, next), w') => length out = 1%nat /\ next <> "" /\ Forall (fun c => cmd_TenantID c = "acme") out
  | _ => False
  end.
Proof.
  intros page r. destruct r as [[[out next]|] w'] eqn:E; [|vm_compute in E; discriminate E].
  destruct (commands_page_sound page (MkWorld listed_db []) out next w' E) as (_ & _ & _ & Hall).
  split_and!; [vm_compute in E; injection E as <- _ _; reflexivity|vm_compute in E; injection E as _ <- _; discriminate|].
  apply Forall_forall. intros c Hc. apply (Hall c Hc).
Defined.
