(* ===== verification/TenantFrame.v ===== *)
(** * What a call for one tenant can touch

    A store method that is given a tenant leaves everything of other tenants
    alone, and answers only with what belongs to that tenant; whatever round
    trips fail under it. *)
From stdpp Require Import prelude strings gmap sorting.
From Stdlib Require Import ZArith Lia.
From S2P Require Import Prelude GoStrings Contracts CommandState GoJson Payload Domain TimeText Pagination Postgres PostgresStore PostgresCommands PostgresLists Lifecycle PostgresRefine TelemetryProperties PageProperties.

Local Open Scope Z_scope.

(** The tables changed for the tenant [t] only. *)
Record confined (t : string) (db db' : DB) : Prop := {
  cf_tenants : tenants db' = tenants db;
  cf_devices k : k.1 <> t -> devices db' !! k = devices db !! k;
  cf_states k : k.1 <> t -> device_state db' !! k = device_state db !! k;
  cf_telemetry m t' d : t' <> t -> telemetry_records db' !! (m, t', d) = telemetry_records db !! (m, t', d);
  cf_commands id row : cr_tenant_id row <> t -> commands db' !! id = Some row <-> commands db !! id = Some row;
  cf_acks : exists new, command_ack db' = command_ack db ++ new /\ Forall (fun a => ak_tenant_id a = t) new;
  cf_events : exists new, command_events db' = command_events db ++ new
    /\ Forall (fun e => exists row, commands db' !! ev_command_id e = Some row /\ cr_tenant_id row = t) new }.

Lemma confined_refl t db : confined t db db.
Proof. split; try done; exists []; by rewrite app_nil_r. Qed.

#[export] Hint Resolve confined_refl : frame.

(** Every run of the method is confined to [t] and answers with a [P]. *)
Definition op_confined {A} (t : string) (P : A -> Prop) (op : Op A) : Prop := forall w r w',
  op w = (r, w') -> confined t (committed w) (committed w') /\ forall a, r = Ok a -> P a.

Lemma op_confined_check {A} t (P : A -> Prop) (r : result A) : (forall a, r = Ok a -> P a) -> op_confined t P (check r).
Proof. intros Hr w r0 w' [= <- <-]. split; [apply confined_refl|done]. Qed.

Lemma op_confined_reject {A} t (P : A -> Prop) e : op_confined t P (@reject A e).
Proof. intros w r w' [= <- <-]. split; [apply confined_refl|done]. Qed.

Lemma op_confined_ret {A} t (P : A -> Prop) (a : A) : P a -> op_confined t P (mret a : Op A).
Proof. intros Ha w r w' [= <- <-]. split; [apply confined_refl|]. by intros ? [= <-]. Qed.

(** A method that checks its arguments and then goes on. *)
Lemma op_confined_checked {A B} t (P : B -> Prop) (r : result A) (f : A -> Op B) :
  (forall a, r = Ok a -> op_confined t P (f a)) -> op_confined t P (check r ≫= f).
Proof.
  intros Hf w r0 w'. unfold mbind, op_bind, check. destruct r as [a|e].
  - by apply Hf.
  - intros [= <- <-]. split; [apply confined_refl|done].
Qed.

(** A query, and what the method makes of its rows. *)
Lemma op_confined_query {A B} t (P : B -> Prop) (f : DB -> A) (k : A -> Op B) :
  (forall db w r w', k (f db) w = (r, w') -> committed w' = committed w /\ forall b, r = Ok b -> P b) ->
  op_confined t P (db_exec (query (fun db => Ok (f db))) ≫= k).
Proof.
  intros Hk w r w'. unfold mbind, op_bind. destruct (db_exec _ w) as [[a|e] w1] eqn:Hq.
  - apply query_ok_rows in Hq as [-> Hw]. intros Hrun%Hk. rewrite Hw in Hrun. destruct Hrun as [-> ?]. split; [apply confined_refl|done].
  - intros [= <- <-]. apply db_exec_atomic in Hq. unfold atomic_outcome, stmt_meaning, query in Hq. simpl in Hq.
    destruct Hq as [[[=] _]|[_ [->| ->]]]; (split; [apply confined_refl|done]).
Qed.

Lemma op_confined_tx {A} t (P : A -> Prop) (tx : Tx A) :
  (forall db r db', meaning tx db = (r, db') -> confined t db db' /\ forall a, r = Ok a -> P a) ->
  op_confined t P (BeginTx tx).
Proof.
  intros Htx w r w' Ho%begin_tx_atomic. destruct (meaning tx (committed w)) as [r0 db'] eqn:Hm. apply Htx in Hm as [Hc Hp].
  destruct Ho as [[-> ->]|[[e ->] [->| ->]]]; simpl; (split; [auto with frame|done]).
Qed.

(** A transaction that ends without a change, and one statement of a
    transaction: it failed, or it yielded [Hok]. *)
Ltac unchanged H := injection H as <- <-; split; [apply confined_refl|try done].

Tactic Notation "frame_stmt" hyp(H) "as" ident(b) ident(db1) ident(Hok) :=
  cbn [tx_meaning] in H;
  match type of H with
  | context [match ?s ?d with Ok _ => _ | Err _ => _ end] => destruct (s d) as [[b db1]|] eqn:Hok; [|by unchanged H]
  end.

Lemma pair_fst_ne {A B} (t a : A) (b : B) (k : A * B) : k.1 <> t -> t = a -> (a, b) <> k.
Proof. intros Hk -> <-. done. Qed.

Section methods.
Context `{Unicode} `{PgEnv} `{CursorEnv}.

Lemma create_device_confined now d :
  op_confined (dev_TenantID d) (fun d' => dev_TenantID d' = dev_TenantID d) (CreateDeviceContext now d).
Proof.
  apply op_confined_checked. intros _ _. destruct (_ || _); [apply op_confined_reject|].
  apply op_confined_tx. intros db r db' Hm. unfold meaning, create_device_tx in Hm.
  frame_stmt Hm as b db1 S1. tx_query S1 as _. destruct b; cbn [negb] in Hm; [|by unchanged Hm]. cbv zeta in Hm.
  destruct (HashDeviceSecret _) as [hash|]; [|by unchanged Hm].
  frame_stmt Hm as x db2 S2. frame_stmt Hm as y db3 S3. injection Hm as <- <-.
  unfold sql_insert_device in S2. cbn [dev_TenantID dev_DeviceID dev_ProductID dev_CreatedAt] in *.
  destruct (devices db !! _) eqn:E; [done|]. destruct (tenants db !! _); [|done].
  injection S2 as <- <-. injection S3 as <- <-. split; [|by intros ? [= <-]].
  split; simpl; try done; try (exists []; by rewrite app_nil_r);
    intros k Hk; rewrite lookup_insert_ne; try done; by apply (pair_fst_ne (dev_TenantID d)).
Qed.

Lemma create_command_confined now newID t d key payload :
  op_confined t (fun c => cmd_TenantID c = t) (CreateCommandWithKey now newID t d key payload).
Proof.
  do 2 (apply op_confined_checked; intros _ _). apply op_confined_tx. intros db r db' Hm.
  unfold meaning, create_command_tx, requireDevice in Hm.
  frame_stmt Hm as b db1 S1. tx_query S1 as _. destruct b; cbn [negb] in Hm; [|by unchanged Hm].
  frame_stmt Hm as norm db2 S2. tx_query S2 as _. destruct (ValidateCommandInput t d norm); [|by unchanged Hm].
  destruct newID as [id|]; [|by unchanged Hm]. frame_stmt Hm as st db3 S3.
  apply insert_command_inv in S3 as [(k & found & -> & -> & _)|(stored & -> & Hnew & _ & _ & ->)].
  - frame_stmt Hm as f db4 S4. tx_query S4 as Hf. destruct f as [[id' row] matches].
    destruct matches; cbn [negb] in Hm; [|by unchanged Hm].
    apply result_bind_ok in Hf as (p & _ & Hf). destruct (find_key t key db) as [[i ro]|] eqn:Hk; [|done]. injection Hf as -> -> _.
    apply find_key_some in Hk as (_ & Ht & _). simpl in Ht.
    destruct (scanCommandRow id' row) as [c|] eqn:Hs; unchanged Hm. intros ? [= <-].
    apply scan_row_fields in Hs as (_ & -> & _). done.
  - cbn in Hm, Hnew. injection Hm as <- <-. split; [|by intros ? [= <-]]. split; simpl; try done; try (exists []; by rewrite app_nil_r).
    + intros i row Hne. rewrite lookup_insert_Some. split; [|intros Hi; right; split; [by intros ->; simplify_eq|done]].
      intros [[_ <-]|[_ ?]]; [done|done].
    + eexists. split; [done|]. constructor; [|constructor]. simpl. rewrite lookup_insert_eq. by eexists.
Qed.

Lemma ack_command_confined now id t d input :
  op_confined t (fun c => cmd_TenantID c = t) (AckCommandResultContext now id t d input).
Proof.
  do 4 (apply op_confined_checked; intros ? ?). apply op_confined_tx. intros db r db' Hm.
  unfold meaning, ack_command_tx in Hm. frame_stmt Hm as row db1 S1. tx_query S1 as Hrow. injection Hrow as Hrow.
  destruct row as [row|]; [|by unchanged Hm]. destruct (scanCommandRow id row) as [cmd|] eqn:Hscan; [|by unchanged Hm].
  destruct (String.eqb_spec (cmd_TenantID cmd) t) as [Ht|]; [|by unchanged Hm].
  destruct (negb _ || negb _); [by unchanged Hm|]. apply scan_row_fields in Hscan as (_ & Hct & _).
  destruct (is_terminal_status (cmd_Status cmd)).
  { destruct (cmd_Result cmd); [|unchanged Hm; by intros ? [= <-]]. frame_stmt Hm as eq db2 S2. tx_query S2 as _.
    destruct eq; unchanged Hm. by intros ? [= <-]. }
  destruct (AdvanceCommandStatus _ _) as [next|]; [|by unchanged Hm].
  frame_stmt Hm as x2 db2 S2. frame_stmt Hm as x3 db3 S3. frame_stmt Hm as x4 db4 S4. injection Hm as <- <-.
  apply result_bind_ok in S2 as (e & He & [= <- <-]), S3 as (e3 & He3 & [= <- <-]), S4 as (e4 & He4 & [= <- <-]).
  rewrite (alter_some_insert _ _ _ row) by done. split; [|by intros ? [= <-]].
  split; simpl; try done.
  - intros i r Hne. rewrite lookup_insert_Some. split; [|intros Hi; right; split; [intros ->; simplify_eq; congruence|done]].
    intros [[_ <-]|[_ ?]]; [|done]. simpl in Hne. congruence.
  - eexists. split; [done|]. by repeat constructor.
  - eexists. split; [done|]. constructor; [|constructor]. simpl. rewrite lookup_insert_eq. eexists. split; [done|]. simpl. congruence.
Qed.

Lemma restore_telemetry_confined now rec :
  op_confined (rec_TenantID rec) (fun r => rec_TenantID (recorded_record r) = rec_TenantID rec) (RestoreTelemetryContext now rec).
Proof.
  apply op_confined_checked. intros _ _. destruct (IsZero _); [apply op_confined_reject|].
  apply op_confined_tx. intros db r db' Hm. pose proof (restore_meaning _ _ _ _ _ Hm) as Hr.
  unfold meaning, restore_telemetry_tx, requireDevice in Hm. cbn [rec_TenantID rec_DeviceID rec_Payload clear_written] in Hm.
  frame_stmt Hm as b db1 S1. tx_query S1 as _. destruct b; cbn [negb] in Hm; [|by unchanged Hm].
  frame_stmt Hm as norm db2 S2. tx_query S2 as _. destruct (ValidateTelemetryPayload norm); [|by unchanged Hm].
  destruct (marshal_raw _) as [payload|]; [|by unchanged Hm]. frame_stmt Hm as n db3 S3.
  apply result_bind_ok in S3 as (stored & _ & S3). destruct (telemetry_records db !! _) as [row|] eqn:Hrow; injection S3 as <- <-.
  - cbn [Z.eqb] in Hm. frame_stmt Hm as st db4 S4. tx_query S4 as Hst. unchanged Hm. intros ? [= <-].
    destruct Hr as (_ & row' & _ & ->). done.
  - cbn [Z.eqb] in Hm. frame_stmt Hm as u db4 S4. injection Hm as <- <-. split; [|by intros ? [= <-]].
    unfold sql_mark_seen in S4. cbn [device_state rec_TenantID rec_DeviceID clear_written] in S4.
    repeat case_match; injection S4 as <- <-; (split; simpl; try done; try (exists []; by rewrite app_nil_r));
      try (intros m t' d Ht'; rewrite lookup_insert_ne by (by intros [= _ <- _]); done);
      try (intros k Hk; rewrite lookup_insert_ne; [done|by apply (pair_fst_ne (rec_TenantID rec))]).
Qed.
(** ** Reads *)

(** The rest of a method that only reads. *)
Lemma read_check {A} (P : A -> Prop) (r : result A) :
  (forall a, r = Ok a -> P a) -> forall w r0 w', check r w = (r0, w') -> committed w' = committed w /\ forall a, r0 = Ok a -> P a.
Proof. intros Hr w r0 w' [= <- <-]. split; [done|exact Hr]. Qed.

Lemma get_device_confined t d : op_confined t (fun d' => dev_TenantID d' = t) (GetDeviceContext t d).
Proof.
  apply op_confined_query. intros db w r w'. destruct (devices db !! (t, d)); intros [= <- <-]; split; [done| |done..].
  by intros ? [= <-].
Qed.

Lemma get_status_confined ttl now t d : op_confined t (fun s => sta_TenantID s = t) (GetDeviceStatusContext ttl now t d).
Proof.
  apply op_confined_query. intros db w r w'. destruct (device_state db !! (t, d)) as [row|]; intros [= <- <-]; (split; [done|]); [|done].
  intros ? [= <-]. by destruct (sr_last_seen_at row).
Qed.

Lemma get_command_unchanged t id : op_confined t (fun c => cmd_ID c = id) (GetCommandContext id).
Proof.
  apply op_confined_query. intros db w r w'. destruct (commands db !! id) as [row|]; [|by intros [= <- <-]].
  apply read_check. intros c Hc. by apply scan_row_fields in Hc as (-> & _).
Qed.

Lemma finish_elems {R T} (scan : R -> result T) bytes limit rows cursor (P : T -> Prop) :
  1 <= limit -> (forall x c, x ∈ rows -> scan x = Ok c -> P c) ->
  forall a, finish cursor (fill_page bytes limit (map scan rows)) = Ok a -> Forall P a.1.
Proof.
  intros Hl Hrows [out next] Hf. unfold finish in Hf.
  destruct (fill_page bytes limit (map scan rows)) as [[[o n]|]|] eqn:E; simplify_eq.
  destruct (fill_page_elem _ _ _ _ _ _ Hl E) as (_ & _ & Hel). apply Forall_forall. intros c Hc.
  destruct (Hel c Hc) as (x & Hx & Hs). eauto.
Qed.

(** The rows of a page satisfy its WHERE clause. *)
Lemma page_rows_where {R} (le : relation R) `{!forall x y, Decision (le x y)} (P : R -> Prop) `{!forall x, Decision (P x)} n (l : list R) x :
  x ∈ take n (merge_sort le (filter P l)) -> P x.
Proof.
  intros (k & Hk & _)%elem_of_take. apply list_elem_of_lookup_2 in Hk. rewrite merge_sort_Permutation in Hk.
  by apply list_elem_of_filter in Hk as [? _].
Qed.

Lemma list_tenants_unchanged t page : op_confined t (fun _ => True) (ListTenantsPageContext page).
Proof.
  do 2 (apply op_confined_checked; intros ? _). apply op_confined_query. intros db w r w'. by apply read_check.
Qed.

Lemma list_devices_confined page :
  op_confined (pg_TenantID page) (fun r => Forall (fun d => dev_TenantID d = pg_TenantID page) r.1) (ListDevicesPageContext page).
Proof.
  apply op_confined_checked. intros p (Ht & _ & _ & Hsz)%normalize_tenant. apply op_confined_checked. intros [at_ ad] _.
  destruct (_ && _); [apply op_confined_reject|]. apply op_confined_query. intros db w r w'. apply read_check.
  apply finish_elems; [lia|]. intros x c Hx [= <-]. apply page_rows_where in Hx as [Hx _]. simpl. congruence.
Qed.

Lemma list_telemetry_confined page :
  op_confined (pg_TenantID page) (fun r => Forall (fun x => rec_TenantID x = pg_TenantID page) r.1) (ListTelemetryPageContext page).
Proof.
  apply op_confined_checked. intros p (Ht & _ & _ & Hsz)%normalize_tenant. apply op_confined_checked. intros [at_ ai] _.
  apply op_confined_query. intros db w r w'. apply read_check.
  apply finish_elems; [lia|]. intros [[[m t] d] row] c Hx [= <-]. apply page_rows_where in Hx as [[Hx _] _]. simpl in *. congruence.
Qed.

Lemma list_commands_confined page :
  op_confined (pg_TenantID page) (fun r => Forall (fun c => cmd_TenantID c = pg_TenantID page) r.1) (ListCommandsPageContext page).
Proof.
  apply op_confined_checked. intros p (Ht & _ & _ & Hsz)%normalize_tenant. apply op_confined_checked. intros [at_ ai] _.
  apply op_confined_query. intros db w r w'. apply read_check.
  apply finish_elems; [lia|]. intros [id row] c Hx Hc. apply page_rows_where in Hx as [[Hx _] _].
  apply scan_row_fields in Hc as (_ & -> & _). simpl in *. congruence.
Qed.
End methods.
