(* ===== verification/MqttAuth.v ===== *)
(** * The MQTT authentication callback: internal/platform/mqtt_auth.go

    EMQX asks this handler about every connection; the answer carries the ACL
    the broker then enforces. *)
From stdpp Require Import prelude strings gmap.
From Stdlib Require Import ZArith Lia Ascii.
From S2P Require Import Prelude GoStrings Contracts GoJson Payload Domain Postgres PostgresStore StoreProperties.

Local Open Scope Z_scope.

Definition internalMQTTUsername : string := "iot-service".

Record MQTTAuthRequest := MkMQTTAuthRequest { mr_Username : string; mr_Password : string; mr_ClientID : string }.
Record MQTTACLRule := MkMQTTACLRule { acl_Permission : string; acl_Action : string; acl_Topic : string }.
Record MQTTAuthResponse := MkMQTTAuthResponse {
  ma_Result : string;
  ma_ClientAttrs : list (string * string);
  ma_ACL : list MQTTACLRule }.

Definition deny_response : MQTTAuthResponse := MkMQTTAuthResponse "deny" [] [].

Definition aclDenyAll : MQTTACLRule := MkMQTTACLRule "deny" "all" "#".
Definition withACLGuard (rules : list MQTTACLRule) : list MQTTACLRule := rules ++ [aclDenyAll].

(** [strings.LastIndex] for one byte, as the parts before and after it. *)
Fixpoint cut_last (c : ascii) (s : string) : option (string * string) :=
  match s with
  | EmptyString => None
  | String d r =>
    match cut_last c r with
    | Some (a, b) => Some (String d a, b)
    | None => if Ascii.eqb c d then Some (EmptyString, r) else None
    end
  end.

Definition demoTenantFromClientID (clientID : string) : string :=
  match cut_prefix "iot-demo-" clientID with
  | None => ""
  | Some rest =>
    match cut_last "-" rest with
    | None => ""
    | Some (tenant, suffix) =>
      if String.eqb tenant "" || String.eqb suffix "" then ""
      else if existsb (fun r => (r <? 48) || (57 <? r)) (range_runes suffix) then ""
      else tenant
    end
  end.

Definition allow (action topic : string) : MQTTACLRule := MkMQTTACLRule "allow" action topic.

(** [None]: no role. *)
Definition internalMQTTRole (clientID : string) : option (string * list MQTTACLRule) :=
  if has_prefix clientID "iot-telemetry-ingestor-" then
    Some ("telemetry-ingestor", withACLGuard [allow "subscribe" "tenant/+/device/+/telemetry"])
  else if has_prefix clientID "iot-device-worker-" then
    Some ("device-worker", withACLGuard [allow "subscribe" "tenant/+/device/+/ack"; allow "publish" "tenant/+/device/+/command"])
  else if has_prefix clientID "iot-demo-" then
    let tenantID := demoTenantFromClientID clientID in
    if String.eqb tenantID "" then None
    else Some ("demo", withACLGuard
      [allow "publish" ("tenant/" +:+ tenantID +:+ "/device/+/telemetry");
       allow "publish" ("tenant/" +:+ tenantID +:+ "/device/+/ack");
       allow "subscribe" ("tenant/" +:+ tenantID +:+ "/device/+/command")])
  else None.

Definition secureEqual (left right : string) : bool :=
  if String.eqb left "" || String.eqb right "" then false else String.eqb left right.

Definition isReservedMQTTClientID (id : string) : bool :=
  existsb (fun prefix => String.eqb id prefix || has_prefix id (prefix +:+ "-"))
    ["iot-device-worker"; "iot-telemetry-ingestor"; "iot-demo"].

Definition device_acl (tenantID deviceID : string) : list MQTTACLRule :=
  withACLGuard
    [allow "publish" ("eq tenant/" +:+ tenantID +:+ "/device/" +:+ deviceID +:+ "/telemetry");
     allow "publish" ("eq tenant/" +:+ tenantID +:+ "/device/" +:+ deviceID +:+ "/ack");
     allow "subscribe" ("eq tenant/" +:+ tenantID +:+ "/device/" +:+ deviceID +:+ "/command")].

(** The part of an HTTP request the handler reads. *)
Record HttpRequest := MkHttpRequest { hr_Method : string; hr_Token : string; hr_Body : string }.

Inductive HttpResponse :=
| StatusError (code : Z)
| StatusOK (body : MQTTAuthResponse).

Section handler.
Context `{Unicode} `{PgEnv}.
(** Decoding the first 16 KiB of the body into an [MQTTAuthRequest]. *)
Context (decode_auth : string -> result MQTTAuthRequest).

Definition internal_answer (internalPassword : string) (req : MQTTAuthRequest) : option MQTTAuthResponse :=
  if String.eqb (mr_Username req) internalMQTTUsername && secureEqual (mr_Password req) internalPassword
  then '(role, acl) ← internalMQTTRole (mr_ClientID req); Some (MkMQTTAuthResponse "allow" [("role", role)] acl)
  else None.

(** The authenticator is the PostgreSQL store. *)
Definition device_answer (req : MQTTAuthRequest) (w : World) : MQTTAuthResponse * World :=
  if isReservedMQTTClientID (mr_ClientID req) then (deny_response, w)
  else
    match ParseDeviceUsername (mr_Username req) with
    | None => (deny_response, w)
    | Some (tenantID, deviceID) =>
      let '(authenticated, w) := AuthenticateDeviceContext tenantID deviceID (mr_Password req) w in
      if negb authenticated then (deny_response, w)
      else (MkMQTTAuthResponse "allow" [("role", "device"); ("tenant_id", tenantID); ("device_id", deviceID)]
              (device_acl tenantID deviceID), w)
    end.

Definition MQTTAuthenticationHandler (internalPassword callbackToken : string) (r : HttpRequest) (w : World) : HttpResponse * World :=
  if negb (String.eqb (hr_Method r) "POST") then (StatusError 405, w)
  else if String.eqb callbackToken "" || negb (secureEqual (hr_Token r) callbackToken) then (StatusError 401, w)
  else
    match decode_auth (hr_Body r) with
    | Err _ => (StatusOK deny_response, w)
    | Ok req =>
      match internal_answer internalPassword req with
      | Some resp => (StatusOK resp, w)
      | None => let '(resp, w) := device_answer req w in (StatusOK resp, w)
      end
    end.

(** ** What the broker makes of an ACL

    [matches filter topic] is the broker's; the first rule that covers the
    action and matches the topic decides. *)
Record Broker := MkBroker { matches : string -> string -> bool }.

(** An [eq] rule matches its own topic only, and [#] matches every topic. *)
Record broker_laws (b : Broker) : Prop := {
  br_eq : forall t x, matches b ("eq " +:+ t) x = true <-> x = t;
  br_all : forall x, matches b "#" x = true }.

Definition covers (rule action : string) : bool := String.eqb rule "all" || String.eqb rule action.

Fixpoint authorized (b : Broker) (acl : list MQTTACLRule) (action topic : string) : bool :=
  match acl with
  | [] => true
  | rule :: acl' =>
    if covers (acl_Action rule) action && matches b (acl_Topic rule) topic
    then String.eqb (acl_Permission rule) "allow" else authorized b acl' action topic
  end.

Lemma three_rules b f1 f2 f3 t1 t2 t3 action topic :
  (forall x, matches b f1 x = true <-> x = t1) -> (forall x, matches b f2 x = true <-> x = t2) ->
  (forall x, matches b f3 x = true <-> x = t3) -> (forall x, matches b "#" x = true) ->
  authorized b (withACLGuard [allow "publish" f1; allow "publish" f2; allow "subscribe" f3]) action topic = true <->
  (action = "publish" /\ (topic = t1 \/ topic = t2)) \/ (action = "subscribe" /\ topic = t3).
Proof.
  intros H1 H2 H3 Hall. rewrite <- H1, <- H2, <- H3. unfold withACLGuard.
  cbn [app authorized acl_Action acl_Topic acl_Permission allow aclDenyAll]. rewrite Hall. unfold covers.
  destruct (String.eqb_spec "publish" action) as [<-|Hp]; [|destruct (String.eqb_spec "subscribe" action) as [<-|Hs]];
    destruct (matches b f1 topic), (matches b f2 topic), (matches b f3 topic); simpl; intuition congruence.
Qed.

Lemma device_acl_spec b tenant device action topic :
  broker_laws b -> authorized b (device_acl tenant device) action topic = true <->
  (action = "publish" /\ (topic = "tenant/" +:+ tenant +:+ "/device/" +:+ device +:+ "/telemetry"
                          \/ topic = "tenant/" +:+ tenant +:+ "/device/" +:+ device +:+ "/ack"))
  \/ (action = "subscribe" /\ topic = "tenant/" +:+ tenant +:+ "/device/" +:+ device +:+ "/command").
Proof.
  intros [Heq Hall]. apply three_rules; [intros x; apply (Heq ("tenant/" +:+ _))..|exact Hall].
Qed.

(** ** Who gets in, and what they may do *)
Lemma authenticate_true tenant device secret w w' :
  AuthenticateDeviceContext tenant device secret w = (true, w') ->
  exists row, devices (committed w) !! (tenant, device) = Some row /\ VerifyDeviceSecret (dr_secret_hash row) secret = true.
Proof.
  unfold AuthenticateDeviceContext. destruct (db_exec _ w) as [r w1] eqn:E. intros [= Hv _].
  destruct r as [[row|]|]; [|done..]. exists row. split; [|done].
  apply db_exec_atomic in E. unfold atomic_outcome, stmt_meaning, sql_get_device, query in E. simpl in E.
  destruct E as [[[= E] _]|[[e [=]] _]]. done.
Qed.

Lemma role_reserved clientID role acl : internalMQTTRole clientID = Some (role, acl) -> isReservedMQTTClientID clientID = true.
Proof.
  unfold internalMQTTRole, isReservedMQTTClientID. cbn [existsb].
  change ("iot-telemetry-ingestor" +:+ "-") with "iot-telemetry-ingestor-".
  change ("iot-device-worker" +:+ "-") with "iot-device-worker-". change ("iot-demo" +:+ "-") with "iot-demo-".
  destruct (has_prefix clientID "iot-telemetry-ingestor-"); [intros _; by rewrite !orb_true_r|].
  destruct (has_prefix clientID "iot-device-worker-"); [intros _; by rewrite !orb_true_r|].
  destruct (has_prefix clientID "iot-demo-"); [intros _; by rewrite !orb_true_r|done].
Qed.

Lemma device_username_valid u t d :
  ParseDeviceUsername u = Some (t, d) ->
  BuildDeviceUsername t d = Ok u /\ IsValidTenantID t = true /\ IsValidTopicPart d = true.
Proof.
  intros (-> & Ht & Hd)%parse_device_username_Some. unfold BuildDeviceUsername. by rewrite Ht, Hd.
Qed.

(** What an answer that lets a client in rests on. *)
Inductive admitted (internalPassword : string) (req : MQTTAuthRequest) (db : DB) (resp : MQTTAuthResponse) : Prop :=
| admitted_service :
    mr_Username req = internalMQTTUsername -> mr_Password req = internalPassword -> internalPassword <> "" ->
    isReservedMQTTClientID (mr_ClientID req) = true -> admitted internalPassword req db resp
| admitted_device tenant device row :
    BuildDeviceUsername tenant device = Ok (mr_Username req) ->
    devices db !! (tenant, device) = Some row -> VerifyDeviceSecret (dr_secret_hash row) (mr_Password req) = true ->
    isReservedMQTTClientID (mr_ClientID req) = false ->
    (forall b action topic, broker_laws b -> authorized b (ma_ACL resp) action topic = true <->
       action = "publish" /\ (BuildTelemetryTopic tenant device = Ok topic \/ BuildAckTopic tenant device = Ok topic)
       \/ action = "subscribe" /\ BuildCommandTopic tenant device = Ok topic) ->
    admitted internalPassword req db resp.

Lemma device_topics_built tenant device :
  IsValidTenantID tenant = true -> IsValidTopicPart device = true ->
  BuildTelemetryTopic tenant device = Ok ("tenant/" +:+ tenant +:+ "/device/" +:+ device +:+ "/telemetry")
  /\ BuildAckTopic tenant device = Ok ("tenant/" +:+ tenant +:+ "/device/" +:+ device +:+ "/ack")
  /\ BuildCommandTopic tenant device = Ok ("tenant/" +:+ tenant +:+ "/device/" +:+ device +:+ "/command").
Proof.
  intros Ht Hd. unfold BuildTelemetryTopic, BuildAckTopic, BuildCommandTopic, BuildDeviceTopic. by rewrite Ht, Hd.
Qed.

Lemma auth_admitted internalPassword callbackToken r w resp w' :
  MQTTAuthenticationHandler internalPassword callbackToken r w = (StatusOK resp, w') -> ma_Result resp = "allow" ->
  hr_Token r = callbackToken /\ callbackToken <> ""
  /\ exists req, decode_auth (hr_Body r) = Ok req /\ admitted internalPassword req (committed w) resp.
Proof.
  unfold MQTTAuthenticationHandler. destruct (negb _); [done|].
  destruct (String.eqb_spec callbackToken ""); [done|]. simpl.
  destruct (secureEqual (hr_Token r) callbackToken) eqn:Htok; [|done]. simpl.
  assert (hr_Token r = callbackToken).
  { unfold secureEqual in Htok. destruct (_ || _); [done|]. by apply String.eqb_eq. }
  destruct (decode_auth (hr_Body r)) as [req|]; [|by intros [= <- <-]]. intros Hrun Hallow.
  split_and!; [done|done|]. exists req. split; [done|]. revert Hrun. unfold internal_answer.
  destruct (String.eqb_spec (mr_Username req) internalMQTTUsername) as [Hu|Hu],
    (secureEqual (mr_Password req) internalPassword) eqn:Hpw; cbn [andb];
    [destruct (internalMQTTRole (mr_ClientID req)) as [[role acl]|] eqn:Hrole|..]; cbn [mbind option_bind].
  { intros _. unfold secureEqual in Hpw. destruct (String.eqb_spec (mr_Password req) ""); [done|].
    destruct (String.eqb_spec internalPassword ""); [done|]. apply String.eqb_eq in Hpw.
    apply admitted_service; [done..|]. by eapply role_reserved. }
  all: unfold device_answer; destruct (isReservedMQTTClientID (mr_ClientID req)) eqn:Hres; [by intros [= <- <-]|];
    destruct (ParseDeviceUsername (mr_Username req)) as [[tenant device]|] eqn:Hparse; [|by intros [= <- <-]];
    destruct (AuthenticateDeviceContext tenant device (mr_Password req) w) as [auth w1] eqn:Ha;
    destruct auth; intros [= <- <-]; [|done];
    apply authenticate_true in Ha as (row & Hrow & Hv);
    apply device_username_valid in Hparse as (Hb & Ht & Hd);
    eapply admitted_device; [done..|]; intros b action topic Hlaws; cbn [ma_ACL];
    rewrite (device_acl_spec b tenant device action topic Hlaws);
    destruct (device_topics_built tenant device Ht Hd) as (-> & -> & ->); naive_solver.
Qed.

End handler.

(** The demo role is not scoped to one tenant: the tenant is cut out of the
    client id without validation, so whoever holds the service password and
    connects as iot-demo-+-1 is granted the wildcard filters of every tenant. *)
Theorem demo_role_wildcard :
  exists acl, internalMQTTRole "iot-demo-+-1" = Some ("demo", acl)
    /\ allow "publish" "tenant/+/device/+/telemetry" ∈ acl /\ allow "publish" "tenant/+/device/+/ack" ∈ acl
    /\ allow "subscribe" "tenant/+/device/+/command" ∈ acl.
Proof. eexists. split; [vm_compute; reflexivity|]. cbn. split_and!; set_solver. Qed.

(** ** An example *)
#[local] Existing Instance sample_unicode.
#[local] Existing Instance sample_pg.

Definition sample_request : HttpRequest := MkHttpRequest "POST" "callback" "body".
Definition sample_auth : MQTTAuthRequest := MkMQTTAuthRequest "acme:d1" "s" "sensor-1".

