(* ===== verification/Host.v ===== *)
(** * The world around a service

    A service acts on the database, on Kafka, on the MQTT broker, on TDengine
    and on its metrics.  An action that can fail takes its outcome from
    [outcomes] (success when they run out), and every action is an [Event] of
    the trace with whether it succeeded, so that the theorems can speak about
    what happened before what. *)
From stdpp Require Import prelude strings gmap.
From Stdlib Require Import ZArith Lia.
From S2P Require Import Prelude GoStrings Payload Domain Postgres PostgresStore.

Local Open Scope Z_scope.

(** dead_letter.go *)
Record DeadLetter := MkDeadLetter {
  dl_SourceTopic : string;
  dl_SourcePartition : Z;
  dl_SourceOffset : Z;
  dl_Key : string;
  dl_ValueBase64 : string;
  dl_Stage : string;
  dl_Error : error;
  dl_OccurredAt : string }.

(** mqtt_messages.go *)
Record CommandDownlink := MkCommandDownlink {
  cd_ID : string;
  cd_TenantID : string;
  cd_DeviceID : string;
  cd_Status : string;
  cd_Payload : string;
  cd_CreatedAt : Z;
  cd_UpdatedAt : Z }.

Record CommandAckMessage := MkCommandAckMessage {
  am_CommandID : string;
  am_TenantID : string;
  am_DeviceID : string;
  am_Status : string;
  am_ErrorCode : string;
  am_Payload : string }.

(** What is written to Kafka: bytes, or the JSON encoding of a record. *)
Inductive KValue :=
| VBytes (raw : string)
| VTelemetry (rec : TelemetryRecord)
| VCommand (cmd : Command)
| VDeadLetter (dl : DeadLetter).

(** A consumed Kafka message. *)
Record KMessage := MkKMessage {
  km_Topic : string;
  km_Partition : Z;
  km_Offset : Z;
  km_Key : string;
  km_Value : string;
  km_Time : Z }.

Inductive Action :=
| KafkaWrite (topic key : string) (value : KValue)
| CommitOffset (msg : KMessage)
| MqttAck
| MqttPublish (topic : string) (payload : CommandDownlink)
| TDengineWrite (rec : TelemetryRecord)
| Sleep (d : Z)
| Metric (name : string) (labels : list string)
| Fail (e : error).

Definition Event := (Action * bool)%type.

Record Host := MkHost { h_world : World; h_outcomes : list (option error) }.

(** A computation yields a value and the events it caused, in order. *)
Definition IO (A : Type) := Host -> A * Host * list Event.

#[export] Instance io_ret : MRet IO := fun A a h => (a, h, []).
#[export] Instance io_bind : MBind IO := fun A B f m h =>
  let '(a, h, l) := m h in
  let '(b, h, l') := f a h in
  (b, h, l ++ l').

Definition next_outcome (h : Host) : option error * Host :=
  match h_outcomes h with
  | [] => (None, h)
  | o :: os => (o, MkHost (h_world h) os)
  end.

(** An action that may fail, and one that cannot. *)
Definition attempt (a : Action) : IO (option error) := fun h =>
  let '(o, h) := next_outcome h in (o, h, [(a, match o with None => true | Some _ => false end)]).
Definition act (a : Action) : IO unit := fun h => (tt, h, [(a, true)]).

(** A method of the store. *)
Definition on_store {A} (op : Op A) : IO (result A) := fun h =>
  let '(r, w) := op (h_world h) in (r, MkHost w (h_outcomes h), []).

Definition inc (name : string) (labels : list string) : IO unit := act (Metric name labels).

(** ** Reasoning about runs *)
Lemma io_bind_inv {A B} (m : IO A) (f : A -> IO B) h b h' l :
  (m ≫= f) h = (b, h', l) ->
  exists a h1 l1 l2, m h = (a, h1, l1) /\ f a h1 = (b, h', l2) /\ l = l1 ++ l2.
Proof.
  unfold mbind, io_bind. destruct (m h) as [[a h1] l1] eqn:E1. destruct (f a h1) as [[b' h2] l2] eqn:E2.
  intros [= <- <- <-]. eauto 10.
Qed.

Lemma attempt_inv a h o h' l :
  attempt a h = (o, h', l) -> l = [(a, match o with None => true | Some _ => false end)] /\ h_world h' = h_world h.
Proof.
  unfold attempt, next_outcome. destruct (h_outcomes h); intros [= <- <- <-]; done.
Qed.

Lemma act_inv a h u h' l : act a h = (u, h', l) -> l = [(a, true)] /\ h' = h.
Proof. by intros [= <- <- <-]. Qed.

Lemma on_store_inv {A} (op : Op A) h r h' l :
  on_store op h = (r, h', l) -> op (h_world h) = (r, h_world h') /\ l = [].
Proof. unfold on_store. destruct (op (h_world h)). intros [= <- <- <-]. done. Qed.

Lemma io_ret_inv {A} (a b : A) h h' l : (mret a : IO A) h = (b, h', l) -> a = b /\ h' = h /\ l = [].
Proof. by intros [= <- <- <-]. Qed.

(** Splits a run into its steps. *)
Ltac io_inv H :=
  repeat match type of H with
  | (_ ≫= _) _ = (_, _, _) =>
      let a := fresh "a" in let h := fresh "h" in let l1 := fresh "l" in let l2 := fresh "l" in
      let H1 := fresh "Hrun" in let E := fresh "El" in
      apply io_bind_inv in H as (a & h & l1 & l2 & H1 & H & E)
  end.

Definition is_action (P : Action -> bool) (e : Event) : bool := P e.1 && e.2.

(** How many actions of a kind succeeded. *)
Definition count (P : Action -> bool) (l : list Event) : nat := length (filter (fun e => is_action P e = true) l).

Lemma count_app P l l' : count P (l ++ l') = (count P l + count P l')%nat.
Proof. unfold count. by rewrite filter_app, length_app. Qed.

Lemma count_cons P e l : count P (e :: l) = ((if is_action P e then 1 else 0) + count P l)%nat.
Proof. unfold count. rewrite filter_cons. destruct (is_action P e); by case_decide. Qed.

Lemma count_nil P : count P [] = 0%nat.
Proof. done. Qed.

Lemma count_pos P l : (0 < count P l)%nat <-> exists a, P a = true /\ (a, true) ∈ l.
Proof.
  induction l as [|[a b] l IH]; [split; [unfold count; simpl; lia|]; intros (a & _ & ?%elem_of_nil); done|].
  rewrite count_cons. unfold is_action at 1. simpl. setoid_rewrite elem_of_cons. split.
  - destruct (P a) eqn:Ha, b; simpl; try (intros Hc; destruct IH as [IH _]; destruct IH as (x & ? & ?); [lia|eauto]); eauto 6.
  - intros (x & Hx & [[= <- <-]|Hin]); [rewrite Hx; simpl; lia|]. destruct IH as [_ IH].
    assert (0 < count P l)%nat by eauto. lia.
Qed.

Definition is_ack (a : Action) : bool := match a with MqttAck => true | _ => false end.
Definition is_fail (a : Action) : bool := match a with Fail _ => true | _ => false end.
Definition is_commit (a : Action) : bool := match a with CommitOffset _ => true | _ => false end.
