(* ===== verification/StoreEffects.v ===== *)
(** * Which store calls a computation makes

    [makes P E m]: whatever round trips fail, running [m] changes the committed
    tables only through calls of the store that satisfy [P], and acts on the
    world only by actions that satisfy [E].  What a call can do to the commands
    is then said once per call, and not once per service that makes it. *)
From stdpp Require Import prelude strings gmap sorting.
From Stdlib Require Import ZArith Lia.
From S2P Require Import Prelude GoStrings Contracts CommandState GoJson Payload Domain Postgres PostgresStore PostgresCommands Lifecycle PostgresRefine StoreProperties Host.

Local Open Scope Z_scope.

Create HintDb effects.

Section effects.
Context `{Unicode} `{PgEnv}.

(** One call that satisfies [P], under any faults, and any number of them. *)
Definition call_effect (P : StoreCall -> Prop) (db db' : DB) : Prop :=
  exists c w, P c /\ committed w = db /\ committed (store_call c w) = db'.
Definition store_effect (P : StoreCall -> Prop) : relation DB := rtc (call_effect P).

Definition makes {A} (P : StoreCall -> Prop) (E : Action -> Prop) (m : IO A) : Prop := forall h a h' l,
  m h = (a, h', l) ->
  store_effect P (committed (h_world h)) (committed (h_world h')) /\ Forall (fun e : Event => E e.1) l.

(** ** What a call can do to the commands *)

(** The text the store keeps of a requested payload, and of a result. *)
Definition stored_payload (payload stored : string) : Prop :=
  exists normalized, jsonb_cast (if len payload =? 0 then "{}" else payload) = Ok normalized /\ jsonb_cast normalized = Ok stored.
Definition result_text (input : CommandResult) (stored : string) : Prop :=
  exists normalized encoded, NormalizeCommandResult input = Ok normalized /\ marshal_result normalized = Ok encoded
    /\ jsonb_cast encoded = Ok stored.

(** No command comes or goes, and each keeps what its request fixed and its
    result. *)
Definition rows_kept (db db' : DB) : Prop := forall id,
  match commands db !! id, commands db' !! id with
  | None, None => True
  | Some row, Some row' => same_identity row row' /\ cr_result row' = cr_result row
  | _, _ => False
  end.

#[export] Instance rows_kept_preorder : PreOrder rows_kept.
Proof.
  split; intros x; [intros id; by destruct (commands x !! id)|].
  intros y z Hxy Hyz id. specialize (Hxy id). specialize (Hyz id). unfold same_identity in *.
  destruct (commands x !! id), (commands y !! id), (commands z !! id); try done. naive_solver congruence.
Qed.

Lemma rows_kept_same db db' : commands db' = commands db -> rows_kept db db'.
Proof. intros Heq id. rewrite Heq. by destruct (commands db !! id). Qed.

Lemma rows_kept_update ids f db es :
  (forall row, same_identity row (f row) /\ cr_result (f row) = cr_result row) ->
  rows_kept db (add_events es (set_commands (update_rows ids f (commands db)) db)).
Proof.
  intros Hf id. simpl. rewrite lookup_update_rows. destruct (commands db !! id) as [row|]; [|done]. simpl.
  case_bool_decide; [apply Hf|done].
Qed.

Lemma rows_kept_with_event changed f event db n db' :
  (forall row, same_identity row (f row) /\ cr_result (f row) = cr_result row) ->
  updateCommandsWithEvent changed f event db = Ok (n, db') -> rows_kept db db'.
Proof. intros Hf [= _ <-]. by apply rows_kept_update. Qed.

Definition creates_or_acks (c : StoreCall) : bool :=
  match c with CallCreateCommand _ _ _ _ _ _ | CallAck _ _ _ _ _ => true | _ => false end.

Lemma create_device_tx_commands now d db r db' : meaning (create_device_tx now d) db = (r, db') -> commands db' = commands db.
Proof.
  unfold meaning, create_device_tx, sql_insert_device, sql_init_device_state, sql_tenant_exists, query. intros Hm.
  cbn [tx_meaning mbind result_bind] in Hm. repeat (case_match; simplify_eq/=; try done).
Qed.

Lemma restore_tx_commands now rec db r db' : meaning (restore_telemetry_tx now rec) db = (r, db') -> commands db' = commands db.
Proof.
  unfold meaning, restore_telemetry_tx, requireDevice. intros Hm. cbn [tx_meaning] in Hm.
  destruct (sql_device_exists _ _ db) as [[b db1]|] eqn:S1; [|by injection Hm as _ <-]. tx_query S1 as _.
  destruct b; cbn [negb tx_meaning] in Hm; [|by injection Hm as _ <-].
  destruct (sql_jsonb _ db) as [[n db2]|] eqn:S2; [|by injection Hm as _ <-]. tx_query S2 as _.
  destruct (ValidateTelemetryPayload n); [|by injection Hm as _ <-].
  destruct (marshal_raw _) as [p|]; [|by injection Hm as _ <-]. cbn [tx_meaning] in Hm.
  destruct (sql_insert_telemetry rec p db) as [[k db3]|] eqn:S3; [|by injection Hm as _ <-].
  assert (Hc : commands db3 = commands db).
  { apply result_bind_ok in S3 as (x & _ & S3). by destruct (telemetry_records db !! _); injection S3 as _ <-. }
  destruct (k =? 0); cbn [tx_meaning] in Hm.
  - by destruct (sql_get_telemetry _ db3) as [[st db4]|]; injection Hm as _ <-.
  - destruct (sql_mark_seen rec now db3) as [[u db4]|] eqn:S4; injection Hm as _ <-; [|done].
    rewrite <- Hc. unfold sql_mark_seen in S4. by repeat case_match; simplify_eq/=.
Qed.

(** Every other call keeps the rows. *)
Lemma store_call_rows_kept c w : creates_or_acks c = false -> rows_kept (committed w) (committed (store_call c w)).
Proof.
  assert (Hop : forall A (op : Op A), op_rel rows_kept op -> rows_kept (committed w) (committed (op w).2)).
  { intros A op Ho. destruct (op w) as [r w'] eqn:E. by apply Ho in E. }
  destruct c as [t|now d|now rec|m t d| | |l n lim lease|n id a|n id dl|n id a r|n id r|l n g|l1 l2 n1 n2 b]; try done; intros _;
    apply Hop.
  - unfold CreateTenantContext. refine_steps. apply op_rel_exec; [apply _|]. intros db u db' Hs. apply rows_kept_same.
    unfold sql_insert_tenant in Hs. by case_match; simplify_eq.
  - unfold CreateDeviceContext. refine_steps. apply op_rel_tx; [apply _|].
    intros db r db' Hm. by eapply rows_kept_same, create_device_tx_commands.
  - unfold RestoreTelemetryContext. refine_steps. apply op_rel_tx; [apply _|].
    intros db r db' Hm. by eapply rows_kept_same, restore_tx_commands.
  - apply op_rel_exec; [apply _|]. intros db a db' [= <- <-]. by apply rows_kept_same.
  - unfold ClaimCommandsForDispatchContext. refine_steps. apply op_rel_exec; [apply _|].
    intros db a db' (x & _ & [= <- <-])%result_bind_ok. rewrite <- (add_no_events (set_commands _ _)). by apply rows_kept_update.
  - apply op_rel_exec; [apply _|]. intros db k db'. by apply rows_kept_with_event.
  - apply op_rel_exec; [apply _|]. intros db k db'. by apply rows_kept_with_event.
  - apply op_rel_exec; [apply _|]. intros db a0 db' (x & _ & [= <- <-])%result_bind_ok.
    rewrite <- (add_no_events (set_commands _ _)). by apply rows_kept_update.
  - apply op_rel_exec; [apply _|]. intros db k db' (x & _ & Hu)%result_bind_ok. by eapply rows_kept_with_event, Hu.
  - apply op_rel_exec; [apply _|]. intros db k db' (x & _ & Hu)%result_bind_ok. by eapply rows_kept_with_event, Hu.
  - unfold RecoverStaleCommandsContext. refine_steps; (apply op_rel_exec; [apply _|]);
      intros db k db' Hu; by eapply rows_kept_with_event, Hu.
Qed.

(** A creation adds the requested row or nothing. *)
Definition row_requested (t d payload : string) (row : CommandRow) : Prop :=
  cr_tenant_id row = t /\ cr_device_id row = d /\ stored_payload payload (cr_payload row) /\ cr_result row = None.

Lemma create_tx_rows now newID t d key payload db r db' :
  meaning (create_command_tx now newID t d key payload) db = (r, db') ->
  commands db' = commands db
  \/ exists id row, newID = Ok id /\ commands db !! id = None /\ commands db' = <[id := row]> (commands db)
       /\ row_requested t d payload row.
Proof.
  unfold meaning, create_command_tx, requireDevice. intros Hm. cbn [tx_meaning] in Hm.
  destruct (sql_device_exists _ _ db) as [[b db1]|] eqn:S1; [|by injection Hm as _ <-; left]. tx_query S1 as _.
  destruct b; cbn [negb tx_meaning] in Hm; [|by injection Hm as _ <-; left].
  destruct (sql_jsonb _ db) as [[n db2]|] eqn:S2; [|by injection Hm as _ <-; left]. tx_query S2 as Hn.
  destruct (ValidateCommandInput t d n); [|by injection Hm as _ <-; left].
  destruct newID as [id|]; [|by injection Hm as _ <-; left]. cbn [tx_meaning] in Hm.
  destruct (sql_insert_command _ now key db) as [[st db3]|] eqn:S3; [|by injection Hm as _ <-; left].
  apply insert_command_inv in S3 as [(k & found & -> & -> & _)|(stored & -> & Hnew & Hst & _ & ->)].
  - left. cbn [tx_meaning] in Hm. destruct (sql_find_command _ _ _ _ db) as [[[[id' row] ok] db4]|] eqn:S4; [|by injection Hm as _ <-].
    tx_query S4 as _. destruct ok; cbn [negb tx_meaning] in Hm; [|by injection Hm as _ <-].
    by destruct (scanCommandRow id' row); injection Hm as _ <-.
  - right. cbn in Hm, Hnew, Hst. injection Hm as _ <-. eexists id, _. unfold row_requested. split_and!; try done. by exists n.
Qed.

Lemma create_call_rows now newID t d key payload w :
  let db := committed w in
  let db' := committed (store_call (CallCreateCommand now newID t d key payload) w) in
  commands db' = commands db
  \/ exists id row, newID = Ok id /\ commands db !! id = None /\ commands db' = <[id := row]> (commands db)
       /\ row_requested t d payload row.
Proof.
  cbv zeta. unfold store_call, CreateCommandWithKey, mbind, op_bind, check.
  destruct (ValidateCommandInput t d payload); [|by left]. destruct (ValidateIdempotencyKey key); [|by left].
  destruct (BeginTx _ w) as [r w'] eqn:Ho. apply begin_tx_atomic in Ho. destruct (meaning _ _) as [r0 db'] eqn:Hm.
  apply create_tx_rows in Hm. simpl in Ho |- *. destruct Ho as [[_ ->]|[_ [->| ->]]]; [done|by left|done].
Qed.

(** An acknowledgement settles one command, of the device it is for, or
    changes nothing. *)
Lemma ack_tx_rows now id t d n encoded db r db' :
  meaning (ack_command_tx now id t d n encoded) db = (r, db') ->
  commands db' = commands db
  \/ exists row row' res, commands db !! id = Some row /\ cr_tenant_id row = t /\ cr_device_id row = d
       /\ commands db' = <[id := row']> (commands db) /\ same_identity row row'
       /\ cr_result row' = Some res /\ jsonb_cast encoded = Ok res.
Proof.
  unfold meaning, ack_command_tx. intros Hm. cbn [tx_meaning] in Hm.
  destruct (sql_get_command id db) as [[o db1]|] eqn:S1; [|by injection Hm as _ <-; left]. tx_query S1 as [= Hrow].
  destruct o as [row|]; [|by injection Hm as _ <-; left]. destruct (scanCommandRow id row) as [cmd|] eqn:Hscan; [|by injection Hm as _ <-; left].
  apply scan_row_fields in Hscan as (_ & Et & Ed & _).
  destruct (_ || _) eqn:Hid; [by injection Hm as _ <-; left|].
  apply orb_false_iff in Hid as [Ht%negb_false_iff%String.eqb_eq Hd%negb_false_iff%String.eqb_eq].
  destruct (is_terminal_status _).
  { left. destruct (cmd_Result cmd); [|by injection Hm as _ <-]. cbn [tx_meaning] in Hm.
    destruct (sql_result_equals id encoded db) as [[eq db2]|] eqn:S2; [|by injection Hm as _ <-]. tx_query S2 as _.
    by destruct eq; injection Hm as _ <-. }
  destruct (AdvanceCommandStatus _ _) as [next|]; [|by injection Hm as _ <-; left]. cbn [tx_meaning] in Hm.
  unfold sql_set_result, sql_insert_ack, sql_insert_event_detail in Hm.
  destruct (jsonb_cast encoded) as [e|]; cbn [mbind result_bind tx_meaning] in Hm; [|by injection Hm as _ <-; left].
  injection Hm as _ <-. right. simpl. rewrite (alter_some_insert _ _ _ row) by done.
  eexists row, _, e. split_and!; [done|congruence|congruence|done..].
Qed.

Lemma ack_call_rows now id t d input w :
  let db := committed w in
  let db' := committed (store_call (CallAck now id t d input) w) in
  commands db' = commands db
  \/ exists row row' res, commands db !! id = Some row /\ cr_tenant_id row = t /\ cr_device_id row = d
       /\ commands db' = <[id := row']> (commands db) /\ same_identity row row'
       /\ cr_result row' = Some res /\ result_text input res.
Proof.
  cbv zeta. unfold store_call, AckCommandResultContext, mbind, op_bind, check.
  destruct (ValidateDeviceIdentity t d); [|by left]. destruct (ValidateCommandID id); [|by left].
  destruct (NormalizeCommandResult input) as [n|] eqn:Hn; [|by left]. destruct (marshal_result n) as [enc|] eqn:He; [|by left].
  destruct (BeginTx _ w) as [r w'] eqn:Ho. apply begin_tx_atomic in Ho. destruct (meaning _ _) as [r0 db'] eqn:Hm.
  apply ack_tx_rows in Hm. simpl in Ho |- *.
  assert (Hdb : committed w' = committed w \/ committed w' = db') by (destruct Ho as [[_ ->]|[_ [->| ->]]]; auto).
  destruct Hdb as [-> | ->]; [by left|]. destruct Hm as [?|(row & row' & res & ? & ? & ? & ? & ? & ? & ?)]; [by left|].
  right. exists row, row', res. split_and!; [done..|]. by exists n, enc.
Qed.

(** ** Where a command and its result come from *)
Definition created_by (P : StoreCall -> Prop) (id : string) (row : CommandRow) : Prop :=
  exists now key payload, P (CallCreateCommand now (Ok id) (cr_tenant_id row) (cr_device_id row) key payload)
    /\ stored_payload payload (cr_payload row).
Definition settled_by (P : StoreCall -> Prop) (id : string) (row : CommandRow) (res : string) : Prop :=
  exists now input, P (CallAck now id (cr_tenant_id row) (cr_device_id row) input) /\ result_text input res.

Record row_origin (P : StoreCall -> Prop) (db : DB) (id : string) (row' : CommandRow) : Prop := {
  ro_identity : (exists row, commands db !! id = Some row /\ same_identity row row') \/ created_by P id row';
  ro_result : forall res, cr_result row' = Some res ->
    (exists row, commands db !! id = Some row /\ cr_result row = Some res) \/ settled_by P id row' res }.

Lemma rows_kept_origin P db db' id row' : rows_kept db db' -> commands db' !! id = Some row' -> row_origin P db id row'.
Proof.
  intros Hk Hrow. specialize (Hk id). rewrite Hrow in Hk. destruct (commands db !! id) as [row|] eqn:E; [|done].
  destruct Hk as [? Hres]. split; [eauto|]. intros res Hr. left. exists row. split; [done|congruence].
Qed.

Lemma call_origin P db db' id row' : call_effect P db db' -> commands db' !! id = Some row' -> row_origin P db id row'.
Proof.
  intros (c & w & Hc & <- & <-) Hrow. destruct (creates_or_acks c) eqn:Hca.
  2:{ eapply rows_kept_origin; [|exact Hrow]. by apply store_call_rows_kept. }
  destruct c as [| | | |now newID t d key payload|now id0 t d input| | | | | | |]; try done.
  - destruct (create_call_rows now newID t d key payload w) as [Heq|(i & row & -> & Hnew & Heq & Ht & Hd & Hp & Hr)].
    { by eapply rows_kept_origin; [apply rows_kept_same|]. }
    rewrite Heq in Hrow. apply lookup_insert_Some in Hrow as [[-> <-]|[Hne Hrow]].
    + split; [right; exists now, key, payload; by rewrite Ht, Hd|]. congruence.
    + split; [left; by exists row'|eauto].
  - destruct (ack_call_rows now id0 t d input w) as [Heq|(row & r' & res & Hrow0 & Ht & Hd & Heq & Hid & Hr & Hres)].
    { by eapply rows_kept_origin; [apply rows_kept_same|]. }
    rewrite Heq in Hrow. apply lookup_insert_Some in Hrow as [[-> <-]|[Hne Hrow]].
    + split; [left; by exists row|]. intros res' Hr'. right. destruct Hid as (Et & Ed & _).
      exists now, input. rewrite Et, Ed, Ht, Hd. by simplify_eq.
    + split; [left; by exists row'|eauto].
Qed.

Lemma created_by_identity P id row row' : same_identity row row' -> created_by P id row -> created_by P id row'.
Proof. unfold created_by. by intros (-> & -> & -> & _). Qed.

Lemma effect_lifecycle P db db' : store_effect P db db' -> rtc lifecycle_step db db'.
Proof.
  induction 1 as [|x y z (c & w & _ & <- & <-) _ IH]; [apply rtc_refl|]. etrans; [apply store_call_lifecycle|exact IH].
Qed.

(** A row and its result were there before, or one of the calls made them. *)
Lemma effect_origin P db db' id row' : store_effect P db db' -> commands db' !! id = Some row' -> row_origin P db id row'.
Proof.
  intros Hs. revert row'. induction Hs as [db|db db1 db' H1 Hs IH]; intros row' Hrow.
  { split; [left; by exists row'|eauto]. }
  destruct (IH _ Hrow) as [Hident Hres]. split.
  - destruct Hident as [(row1 & Hrow1 & Hid)|?]; [|by right].
    destruct (call_origin _ _ _ _ _ H1 Hrow1) as [[(row & Hrow0 & Hid0)|Hc] _].
    + left. exists row. split; [done|]. unfold same_identity in *. naive_solver congruence.
    + right. by eapply created_by_identity.
  - intros res Hr. destruct (Hres res Hr) as [(row1 & Hrow1 & Hr1)|?]; [|by right].
    destruct (call_origin _ _ _ _ _ H1 Hrow1) as [_ Hor]. destruct (Hor res Hr1) as [?|Hset]; [by left|right].
    destruct (lifecycle_steps_identity _ _ _ _ (effect_lifecycle _ _ _ Hs) Hrow1) as (row2 & Hrow2 & (Et & Ed & _)).
    simplify_eq. unfold settled_by. by rewrite Et, Ed.
Qed.

(** ** Composition *)
Lemma store_effect_mono (P Q : StoreCall -> Prop) db db' :
  (forall c, P c -> Q c) -> store_effect P db db' -> store_effect Q db db'.
Proof.
  intros HPQ. induction 1 as [|x y z (c & w & Hc & ? & ?) _ IH]; [apply rtc_refl|].
  eapply rtc_l; [|exact IH]. exists c, w. auto.
Qed.

Lemma store_effect_call (P : StoreCall -> Prop) c w : P c -> store_effect P (committed w) (committed (store_call c w)).
Proof. intros Hc. apply rtc_once. exists c, w. done. Qed.

Lemma makes_mono {A} (P Q : StoreCall -> Prop) (E F : Action -> Prop) (m : IO A) :
  (forall c, P c -> Q c) -> (forall a, E a -> F a) -> makes P E m -> makes Q F m.
Proof.
  intros HPQ HEF Hm h a h' l [Hs Hl]%Hm. split; [by eapply store_effect_mono|].
  eapply Forall_impl; [exact Hl|]. auto.
Qed.

Lemma makes_bind {A B} P E (m : IO A) (f : A -> IO B) :
  makes P E m -> (forall a, makes P E (f a)) -> makes P E (m ≫= f).
Proof.
  intros Hm Hf h b h' l (a & h1 & l1 & l2 & [H1 L1]%Hm & [H2 L2]%Hf & ->)%io_bind_inv.
  split; [by etrans|by apply Forall_app].
Qed.

Lemma makes_ret {A} P E (a : A) : makes P E (mret a).
Proof. intros h b h' l (_ & -> & ->)%io_ret_inv. split; [apply rtc_refl|done]. Qed.

Lemma makes_attempt P (E : Action -> Prop) a : E a -> makes P E (attempt a).
Proof. intros Ha h o h' l [-> ->]%attempt_inv. split; [apply rtc_refl|by constructor]. Qed.

Lemma makes_act P (E : Action -> Prop) a : E a -> makes P E (act a).
Proof. intros Ha h o h' l [-> ->]%act_inv. split; [apply rtc_refl|by constructor]. Qed.

(** A method that writes, and one that only reads. *)
Lemma makes_call {A} (P : StoreCall -> Prop) E (op : Op A) c :
  (forall w, (op w).2 = store_call c w) -> P c -> makes P E (on_store op).
Proof.
  intros Hop Hc h r h' l [Hr ->]%on_store_inv. split; [|done].
  specialize (Hop (h_world h)). rewrite Hr in Hop. simpl in Hop. rewrite Hop. by apply store_effect_call.
Qed.

Lemma makes_read {A} P E (op : Op A) : op_rel eq op -> makes P E (on_store op).
Proof. intros Hop h r h' l [->%Hop ->]%on_store_inv. split; [apply rtc_refl|done]. Qed.
End effects.

#[export] Hint Resolve makes_ret makes_attempt makes_act : effects.

(** Splits a handler into its calls and its actions. *)
Ltac effect_steps :=
  repeat first
    [ solve [eauto with effects]
    | match goal with
      | |- makes _ _ (_ ≫= _) => apply makes_bind; [|intros ?]
      | |- makes _ _ (if ?b then _ else _) => destruct b eqn:?
      | |- makes _ _ (match ?x with _ => _ end) => destruct x eqn:?
      end ].
