(* ===== verification/Demo.v ===== *)
(** * The demo simulator: internal/demo/{service,runtime}.go

    It creates a topology of tenants and devices through the management API, an
    MQTT client per tenant that acknowledges commands, and then emits bursts of
    telemetry and commands.  The service has metrics, as [Run] gives it.  Calls
    to the API and to the broker take their outcome from a list; [draw k n] is
    the outcome of the call [rng.Intn n] that [k] names. *)
From stdpp Require Import prelude strings gmap.
From Stdlib Require Import ZArith Lia Ascii.
From S2P Require Import Prelude GoStrings Contracts CommandState GoJson Payload Domain GoNet RuntimeConfig Host.

Local Open Scope Z_scope.

Record Config := MkConfig {
  dc_TenantCount : Z;
  dc_DevicesPerTenant : Z;
  dc_TenantPrefix : string;
  dc_ProductID : string;
  dc_TickInterval : Z;
  dc_TelemetryBurstMin : Z;
  dc_TelemetryBurstMax : Z;
  dc_CommandBurstMin : Z;
  dc_CommandBurstMax : Z }.

Definition normalizeConfig (cfg : Config) : Config :=
  let pos n fallback := if n <=? 0 then fallback else n in
  let text s fallback := if String.eqb (trim_space s) "" then fallback else s in
  let tmin := pos (dc_TelemetryBurstMin cfg) 1 in
  let cmin := pos (dc_CommandBurstMin cfg) 1 in
  MkConfig (pos (dc_TenantCount cfg) 3) (pos (dc_DevicesPerTenant cfg) 10)
    (text (dc_TenantPrefix cfg) "demo") (text (dc_ProductID cfg) "product-demo") (pos (dc_TickInterval cfg) (250 * Millisecond))
    tmin (Z.max (dc_TelemetryBurstMax cfg) tmin) cmin (Z.max (dc_CommandBurstMax cfg) cmin).

(** runtime.go: what [Run] reads from the environment. *)
Definition demo_config (env : Env) : Config :=
  MkConfig (Int env "DEMO_TENANT_COUNT" 5) (Int env "DEMO_DEVICES_PER_TENANT" 10)
    (EnvOrDefault env "DEMO_TENANT_PREFIX" "demo") (EnvOrDefault env "DEMO_PRODUCT_ID" "product-demo")
    (Duration env "DEMO_TICK_INTERVAL" (250 * Millisecond))
    (Int env "DEMO_TELEMETRY_BURST_MIN" 1) (Int env "DEMO_TELEMETRY_BURST_MAX" 5)
    (Int env "DEMO_COMMAND_BURST_MIN" 1) (Int env "DEMO_COMMAND_BURST_MAX" 3).

Definition Draws := nat -> Z -> Z.

(** [draw n] is [rng.Intn n]. *)
Definition burstInRange (draw : Z -> Z) (min max : Z) : Z :=
  let min := if min <? 1 then 1 else min in
  let max := if max <? min then min else max in
  if max =? min then min else min + draw (max - min + 1).

Record demoDevice := MkDemoDevice { dd_TenantID : string; dd_DeviceID : string; dd_ProductID : string }.
Record demoTenant := MkDemoTenant { dt_ID : string; dt_Name : string; dt_Devices : list demoDevice }.

(** What is published: the fields of a message that the service chooses. *)
Inductive DemoBody :=
| TelemetryBody (tenant device : string) (temp noise : Z)
| AckBody (ack : CommandAckMessage).

(** What the simulator does, with whether it succeeded. *)
Inductive DemoAct :=
| CreateTenant (id name : string)
| CreateDevice (tenant device product : string)
| CreateCommand (tenant device : string)
| NewClient (tenant : string)
| Subscribe (tenant topic : string)
| CloseBus (tenant : string)
| Publish (tenant topic : string) (body : DemoBody)
| Count (kind result : string)
| Topology (tenants devices agents : Z).

Record DemoWorld := MkDemoWorld { dw_outcomes : list (option error) }.
Definition DemoM (A : Type) := DemoWorld -> A * DemoWorld * list (DemoAct * bool).

#[export] Instance demo_ret : MRet DemoM := fun A a w => (a, w, []).
#[export] Instance demo_bind : MBind DemoM := fun A B f m w =>
  let '(a, w1, l) := m w in let '(b, w2, l') := f a w1 in (b, w2, l ++ l').

Definition demo_act (a : DemoAct) : DemoM unit := fun w => (tt, w, [(a, true)]).
Definition demo_attempt (a : DemoAct) : DemoM (option error) := fun w =>
  match dw_outcomes w with
  | [] => (None, w, [(a, true)])
  | o :: rest => (o, MkDemoWorld rest, [(a, match o with None => true | Some _ => false end)])
  end.

(** The service; [ds_agents] are the tenants that have an agent, each with its
    open bus and its devices. *)
Record Service := MkService {
  ds_cfg : Config;
  ds_api : bool;
  ds_factory : bool;
  ds_tenants : list demoTenant;
  ds_agents : list (string * list string) }.

Definition NewService (cfg : Config) (api factory : bool) : Service := MkService (normalizeConfig cfg) api factory [] [].

(** ** EnsureTopology *)
Definition tenant_id (cfg : Config) (ti : Z) : string := dc_TenantPrefix cfg +:+ "-tenant-" +:+ Itoa ti.
Definition device_id (cfg : Config) (ti di : Z) : string := dc_TenantPrefix cfg +:+ "-device-" +:+ Itoa ti +:+ "-" +:+ Itoa di.

(** One call to the API, when there is one, and its metric. *)
Definition topology_call (api : bool) (a : DemoAct) : DemoM (option error) :=
  err ← (if api then demo_attempt a else mret None);
  match err with
  | Some e => _ ← demo_act (Count "topology" "error"); mret (Some e)
  | None => _ ← demo_act (Count "topology" "ok"); mret None
  end.

(** [n] devices from index [di] on. *)
Fixpoint create_devices (cfg : Config) (api : bool) (ti di : Z) (n : nat) : DemoM (result (list demoDevice)) :=
  match n with
  | O => mret (Ok [])
  | S n' =>
    let dev := MkDemoDevice (tenant_id cfg ti) (device_id cfg ti di) (dc_ProductID cfg) in
    err ← topology_call api (CreateDevice (dd_TenantID dev) (dd_DeviceID dev) (dd_ProductID dev));
    match err with
    | Some e => mret (Err e)
    | None =>
      rest ← create_devices cfg api ti (di + 1) n';
      mret (match rest with Ok devs => Ok (dev :: devs) | Err e => Err e end)
    end
  end.

Fixpoint create_tenants (cfg : Config) (api : bool) (ti : Z) (n : nat) : DemoM (result (list demoTenant)) :=
  match n with
  | O => mret (Ok [])
  | S n' =>
    let id := tenant_id cfg ti in
    let name := "Demo Tenant " +:+ Itoa (ti + 1) in
    err ← topology_call api (CreateTenant id name);
    match err with
    | Some e => mret (Err e)
    | None =>
      devices ← create_devices cfg api ti 0 (Z.to_nat (dc_DevicesPerTenant cfg));
      match devices with
      | Err e => mret (Err e)
      | Ok devices =>
        rest ← create_tenants cfg api (ti + 1) n';
        mret (match rest with Ok ts => Ok (MkDemoTenant id name devices :: ts) | Err e => Err e end)
      end
    end
  end.

Definition closeAgents (agents : list (string * list string)) : DemoM unit := fun w =>
  (tt, w, map (fun agent => (CloseBus agent.1, true)) agents).

(** [subscribe]: the filter of the tenant's commands. *)
Definition agent_subscribe (tenant : string) : DemoM (option error) :=
  match BuildTenantCommandTopicFilter tenant with
  | Err e => mret (Some e)
  | Ok topic => demo_attempt (Subscribe tenant topic)
  end.

(** A client per tenant, after the agents made so far. *)
Fixpoint create_agents (agents : list (string * list string)) (tenants : list demoTenant) : DemoM (result (list (string * list string))) :=
  match tenants with
  | [] => mret (Ok agents)
  | tenant :: rest =>
    err ← demo_attempt (NewClient (dt_ID tenant));
    match err with
    | Some e => _ ← closeAgents agents; mret (Err e)
    | None =>
      err ← agent_subscribe (dt_ID tenant);
      match err with
      | Some e => _ ← demo_act (CloseBus (dt_ID tenant)); _ ← closeAgents agents; mret (Err e)
      | None => create_agents (agents ++ [(dt_ID tenant, map dd_DeviceID (dt_Devices tenant))]) rest
      end
    end
  end.

Definition EnsureTopology (s : Service) : DemoM (option error * Service) :=
  let ready := match ds_tenants s with [] => false | _ => negb (ds_factory s) || match ds_agents s with [] => false | _ => true end end in
  if ready then mret (None, s)
  else
    tenants ← create_tenants (ds_cfg s) (ds_api s) 0 (Z.to_nat (dc_TenantCount (ds_cfg s)));
    match tenants with
    | Err e => mret (Some e, s)
    | Ok tenants =>
      agents ← (if ds_factory s then create_agents [] tenants else mret (Ok []));
      match agents with
      | Err e => mret (Some e, s)
      | Ok agents =>
        let devices := foldr (fun t n => Z.of_nat (length (dt_Devices t)) + n) 0 tenants in
        _ ← demo_act (Topology (Z.of_nat (length tenants)) devices (Z.of_nat (length agents)));
        mret (None, MkService (ds_cfg s) (ds_api s) (ds_factory s) tenants agents)
      end
    end.

(** ** Emitting *)

(** The element of a list that the draw [k] picks; none of an empty list. *)
Definition draw_of {A} (draw : Draws) (k : nat) (l : list A) : option A :=
  match l with [] => None | _ => l !! Z.to_nat (draw k (Z.of_nat (length l))) end.

Definition pick_device (draw : Draws) (k : nat) (s : Service) : option (demoTenant * demoDevice) :=
  tenant ← draw_of draw k (ds_tenants s); device ← draw_of draw (S k) (dt_Devices tenant); Some (tenant, device).

Definition has_agent (s : Service) (tenant : string) : bool := existsb (fun a => String.eqb a.1 tenant) (ds_agents s).

Definition EmitTelemetry (draw : Draws) (k : nat) (s : Service) : DemoM (option error) :=
  match pick_device draw k s with
  | None => mret None
  | Some (tenant, device) =>
    match BuildTelemetryTopic (dt_ID tenant) (dd_DeviceID device) with
    | Err e => _ ← demo_act (Count "telemetry" "error"); mret (Some e)
    | Ok topic =>
      if negb (has_agent s (dt_ID tenant)) then mret None
      else
        let body := TelemetryBody (dt_ID tenant) (dd_DeviceID device) (20 + draw (k + 2)%nat 10) (draw (k + 3)%nat 1000) in
        err ← demo_attempt (Publish (dt_ID tenant) topic body);
        match err with
        | Some e => _ ← demo_act (Count "telemetry" "error"); mret (Some e)
        | None => _ ← demo_act (Count "telemetry" "ok"); mret None
        end
    end
  end.

Definition EmitCommand (draw : Draws) (k : nat) (s : Service) : DemoM (option error) :=
  match pick_device draw k s with
  | None => mret None
  | Some (tenant, device) =>
    if negb (ds_api s) then mret None
    else
      err ← demo_attempt (CreateCommand (dt_ID tenant) (dd_DeviceID device));
      match err with
      | Some e => _ ← demo_act (Count "command" "error"); mret (Some e)
      | None => _ ← demo_act (Count "command" "ok"); mret None
      end
  end.

(** [n] emissions, each with four names of draws from [k] on; an error is logged only. *)
Fixpoint repeat_emit (n k : nat) (emit : nat -> DemoM (option error)) : DemoM unit :=
  match n with O => mret tt | S n' => _ ← emit k; repeat_emit n' (k + 4)%nat emit end.

Definition runBurst (draw : Draws) (s : Service) : DemoM unit :=
  let telemetryBurst := Z.to_nat (burstInRange (draw 0%nat) (dc_TelemetryBurstMin (ds_cfg s)) (dc_TelemetryBurstMax (ds_cfg s))) in
  let commandBurst := Z.to_nat (burstInRange (draw 1%nat) (dc_CommandBurstMin (ds_cfg s)) (dc_CommandBurstMax (ds_cfg s))) in
  _ ← repeat_emit telemetryBurst 2 (fun k => EmitTelemetry draw k s);
  repeat_emit commandBurst (2 + 4 * telemetryBurst) (fun k => EmitCommand draw k s).

(** [waitForTopology]: the delay after a failed attempt doubles. *)
Definition next_backoff (backoff : Z) : Z := if backoff <? 5 * Second then backoff * 2 else backoff.

(** The delays of the attempts, each after one more failure. *)
Definition topology_backoff (failures : nat) : Z := Nat.iter failures next_backoff (500 * Millisecond).

(** The callback of an agent: acknowledges the command it was sent.
    [unmarshal] decodes a [CommandDownlink]. *)
Definition agent_ack (unmarshal : string -> result CommandDownlink) (bus : string) (payload : string) : DemoM (option CommandAckMessage) :=
  match unmarshal payload with
  | Err _ => mret None
  | Ok downlink =>
    match BuildAckTopic (cd_TenantID downlink) (cd_DeviceID downlink) with
    | Err _ => _ ← demo_act (Count "ack" "error"); mret None
    | Ok ackTopic =>
      let ack := MkCommandAckMessage (cd_ID downlink) (cd_TenantID downlink) (cd_DeviceID downlink) "acked" "" "" in
      err ← demo_attempt (Publish bus ackTopic (AckBody ack));
      match err with
      | Some _ => _ ← demo_act (Count "ack" "error"); mret None
      | None => _ ← demo_act (Count "ack" "ok"); mret (Some ack)
      end
    end
  end.

(** ** Topics *)
Fixpoint parts_match (pattern topic : list string) : bool :=
  match pattern, topic with
  | [], [] => true
  | p :: ps, t :: ts => (String.eqb p "+" || String.eqb p t) && parts_match ps ts
  | _, _ => false
  end.

Definition topicMatches (pattern topic : string) : bool := parts_match (split_byte "/" pattern) (split_byte "/" topic).

(** runtime.go: the handlers of the patterns a message matches. *)
Definition bus_handle {H} (subs : list (string * H)) (topic : string) : list H :=
  map snd (List.filter (fun sub => topicMatches sub.1 topic) subs).

(** The outcome of [postJSON] from the status of the answer; [out] is the
    outcome of decoding its body, when the caller wants it. *)
Definition post_outcome (okStatuses : list Z) (status : Z) (out : option (option error)) : option error :=
  if existsb (Z.eqb status) okStatuses then None
  else if (status <? 200) || (300 <=? status) then Some [Opaque "unexpected status"]
  else match out with None => None | Some decoded => decoded end.

(** The factory of the buses. *)
Record mqttBusFactory := MkFactory { mf_BrokerURL : string; mf_ClientPref : string; mf_closed : bool; mf_buses : list string }.

Definition newMQTTBusFactory (BrokerURL ClientPref : string) : result mqttBusFactory :=
  if String.eqb BrokerURL "" then Err [Opaque "DEMO_MQTT_URL is required"]
  else Ok (MkFactory BrokerURL (if String.eqb ClientPref "" then "iot-demo" else ClientPref) false []).

(** [connected] is the outcome of connecting. *)
Definition factory_NewClient (connected : option error) (f : mqttBusFactory) (tenant : string) : option error * mqttBusFactory :=
  if mf_closed f then (Some [Opaque "mqtt factory closed"], f)
  else match connected with
       | Some e => (Some e, f)
       | None => (None, MkFactory (mf_BrokerURL f) (mf_ClientPref f) false (mf_buses f ++ [tenant]))
       end.

Definition factory_Close (f : mqttBusFactory) : mqttBusFactory * list (DemoAct * bool) :=
  (MkFactory (mf_BrokerURL f) (mf_ClientPref f) true (mf_buses f), map (fun t => (CloseBus t, true)) (mf_buses f)).

(** ** All or nothing *)

(** How many clients of a tenant a trace leaves open. *)
Definition net_event (tenant : string) (e : DemoAct * bool) : Z :=
  match e with
  | (NewClient t, true) => if String.eqb t tenant then 1 else 0
  | (CloseBus t, true) => if String.eqb t tenant then -1 else 0
  | _ => 0
  end.
Fixpoint net_open (tenant : string) (l : list (DemoAct * bool)) : Z :=
  match l with [] => 0 | e :: rest => net_event tenant e + net_open tenant rest end.

Fixpoint agents_of (tenant : string) (agents : list (string * list string)) : Z :=
  match agents with [] => 0 | a :: rest => (if String.eqb a.1 tenant then 1 else 0) + agents_of tenant rest end.

Lemma net_open_app t l l' : net_open t (l ++ l') = net_open t l + net_open t l'.
Proof. induction l as [|e l IH]; cbn [app net_open]; lia. Qed.

Lemma agents_of_app t a b : agents_of t (a ++ b) = agents_of t a + agents_of t b.
Proof. induction a as [|e a IH]; cbn [app agents_of]; lia. Qed.

Lemma net_open_close t agents : net_open t (map (fun agent => (CloseBus agent.1, true)) agents) = - agents_of t agents.
Proof.
  induction agents as [|a agents IH]; [done|]. cbn [map net_open agents_of net_event]. rewrite IH. destruct (String.eqb a.1 t); lia.
Qed.

Lemma demo_bind_inv {A B} (m : DemoM A) (f : A -> DemoM B) w b w' l :
  (m ≫= f) w = (b, w', l) -> exists a w1 l1 l2, m w = (a, w1, l1) /\ f a w1 = (b, w', l2) /\ l = l1 ++ l2.
Proof.
  unfold mbind, demo_bind. destruct (m w) as [[a w1] l1] eqn:E1. destruct (f a w1) as [[b' w2] l2] eqn:E2.
  intros [= <- <- <-]. eauto 10.
Qed.

Ltac demo_inv H :=
  repeat match type of H with
  | (_ ≫= _) _ = (_, _, _) =>
    let a := fresh "a" in let w := fresh "w" in let l1 := fresh "l" in let l2 := fresh "l" in
    let Hr := fresh "Hrun" in let E := fresh "El" in
    apply demo_bind_inv in H as (a & w & l1 & l2 & Hr & H & E)
  end.

Lemma demo_attempt_inv a w o w' l : demo_attempt a w = (o, w', l) -> l = [(a, match o with None => true | Some _ => false end)].
Proof. unfold demo_attempt. destruct (dw_outcomes w); by intros [= <- <- <-]. Qed.

Lemma topology_call_net t api a w o w' l :
  (forall ok, net_event t (a, ok) = 0) -> topology_call api a w = (o, w', l) -> net_open t l = 0.
Proof.
  intros Ha E. unfold topology_call in E. demo_inv E. assert (Hl : net_open t l0 = 0).
  { destruct api; [apply demo_attempt_inv in Hrun as ->; cbn [net_open]; by rewrite Ha|by injection Hrun as <- <- <-]. }
  subst l. rewrite net_open_app, Hl. destruct a0; demo_inv E; injection E as <- <- <-; injection Hrun0 as <- <- <-; by subst.
Qed.

Lemma create_devices_net t cfg api ti di n w r w' l : create_devices cfg api ti di n w = (r, w', l) ->
  net_open t l = 0 /\ (forall devs, r = Ok devs -> length devs = n /\ Forall (fun d => dd_TenantID d = tenant_id cfg ti) devs).
Proof.
  revert di w r w' l. induction n as [|n IH]; intros di w r w' l E; cbn [create_devices] in E.
  { injection E as <- <- <-. split; [done|]. by intros devs [= <-]. }
  demo_inv E. apply (topology_call_net t) in Hrun as Hl; [|done]. destruct a as [e|].
  - injection E as <- <- <-. subst l. rewrite net_open_app, Hl. split; [done|]. by intros devs [=].
  - demo_inv E. apply IH in Hrun0 as [Hn Hd]. injection E as <- <- <-. subst. rewrite !net_open_app, Hl, Hn. split; [done|].
    intros devs Ed. destruct a as [ds|e]; [|done]. injection Ed as <-. destruct (Hd ds eq_refl) as [<- HF]. split; [done|by constructor].
Qed.

(** A tenant as the configuration asks for it. *)
Definition tenant_as_configured (cfg : Config) (t : demoTenant) : Prop :=
  length (dt_Devices t) = Z.to_nat (dc_DevicesPerTenant cfg) /\ Forall (fun d => dd_TenantID d = dt_ID t) (dt_Devices t).

Lemma create_tenants_net t cfg api ti n w r w' l : create_tenants cfg api ti n w = (r, w', l) ->
  net_open t l = 0 /\ (forall ts, r = Ok ts -> length ts = n /\ Forall (tenant_as_configured cfg) ts).
Proof.
  revert ti w r w' l. induction n as [|n IH]; intros ti w r w' l E; cbn [create_tenants] in E.
  { injection E as <- <- <-. split; [done|]. by intros ts [= <-]. }
  demo_inv E. apply (topology_call_net t) in Hrun as Hl; [|done]. destruct a as [e|].
  { injection E as <- <- <-. subst l. rewrite net_open_app, Hl. split; [done|]. by intros ts [=]. }
  demo_inv E. apply (create_devices_net t) in Hrun0 as [Hn Hd]. destruct a as [devs|e].
  - demo_inv E. apply IH in Hrun0 as [Hn' Hts]. injection E as <- <- <-. subst. rewrite !net_open_app, Hl, Hn, Hn'. split; [done|].
    intros ts Et. destruct a as [ts'|e]; [|done]. injection Et as <-. destruct (Hts ts' eq_refl) as [<- HF]. split; [done|].
    constructor; [|done]. destruct (Hd devs eq_refl) as [Hlen HF']. by split.
  - injection E as <- <- <-. subst. rewrite !net_open_app, Hl, Hn. split; [done|]. by intros ts [=].
Qed.

Lemma create_agents_net t agents tenants w r w' l : create_agents agents tenants w = (r, w', l) ->
  match r with
  | Ok agents' => net_open t l = agents_of t agents' - agents_of t agents
                  /\ agents' = agents ++ map (fun ten => (dt_ID ten, map dd_DeviceID (dt_Devices ten))) tenants
  | Err _ => net_open t l = - agents_of t agents
  end.
Proof.
  revert agents w r w' l. induction tenants as [|ten tenants IH]; intros agents w r w' l E; cbn [create_agents] in E.
  { injection E as <- <- <-. rewrite app_nil_r. split; [simpl; lia|done]. }
  demo_inv E. apply demo_attempt_inv in Hrun as ->. destruct a as [e|].
  { demo_inv E. injection E as <- <- <-. injection Hrun as <- <- <-. subst. rewrite !net_open_app, net_open_close. simpl. lia. }
  demo_inv E. assert (Hsub : net_open t l0 = 0).
  { unfold agent_subscribe in Hrun. destruct (BuildTenantCommandTopicFilter _); [by apply demo_attempt_inv in Hrun as ->|by injection Hrun as <- <- <-]. }
  destruct a as [e|].
  - demo_inv E. injection E as <- <- <-. injection Hrun0 as <- <- <-. injection Hrun1 as <- <- <-. subst.
    rewrite !net_open_app, net_open_close, Hsub. simpl. destruct (String.eqb _ _); lia.
  - apply IH in E. subst. destruct r as [agents'|e].
    + destruct E as [E ->]. rewrite !net_open_app, Hsub, E, !agents_of_app. split; [simpl; destruct (String.eqb _ _); lia|].
      by rewrite <- app_assoc.
    + rewrite !net_open_app, Hsub, E, agents_of_app. simpl. destruct (String.eqb _ _); lia.
Qed.

(** Building the demo topology is all or nothing: when a step fails the
    service is left as it was and every MQTT client that was opened has been
    closed; when it succeeds the configured number of tenants, each with the
    configured number of devices, is installed together with one agent and one
    open client per tenant if there is a broker, and a topology that is
    complete is left alone. *)
Theorem demo_topology_atomic s w err s' w' l t :
  EnsureTopology s w = ((err, s'), w', l) ->
  match err with
  | Some _ => s' = s /\ net_open t l = 0
  | None =>
    (s' = s /\ l = [])
    \/ (length (ds_tenants s') = Z.to_nat (dc_TenantCount (ds_cfg s)) /\ Forall (tenant_as_configured (ds_cfg s)) (ds_tenants s')
        /\ ds_agents s' = (if ds_factory s then map (fun ten => (dt_ID ten, map dd_DeviceID (dt_Devices ten))) (ds_tenants s') else [])
        /\ net_open t l = agents_of t (ds_agents s'))
  end.
Proof.
  unfold EnsureTopology. destruct (match ds_tenants s with [] => false | _ => _ end); [intros [= <- <- <- <-]; by left|].
  intros E. demo_inv E. apply (create_tenants_net t) in Hrun as [Hn Hts]. destruct a as [tenants|e].
  2: { injection E as <- <- <- <-. subst l. rewrite net_open_app, Hn. done. }
  destruct (Hts tenants eq_refl) as [Hlen HF]. demo_inv E.
  assert (Hag : match a with
                | Ok agents => net_open t l2 = agents_of t agents
                               /\ agents = (if ds_factory s then map (fun ten => (dt_ID ten, map dd_DeviceID (dt_Devices ten))) tenants else [])
                | Err _ => net_open t l2 = 0
                end).
  { destruct (ds_factory s); [|by injection Hrun as <- <- <-]. apply (create_agents_net t) in Hrun. destruct a; [|done].
    destruct Hrun as [Hr ->]. split; [rewrite Hr; simpl; lia|done]. }
  destruct a as [agents|e].
  - demo_inv E. injection E as <- <- <- <-. injection Hrun0 as <- <- <-. destruct Hag as [Hag Heq]. subst. right. simpl.
    rewrite !net_open_app, Hn, Hag. simpl. split_and!; [done|done|done|lia].
  - injection E as <- <- <- <-. subst. rewrite !net_open_app, Hn, Hag. done.
Qed.

Definition demo_witness_service : Service :=
  NewService (MkConfig 2 1 "" "" 0 0 0 0 0) true true.

Lemma demo_topology_atomic_witness :
  (** The second agent's subscription fails: the first client is closed too. *)
  (let '(err, s', w', l) := EnsureTopology demo_witness_service
     (MkDemoWorld [None; None; None; None; None; None; None; Some [Opaque "refused"]]) in
   match err with Some _ => s' = demo_witness_service /\ net_open "demo-tenant-0" l = 0 | None => False end)
  /\ (let '(err, s', w', l) := EnsureTopology demo_witness_service (MkDemoWorld []) in
      err = None /\ net_open "demo-tenant-1" l = 1 /\ length (ds_agents s') = 2%nat).
Proof.
  split; [|vm_compute; done].
  destruct (EnsureTopology _ _) as [[[err s'] w'] l] eqn:E.
  pose proof (demo_topology_atomic _ _ _ _ _ _ "demo-tenant-0" E) as H. vm_compute in E. injection E as <- <- <- <-. exact H.
Defined.

(** ** Bursts and delays *)
Definition draws_in_range (draw : Draws) : Prop := forall k n, 0 < n -> 0 <= draw k n < n.

Lemma burst_bounds draw k lo hi : draws_in_range draw ->
  1 <= burstInRange (draw k) lo hi /\ Z.max lo 1 <= burstInRange (draw k) lo hi <= Z.max (Z.max lo 1) hi.
Proof.
  intros Hd. unfold burstInRange. pose proof (Hd k).
  destruct (lo <? 1) eqn:E1; destruct (hi <? _) eqn:E2; try destruct (_ =? _) eqn:E3; try lia;
    match goal with |- context [draw k ?n] => specialize (H n) end; lia.
Qed.

Lemma topology_backoff_bounds n : 500 * Millisecond <= topology_backoff n <= 8 * Second.
Proof.
  unfold topology_backoff. assert (H : exists i, (i <= 4)%nat /\ Nat.iter n next_backoff (500 * Millisecond) = 2 ^ Z.of_nat i * (500 * Millisecond)).
  { induction n as [|n (i & Hi & E)]; [exists 0%nat; split; [lia|reflexivity]|]. rewrite Nat.iter_succ, E.
    destruct i as [|[|[|[|[|]]]]]; [exists 1%nat|exists 2%nat|exists 3%nat|exists 4%nat|exists 4%nat|]; try (split; [lia|reflexivity]). lia. }
  destruct H as (i & Hi & ->). destruct i as [|[|[|[|[|]]]]]; [vm_compute; split; discriminate..|lia].
Qed.

Lemma draw_of_in {A} draw k (l : list A) : draws_in_range draw -> l <> [] -> exists x, draw_of draw k l = Some x /\ x ∈ l.
Proof.
  intros Hd Hne. destruct (lookup_lt_is_Some_2 l (Z.to_nat (draw k (Z.of_nat (length l))))) as [x Hx].
  - pose proof (Hd k (Z.of_nat (length l))). destruct l; [done|simpl in *; lia].
  - exists x. split; [by destruct l|by apply list_elem_of_lookup_2 in Hx].
Qed.

(** A draw of a tenant or device is always in range, so a burst never panics. *)
Lemma pick_device_in_range draw k s : draws_in_range draw ->
  ds_tenants s <> [] -> Forall (fun t => dt_Devices t <> []) (ds_tenants s) ->
  exists t d, pick_device draw k s = Some (t, d) /\ t ∈ ds_tenants s /\ d ∈ dt_Devices t.
Proof.
  intros Hd Hne HF. destruct (draw_of_in draw k _ Hd Hne) as (t & Et & Ht).
  destruct (draw_of_in draw (S k) (dt_Devices t) Hd) as (d & Ed & Hdev); [exact (proj1 (Forall_forall _ _) HF t Ht)|].
  exists t, d. unfold pick_device. rewrite Et. simpl. rewrite Ed. by split_and!.
Qed.

(** ** What an agent hears *)

Lemma parts_match_refl l : parts_match l l = true.
Proof. induction l as [|p l IH]; [done|]. cbn [parts_match]. rewrite String.eqb_refl, orb_true_r. exact IH. Qed.

(** The filter an agent subscribes to matches, among the topics of devices,
    exactly the command topics of its own tenant. *)
Theorem agent_hears_its_commands tenant filter t d s topic :
  BuildTenantCommandTopicFilter tenant = Ok filter -> BuildDeviceTopic t d s = Ok topic ->
  topicMatches filter topic = true <-> t = tenant /\ s = TopicSuffixCommand.
Proof.
  intros Hf (Ht & Hd & Hs & ->)%build_device_topic_ok. unfold BuildTenantCommandTopicFilter in Hf. guards. injection Hf as <-.
  change ("tenant/" +:+ tenant +:+ "/device/+/" +:+ TopicSuffixCommand) with (join_byte "/" ["tenant"; tenant; "device"; "+"; TopicSuffixCommand]).
  unfold topicMatches. rewrite (split_device_topic t d s) by done. rewrite split_join by (repeat constructor; eauto with gostr).
  cbn [parts_match]. assert (Hplus : String.eqb tenant "+" = false).
  { apply String.eqb_neq. intros ->. done. }
  rewrite Hplus. change (String.eqb TopicSuffixCommand "+") with false. rewrite !String.eqb_refl.
  cbn [orb andb String.eqb Ascii.eqb Bool.eqb]. rewrite !andb_true_r, !andb_true_iff, !String.eqb_eq. naive_solver.
Qed.
