(* ===== verification/Kafka.v ===== *)
(** * Writing to Kafka and dead-lettering: internal/platform/{kafka_publisher,dead_letter}.go *)
From stdpp Require Import prelude strings gmap.
From Stdlib Require Import ZArith Lia.
From S2P Require Import Prelude GoStrings GoJson Payload Domain TimeText Postgres PostgresStore Base64 Host.

Local Open Scope Z_scope.

(** [Temporary()] of the errors of the Kafka client and of the network. *)
Class KafkaClient := { kafka_temporary : error -> bool; kafka_time :: TimeText }.

Section kafka.
Context `{KafkaClient}.

Definition isRetriableKafkaError (err : error) : bool :=
  kafka_temporary err
  || existsb (fun s => match s with
                       | Opaque msg => contains_sub msg "connection reset by peer"
                                       || contains_sub msg "broken pipe" || contains_sub msg "connection refused"
                       | _ => false
                       end) err.

Definition retry_delays : list Z :=
  [0; 200 * Millisecond; 500 * Millisecond; Second; 2 * Second; 4 * Second; 8 * Second; 16 * Second].

(** The loop over the delays; [err] is the error of the last attempt. *)
Fixpoint write_attempts (write : Action) (delays : list Z) (err : option error) : IO (option error) :=
  match delays with
  | [] => mret err
  | delay :: rest =>
    cancelled ← (if 0 <? delay then attempt (Sleep delay) else mret None);
    match cancelled with
    | Some e => mret (Some e)
    | None =>
      err ← attempt write;
      match err with
      | None => mret None
      | Some e => if negb (isRetriableKafkaError e) then mret (Some e) else write_attempts write rest (Some e)
      end
    end
  end.

Definition writeKafkaMessageWithRetry (topic key : string) (value : KValue) : IO (option error) :=
  write_attempts (KafkaWrite topic key value) retry_delays None.

(** ** kafka_publisher.go *)
Record KafkaPublisher := MkKafkaPublisher { kp_telemetryWriter : option string; kp_commandWriter : option string }.

Definition marshal_error : error := [Opaque "json: error calling MarshalJSON"].

Definition marshal_telemetry (rec : TelemetryRecord) : option error :=
  match marshal_raw (rec_Payload rec) with
  | Err e => Some e
  | Ok _ => if year_in_range (rec_ReceivedAt rec) then None else Some marshal_error
  end.

Definition marshal_command (cmd : Command) : option error :=
  match marshal_raw (cmd_Payload cmd), match cmd_Result cmd with Some r => marshal_raw (res_Payload r) | None => Ok "" end with
  | Ok _, Ok _ => if year_in_range (cmd_CreatedAt cmd) && year_in_range (cmd_UpdatedAt cmd) && year_in_range (cmd_DeadlineAt cmd)
                  then None else Some marshal_error
  | Err e, _ | _, Err e => Some e
  end.

Definition PublishTelemetry (p : KafkaPublisher) (rec : TelemetryRecord) : IO (option error) :=
  match kp_telemetryWriter p with
  | None => mret None
  | Some topic =>
    match marshal_telemetry rec with
    | Some e => _ ← inc "kafka_publish" ["telemetry"; "error"]; mret (Some e)
    | None =>
      err ← writeKafkaMessageWithRetry topic (rec_DeviceID rec) (VTelemetry rec);
      match err with
      | Some e => _ ← inc "kafka_publish" ["telemetry"; "error"]; mret (Some e)
      | None => _ ← inc "kafka_publish" ["telemetry"; "ok"]; mret None
      end
    end
  end.

Definition PublishCommand (p : KafkaPublisher) (cmd : Command) : IO (option error) :=
  match kp_commandWriter p with
  | None => mret None
  | Some topic =>
    match marshal_command cmd with
    | Some e => _ ← inc "kafka_publish" ["command"; "error"]; mret (Some e)
    | None =>
      err ← writeKafkaMessageWithRetry topic (cmd_DeviceID cmd) (VCommand cmd);
      match err with
      | Some e => _ ← inc "kafka_publish" ["command"; "error"]; mret (Some e)
      | None => _ ← inc "kafka_publish" ["command"; "ok"]; mret None
      end
    end
  end.

(** ** dead_letter.go *)
Definition StageMQTTDecode : string := "mqtt.decode".
Definition StageMQTTIdentity : string := "mqtt.identity".
Definition StageMQTTKafka : string := "mqtt.kafka".
Definition StageTelemetryDecode : string := "telemetry.decode".
Definition StageTelemetryPostgres : string := "telemetry.postgres".
Definition StageTelemetryTDengine : string := "telemetry.tdengine".
Definition StageCommandDecode : string := "command.decode".
Definition StageCommandTopic : string := "command.topic".
Definition StageCommandEncode : string := "command.encode".
Definition StageCommandMQTT : string := "command.mqtt".
Definition StageCommandAck : string := "command.ack".

Definition DeadLetterStages : list string :=
  [StageMQTTDecode; StageMQTTIdentity; StageMQTTKafka; StageTelemetryDecode; StageTelemetryPostgres;
   StageTelemetryTDengine; StageCommandDecode; StageCommandTopic; StageCommandEncode; StageCommandMQTT; StageCommandAck].

Definition dead_letter (now : Z) (msg : KMessage) (stage : string) (cause : error) : DeadLetter :=
  MkDeadLetter (km_Topic msg) (km_Partition msg) (km_Offset msg) (km_Key msg)
    (EncodeToString StdEncoding (km_Value msg)) stage cause (format_rfc3339nano now).

(** [writer] is the dead-letter topic, if the writer is configured; encoding a
    [DeadLetter], which holds strings and numbers only, cannot fail. *)
Definition publishDeadLetter (writer : option string) (now : Z) (msg : KMessage) (stage : string) (cause : error) : IO (option error) :=
  match writer with
  | None => _ ← inc "dlq_publish" [stage; "error"]; mret (Some [Opaque "dead-letter writer is not configured"])
  | Some topic =>
    err ← writeKafkaMessageWithRetry topic (km_Topic msg) (VDeadLetter (dead_letter now msg stage cause));
    match err with
    | Some e => _ ← inc "dlq_publish" [stage; "error"]; mret (Some e)
    | None => _ ← inc "dlq_publish" [stage; "ok"]; mret None
    end
  end.

Definition commitAfterDeadLetter (writer : option string) (now : Z) (msg : KMessage) (stage : string) (cause : error) : IO (option error) :=
  err ← publishDeadLetter writer now msg stage cause;
  match err with
  | Some e => mret (Some e)
  | None => attempt (CommitOffset msg)
  end.

(** ** What the retry loop guarantees *)
Definition is_sleep (a : Action) : bool := match a with Sleep _ => true | _ => false end.
Definition attempts_of (l : list Event) : nat := length (filter (fun e : Event => is_sleep e.1 = false) l).

Lemma attempts_app l l' : attempts_of (l ++ l') = (attempts_of l + attempts_of l')%nat.
Proof. unfold attempts_of. by rewrite filter_app, length_app. Qed.

Lemma attempts_nil : attempts_of [] = 0%nat.
Proof. done. Qed.

Lemma attempts_cons a b l : attempts_of ((a, b) :: l) = ((if is_sleep a then 0 else 1) + attempts_of l)%nat.
Proof. unfold attempts_of. rewrite filter_cons. simpl. by destruct (is_sleep a). Qed.

(** The events are sleeps and attempts of the one write, at most as many
    attempts as delays; success is that of the last attempt. *)
Lemma write_attempts_spec write delays err h r h' l :
  is_sleep write = false -> write_attempts write delays err h = (r, h', l) ->
  (forall e, e ∈ l -> e.1 = write \/ is_sleep e.1 = true)
  /\ (attempts_of l <= length delays)%nat
  /\ (r = None <-> (err = None /\ delays = []) \/ (write, true) ∈ l)
  /\ (count (fun a => negb (is_sleep a)) l <= if r then 0 else 1)%nat
  /\ h_world h' = h_world h.
Proof.
  intros Hw. revert err h r h' l. induction delays as [|d ds IH]; intros err h r h' l; cbn [write_attempts].
  - intros [<- [-> ->]]%io_ret_inv. split_and!; try done; [by intros e ?%elem_of_nil| |destruct err; unfold count; simpl; lia].
    split; [auto|]. intros [[? _]|?%elem_of_nil]; done.
  - intros Hrun. apply io_bind_inv in Hrun as (c & h1 & l1 & l2 & H1 & Hrun & ->).
    assert (Hl1 : (l1 = [] \/ exists b, l1 = [(Sleep d, b)]) /\ h_world h1 = h_world h).
    { destruct (0 <? d); [apply attempt_inv in H1 as [-> ?]; eauto|apply io_ret_inv in H1 as (_ & -> & ->); auto]. }
    destruct Hl1 as [Hl1 Hw1].
    assert (Hpre : (forall e, e ∈ l1 -> is_sleep e.1 = true) /\ attempts_of l1 = 0%nat
                   /\ count (fun a => negb (is_sleep a)) l1 = 0%nat /\ (write, true) ∉ l1).
    { destruct Hl1 as [->|(b & ->)]; split_and!; try done.
      - by intros e ?%elem_of_nil.
      - apply not_elem_of_nil.
      - by intros e ->%list_elem_of_singleton.
      - by intros [= -> _]%list_elem_of_singleton. }
    destruct Hpre as (Hs1 & Ha1 & Hc1 & Hn1).
    destruct c as [e|].
    { apply io_ret_inv in Hrun as (<- & -> & ->). rewrite app_nil_r. rewrite Hc1. split_and!; auto; [lia|].
      split; [done|]. intros [[_ ?]|?]; done. }
    apply io_bind_inv in Hrun as (o & h2 & l3 & l4 & [-> Hw2]%attempt_inv & Hrun & ->).
    destruct o as [e|].
    + destruct (isRetriableKafkaError e); simpl in Hrun.
      * apply IH in Hrun as (H1' & H2' & H3' & H4' & H5').
        rewrite !attempts_app, !count_app, Ha1, Hc1. setoid_rewrite elem_of_app. setoid_rewrite elem_of_cons.
        rewrite !count_cons, !attempts_cons, ?count_nil, ?attempts_nil, Hw. unfold is_action. simpl. rewrite andb_false_r.
        split_and!; [naive_solver|lia|naive_solver|lia|congruence].
      * apply io_ret_inv in Hrun as (<- & -> & ->). rewrite app_nil_r, attempts_app, count_app, Ha1, Hc1, count_cons.
        setoid_rewrite elem_of_app. setoid_rewrite elem_of_cons.
        rewrite !attempts_cons, ?count_nil, ?attempts_nil, Hw. unfold is_action. simpl. rewrite andb_false_r.
        split_and!; [set_solver|unfold attempts_of; simpl; lia|split; [done|set_solver]|lia|congruence].
    + apply io_ret_inv in Hrun as (<- & -> & ->). rewrite app_nil_r, attempts_app, count_app, Ha1, Hc1, count_cons.
      setoid_rewrite elem_of_app. setoid_rewrite elem_of_cons.
      rewrite !attempts_cons, ?count_nil, ?attempts_nil, Hw. unfold is_action. simpl. rewrite Hw.
      split_and!; [set_solver|unfold attempts_of; simpl; lia|set_solver|unfold count; simpl; lia|congruence].
Qed.

(** Publishing to Kafka is a bounded loop: it makes at most eight attempts,
    all of the one record, succeeds exactly when an attempt succeeded, stops at
    the first success, so that a record it reports as published was accepted
    once, and leaves the database alone. *)
Theorem kafka_retry_spec topic key value h r h' l :
  writeKafkaMessageWithRetry topic key value h = (r, h', l) ->
  (attempts_of l <= 8)%nat
  /\ (forall e, e ∈ l -> e.1 = KafkaWrite topic key value \/ is_sleep e.1 = true)
  /\ (r = None <-> (KafkaWrite topic key value, true) ∈ l)
  /\ (count (fun a => negb (is_sleep a)) l <= 1)%nat
  /\ h_world h' = h_world h.
Proof.
  intros (H1 & H2 & H3 & H4 & H5)%write_attempts_spec; [|done]. split_and!; try done; [naive_solver|].
  destruct r; lia.
Qed.

(** Events that neither acknowledge, commit nor fail. *)
Definition quiet (a : Action) : bool := negb (is_ack a) && negb (is_fail a) && negb (is_commit a).

Lemma write_quiet topic key value h r h' l :
  writeKafkaMessageWithRetry topic key value h = (r, h', l) ->
  Forall (fun e : Event => quiet e.1 = true) l /\ h_world h' = h_world h
  /\ (r = None -> (KafkaWrite topic key value, true) ∈ l).
Proof.
  intros (H1 & _ & H3 & _ & H5)%write_attempts_spec; [|done]. split_and!; [|done|naive_solver].
  apply Forall_forall. intros [a b] Hin. simpl. destruct (H1 _ Hin) as [Ha|Ha]; simpl in Ha; [by subst|by destruct a].
Qed.

Lemma publish_telemetry_quiet p rec h r h' l :
  PublishTelemetry p rec h = (r, h', l) ->
  Forall (fun e : Event => quiet e.1 = true) l /\ h_world h' = h_world h
  /\ (forall topic, r = None -> kp_telemetryWriter p = Some topic ->
       (KafkaWrite topic (rec_DeviceID rec) (VTelemetry rec), true) ∈ l).
Proof.
  unfold PublishTelemetry. destruct (kp_telemetryWriter p) as [topic|]; [|by intros (<- & -> & ->)%io_ret_inv].
  destruct (marshal_telemetry rec) as [e|].
  - intros (a & h1 & l1 & l2 & [-> ->]%act_inv & (<- & -> & ->)%io_ret_inv & ->)%io_bind_inv.
    split_and!; [by repeat constructor|done|done].
  - intros (a & h1 & l1 & l2 & (Hq & Hw & Hn)%write_quiet & Hrun & ->)%io_bind_inv.
    destruct a as [e|]; apply io_bind_inv in Hrun as (b & h2 & l3 & l4 & [-> ->]%act_inv & (<- & -> & ->)%io_ret_inv & ->);
      (split_and!; [apply Forall_app; split; [done|by repeat constructor]|done|try done]).
    intros t _ [= <-]. apply elem_of_app. auto.
Qed.

Lemma dead_letter_quiet writer now msg stage cause h r h' l :
  publishDeadLetter writer now msg stage cause h = (r, h', l) ->
  Forall (fun e : Event => quiet e.1 = true) l /\ h_world h' = h_world h
  /\ (r = None -> exists topic, writer = Some topic
        /\ (KafkaWrite topic (km_Topic msg) (VDeadLetter (dead_letter now msg stage cause)), true) ∈ l).
Proof.
  unfold publishDeadLetter. destruct writer as [topic|].
  - intros (a & h1 & l1 & l2 & (Hq & Hw & Hn)%write_quiet & Hrun & ->)%io_bind_inv.
    destruct a as [e|]; apply io_bind_inv in Hrun as (b & h2 & l3 & l4 & [-> ->]%act_inv & (<- & -> & ->)%io_ret_inv & ->);
      (split_and!; [apply Forall_app; split; [done|by repeat constructor]|done|try done]).
    intros _. exists topic. split; [done|]. apply elem_of_app. auto.
  - intros (a & h1 & l1 & l2 & [-> ->]%act_inv & (<- & -> & ->)%io_ret_inv & ->)%io_bind_inv.
    split_and!; [by repeat constructor|done|done].
Qed.

Lemma quiet_count P l :
  Forall (fun e : Event => quiet e.1 = true) l -> (forall a, quiet a = true -> P a = false) -> count P l = 0%nat.
Proof.
  intros Hq HP. induction Hq as [|[a b] l Ha _ IH]; [done|]. rewrite count_cons, IH. unfold is_action. simpl in *.
  by rewrite HP.
Qed.

Lemma quiet_not_ack a : quiet a = true -> is_ack a = false.
Proof. by destruct a. Qed.
Lemma quiet_not_fail a : quiet a = true -> is_fail a = false.
Proof. by destruct a. Qed.
Lemma quiet_not_commit a : quiet a = true -> is_commit a = false.
Proof. by destruct a. Qed.
End kafka.

#[local] Instance sample_client : KafkaClient := {| kafka_temporary _ := false; kafka_time := sample_time |}.

(** Two refused connections, then success. *)
Lemma kafka_retry_spec_witness :
  let refused := Some [Opaque "dial tcp: connection refused"] in
  let h := MkHost (MkWorld empty_db []) [refused; None; refused; None; None] in
  exists h' l, writeKafkaMessageWithRetry "iot.command" "d1" (VBytes "x") h = (None, h', l)
    /\ attempts_of l = 3%nat /\ (attempts_of l <= 8)%nat.
Proof.
  destruct (writeKafkaMessageWithRetry "iot.command" "d1" (VBytes "x")
    (MkHost (MkWorld empty_db []) [Some [Opaque "dial tcp: connection refused"]; None;
       Some [Opaque "dial tcp: connection refused"]; None; None])) as [[r h'] l] eqn:E.
  pose proof (kafka_retry_spec _ _ _ _ _ _ _ E) as (Hb & _).
  vm_compute in E. injection E as <- <- <-. do 2 eexists. split_and!; [reflexivity|reflexivity|exact Hb].
Defined.
