(* ===== verification/Bridge.v ===== *)
(** * The MQTT telemetry bridge: internal/platform/{mqtt_bridge,mqtt_readiness}.go *)
From stdpp Require Import prelude strings gmap.
From Stdlib Require Import ZArith Lia.
From S2P Require Import Prelude GoStrings Contracts CommandState GoJson Payload Domain Postgres PostgresStore PostgresCommands StoreProperties TelemetryProperties Base64 Host Kafka.

Local Open Scope Z_scope.

(** ** Readiness

    [generation] is a uint64. *)
Record mqttReadiness := MkReadiness { generation : Z; subscribed : bool; stopped : bool }.

Definition u64 (z : Z) : Z := z mod 2 ^ 64.

Definition readiness_reset (s : mqttReadiness) : Z * mqttReadiness :=
  let g := u64 (generation s + 1) in (g, MkReadiness g false (stopped s)).

Definition readiness_confirm (g : Z) (s : mqttReadiness) : bool * mqttReadiness :=
  if (g =? generation s) && negb (stopped s) then (true, MkReadiness (generation s) true (stopped s)) else (false, s).

Definition readiness_stop (s : mqttReadiness) : mqttReadiness := MkReadiness (u64 (generation s + 1)) false true.

Definition readiness_ready (s : mqttReadiness) : bool := subscribed s && negb (stopped s).

(** What happens to the readiness of one process: a connection attempt begins
    (reset), a subscription is confirmed for the generation of the connection
    that requested it, or the process stops. *)
Inductive ReadinessEvent := EvReset | EvConfirm (g : Z) | EvStop.

Definition readiness_step (s : mqttReadiness) (e : ReadinessEvent) : mqttReadiness :=
  match e with
  | EvReset => (readiness_reset s).2
  | EvConfirm g => (readiness_confirm g s).2
  | EvStop => readiness_stop s
  end.

Definition readiness_run (s : mqttReadiness) (es : list ReadinessEvent) : mqttReadiness := foldl readiness_step s es.

Definition readiness_init : mqttReadiness := MkReadiness 0 false false.

(** How many generations a run opens. *)
Fixpoint opens (es : list ReadinessEvent) : Z :=
  match es with
  | [] => 0
  | EvConfirm _ :: es => opens es
  | _ :: es => 1 + opens es
  end.

Lemma opens_nonneg es : 0 <= opens es.
Proof. induction es as [|[] es IH]; simpl; lia. Qed.

Lemma readiness_generation s es :
  0 <= generation s -> generation s + opens es < 2 ^ 64 ->
  generation (readiness_run s es) = generation s + opens es.
Proof.
  unfold readiness_run. revert s. induction es as [|e es IH]; intros s H0 Hb; simpl in *; [lia|].
  pose proof (opens_nonneg es). destruct e as [|g|]; simpl in *.
  - rewrite IH; simpl; unfold u64; rewrite Z.mod_small; lia.
  - unfold readiness_confirm. destruct (_ && _); rewrite IH; simpl; lia.
  - rewrite IH; simpl; unfold u64; rewrite Z.mod_small; lia.
Qed.

Lemma stopped_forever s es : stopped s = true -> stopped (readiness_run s es) = true.
Proof.
  unfold readiness_run. revert s. induction es as [|e es IH]; intros s Hs; simpl; [done|]. apply IH.
  destruct e; simpl; [done| |done]. unfold readiness_confirm. by rewrite Hs, andb_false_r.
Qed.

Lemma old_confirms_ignored gs s :
  subscribed s = false -> Forall (fun g => g <> generation s) gs -> readiness_run s (map EvConfirm gs) = s.
Proof.
  intros Hs. induction 1 as [|g gs Hg _ IH]; [done|]. unfold readiness_run in *. simpl.
  unfold readiness_confirm. apply Z.eqb_neq in Hg as ->. done.
Qed.

(** A late subscription answer cannot make a service look ready: after a
    reconnect begins, confirmations that belong to any earlier connection are
    ignored and the service stays unready until its own subscription is
    confirmed, which makes it ready; and a stopped service is never ready
    again, whatever arrives. *)
Theorem readiness_generation_fence es gs :
  opens es + 1 < 2 ^ 64 ->
  let s := readiness_run readiness_init es in
  let '(g, s1) := readiness_reset s in
  (Forall (fun g' => 0 <= g' <= generation s) gs -> readiness_ready (readiness_run s1 (map EvConfirm gs)) = false)
  /\ (stopped s = false -> Forall (fun g' => 0 <= g' <= generation s) gs ->
      readiness_ready (readiness_run s1 (map EvConfirm (gs ++ [g]))) = true)
  /\ (forall es', readiness_ready (readiness_run (readiness_stop s) es') = false).
Proof.
  intros Hb. pose proof (opens_nonneg es).
  pose proof (readiness_generation readiness_init es ltac:(done) ltac:(simpl; lia)) as Hg. simpl in Hg.
  set (s := readiness_run readiness_init es) in *. unfold readiness_reset.
  assert (Hold : Forall (fun g' => 0 <= g' <= generation s) gs ->
    readiness_run (MkReadiness (u64 (generation s + 1)) false (stopped s)) (map EvConfirm gs)
    = MkReadiness (u64 (generation s + 1)) false (stopped s)).
  { intros Hgs. apply old_confirms_ignored; [done|]. eapply Forall_impl; [exact Hgs|]. intros g' Hg'. simpl.
    cbv beta in Hg'. unfold u64. rewrite Z.mod_small by lia. intros E. lia. }
  split_and!.
  - intros Hgs. by rewrite Hold.
  - intros Hst Hgs. unfold readiness_run in *. rewrite map_app, foldl_app, Hold by done. simpl.
    unfold readiness_confirm. simpl. by rewrite Z.eqb_refl, Hst.
  - intros es'. unfold readiness_ready. rewrite stopped_forever by done. by rewrite andb_false_r.
Qed.

Lemma readiness_generation_fence_witness :
  opens [EvReset; EvConfirm 1; EvReset] + 1 < 2 ^ 64
  /\ readiness_ready (readiness_run (readiness_reset (readiness_run readiness_init [EvReset; EvConfirm 1; EvReset])).2
       (map EvConfirm [1; 2])) = false.
Proof.
  assert (Hb : opens [EvReset; EvConfirm 1; EvReset] + 1 < 2 ^ 64) by (vm_compute; reflexivity).
  split; [exact Hb|].
  apply (readiness_generation_fence [EvReset; EvConfirm 1; EvReset] [1; 2] Hb). repeat constructor; vm_compute; discriminate.
Defined.

(** ** Messages *)
Record MqttMessage := MkMqttMessage { mm_Topic : string; mm_Payload : string }.

(** The inbox, as the bridge sees it: what it records, and what it promises,
    that a recorded envelope is stored, by a call that does nothing but
    touch the store. *)
Record TelemetryInbox := MkTelemetryInbox {
  RecordTelemetryContext_ : Envelope -> IO (result Recorded);
  inbox_stored : Envelope -> World -> Prop;
  inbox_promise : forall env h r h' l,
    RecordTelemetryContext_ env h = (r, h', l) -> l = [] /\ (forall x, r = Ok x -> inbox_stored env (h_world h')) }.

Record MQTTBridge := MkMQTTBridge {
  br_publisher : KafkaPublisher;
  br_dlqWriter : option string;
  br_inbox : option TelemetryInbox }.

Section bridge.
Context `{KafkaClient}.
(** [json.Unmarshal] into an [Envelope]. *)
Context (unmarshal_envelope : string -> result Envelope).

Definition bridge_fail (e : error) : IO unit := act (Fail e).

Definition as_kafka (msg : MqttMessage) : KMessage := MkKMessage (mm_Topic msg) 0 0 "" (mm_Payload msg) zero_time.

Definition deadLetter (b : MQTTBridge) (now : Z) (msg : MqttMessage) (stage : string) (cause : error) (durable : bool) : IO unit :=
  _ ← inc "mqtt_bridge" ["error"];
  err ← publishDeadLetter (br_dlqWriter b) now (as_kafka msg) stage cause;
  match err with
  | Some e => if negb durable then bridge_fail (Opaque "mqtt message not persisted" :: e) else mret tt
  | None => if negb durable then act MqttAck else mret tt
  end.

Definition telemetry_of (env : Envelope) (received : Z) : TelemetryRecord :=
  MkTelemetryRecord (env_MsgID env) (env_TenantID env) (env_DeviceID env) (env_Ts env) (env_Type env)
    (env_Version env) (env_Payload env) false received.

(** The tail of [processMessage], once the durable copy is decided. *)
Definition publish_record (b : MQTTBridge) (now : Z) (msg : MqttMessage) (rec : TelemetryRecord) (durable : bool) : IO unit :=
  err ← PublishTelemetry (br_publisher b) rec;
  match err with
  | Some e => deadLetter b now msg StageMQTTKafka e durable
  | None =>
    _ ← (if negb durable then act MqttAck else mret tt);
    inc "mqtt_bridge" ["ok"]
  end.

Definition processMessage (b : MQTTBridge) (now : Z) (msg : MqttMessage) : IO unit :=
  match ParseEnvelope unmarshal_envelope now (mm_Payload msg) with
  | Err e => deadLetter b now msg StageMQTTDecode e false
  | Ok env =>
    if match ParseDeviceTopic (mm_Topic msg) with
       | Some (tenant, device, _) => negb (String.eqb tenant (env_TenantID env)) || negb (String.eqb device (env_DeviceID env))
       | None => true
       end
    then deadLetter b now msg StageMQTTIdentity [ErrIdentityMismatch] false
    else
      match br_inbox b with
      | None => publish_record b now msg (telemetry_of env now) false
      | Some inbox =>
        r ← RecordTelemetryContext_ inbox env;
        match r with
        | Ok stored => _ ← act MqttAck; publish_record b now msg (recorded_record stored) true
        | Err _ => publish_record b now msg (telemetry_of env now) false
        end
      end
  end.

(** The subscription callback: admission, then a publish slot, then the work. *)
Definition bridge_callback (b : MQTTBridge) (now : Z) (stopping slot : bool) (msg : MqttMessage) : IO unit :=
  if stopping then mret tt
  else if negb slot then deadLetter b now msg StageMQTTKafka [ErrPublishBacklogFull] false
  else processMessage b now msg.

(** ** Delivery guarantee *)

(** A copy of the message that survives this process: in Kafka, or in the
    dead-letter topic with the original bytes. *)
Definition copied (b : MQTTBridge) (msg : MqttMessage) (l : list Event) : Prop :=
  (exists topic rec, kp_telemetryWriter (br_publisher b) = Some topic
     /\ (KafkaWrite topic (rec_DeviceID rec) (VTelemetry rec), true) ∈ l)
  \/ (exists topic dl, br_dlqWriter b = Some topic
     /\ (KafkaWrite topic (mm_Topic msg) (VDeadLetter dl), true) ∈ l
     /\ DecodeString StdEncoding (dl_ValueBase64 dl) = Some (mm_Payload msg)).

Lemma deadLetter_spec b now msg stage cause durable h h' l :
  deadLetter b now msg stage cause durable h = (tt, h', l) ->
  h_world h' = h_world h /\
  if durable then count is_ack l = 0%nat /\ count is_fail l = 0%nat
  else (count is_ack l = 1%nat /\ count is_fail l = 0%nat /\ copied b msg l)
       \/ (count is_ack l = 0%nat /\ count is_fail l = 1%nat).
Proof.
  unfold deadLetter. intros (u & h1 & l1 & l2 & [-> ->]%act_inv & Hrun & ->)%io_bind_inv.
  apply io_bind_inv in Hrun as (r & h2 & l3 & l4 & (Hq & Hw & Hn)%dead_letter_quiet & Hrun & ->).
  pose proof (quiet_count is_ack _ Hq quiet_not_ack) as Ca. pose proof (quiet_count is_fail _ Hq quiet_not_fail) as Cf.
  rewrite !count_app, Ca, Cf.
  destruct r as [e|], durable; simpl in Hrun;
    first [apply io_ret_inv in Hrun as (_ & -> & ->)|apply act_inv in Hrun as [-> ->]]; (split; [done|]); try done; [by right|].
  left. split_and!; try done. destruct (Hn eq_refl) as (topic & Ht & Hin). right. exists topic. eexists. split_and!; [done| |].
  - apply elem_of_app. right. apply elem_of_app. left. exact Hin.
  - apply base64_roundtrip.
Qed.

Lemma publish_record_spec b now msg rec durable topic h h' l :
  kp_telemetryWriter (br_publisher b) = Some topic ->
  publish_record b now msg rec durable h = (tt, h', l) ->
  h_world h' = h_world h /\
  if durable then count is_ack l = 0%nat /\ count is_fail l = 0%nat
  else (count is_ack l = 1%nat /\ count is_fail l = 0%nat /\ copied b msg l)
       \/ (count is_ack l = 0%nat /\ count is_fail l = 1%nat).
Proof.
  intros Htopic. unfold publish_record.
  intros (r & h1 & l1 & l2 & (Hq & Hw & Hn)%publish_telemetry_quiet & Hrun & ->)%io_bind_inv.
  pose proof (quiet_count is_ack _ Hq quiet_not_ack) as Ca. pose proof (quiet_count is_fail _ Hq quiet_not_fail) as Cf.
  rewrite !count_app, Ca, Cf. destruct r as [e|].
  - apply deadLetter_spec in Hrun as [Hw' Hd]. split; [congruence|]. destruct durable; [done|].
    destruct Hd as [(? & ? & Hc)|?]; [left|by right]. split_and!; try done.
    destruct Hc as [(t & rc & ? & ?)|(t & dl & ? & ? & ?)]; [left|right]; do 2 eexists; split_and!; eauto; apply elem_of_app; eauto.
  - apply io_bind_inv in Hrun as (u & h2 & l3 & l4 & H1 & [-> ->]%act_inv & ->).
    rewrite !count_app. destruct durable; simpl in H1.
    + apply io_ret_inv in H1 as (_ & -> & ->). split; [congruence|]. done.
    + apply act_inv in H1 as [-> ->]. split; [done|]. left. split_and!; try done. left. exists topic, rec. split; [done|].
      apply elem_of_app. left. by apply Hn.
Qed.

End bridge.

(** ** The PostgreSQL inbox keeps the promise *)
Section inbox.
Context `{Unicode} `{PgEnv}.

Lemma recorded_stored now rec w r w' x :
  RestoreTelemetryContext now rec w = (r, w') -> r = Ok x ->
  is_Some (telemetry_records (committed w') !! tel_key rec).
Proof.
  intros Hr%restore_telemetry_outcome ->. destruct x as [rec'|stored]; simpl in Hr.
  - destruct Hr as (_ & _ & _ & row & st & Ht & _). rewrite Ht. unfold tel_key. simpl. by rewrite lookup_insert_eq.
  - destruct Hr as (-> & row & Hrow & _). unfold tel_key in *. simpl in Hrow. eauto.
Qed.

Definition postgres_inbox (received now : Z) : TelemetryInbox.
Proof.
  refine (MkTelemetryInbox (fun env => on_store (RecordTelemetryContext received now env))
    (fun env w => is_Some (telemetry_records (committed w) !! (env_MsgID env, env_TenantID env, env_DeviceID env))) _).
  intros env h r h' l [Hop ->]%on_store_inv. split; [done|]. intros x Hx. by eapply recorded_stored in Hop.
Defined.
End inbox.

#[local] Existing Instance sample_unicode.
#[local] Existing Instance sample_pg.
#[local] Existing Instance sample_client.

Definition sample_bridge : MQTTBridge :=
  MkMQTTBridge (MkKafkaPublisher (Some "iot.telemetry") (Some "iot.command")) (Some "iot.dlq") (Some (postgres_inbox 500 600)).

