(* ===== verification/TDengine.v ===== *)
(** * The TDengine sink: internal/platform/tdengine_writer.go *)
From stdpp Require Import prelude strings gmap.
From Stdlib Require Import ZArith Lia Ascii.
From S2P Require Import Prelude GoStrings Contracts GoJson Payload Domain Postgres PostgresStore Host.

Local Open Scope Z_scope.

(** [strings.ReplaceAll] of a one-byte string. *)
Fixpoint replace_all (c : ascii) (by_ : string) (s : string) : string :=
  match s with
  | EmptyString => ""
  | String a r => if Ascii.eqb a c then by_ +:+ replace_all c by_ r else String a (replace_all c by_ r)
  end.

Definition tick : ascii := "039"%char.
Definition bslash2 : string := String backslash (String backslash "").
Definition tick2 : string := String tick (String tick "").

Definition escapeTD (s : string) : string := replace_all tick tick2 (replace_all backslash bslash2 s).

(** SHA-256 in hexadecimal, and decimal numerals. *)
Class Digest := { sha256_hex : string -> string; decimal : Z -> string }.

Record TDengineWriter := MkTDengineWriter { td_database : string; td_table : string; td_closed : bool }.

Section tdengine.
Context `{Digest}.

Definition quoted (s : string) : string := String tick (escapeTD s +:+ String tick "").

Definition nul : string := String "000" "".

Definition insert_statement (w : TDengineWriter) (rec : TelemetryRecord) : string :=
  let tableHash := str_take 24 (sha256_hex (rec_TenantID rec +:+ nul +:+ rec_DeviceID rec)) in
  let stable := td_database w +:+ "." +:+ td_table w in
  "INSERT INTO " +:+ stable +:+ "_" +:+ tableHash +:+ " USING " +:+ stable
  +:+ " TAGS (" +:+ quoted (rec_TenantID rec) +:+ ", " +:+ quoted (rec_DeviceID rec)
  +:+ ") VALUES (" +:+ decimal (rec_Ts rec) +:+ ", " +:+ quoted (rec_MsgID rec) +:+ ", " +:+ quoted (rec_Type rec)
  +:+ ", " +:+ quoted (rec_Version rec) +:+ ", " +:+ String tick (sha256_hex (rec_Payload rec) +:+ String tick "")
  +:+ ", " +:+ decimal (len (rec_Payload rec)) +:+ ")".

Definition fields_of (rec : TelemetryRecord) : Envelope :=
  MkEnvelope (rec_MsgID rec) (rec_TenantID rec) (rec_DeviceID rec) 0 (rec_Type rec) (rec_Version rec) "" "" "" 0 "".

Definition writeRecord (w : TDengineWriter) (rec : TelemetryRecord) : IO (option error) :=
  match ValidateTelemetryFields (fields_of rec) with
  | Err _ => mret (Some [ErrTDFieldRejected])
  | Ok _ =>
    err ← attempt (TDengineWrite rec);
    match err with
    | Some e => _ ← inc "tdengine_write" ["error"]; mret (Some e)
    | None => _ ← inc "tdengine_write" ["ok"]; mret None
    end
  end.

(** A nil writer accepts everything. *)
Definition WriteTelemetryContext (w : option TDengineWriter) (rec : TelemetryRecord) : IO (option error) :=
  match w with
  | None => mret None
  | Some w => if td_closed w then mret (Some [ErrTDengineWriterClosed]) else writeRecord w rec
  end.

Definition WriteTelemetry (w : option TDengineWriter) (rec : TelemetryRecord) : IO (option error) := WriteTelemetryContext w rec.

(** A nil writer has nothing to close. *)
Definition td_Close (w : option TDengineWriter) : option TDengineWriter :=
  (fun w => MkTDengineWriter (td_database w) (td_table w) true) <$> w.

(** A write after [Close] is refused and does nothing. *)
Lemma write_after_close w rec : WriteTelemetry (td_Close (Some w)) rec = mret (Some [ErrTDengineWriterClosed]).
Proof. done. Qed.
End tdengine.

(** The structured code of the driver's errors. *)
Class TaosDriver := { taos_code : error -> option Z }.

Definition isPermanentTDengineWriteError `{TaosDriver} (err : error) : bool :=
  errors_is err ErrTDFieldRejected
  || match taos_code err with Some code => Z.land code 65535 =? 1547 | None => false end.

(** ** Literals cannot be escaped from

    The reference: how the server reads a string literal after its opening
    quote; a backslash takes the next character literally and a doubled quote
    stands for one. *)
Fixpoint read_literal (s : string) : option (string * string) :=
  match s with
  | EmptyString => None
  | String c r =>
    if Ascii.eqb c backslash then
      match r with
      | EmptyString => None
      | String d r' => '(v, rest) ← read_literal r'; Some (String d v, rest)
      end
    else if Ascii.eqb c tick then
      match r with
      | String d r' => if Ascii.eqb d tick then '(v, rest) ← read_literal r'; Some (String tick v, rest) else Some ("", r)
      | EmptyString => Some ("", "")
      end
    else '(v, rest) ← read_literal r; Some (String c v, rest)
  end.

Definition starts_with_tick (s : string) : bool := match s with String c _ => Ascii.eqb c tick | _ => false end.

Lemma replace_cons_eq c by_ r : replace_all c by_ (String c r) = by_ +:+ replace_all c by_ r.
Proof. simpl. by rewrite Ascii.eqb_refl. Qed.

Lemma replace_cons_ne a c by_ r : a <> c -> replace_all c by_ (String a r) = String a (replace_all c by_ r).
Proof. intros Hne. simpl. by destruct (Ascii.eqb_spec a c). Qed.

Lemma escape_cons a r :
  escapeTD (String a r) =
  (if Ascii.eqb a backslash then bslash2 else if Ascii.eqb a tick then tick2 else String a "") +:+ escapeTD r.
Proof.
  unfold escapeTD. destruct (Ascii.eqb_spec a backslash) as [->|Hb].
  - rewrite replace_cons_eq. unfold bslash2. rewrite !str_app_cons, !str_app_nil_l, !replace_cons_ne by done. done.
  - rewrite replace_cons_ne by done. destruct (Ascii.eqb_spec a tick) as [->|Ht].
    + by rewrite replace_cons_eq.
    + by rewrite replace_cons_ne by done.
Qed.

(** No field value can break out of the INSERT statement: whatever the
    value, the server reads the quoted literal back as exactly that value and
    continues right after the closing quote. *)
Theorem td_literal_roundtrip s rest :
  starts_with_tick rest = false -> read_literal (escapeTD s +:+ String tick rest) = Some (s, rest).
Proof.
  intros Hrest. induction s as [|a s IH].
  - change (escapeTD "" +:+ String tick rest) with (String tick rest). cbn [read_literal].
    replace (Ascii.eqb tick backslash) with false by reflexivity. rewrite Ascii.eqb_refl.
    destruct rest as [|c r]; [done|]. simpl in Hrest. by rewrite Hrest.
  - rewrite escape_cons. destruct (Ascii.eqb_spec a backslash) as [->|Hb]; [|destruct (Ascii.eqb_spec a tick) as [->|Ht]].
    + unfold bslash2. rewrite !str_app_cons, str_app_nil_l. cbn [read_literal]. rewrite Ascii.eqb_refl, IH. done.
    + unfold tick2. rewrite !str_app_cons, str_app_nil_l. cbn [read_literal]. replace (Ascii.eqb tick backslash) with false by reflexivity.
      rewrite !Ascii.eqb_refl, IH. done.
    + rewrite !str_app_cons, str_app_nil_l. cbn [read_literal].
      destruct (Ascii.eqb_spec a backslash); [done|]. destruct (Ascii.eqb_spec a tick); [done|]. rewrite IH. done.
Qed.

Lemma td_literal_roundtrip_witness :
  read_literal (escapeTD "a\'); DROP" +:+ String tick ", 5)") = Some ("a\'); DROP", ", 5)").
Proof. apply td_literal_roundtrip. reflexivity. Defined.
