(* ===== verification/Worker.v ===== *)
(** * The device worker: internal/platform/{worker,worker_ack,worker_storage}.go

    The consumers are written as one function per message; [Some err] is the
    error the loop returns, [None] lets it go on to the next message.  The
    store is the PostgreSQL one, which has every optional interface the worker
    asks a store for. *)
From stdpp Require Import prelude strings gmap.
From Stdlib Require Import ZArith Lia.
From S2P Require Import Prelude GoStrings Contracts CommandState GoJson Payload Domain TimeText Postgres PostgresStore PostgresCommands Base64 Host Kafka TDengine.

Local Open Scope Z_scope.

Record Worker := MkWorker {
  wk_store : bool;
  wk_tdengine : option TDengineWriter;
  wk_mqtt : bool;
  wk_dlqWriter : option string;
  wk_tenantAllowlist : list string;
  wk_ackTimeout : Z }.

(** A nil map is the empty list. *)
Definition tenantAllowlist (tenantIDs : list string) : list string := filter (fun t => t <> "") tenantIDs.

Definition tenantAllowed (w : Worker) (tenantID : string) : bool :=
  match wk_tenantAllowlist w with [] => true | allow => bool_decide (tenantID ∈ allow) end.

(** worker_storage.go *)
Definition commandRetryBackoff (attempt : Z) : Z := Second * Z.shiftl 1 (Z.min (Z.max attempt 0) 6).

Definition commandAlreadyDelivered (status : string) : bool :=
  String.eqb status CommandStatusSent || String.eqb status CommandStatusAcked
  || String.eqb status CommandStatusTimeout || String.eqb status CommandStatusFailed.

(** The readings of the clocks while one message is handled. *)
Record Clock := MkClock { ck_now : Z; ck_dbnow : Z }.

Section worker.
Context `{Unicode} `{PgEnv} `{KafkaClient} `{TaosDriver}.
(** [json.Unmarshal] into the two records. *)
Context (unmarshal_telemetry : string -> result TelemetryRecord) (unmarshal_command : string -> result Command).

Definition worker_metric (kind outcome : string) : IO unit := inc "device_worker" [kind; outcome].

(** ** Telemetry *)
Definition with_received (rec : TelemetryRecord) (t : Z) : TelemetryRecord :=
  MkTelemetryRecord (rec_MsgID rec) (rec_TenantID rec) (rec_DeviceID rec) (rec_Ts rec) (rec_Type rec)
    (rec_Version rec) (rec_Payload rec) (rec_TDengineWritten rec) t.

Definition markTelemetryWritten (rec : TelemetryRecord) : IO (result unit) :=
  on_store (MarkTelemetryTDengineWrittenContext (rec_MsgID rec) (rec_TenantID rec) (rec_DeviceID rec)).

Definition telemetry_done (msg : KMessage) : IO (option error) :=
  _ ← worker_metric "telemetry" "ok"; attempt (CommitOffset msg).

Definition telemetry_sink (w : Worker) (ck : Clock) (msg : KMessage) (storedRec : TelemetryRecord) : IO (option error) :=
  match wk_tdengine w with
  | None => telemetry_done msg
  | Some td =>
    err ← WriteTelemetryContext (Some td) storedRec;
    match err with
    | Some e =>
      _ ← worker_metric "telemetry" "error";
      commitAfterDeadLetter (wk_dlqWriter w) (ck_now ck) msg StageTelemetryTDengine e
    | None =>
      _ ← (if wk_store w then _ ← markTelemetryWritten storedRec; mret tt else mret tt);
      telemetry_done msg
    end
  end.

Definition consume_telemetry (w : Worker) (ck : Clock) (msg : KMessage) : IO (option error) :=
  match unmarshal_telemetry (km_Value msg) with
  | Err e =>
    _ ← worker_metric "telemetry" "error";
    commitAfterDeadLetter (wk_dlqWriter w) (ck_now ck) msg StageTelemetryDecode e
  | Ok rec =>
    if negb (tenantAllowed w (rec_TenantID rec)) then
      _ ← worker_metric "telemetry" "filtered"; attempt (CommitOffset msg)
    else
      let rec := if IsZero (rec_ReceivedAt rec) then with_received rec (km_Time msg) else rec in
      if wk_store w then
        stored ← on_store (RestoreTelemetryContext (ck_now ck) rec);
        match stored with
        | Ok (Fresh s) => telemetry_sink w ck msg s
        | Ok (Duplicate s) =>
          if rec_TDengineWritten s then attempt (CommitOffset msg) else telemetry_sink w ck msg s
        | Err e =>
          _ ← worker_metric "telemetry" "error";
          commitAfterDeadLetter (wk_dlqWriter w) (ck_now ck) msg StageTelemetryPostgres e
        end
      else telemetry_sink w ck msg rec
  end.

(** What [FetchMessage] yields. *)
Inductive Fetch := Fetched (msg : KMessage) | FetchFailed (e : error).

(** The loop, over the fetches until the process ends; [None]: it is still
    running, or was cancelled. *)
Fixpoint consume_loop (kind : string) (handle : KMessage -> IO (option error)) (fs : list Fetch) : IO (option error) :=
  match fs with
  | [] => mret None
  | FetchFailed e :: fs' =>
    if errors_is e ContextCanceled then mret None
    else
      _ ← worker_metric kind "error";
      if isRetriableKafkaError e then _ ← act (Sleep (500 * Millisecond)); consume_loop kind handle fs'
      else mret (Some e)
  | Fetched msg :: fs' =>
    err ← handle msg;
    match err with
    | Some e => mret (Some e)
    | None => consume_loop kind handle fs'
    end
  end.

Definition consumeTelemetry (w : Worker) (ck : Clock) (fs : list Fetch) : IO (option error) :=
  consume_loop "telemetry" (consume_telemetry w ck) fs.

(** ** Commands *)

(** The stored command, and whether to deliver it. *)
Definition commandForDelivery (w : Worker) (event : Command) : IO (result (option Command)) :=
  if negb (wk_store w) then mret (Err [Opaque "command store is not configured"])
  else
    r ← on_store (GetCommandForDelivery (cmd_ID event));
    match r with
    | Err e => if errors_is e ErrNotFound then mret (Ok None) else mret (Err e)
    | Ok cmd =>
      if negb (String.eqb (cmd_TenantID cmd) (cmd_TenantID event)) || negb (String.eqb (cmd_DeviceID cmd) (cmd_DeviceID event))
      then mret (Ok None)
      else if String.eqb (cmd_Status cmd) CommandStatusCreated || String.eqb (cmd_Status cmd) CommandStatusPublished
           then mret (Ok (Some cmd)) else mret (Ok None)
    end.

Definition downlink (cmd : Command) : CommandDownlink :=
  MkCommandDownlink (cmd_ID cmd) (cmd_TenantID cmd) (cmd_DeviceID cmd) (cmd_Status cmd) (cmd_Payload cmd)
    (cmd_CreatedAt cmd) (cmd_UpdatedAt cmd).

Definition marshal_downlink (d : CommandDownlink) : option error :=
  match marshal_raw (cd_Payload d) with
  | Err e => Some e
  | Ok _ => if year_in_range (cd_CreatedAt d) && year_in_range (cd_UpdatedAt d) then None else Some marshal_error
  end.

(** The outcome of [Publish] and of waiting for it is one attempt: a timeout is
    a failure of the attempt. *)
Definition deliver_command (w : Worker) (ck : Clock) (msg : KMessage) (cmd : Command) : IO (option error) :=
  match BuildCommandTopic (cmd_TenantID cmd) (cmd_DeviceID cmd) with
  | Err e =>
    _ ← worker_metric "command" "error";
    commitAfterDeadLetter (wk_dlqWriter w) (ck_now ck) msg StageCommandTopic e
  | Ok topic =>
    match marshal_downlink (downlink cmd) with
    | Some e =>
      _ ← worker_metric "command" "error";
      commitAfterDeadLetter (wk_dlqWriter w) (ck_now ck) msg StageCommandEncode e
    | None =>
      err ← attempt (MqttPublish topic (downlink cmd));
      match err with
      | Some e =>
        _ ← worker_metric "command" "error";
        _ ← on_store (RequeueCommandContext (ck_dbnow ck) (cmd_ID cmd) (commandRetryBackoff (cmd_DispatchAttempts cmd)));
        commitAfterDeadLetter (wk_dlqWriter w) (ck_now ck) msg StageCommandMQTT e
      | None =>
        r ← on_store (MarkCommandSentContext (ck_dbnow ck) (cmd_ID cmd) (ck_now ck + wk_ackTimeout w));
        match r with
        | Err e => mret (Some (Opaque "command mark sent" :: e))
        | Ok _ => _ ← worker_metric "command" "ok"; attempt (CommitOffset msg)
        end
      end
    end
  end.

Definition consume_command (w : Worker) (ck : Clock) (msg : KMessage) : IO (option error) :=
  match unmarshal_command (km_Value msg) with
  | Err e =>
    _ ← worker_metric "command" "error";
    commitAfterDeadLetter (wk_dlqWriter w) (ck_now ck) msg StageCommandDecode e
  | Ok event =>
    if cmd_DispatchAttempts event <? 0 then
      _ ← worker_metric "command" "error";
      commitAfterDeadLetter (wk_dlqWriter w) (ck_now ck) msg StageCommandDecode [Opaque "negative command dispatchAttempts"]
    else if negb (tenantAllowed w (cmd_TenantID event)) then
      _ ← worker_metric "command" "filtered"; attempt (CommitOffset msg)
    else
      found ← commandForDelivery w event;
      match found with
      | Err e => mret (Some (Opaque "command delivery lookup" :: e))
      | Ok None => _ ← worker_metric "command" "duplicate"; attempt (CommitOffset msg)
      | Ok (Some cmd) =>
        if negb (wk_mqtt w) then _ ← worker_metric "command" "error"; attempt (CommitOffset msg)
        else deliver_command w ck msg cmd
      end
  end.

Definition consumeCommands (w : Worker) (ck : Clock) (fs : list Fetch) : IO (option error) :=
  consume_loop "command" (consume_command w ck) fs.

(** ** Compensation *)
Definition tdengineCompensateMinAge : Z := 2 * Minute.
Definition tdengineCompensateBatch : Z := 500.

(** [cancelled] says whether the context was cancelled before each row. *)
Fixpoint compensateTelemetryRows (w : Worker) (rows : list (TelemetryRecord * bool)) : IO bool :=
  match rows with
  | [] => mret true
  | (rec, cancelled) :: rows' =>
    if cancelled then mret false
    else if negb (tenantAllowed w (rec_TenantID rec)) then compensateTelemetryRows w rows'
    else
      err ← WriteTelemetryContext (wk_tdengine w) rec;
      match err with
      | Some e =>
        _ ← worker_metric "telemetry_compensate" "error";
        if isPermanentTDengineWriteError e then compensateTelemetryRows w rows' else mret false
      | None =>
        r ← markTelemetryWritten rec;
        match r with
        | Err _ => compensateTelemetryRows w rows'
        | Ok _ => _ ← worker_metric "telemetry_compensate" "ok"; compensateTelemetryRows w rows'
        end
      end
  end.

(** One tick of [compensateUnwrittenTelemetry], from cursor to cursor. *)
Definition compensate_tick (w : Worker) (now afterID : Z) (cancelled : list bool) : IO Z :=
  r ← on_store (ListUnwrittenTelemetry (now - tdengineCompensateMinAge) afterID (wk_tenantAllowlist w) tdengineCompensateBatch);
  match r with
  | Err _ => mret afterID
  | Ok ([], _) => mret 0
  | Ok (rows, nextID) =>
    ok ← compensateTelemetryRows w (zip rows (cancelled ++ replicate (length rows) false));
    mret (match ok with true => nextID | false => afterID end)
  end.
End worker.
