(* ===== verification/WorkerSetup.v ===== *)
(** * Building and running the worker and the bridge

    [NewWorker] and [NewMQTTBridge] of internal/platform/{worker,mqtt_bridge}.go
    with their defaults, the consumer group a set of tenants gets, the
    subscription of acknowledgements with its gate on readiness, and the phases
    of [Run]. *)
From stdpp Require Import prelude strings gmap sorting.
From Stdlib Require Import ZArith Lia Ascii.
From S2P Require Import Prelude GoStrings Contracts CommandState GoJson Payload Domain RuntimeConfig KafkaTopics TimeText Postgres PostgresStore PostgresCommands Base64 Host Kafka Bridge TDengine Worker.

Local Open Scope Z_scope.

(** ** sort.Strings: the order of bytes *)
Fixpoint str_leb (a b : string) : bool :=
  match a, b with
  | EmptyString, _ => true
  | String _ _, EmptyString => false
  | String x a', String y b' => if bval x <? bval y then true else if bval y <? bval x then false else str_leb a' b'
  end.
Definition str_le (a b : string) : Prop := str_leb a b = true.

#[export] Instance str_le_dec a b : Decision (str_le a b).
Proof. unfold str_le. apply _. Defined.

Lemma str_leb_cons x a y b : str_le (String x a) (String y b) <-> bval x < bval y \/ (bval x = bval y /\ str_le a b).
Proof.
  unfold str_le. simpl. destruct (Z.ltb_spec (bval x) (bval y)); [split; [lia|done]|].
  destruct (Z.ltb_spec (bval y) (bval x)); [split; [done|lia]|]. intuition lia.
Qed.

#[export] Instance str_le_total : Total str_le.
Proof.
  intros a. induction a as [|x a IH]; intros [|y b]; [by left|by left|by right|].
  rewrite !str_leb_cons. destruct (IH b); lia || (destruct (Z.lt_trichotomy (bval x) (bval y)) as [?|[?|?]]; auto).
Qed.
#[export] Instance str_le_trans : Transitive str_le.
Proof.
  intros a. induction a as [|x a IH]; intros [|y b] [|z c]; try done. rewrite !str_leb_cons.
  intros [Hx|[Hx Ha]] [Hy|[Hy Hb]]; [left; lia..|right; split; [lia|exact (IH _ _ Ha Hb)]].
Qed.
#[export] Instance str_le_antisymm : AntiSymm (=) str_le.
Proof.
  intros a. induction a as [|x a IH]; intros [|y b] Hab Hba; try done.
  apply str_leb_cons in Hab as [?|[Hx Ha]], Hba as [?|[? Hb]]; try lia.
  rewrite (IH _ Ha Hb). f_equal. unfold bval in Hx. apply N2Z.inj in Hx. apply (f_equal Ascii.ascii_of_N) in Hx.
  by rewrite !Ascii.ascii_N_embedding in Hx.
Qed.

Definition sort_strings (l : list string) : list string := merge_sort str_le l.

Lemma sort_strings_unique l l' : l ≡ₚ l' -> sort_strings l = sort_strings l'.
Proof.
  intros Hp. apply (StronglySorted_unique str_le).
  - apply StronglySorted_merge_sort; apply _.
  - apply StronglySorted_merge_sort; apply _.
  - unfold sort_strings. by rewrite !merge_sort_Permutation.
Qed.

(** ** The consumer group of a set of tenants *)

(** The identifiers that are not empty, each where it first occurs. *)
Fixpoint distinct_ids (seen : gset string) (ids : list string) : list string :=
  match ids with
  | [] => []
  | id :: rest => if String.eqb id "" then distinct_ids seen rest
                  else if bool_decide (id ∈ seen) then distinct_ids seen rest
                  else id :: distinct_ids ({[id]} ∪ seen) rest
  end.

(** What is hashed: every identifier followed by a zero byte. *)
Fixpoint nul_terminated (ids : list string) : string :=
  match ids with [] => "" | id :: rest => id +:+ nul +:+ nul_terminated rest end.

Definition tenant_set_text (tenantIDs : list string) : string := nul_terminated (sort_strings (distinct_ids ∅ tenantIDs)).

Definition tenantSetHash `{Digest} (tenantIDs : list string) : string := str_take 32 (sha256_hex (tenant_set_text tenantIDs)).

Definition or_default (s fallback : string) : string := if String.eqb s "" then fallback else s.

Definition worker_group `{Digest} (groupID : string) (tenantIDs : list string) : string :=
  let groupID := or_default groupID "iot-device-worker" in
  match tenantAllowlist tenantIDs with [] => groupID | _ => groupID +:+ "-" +:+ tenantSetHash tenantIDs end.

Lemma distinct_ids_elem seen ids x : x ∈ distinct_ids seen ids <-> x ∈ ids /\ x <> "" /\ x ∉ seen.
Proof.
  revert seen. induction ids as [|id ids IH]; intros seen; cbn [distinct_ids]; [set_solver|].
  destruct (String.eqb_spec id "") as [->|Hne]; [rewrite IH; set_solver|].
  case_bool_decide; [rewrite IH; set_solver|]. rewrite elem_of_cons, IH.
  destruct (decide (x = id)) as [->|]; set_solver.
Qed.

Lemma distinct_ids_NoDup seen ids : NoDup (distinct_ids seen ids).
Proof.
  revert seen. induction ids as [|id ids IH]; intros seen; cbn [distinct_ids]; [constructor|].
  destruct (String.eqb id ""); [done|]. case_bool_decide; [done|]. constructor; [|done]. rewrite distinct_ids_elem. set_solver.
Qed.

(** The tenants an allowlist admits, as a set. *)
Definition allowed_set (ids : list string) : gset string := list_to_set (tenantAllowlist ids).

Lemma distinct_ids_allowed ids x : x ∈ distinct_ids ∅ ids <-> x ∈ allowed_set ids.
Proof.
  unfold allowed_set, tenantAllowlist. rewrite distinct_ids_elem, elem_of_list_to_set, list_elem_of_filter. set_solver.
Qed.

Lemma tenant_set_text_of_set ids ids' : allowed_set ids = allowed_set ids' -> tenant_set_text ids = tenant_set_text ids'.
Proof.
  intros E. unfold tenant_set_text. f_equal. apply sort_strings_unique, NoDup_Permutation; [apply distinct_ids_NoDup..|].
  intros x. by rewrite !distinct_ids_allowed, E.
Qed.

Lemma nul_terminated_inj l l' :
  Forall (fun id => contains_byte "000" id = false) l -> Forall (fun id => contains_byte "000" id = false) l' ->
  nul_terminated l = nul_terminated l' -> l = l'.
Proof.
  intros Hl. revert l'. induction Hl as [|id l Hid _ IH]; intros l' Hl' E; destruct Hl' as [|id' l' Hid' Hl']; [done| | |].
  - exfalso. apply (f_equal (cut_byte "000")) in E. cbn [nul_terminated] in E. unfold nul in E. rewrite str_app_cons in E.
    by rewrite cut_byte_app in E.
  - exfalso. apply (f_equal (cut_byte "000")) in E. cbn [nul_terminated] in E. unfold nul in E. rewrite str_app_cons in E.
    by rewrite cut_byte_app in E.
  - apply (f_equal (cut_byte "000")) in E. cbn [nul_terminated] in E. unfold nul in E. rewrite !str_app_cons in E.
    rewrite !cut_byte_app in E by done. injection E as -> E. f_equal. by apply IH.
Qed.

Lemma allowed_set_of_text ids ids' :
  Forall (fun id => contains_byte "000" id = false) ids -> Forall (fun id => contains_byte "000" id = false) ids' ->
  tenant_set_text ids = tenant_set_text ids' -> allowed_set ids = allowed_set ids'.
Proof.
  intros Hn Hn' E. rewrite Forall_forall in Hn, Hn'.
  assert (Hsub : forall l, (forall x, x ∈ l -> contains_byte "000" x = false) ->
                 Forall (fun id => contains_byte "000" id = false) (sort_strings (distinct_ids ∅ l))).
  { intros l Hl. apply Forall_forall. intros x Hx. unfold sort_strings in Hx. rewrite merge_sort_Permutation in Hx.
    apply distinct_ids_elem in Hx as [Hx _]. by apply Hl. }
  apply nul_terminated_inj in E; [|by apply Hsub..]. apply set_eq. intros x. rewrite <- !distinct_ids_allowed.
  rewrite <- (merge_sort_Permutation str_le (distinct_ids ∅ ids)), <- (merge_sort_Permutation str_le (distinct_ids ∅ ids')).
  unfold sort_strings in E. by rewrite E.
Qed.

(** A worker's consumer group is a function of the set of tenants it
    serves and of nothing else about its allowlist: order, repetitions and
    empty entries do not change it, and two workers with different sets never
    share a group, so neither commits past messages meant for the other, as
    long as the truncated digests of the two sets do not collide. *)
Theorem worker_group_by_set `{Digest} groupID ids ids' :
  Forall (fun id => contains_byte "000" id = false) ids -> Forall (fun id => contains_byte "000" id = false) ids' ->
  (tenantSetHash ids = tenantSetHash ids' -> tenant_set_text ids = tenant_set_text ids') ->
  (worker_group groupID ids = worker_group groupID ids' <-> allowed_set ids = allowed_set ids').
Proof.
  intros Hn Hn' Hcoll. unfold worker_group. set (base := or_default groupID "iot-device-worker").
  assert (Hlen : forall t, base <> base +:+ "-" +:+ t).
  { intros t E. apply (f_equal len) in E. rewrite !len_app in E. pose proof (len_nonneg t). unfold len at 3 in E. simpl in E. lia. }
  assert (Hempty : forall l, tenantAllowlist l = [] <-> allowed_set l = ∅).
  { intros l. unfold allowed_set. destruct (tenantAllowlist l); set_solver. }
  destruct (tenantAllowlist ids) as [|a l] eqn:E1, (tenantAllowlist ids') as [|a' l'] eqn:E2.
  - split; [|done]. intros _. apply Hempty in E1, E2. by rewrite E1, E2.
  - split; [by intros ?%Hlen|]. intros E. apply Hempty in E1. rewrite E1 in E. symmetry in E. apply Hempty in E. congruence.
  - split; [by intros E; symmetry in E; apply Hlen in E|]. intros E. apply Hempty in E2. rewrite E2 in E. apply Hempty in E. congruence.
  - split.
    + intros E%str_app_inj_l%str_app_inj_l. apply allowed_set_of_text; auto.
    + intros E. unfold tenantSetHash. by rewrite (tenant_set_text_of_set _ _ E).
Qed.

Lemma worker_group_by_set_witness :
  let _ : Digest := {| sha256_hex := fun s => s; decimal := fun _ => "" |} in
  worker_group "" ["b"; ""; "a"; "b"] = worker_group "" ["a"; "b"] /\ worker_group "" ["a"] <> worker_group "" ["a"; "b"].
Proof.
  intros D. split.
  - apply (@worker_group_by_set D "" ["b"; ""; "a"; "b"] ["a"; "b"]); [by repeat constructor..|by vm_compute|by vm_compute].
  - intros E. apply (@worker_group_by_set D "" ["a"] ["a"; "b"]) in E; [|by repeat constructor..|by vm_compute].
    assert (Hb : "b" ∈ allowed_set ["a"; "b"]) by (by vm_compute). rewrite <- E in Hb. by vm_compute in Hb.
Defined.

(** ** Construction *)
Record WorkerConfig := MkWorkerConfig {
  wc_KafkaBrokers : list string;
  wc_KafkaGroupID : string;
  wc_KafkaStartOffset : Z;
  wc_TelemetryTopic : string;
  wc_CommandTopic : string;
  wc_DLQTopic : string;
  wc_AckTopicFilter : string;
  wc_AckTopicFilters : list string;
  wc_TenantIDs : list string;
  wc_MQTTBrokerURL : string;
  wc_MQTTClientID : string;
  wc_MQTTUsername : string;
  wc_MQTTPassword : string;
  wc_AckTimeout : Z;
  wc_TopicConfig : KafkaTopicConfig;
  wc_DLQTopicConfig : KafkaTopicConfig }.

Record ReaderConfig := MkReaderConfig { rd_Topic : string; rd_GroupID : string; rd_StartOffset : Z }.

(** What the code sets of the options of a paho client that differs between
    configurations; automatic acknowledgement is off in both services. *)
Record MqttOptions := MkMqttOptions {
  mo_Broker : string;
  mo_ClientID : string;
  mo_Username : option string;
  mo_Password : option string;
  mo_Subscriptions : list string }.

Definition unless_empty (s : string) : option string := if String.eqb s "" then None else Some s.

Definition normalizeAckTopicFilters (cfg : WorkerConfig) : list string :=
  match filter (fun topic => topic <> "") (wc_AckTopicFilters cfg) with
  | [] => if negb (String.eqb (wc_AckTopicFilter cfg) "") then [wc_AckTopicFilter cfg] else [AckTopicFilter]
  | topics => topics
  end.

(** A worker with what its construction decided besides [Worker]. *)
Record WorkerParts := MkWorkerParts {
  wp_startupErr : option error;
  wp_worker : Worker;
  wp_telemetryReader : option ReaderConfig;
  wp_commandReader : option ReaderConfig;
  wp_mqtt : option MqttOptions }.

Section construct.
Context `{KafkaAdmin} `{Digest}.
(** [kafka.FirstOffset] *)
Variable FirstOffset : Z.

(** Topics first; the readers exist only when both sets of topics are there. *)
Definition worker_topics (cfg : WorkerConfig) : Setup string :=
  let telemetryTopic := or_default (wc_TelemetryTopic cfg) "iot.telemetry" in
  let commandTopic := or_default (wc_CommandTopic cfg) "iot.command" in
  let dlqTopic := or_default (wc_DLQTopic cfg) "iot.dlq" in
  _ ← initializeKafkaTopics (wc_KafkaBrokers cfg) (businessTopicConfig (wc_TopicConfig cfg)) [telemetryTopic; commandTopic];
  _ ← initializeKafkaTopics (wc_KafkaBrokers cfg) (deadLetterTopicConfig (wc_DLQTopicConfig cfg)) [dlqTopic];
  mret dlqTopic.

Definition worker_reader (cfg : WorkerConfig) (topic suffix : string) : ReaderConfig :=
  MkReaderConfig topic (worker_group (wc_KafkaGroupID cfg) (wc_TenantIDs cfg) +:+ suffix)
    (if wc_KafkaStartOffset cfg =? 0 then FirstOffset else wc_KafkaStartOffset cfg).

Definition worker_mqtt (cfg : WorkerConfig) : option MqttOptions :=
  if String.eqb (wc_MQTTBrokerURL cfg) "" then None
  else Some (MkMqttOptions (wc_MQTTBrokerURL cfg) (or_default (wc_MQTTClientID cfg) "iot-device-worker")
               (unless_empty (wc_MQTTUsername cfg)) (unless_empty (wc_MQTTPassword cfg)) (normalizeAckTopicFilters cfg)).

Definition NewWorker (cfg : WorkerConfig) (store : bool) (tdengine : option TDengineWriter) : Setup WorkerParts :=
  let ackTimeout := if wc_AckTimeout cfg <=? 0 then 300 * Second else wc_AckTimeout cfg in
  let worker mqtt dlq := MkWorker store tdengine mqtt dlq (tenantAllowlist (wc_TenantIDs cfg)) ackTimeout in
  let mqtt := worker_mqtt cfg in
  let connected := match mqtt with Some _ => true | None => false end in
  match wc_KafkaBrokers cfg with
  | [] => mret (MkWorkerParts None (worker connected None) None None mqtt)
  | _ =>
    topics ← outcome (worker_topics cfg);
    match topics with
    | Err e => mret (MkWorkerParts (Some e) (worker false None) None None None)
    | Ok dlqTopic =>
      mret (MkWorkerParts None (worker connected (Some dlqTopic))
              (Some (worker_reader cfg (or_default (wc_TelemetryTopic cfg) "iot.telemetry") "-telemetry"))
              (Some (worker_reader cfg (or_default (wc_CommandTopic cfg) "iot.command") "-command")) mqtt)
    end
  end.
End construct.

(** ** mqtt_bridge.go *)
Record MQTTBridgeConfig := MkMQTTBridgeConfig {
  bc_BrokerURL : string;
  bc_ClientID : string;
  bc_Username : string;
  bc_Password : string;
  bc_TopicFilter : string;
  bc_PublishConcurrency : Z;
  bc_PublishSlotTimeout : Z;
  bc_KafkaBrokers : list string;
  bc_DLQTopic : string;
  bc_DLQTopicConfig : KafkaTopicConfig;
  bc_Inbox : option TelemetryInbox }.

(** A bridge with its publish slots, the time a message waits for one, and its
    client, which a failed start does not create. *)
Record BridgeParts := MkBridgeParts {
  bp_startupErr : option error;
  bp_bridge : MQTTBridge;
  bp_slots : Z;
  bp_slotTimeout : Z;
  bp_mqtt : option MqttOptions }.

Definition NewMQTTBridge `{KafkaAdmin} (cfg : MQTTBridgeConfig) (publisher : option KafkaPublisher) : Setup (option BridgeParts) :=
  match publisher with
  | Some publisher =>
    if String.eqb (bc_BrokerURL cfg) "" then mret None
    else
      let slots := if bc_PublishConcurrency cfg <=? 0 then 64 else bc_PublishConcurrency cfg in
      let slotTimeout := if bc_PublishSlotTimeout cfg <=? 0 then 30 * Second else bc_PublishSlotTimeout cfg in
      let topic := or_default (bc_DLQTopic cfg) "iot.dlq" in
      let parts err dlq mqtt := MkBridgeParts err (MkMQTTBridge publisher dlq (bc_Inbox cfg)) slots slotTimeout mqtt in
      let mqtt := MkMqttOptions (bc_BrokerURL cfg) (bc_ClientID cfg) (unless_empty (bc_Username cfg)) (unless_empty (bc_Password cfg))
                    [or_default (bc_TopicFilter cfg) TelemetryTopicFilter] in
      match bc_KafkaBrokers cfg with
      | [] => mret (Some (parts None None (Some mqtt)))
      | brokers =>
        r ← outcome (initializeKafkaTopics brokers (deadLetterTopicConfig (bc_DLQTopicConfig cfg)) [topic]);
        match r with
        | Err e => mret (Some (parts (Some e) None None))
        | Ok _ => mret (Some (parts None (Some topic) (Some mqtt)))
        end
      end
  | None => mret None
  end.

(** ** kafka_publisher.go *)
Record KafkaPublisherConfig := MkKafkaPublisherConfig {
  kpc_Brokers : list string;
  kpc_TelemetryTopic : string;
  kpc_CommandTopic : string;
  kpc_TopicConfig : KafkaTopicConfig }.

Definition NewKafkaPublisher `{KafkaAdmin} (cfg : KafkaPublisherConfig) : Setup (option KafkaPublisher) :=
  match kpc_Brokers cfg with
  | [] => mret None
  | brokers =>
    let telemetryTopic := or_default (kpc_TelemetryTopic cfg) "iot.telemetry" in
    let commandTopic := or_default (kpc_CommandTopic cfg) "iot.command" in
    _ ← initializeKafkaTopics brokers (businessTopicConfig (kpc_TopicConfig cfg)) [telemetryTopic; commandTopic];
    mret (Some (MkKafkaPublisher (Some telemetryTopic) (Some commandTopic)))
  end.

(** [Close] closes both writers whatever the first answers; [close] is the
    outcome of closing the writer of a topic. *)
Definition PublisherClose (close : string -> option error) (p : option KafkaPublisher) : list string * option error :=
  match p with
  | None => ([], None)
  | Some p =>
    let writers := option_list (kp_telemetryWriter p) ++ option_list (kp_commandWriter p) in
    (writers, match omap close writers with [] => None | _ => Some [Opaque "close"] end)
  end.

(** ** Subscribing

    The answer to one SUBSCRIBE: the wait ended first, the token failed, it was
    of another type, or the QoS the broker granted for the filter, if any. *)
Inductive SubAnswer :=
| SubWaitOver
| SubFailed (e : error)
| SubNoResult
| SubGranted (qos : option Z).

Definition granted (a : SubAnswer) : bool := match a with SubGranted (Some q) => q =? 1 | _ => false end.

(** The gate of a service: its readiness, the first fatal error (a channel of
    one), and whether the ready channel is closed. *)
Record Gate := MkGate { gt_readiness : mqttReadiness; gt_fatal : option error; gt_ready : bool }.

(** [failAck] and [fail] *)
Definition gate_fail (e : error) (g : Gate) : Gate :=
  MkGate (readiness_stop (gt_readiness g)) (match gt_fatal g with None => Some e | old => old end) (gt_ready g).

(** [None] when every filter was granted; otherwise the error, if there is one
    to report: a worker that is shutting down reports none. *)
Fixpoint await_grants (answer : string -> SubAnswer) (shutdown : bool) (topics : list string) : option (option error) :=
  match topics with
  | [] => None
  | topic :: rest =>
    match answer topic with
    | SubWaitOver => Some (if shutdown then None else Some [Opaque "command ACK subscription incomplete"; ContextDeadlineExceeded])
    | SubFailed e => Some (Some (Opaque "command ACK subscribe" :: e))
    | SubNoResult => Some (Some [Opaque "missing SUBACK result"])
    | SubGranted _ => if granted (answer topic) then await_grants answer shutdown rest else Some (Some [Opaque "expected QoS 1"])
    end
  end.

(** [between] is what happens to the readiness while the answers are awaited. *)
Definition subscribeAckTopics (answer : string -> SubAnswer) (shutdown : bool) (between : list ReadinessEvent) (topics : list string) (g : Gate) : Gate :=
  let '(generation, r) := readiness_reset (gt_readiness g) in
  let g := MkGate (readiness_run r between) (gt_fatal g) (gt_ready g) in
  match await_grants answer shutdown topics with
  | Some (Some e) => gate_fail e g
  | Some None => g
  | None =>
    let '(confirmed, r) := readiness_confirm generation (gt_readiness g) in
    MkGate r (gt_fatal g) (confirmed || gt_ready g)
  end.

(** [OnConnect] of the bridge, after its SUBSCRIBE. *)
Definition bridge_on_connect (answer : SubAnswer) (between : list ReadinessEvent) (g : Gate) : Gate :=
  let '(generation, r) := readiness_reset (gt_readiness g) in
  let g := MkGate (readiness_run r between) (gt_fatal g) (gt_ready g) in
  match answer with
  | SubWaitOver => gate_fail [Opaque "mqtt bridge subscribe timeout"] g
  | SubFailed e => gate_fail e g
  | SubNoResult => gate_fail [Opaque "mqtt bridge subscription missing SUBACK"] g
  | SubGranted _ =>
    if granted answer then MkGate (readiness_confirm generation (gt_readiness g)).2 (gt_fatal g) (gt_ready g)
    else gate_fail [Opaque "mqtt bridge subscription requires QoS 1"] g
  end.

(** [CheckReady] of both. *)
Definition CheckReady (connection_open : bool) (g : Gate) : bool := connection_open && readiness_ready (gt_readiness g).

Lemma await_grants_all answer shutdown topics :
  await_grants answer shutdown topics = None <-> Forall (fun topic => granted (answer topic) = true) topics.
Proof.
  induction topics as [|topic topics IH]; cbn [await_grants]; [by split|].
  rewrite Forall_cons, <- IH. destruct (answer topic) as [|e| |[q|]]; simpl; try (destruct shutdown); try naive_solver.
  all: destruct (q =? 1); naive_solver.
Qed.

(** A connection attempt that is not fully granted leaves the gate shut. *)
Lemma subscribe_gate answer shutdown topics g :
  gt_ready (subscribeAckTopics answer shutdown [] topics g) = true -> gt_ready g = false ->
  Forall (fun topic => granted (answer topic) = true) topics.
Proof.
  unfold subscribeAckTopics. simpl. destruct (await_grants answer shutdown topics) as [[e|]|] eqn:E; simpl; intros; [congruence..|].
  by apply await_grants_all in E.
Qed.

(** ** Run

    What wakes the goroutine of [Run] up, in order: the context is done, a
    fatal error arrives, the connection token completes, the acknowledgement
    subscriptions are confirmed, or a consumer returns. *)
Inductive Wake := WakeDone | WakeFatal (e : error) | WakeConnected (e : option error) | WakeReady | WakeConsumer (e : option error).

Inductive RunAct :=
| StartTelemetry | StartCommands | StartCompensation
| StopReadiness | CancelConsumers | CloseTelemetryReader | CloseCommandReader | StopAcks | CloseDLQ.

(** A run that is still waiting answers [None]. *)
Definition RunOutcome := option (option error).

(** The last wait; the same for worker and bridge. *)
Fixpoint await_end (wakes : list Wake) : RunOutcome :=
  match wakes with
  | [] => None
  | WakeDone :: _ => Some None
  | WakeFatal e :: _ => Some (Some e)
  | WakeConsumer e :: _ => Some e
  | _ :: rest => await_end rest
  end.

Definition start_consumers (p : WorkerParts) : list RunAct :=
  (match wp_telemetryReader p with Some _ => [StartTelemetry] | None => [] end)
  ++ (match wp_commandReader p with Some _ => [StartCommands] | None => [] end)
  ++ (match wk_tdengine (wp_worker p) with Some _ => [StartCompensation] | None => [] end).

(** Between the token and the confirmation. *)
Fixpoint await_ready (p : WorkerParts) (wakes : list Wake) : list RunAct * RunOutcome :=
  match wakes with
  | [] => ([], None)
  | WakeDone :: _ => ([], Some None)
  | WakeFatal e :: _ => ([], Some (Some e))
  | WakeReady :: rest => (start_consumers p, await_end rest)
  | _ :: rest => await_ready p rest
  end.

(** The loop over [token.WaitTimeout]; a confirmation that comes before the
    token is seen stays in its channel. *)
Fixpoint await_connect (p : WorkerParts) (confirmed : bool) (wakes : list Wake) : list RunAct * RunOutcome :=
  match wakes with
  | [] => ([], None)
  | WakeDone :: _ => ([], Some None)
  | WakeFatal e :: _ => ([], Some (Some e))
  | WakeConnected (Some e) :: _ => ([], Some (Some e))
  | WakeConnected None :: rest => if confirmed then (start_consumers p, await_end rest) else await_ready p rest
  | WakeReady :: rest => await_connect p true rest
  | WakeConsumer _ :: rest => await_connect p confirmed rest
  end.

(** The deferred function. *)
Definition worker_shutdown (p : WorkerParts) : list RunAct :=
  [StopReadiness; CancelConsumers]
  ++ (match wp_telemetryReader p with Some _ => [CloseTelemetryReader] | None => [] end)
  ++ (match wp_commandReader p with Some _ => [CloseCommandReader] | None => [] end)
  ++ [StopAcks]
  ++ (match wk_dlqWriter (wp_worker p) with Some _ => [CloseDLQ] | None => [] end).

Definition WorkerRun (p : WorkerParts) (wakes : list Wake) : list RunAct * RunOutcome :=
  match wp_startupErr p with
  | Some e => ([], Some (Some e))
  | None =>
    let '(acts, out) := match wp_mqtt p with
                        | Some _ => await_connect p false wakes
                        | None => (start_consumers p, await_end wakes)
                        end in
    (match out with Some _ => acts ++ worker_shutdown p | None => acts end, out)
  end.

(** [Run] of the bridge: connect, then wait; what its [stop] does is in
    [Drain]. *)
Fixpoint bridge_await (connected : bool) (wakes : list Wake) : RunOutcome :=
  match wakes with
  | [] => None
  | WakeDone :: _ => Some None
  | WakeFatal e :: _ => Some (Some e)
  | WakeConnected (Some e) :: rest => if connected then bridge_await connected rest else Some (Some e)
  | WakeConnected None :: rest => bridge_await true rest
  | _ :: rest => bridge_await connected rest
  end.

Definition BridgeRun (p : option BridgeParts) (wakes : list Wake) : RunOutcome :=
  match p with
  | None => Some None
  | Some p => match bp_startupErr p with
              | Some e => Some (Some e)
              | None => match bp_mqtt p with None => Some None | Some _ => bridge_await false wakes end
              end
  end.

(** Consumers start only after the subscription of acknowledgements was
    confirmed, so a command is never delivered while its answer has nowhere to
    arrive. *)
Definition starts (a : RunAct) : bool := match a with StartTelemetry | StartCommands | StartCompensation => true | _ => false end.

Lemma await_ready_confirmed p wakes a : a ∈ (await_ready p wakes).1 -> WakeReady ∈ wakes.
Proof. induction wakes as [|[] wakes IH]; simpl; intros Hin; set_solver. Qed.

Lemma await_connect_confirmed p confirmed wakes a : a ∈ (await_connect p confirmed wakes).1 -> confirmed = true \/ WakeReady ∈ wakes.
Proof.
  revert confirmed. induction wakes as [|[| |[e|]| |] wakes IH]; intros confirmed; simpl; intros Hin; try set_solver.
  destruct confirmed; [by left|]. right. apply await_ready_confirmed in Hin. set_solver.
Qed.

Lemma worker_starts_when_confirmed p wakes a :
  wp_mqtt p <> None -> a ∈ (WorkerRun p wakes).1 -> starts a = true -> WakeReady ∈ wakes.
Proof.
  unfold WorkerRun. destruct (wp_startupErr p); [set_solver|]. destruct (wp_mqtt p); [|done]. intros _.
  destruct (await_connect p false wakes) as [acts out] eqn:E. intros Hin Ha.
  assert (Hacts : a ∈ acts).
  { destruct out; [|done]. apply elem_of_app in Hin as [|Hin]; [done|]. unfold worker_shutdown in Hin.
    exfalso. destruct (wp_telemetryReader p), (wp_commandReader p), (wk_dlqWriter (wp_worker p)); simpl in Hin;
      repeat (apply elem_of_cons in Hin as [->|Hin]; [done|]); by apply elem_of_nil in Hin. }
  destruct (await_connect_confirmed p false wakes a); [by rewrite E|done|done].
Qed.
