(* ===== verification/Drain.v ===== *)
(** * Admission and shutdown: the callbacks and [stop] of internal/platform/{mqtt_bridge,worker_ack}.go

    Every MQTT message is handled by a callback of its own.  A callback is
    admitted under the mutex unless the service is stopping; in the bridge it
    then waits for a publish slot, or dead-letters its message when it gets
    none.  [stop] closes admission, waits for the admitted callbacks, and only
    then disconnects the client and closes the dead-letter writer.  The state
    below counts the callbacks at each point of that code; an event is one
    atomic step of one goroutine, and a run is any interleaving. *)
From stdpp Require Import prelude.
From Stdlib Require Import ZArith Lia.
From S2P Require Import Prelude.

Local Open Scope Z_scope.

(** Where [stop] is: not called, admission closed and waiting, then past each of
    its statements. *)
Inductive StopPhase := Serving | Waiting | Drained | Cancelled | Disconnected | Closed.

Record Drain := MkDrain {
  dn_stopping : bool;
  dn_pending : Z;       (** the [sync.WaitGroup] *)
  dn_slots : Z;         (** messages in the slot channel *)
  dn_waiting : Z;       (** callbacks waiting for a slot *)
  dn_processing : Z;    (** goroutines in [processMessage] *)
  dn_released : Z;      (** goroutines that gave the slot back *)
  dn_rejecting : Z;     (** callbacks without a slot, dead-lettering *)
  dn_cancelled : bool;
  dn_phase : StopPhase }.

Definition drain_init : Drain := MkDrain false 0 0 0 0 0 0 false Serving.

Inductive DrainEvent :=
| Admit | Acquire | NoSlot | Release | Done | RejectDone      (* callbacks *)
| StopAdmission | DrainTimeout | AllDone | CancelAll | Disconnect | CloseWriter.   (* stop *)

(** [acquirePublishSlotContext]: a send on a channel of capacity [cap]; without
    a slot the callback gives up on a timeout or when the context ends. *)
Definition callback_step (cap : Z) (ev : DrainEvent) (s : Drain) : option Drain :=
  let '(MkDrain st pe sl wa pr re rj ca ph) := s in
  match ev with
  | Admit => if st then None else Some (MkDrain st (pe + 1) sl (wa + 1) pr re rj ca ph)
  | Acquire => if (0 <? wa) && (sl <? cap) then Some (MkDrain st pe (sl + 1) (wa - 1) (pr + 1) re rj ca ph) else None
  | NoSlot => if 0 <? wa then Some (MkDrain st pe sl (wa - 1) pr re (rj + 1) ca ph) else None
  | Release => if 0 <? pr then Some (MkDrain st pe (sl - 1) wa (pr - 1) (re + 1) rj ca ph) else None
  | Done => if 0 <? re then Some (MkDrain st (pe - 1) sl wa pr (re - 1) rj ca ph) else None
  | RejectDone => if 0 <? rj then Some (MkDrain st (pe - 1) sl wa pr re (rj - 1) ca ph) else None
  | _ => None
  end.

(** The statements of [stop] and [stopAckHandling]; a timeout cancels the context once. *)
Definition stop_step (ev : DrainEvent) (s : Drain) : option Drain :=
  let '(MkDrain st pe sl wa pr re rj ca ph) := s in
  match ev, ph with
  | StopAdmission, Serving => Some (MkDrain true pe sl wa pr re rj ca Waiting)
  | DrainTimeout, Waiting => if ca then None else Some (MkDrain st pe sl wa pr re rj true Waiting)
  | AllDone, Waiting => if pe =? 0 then Some (MkDrain st pe sl wa pr re rj ca Drained) else None
  | CancelAll, Drained => Some (MkDrain st pe sl wa pr re rj true Cancelled)
  | Disconnect, Cancelled => Some (MkDrain st pe sl wa pr re rj ca Disconnected)
  | CloseWriter, Disconnected => Some (MkDrain st pe sl wa pr re rj ca Closed)
  | _, _ => None
  end.

Definition drain_step (cap : Z) (ev : DrainEvent) (s : Drain) : option Drain :=
  match callback_step cap ev s with Some s' => Some s' | None => stop_step ev s end.

Inductive drain_reachable (cap : Z) : Drain -> Prop :=
| drain_start : drain_reachable cap drain_init
| drain_next s ev s' : drain_reachable cap s -> drain_step cap ev s = Some s' -> drain_reachable cap s'.

(** ** The invariant *)
Definition past_drain (p : StopPhase) : bool := match p with Serving | Waiting => false | _ => true end.

Record drain_ok (cap : Z) (s : Drain) : Prop := {
  dk_counts : 0 <= dn_waiting s /\ 0 <= dn_processing s /\ 0 <= dn_released s /\ 0 <= dn_rejecting s;
  dk_pending : dn_pending s = dn_waiting s + dn_processing s + dn_released s + dn_rejecting s;
  dk_slots : dn_slots s = dn_processing s /\ dn_slots s <= cap;
  dk_stopping : dn_stopping s = match dn_phase s with Serving => false | _ => true end;
  dk_drained : past_drain (dn_phase s) = true -> dn_pending s = 0 }.

(** Takes a step apart into the cases of the code. *)
Ltac step_cases H :=
  unfold drain_step, callback_step, stop_step in H;
  repeat (case_match; try discriminate); simplify_eq/=.

Lemma drain_step_ok cap ev s s' : 0 <= cap -> drain_ok cap s -> drain_step cap ev s = Some s' -> drain_ok cap s'.
Proof.
  intros Hcap [Hc Hp Hs Hst Hd] E. destruct s as [st pe sl wa pr re rj ca ph]. simpl in *.
  destruct ev; step_cases E; split; simpl in *; try done; intuition lia.
Qed.

Lemma drain_reachable_ok cap s : 0 <= cap -> drain_reachable cap s -> drain_ok cap s.
Proof. intros Hcap. induction 1; [split; simpl; try done; lia|eauto using drain_step_ok]. Qed.


(** ** Shutdown ends *)
Fixpoint drain_run (cap : Z) (evs : list DrainEvent) (s : Drain) : option Drain :=
  match evs with
  | [] => Some s
  | ev :: rest => match drain_step cap ev s with Some s' => drain_run cap rest s' | None => None end
  end.

Lemma drain_run_reachable cap evs s s' : drain_reachable cap s -> drain_run cap evs s = Some s' -> drain_reachable cap s'.
Proof.
  revert s. induction evs as [|ev evs IH]; intros s Hr; cbn [drain_run]; [by intros [= <-]|].
  destruct (drain_step cap ev s) eqn:E; [|done]. apply IH. by eapply drain_next.
Qed.

Definition phase_rank (p : StopPhase) : Z :=
  match p with Serving => 5 | Waiting => 4 | Drained => 3 | Cancelled => 2 | Disconnected => 1 | Closed => 0 end.

(** What is left to do. *)
Definition drain_measure (s : Drain) : Z :=
  3 * dn_waiting s + 2 * dn_processing s + dn_released s + dn_rejecting s + (if dn_cancelled s then 0 else 1) + phase_rank (dn_phase s).

Lemma drain_step_measure cap ev s s' :
  drain_ok cap s -> dn_phase s <> Serving -> drain_step cap ev s = Some s' ->
  drain_measure s' + 1 <= drain_measure s /\ dn_phase s' <> Serving.
Proof.
  intros [Hc Hp Hs Hst Hd] Hph E. destruct s as [st pe sl wa pr re rj ca ph]. unfold drain_measure. simpl in *.
  destruct ev; step_cases E; simpl; split; try done; lia.
Qed.

Lemma drain_measure_nonneg cap s : drain_ok cap s -> 0 <= drain_measure s.
Proof. intros [Hc Hp Hs Hst Hd]. unfold drain_measure. destruct (dn_cancelled s), (dn_phase s); simpl; lia. Qed.

Definition stuck (cap : Z) (s : Drain) : Prop := forall ev, drain_step cap ev s = None.

Lemma stuck_closed cap s : drain_ok cap s -> dn_phase s <> Serving -> stuck cap s -> dn_phase s = Closed.
Proof.
  intros [Hc Hp [Hs Hs'] Hst Hd] Hph Hstuck. destruct s as [st pe sl wa pr re rj ca ph]. unfold stuck, drain_step in Hstuck. simpl in *.
  destruct ph; try done.
  - exfalso. pose proof (Hstuck AllDone) as H1. pose proof (Hstuck NoSlot) as H2. pose proof (Hstuck Release) as H3.
    pose proof (Hstuck Done) as H4. pose proof (Hstuck RejectDone) as H5. simpl in *.
    destruct (Z.eqb_spec pe 0); [done|]. destruct (Z.ltb_spec 0 wa); [done|]. destruct (Z.ltb_spec 0 pr); [done|].
    destruct (Z.ltb_spec 0 re); [done|]. destruct (Z.ltb_spec 0 rj); [done|]. lia.
  - by specialize (Hstuck CancelAll).
  - by specialize (Hstuck Disconnect).
  - by specialize (Hstuck CloseWriter).
Qed.

(** C18: a stopping service stops: whatever the interleaving, every step of a
    callback or of [stop] brings the end closer, so after at most
    [drain_measure] steps no step is left, and then the client is disconnected
    and the writer closed; there is no deadlock on the way. *)
Theorem shutdown_terminates cap s evs s' :
  0 <= cap -> drain_reachable cap s -> dn_phase s <> Serving -> drain_run cap evs s = Some s' ->
  Z.of_nat (length evs) <= drain_measure s /\ (stuck cap s' -> dn_phase s' = Closed).
Proof.
  intros Hcap Hr Hph E. assert (Hok : drain_ok cap s) by by apply drain_reachable_ok.
  assert (Hgen : Z.of_nat (length evs) + drain_measure s' <= drain_measure s /\ dn_phase s' <> Serving /\ drain_ok cap s').
  { clear Hr. revert s Hok Hph E. induction evs as [|ev evs IH]; intros s Hok Hph E; cbn [drain_run] in E.
    - injection E as <-. simpl. split_and!; [lia|done..].
    - destruct (drain_step cap ev s) as [s1|] eqn:Es; [|done].
      destruct (drain_step_measure cap ev s s1 Hok Hph Es) as [Hm Hph1].
      destruct (IH s1 (drain_step_ok _ _ _ _ Hcap Hok Es) Hph1 E) as (? & ? & ?). simpl length. split_and!; [lia|done..]. }
  destruct Hgen as (Hm & Hph' & Hok'). pose proof (drain_measure_nonneg cap s' Hok'). split; [lia|].
  by apply stuck_closed.
Qed.

Definition sample_serving : list DrainEvent := [Admit; Admit; Acquire; NoSlot; StopAdmission].

Lemma shutdown_terminates_witness :
  exists s, drain_run 1 sample_serving drain_init = Some s
  /\ Z.of_nat (length [Release; RejectDone; Done; AllDone; CancelAll; Disconnect; CloseWriter]) <= drain_measure s.
Proof.
  eexists. split; [vm_compute; reflexivity|].
  eapply (shutdown_terminates 1 _ [Release; RejectDone; Done; AllDone; CancelAll; Disconnect; CloseWriter]); [lia| |done|vm_compute; reflexivity].
  eapply (drain_run_reachable 1 sample_serving drain_init); [constructor|vm_compute; reflexivity].
Defined.

