(* ===== verification/WorkerProperties.v ===== *)
(** * What the device worker guarantees *)
From stdpp Require Import prelude strings gmap.
From Stdlib Require Import ZArith Lia.
From S2P Require Import Prelude GoStrings Contracts CommandState GoJson Payload Domain Postgres PostgresStore PostgresCommands Lifecycle PostgresRefine StoreProperties TelemetryProperties Base64 Host Kafka Bridge TDengine Worker.

Local Open Scope Z_scope.

Section worker.
Context `{Unicode} `{PgEnv} `{KafkaClient} `{TaosDriver}.
Context (unmarshal_telemetry : string -> result TelemetryRecord) (unmarshal_command : string -> result Command).

(** The dead-letter topic accepted a copy with the original bytes. *)
Definition dead_lettered (w : Worker) (msg : KMessage) (l : list Event) : Prop :=
  exists topic dl, wk_dlqWriter w = Some topic
    /\ (KafkaWrite topic (km_Topic msg) (VDeadLetter dl), true) ∈ l
    /\ DecodeString StdEncoding (dl_ValueBase64 dl) = Some (km_Value msg).

(** The offset is committed once, exactly when the handler lets the loop go on. *)
Definition commits_once (r : option error) (l : list Event) : Prop :=
  count is_commit l = match r with None => 1%nat | Some _ => 0%nat end.

Lemma commits_app r l l' : count is_commit l = 0%nat -> commits_once r l' -> commits_once r (l ++ l').
Proof. unfold commits_once. rewrite count_app. lia. Qed.

Lemma commit_attempt msg h r h' l : attempt (CommitOffset msg) h = (r, h', l) -> commits_once r l /\ h_world h' = h_world h.
Proof. intros [-> Hw]%attempt_inv. split; [|done]. by destruct r. Qed.

Lemma metric_then {A} name labels (k : IO A) h r h' l :
  (_ ← inc name labels; k) h = (r, h', l) -> exists l', k h = (r, h', l') /\ l = (Metric name labels, true) :: l'.
Proof. intros (u & h1 & l1 & l2 & [-> ->]%act_inv & Hk & ->)%io_bind_inv. eauto. Qed.

Lemma dead_lettered_cons w msg e l : dead_lettered w msg l -> dead_lettered w msg (e :: l).
Proof. intros (t & dl & ? & ? & ?). exists t, dl. split_and!; [done|by right|done]. Qed.

Lemma dead_lettered_app w msg l l' : dead_lettered w msg l' -> dead_lettered w msg (l ++ l').
Proof. intros (t & dl & ? & ? & ?). exists t, dl. split_and!; [done|apply elem_of_app; auto|done]. Qed.

Lemma commits_cons r e l : is_commit e.1 = false -> commits_once r l -> commits_once r (e :: l).
Proof. unfold commits_once. rewrite count_cons. unfold is_action. intros ->. done. Qed.

Lemma commit_after_dead_letter_spec w now msg stage cause h r h' l :
  commitAfterDeadLetter (wk_dlqWriter w) now msg stage cause h = (r, h', l) ->
  commits_once r l /\ h_world h' = h_world h /\ (r = None -> dead_lettered w msg l).
Proof.
  unfold commitAfterDeadLetter.
  intros (e & h1 & l1 & l2 & (Hq & Hw & Hn)%dead_letter_quiet & Hrun & ->)%io_bind_inv.
  pose proof (quiet_count is_commit _ Hq quiet_not_commit) as Hc. destruct e as [e|].
  - apply io_ret_inv in Hrun as (<- & -> & ->). split_and!; [|done|done]. by apply commits_app.
  - apply commit_attempt in Hrun as [Hr Hw']. split_and!; [by apply commits_app|congruence|].
    intros ->. destruct (Hn eq_refl) as (topic & Ht & Hin). exists topic. eexists. split_and!; [done| |].
    + apply elem_of_app. left. exact Hin.
    + apply base64_roundtrip.
Qed.

Lemma td_write_spec td rec h r h' l :
  WriteTelemetryContext (Some td) rec h = (r, h', l) ->
  Forall (fun e : Event => quiet e.1 = true) l /\ h_world h' = h_world h
  /\ (r = None -> (TDengineWrite rec, true) ∈ l).
Proof.
  unfold WriteTelemetryContext, writeRecord. destruct (td_closed td); [by intros (<- & -> & ->)%io_ret_inv|].
  destruct (ValidateTelemetryFields _); [|by intros (<- & -> & ->)%io_ret_inv].
  intros (e & h1 & l1 & l2 & [-> Hw]%attempt_inv & Hrun & ->)%io_bind_inv.
  destruct e; apply metric_then in Hrun as (l' & (<- & -> & ->)%io_ret_inv & ->);
    (split_and!; [by repeat constructor|done|try done]). intros _. left.
Qed.

(** ** Telemetry *)

(** The record is stored, where there is a store, and written to TDengine,
    where there is one: by this run, or as the stored row says. *)
Definition telemetry_durable (w : Worker) (rec : TelemetryRecord) (h' : Host) (l : list Event) : Prop :=
  (wk_store w = true -> is_Some (telemetry_records (committed (h_world h')) !! tel_key rec))
  /\ (wk_tdengine w <> None ->
      (exists s, tel_key s = tel_key rec /\ (TDengineWrite s, true) ∈ l)
      \/ exists row, telemetry_records (committed (h_world h')) !! tel_key rec = Some row /\ tr_tdengine_written row = true).

Lemma mark_written_keeps s h r h' l k :
  markTelemetryWritten s h = (r, h', l) ->
  l = [] /\ (is_Some (telemetry_records (committed (h_world h)) !! k) -> is_Some (telemetry_records (committed (h_world h')) !! k)).
Proof.
  intros [Hop ->]%on_store_inv. split; [done|]. intros [row Hrow].
  pose proof (lifecycle_steps_telemetry _ _ (MarkTelemetryTDengineWritten_refines _ _ _ _ _ _ Hop)) as [Hr _ _].
  destruct (Hr _ _ Hrow) as (row' & ? & _). eauto.
Qed.

Lemma telemetry_done_spec msg h r h' l :
  telemetry_done msg h = (r, h', l) -> commits_once r l /\ h_world h' = h_world h.
Proof.
  unfold telemetry_done, worker_metric. intros (l' & Hc & ->)%metric_then. apply commit_attempt in Hc as [Hc Hw].
  split; [by apply commits_cons|done].
Qed.

Lemma telemetry_sink_spec w ck msg s rec h r h' l :
  tel_key s = tel_key rec ->
  (wk_store w = true -> is_Some (telemetry_records (committed (h_world h)) !! tel_key rec)) ->
  telemetry_sink w ck msg s h = (r, h', l) ->
  commits_once r l /\ (r = None -> dead_lettered w msg l \/ telemetry_durable w rec h' l).
Proof.
  intros Hkey Hstored. unfold telemetry_sink. destruct (wk_tdengine w) as [td|] eqn:Htd.
  - intros (e & h1 & l1 & l2 & (Hq & Hw & Hn)%td_write_spec & Hrun & ->)%io_bind_inv.
    pose proof (quiet_count is_commit _ Hq quiet_not_commit) as Hc. destruct e as [e|].
    + apply metric_then in Hrun as (l' & (Ho & Hw' & Hdl)%commit_after_dead_letter_spec & ->).
      split; [by apply commits_app, commits_cons|]. intros Hr. left. apply dead_lettered_app, dead_lettered_cons. auto.
    + apply io_bind_inv in Hrun as (u & h2 & l3 & l4 & Hmark & [Ho Hw']%telemetry_done_spec & ->).
      assert (Hm : l3 = [] /\ (is_Some (telemetry_records (committed (h_world h1)) !! tel_key rec) ->
                               is_Some (telemetry_records (committed (h_world h2)) !! tel_key rec))).
      { destruct (wk_store w); [|apply io_ret_inv in Hmark as (_ & -> & ->); done].
        apply io_bind_inv in Hmark as (x & h3 & l5 & l6 & Hmark & (_ & -> & ->)%io_ret_inv & ->).
        apply (mark_written_keeps _ _ _ _ _ (tel_key rec)) in Hmark as [-> ?]. done. }
      destruct Hm as [-> Hm]. split; [by apply commits_app|]. intros _. right. split.
      * intros Hs. rewrite Hw'. apply Hm. rewrite Hw. auto.
      * intros _. left. exists s. split; [done|]. apply elem_of_app. auto.
  - intros [Ho Hw]%telemetry_done_spec. split; [done|]. intros _. right. split; [rewrite Hw; done|by rewrite Htd].
Qed.

(** C10: the telemetry consumer loses nothing it commits: it commits the
    offset of a message at most once, and goes on to the next message exactly
    when the commit succeeded; and then the message was either for a tenant
    this worker does not serve, or copied to the dead-letter topic with its
    original bytes, or it is stored in PostgreSQL and, where TDengine is
    configured, written there. *)
Theorem consume_telemetry_no_loss w ck msg h r h' l :
  consume_telemetry unmarshal_telemetry w ck msg h = (r, h', l) ->
  commits_once r l
  /\ (r = None ->
      dead_lettered w msg l
      \/ exists rec, unmarshal_telemetry (km_Value msg) = Ok rec
           /\ (tenantAllowed w (rec_TenantID rec) = false \/ telemetry_durable w rec h' l)).
Proof.
  unfold consume_telemetry, worker_metric. destruct (unmarshal_telemetry (km_Value msg)) as [rec|e].
  2:{ intros (l' & (Ho & _ & Hdl)%commit_after_dead_letter_spec & ->)%metric_then.
      split; [by apply commits_cons|]. intros Hr. left. apply dead_lettered_cons. auto. }
  destruct (tenantAllowed w (rec_TenantID rec)) eqn:Hallow; cbn [negb].
  2:{ intros (l' & [Ho _]%commit_attempt & ->)%metric_then. split; [by apply commits_cons|]. intros _. right. eauto. }
  set (rec1 := if IsZero (rec_ReceivedAt rec) then _ else rec).
  assert (Hkey1 : tel_key rec1 = tel_key rec) by (unfold rec1; by destruct (IsZero _)).
  destruct (wk_store w) eqn:Hst.
  - intros (st & h1 & l1 & l2 & [Hop ->]%on_store_inv & Hrun & ->)%io_bind_inv.
    destruct st as [[s|s]|e].
    + pose proof (restore_telemetry_outcome _ _ _ _ _ Hop) as Hout. simpl in Hout.
      pose proof (recorded_stored _ _ _ _ _ _ Hop eq_refl) as Hstored.
      apply (telemetry_sink_spec _ _ _ _ rec) in Hrun as [Ho Hd].
      * split; [done|]. intros Hr. destruct (Hd Hr); [by left|right; eauto].
      * destruct Hout as [-> _]. done.
      * intros _. by rewrite <- Hkey1.
    + pose proof (restore_telemetry_outcome _ _ _ _ _ Hop) as Hout. simpl in Hout.
      destruct Hout as (Hdb & row & Hrow & ->).
      assert (Hk : tel_key (clear_written rec1) = tel_key rec) by (rewrite <- Hkey1; done). rewrite Hk in *.
      assert (Hks : tel_key (record_of_row (tel_key rec) row) = tel_key rec) by done.
      destruct (rec_TDengineWritten _) eqn:Hwr.
      * apply commit_attempt in Hrun as [Ho Hw]. split; [done|]. intros _. right. exists rec. split; [done|]. right.
        split; rewrite Hw, Hdb; [eauto|]. intros _. right. exists row. done.
      * apply (telemetry_sink_spec _ _ _ _ rec) in Hrun as [Ho Hd]; [|done|intros _; rewrite Hdb; eauto].
        split; [done|]. intros Hr. destruct (Hd Hr); [by left|right; eauto].
    + apply metric_then in Hrun as (l' & (Ho & _ & Hdl)%commit_after_dead_letter_spec & ->).
      split; [by apply commits_cons|]. intros Hr. left. apply dead_lettered_cons. auto.
  - intros Hrun. apply (telemetry_sink_spec _ _ _ _ rec) in Hrun as [Ho Hd]; [|done|congruence].
    split; [done|]. intros Hr. destruct (Hd Hr); [by left|right; eauto].
Qed.

(** ** Commands *)
Definition is_publish (a : Action) : bool := match a with MqttPublish _ _ => true | _ => false end.
Definition no_publish (l : list Event) : Prop := Forall (fun e : Event => is_publish e.1 = false) l.

Lemma no_publish_notin l topic dl b : no_publish l -> (MqttPublish topic dl, b) ∉ l.
Proof. unfold no_publish. rewrite Forall_forall. intros Hl Hx%Hl. done. Qed.

Lemma no_publish_write topic key value h r h' l :
  writeKafkaMessageWithRetry topic key value h = (r, h', l) -> no_publish l.
Proof.
  intros (Hev & _)%write_attempts_spec; [|done]. apply Forall_forall. intros [a b] Hin. simpl.
  destruct (Hev _ Hin) as [Ha|Ha]; simpl in Ha; [by subst|by destruct a].
Qed.

Lemma no_publish_dead_letter writer now msg stage cause h r h' l :
  commitAfterDeadLetter writer now msg stage cause h = (r, h', l) -> no_publish l.
Proof.
  unfold commitAfterDeadLetter, publishDeadLetter.
  intros (e & h1 & l1 & l2 & Hpub & Hrun & ->)%io_bind_inv. apply Forall_app. split.
  - destruct writer as [topic|].
    + apply io_bind_inv in Hpub as (o & h2 & l3 & l4 & Hw%no_publish_write & Hpub & ->). apply Forall_app. split; [done|].
      destruct o; apply metric_then in Hpub as (l' & (_ & _ & ->)%io_ret_inv & ->); by repeat constructor.
    + apply metric_then in Hpub as (l' & (_ & _ & ->)%io_ret_inv & ->). by repeat constructor.
  - destruct e; [apply io_ret_inv in Hrun as (_ & _ & ->); constructor|apply attempt_inv in Hrun as [-> _]; by repeat constructor].
Qed.

(** What a read of the store says about the committed tables. *)
Lemma get_command_inv id w cmd w' :
  GetCommandForDelivery id w = (Ok cmd, w') ->
  committed w' = committed w /\ exists row, commands (committed w) !! id = Some row /\ scanCommandRow id row = Ok cmd.
Proof.
  unfold GetCommandForDelivery, GetCommandContext, mbind, op_bind.
  destruct (db_exec (sql_get_command id) w) as [[row|e] w1] eqn:E; [|done].
  unfold db_exec in E. destruct (next_fault w) as [f wf] eqn:Hf. apply next_fault_committed in Hf.
  unfold sql_get_command, query in E. cbn [mbind result_bind] in E.
  destruct f; [|done|done]. injection E as <- <-. simpl. rewrite Hf.
  destruct (commands (committed w) !! id) as [row|]; [|done]. intros [= Hs <-]. simpl. eauto.
Qed.

(** The command that goes out is the stored one, it is live, and it belongs to
    the device the event names. *)
Definition deliverable (w : Worker) (db : DB) (event : Command) (cmd : Command) : Prop :=
  tenantAllowed w (cmd_TenantID event) = true
  /\ exists row, commands db !! cmd_ID event = Some row /\ scanCommandRow (cmd_ID event) row = Ok cmd
    /\ cr_tenant_id row = cmd_TenantID event /\ cr_device_id row = cmd_DeviceID event
    /\ (cr_status row = CommandStatusCreated \/ cr_status row = CommandStatusPublished).

Lemma command_for_delivery_inv w event h r h' l :
  commandForDelivery w event h = (r, h', l) ->
  l = [] /\ forall cmd, r = Ok (Some cmd) ->
    committed (h_world h') = committed (h_world h)
    /\ (tenantAllowed w (cmd_TenantID event) = true -> deliverable w (committed (h_world h)) event cmd).
Proof.
  unfold commandForDelivery. destruct (wk_store w); cbn [negb]; [|by intros (<- & -> & ->)%io_ret_inv].
  intros (x & h1 & l1 & l2 & [Hop ->]%on_store_inv & Hrun & ->)%io_bind_inv. destruct x as [c|e].
  - destruct (_ || _) eqn:Hid; [by apply io_ret_inv in Hrun as (<- & -> & ->)|].
    destruct (String.eqb (cmd_Status c) _ || _) eqn:Hst; apply io_ret_inv in Hrun as (<- & -> & ->); (split; [done|]); [|done].
    intros cmd [= <-]. apply get_command_inv in Hop as (Hdb & row & Hrow & Hscan). split; [done|]. intros Hallow.
    apply orb_false_iff in Hid as [Ht%negb_false_iff%String.eqb_eq Hd%negb_false_iff%String.eqb_eq].
    pose proof (scan_row_fields _ _ _ Hscan) as (_ & E1 & E2 & E3). split; [done|]. exists row. split_and!; try congruence.
    apply orb_true_iff in Hst as [Hst%String.eqb_eq|Hst%String.eqb_eq]; [left|right]; congruence.
  - destruct (errors_is e ErrNotFound); by apply io_ret_inv in Hrun as (<- & -> & ->).
Qed.

Lemma deliver_command_publish w ck msg cmd h r h' l topic dl b :
  deliver_command w ck msg cmd h = (r, h', l) -> (MqttPublish topic dl, b) ∈ l ->
  BuildCommandTopic (cmd_TenantID cmd) (cmd_DeviceID cmd) = Ok topic /\ dl = downlink cmd.
Proof.
  unfold deliver_command, worker_metric. intros Hrun Hin.
  assert (Hno : forall l', no_publish l' -> (MqttPublish topic dl, b) ∉ l').
  { intros l'. apply no_publish_notin. }
  destruct (BuildCommandTopic _ _) as [t|e].
  2:{ apply metric_then in Hrun as (l' & Hl%no_publish_dead_letter & ->). exfalso.
      apply elem_of_cons in Hin as [?|Hin]; [done|]. by apply (Hno l'). }
  destruct (marshal_downlink (downlink cmd)).
  { apply metric_then in Hrun as (l' & Hl%no_publish_dead_letter & ->). exfalso.
    apply elem_of_cons in Hin as [?|Hin]; [done|]. by apply (Hno l'). }
  apply io_bind_inv in Hrun as (o & h1 & l1 & l2 & [-> _]%attempt_inv & Hrun & ->).
  apply elem_of_cons in Hin as [[= -> -> _]|Hin]; [done|]. exfalso. simpl in Hin. destruct o as [e|].
  - apply metric_then in Hrun as (l' & Hrun & ->).
    apply io_bind_inv in Hrun as (x & h2 & l3 & l4 & [_ ->]%on_store_inv & Hl%no_publish_dead_letter & ->).
    apply elem_of_cons in Hin as [?|Hin]; [done|]. by apply (Hno l4).
  - apply io_bind_inv in Hrun as (x & h2 & l3 & l4 & [_ ->]%on_store_inv & Hrun & ->). destruct x.
    + apply metric_then in Hrun as (l' & [-> _]%attempt_inv & ->).
      apply elem_of_cons in Hin as [?|Hin]; [done|]. by apply list_elem_of_singleton in Hin.
    + apply io_ret_inv in Hrun as (_ & _ & ->). by apply elem_of_nil in Hin.
Qed.

Lemma consume_command_publishes w ck msg h r h' l topic dl b :
  consume_command unmarshal_command w ck msg h = (r, h', l) -> (MqttPublish topic dl, b) ∈ l ->
  exists event cmd, unmarshal_command (km_Value msg) = Ok event
    /\ deliverable w (committed (h_world h)) event cmd
    /\ BuildCommandTopic (cmd_TenantID cmd) (cmd_DeviceID cmd) = Ok topic /\ dl = downlink cmd.
Proof.
  unfold consume_command, worker_metric. intros Hrun Hin.
  assert (Hno : forall l', no_publish l' -> (MqttPublish topic dl, b) ∉ l').
  { intros l'. apply no_publish_notin. }
  destruct (unmarshal_command (km_Value msg)) as [event|e].
  2:{ apply metric_then in Hrun as (l' & Hl%no_publish_dead_letter & ->). exfalso.
      apply elem_of_cons in Hin as [?|Hin]; [done|]. by apply (Hno l'). }
  destruct (cmd_DispatchAttempts event <? 0).
  { apply metric_then in Hrun as (l' & Hl%no_publish_dead_letter & ->). exfalso.
    apply elem_of_cons in Hin as [?|Hin]; [done|]. by apply (Hno l'). }
  assert (Hcommit : forall kind h0, (_ ← inc "device_worker" ["command"; kind]; attempt (CommitOffset msg)) h0 = (r, h', l) -> False).
  { intros kind h0 (l' & [-> _]%attempt_inv & ->)%metric_then.
    apply elem_of_cons in Hin as [?|Hin]; [done|]. by apply list_elem_of_singleton in Hin. }
  destruct (tenantAllowed w (cmd_TenantID event)) eqn:Hallow; cbn [negb] in Hrun; [|by apply Hcommit in Hrun].
  apply io_bind_inv in Hrun as (found & h1 & l1 & l2 & (-> & Hf)%command_for_delivery_inv & Hrun & ->).
  destruct found as [[cmd|]|e]; [|by apply Hcommit in Hrun|by apply io_ret_inv in Hrun as (_ & _ & ->); apply elem_of_nil in Hin].
  destruct (Hf cmd eq_refl) as [_ Hd]. destruct (wk_mqtt w); cbn [negb] in Hrun; [|by apply Hcommit in Hrun].
  destruct (deliver_command_publish _ _ _ _ _ _ _ _ _ _ _ Hrun Hin) as [Ht ->]. exists event, cmd. split_and!; auto.
Qed.

(** C11: a command reaches a device only while it is live and only as it is
    stored: whatever the Kafka event says, a publish goes to the command topic
    of the stored tenant and device, carries the stored payload, and happens
    only when the stored command is still created or published, belongs to the
    device the event names, and the tenant is served by this worker; so a
    delivered, acknowledged, failed or expired command is never sent again. *)
Theorem consume_command_publish_safe w ck msg h r h' l topic dl b :
  consume_command unmarshal_command w ck msg h = (r, h', l) -> (MqttPublish topic dl, b) ∈ l ->
  exists event cmd, unmarshal_command (km_Value msg) = Ok event
    /\ deliverable w (committed (h_world h)) event cmd
    /\ BuildCommandTopic (cmd_TenantID cmd) (cmd_DeviceID cmd) = Ok topic /\ dl = downlink cmd.
Proof. apply consume_command_publishes. Qed.

Lemma exec_ok_committed {A} (st : Stmt A) w a w' :
  db_exec st w = (Ok a, w') -> st (committed w) = Ok (a, committed w').
Proof.
  unfold db_exec. destruct (next_fault w) as [f wf] eqn:Hf. apply next_fault_committed in Hf. rewrite Hf.
  destruct f, (st (committed w)) as [[x db]|e0]; intros [= <- <-]; done.
Qed.

Lemma mark_sent_ok dbnow id deadline w n w' row :
  MarkCommandSentContext dbnow id deadline w = (Ok n, w') ->
  commands (committed w) !! id = Some row ->
  (cr_status row = CommandStatusCreated \/ cr_status row = CommandStatusPublished) ->
  commands (committed w') !! id = Some (with_deadline (pg_time deadline) (with_status CommandStatusSent dbnow row)).
Proof.
  intros Hex%exec_ok_committed Hrow Hst. unfold updateCommandsWithEvent in Hex.
  assert (Hw : where_id id (fun row => status_is CommandStatusCreated row || status_is CommandStatusPublished row) (committed w) = [id]).
  { unfold where_id, status_is. rewrite Hrow. by destruct Hst as [->| ->]. }
  rewrite Hw in Hex. injection Hex as _ <-. simpl. rewrite lookup_update_rows, Hrow. simpl.
  rewrite bool_decide_true; [done|]. by apply list_elem_of_singleton.
Qed.

Lemma deliver_command_commits w ck msg cmd h r h' l :
  deliver_command w ck msg cmd h = (r, h', l) -> commits_once r l.
Proof.
  unfold deliver_command, worker_metric. destruct (BuildCommandTopic _ _) as [t|e].
  2:{ intros (l' & (Ho & _)%commit_after_dead_letter_spec & ->)%metric_then. by apply commits_cons. }
  destruct (marshal_downlink _).
  { intros (l' & (Ho & _)%commit_after_dead_letter_spec & ->)%metric_then. by apply commits_cons. }
  intros (o & h1 & l1 & l2 & [-> _]%attempt_inv & Hrun & ->)%io_bind_inv. apply commits_cons; [done|]. destruct o as [e|].
  - apply metric_then in Hrun as (l' & Hrun & ->). apply commits_cons; [done|].
    by apply io_bind_inv in Hrun as (x & h2 & l3 & l4 & [_ ->]%on_store_inv & (Ho & _)%commit_after_dead_letter_spec & ->).
  - apply io_bind_inv in Hrun as (x & h2 & l3 & l4 & [_ ->]%on_store_inv & Hrun & ->). destruct x.
    + apply metric_then in Hrun as (l' & [Ho _]%commit_attempt & ->). by apply commits_cons.
    + by apply io_ret_inv in Hrun as (<- & _ & ->).
Qed.

(** The command consumer commits the offset once, exactly when it goes on. *)
Lemma consume_command_commits w ck msg h r h' l :
  consume_command unmarshal_command w ck msg h = (r, h', l) -> commits_once r l.
Proof.
  unfold consume_command, worker_metric. destruct (unmarshal_command (km_Value msg)) as [event|e].
  2:{ intros (l' & (Ho & _)%commit_after_dead_letter_spec & ->)%metric_then. by apply commits_cons. }
  destruct (_ <? 0). { intros (l' & (Ho & _)%commit_after_dead_letter_spec & ->)%metric_then. by apply commits_cons. }
  destruct (tenantAllowed _ _); cbn [negb].
  2:{ intros (l' & [Ho _]%commit_attempt & ->)%metric_then. by apply commits_cons. }
  intros (found & h1 & l1 & l2 & (-> & _)%command_for_delivery_inv & Hrun & ->)%io_bind_inv. simpl.
  destruct found as [[cmd|]|e]; [| |by apply io_ret_inv in Hrun as (<- & _ & ->)].
  - destruct (wk_mqtt w); cbn [negb] in Hrun; [by apply deliver_command_commits in Hrun|].
    apply metric_then in Hrun as (l' & [Ho _]%commit_attempt & ->). by apply commits_cons.
  - apply metric_then in Hrun as (l' & [Ho _]%commit_attempt & ->). by apply commits_cons.
Qed.

(** A delivery is durable before its offset is committed: when the broker
    took the command and the consumer went on, the stored command is sent and
    its acknowledgement deadline is running. *)
Theorem consume_command_sent_before_commit w ck msg h h' l topic dl :
  consume_command unmarshal_command w ck msg h = (None, h', l) -> (MqttPublish topic dl, true) ∈ l ->
  exists row, commands (committed (h_world h')) !! cd_ID dl = Some row
    /\ cr_status row = CommandStatusSent /\ cr_deadline_at row = Some (pg_time (ck_now ck + wk_ackTimeout w)).
Proof.
  unfold consume_command, worker_metric. intros Hrun Hin.
  assert (Hno : forall l', no_publish l' -> (MqttPublish topic dl, true) ∉ l') by (intros l'; apply no_publish_notin).
  assert (Hcons : forall name labels l', (MqttPublish topic dl, true) ∈ (Metric name labels, true) :: l' -> (MqttPublish topic dl, true) ∈ l').
  { intros *. rewrite elem_of_cons. by intros [?|?]. }
  destruct (unmarshal_command (km_Value msg)) as [event|e].
  2:{ apply metric_then in Hrun as (l' & Hl%no_publish_dead_letter & ->). by apply Hcons, (Hno l') in Hin. }
  destruct (cmd_DispatchAttempts event <? 0).
  { apply metric_then in Hrun as (l' & Hl%no_publish_dead_letter & ->). by apply Hcons, (Hno l') in Hin. }
  assert (Hcommit : forall kind h0, (_ ← inc "device_worker" ["command"; kind]; attempt (CommitOffset msg)) h0 = (None, h', l) -> False).
  { intros kind h0 (l' & [-> _]%attempt_inv & ->)%metric_then. apply Hcons, list_elem_of_singleton in Hin. done. }
  destruct (tenantAllowed w (cmd_TenantID event)) eqn:Hallow; cbn [negb] in Hrun; [|by apply Hcommit in Hrun].
  apply io_bind_inv in Hrun as (found & h1 & l1 & l2 & (-> & Hf)%command_for_delivery_inv & Hrun & ->).
  destruct found as [[cmd|]|e]; [|by apply Hcommit in Hrun|by apply io_ret_inv in Hrun as (? & _ & _)].
  destruct (Hf cmd eq_refl) as [Hdb Hd]. destruct (Hd Hallow) as (_ & row & Hrow & Hscan & _ & _ & Hst).
  destruct (wk_mqtt w); cbn [negb] in Hrun; [|by apply Hcommit in Hrun].
  pose proof (scan_row_fields _ _ _ Hscan) as (Hid & _). simpl in Hin.
  destruct (deliver_command_publish _ _ _ _ _ _ _ _ _ _ _ Hrun Hin) as [Ht ->]. simpl. rewrite Hid.
  unfold deliver_command, worker_metric in Hrun. rewrite Ht in Hrun.
  destruct (marshal_downlink (downlink cmd)).
  { apply metric_then in Hrun as (l' & Hl%no_publish_dead_letter & ->). by apply Hcons, (Hno l') in Hin. }
  apply io_bind_inv in Hrun as (o & h2 & l3 & l4 & [-> Hw2]%attempt_inv & Hrun & ->). destruct o as [e|].
  { apply metric_then in Hrun as (l' & Hrun & ->).
    apply io_bind_inv in Hrun as (x & h3 & l5 & l6 & [_ ->]%on_store_inv & Hl%no_publish_dead_letter & ->).
    apply elem_of_cons in Hin as [?|Hin]; [done|]. by apply Hcons, (Hno l6) in Hin. }
  apply io_bind_inv in Hrun as (x & h3 & l5 & l6 & [Hop ->]%on_store_inv & Hrun & ->).
  destruct x as [n|e]; [|by apply io_ret_inv in Hrun as (? & _ & _)].
  apply metric_then in Hrun as (l' & [_ Hw3]%attempt_inv & ->). rewrite Hw3.
  rewrite Hid in Hop. eapply mark_sent_ok in Hop; [|rewrite Hw2, Hdb; exact Hrow|done]. eexists. split; [exact Hop|done].
Qed.
End worker.
