(* ===== verification/Acks.v ===== *)
(** * Device acknowledgements: internal/platform/worker_ack.go *)
From stdpp Require Import prelude strings gmap.
From Stdlib Require Import ZArith Lia.
From S2P Require Import Prelude GoStrings Contracts CommandState GoJson Payload Domain Postgres PostgresStore PostgresCommands Lifecycle PostgresRefine Base64 Host Kafka Bridge TDengine Worker WorkerProperties.

Local Open Scope Z_scope.

Definition ackStoreAttempts : nat := 3.
Definition ackStoreBackoff : Z := 200 * Millisecond.

Section acks.
Context `{Unicode} `{PgEnv} `{KafkaClient}.
(** Decoding into a [CommandAckMessage] with unknown fields refused. *)
Context (decode_ack : string -> result CommandAckMessage).

Definition ack_result (ack : CommandAckMessage) : CommandResult :=
  MkCommandResult (am_Status ack) (am_ErrorCode ack) (am_Payload ack).

Definition applyAck (now : Z) (ack : CommandAckMessage) : IO (option error) :=
  r ← on_store (AckCommandResultContext now (am_CommandID ack) (am_TenantID ack) (am_DeviceID ack) (ack_result ack));
  mret (match r with Ok _ => None | Err e => Some e end).

Definition rejectAck : IO unit := _ ← inc "device_worker" ["ack"; "error"]; act MqttAck.

(** An error after which retrying is pointless. *)
Definition ack_refused (err : option error) : bool :=
  match err with
  | Some e => errors_is e ErrNotFound || errors_is e ErrAcknowledgementConflict
  | None => false
  end.

(** The retry loop; [left] attempts remain after [attempt] were made.  [None]:
    the worker is shutting down. *)
Fixpoint store_ack (now : Z) (ack : CommandAckMessage) (attempt_no : Z) (left_ : nat) (err : option error) : IO (option (option error)) :=
  match left_ with
  | O => mret (Some err)
  | S left' =>
    err ← applyAck now ack;
    if match err with None => true | Some _ => false end || ack_refused err then mret (Some err)
    else match left' with
         | O => mret (Some err)
         | S _ =>
           cancelled ← attempt (Sleep (ackStoreBackoff * (attempt_no + 1)));
           match cancelled with
           | Some _ => mret None
           | None => store_ack now ack (attempt_no + 1) left' err
           end
         end
  end.

Definition handleAckMessage (w : Worker) (now : Z) (stopping : bool) (msg : MqttMessage) : IO unit :=
  if stopping then mret tt
  else
    match DecodeRequestJSON decode_ack (mm_Payload msg) with
    | Err _ => rejectAck
    | Ok ack =>
      if match ParseDeviceTopic (mm_Topic msg) with
         | Some (tenant, device, suffix) =>
           negb (String.eqb suffix TopicSuffixAck) || negb (String.eqb tenant (am_TenantID ack))
           || negb (String.eqb device (am_DeviceID ack)) || String.eqb (am_CommandID ack) ""
         | None => true
         end
      then rejectAck
      else
        match NormalizeCommandResult (ack_result ack) with
        | Err _ => rejectAck
        | Ok _ =>
          outcome ← (if wk_store w then store_ack now ack 0 ackStoreAttempts None
                     else mret (Some (Some [Opaque "ACK store is not configured"])));
          match outcome with
          | None => mret tt
          | Some err =>
            if ack_refused err then rejectAck
            else match err with
                 | Some e =>
                   _ ← inc "device_worker" ["ack"; "error"];
                   dlqErr ← publishDeadLetter (wk_dlqWriter w) now
                              (MkKMessage (mm_Topic msg) 0 0 (am_CommandID ack) (mm_Payload msg) zero_time) StageCommandAck e;
                   match dlqErr with
                   | Some e' => act (Fail (Opaque "command ACK not persisted" :: e'))
                   | None => act MqttAck
                   end
                 | None => _ ← inc "device_worker" ["ack"; "ok"]; act MqttAck
                 end
          end
        end
    end.

(** ** A device acknowledges its own commands only *)
Definition changes_only (t d : string) (db db' : DB) : Prop := forall id row,
  commands db !! id = Some row -> commands db' !! id <> Some row ->
  cr_tenant_id row = t /\ cr_device_id row = d.

Lemma changes_only_refl t d db : changes_only t d db db.
Proof. intros id row Hrow Hne. congruence. Qed.

Lemma ack_tx_changes now id t d n enc db r db' :
  meaning (ack_command_tx now id t d n enc) db = (r, db') ->
  changes_only t d db db' /\ (forall i, is_Some (commands db !! i) <-> is_Some (commands db' !! i)).
Proof.
  intros Hm. unfold meaning, ack_command_tx in Hm. cbn [tx_meaning] in Hm.
  unfold sql_get_command, query in Hm. cbn [mbind result_bind] in Hm.
  destruct (commands db !! id) as [row|] eqn:Hrow; [|injection Hm as <- <-; split; [apply changes_only_refl|done]].
  destruct (scanCommandRow id row) as [cmd|] eqn:Hscan; [|injection Hm as <- <-; split; [apply changes_only_refl|done]].
  pose proof (scan_row_fields _ _ _ Hscan) as (_ & Et & Ed & _).
  destruct (_ || _) eqn:Hid; [injection Hm as <- <-; split; [apply changes_only_refl|done]|].
  apply orb_false_iff in Hid as [Ht%negb_false_iff%String.eqb_eq Hd%negb_false_iff%String.eqb_eq].
  destruct (is_terminal_status (cmd_Status cmd)).
  { assert (db' = db) as ->; [|split; [apply changes_only_refl|done]].
    destruct (cmd_Result cmd); [|by injection Hm]. cbn [tx_meaning] in Hm.
    destruct (sql_result_equals id enc db) as [[eq db1]|] eqn:E; [|by injection Hm].
    unfold sql_result_equals in E. apply query_inv in E as [_ ->]. by destruct eq; injection Hm. }
  destruct (AdvanceCommandStatus _ _) as [next|]; [|injection Hm as <- <-; split; [apply changes_only_refl|done]].
  cbn [tx_meaning] in Hm. unfold sql_set_result, sql_insert_ack, sql_insert_event_detail in Hm.
  destruct (jsonb_cast enc) as [e|]; cbn [mbind result_bind tx_meaning] in Hm;
    [|injection Hm as <- <-; split; [apply changes_only_refl|done]].
  injection Hm as <- <-. simpl. rewrite (alter_some_insert _ _ _ row) by done. split.
  - intros i r0 Hr0. simpl. destruct (decide (id = i)) as [<-|Hne]; [|rewrite lookup_insert_ne by done; congruence].
    intros _. simplify_eq. split; congruence.
  - intros i. destruct (decide (id = i)) as [<-|Hne]; [rewrite lookup_insert_eq, Hrow; split; eauto|by rewrite lookup_insert_ne].
Qed.

Lemma ack_changes now id t d input w r w' :
  AckCommandResultContext now id t d input w = (r, w') -> changes_only t d (committed w) (committed w').
Proof.
  unfold AckCommandResultContext, mbind, op_bind, check.
  destruct (ValidateDeviceIdentity t d); [|intros [= <- <-]; apply changes_only_refl].
  destruct (ValidateCommandID id); [|intros [= <- <-]; apply changes_only_refl].
  destruct (NormalizeCommandResult input) as [n|]; [|intros [= <- <-]; apply changes_only_refl].
  destruct (marshal_result n) as [enc|]; [|intros [= <- <-]; apply changes_only_refl].
  intros Ho%begin_tx_atomic. destruct (meaning _ _) as [r0 db'] eqn:Hm. apply ack_tx_changes in Hm as [Hc _].
  destruct Ho as [[_ ->]|[_ [->| ->]]]; [done|apply changes_only_refl|done].
Qed.

Lemma changes_only_trans t d db1 db2 db3 :
  changes_only t d db1 db2 -> changes_only t d db2 db3 -> changes_only t d db1 db3.
Proof.
  intros H12 H23 id row Hrow Hne. destruct (decide (commands db2 !! id = Some row)) as [Heq|Hne2]; eauto.
Qed.

Lemma apply_ack_inv now ack h r h' l :
  applyAck now ack h = (r, h', l) ->
  l = [] /\ exists r0, AckCommandResultContext now (am_CommandID ack) (am_TenantID ack) (am_DeviceID ack) (ack_result ack) (h_world h)
      = (r0, h_world h') /\ r = match r0 with Ok _ => None | Err e => Some e end.
Proof.
  unfold applyAck. intros (r0 & h1 & l1 & l2 & [Hop ->]%on_store_inv & (<- & -> & ->)%io_ret_inv & ->)%io_bind_inv. eauto.
Qed.

(** The loop: what it answers is what the last call to the store answered. *)
Lemma store_ack_inv now ack n left_ err h r h' l :
  store_ack now ack n left_ err h = (r, h', l) ->
  changes_only (am_TenantID ack) (am_DeviceID ack) (committed (h_world h)) (committed (h_world h'))
  /\ Forall (fun e : Event => quiet e.1 = true) l
  /\ match r with
     | None => exists d, (Sleep d, false) ∈ l
     | Some e => (left_ = 0%nat /\ e = err) \/ exists w0 r0,
         AckCommandResultContext now (am_CommandID ack) (am_TenantID ack) (am_DeviceID ack) (ack_result ack) w0 = (r0, h_world h')
         /\ e = match r0 with Ok _ => None | Err x => Some x end
     end.
Proof.
  revert n err h r h' l. induction left_ as [|left' IH]; intros n err h r h' l; cbn [store_ack].
  { intros (<- & -> & ->)%io_ret_inv. split_and!; [apply changes_only_refl|constructor|auto]. }
  intros (e & h1 & l1 & l2 & (-> & r0 & Hop & ->)%apply_ack_inv & Hrun & ->)%io_bind_inv.
  pose proof (ack_changes _ _ _ _ _ _ _ _ Hop) as Hc.
  destruct (_ || _).
  { apply io_ret_inv in Hrun as (<- & -> & ->). split_and!; [done|constructor|eauto]. }
  destruct left' as [|left''].
  { apply io_ret_inv in Hrun as (<- & -> & ->). split_and!; [done|constructor|eauto]. }
  apply io_bind_inv in Hrun as (c & h2 & l3 & l4 & [-> Hw]%attempt_inv & Hrun & ->). destruct c as [e|].
  - apply io_ret_inv in Hrun as (<- & -> & ->). rewrite Hw. split_and!; [done|by repeat constructor|].
    eexists. rewrite app_nil_r. apply elem_of_app. right. left.
  - apply IH in Hrun as (Hc' & Hq & Hr). rewrite Hw in Hc'. split_and!; [by eapply changes_only_trans|by constructor|].
    destruct r; [right; destruct Hr as [[? _]|?]; done|]. destruct Hr as [d Hd]. exists d. by right.
Qed.

(** A device can acknowledge only its own commands: whatever the message
    says, the only command rows it can change are those of the tenant and the
    device named by the topic the broker let it publish on, and a message on
    any other topic changes nothing. *)
Theorem ack_own_commands_only w now stopping msg h h' l :
  handleAckMessage w now stopping msg h = (tt, h', l) ->
  match ParseDeviceTopic (mm_Topic msg) with
  | Some (tenant, device, _) => changes_only tenant device (committed (h_world h)) (committed (h_world h'))
  | None => committed (h_world h') = committed (h_world h)
  end.
Proof.
  assert (Hsame : forall h', committed (h_world h') = committed (h_world h) ->
    match ParseDeviceTopic (mm_Topic msg) with
    | Some (tenant, device, _) => changes_only tenant device (committed (h_world h)) (committed (h_world h'))
    | None => committed (h_world h') = committed (h_world h)
    end).
  { intros h0 Heq. destruct (ParseDeviceTopic (mm_Topic msg)) as [[[t d] sf]|]; [rewrite Heq; apply changes_only_refl|done]. }
  assert (Hreject : forall h1 h2 l', rejectAck h1 = (tt, h2, l') -> h_world h2 = h_world h1).
  { intros h1 h2 l' (l'' & [_ ->]%act_inv & ->)%metric_then. done. }
  unfold handleAckMessage. destruct stopping; [intros (_ & -> & _)%io_ret_inv; by apply Hsame|].
  destruct (DecodeRequestJSON decode_ack (mm_Payload msg)) as [ack|]; [|intros Hr%Hreject; apply Hsame; congruence].
  destruct (ParseDeviceTopic (mm_Topic msg)) as [[[t d] sf]|] eqn:Htopic; [|intros Hr%Hreject; congruence].
  destruct (_ || _) eqn:Hid; [intros Hr%Hreject; rewrite Hr; apply changes_only_refl|].
  apply orb_false_iff in Hid as [[[_ Ht%negb_false_iff%String.eqb_eq]%orb_false_iff Hd%negb_false_iff%String.eqb_eq]%orb_false_iff _].
  destruct (NormalizeCommandResult _); [|intros Hr%Hreject; rewrite Hr; apply changes_only_refl].
  intros (o & h1 & l1 & l2 & Hst & Hrun & ->)%io_bind_inv.
  assert (Hc : changes_only t d (committed (h_world h)) (committed (h_world h1))).
  { destruct (wk_store w); [apply store_ack_inv in Hst as [Hc _]; by subst|].
    apply io_ret_inv in Hst as (_ & -> & _). apply changes_only_refl. }
  assert (Hw : h_world h' = h_world h1); [|by rewrite Hw].
  destruct o as [err|]; [|by apply io_ret_inv in Hrun as (_ & -> & _)].
  destruct (ack_refused err); [by eapply Hreject|]. destruct err as [e|].
  - apply metric_then in Hrun as (l' & Hrun & ->).
    apply io_bind_inv in Hrun as (dlq & h2 & l3 & l4 & (_ & Hw & _)%dead_letter_quiet & Hrun & ->).
    destruct dlq; apply act_inv in Hrun as [_ ->]; done.
  - by apply metric_then in Hrun as (l' & [_ ->]%act_inv & ->).
Qed.

(** An acknowledgement the store accepted has a final command. *)
Lemma ack_ok_final now id t d input w cmd w' :
  AckCommandResultContext now id t d input w = (Ok cmd, w') ->
  exists row, commands (committed w') !! id = Some row /\ is_terminal_status (cr_status row) = true
    /\ cr_tenant_id row = t /\ cr_device_id row = d.
Proof.
  unfold AckCommandResultContext, mbind, op_bind, check.
  destruct (ValidateDeviceIdentity t d); [|done]. destruct (ValidateCommandID id); [|done].
  destruct (NormalizeCommandResult input) as [n|] eqn:Hn; [|done]. apply normalize_status in Hn.
  destruct (marshal_result n) as [enc|]; [|done].
  intros Ho%begin_tx_atomic. destruct Ho as [[Hr Hdb]|[(e & Hr) _]]; [|done].
  revert Hr Hdb. unfold meaning, ack_command_tx. cbn [tx_meaning]. unfold sql_get_command, query. cbn [mbind result_bind].
  destruct (commands (committed w) !! id) as [row|] eqn:Hrow; [|done]. cbn [tx_meaning].
  destruct (scanCommandRow id row) as [c|] eqn:Hscan; [|done].
  pose proof (scan_row_fields _ _ _ Hscan) as (_ & Et & Ed & Es).
  destruct (_ || _) eqn:Hid; [done|].
  apply orb_false_iff in Hid as [Ht%negb_false_iff%String.eqb_eq Hd%negb_false_iff%String.eqb_eq].
  destruct (is_terminal_status (cmd_Status c)) eqn:Hterm.
  - assert (Hgoal : committed w' = committed w -> exists row, commands (committed w') !! id = Some row
      /\ is_terminal_status (cr_status row) = true /\ cr_tenant_id row = t /\ cr_device_id row = d).
    { intros ->. exists row. rewrite Es in Hterm. split_and!; congruence. }
    destruct (cmd_Result c); [|intros _ Hdb; auto]. cbn [tx_meaning].
    destruct (sql_result_equals id enc (committed w)) as [[eq db1]|] eqn:E; [|done].
    unfold sql_result_equals in E. apply query_inv in E as [_ ->]. destruct eq; [|done]. intros _ Hdb. auto.
  - destruct (AdvanceCommandStatus _ _) as [next|] eqn:Hadv; [|done]. cbn [tx_meaning].
    unfold sql_set_result, sql_insert_ack, sql_insert_event_detail.
    destruct (jsonb_cast enc) as [e|]; cbn [mbind result_bind tx_meaning]; [|done]. intros _ ->. simpl.
    rewrite (alter_some_insert _ _ _ row), lookup_insert_eq by done. eexists. split; [done|]. simpl.
    rewrite Es in Hadv. destruct (advance_row_edge row (res_Status n) next (pg_time now) e) as [_ <-]; [done..|].
    split_and!; [by destruct Hn as [->| ->]|congruence|congruence].
Qed.

(** Where an acknowledgement ends that was answered to the broker: the command
    is final, the store refused it for good, or the dead-letter topic has the
    original bytes. *)
Definition ack_settled (w : Worker) (now : Z) (ack : CommandAckMessage) (msg : MqttMessage) (w' : World) (l : list Event) : Prop :=
  (exists row, commands (committed w') !! am_CommandID ack = Some row /\ is_terminal_status (cr_status row) = true)
  \/ (exists w0 e, AckCommandResultContext now (am_CommandID ack) (am_TenantID ack) (am_DeviceID ack) (ack_result ack) w0
       = (Err e, w') /\ ack_refused (Some e) = true)
  \/ (exists topic dl, wk_dlqWriter w = Some topic
       /\ (KafkaWrite topic (mm_Topic msg) (VDeadLetter dl), true) ∈ l
       /\ DecodeString StdEncoding (dl_ValueBase64 dl) = Some (mm_Payload msg)).

(** C13: a well-formed acknowledgement is not lost: the worker answers the
    broker once, after the command became final, after the store refused the
    acknowledgement for good, or after the dead-letter topic accepted the
    original message; otherwise the message stays unanswered, because the
    worker failed or is shutting down, and the broker delivers it again. *)
Theorem ack_settled_or_redelivered w now msg ack n tenant device h h' l :
  handleAckMessage w now false msg h = (tt, h', l) ->
  DecodeRequestJSON decode_ack (mm_Payload msg) = Ok ack ->
  ParseDeviceTopic (mm_Topic msg) = Some (tenant, device, TopicSuffixAck) ->
  am_TenantID ack = tenant -> am_DeviceID ack = device -> am_CommandID ack <> "" ->
  NormalizeCommandResult (ack_result ack) = Ok n ->
  (count is_ack l = 1%nat /\ count is_fail l = 0%nat /\ ack_settled w now ack msg (h_world h') l)
  \/ (count is_ack l = 0%nat /\ (count is_fail l = 1%nat \/ exists d, (Sleep d, false) ∈ l)).
Proof.
  unfold handleAckMessage. intros Hrun Hdec Htopic <- <- Hid%String.eqb_neq Hn.
  rewrite Hdec, Htopic, !String.eqb_refl, Hid, Hn in Hrun. cbn [negb orb] in Hrun.
  apply io_bind_inv in Hrun as (o & h1 & l1 & l2 & Hst & Hrun & ->).
  assert (Hpre : Forall (fun e : Event => quiet e.1 = true) l1
    /\ match o with
       | None => exists d, (Sleep d, false) ∈ l1
       | Some e => e = Some [Opaque "ACK store is not configured"] \/ exists w0 r0,
           AckCommandResultContext now (am_CommandID ack) (am_TenantID ack) (am_DeviceID ack) (ack_result ack) w0 = (r0, h_world h1)
           /\ e = match r0 with Ok _ => None | Err x => Some x end
       end).
  { destruct (wk_store w); [apply store_ack_inv in Hst as (_ & Hq & Hr)|by apply io_ret_inv in Hst as (<- & -> & ->); auto].
    split; [done|]. destruct o; [|done]. destruct Hr as [[? _]|?]; [done|auto]. }
  destruct Hpre as [Hq Ho]. pose proof (quiet_count is_ack _ Hq quiet_not_ack) as Ca.
  pose proof (quiet_count is_fail _ Hq quiet_not_fail) as Cf. rewrite !count_app, Ca, Cf.
  destruct o as [err|].
  2:{ apply io_ret_inv in Hrun as (_ & -> & ->). right. split; [done|]. right. destruct Ho as [d Hd]. exists d. apply elem_of_app. auto. }
  destruct (ack_refused err) eqn:Href.
  { apply metric_then in Hrun as (l' & [-> ->]%act_inv & ->). left. split_and!; [done..|]. right. left.
    destruct Ho as [->|(w0 & [c|e] & Hop & ->)]; [done|done|]. eauto. }
  destruct err as [e|].
  - apply metric_then in Hrun as (l' & Hrun & ->).
    apply io_bind_inv in Hrun as (dlq & h2 & l3 & l4 & (Hq' & Hw & Hdl)%dead_letter_quiet & Hrun & ->).
    pose proof (quiet_count is_ack _ Hq' quiet_not_ack) as Ca'. pose proof (quiet_count is_fail _ Hq' quiet_not_fail) as Cf'.
    rewrite !count_cons, !count_app, Ca', Cf'.
    destruct dlq as [e'|]; apply act_inv in Hrun as [-> ->]; [right; split; [done|by left]|]. left. split_and!; [done..|].
    right. right. destruct (Hdl eq_refl) as (topic & Ht & Hin). exists topic. eexists. split_and!; [done| |].
    + apply elem_of_app. right. right. apply elem_of_app. left. exact Hin.
    + apply base64_roundtrip.
  - apply metric_then in Hrun as (l' & [-> ->]%act_inv & ->). left. split_and!; [done..|]. left.
    destruct Ho as [?|(w0 & [c|e] & Hop & Heq)]; [done| |done].
    apply ack_ok_final in Hop as (row & Hrow & Hterm & _). eauto.
Qed.
End acks.

(** ** Examples *)
#[local] Existing Instance StoreProperties.sample_unicode.
#[local] Existing Instance StoreProperties.sample_pg.
#[local] Existing Instance sample_client.
#[local] Instance sample_taos : TaosDriver := {| taos_code _ := None |}.

Definition sample_worker : Worker :=
  MkWorker true (Some (MkTDengineWriter "iot" "telemetry_v2" false)) true (Some "iot.dlq") [] (5 * Minute).

Definition sample_host (st : string) : Host := MkHost (MkWorld (StoreProperties.sample_db st 1 None) []) [].

Definition sample_kmsg : KMessage := MkKMessage "iot.telemetry" 0 7 "d1" "raw" 400.

Lemma consume_telemetry_no_loss_witness :
  exists h' l, consume_telemetry (fun _ => Ok TelemetryProperties.sample_record) sample_worker (MkClock 600 600) sample_kmsg (sample_host CommandStatusSent)
      = (None, h', l) /\ count is_commit l = 1%nat
    /\ (dead_lettered sample_worker sample_kmsg l
        \/ exists rec, Ok TelemetryProperties.sample_record = Ok rec
             /\ (tenantAllowed sample_worker (rec_TenantID rec) = false \/ telemetry_durable sample_worker rec h' l)).
Proof.
  destruct (consume_telemetry (fun _ => Ok TelemetryProperties.sample_record) sample_worker (MkClock 600 600) sample_kmsg (sample_host CommandStatusSent))
    as [[r h'] l] eqn:E.
  assert (Hr : r = None) by (apply (f_equal (fun x => x.1.1)) in E; vm_compute in E; by subst).
  subst r. exists h', l. split; [reflexivity|].
  destruct (consume_telemetry_no_loss _ _ _ _ _ _ _ _ E) as [Hc Hd]. split; [exact Hc|exact (Hd eq_refl)].
Defined.

Definition sample_event : Command :=
  MkCommand "c1" "acme" "d1" CommandStatusPublished "{}" 50 60 1 zero_time None.

Definition sample_downlink : CommandDownlink := MkCommandDownlink "c1" "acme" "d1" CommandStatusPublished "{}" 50 60.

Lemma sample_publish :
  exists h' l, consume_command (fun _ => Ok sample_event) sample_worker (MkClock 600 600) sample_kmsg (sample_host CommandStatusPublished)
      = (None, h', l) /\ (MqttPublish "tenant/acme/device/d1/command" sample_downlink, true) ∈ l.
Proof.
  destruct (consume_command (fun _ => Ok sample_event) sample_worker (MkClock 600 600) sample_kmsg (sample_host CommandStatusPublished))
    as [[r h'] l] eqn:E.
  assert (Hr : r = None /\ l = [(MqttPublish "tenant/acme/device/d1/command" sample_downlink, true);
    (Metric "device_worker" ["command"; "ok"], true); (CommitOffset sample_kmsg, true)]).
  { split; [apply (f_equal (fun x => x.1.1)) in E|apply (f_equal snd) in E]; vm_compute in E; by subst. }
  destruct Hr as [-> ->]. eexists _, _. split; [reflexivity|left].
Qed.

Lemma consume_command_publish_safe_witness :
  exists event cmd, Ok sample_event = Ok event
    /\ deliverable sample_worker (StoreProperties.sample_db CommandStatusPublished 1 None) event cmd
    /\ BuildCommandTopic (cmd_TenantID cmd) (cmd_DeviceID cmd) = Ok "tenant/acme/device/d1/command"
    /\ sample_downlink = downlink cmd.
Proof.
  destruct sample_publish as (h' & l & E & Hin).
  exact (consume_command_publish_safe (fun _ => Ok sample_event) _ _ _ _ _ _ _ _ _ _ E Hin).
Defined.

Lemma consume_command_sent_before_commit_witness :
  exists h' row, commands (committed (h_world h')) !! "c1" = Some row
    /\ cr_status row = CommandStatusSent /\ cr_deadline_at row = Some (pg_time (600 + 5 * Minute)).
Proof.
  destruct sample_publish as (h' & l & E & Hin). exists h'.
  exact (consume_command_sent_before_commit (fun _ => Ok sample_event) _ _ _ _ _ _ _ _ E Hin).
Defined.

Definition sample_ack_message : CommandAckMessage := MkCommandAckMessage "c1" "acme" "d1" CommandStatusAcked "" "".
Definition sample_ack_msg : MqttMessage := MkMqttMessage "tenant/acme/device/d1/ack" "{}".

Lemma ack_own_commands_only_witness :
  exists h' l, handleAckMessage (fun _ => Ok sample_ack_message) sample_worker 700 false sample_ack_msg (sample_host CommandStatusSent)
      = (tt, h', l)
    /\ changes_only "acme" "d1" (StoreProperties.sample_db CommandStatusSent 1 None) (committed (h_world h')).
Proof.
  destruct (handleAckMessage (fun _ => Ok sample_ack_message) sample_worker 700 false sample_ack_msg (sample_host CommandStatusSent))
    as [[[] h'] l] eqn:E.
  exists h', l. split; [reflexivity|].
  exact (ack_own_commands_only (fun _ => Ok sample_ack_message) _ _ _ _ _ _ _ E).
Defined.

Lemma ack_settled_or_redelivered_witness :
  exists h' l, handleAckMessage (fun _ => Ok sample_ack_message) sample_worker 700 false sample_ack_msg (sample_host CommandStatusSent)
      = (tt, h', l)
    /\ ((count is_ack l = 1%nat /\ count is_fail l = 0%nat
         /\ ack_settled sample_worker 700 sample_ack_message sample_ack_msg (h_world h') l)
        \/ (count is_ack l = 0%nat /\ (count is_fail l = 1%nat \/ exists d, (Sleep d, false) ∈ l))).
Proof.
  destruct (handleAckMessage (fun _ => Ok sample_ack_message) sample_worker 700 false sample_ack_msg (sample_host CommandStatusSent))
    as [[[] h'] l] eqn:E.
  exists h', l. split; [reflexivity|].
  eapply (ack_settled_or_redelivered (fun _ => Ok sample_ack_message)); [exact E|..]; try (vm_compute; reflexivity).
  discriminate.
Defined.
