(* ===== verification/Metrics.v ===== *)
(** * Counters: internal/platform/metrics.go

    A counter vector is a map from label values to a number; the name of a
    vector is the one of the trace ([Host]), without its prefix and suffix.
    [NewMetrics] creates every series the pipelines count at zero, so that an
    alert can refer to it before the first occurrence. *)
From stdpp Require Import prelude strings gmap.
From Stdlib Require Import ZArith Lia.
From S2P Require Import Prelude GoStrings Contracts CommandState GoJson Payload Domain TimeText Postgres PostgresStore PostgresCommands Base64 HttpParams Observability Host Kafka Bridge TDengine Worker Acks.

Local Open Scope Z_scope.

Definition Series := (string * list string)%type.

Record Metrics := MkMetrics { mt_counters : gmap Series Z; mt_gauges : gmap string Z }.

(** [WithLabelValues(labels...)] creates the series when it is not there. *)
Definition add_counter (n : Z) (series : Series) (m : Metrics) : Metrics :=
  MkMetrics (<[series := default 0 (mt_counters m !! series) + n]> (mt_counters m)) (mt_gauges m).

#[local] Arguments add_counter : simpl never.

(** A nil vector counts nothing; the vectors of [NewMetrics] are not nil. *)
Definition incCounterVec (name : string) (labels : list string) (m : Metrics) : Metrics := add_counter 1 (name, labels) m.

Definition IncTenant (result : string) : Metrics -> Metrics := incCounterVec "tenants" [result].
Definition IncDevice (result : string) : Metrics -> Metrics := incCounterVec "devices" [result].
Definition IncTelemetry (result : string) : Metrics -> Metrics := incCounterVec "telemetry_ingested" [result].
Definition IncCommand (kind result : string) : Metrics -> Metrics := incCounterVec "commands" [kind; result].
Definition IncKafkaPublish (kind result : string) : Metrics -> Metrics := incCounterVec "kafka_publish" [kind; result].
Definition IncDLQPublish (stage result : string) : Metrics -> Metrics := incCounterVec "dlq_publish" [stage; result].
Definition IncMQTTBridge (result : string) : Metrics -> Metrics := incCounterVec "mqtt_bridge" [result].
Definition IncDeviceWorker (kind result : string) : Metrics -> Metrics := incCounterVec "device_worker" [kind; result].
Definition IncTDengineWrite (result : string) : Metrics -> Metrics := incCounterVec "tdengine_write" [result].
Definition IncDemo (kind result : string) : Metrics -> Metrics := incCounterVec "demo_events" [kind; result].

Definition SetDemoTopology (tenants devices agents : Z) (m : Metrics) : Metrics :=
  MkMetrics (mt_counters m)
    (<["demo_topology_agents" := agents]> (<["demo_topology_devices" := devices]> (<["demo_topology_tenants" := tenants]> (mt_gauges m)))).

Definition ObserveHTTPRequest (route method : string) (status : Z) (m : Metrics) : Metrics :=
  add_counter 1 ("http_requests", [route; method; statusLabel status]) m.

(** http_helpers.go: the status of the last [WriteHeader], passed on. *)
Record observedResponseWriter := MkObservedResponseWriter { ow_status : Z; ow_inner : accessLogResponse }.

Definition observed_WriteHeader (status : Z) (w : observedResponseWriter) : observedResponseWriter :=
  MkObservedResponseWriter status (WriteHeader status (ow_inner w)).

Definition observed_act (w : observedResponseWriter) (a : HandlerAct) : observedResponseWriter :=
  match a with
  | HWriteHeader code => observed_WriteHeader code w
  | HWrite bytes => MkObservedResponseWriter (ow_status w) (Write bytes (ow_inner w))
  end.

(** [Metrics.HTTPMiddleware]: a handler that does not return is not counted. *)
Definition HTTPMiddleware (r : Request) (acts : list HandlerAct) (how : HandlerEnd) (w : accessLogResponse) (m : Metrics)
  : accessLogResponse * Metrics :=
  if String.eqb (rq_Path r) "/metrics" then (Observability.run_handler acts w, m)
  else
    let rw := foldl observed_act (MkObservedResponseWriter 200 w) acts in
    (ow_inner rw, match how with
                  | Returned => ObserveHTTPRequest (routeLabel (rq_Path r)) (rq_Method r) (ow_status rw) m
                  | _ => m
                  end).

(** [UnaryServerInterceptor], after the handler has answered with [code]. *)
Definition observe_grpc (fullMethod code : string) (m : Metrics) : Metrics := add_counter 1 ("grpc_requests", [fullMethod; code]) m.

(** ** seedSeries *)
Definition results : list string := ["ok"; "error"].

Definition with_result (name : string) (kinds : list string) : list Series :=
  kinds ≫= fun kind => map (fun result => (name, [kind; result])) results.

Definition core_methods : list string :=
  map (fun m => "/core.v1.CoreService/" +:+ m)
    ["CreateTenant"; "ListTenants"; "CreateDevice"; "ListDevices"; "GetDevice"; "GetDeviceStatus"; "ListTelemetry"; "IngestTelemetry";
     "RecordTelemetry"; "CreateCommand"; "ListCommands"; "GetCommand"; "AckCommand"].

Definition seeds : list Series :=
  (results ≫= fun result => map (fun name => (name, [result])) ["tenants"; "devices"; "telemetry_ingested"; "mqtt_bridge"; "tdengine_write"])
  ++ with_result "commands" ["created"; "acked"]
  ++ with_result "kafka_publish" ["telemetry"; "command"]
  ++ with_result "dlq_publish" DeadLetterStages
  ++ with_result "device_worker" ["telemetry"; "command"; "ack"; "telemetry_compensate"]
  ++ (["filtered"; "duplicate"] ≫= fun outcome => map (fun kind => ("device_worker", [kind; outcome])) ["telemetry"; "command"])
  ++ with_result "demo_events" ["topology"; "telemetry"; "command"; "ack"]
  ++ (core_methods ≫= fun method =>
        map (fun code => ("grpc_requests", [method; code])) ["OK"; "InvalidArgument"; "NotFound"; "AlreadyExists"; "Internal"; "Unavailable"]).

Definition seedSeries (m : Metrics) : Metrics := foldl (fun m series => add_counter 0 series m) m seeds.

Definition NewMetrics : Metrics :=
  seedSeries (MkMetrics ∅ (<["demo_topology_agents" := 0]> (<["demo_topology_devices" := 0]> {[ "demo_topology_tenants" := 0 ]}))).

(** ** What a trace counts *)
Definition count_event (e : Event) (m : Metrics) : Metrics :=
  match e.1 with Metric name labels => incCounterVec name labels m | _ => m end.

Definition count_trace (l : list Event) (m : Metrics) : Metrics := foldl (flip count_event) m l.

Lemma add_counter_lookup n series m key :
  mt_counters (add_counter n series m) !! key
  = if bool_decide (series = key) then Some (default 0 (mt_counters m !! key) + n) else mt_counters m !! key.
Proof. unfold add_counter. simpl. case_bool_decide as E; [subst; by rewrite lookup_insert_eq|by rewrite lookup_insert_ne]. Qed.

Lemma seeded_lookup m l key :
  mt_counters (foldl (fun m series => add_counter 0 series m) m l) !! key
  = if bool_decide (key ∈ l) then Some (default 0 (mt_counters m !! key)) else mt_counters m !! key.
Proof.
  revert m. induction l as [|series l IH]; intros m; [done|]. cbn [foldl]. rewrite IH, add_counter_lookup.
  case_bool_decide as E1; case_bool_decide as E2; subst; simpl.
  - rewrite bool_decide_true by set_solver. f_equal. lia.
  - rewrite bool_decide_true by set_solver. done.
  - rewrite bool_decide_true by set_solver. f_equal. lia.
  - rewrite bool_decide_false by set_solver. done.
Qed.

Lemma new_metrics_lookup key : mt_counters NewMetrics !! key = if bool_decide (key ∈ seeds) then Some 0 else None.
Proof. unfold NewMetrics, seedSeries. rewrite seeded_lookup. simpl. by rewrite lookup_empty. Qed.

(** *** Every event of a run *)
Section events.
Variable P : Event -> Prop.

Definition all_events {A} (m : IO A) : Prop := forall h a h' l, m h = (a, h', l) -> Forall P l.

Lemma all_bind {A B} (m : IO A) (f : A -> IO B) : all_events m -> (forall a, all_events (f a)) -> all_events (m ≫= f).
Proof. intros Hm Hf h b h' l (a & h1 & l1 & l2 & E1 & E2 & ->)%io_bind_inv. apply Forall_app. split; [by eapply Hm|by eapply Hf]. Qed.
Lemma all_ret {A} (a : A) : all_events (mret a).
Proof. intros h b h' l (_ & _ & ->)%io_ret_inv. constructor. Qed.
Lemma all_attempt a : P (a, true) -> P (a, false) -> all_events (attempt a).
Proof. intros Ht Hf h o h' l [-> _]%attempt_inv. repeat constructor. by destruct o. Qed.
Lemma all_act a : P (a, true) -> all_events (act a).
Proof. intros Ht h u h' l [-> _]%act_inv. by repeat constructor. Qed.
Lemma all_store {A} (op : Op A) : all_events (on_store op).
Proof. intros h r h' l [_ ->]%on_store_inv. constructor. Qed.
End events.

(** ** The pipelines count seeded series only *)
Definition seeded (e : Event) : Prop := match e.1 with Metric name labels => (name, labels) ∈ seeds | _ => True end.

Lemma seeded_metric name labels b : bool_decide ((name, labels) ∈ seeds) = true -> seeded (Metric name labels, b).
Proof. by intros H%bool_decide_eq_true. Qed.

Create HintDb counting.

(** Bind by bind and case by case; a metric with constant labels is looked up. *)
Ltac counting_with metric :=
  repeat (intros; match goal with
          | |- all_events _ (_ ≫= _) => apply all_bind
          | |- all_events _ (mret _) => apply all_ret
          | |- all_events _ (on_store _) => apply all_store
          | |- all_events _ (attempt _) => by apply all_attempt
          | |- all_events _ (inc _ _) => apply all_act
          | |- all_events _ (worker_metric _ _) => apply all_act
          | |- all_events _ (act (Metric _ _)) => apply all_act
          | |- all_events _ (act _) => by apply all_act
          | |- seeded (Metric _ _, _) => solve [metric]
          | |- all_events _ (match ?x with _ => _ end) => destruct x
          | |- all_events _ _ => solve [eauto with counting]
          end).
Ltac counting := counting_with ltac:(apply seeded_metric; vm_compute; reflexivity).

Section pipelines.
Context `{Unicode} `{PgEnv} `{KafkaClient} `{TaosDriver}.

Lemma write_attempts_counts write delays err : (match write with Metric _ _ => False | _ => True end) -> all_events seeded (write_attempts write delays err).
Proof.
  intros Hw. revert err. induction delays as [|d ds IH]; intros err; cbn [write_attempts]; [counting|].
  apply all_bind; [counting|]. intros [e|]; [counting|]. apply all_bind; [apply all_attempt; by destruct write|]. counting.
Qed.

Lemma write_kafka_counts topic key value : all_events seeded (writeKafkaMessageWithRetry topic key value).
Proof. by apply write_attempts_counts. Qed.
Hint Resolve write_kafka_counts : counting.

Lemma publish_telemetry_counts p rec : all_events seeded (PublishTelemetry p rec).
Proof. unfold PublishTelemetry. counting. Qed.
Hint Resolve publish_telemetry_counts : counting.

Lemma dlq_seeded stage result b : stage ∈ DeadLetterStages -> result ∈ results -> seeded (Metric "dlq_publish" [stage; result], b).
Proof.
  intros Hs Hr. unfold seeded. simpl. unfold seeds. do 3 (apply elem_of_app; right). apply elem_of_app; left.
  apply list_elem_of_bind. exists stage. split; [|done]. apply list_elem_of_fmap. eauto.
Qed.

Lemma publish_dead_letter_counts writer now msg stage cause : stage ∈ DeadLetterStages -> all_events seeded (publishDeadLetter writer now msg stage cause).
Proof.
  intros Hs. unfold publishDeadLetter. counting_with ltac:(apply dlq_seeded; [assumption|set_solver]).
Qed.

Lemma commit_dead_letter_counts writer now msg stage cause :
  stage ∈ DeadLetterStages -> all_events seeded (commitAfterDeadLetter writer now msg stage cause).
Proof. intros Hs. unfold commitAfterDeadLetter. apply all_bind; [by apply publish_dead_letter_counts|]. counting. Qed.

Hint Extern 1 (_ ∈ DeadLetterStages) => (unfold DeadLetterStages; set_solver) : counting.
Hint Resolve publish_dead_letter_counts commit_dead_letter_counts : counting.

Lemma tdengine_counts w rec : all_events seeded (WriteTelemetryContext w rec).
Proof. unfold WriteTelemetryContext, writeRecord. counting. Qed.
Hint Resolve tdengine_counts : counting.

Lemma dead_letter_counts b now msg stage cause durable : stage ∈ DeadLetterStages -> all_events seeded (deadLetter b now msg stage cause durable).
Proof. intros Hs. unfold deadLetter, bridge_fail. counting. Qed.
Hint Resolve dead_letter_counts : counting.

Lemma publish_record_counts b now msg rec durable : all_events seeded (publish_record b now msg rec durable).
Proof. unfold publish_record. counting. Qed.
Hint Resolve publish_record_counts : counting.

Lemma inbox_counts inbox env : all_events seeded (RecordTelemetryContext_ inbox env).
Proof. intros h r h' l E. destruct (inbox_promise inbox env h r h' l E) as [-> _]. constructor. Qed.
Hint Resolve inbox_counts : counting.

Lemma bridge_counts unmarshal b now msg : all_events seeded (processMessage unmarshal b now msg).
Proof. unfold processMessage. counting. Qed.

Lemma telemetry_sink_counts w ck msg rec : all_events seeded (telemetry_sink w ck msg rec).
Proof. unfold telemetry_sink, telemetry_done, markTelemetryWritten. counting. Qed.
Hint Resolve telemetry_sink_counts : counting.

Lemma consume_telemetry_counts unmarshal w ck msg : all_events seeded (consume_telemetry unmarshal w ck msg).
Proof. unfold consume_telemetry. counting. Qed.

Lemma deliver_command_counts w ck msg cmd : all_events seeded (deliver_command w ck msg cmd).
Proof. unfold deliver_command. counting. Qed.
Hint Resolve deliver_command_counts : counting.

Lemma consume_command_counts unmarshal w ck msg : all_events seeded (consume_command unmarshal w ck msg).
Proof. unfold consume_command, commandForDelivery. counting. Qed.

Lemma compensate_rows_counts w rows : all_events seeded (compensateTelemetryRows w rows).
Proof. induction rows as [|[rec cancelled] rows IH]; cbn [compensateTelemetryRows]; unfold markTelemetryWritten; counting. Qed.
Hint Resolve compensate_rows_counts : counting.

Lemma compensate_counts w now after cancelled : all_events seeded (compensate_tick w now after cancelled).
Proof. unfold compensate_tick. counting. Qed.

Lemma store_ack_counts now ack n left_ err : all_events seeded (store_ack now ack n left_ err).
Proof. revert n err. induction left_; intros n err; cbn [store_ack]; unfold applyAck; counting. Qed.
Hint Resolve store_ack_counts : counting.

Lemma ack_counts decode w now stopping msg : all_events seeded (handleAckMessage decode w now stopping msg).
Proof. unfold handleAckMessage, rejectAck. counting. Qed.

(** The consumers as loops. *)
Lemma consume_loop_counts kind handle fs :
  kind ∈ ["telemetry"; "command"] -> (forall msg, all_events seeded (handle msg)) -> all_events seeded (consume_loop kind handle fs).
Proof.
  intros Hk Hh. induction fs as [|[msg|e] fs IH]; cbn [consume_loop]; [counting|counting|].
  apply elem_of_cons in Hk as [->|Hk]; [counting|]. apply list_elem_of_singleton in Hk as ->. counting.
Qed.

(** A unit of work of the bridge or the worker. *)
Inductive pipeline_run : list Event -> Prop :=
| run_bridge unmarshal b now msg h a h' l : processMessage unmarshal b now msg h = (a, h', l) -> pipeline_run l
| run_telemetry unmarshal w ck fs h a h' l : consumeTelemetry unmarshal w ck fs h = (a, h', l) -> pipeline_run l
| run_commands unmarshal w ck fs h a h' l : consumeCommands unmarshal w ck fs h = (a, h', l) -> pipeline_run l
| run_compensation w now after cancelled h a h' l : compensate_tick w now after cancelled h = (a, h', l) -> pipeline_run l
| run_ack decode w now stopping msg h a h' l : handleAckMessage decode w now stopping msg h = (a, h', l) -> pipeline_run l.

Lemma pipeline_seeded l : pipeline_run l -> Forall seeded l.
Proof.
  intros []; [eapply bridge_counts| | |eapply compensate_counts|eapply ack_counts]; try done.
  - eapply (consume_loop_counts "telemetry"); [set_solver|intros; apply consume_telemetry_counts|done].
  - eapply (consume_loop_counts "command"); [set_solver|intros; apply consume_command_counts|done].
Qed.

End pipelines.

(** How often a trace counts a series. *)
Definition counts (key : Series) (e : Event) : bool :=
  match e.1 with Metric name labels => bool_decide ((name, labels) = key) | _ => false end.
Definition times (key : Series) (l : list Event) : Z := Z.of_nat (length (List.filter (counts key) l)).

Lemma count_trace_lookup l m key : Forall seeded l ->
  (key ∈ seeds <-> is_Some (mt_counters m !! key)) ->
  mt_counters (count_trace l m) !! key = if bool_decide (key ∈ seeds) then Some (default 0 (mt_counters m !! key) + times key l) else None.
Proof.
  intros Hl. revert m. induction Hl as [|e l He _ IH]; intros m Hm.
  { unfold count_trace, times. simpl. case_bool_decide as Hk.
    - apply Hm in Hk as [n ->]. simpl. f_equal. lia.
    - apply eq_None_not_Some. by rewrite <- Hm. }
  assert (Hstep : (key ∈ seeds <-> is_Some (mt_counters (count_event e m) !! key))
                  /\ default 0 (mt_counters (count_event e m) !! key) = default 0 (mt_counters m !! key) + (if counts key e then 1 else 0)).
  { unfold count_event, counts, seeded in *. destruct e.1 as [| | | | | |name labels|]; cbn [default]; try (split; [done|lia]).
    unfold incCounterVec. rewrite add_counter_lookup. destruct (decide ((name, labels) = key)) as [<-|E].
    - rewrite !bool_decide_true by done. simpl. split; [|done]. split; [by eexists|done].
    - rewrite !bool_decide_false by done. split; [done|lia]. }
  destruct Hstep as [Hdom Hval]. unfold count_trace in *. cbn [foldl flip]. rewrite IH by done.
  case_bool_decide; [|done]. f_equal. rewrite Hval. unfold times. cbn [List.filter]. destruct (counts key e); simpl length; lia.
Qed.

(** The counters of a service are exact and complete: every series that
    processing a telemetry message, a command, an acknowledgement or a
    compensation scan can count is there at zero from the start, and after any
    number of such runs the series are still exactly the seeded ones and each
    shows how often it was counted. *)
Theorem metrics_seeded_exact `{Unicode} `{PgEnv} `{KafkaClient} `{TaosDriver} runs key :
  Forall pipeline_run runs ->
  mt_counters (count_trace (concat runs) NewMetrics) !! key
  = if bool_decide (key ∈ seeds) then Some (times key (concat runs)) else None.
Proof.
  intros Hruns. assert (Hs : Forall seeded (concat runs)).
  { apply Forall_concat. eapply Forall_impl; [exact Hruns|]. intros l. apply pipeline_seeded. }
  rewrite count_trace_lookup; [|done|].
  - rewrite new_metrics_lookup. case_bool_decide; [|done]. done.
  - rewrite new_metrics_lookup. case_bool_decide; split; [by eexists|done|done|by intros [? ?]].
Qed.

(** ** Example: a telemetry fetch that fails for good *)
#[local] Existing Instance StoreProperties.sample_unicode.
#[local] Existing Instance StoreProperties.sample_pg.
#[local] Existing Instance sample_client.
#[local] Existing Instance sample_taos.

Lemma metrics_seeded_exact_witness :
  let w := MkWorker true None true None [] 0 in
  let l := [(Metric "device_worker" ["telemetry"; "error"], true)] in
  mt_counters (count_trace (concat [l; l]) NewMetrics) !! ("device_worker", ["telemetry"; "error"]) = Some 2.
Proof.
  intros w l.
  assert (Hrun : pipeline_run l).
  { eapply (run_telemetry (fun _ => Err []) w (MkClock 0 0) [FetchFailed [Opaque "broken"]] (sample_host CommandStatusSent)). reflexivity. }
  rewrite (metrics_seeded_exact [l; l]); [reflexivity|]. by repeat constructor.
Defined.
