(* ===== verification/TelemetryOrigin.v ===== *)
(** * Where telemetry comes from

    The authentication callback of the broker (MqttAuth) and the bridge (Bridge)
    put together: what a device can have recorded through MQTT is telemetry of
    its own. *)
From stdpp Require Import prelude strings gmap.
From Stdlib Require Import ZArith Lia Ascii.
From S2P Require Import Prelude GoStrings Contracts CommandState GoJson Base64 Payload Domain Postgres PostgresStore PostgresRefine StoreProperties TelemetryProperties MqttAuth Host Kafka Bridge Metrics.

Local Open Scope Z_scope.

(** Telemetry that is written to Kafka is of the device. *)
Definition telemetry_of_device (t d : string) (e : Event) : Prop :=
  match e.1 with KafkaWrite _ _ (VTelemetry rec) => rec_TenantID rec = t /\ rec_DeviceID rec = d | _ => True end.

(** Rows of other devices are as they were. *)
Definition others_kept (t d : string) (db db' : DB) : Prop := forall msg t' d', (t', d') <> (t, d) ->
  telemetry_records db' !! (msg, t', d') = telemetry_records db !! (msg, t', d').

Create HintDb origin.

Section origin.
Context `{Unicode} `{PgEnv} `{KafkaClient}.
Variables (t d : string).

#[local] Notation own := (all_events (telemetry_of_device t d)).

Lemma own_attempts write delays err : telemetry_of_device t d (write, true) -> own (write_attempts write delays err).
Proof.
  intros Hw. revert err. induction delays as [|dl ds IH]; intros err; cbn [write_attempts]; [apply all_ret|].
  apply all_bind.
  - repeat case_match; first [apply all_ret|by apply all_attempt|apply all_bind; intros; by first [apply all_attempt|apply all_ret]].
  - intros [e|]; [apply all_ret|]. apply all_bind; [apply all_attempt; exact Hw|]. intros o. repeat case_match; first [apply all_ret|apply IH].
Qed.

(** Bind by bind and case by case. *)
Ltac own_steps :=
  unfold inc; repeat (intros; match goal with
  | |- own (_ ≫= _) => apply all_bind
  | |- own (mret _) => apply all_ret
  | |- own (act _) => by apply all_act
  | |- own (writeKafkaMessageWithRetry _ _ _) => by apply own_attempts
  | |- own (match ?x with _ => _ end) => destruct x
  | |- own _ => solve [eauto with origin]
  end).

Lemma own_dead_letter writer now msg stage cause : own (publishDeadLetter writer now msg stage cause).
Proof. unfold publishDeadLetter. own_steps. Qed.
Hint Resolve own_dead_letter : origin.

Lemma own_refused b now msg stage cause durable : own (deadLetter b now msg stage cause durable).
Proof. unfold deadLetter, bridge_fail. own_steps. Qed.
Hint Resolve own_refused : origin.

Lemma own_publish p rec : rec_TenantID rec = t -> rec_DeviceID rec = d -> own (PublishTelemetry p rec).
Proof. intros Ht Hd. unfold PublishTelemetry. own_steps. Qed.
Hint Resolve own_publish : origin.

Lemma own_record b now msg rec durable : rec_TenantID rec = t -> rec_DeviceID rec = d -> own (publish_record b now msg rec durable).
Proof. intros Ht Hd. unfold publish_record. own_steps. Qed.

(** What the inbox answers is about the envelope, and so is what it stores. *)
Lemma inbox_own received now env w r w' : env_TenantID env = t -> env_DeviceID env = d ->
  RecordTelemetryContext received now env w = (r, w') ->
  others_kept t d (committed w) (committed w')
  /\ forall x, r = Ok x -> rec_TenantID (recorded_record x) = t /\ rec_DeviceID (recorded_record x) = d.
Proof.
  intros Ht Hd. unfold RecordTelemetryContext. intros Hr%restore_telemetry_outcome. subst t d.
  assert (Hfresh : forall rec' db', recorded_ok (clear_written (MkTelemetryRecord (env_MsgID env) (env_TenantID env) (env_DeviceID env) (env_Ts env) (env_Type env)
       (env_Version env) (env_Payload env) false received)) (committed w) (Ok (Fresh rec')) db' -> others_kept (env_TenantID env) (env_DeviceID env) (committed w) db').
  { intros rec' db' (_ & _ & _ & row & st & Hrow & _) msg t' d' Hne. rewrite Hrow. apply lookup_insert_ne. unfold tel_key. simpl. congruence. }
  destruct r as [[rec'|stored]|e].
  - split; [by eapply Hfresh|]. intros x [= <-]. by destruct Hr as (-> & _).
  - destruct Hr as (-> & row & _ & ->). split; [done|]. by intros x [= <-].
  - split; [|done]. destruct Hr as [->|(rec' & Hr)]; [done|by eapply Hfresh].
Qed.

Lemma record_world b now msg rec durable h h' l : publish_record b now msg rec durable h = (tt, h', l) -> h_world h' = h_world h.
Proof.
  unfold publish_record. intros (r & h1 & l1 & l2 & (_ & Hw & _)%publish_telemetry_quiet & Hrun & _)%io_bind_inv. destruct r as [e|].
  - apply deadLetter_spec in Hrun as [-> _]. done.
  - apply io_bind_inv in Hrun as (u & h2 & l3 & l4 & E & [_ ->]%act_inv & _). destruct durable; simpl in E; [by apply io_ret_inv in E as (_ & -> & _)|].
    by apply act_inv in E as [_ ->].
Qed.

Lemma others_kept_refl db : others_kept t d db db.
Proof. done. Qed.

(** A message on a topic of the device. *)
Lemma processed_own unmarshal b now received stored msg suffix h h' l :
  br_inbox b = None \/ br_inbox b = Some (postgres_inbox received stored) ->
  ParseDeviceTopic (mm_Topic msg) = Some (t, d, suffix) ->
  processMessage unmarshal b now msg h = (tt, h', l) ->
  Forall (telemetry_of_device t d) l /\ others_kept t d (committed (h_world h)) (committed (h_world h')).
Proof.
  intros Hin Htopic. unfold processMessage. rewrite Htopic.
  assert (Hrefused : forall stage cause, deadLetter b now msg stage cause false h = (tt, h', l) ->
    Forall (telemetry_of_device t d) l /\ others_kept t d (committed (h_world h)) (committed (h_world h'))).
  { intros stage cause E. split; [by eapply own_refused|]. apply deadLetter_spec in E as [-> _]. done. }
  destruct (ParseEnvelope unmarshal now (mm_Payload msg)) as [env|e]; [|apply Hrefused].
  destruct (String.eqb_spec t (env_TenantID env)) as [Ht|], (String.eqb_spec d (env_DeviceID env)) as [Hd|]; cbn [negb orb]; try apply Hrefused.
  destruct Hin as [->| ->].
  - intros E. split; [refine (own_record _ _ _ _ _ _ _ _ _ _ _ E); done|]. by rewrite (record_world _ _ _ _ _ _ _ _ E).
  - intros (r & h1 & l1 & l2 & E1 & Hrun & ->)%io_bind_inv. cbn [RecordTelemetryContext_ postgres_inbox] in E1.
    apply on_store_inv in E1 as [E1 ->]. apply inbox_own in E1 as [Hk Hown]; [|done..]. destruct r as [x|e].
    + apply io_bind_inv in Hrun as (u & h2 & l3 & l4 & [-> ->]%act_inv & Hrun & ->). destruct (Hown x eq_refl) as [Hxt Hxd].
      rewrite (record_world _ _ _ _ _ _ _ _ Hrun). split; [|done]. constructor; [done|]. refine (own_record _ _ _ _ _ _ _ _ _ _ _ Hrun); done.
    + rewrite (record_world _ _ _ _ _ _ _ _ Hrun). split; [|done]. refine (own_record _ _ _ _ _ _ _ _ _ _ _ Hrun); done.
Qed.
End origin.


(** ** An example: a device that claims to be another one *)
#[local] Existing Instance sample_unicode.
#[local] Existing Instance sample_pg.
#[local] Existing Instance sample_client.

Definition strict_broker : Broker :=
  MkBroker (fun f x => String.eqb f "#" || match cut_prefix "eq " f with Some t => String.eqb x t | None => false end).

Lemma strict_broker_laws : broker_laws strict_broker.
Proof.
  split; [|done]. intros t x. cbn [matches strict_broker]. rewrite cut_prefix_app.
  assert (Hne : String.eqb ("eq " +:+ t) "#" = false) by (apply String.eqb_neq; rewrite str_app_cons; done).
  rewrite Hne. cbn [orb]. apply String.eqb_eq.
Qed.

Definition spoofed_envelope : Envelope := MkEnvelope "m1" "acme" "d2" 1700000000000 "temperature" "1.0" "" "" "" 0 "{}".

