(* ===== verification/Tools.v ===== *)
(** * The small commands: cmd/{migrate,e2eclient,e2espoof}

    The migration job, and the two clients that check a deployment from outside:
    one publishes telemetry as a provisioned device, the other forges the
    identity in the envelope. *)
From stdpp Require Import prelude strings gmap.
From Stdlib Require Import ZArith Lia Ascii.
From S2P Require Import Prelude GoStrings Contracts CommandState GoJson Base64 Payload Domain GoNet RuntimeConfig Postgres PostgresStore Migration StoreProperties MqttAuth Host Kafka Bridge Metrics TelemetryOrigin.

Local Open Scope Z_scope.

(** ** cmd/migrate *)
Inductive MigrateEnd := MigrateFatal (msg : string) | MigrateComplete.

(** [opened] is the outcome of connecting, without migrating; a fatal error
    leaves the process without the deferred calls. *)
Definition migrate_main (migrate : LegacyDB -> list fault -> result unit * LegacyDB) (env : Env) (opened : option error) (db : LegacyDB) (fs : list fault)
  : MigrateEnd * LegacyDB :=
  if String.eqb (env "POSTGRES_DSN") "" then (MigrateFatal "POSTGRES_DSN is required", db)
  else match opened with
       | Some _ => (MigrateFatal "cannot connect to PostgreSQL for migration", db)
       | None => match migrate db fs with
                 | (Err _, db') => (MigrateFatal "PostgreSQL migration failed", db')
                 | (Ok _, db') => (MigrateComplete, db')
                 end
       end.

(** ** cmd/e2eclient *)
Record DeviceSession := MkDeviceSession { se_Broker : string; se_ClientID : string; se_Username : string; se_Password : string; se_Topic : string; se_Envelope : Envelope }.

Definition getenv (env : Env) (k def : string) : string := if String.eqb (env k) "" then def else env k.

(** [nano] and [nano'] are the readings behind the client id and the message id,
    [now] the one behind the timestamp. *)
Definition e2eclient (env : Env) (nano nano' now : Z) : DeviceSession :=
  let broker := getenv env "E2E_BROKER" "tcp://localhost:11883" in
  let tenantID := getenv env "E2E_TENANT" "e2e-tenant" in
  let deviceID := getenv env "E2E_DEVICE" "e2e-device-1" in
  let secret := getenv env "E2E_SECRET" "e2e-secret-123" in
  MkDeviceSession broker ("iot-e2e-" +:+ Itoa nano) (tenantID +:+ ":" +:+ deviceID) secret
    ("tenant/" +:+ tenantID +:+ "/device/" +:+ deviceID +:+ "/telemetry")
    (MkEnvelope ("e2e-msg-" +:+ Itoa nano') tenantID deviceID (UnixMilli now) "temperature" "1.0" "" "" "" 0 (jtext "{'value':42.5}")).

(** ** cmd/e2espoof *)
Definition e2espoof (nano nano' now : Z) : DeviceSession :=
  MkDeviceSession "tcp://localhost:11883" ("iot-e2e-spoof-" +:+ Itoa nano) "e2e-tenant:e2e-device-1" "e2e-secret-123"
    "tenant/e2e-tenant/device/e2e-device-1/telemetry"
    (MkEnvelope ("spoof-" +:+ Itoa nano') "e2e-tenant" "e2e-device-999" (UnixMilli now) "temperature" "1.0" "" "" "" 0 (jtext "{'value':99}")).

(** Both clients connect, publish and report; [connected] and [published] are
    the outcomes of the two tokens. A failure leaves the process at once, without
    the deferred disconnect. *)
Inductive SessionEvent := SePrint (line : string) | SePublish (topic : string) (env : Envelope) | SeDisconnect.

Definition session_main (greeting : list SessionEvent) (report : string -> list string) (s : DeviceSession) (connected published : option error) : Z * list SessionEvent :=
  match connected with
  | Some err => (1, [SePrint "CONNECT-FAIL"])
  | None =>
      let sent := greeting ++ [SePublish (se_Topic s) (se_Envelope s)] in
      match published with
      | Some err => (1, sent ++ [SePrint "PUBLISH-FAIL"])
      | None => (0, sent ++ map SePrint (report (env_MsgID (se_Envelope s))) ++ [SeDisconnect])
      end
  end.

Definition e2eclient_main (env : Env) (nano nano' now : Z) : option error -> option error -> Z * list SessionEvent :=
  let s := e2eclient env nano nano' now in
  session_main [SePrint "CONNECT-OK: device authenticated via EMQX -> iot-core callback"]
    (fun id => ["PUBLISH-OK: topic=" +:+ se_Topic s +:+ " msgId=" +:+ id; "ENVELOPE-MSGID: " +:+ id]) s.

Definition e2espoof_main (nano nano' now : Z) : option error -> option error -> Z * list SessionEvent :=
  session_main [] (fun id => ["SPOOF-SENT: msgId=" +:+ id +:+ " (envelope deviceId=e2e-device-999 on topic device=e2e-device-1)"])
    (e2espoof nano nano' now).

(** Exit status 0 means that the broker took the message, and only then is its
    identifier reported. *)
Lemma session_reports greeting report s connected published :
  let '(status, l) := session_main greeting report s connected published in
  (status = 0 <-> connected = None /\ published = None)
  /\ (status = 0 -> SePublish (se_Topic s) (se_Envelope s) ∈ l /\ SeDisconnect ∈ l).
Proof. unfold session_main. destruct connected, published; (split; [naive_solver|]); try done; intros _. set_solver. Qed.

(** Neither client id is reserved for a service. *)
Lemma e2e_client_ids nano : isReservedMQTTClientID ("iot-e2e-" +:+ Itoa nano) = false /\ isReservedMQTTClientID ("iot-e2e-spoof-" +:+ Itoa nano) = false.
Proof. by split. Qed.

(** With valid names the test client uses the names the platform itself would:
    it is let in as its device, and may publish to its topic. *)
Theorem e2e_client_allowed `{!Unicode} env nano nano' now broker :
  let s := e2eclient env nano nano' now in
  let t := env_TenantID (se_Envelope s) in let d := env_DeviceID (se_Envelope s) in
  IsValidTenantID t = true -> IsValidTopicPart d = true -> broker_laws broker ->
  BuildDeviceUsername t d = Ok (se_Username s) /\ BuildTelemetryTopic t d = Ok (se_Topic s)
  /\ authorized broker (device_acl t d) "publish" (se_Topic s) = true.
Proof.
  intros s t d Ht Hd Hb. split_and!.
  - unfold BuildDeviceUsername. rewrite Ht, Hd. reflexivity.
  - destruct (device_topics_built t d Ht Hd) as (-> & _). reflexivity.
  - apply (device_acl_spec (fun _ => Err [])); [exact Hb|]. left. split; [reflexivity|]. left. reflexivity.
Qed.

(** The forged message is refused whatever the state of the services: it never
    becomes telemetry, in Kafka or in the store, and goes to the dead letters or
    back to the broker. *)
Theorem spoof_refused `{!Unicode} `{!KafkaClient} unmarshal raw b nano nano' now at_ h h' l :
  unmarshal raw = Ok (se_Envelope (e2espoof nano nano' now)) ->
  processMessage unmarshal b at_ (MkMqttMessage (se_Topic (e2espoof nano nano' now)) raw) h = (tt, h', l) ->
  h_world h' = h_world h
  /\ (forall topic key rec ok, (KafkaWrite topic key (VTelemetry rec), ok) ∈ l -> False)
  /\ (count is_ack l = 1%nat /\ copied b (MkMqttMessage (se_Topic (e2espoof nano nano' now)) raw) l \/ count is_ack l = 0%nat /\ count is_fail l = 1%nat).
Proof.
  intros Hraw. set (msg := MkMqttMessage _ raw).
  assert (Href : forall stage cause, deadLetter b at_ msg stage cause false h = (tt, h', l) ->
    h_world h' = h_world h /\ (forall topic key rec ok, (KafkaWrite topic key (VTelemetry rec), ok) ∈ l -> False)
    /\ (count is_ack l = 1%nat /\ copied b msg l \/ count is_ack l = 0%nat /\ count is_fail l = 1%nat)).
  { intros stage cause E. destruct (deadLetter_spec _ _ _ _ _ _ _ _ _ E) as [Hw Hd]. split_and!; [done| |naive_solver].
    intros topic key rec ok Hin.
    pose proof (own_refused "" "" b at_ msg stage cause false h tt h' l E) as H1. pose proof (own_refused "x" "" b at_ msg stage cause false h tt h' l E) as H2.
    rewrite Forall_forall in H1, H2. destruct (H1 _ Hin) as [E1 _], (H2 _ Hin) as [E2 _]. simpl in E1, E2. congruence. }
  unfold processMessage, ParseEnvelope. cbn [mm_Payload msg]. rewrite Hraw. destruct (ValidateEnvelope _ _); cbn [mbind result_bind]; [|apply Href].
  change (ParseDeviceTopic (mm_Topic msg)) with (Some ("e2e-tenant", "e2e-device-1", "telemetry")). apply Href.
Qed.
