(* ===== verification/Dispatcher.v ===== *)
(** * The command dispatcher: internal/platform/command_dispatcher.go

    The dispatcher is written against its interface to the store,
    [CommandDispatchStore], and its theorems use only what the interface
    promises; the PostgreSQL store keeps the promise. *)
From stdpp Require Import prelude strings gmap.
From Stdlib Require Import ZArith Lia.
From S2P Require Import Prelude GoStrings Contracts CommandState GoJson Payload Domain Postgres PostgresStore PostgresCommands Lifecycle PostgresRefine StoreProperties Worker WorkerProperties.

Local Open Scope Z_scope.

(** What the store reads of the world during one call. *)
Record StoreEnv := MkStoreEnv { se_dbnow : Z; se_locked : gset string }.

Class CommandDispatchStore (S : Type) := {
  ClaimCommandsForDispatch : StoreEnv -> Z -> Z -> S -> result (list Command) * S;
  MarkCommandPublished : StoreEnv -> string -> Z -> S -> result Z * S;
  RescheduleCommand : StoreEnv -> string -> Z -> Z -> S -> result unit * S;
  ExpireCommands : StoreEnv -> Z -> Z -> S -> result Z * S;
  RecoverStaleCommands : StoreEnv -> StoreEnv -> Z -> Z -> S -> result (Z * Z) * S }.

(** The promise: an invariant under which the attempts of a command never
    decrease and never exceed the cap, and a claim hands out at most as many
    commands as asked, each with one attempt more than before. *)
Class DispatchStoreLaws (S : Type) `{!CommandDispatchStore S} := {
  ds_inv : S -> Prop;
  ds_attempts : S -> string -> Z;
  ds_bound : forall s id, ds_inv s -> 0 <= ds_attempts s id <= maxDispatchAttempts;
  ds_claim : forall env limit lease s r s',
    ClaimCommandsForDispatch env limit lease s = (r, s') -> ds_inv s ->
    ds_inv s' /\ (forall id, ds_attempts s id <= ds_attempts s' id)
    /\ (forall cmds c, r = Ok cmds -> c ∈ cmds -> ds_attempts s' (cmd_ID c) = ds_attempts s (cmd_ID c) + 1);
  ds_publish : forall env id a s, ds_inv s ->
    ds_inv (MarkCommandPublished env id a s).2 /\ forall i, ds_attempts s i <= ds_attempts (MarkCommandPublished env id a s).2 i;
  ds_reschedule : forall env id a d s, ds_inv s ->
    ds_inv (RescheduleCommand env id a d s).2 /\ forall i, ds_attempts s i <= ds_attempts (RescheduleCommand env id a d s).2 i;
  ds_expire : forall env now g s, ds_inv s ->
    ds_inv (ExpireCommands env now g s).2 /\ forall i, ds_attempts s i <= ds_attempts (ExpireCommands env now g s).2 i;
  ds_recover : forall e1 e2 b s, ds_inv s ->
    ds_inv (RecoverStaleCommands e1 e2 b maxDispatchAttempts s).2
    /\ forall i, ds_attempts s i <= ds_attempts (RecoverStaleCommands e1 e2 b maxDispatchAttempts s).2 i }.

Record CommandDispatcher := MkCommandDispatcher { disp_timeout : Z; disp_lease : Z; disp_batchSize : nat }.

Definition NewCommandDispatcher (timeout : Z) : CommandDispatcher :=
  MkCommandDispatcher (if timeout <=? 0 then 5 * Minute else timeout) (30 * Second) 100.

Section dispatcher.
Context {S : Type} `{!CommandDispatchStore S}.

(** The surroundings of one iteration of [dispatchPending]: whether the context
    was cancelled, and what the publisher answered. *)
Record Iteration := MkIteration {
  it_cancelled : bool;
  it_claim : StoreEnv;
  it_publish : option error;
  it_mark : StoreEnv }.

(** [published] collects, in order, the commands the publisher accepted. *)
Fixpoint dispatch_loop (d : CommandDispatcher) (fuel : nat) (its : list Iteration) (s : S) : list Command * S :=
  match fuel, its with
  | O, _ | _, [] => ([], s)
  | Datatypes.S fuel', it :: its' =>
    if it_cancelled it then ([], s)
    else
      let '(r, s) := ClaimCommandsForDispatch (it_claim it) 1 (disp_lease d) s in
      match r with
      | Err _ => ([], s)
      | Ok [] => ([], s)
      | Ok (command :: _) =>
        match it_publish it with
        | Some _ =>
          let '(_, s) := RescheduleCommand (it_mark it) (cmd_ID command) (cmd_DispatchAttempts command)
                           (commandRetryBackoff (cmd_DispatchAttempts command)) s in
          dispatch_loop d fuel' its' s
        | None =>
          let '(_, s) := MarkCommandPublished (it_mark it) (cmd_ID command) (cmd_DispatchAttempts command) s in
          let '(published, s) := dispatch_loop d fuel' its' s in
          (command :: published, s)
        end
      end
  end.

Definition dispatchPending (d : CommandDispatcher) (its : list Iteration) (s : S) : list Command * S :=
  dispatch_loop d (disp_batchSize d) its s.

Definition scanCommands (d : CommandDispatcher) (e1 e2 e3 : StoreEnv) (now1 now2 : Z) (s : S) : S :=
  let '(_, s) := RecoverStaleCommands e1 e2 (now1 - disp_timeout d) maxDispatchAttempts s in
  let '(_, s) := ExpireCommands e3 now2 (disp_timeout d) s in
  s.

(** What the two goroutines of [Run] do, in the order the store serves them. *)
Inductive Activity :=
| Scan (e1 e2 e3 : StoreEnv) (now1 now2 : Z)
| Dispatch (its : list Iteration).

Fixpoint dispatcher_run (d : CommandDispatcher) (acts : list Activity) (s : S) : list Command * S :=
  match acts with
  | [] => ([], s)
  | Scan e1 e2 e3 n1 n2 :: acts' => dispatcher_run d acts' (scanCommands d e1 e2 e3 n1 n2 s)
  | Dispatch its :: acts' =>
    let '(p, s) := dispatchPending d its s in
    let '(p', s) := dispatcher_run d acts' s in
    (p ++ p', s)
  end.

Context `{!DispatchStoreLaws S}.

Definition published_of (id : string) (l : list Command) : Z :=
  Z.of_nat (length (filter (fun c => cmd_ID c = id) l)).

Lemma published_cons id c l :
  published_of id (c :: l) = (if decide (cmd_ID c = id) then 1 else 0) + published_of id l.
Proof. unfold published_of. rewrite filter_cons. case_decide; simpl; lia. Qed.

Lemma published_app id l l' : published_of id (l ++ l') = published_of id l + published_of id l'.
Proof. unfold published_of. rewrite filter_app, length_app. lia. Qed.

(** Every publish is paid for by an attempt. *)
Lemma dispatch_loop_attempts d fuel its s p s' :
  dispatch_loop d fuel its s = (p, s') -> ds_inv s ->
  ds_inv s' /\ forall id, published_of id p <= ds_attempts s' id - ds_attempts s id.
Proof.
  revert its s p s'. induction fuel as [|fuel IH]; intros its s p s'; simpl.
  { intros [= <- <-] Hi. split; [done|]. intros id. unfold published_of. simpl. lia. }
  destruct its as [|it its]; [intros [= <- <-] Hi; split; [done|]; intros id; unfold published_of; simpl; lia|].
  destruct (it_cancelled it); [intros [= <- <-] Hi; split; [done|]; intros id; unfold published_of; simpl; lia|].
  destruct (ClaimCommandsForDispatch _ _ _ s) as [r s1] eqn:Hc. intros Hrun Hi.
  destruct (ds_claim _ _ _ _ _ _ Hc Hi) as (Hi1 & Hm1 & Hcl).
  assert (Hnone : forall id, published_of id [] <= ds_attempts s1 id - ds_attempts s id).
  { intros id. specialize (Hm1 id). unfold published_of. simpl. lia. }
  destruct r as [[|c cs]|e]; [by injection Hrun as <- <-| |by injection Hrun as <- <-].
  destruct (it_publish it).
  - destruct (ds_reschedule (it_mark it) (cmd_ID c) (cmd_DispatchAttempts c) (commandRetryBackoff (cmd_DispatchAttempts c)) s1 Hi1) as [Hi2 Hm2].
    destruct (RescheduleCommand _ _ _ _ s1) as [x s2]. simpl in *. apply IH in Hrun as [Hi3 Hp]; [|done].
    split; [done|]. intros id. specialize (Hp id). specialize (Hm1 id). specialize (Hm2 id). lia.
  - destruct (ds_publish (it_mark it) (cmd_ID c) (cmd_DispatchAttempts c) s1 Hi1) as [Hi2 Hm2].
    destruct (MarkCommandPublished _ _ _ s1) as [x s2]. simpl in *.
    destruct (dispatch_loop d fuel its s2) as [p2 s3] eqn:Hl. injection Hrun as <- <-.
    destruct (IH _ _ _ _ Hl Hi2) as [Hi3 Hp]. split; [done|]. intros id. rewrite published_cons.
    specialize (Hp id). specialize (Hm2 id). case_decide as Hid; [|specialize (Hm1 id); lia]. subst id.
    rewrite (Hcl _ _ eq_refl (list_elem_of_here _ _)) in Hm2. lia.
Qed.

Lemma dispatcher_run_attempts d acts s p s' :
  dispatcher_run d acts s = (p, s') -> ds_inv s ->
  ds_inv s' /\ forall id, published_of id p <= ds_attempts s' id - ds_attempts s id.
Proof.
  revert s p s'. induction acts as [|[e1 e2 e3 n1 n2|its] acts IH]; intros s p s'; simpl.
  - intros [= <- <-] Hi. split; [done|]. intros id. unfold published_of. simpl. lia.
  - unfold scanCommands. intros Hrun Hi.
    destruct (ds_recover e1 e2 (n1 - disp_timeout d) s Hi) as [Hi1 Hm1].
    destruct (RecoverStaleCommands _ _ _ _ s) as [x s1]. simpl in *.
    destruct (ds_expire e3 n2 (disp_timeout d) s1 Hi1) as [Hi2 Hm2].
    destruct (ExpireCommands _ _ _ s1) as [y s2]. simpl in *. apply IH in Hrun as [Hi3 Hp]; [|done].
    split; [done|]. intros id. specialize (Hp id). specialize (Hm1 id). specialize (Hm2 id). lia.
  - destruct (dispatchPending d its s) as [p1 s1] eqn:Hd. destruct (dispatcher_run d acts s1) as [p2 s2] eqn:Hr.
    intros [= <- <-] Hi. apply dispatch_loop_attempts in Hd as [Hi1 Hp1]; [|done].
    apply IH in Hr as [Hi2 Hp2]; [|done]. split; [done|]. intros id. rewrite published_app.
    specialize (Hp1 id). specialize (Hp2 id). lia.
Qed.

End dispatcher.

(** ** The PostgreSQL store keeps the promise *)
Section postgres.
Context `{!Unicode} `{!PgEnv}.

#[export] Instance postgres_dispatch : CommandDispatchStore World := {
  ClaimCommandsForDispatch env limit lease := ClaimCommandsForDispatchContext (se_locked env) (se_dbnow env) limit lease;
  MarkCommandPublished env id a := MarkCommandPublishedContext (se_dbnow env) id a;
  RescheduleCommand env id a d := RescheduleCommandContext (se_dbnow env) id a d;
  ExpireCommands env now g := ExpireCommandsContext (se_locked env) now g;
  RecoverStaleCommands e1 e2 b m := RecoverStaleCommandsContext (se_locked e1) (se_locked e2) (se_dbnow e1) (se_dbnow e2) b m }.

Definition row_attempts (w : World) (id : string) : Z :=
  match commands (committed w) !! id with Some row => cr_dispatch_attempts row | None => 0 end.

Lemma row_attempts_mono w w' id :
  db_ok (committed w') -> rtc lifecycle_step (committed w) (committed w') -> row_attempts w id <= row_attempts w' id.
Proof.
  intros [Hok _ _ _] Hs. unfold row_attempts. destruct (commands (committed w) !! id) as [row|] eqn:E.
  - destruct (lifecycle_steps_attempts _ _ _ _ Hs E) as (row' & -> & ?). done.
  - specialize (Hok id). destruct (commands (committed w') !! id); [|done]. destruct Hok. lia.
Qed.

Lemma refines_keeps {A} (op : Op A) w :
  refines op -> db_ok (committed w) ->
  db_ok (committed (op w).2) /\ forall id, row_attempts w id <= row_attempts (op w).2 id.
Proof.
  intros Hr Hok. destruct (op w) as [r w'] eqn:E. apply Hr in E.
  assert (Hok' : db_ok (committed w')) by (by eapply lifecycle_steps_ok). split; [done|].
  intros id. by apply row_attempts_mono.
Qed.

Lemma scan_commands_ids rows cmds c :
  PostgresCommands.scanCommands rows = Ok cmds -> c ∈ cmds -> exists row, (cmd_ID c, row) ∈ rows.
Proof.
  revert cmds. induction rows as [|[id row] rows IH]; intros cmds; simpl; [intros [= <-] ?%elem_of_nil; done|].
  intros (cmd & Hc & (out & Ho & [= <-])%result_bind_ok)%result_bind_ok.
  apply scan_row_fields in Hc as (Hid & _). rewrite elem_of_cons. intros [->|Hin].
  - exists row. rewrite Hid. left.
  - destruct (IH _ Ho Hin) as [r Hr]. exists r. by right.
Qed.

Lemma claim_attempts locked dbnow limit lease w cmds w' c :
  ClaimCommandsForDispatchContext locked dbnow limit lease w = (Ok cmds, w') -> c ∈ cmds ->
  row_attempts w' (cmd_ID c) = row_attempts w (cmd_ID c) + 1.
Proof.
  unfold ClaimCommandsForDispatchContext. destruct (limit <? 1); [intros [= <- <-] ?%elem_of_nil; done|].
  unfold mbind, op_bind. destruct (db_exec _ w) as [[rows|e] w1] eqn:E; [|done]. unfold check. intros [= Hs <-] Hin.
  apply exec_ok_committed in E. apply result_bind_ok in E as (l & _ & [= <- Hdb]).
  destruct (scan_commands_ids _ _ _ Hs Hin) as [row' ([id row] & [= Hid ->] & Hb)%list_elem_of_fmap].
  unfold row_attempts. rewrite <- Hdb, Hid. simpl. rewrite lookup_update_rows.
  pose proof (select_batch_elem _ _ _ _ _ Hb) as (Hrow & _). simpl in Hrow. rewrite Hrow. simpl.
  rewrite bool_decide_true; [done|]. apply list_elem_of_fmap. by exists (id, row).
Qed.

#[export] Instance postgres_dispatch_laws : DispatchStoreLaws World.
Proof.
  refine (Build_DispatchStoreLaws World _ (fun w => db_ok (committed w)) row_attempts _ _ _ _ _ _).
  - intros w id [Hok _ _ _]. unfold row_attempts. specialize (Hok id).
    destruct (commands (committed w) !! id); [by destruct Hok|unfold maxDispatchAttempts; lia].
  - intros env limit lease w r w' Hc Hok. simpl in Hc.
    pose proof (ClaimCommands_refines _ _ _ _ _ _ _ Hc) as Hs.
    assert (Hok' : db_ok (committed w')) by (by eapply lifecycle_steps_ok).
    split_and!; [done|intros id; by apply row_attempts_mono|]. intros cmds c -> Hin. by eapply claim_attempts.
  - intros env id a w Hok. exact (refines_keeps _ w (MarkCommandPublished_refines (se_dbnow env) id a) Hok).
  - intros env id a d w Hok. exact (refines_keeps _ w (RescheduleCommand_refines (se_dbnow env) id a d) Hok).
  - intros env now g w Hok. exact (refines_keeps _ w (ExpireCommands_refines (se_locked env) now g) Hok).
  - intros e1 e2 b w Hok.
    exact (refines_keeps _ w (RecoverStaleCommands_refines (se_locked e1) (se_locked e2) (se_dbnow e1) (se_dbnow e2) b _) Hok).
Defined.
End postgres.

#[local] Existing Instance sample_unicode.
#[local] Existing Instance sample_pg.

(** A command is claimed, its publish fails, it is rescheduled; after the
    backoff it is claimed again and published. *)
Definition sample_activity : list Activity :=
  [Dispatch [MkIteration false (MkStoreEnv 1000 ∅) (Some [Opaque "kafka"]) (MkStoreEnv 1100 ∅)];
   Scan (MkStoreEnv 1200 ∅) (MkStoreEnv 1200 ∅) (MkStoreEnv 1200 ∅) 1200 1200;
   Dispatch [MkIteration false (MkStoreEnv (1100 + 10 * Second) ∅) None (MkStoreEnv (1200 + 10 * Second) ∅)]].

