(* ===== verification/DlqReplay.v ===== *)
(** * Replaying dead letters: cmd/dlq-replay/main.go

    An operator's batch over the dead-letter topic.  [log.Fatal] ends the run
    with an error. *)
From stdpp Require Import prelude strings gmap.
From Stdlib Require Import ZArith Lia Ascii.
From S2P Require Import Prelude GoStrings Contracts CommandState GoJson Base64 Payload Domain TimeText Postgres PostgresStore PostgresCommands Lifecycle PostgresRefine StoreProperties Host Kafka Bridge Worker Acks.

Local Open Scope Z_scope.

(** The flags, the environment variable of the telemetry topic, and what opening
    the acknowledgement store answers. *)
Record ReplayFlags := MkReplayFlags {
  rf_limit : Z;
  rf_stage : string;
  rf_group : string;
  rf_dryRun : bool;
  rf_telemetryTopic : string;
  rf_openStore : option error }.

Definition replayGroupID (stage : string) : string :=
  if String.eqb stage "" then "iot-dlq-replay-all" else "iot-dlq-replay-" +:+ stage.

Definition group_id (fl : ReplayFlags) : string :=
  if String.eqb (rf_group fl) "" then replayGroupID (rf_stage fl) else rf_group fl.

Definition splitCSV (value : string) : list string :=
  map trim_space (filter (fun item => trim_space item <> "") (split_byte ","%char value)).

Definition fatal (msg : string) : error := [Opaque msg].

Section replay.
Context `{Unicode} `{PgEnv} `{KafkaClient}.
(** Decoding of the four records. *)
Context (unmarshal_dead_letter : string -> result DeadLetter) (unmarshal_telemetry : string -> result TelemetryRecord)
        (unmarshal_envelope : string -> result Envelope) (decode_ack : string -> result CommandAckMessage).

Definition replayReceivedAt (item : DeadLetter) (ts : Z) : result Z :=
  if negb (String.eqb (dl_OccurredAt item) "") then
    match parse_rfc3339nano (dl_OccurredAt item) with
    | None => Err (fatal "invalid dead-letter occurredAt")
    | Some received => if IsZero received then Err (fatal "invalid dead-letter occurredAt") else Ok received
    end
  else if ts <=? 0 then Err (fatal "telemetry replay has no original timestamp")
  else Ok (ts * Millisecond).

(** [json.Marshal] of the record, with its error. *)
Definition encoded (topic : string) (rec : TelemetryRecord) : result (string * KValue) :=
  match marshal_telemetry rec with
  | Some e => Err e
  | None => Ok (topic, VTelemetry rec)
  end.

Definition replayKafkaPayload (telemetryTopic : string) (item : DeadLetter) (value : string) : result (string * KValue) :=
  if String.eqb (dl_Stage item) StageMQTTDecode || String.eqb (dl_Stage item) StageMQTTIdentity
  then Err (fatal "invalid MQTT messages must be corrected at their source")
  else if negb (String.eqb (dl_Stage item) StageMQTTKafka) then
    if String.eqb (dl_Stage item) StageTelemetryPostgres || String.eqb (dl_Stage item) StageTelemetryTDengine then
      rec ← unmarshal_telemetry value;
      if IsZero (rec_ReceivedAt rec) then
        received ← replayReceivedAt item (rec_Ts rec);
        encoded (dl_SourceTopic item) (with_received rec received)
      else Ok (dl_SourceTopic item, VBytes value)
    else Ok (dl_SourceTopic item, VBytes value)
  else
    env ← unmarshal_envelope value;
    if match ParseDeviceTopic (dl_SourceTopic item) with
       | Some (tenant, device, suffix) =>
         negb (String.eqb suffix TopicSuffixTelemetry) || negb (String.eqb tenant (env_TenantID env))
         || negb (String.eqb device (env_DeviceID env))
       | None => true
       end
    then Err (fatal "telemetry identity does not match source topic")
    else
      let topic := if String.eqb telemetryTopic "" then "iot.telemetry" else telemetryTopic in
      received ← replayReceivedAt item (env_Ts env);
      encoded topic (telemetry_of env received).

(** The store is PostgreSQL, which keeps execution results. *)
Definition replayAck (now : Z) (item : DeadLetter) (value : string) : IO (option error) :=
  match DecodeRequestJSON decode_ack value with
  | Err e => mret (Some e)
  | Ok ack =>
    if match ParseDeviceTopic (dl_SourceTopic item) with
       | Some (tenant, device, suffix) =>
         negb (String.eqb suffix TopicSuffixAck) || negb (String.eqb tenant (am_TenantID ack))
         || negb (String.eqb device (am_DeviceID ack)) || String.eqb (am_CommandID ack) ""
       | None => true
       end
    then mret (Some (fatal "ACK identity does not match source topic"))
    else
      match NormalizeCommandResult (ack_result ack) with
      | Err e => mret (Some e)
      | Ok result_ =>
        r ← on_store (AckCommandResultContext now (am_CommandID ack) (am_TenantID ack) (am_DeviceID ack) result_);
        mret (match r with Ok _ => None | Err e => Some e end)
      end
  end.

(** [None] goes on. *)
Definition commitReplay (msg : KMessage) (dryRun : bool) : IO (option error) :=
  if dryRun then mret None else attempt (CommitOffset msg).

(** What became of a record. *)
Inductive verdict := Replayed | Skipped.

(** [Err] is [log.Fatal]. *)
Definition then_commit (msg : KMessage) (dryRun : bool) (v : verdict) : IO (result verdict) :=
  err ← commitReplay msg dryRun;
  mret (match err with Some e => Err e | None => Ok v end).

(** Republish the dead letter, or apply its acknowledgement. *)
Definition replay_item (fl : ReplayFlags) (now : Z) (item : DeadLetter) (value : string) : IO (option error) :=
  if String.eqb (dl_Stage item) StageCommandAck then
    match rf_openStore fl with
    | Some e => mret (Some e)
    | None => replayAck now item value
    end
  else
    match replayKafkaPayload (rf_telemetryTopic fl) item value with
    | Err e => mret (Some e)
    | Ok (topic, payload) => attempt (KafkaWrite topic (dl_Key item) payload)
    end.

(** The body of the loop for one record. *)
Definition replay_record (fl : ReplayFlags) (now : Z) (msg : KMessage) : IO (result verdict) :=
  match unmarshal_dead_letter (km_Value msg) with
  | Err _ => then_commit msg (rf_dryRun fl) Skipped
  | Ok item =>
    if negb (String.eqb (rf_stage fl) "") && negb (String.eqb (dl_Stage item) (rf_stage fl)) then mret (Ok Skipped)
    else if rf_dryRun fl then mret (Ok Replayed)
    else
      match DecodeString StdEncoding (dl_ValueBase64 item) with
      | None => then_commit msg false Skipped
      | Some value =>
        err ← replay_item fl now item value;
        match err with
        | Some e => mret (Err e)
        | None => then_commit msg false Replayed
        end
      end
  end.

Inductive ReplayFetch :=
| FetchedRecord (msg : KMessage) (now : Z)
| FetchError (overall : bool) (e : error).

Record Counts := MkCounts { n_scanned : Z; n_replayed : Z; n_skipped : Z }.

Definition tally (v : verdict) (c : Counts) : Counts :=
  match v with
  | Replayed => MkCounts (n_scanned c + 1) (n_replayed c + 1) (n_skipped c)
  | Skipped => MkCounts (n_scanned c + 1) (n_replayed c) (n_skipped c + 1)
  end.

(** The loop over what the fetches yield; [overall]: the ten minutes are over. *)
Fixpoint replay_loop (fl : ReplayFlags) (fs : list ReplayFetch) (c : Counts) : IO (result Counts) :=
  if negb (n_replayed c <? rf_limit fl) then mret (Ok c)
  else
    match fs with
    | [] => mret (Ok c)
    | FetchError overall e :: _ =>
      if overall then mret (Err e) else if errors_is e ContextDeadlineExceeded then mret (Ok c) else mret (Err e)
    | FetchedRecord msg now :: fs' =>
      r ← replay_record fl now msg;
      match r with
      | Err e => mret (Err e)
      | Ok v => replay_loop fl fs' (tally v c)
      end
    end.

(** ** A dry run changes nothing *)
Lemma replay_record_dry fl now msg h : rf_dryRun fl = true -> exists r, replay_record fl now msg h = (Ok r, h, []).
Proof.
  intros Hd. unfold replay_record, then_commit, commitReplay. rewrite Hd.
  destruct (unmarshal_dead_letter _); [|by eexists]. destruct (_ && _); by eexists.
Qed.

(** A dry run changes nothing: whatever records it meets, it writes nothing
    to Kafka, commits no offset and leaves the database alone, so it can be
    repeated. *)
Theorem replay_dry_run fl fs c h r h' l :
  rf_dryRun fl = true -> replay_loop fl fs c h = (r, h', l) -> h' = h /\ l = [].
Proof.
  intros Hd. revert c h r h' l. induction fs as [|[msg now|ov e] fs IH]; intros c h r h' l; simpl;
    destruct (negb _); try (intros (_ & -> & ->)%io_ret_inv; done).
  - intros (a & h1 & l1 & l2 & Hr & Hrun & ->)%io_bind_inv.
    destruct (replay_record_dry fl now msg h Hd) as [v Hv]. rewrite Hv in Hr. injection Hr as <- <- <-.
    apply IH in Hrun as [-> ->]. done.
  - destruct ov; [intros (_ & -> & ->)%io_ret_inv; done|]. destruct (errors_is _ _); intros (_ & -> & ->)%io_ret_inv; done.
Qed.

(** ** A record is committed only once it is dealt with *)

(** What has been done about a record by the time its offset is committed, [l]
    being the events before that and [db] the tables: it can never be replayed,
    or it is of the stage the operator asked for and was written to its topic, or
    the command its acknowledgement names, of that tenant and device, is final. *)
Definition dealt_with (fl : ReplayFlags) (msg : KMessage) (l : list Event) (db : DB) : Prop :=
  match unmarshal_dead_letter (km_Value msg) with
  | Err _ => True
  | Ok item =>
    (rf_stage fl = "" \/ dl_Stage item = rf_stage fl)
    /\ match DecodeString StdEncoding (dl_ValueBase64 item) with
       | None => True
       | Some value =>
         if String.eqb (dl_Stage item) StageCommandAck
         then exists ack row, DecodeRequestJSON decode_ack value = Ok ack
                /\ commands db !! am_CommandID ack = Some row /\ is_final row
                /\ cr_tenant_id row = am_TenantID ack /\ cr_device_id row = am_DeviceID ack
         else exists topic payload, replayKafkaPayload (rf_telemetryTopic fl) item value = Ok (topic, payload)
                /\ (KafkaWrite topic (dl_Key item) payload, true) ∈ l
       end
  end.

Lemma dealt_with_mono fl msg l l' db db' :
  (forall e, e ∈ l -> e ∈ l') -> rtc lifecycle_step db db' -> dealt_with fl msg l db -> dealt_with fl msg l' db'.
Proof.
  intros Hsub Hs. unfold dealt_with. destruct (unmarshal_dead_letter _); [|done]. intros [? Hd]. split; [done|].
  destruct (DecodeString _ _); [|done]. destruct (String.eqb _ _).
  - destruct Hd as (ack & row & ? & Hrow & Hf & ? & ?). destruct (lifecycle_steps_final _ _ _ _ Hs Hrow Hf) as [? _]. eauto 8.
  - destruct Hd as (t & p & ? & ?). eauto.
Qed.

Lemma then_commit_inv msg dry v h r h' l :
  then_commit msg dry v h = (r, h', l) ->
  h_world h' = h_world h /\ forall l1 m b l2, l = l1 ++ (CommitOffset m, b) :: l2 -> m = msg /\ l1 = [].
Proof.
  unfold then_commit, commitReplay. intros (err & h1 & lc & l0 & Hc & (_ & -> & ->)%io_ret_inv & ->)%io_bind_inv.
  rewrite app_nil_r. destruct dry.
  - apply io_ret_inv in Hc as (_ & -> & ->). split; [done|]. by intros [] m b l2.
  - apply attempt_inv in Hc as [-> Hw]. split; [done|]. intros [|e l1] m b l2 E; [by injection E as <-|].
    injection E as _ E. by destruct l1.
Qed.

Lemma terminal_is_final st : is_terminal_status st = true -> exists s, st = status_string s /\ terminal s = true.
Proof.
  unfold is_terminal_status. intros [[E|E]%orb_prop|E]%orb_prop; apply String.eqb_eq in E as ->;
    [by exists Acked|by exists TimedOut|by exists Failed].
Qed.

Lemma replay_ack_inv now item value h e h' l :
  replayAck now item value h = (e, h', l) ->
  l = [] /\ rtc lifecycle_step (committed (h_world h)) (committed (h_world h'))
  /\ (e = None -> exists ack row, DecodeRequestJSON decode_ack value = Ok ack
        /\ commands (committed (h_world h')) !! am_CommandID ack = Some row /\ is_final row
        /\ cr_tenant_id row = am_TenantID ack /\ cr_device_id row = am_DeviceID ack).
Proof.
  unfold replayAck. destruct (DecodeRequestJSON _ _) as [ack|]; [|intros (<- & -> & ->)%io_ret_inv; split_and!; [done|apply rtc_refl|done]].
  match goal with |- context [if ?g then _ else _] => destruct g end; [intros (<- & -> & ->)%io_ret_inv; split_and!; [done|apply rtc_refl|done]|].
  destruct (NormalizeCommandResult _) as [n|]; [|intros (<- & -> & ->)%io_ret_inv; split_and!; [done|apply rtc_refl|done]].
  intros (res & hs & ls & ls' & [Hop ->]%on_store_inv & (<- & -> & ->)%io_ret_inv & ->)%io_bind_inv.
  split_and!; [done|by eapply AckCommandResult_refines|]. destruct res as [cmd|]; [|done]. intros _.
  apply ack_ok_final in Hop as (row & Hrow & Ht & ? & ?). exists ack, row. split_and!; [done|done|by apply terminal_is_final|done|done].
Qed.

Lemma replay_item_inv fl now item value h e h' l :
  replay_item fl now item value h = (e, h', l) ->
  (forall m b, (CommitOffset m, b) ∉ l) /\ rtc lifecycle_step (committed (h_world h)) (committed (h_world h'))
  /\ (e = None ->
      if String.eqb (dl_Stage item) StageCommandAck
      then exists ack row, DecodeRequestJSON decode_ack value = Ok ack
             /\ commands (committed (h_world h')) !! am_CommandID ack = Some row /\ is_final row
             /\ cr_tenant_id row = am_TenantID ack /\ cr_device_id row = am_DeviceID ack
      else exists topic payload, replayKafkaPayload (rf_telemetryTopic fl) item value = Ok (topic, payload)
             /\ (KafkaWrite topic (dl_Key item) payload, true) ∈ l).
Proof.
  unfold replay_item. destruct (String.eqb (dl_Stage item) StageCommandAck).
  - destruct (rf_openStore fl) as [e0|];
      [intros (<- & -> & ->)%io_ret_inv; split_and!; [by intros m b ?%elem_of_nil|apply rtc_refl|done]|].
    intros (-> & Hs & Hn)%replay_ack_inv. split_and!; [by intros m b ?%elem_of_nil|done|done].
  - destruct (replayKafkaPayload _ item value) as [[topic payload]|];
      [|intros (<- & -> & ->)%io_ret_inv; split_and!; [by intros m b ?%elem_of_nil|apply rtc_refl|done]].
    intros [-> Hw]%attempt_inv. split_and!; [by intros m b [=]%list_elem_of_singleton|rewrite Hw; apply rtc_refl|]. intros ->.
    exists topic, payload. split; [done|left].
Qed.

(** Where an element of a concatenation sits. *)
Lemma app_cons_cases {A} (a b l1 l2 : list A) x :
  a ++ b = l1 ++ x :: l2 -> (exists k, a = l1 ++ x :: k) \/ (exists k, l1 = a ++ k /\ b = k ++ x :: l2).
Proof.
  revert l1. induction a as [|y a IH]; intros l1 E; [right; by exists l1|].
  destruct l1 as [|z l1]; simpl in E; injection E as -> E; [left; by exists a|].
  destruct (IH _ E) as [[k ->]|(k & -> & ->)]; [left|right]; by exists k.
Qed.

Lemma replay_record_commit fl now msg h r h' l :
  replay_record fl now msg h = (r, h', l) ->
  rtc lifecycle_step (committed (h_world h)) (committed (h_world h'))
  /\ forall l1 m b l2, l = l1 ++ (CommitOffset m, b) :: l2 -> m = msg /\ dealt_with fl msg l1 (committed (h_world h')).
Proof.
  assert (Hnil : forall l1 m b (l2 : list Event), [] = l1 ++ (CommitOffset m, b) :: l2 -> False) by (by intros [] m b l2).
  unfold replay_record, dealt_with. destruct (unmarshal_dead_letter (km_Value msg)) as [item|] eqn:Hu.
  2:{ intros (-> & Hc)%then_commit_inv. split; [apply rtc_refl|]. intros l1 m b l2 E. by destruct (Hc _ _ _ _ E). }
  destruct (negb (String.eqb (rf_stage fl) "") && _) eqn:Hst;
    [intros (_ & -> & ->)%io_ret_inv; split; [apply rtc_refl|by intros l1 m b l2 ?%Hnil]|].
  assert (Hstage : rf_stage fl = "" \/ dl_Stage item = rf_stage fl).
  { apply andb_false_iff in Hst as [Hs%negb_false_iff%String.eqb_eq|Hs%negb_false_iff%String.eqb_eq]; auto. }
  destruct (rf_dryRun fl); [intros (_ & -> & ->)%io_ret_inv; split; [apply rtc_refl|by intros l1 m b l2 ?%Hnil]|].
  destruct (DecodeString StdEncoding (dl_ValueBase64 item)) as [value|].
  2:{ intros (-> & Hc)%then_commit_inv. split; [apply rtc_refl|]. intros l1 m b l2 E. by destruct (Hc _ _ _ _ E). }
  intros (e & h1 & la & lb & (Hno & Hs & Hyes)%replay_item_inv & Hrun & ->)%io_bind_inv.
  destruct e as [e|].
  - apply io_ret_inv in Hrun as (_ & -> & ->). split; [done|]. rewrite app_nil_r. intros l1 m b l2 ->.
    destruct (Hno m b). apply elem_of_app. right. left.
  - apply then_commit_inv in Hrun as [-> Hc]. split; [done|].
    intros l1 m b l2 [[k ->]|(k & -> & E)]%app_cons_cases; [destruct (Hno m b); apply elem_of_app; right; left|].
    destruct (Hc _ _ _ _ E) as [-> ->]. rewrite app_nil_r. split; [done|]. split; [done|]. exact (Hyes eq_refl).
Qed.

Lemma replay_loop_lifecycle fl fs c h r h' l :
  replay_loop fl fs c h = (r, h', l) -> rtc lifecycle_step (committed (h_world h)) (committed (h_world h')).
Proof.
  revert c h r h' l. induction fs as [|[msg now|ov e] fs IH]; intros c h r h' l; simpl;
    destruct (negb _); try (intros (_ & -> & _)%io_ret_inv; apply rtc_refl).
  - intros (a & h1 & l1 & l2 & [Hs _]%replay_record_commit & Hrun & ->)%io_bind_inv.
    destruct a as [v|e]; [|by apply io_ret_inv in Hrun as (_ & -> & _)]. etrans; [exact Hs|by eapply IH].
  - destruct ov; [intros (_ & -> & _)%io_ret_inv; apply rtc_refl|]. destruct (errors_is _ _); intros (_ & -> & _)%io_ret_inv; apply rtc_refl.
Qed.


End replay.

(** ** Examples *)
#[local] Existing Instance sample_unicode.
#[local] Existing Instance sample_pg.
#[local] Existing Instance sample_client.

Definition sample_item : DeadLetter :=
  MkDeadLetter "iot.command" 0 3 "d1" (EncodeToString StdEncoding "{}") StageCommandMQTT [Opaque "mqtt"] "".
Definition sample_flags (dry : bool) : ReplayFlags := MkReplayFlags 100 StageCommandMQTT "" dry "" None.
Definition sample_dead (raw : string) : result DeadLetter := if String.eqb raw "item" then Ok sample_item else Err [Opaque "json"].
Definition sample_replay (dry : bool) : IO (result Counts) :=
  replay_loop sample_dead (fun _ => Err [Opaque "json"]) (fun _ => Err [Opaque "json"]) (fun _ => Err [Opaque "json"])
    (sample_flags dry)
    [FetchedRecord (MkKMessage "iot.dlq" 0 1 "" "garbage" 5) 10; FetchedRecord (MkKMessage "iot.dlq" 0 2 "" "item" 5) 10;
     FetchError false [ContextDeadlineExceeded]] (MkCounts 0 0 0).
Definition sample_replay_host : Host := MkHost (MkWorld (sample_db "sent" 1 None) []) [].

Lemma replay_dry_run_witness :
  let r := sample_replay true sample_replay_host in r.1.1 = Ok (MkCounts 2 1 1) /\ r.1.2 = sample_replay_host /\ r.2 = [].
Proof.
  intros r. split; [vm_compute; reflexivity|]. destruct r as [[x h'] l] eqn:E. unfold r, sample_replay in E.
  exact (replay_dry_run _ _ _ _ (sample_flags true) _ _ _ _ _ _ eq_refl E).
Defined.


