(* ===== verification/CoreService.v ===== *)
(** * The core gRPC service: internal/core/service.go

    Every RPC over the PostgreSQL store, which has all the optional interfaces
    the service asks a repository for.  A failed call answers a status code; the
    text that comes with it is not modelled. *)
From stdpp Require Import prelude strings gmap.
From Stdlib Require Import ZArith Lia.
From S2P Require Import Prelude GoStrings Contracts CommandState GoJson Payload Domain TimeText Pagination Postgres PostgresStore PostgresCommands PostgresLists PostgresRefine StoreProperties TelemetryProperties PageProperties Host Kafka Bridge.

Local Open Scope Z_scope.

(** The codes of google.golang.org/grpc/codes; the service answers with nine of
    them, the transport and its peers with others. *)
Inductive code :=
| InvalidArgument | NotFound | AlreadyExists | FailedPrecondition | Aborted
| Unavailable | DeadlineExceeded | Canceled | Internal
| OK | Unknown | PermissionDenied | ResourceExhausted | OutOfRange | Unimplemented | DataLoss | Unauthenticated.

#[export] Instance code_eq_dec : EqDecision code.
Proof. solve_decision. Defined.

Inductive rpc (A : Type) :=
| Reply (a : A)
| Status (c : code).
Arguments Reply {A} a.
Arguments Status {A} c.

(** [mapRepoError] of an error that is not nil *)
Definition mapRepoError (err : error) : code :=
  if errors_is err ErrInvalidPayload || errors_is err ErrInvalidDeviceSecret then InvalidArgument
  else if errors_is err ErrListItemTooLarge then FailedPrecondition
  else if errors_is err ErrInvalidPage then InvalidArgument
  else if errors_is err ErrInvalidEnvelope then InvalidArgument
  else if errors_is err ErrNotFound then NotFound
  else if errors_is err ContextDeadlineExceeded then DeadlineExceeded
  else if errors_is err ContextCanceled then Canceled
  else if errors_is err ErrAcknowledgementConflict then Aborted
  else if errors_is err ErrIdempotencyConflict then AlreadyExists
  else if errors_is err ErrAlreadyExists then AlreadyExists
  else Internal.

(** ** Messages *)
Definition toTimestamp (t : Z) : option Z := if IsZero t then None else Some t.

Record PbDevice := MkPbDevice { pd_TenantId : string; pd_DeviceId : string; pd_ProductId : string; pd_CreatedAt : option Z }.
Record PbDeviceStatus := MkPbDeviceStatus { ps_TenantId : string; ps_DeviceId : string; ps_Online : bool; ps_LastSeenAt : option Z }.
Record PbTelemetry := MkPbTelemetry {
  pt_MsgId : string; pt_TenantId : string; pt_DeviceId : string; pt_Ts : Z; pt_Type : string; pt_Version : string;
  pt_Payload : string; pt_ReceivedAt : option Z }.
Record PbCommand := MkPbCommand {
  pc_Id : string; pc_TenantId : string; pc_DeviceId : string; pc_Status : string; pc_Payload : string;
  pc_CreatedAt : option Z; pc_UpdatedAt : option Z; pc_Result : option CommandResult }.

Definition deviceToPB (device : Device) : PbDevice :=
  MkPbDevice (dev_TenantID device) (dev_DeviceID device) (dev_ProductID device) (toTimestamp (dev_CreatedAt device)).
Definition deviceStatusToPB (status : DeviceStatus) : PbDeviceStatus :=
  MkPbDeviceStatus (sta_TenantID status) (sta_DeviceID status) (sta_Online status) (toTimestamp (sta_LastSeenAt status)).
Definition telemetryToPB (record : TelemetryRecord) : PbTelemetry :=
  MkPbTelemetry (rec_MsgID record) (rec_TenantID record) (rec_DeviceID record) (rec_Ts record) (rec_Type record)
    (rec_Version record) (rec_Payload record) (toTimestamp (rec_ReceivedAt record)).
Definition resultToPB (result : option CommandResult) : option CommandResult := result.
Definition commandToPB (command : Command) : PbCommand :=
  MkPbCommand (cmd_ID command) (cmd_TenantID command) (cmd_DeviceID command) (cmd_Status command) (cmd_Payload command)
    (toTimestamp (cmd_CreatedAt command)) (toTimestamp (cmd_UpdatedAt command)) (resultToPB (cmd_Result command)).

(** The fields of an [IngestTelemetryRequest], or of the record of a
    [RecordTelemetryRequest]. *)
Record TelemetryRequest := MkTelemetryRequest {
  tq_MsgId : string; tq_TenantId : string; tq_DeviceId : string; tq_Ts : Z; tq_Type : string; tq_Version : string; tq_Payload : string }.

Definition envelopeFromPB (req : TelemetryRequest) : Envelope :=
  MkEnvelope (tq_MsgId req) (tq_TenantId req) (tq_DeviceId req) (tq_Ts req) (tq_Type req) (tq_Version req) "" "" "" 0 (tq_Payload req).

(** The same for the record inside a [RecordTelemetryRequest]. *)
Definition envelopeFromRecordPB (rec : TelemetryRequest) : Envelope :=
  MkEnvelope (tq_MsgId rec) (tq_TenantId rec) (tq_DeviceId rec) (tq_Ts rec) (tq_Type rec) (tq_Version rec) "" "" "" 0 (tq_Payload rec).

(** A protobuf timestamp of a request: absent, or what [CheckValid] and
    [AsTime] make of it. *)
Definition listPageFromRPC (size : Z) (cursor tenant device : string) (start end_ : option (option Z))
    (sort kindFilter state kind : string) : result PageRequest :=
  match start, end_ with
  | Some None, _ | _, Some None => Err [ErrInvalidPage]
  | _, _ =>
    let time_of ts := match ts with Some (Some t) => t | _ => zero_time end in
    let present ts := match ts with Some _ => true | None => false end in
    NormalizeListRequest (MkPageRequest size cursor tenant device (time_of start) (present start) (time_of end_) (present end_)
                            kindFilter state sort) kind
  end.

(** ** RPCs *)
Section service.
Context `{Unicode} `{PgEnv} `{CursorEnv} `{KafkaClient}.

(** A method of the repository whose error becomes a status. *)
Definition repo {A B} (op : Op A) (k : A -> B) : IO (rpc B) :=
  r ← on_store op;
  mret (match r with Ok a => Reply (k a) | Err e => Status (mapRepoError e) end).

Definition CreateTenant (id name : string) : IO (rpc Tenant) :=
  if String.eqb id "" || String.eqb name "" then mret (Status InvalidArgument)
  else if negb (IsValidTenantID id) then mret (Status InvalidArgument)
  else if negb (is_ok (ValidateTenantName name)) then mret (Status InvalidArgument)
  else repo (CreateTenantContext (MkTenant id name)) (fun t => t).

Definition ListTenants (size : Z) (cursor : string) : IO (rpc (list Tenant * string)) :=
  match NormalizePageRequest size cursor with
  | Err e => mret (Status (mapRepoError e))
  | Ok _ => repo (ListTenantsPageContext (MkPageRequest size cursor "" "" zero_time false zero_time false "" "" "")) (fun r => r)
  end.

Definition CreateDevice (now : Z) (tenant device product secret : string) : IO (rpc PbDevice) :=
  if String.eqb tenant "" || String.eqb device "" || String.eqb product "" || String.eqb secret "" then mret (Status InvalidArgument)
  else if negb (IsValidTenantID tenant) || negb (IsValidTopicPart device) then mret (Status InvalidArgument)
  else if negb (is_ok (ValidateDeviceSecret secret)) then mret (Status InvalidArgument)
  else if negb (is_ok (ValidateProductID product)) then mret (Status InvalidArgument)
  else repo (CreateDeviceContext now (MkDevice tenant device product secret zero_time)) deviceToPB.

Definition ListDevices (size : Z) (cursor tenant : string) : IO (rpc (list PbDevice * string)) :=
  match NormalizeListRequest (MkPageRequest size cursor tenant "" zero_time false zero_time false "" "" "") "devices" with
  | Err e => mret (Status (mapRepoError e))
  | Ok page => repo (ListDevicesPageContext page) (fun r => (map deviceToPB r.1, r.2))
  end.

Definition GetDevice (tenant device : string) : IO (rpc PbDevice) :=
  match ValidateDeviceIdentity tenant device with
  | Err e => mret (Status (mapRepoError e))
  | Ok _ => repo (GetDeviceContext tenant device) deviceToPB
  end.

Definition GetDeviceStatus (ttl now : Z) (tenant device : string) : IO (rpc PbDeviceStatus) :=
  match ValidateDeviceIdentity tenant device with
  | Err e => mret (Status (mapRepoError e))
  | Ok _ => repo (GetDeviceStatusContext ttl now tenant device) deviceStatusToPB
  end.

Definition ListTelemetry (size : Z) (cursor tenant device : string) (start end_ : option (option Z)) (sort type : string)
    : IO (rpc (list PbTelemetry * string)) :=
  match listPageFromRPC size cursor tenant device start end_ sort type "" "telemetry" with
  | Err e => mret (Status (mapRepoError e))
  | Ok page => repo (ListTelemetryPageContext page) (fun r => (map telemetryToPB r.1, r.2))
  end.

(** [publisher] is nil in a core that does not publish. *)
Definition IngestTelemetry (publisher : option KafkaPublisher) (now received stored_at : Z) (req : TelemetryRequest) : IO (rpc PbTelemetry) :=
  let envelope := envelopeFromPB req in
  match ValidateEnvelope now envelope with
  | Err _ => mret (Status InvalidArgument)
  | Ok _ =>
    r ← on_store (RecordTelemetryContext received stored_at envelope);
    match r with
    | Err e => mret (Status (mapRepoError e))
    | Ok recorded =>
      match publisher with
      | None => mret (Reply (telemetryToPB (recorded_record recorded)))
      | Some p =>
        err ← PublishTelemetry p (recorded_record recorded);
        match err with
        | Some _ => mret (Status Unavailable)
        | None => mret (Reply (telemetryToPB (recorded_record recorded)))
        end
      end
    end
  end.

Definition RecordTelemetry (now received stored_at : Z) (req : TelemetryRequest) : IO (rpc PbTelemetry) :=
  let envelope := envelopeFromRecordPB req in
  match ValidateEnvelope now envelope with
  | Err _ => mret (Status InvalidArgument)
  | Ok _ => repo (RecordTelemetryContext received stored_at envelope) (fun r => telemetryToPB (recorded_record r))
  end.

(** The store dispatches asynchronously, so nothing is published here. *)
Definition CreateCommand (now : Z) (newID : result string) (tenant device key payload : string) : IO (rpc PbCommand) :=
  if String.eqb tenant "" || String.eqb device "" then mret (Status InvalidArgument)
  else if negb (IsValidTenantID tenant) || negb (IsValidTopicPart device) then mret (Status InvalidArgument)
  else if negb (is_ok (ValidateCommandInput tenant device payload)) then mret (Status InvalidArgument)
  else if negb (is_ok (ValidateIdempotencyKey key)) then mret (Status InvalidArgument)
  else repo (CreateCommandWithKey now newID tenant device key payload) commandToPB.

Definition ListCommands (size : Z) (cursor tenant device : string) (start end_ : option (option Z)) (sort state : string)
    : IO (rpc (list PbCommand * string)) :=
  match listPageFromRPC size cursor tenant device start end_ sort "" state "commands" with
  | Err e => mret (Status (mapRepoError e))
  | Ok page =>
    if String.eqb tenant "" then mret (Status InvalidArgument)
    else if negb (IsValidTenantID tenant) then mret (Status InvalidArgument)
    else repo (ListCommandsPageContext page) (fun r => (map commandToPB r.1, r.2))
  end.

Definition GetCommand (id tenant : string) : IO (rpc PbCommand) :=
  if negb (IsValidTenantID tenant) then mret (Status InvalidArgument)
  else
    match ValidateCommandID id with
    | Err e => mret (Status (mapRepoError e))
    | Ok _ =>
      if String.eqb id "" || String.eqb tenant "" then mret (Status InvalidArgument)
      else
        r ← on_store (GetCommandContext id);
        mret (match r with
              | Err e => Status (mapRepoError e)
              | Ok command => if negb (String.eqb (cmd_TenantID command) tenant) then Status NotFound else Reply (commandToPB command)
              end)
    end.

(** [result]: the execution result of the request, if it has one. *)
Definition AckCommand (now : Z) (id tenant device : string) (result : option CommandResult) : IO (rpc PbCommand) :=
  match ValidateDeviceIdentity tenant device with
  | Err e => mret (Status (mapRepoError e))
  | Ok _ =>
    match ValidateCommandID id with
    | Err e => mret (Status (mapRepoError e))
    | Ok _ =>
      match result with
      | None => mret (Status InvalidArgument)
      | Some input =>
        match NormalizeCommandResult input with
        | Err e => mret (Status (mapRepoError e))
        | Ok normalized => repo (AckCommandResultContext now id tenant device normalized) commandToPB
        end
      end
    end
  end.

(** ** Ingestion *)
Lemma map_repo_not_unavailable e : mapRepoError e <> Unavailable.
Proof. unfold mapRepoError. repeat case_match; done. Qed.

Definition telemetry_stored (env : Envelope) (w : World) : Prop :=
  is_Some (telemetry_records (committed w) !! (env_MsgID env, env_TenantID env, env_DeviceID env)).


(** Reading a command is confined to its tenant: a reply is always a command
    of the tenant that asks, and when the database answers, a command of another
    tenant gets the same code as one that does not exist. *)
Theorem get_command_isolated id tenant h :
  match GetCommand id tenant h with
  | (Reply pb, h', l) => pc_Id pb = id /\ pc_TenantId pb = tenant /\ committed (h_world h') = committed (h_world h)
  | _ => True
  end
  /\ (IsValidTenantID tenant = true -> is_ok (ValidateCommandID id) = true -> id <> "" -> tenant <> "" ->
      faults (h_world h) = [] ->
      match commands (committed (h_world h)) !! id with
      | None => (GetCommand id tenant h).1.1 = Status NotFound
      | Some row => cr_tenant_id row <> tenant -> is_ok (scanCommandRow id row) = true ->
                    (GetCommand id tenant h).1.1 = Status NotFound
      end).
Proof.
  unfold GetCommand. split.
  - destruct (negb (IsValidTenantID tenant)); [done|]. destruct (ValidateCommandID id); [|done]. destruct (_ || _); [done|].
    match goal with |- context [match ?m with _ => _ end] => destruct m as [[r h'] l] eqn:Hrun end.
    apply io_bind_inv in Hrun as (rr & h1 & l1 & l2 & [Hop ->]%on_store_inv & (<- & -> & ->)%io_ret_inv & ->).
    destruct rr as [cmd|]; [|done]. destruct (String.eqb_spec (cmd_TenantID cmd) tenant) as [<-|]; [|done]. simpl.
    unfold GetCommandContext, mbind, op_bind in Hop. destruct (db_exec _ _) as [[row|] w1] eqn:Hq; [|done].
    apply query_ok_rows in Hq as [-> Hw]. destruct (commands _ !! id) as [row|]; [|done]. unfold check in Hop. injection Hop as Hscan <-.
    by apply scan_row_fields in Hscan as (-> & -> & _).
  - intros Ht Hid Hne Hnt Hf. rewrite Ht. destruct (ValidateCommandID id); [|done].
    rewrite !(proj2 (String.eqb_neq _ _)) by done. cbn [negb orb].
    unfold mbind, io_bind, on_store, GetCommandContext, mbind, op_bind, sql_get_command. rewrite exec_query by done.
    destruct (commands (committed (h_world h)) !! id) as [row|]; [|done].
    intros Hforeign Hs. unfold check. destruct (scanCommandRow id row) as [cmd|] eqn:Hscan; [|done].
    apply scan_row_fields in Hscan as (_ & Hct & _). simpl. by rewrite Hct, (proj2 (String.eqb_neq _ _)).
Qed.
End service.

(** ** Examples *)
#[local] Existing Instance sample_unicode.
#[local] Existing Instance sample_pg.
#[local] Existing Instance sample_client.

Definition sample_ingest : TelemetryRequest := MkTelemetryRequest "m9" "acme" "d1" 1700000000000 "temp" "v1" "{}".
Definition sample_core_host (outcomes : list (option error)) : Host :=
  MkHost (MkWorld (sample_db CommandStatusSent 1 None) []) outcomes.


Lemma get_command_isolated_witness : (GetCommand "c1" "rival" (sample_core_host [])).1.1 = Status NotFound.
Proof.
  refine (proj2 (get_command_isolated "c1" "rival" (sample_core_host [])) eq_refl eq_refl _ _ eq_refl _ eq_refl);
    vm_compute; discriminate.
Defined.
