(* ===== verification/Pipeline.v ===== *)
(** * The services together

    The core RPCs, the dispatcher, the device worker, the MQTT bridge and the
    replay tool over one PostgreSQL: a run of the system is any sequence of
    their steps, with any messages from Kafka and MQTT, any failures of the
    database and any outcomes of the actions.  A step is one handler to its
    end; two handlers meet only in the database, whose transactions are
    atomic. *)
From stdpp Require Import prelude strings gmap sorting.
From Stdlib Require Import ZArith Lia.
From S2P Require Import Prelude GoStrings Contracts CommandState GoJson Base64 Payload Domain Pagination Postgres PostgresStore PostgresCommands Lifecycle PostgresRefine StoreProperties CommandProperties Host StoreEffects Kafka Bridge TDengine Worker WorkerProperties Acks Dispatcher DlqReplay CoreService.

Local Open Scope Z_scope.

(** ** Steps *)
Inductive SysStep :=
| RpcCreateTenant (id name : string)
| RpcCreateDevice (now : Z) (tenant device product secret : string)
| RpcCreateCommand (now : Z) (newID : result string) (tenant device key payload : string)
| RpcAckCommand (now : Z) (id tenant device : string) (input : option CommandResult)
| RpcIngestTelemetry (publisher : option KafkaPublisher) (now received stored_at : Z) (req : TelemetryRequest)
| RpcRecordTelemetry (now received stored_at : Z) (req : TelemetryRequest)
| RunDispatcher (topic : string) (d : CommandDispatcher) (acts : list Activity)
| WorkerCommand (w : Worker) (ck : Clock) (msg : KMessage)
| WorkerTelemetry (w : Worker) (ck : Clock) (msg : KMessage)
| WorkerCompensate (w : Worker) (now afterID : Z) (cancelled : list bool)
| WorkerAck (w : Worker) (now : Z) (stopping : bool) (msg : MqttMessage)
| BridgeMessage (publisher : KafkaPublisher) (dlq : option string) (now received stored_at : Z) (stopping slot : bool) (msg : MqttMessage)
| ReplayDeadLetters (fl : ReplayFlags) (fs : list ReplayFetch).

Definition io_exec {A} (m : IO A) (h : Host) : Host * list Event := let '(_, h', l) := m h in (h', l).

Section system.
Context `{Unicode} `{PgEnv} `{CursorEnv} `{KafkaClient} `{TaosDriver}.
Context (unmarshal_telemetry : string -> result TelemetryRecord) (unmarshal_command : string -> result Command)
        (unmarshal_envelope : string -> result Envelope) (unmarshal_dead_letter : string -> result DeadLetter)
        (decode_ack : string -> result CommandAckMessage).

Definition sys_exec (s : SysStep) (h : Host) : Host * list Event :=
  match s with
  | RpcCreateTenant id name => io_exec (CreateTenant id name) h
  | RpcCreateDevice now t d p sec => io_exec (CreateDevice now t d p sec) h
  | RpcCreateCommand now newID t d k p => io_exec (CoreService.CreateCommand now newID t d k p) h
  | RpcAckCommand now id t d input => io_exec (AckCommand now id t d input) h
  | RpcIngestTelemetry pub now received at_ req => io_exec (IngestTelemetry pub now received at_ req) h
  | RpcRecordTelemetry now received at_ req => io_exec (RecordTelemetry now received at_ req) h
  | RunDispatcher topic d acts =>
    let '(published, w) := dispatcher_run d acts (h_world h) in
    (MkHost w (h_outcomes h), map (fun c => (KafkaWrite topic (cmd_DeviceID c) (VCommand c), true)) published)
  | WorkerCommand w ck msg => io_exec (consume_command unmarshal_command w ck msg) h
  | WorkerTelemetry w ck msg => io_exec (consume_telemetry unmarshal_telemetry w ck msg) h
  | WorkerCompensate w now afterID cancelled => io_exec (compensate_tick w now afterID cancelled) h
  | WorkerAck w now stopping msg => io_exec (handleAckMessage decode_ack w now stopping msg) h
  | BridgeMessage pub dlq now received at_ stopping slot msg =>
    io_exec (bridge_callback unmarshal_envelope (MkMQTTBridge pub dlq (Some (postgres_inbox received at_))) now stopping slot msg) h
  | ReplayDeadLetters fl fs =>
    io_exec (replay_loop unmarshal_dead_letter unmarshal_telemetry unmarshal_envelope decode_ack fl fs (MkCounts 0 0 0)) h
  end.

(** What happened, step by step. *)
Fixpoint sys_run (ss : list SysStep) (h : Host) : Host * list (SysStep * list Event) :=
  match ss with
  | [] => (h, [])
  | s :: ss' =>
    let '(h, l) := sys_exec s h in
    let '(h, tr) := sys_run ss' h in
    (h, (s, l) :: tr)
  end.

(** ** The calls a step may make *)
Definition telemetry_calls (c : StoreCall) : Prop :=
  match c with CallRestoreTelemetry _ _ | CallMarkWritten _ _ _ => True | _ => False end.
Definition delivery_calls (c : StoreCall) : Prop :=
  match c with CallMarkSent _ _ _ | CallRequeue _ _ _ => True | _ => False end.
Definition dispatch_calls (c : StoreCall) : Prop :=
  match c with
  | CallClaim _ _ _ _ | CallMarkPublished _ _ _ | CallReschedule _ _ _ _ | CallExpire _ _ _ | CallRecover _ _ _ _ _ => True
  | _ => False
  end.

Definition step_calls (s : SysStep) (c : StoreCall) : Prop :=
  match s with
  | RpcCreateTenant id name => c = CallCreateTenant (MkTenant id name)
  | RpcCreateDevice now t d p sec => c = CallCreateDevice now (MkDevice t d p sec zero_time)
  | RpcCreateCommand now newID t d k p => c = CallCreateCommand now newID t d k p
  | RpcAckCommand now id t d input =>
    exists i n, input = Some i /\ NormalizeCommandResult i = Ok n /\ c = CallAck now id t d n
  | RpcIngestTelemetry _ _ _ _ _ | RpcRecordTelemetry _ _ _ _ | BridgeMessage _ _ _ _ _ _ _ _ =>
    exists now rec, c = CallRestoreTelemetry now rec
  | RunDispatcher _ _ _ => dispatch_calls c
  | WorkerCommand _ _ _ => delivery_calls c
  | WorkerTelemetry _ _ _ | WorkerCompensate _ _ _ _ => telemetry_calls c
  | WorkerAck _ now _ msg =>
    exists ack t d, DecodeRequestJSON decode_ack (mm_Payload msg) = Ok ack
      /\ ParseDeviceTopic (mm_Topic msg) = Some (t, d, TopicSuffixAck)
      /\ c = CallAck now (am_CommandID ack) t d (ack_result ack)
  | ReplayDeadLetters _ fs =>
    exists msg now item value ack t d n, FetchedRecord msg now ∈ fs /\ unmarshal_dead_letter (km_Value msg) = Ok item
      /\ dl_Stage item = StageCommandAck /\ DecodeString StdEncoding (dl_ValueBase64 item) = Some value
      /\ DecodeRequestJSON decode_ack value = Ok ack /\ ParseDeviceTopic (dl_SourceTopic item) = Some (t, d, TopicSuffixAck)
      /\ NormalizeCommandResult (ack_result ack) = Ok n /\ c = CallAck now (am_CommandID ack) t d n
  end.

(** Everything but a command for a device. *)
Definition no_downlink (a : Action) : Prop := is_publish a = false.

#[local] Hint Extern 1 (no_downlink _) => reflexivity : effects.

(** *** Actions the services share *)
Lemma write_attempts_makes P a delays err : no_downlink a -> makes P no_downlink (write_attempts a delays err).
Proof. intros Ha. revert err. induction delays as [|d delays IH]; intros err; simpl; effect_steps. Qed.
#[local] Hint Resolve write_attempts_makes : effects.

Lemma publish_telemetry_makes P p rec : makes P no_downlink (PublishTelemetry p rec).
Proof. unfold PublishTelemetry, writeKafkaMessageWithRetry, inc. effect_steps. Qed.

Lemma publish_dead_letter_makes P writer now msg stage cause : makes P no_downlink (publishDeadLetter writer now msg stage cause).
Proof. unfold publishDeadLetter, writeKafkaMessageWithRetry, inc. effect_steps. Qed.
#[local] Hint Resolve publish_telemetry_makes publish_dead_letter_makes : effects.

Lemma commit_after_dead_letter_makes P writer now msg stage cause :
  makes P no_downlink (commitAfterDeadLetter writer now msg stage cause).
Proof. unfold commitAfterDeadLetter. effect_steps. Qed.

Lemma td_write_makes P td rec : makes P no_downlink (WriteTelemetryContext td rec).
Proof. unfold WriteTelemetryContext, writeRecord, inc. effect_steps. Qed.
#[local] Hint Resolve commit_after_dead_letter_makes td_write_makes : effects.

(** *** The handlers *)
Lemma rpc_repo_makes {A B} P E (op : Op A) (k : A -> B) c : (forall w, (op w).2 = store_call c w) -> P c -> makes P E (repo op k).
Proof. intros Hop Hc. unfold repo. effect_steps. by eapply makes_call. Qed.

Lemma mark_written_makes P rec :
  P (CallMarkWritten (rec_MsgID rec) (rec_TenantID rec) (rec_DeviceID rec)) -> makes P no_downlink (markTelemetryWritten rec).
Proof. intros Hc. by eapply (makes_call _ _ _ (CallMarkWritten _ _ _)). Qed.

Lemma consume_telemetry_makes w ck msg : makes telemetry_calls no_downlink (consume_telemetry unmarshal_telemetry w ck msg).
Proof.
  assert (Hm : forall rec, makes telemetry_calls no_downlink (markTelemetryWritten rec)) by (intros; by apply mark_written_makes).
  assert (Hsink : forall s, makes telemetry_calls no_downlink (telemetry_sink w ck msg s)).
  { intros s. unfold telemetry_sink, telemetry_done, worker_metric, inc. effect_steps. }
  unfold consume_telemetry, worker_metric, inc. effect_steps. by eapply (makes_call _ _ _ (CallRestoreTelemetry _ _)).
Qed.

Lemma compensate_makes w now afterID cancelled : makes telemetry_calls no_downlink (compensate_tick w now afterID cancelled).
Proof.
  assert (Hm : forall rec, makes telemetry_calls no_downlink (markTelemetryWritten rec)) by (intros; by apply mark_written_makes).
  assert (Hrows : forall rows, makes telemetry_calls no_downlink (compensateTelemetryRows w rows)).
  { induction rows as [|[rec c] rows IH]; simpl; unfold worker_metric, inc; effect_steps. }
  unfold compensate_tick. effect_steps. apply makes_read. unfold ListUnwrittenTelemetry. refine_steps.
Qed.

Lemma get_command_reads id : op_rel eq (GetCommandForDelivery id).
Proof. unfold GetCommandForDelivery, GetCommandContext, sql_get_command. refine_steps. Qed.

Lemma consume_command_makes w ck msg : makes delivery_calls (fun _ => True) (consume_command unmarshal_command w ck msg).
Proof.
  assert (Hdl : forall stage e, makes delivery_calls (fun _ => True) (commitAfterDeadLetter (wk_dlqWriter w) (ck_now ck) msg stage e)).
  { intros. by eapply makes_mono; [| |apply commit_after_dead_letter_makes]. }
  unfold consume_command, commandForDelivery, deliver_command, worker_metric, inc. effect_steps.
  - apply makes_read, get_command_reads.
  - by eapply (makes_call _ _ _ (CallRequeue _ _ _)).
  - by eapply (makes_call _ _ _ (CallMarkSent _ _ _)).
Qed.

(** The identity checks of an acknowledgement. *)
Lemma ack_topic_ok topic (ack : CommandAckMessage) :
  match ParseDeviceTopic topic with
  | Some (tenant, device, suffix) =>
    negb (String.eqb suffix TopicSuffixAck) || negb (String.eqb tenant (am_TenantID ack))
    || negb (String.eqb device (am_DeviceID ack)) || String.eqb (am_CommandID ack) ""
  | None => true
  end = false ->
  ParseDeviceTopic topic = Some (am_TenantID ack, am_DeviceID ack, TopicSuffixAck).
Proof.
  destruct (ParseDeviceTopic topic) as [[[t d] sf]|]; [|done].
  by intros [[[->%negb_false_iff%String.eqb_eq ->%negb_false_iff%String.eqb_eq]%orb_false_iff ->%negb_false_iff%String.eqb_eq]%orb_false_iff _]%orb_false_iff.
Qed.

Lemma store_ack_makes (P : StoreCall -> Prop) now ack n left_ err :
  P (CallAck now (am_CommandID ack) (am_TenantID ack) (am_DeviceID ack) (ack_result ack)) ->
  makes P no_downlink (store_ack now ack n left_ err).
Proof.
  intros Hc. assert (Ha : makes P no_downlink (applyAck now ack)).
  { unfold applyAck. effect_steps. by eapply (makes_call _ _ _ (CallAck _ _ _ _ _)). }
  revert n err. induction left_ as [|left' IH]; intros n err; cbn [store_ack]; effect_steps.
Qed.

Lemma handle_ack_makes w now stopping msg :
  makes (step_calls (WorkerAck w now stopping msg)) no_downlink (handleAckMessage decode_ack w now stopping msg).
Proof.
  assert (Hr : forall P, makes P no_downlink rejectAck) by (intros; unfold rejectAck, inc; effect_steps).
  unfold handleAckMessage. destruct stopping; [apply makes_ret|].
  destruct (DecodeRequestJSON _ _) as [ack|] eqn:Hdec; [|apply Hr].
  match goal with |- makes _ _ (if ?g then _ else _) => destruct g eqn:Hg end; [apply Hr|]. apply ack_topic_ok in Hg.
  destruct (NormalizeCommandResult _); [|apply Hr]. unfold inc. effect_steps. apply store_ack_makes. by exists ack, (am_TenantID ack), (am_DeviceID ack).
Qed.

Lemma bridge_makes (P : StoreCall -> Prop) pub dlq received at_ now stopping slot msg :
  (forall rec, P (CallRestoreTelemetry at_ rec)) ->
  makes P no_downlink
    (bridge_callback unmarshal_envelope (MkMQTTBridge pub dlq (Some (postgres_inbox received at_))) now stopping slot msg).
Proof.
  intros HP. set (b := MkMQTTBridge _ _ _).
  assert (Hdl : forall stage e durable, makes P no_downlink (deadLetter b now msg stage e durable)).
  { intros. unfold deadLetter, bridge_fail, inc. effect_steps. }
  assert (Hpub : forall rec durable, makes P no_downlink (publish_record b now msg rec durable)).
  { intros. unfold publish_record, inc. effect_steps. }
  unfold bridge_callback, processMessage. simpl. effect_steps. by eapply (makes_call _ _ _ (CallRestoreTelemetry _ _)).
Qed.

Lemma replay_loop_makes fl fs fs0 c :
  (forall f, f ∈ fs -> f ∈ fs0) ->
  makes (step_calls (ReplayDeadLetters fl fs0)) no_downlink
    (replay_loop unmarshal_dead_letter unmarshal_telemetry unmarshal_envelope decode_ack fl fs c).
Proof.
  revert c. induction fs as [|[msg now|ov e] fs IH]; intros c Hin; cbn [replay_loop]; [effect_steps| |effect_steps].
  assert (Hrest : forall c, makes (step_calls (ReplayDeadLetters fl fs0)) no_downlink
    (replay_loop unmarshal_dead_letter unmarshal_telemetry unmarshal_envelope decode_ack fl fs c)).
  { intros c'. apply IH. intros f Hf. apply Hin. by right. }
  assert (Hcommit : forall b v, makes (step_calls (ReplayDeadLetters fl fs0)) no_downlink (then_commit msg b v)).
  { intros. unfold then_commit, commitReplay. effect_steps. }
  destruct (negb _); [apply makes_ret|]. apply makes_bind; [|intros r; destruct r; [apply Hrest|apply makes_ret]].
  unfold replay_record. destruct (unmarshal_dead_letter (km_Value msg)) as [item|] eqn:Hitem; [|apply Hcommit].
  effect_steps. unfold replay_item, replayAck. effect_steps.
  eapply (makes_call _ _ _ (CallAck _ _ _ _ _)); [done|].
  do 8 eexists. split_and!; [apply Hin; left|exact Hitem|by apply String.eqb_eq|done|done|by apply ack_topic_ok|done|done].
Qed.

Lemma dispatch_loop_effect d fuel its w :
  store_effect dispatch_calls (committed w) (committed (dispatch_loop d fuel its w).2).
Proof.
  revert its w. induction fuel as [|fuel IH]; intros [|it its] w; simpl; try apply rtc_refl.
  destruct (it_cancelled it); [apply rtc_refl|].
  set (c := CallClaim (se_locked (it_claim it)) (se_dbnow (it_claim it)) 1 (disp_lease d)).
  pose proof (store_effect_call dispatch_calls c w I) as Heff1. simpl in Heff1.
  destruct (ClaimCommandsForDispatchContext _ _ _ _ w) as [r w1]. simpl in Heff1.
  destruct r as [[|cmd cmds]|e]; [done| |done]. destruct (it_publish it).
  - pose proof (store_effect_call dispatch_calls (CallReschedule (se_dbnow (it_mark it)) (cmd_ID cmd) (cmd_DispatchAttempts cmd)
      (commandRetryBackoff (cmd_DispatchAttempts cmd))) w1 I) as Heff2. simpl in Heff2.
    destruct (RescheduleCommandContext _ _ _ _ w1) as [x w2]. simpl in Heff2. etrans; [exact Heff1|]. etrans; [exact Heff2|apply IH].
  - pose proof (store_effect_call dispatch_calls (CallMarkPublished (se_dbnow (it_mark it)) (cmd_ID cmd) (cmd_DispatchAttempts cmd)) w1 I) as Heff2.
    simpl in Heff2. destruct (MarkCommandPublishedContext _ _ _ w1) as [x w2]. simpl in Heff2.
    pose proof (IH its w2) as Heff3. destruct (dispatch_loop d fuel its w2) as [p w3]. simpl in *. etrans; [exact Heff1|]. by etrans.
Qed.

Lemma dispatcher_effect d acts w : store_effect dispatch_calls (committed w) (committed (dispatcher_run d acts w).2).
Proof.
  revert w. induction acts as [|[e1 e2 e3 n1 n2|its] acts IH]; intros w; simpl; [apply rtc_refl| |].
  - etrans; [|apply IH]. unfold Dispatcher.scanCommands. simpl.
    pose proof (store_effect_call dispatch_calls (CallRecover (se_locked e1) (se_locked e2) (se_dbnow e1) (se_dbnow e2) (n1 - disp_timeout d)) w I) as Heff1.
    simpl in Heff1. destruct (RecoverStaleCommandsContext _ _ _ _ _ _ w) as [x w1]. simpl in Heff1. etrans; [exact Heff1|].
    pose proof (store_effect_call dispatch_calls (CallExpire (se_locked e3) n2 (disp_timeout d)) w1 I) as Heff2.
    simpl in Heff2. by destruct (ExpireCommandsContext _ _ _ w1).
  - pose proof (dispatch_loop_effect d (disp_batchSize d) its w) as Heff1. unfold dispatchPending.
    destruct (dispatch_loop d _ its w) as [p w1]. simpl in Heff1. etrans; [exact Heff1|].
    pose proof (IH w1) as Heff2. by destruct (dispatcher_run d acts w1).
Qed.

(** ** What each service may do

    The database effect of a step is one of the calls its service is there to
    make, and only the command consumer publishes to a device. *)
Lemma io_exec_makes {A} P E (m : IO A) h h' l :
  makes P E m -> io_exec m h = (h', l) ->
  store_effect P (committed (h_world h)) (committed (h_world h')) /\ Forall (fun e : Event => E e.1) l.
Proof. intros Hm. unfold io_exec. destruct (m h) as [[a h1] l1] eqn:E1. intros [= <- <-]. by eapply Hm. Qed.

Definition step_actions (s : SysStep) (a : Action) : Prop :=
  match s with WorkerCommand _ _ _ => True | _ => no_downlink a end.

Lemma sys_exec_makes s h h' l :
  sys_exec s h = (h', l) ->
  store_effect (step_calls s) (committed (h_world h)) (committed (h_world h')) /\ Forall (fun e : Event => step_actions s e.1) l.
Proof.
  destruct s as [id name|now t d p sec|now newID t d k p|now id t d input|pub now rc at_ req|now rc at_ req|topic d acts
    |w ck msg|w ck msg|w now after cs|w now st msg|pub dlq now rc at_ st slot msg|fl fs];
    cbn [sys_exec]; try (apply (io_exec_makes _ (step_actions _)); cbn [step_actions step_calls]).
  - unfold CreateTenant. effect_steps. by eapply (rpc_repo_makes _ _ _ _ (CallCreateTenant _)).
  - unfold CreateDevice. effect_steps. by eapply (rpc_repo_makes _ _ _ _ (CallCreateDevice _ _)).
  - unfold CoreService.CreateCommand. effect_steps. by eapply (rpc_repo_makes _ _ _ _ (CallCreateCommand _ _ _ _ _ _)).
  - unfold AckCommand. effect_steps. eapply (rpc_repo_makes _ _ _ _ (CallAck _ _ _ _ _)); [done|]. by do 2 eexists.
  - unfold IngestTelemetry. effect_steps. eapply (makes_call _ _ _ (CallRestoreTelemetry _ _)); [done|]. by do 2 eexists.
  - unfold RecordTelemetry. effect_steps. eapply (rpc_repo_makes _ _ _ _ (CallRestoreTelemetry _ _)); [done|]. by do 2 eexists.
  - pose proof (dispatcher_effect d acts (h_world h)) as Heff. destruct (dispatcher_run d acts (h_world h)) as [p w].
    intros [= <- <-]. split; [exact Heff|]. apply Forall_forall. intros e (c & -> & _)%list_elem_of_fmap. done.
  - apply consume_command_makes.
  - apply consume_telemetry_makes.
  - apply compensate_makes.
  - apply handle_ack_makes.
  - apply bridge_makes. intros rec. by do 2 eexists.
  - by apply replay_loop_makes.
Qed.

(** ** Runs *)
Definition run_calls (ss : list SysStep) (c : StoreCall) : Prop := exists s, s ∈ ss /\ step_calls s c.

Lemma sys_run_effect ss h h' tr :
  sys_run ss h = (h', tr) -> store_effect (run_calls ss) (committed (h_world h)) (committed (h_world h')).
Proof.
  revert h tr. induction ss as [|s ss IH]; intros h tr; simpl; [intros [= <- _]; apply rtc_refl|].
  destruct (sys_exec s h) as [h1 l] eqn:E1. destruct (sys_run ss h1) as [h2 tr2] eqn:E2. intros [= <- _].
  apply sys_exec_makes in E1 as [Heff _]. etrans.
  - eapply store_effect_mono; [|exact Heff]. intros c Hc. exists s. split; [left|done].
  - eapply store_effect_mono; [|by eapply IH]. intros c (s' & Hin & Hc). exists s'. split; [by right|done].
Qed.

(** The run up to a step, the step, and the run after it. *)
Lemma sys_run_split ss h h' tr i s l :
  sys_run ss h = (h', tr) -> tr !! i = Some (s, l) ->
  exists hi hj tr1, sys_run (take i ss) h = (hi, tr1) /\ ss !! i = Some s
    /\ sys_exec s hi = (hj, l) /\ sys_run (drop (S i) ss) hj = (h', drop (S i) tr).
Proof.
  revert ss h tr. induction i as [|i IH]; intros [|s0 ss] h tr; simpl; try (by intros [= <- <-]);
    destruct (sys_exec s0 h) as [h1 l1] eqn:E1; destruct (sys_run ss h1) as [h2 tr2] eqn:E2; intros [= <- <-].
  - intros [= <- <-]. exists h, h1, []. by rewrite !drop_0.
  - intros Hi. destruct (IH _ _ _ E2 Hi) as (hi & hj & tr1 & Hr & ? & ? & ?). exists hi, hj, ((s0, l1) :: tr1).
    by rewrite Hr.
Qed.

Lemma empty_no_command id row : commands empty_db !! id <> Some row.
Proof. simpl. by rewrite lookup_empty. Qed.

(** Only the command consumer publishes to a device, and what it publishes is
    what the tables hold. *)
Lemma downlink_stored s h h' l topic dl b :
  sys_exec s h = (h', l) -> (MqttPublish topic dl, b) ∈ l ->
  exists row, commands (committed (h_world h)) !! cd_ID dl = Some row
    /\ cr_tenant_id row = cd_TenantID dl /\ cr_device_id row = cd_DeviceID dl /\ cr_payload row = cd_Payload dl
    /\ BuildCommandTopic (cd_TenantID dl) (cd_DeviceID dl) = Ok topic
    /\ (cr_status row = CommandStatusCreated \/ cr_status row = CommandStatusPublished).
Proof.
  intros Hexec Hin. destruct (sys_exec_makes _ _ _ _ Hexec) as [_ Hact]. rewrite Forall_forall in Hact.
  specialize (Hact _ Hin). simpl in Hact. destruct s as [| | | | | | |w ck msg| | | | |]; try done. cbn [sys_exec] in Hexec.
  unfold io_exec in Hexec. destruct (consume_command _ w ck msg h) as [[r h1] l1] eqn:Hrun. injection Hexec as <- <-.
  destruct (consume_command_publishes _ _ _ _ _ _ _ _ _ _ _ Hrun Hin) as (event & cmd & _ & (_ & row & Hrow & Hscan & _ & _ & Hst) & Ht & ->).
  apply result_bind_ok in Hscan as (res & _ & [= <-]). exists row. by split_and!.
Qed.

(** C2: no command is ever forged on its way to a device: over any run of all
    the services together, starting from empty tables, with any contents of
    Kafka and of MQTT, any failures and any restarts, every message a device is
    sent was created earlier by a CreateCommand request for that tenant and that
    device with that identifier, carries the payload of that request as the
    database keeps it, and goes out on the command topic of that device. *)
Theorem delivery_authentic ss fs os h' tr i s l topic dl b :
  sys_run ss (MkHost (MkWorld empty_db fs) os) = (h', tr) ->
  tr !! i = Some (s, l) -> (MqttPublish topic dl, b) ∈ l ->
  BuildCommandTopic (cd_TenantID dl) (cd_DeviceID dl) = Ok topic
  /\ exists j now key payload, (j < i)%nat
       /\ ss !! j = Some (RpcCreateCommand now (Ok (cd_ID dl)) (cd_TenantID dl) (cd_DeviceID dl) key payload)
       /\ stored_payload payload (cd_Payload dl).
Proof.
  intros Hrun Hi Hin. destruct (sys_run_split _ _ _ _ _ _ _ Hrun Hi) as (hi & hj & tr1 & Hpre & _ & Hexec & _).
  destruct (downlink_stored _ _ _ _ _ _ _ Hexec Hin) as (row & Hrow & Ht & Hd & Hp & Htopic & _). split; [done|].
  destruct (effect_origin _ _ _ _ _ (sys_run_effect _ _ _ _ Hpre) Hrow) as [[(r0 & Hr0 & _)|Hc] _];
    [by apply empty_no_command in Hr0|].
  destruct Hc as (now & key & payload & (s' & Hs' & Hcall) & Hpay). rewrite Ht, Hd in Hcall. rewrite Hp in Hpay.
  apply list_elem_of_lookup in Hs' as [j Hj]. apply lookup_take_Some in Hj as [Hj Hlt].
  exists j, now, key, payload. split_and!; [done| |done].
  destruct s'; simpl in Hcall; try done; try (destruct Hcall as (? & ? & ?); done); try (by injection Hcall as <- <- <- <- <- <-);
    naive_solver.
Qed.

Lemma confirmed_past_delivery w ck msg h h' l topic dl :
  sys_exec (WorkerCommand w ck msg) h = (h', l) -> (MqttPublish topic dl, true) ∈ l -> (CommitOffset msg, true) ∈ l ->
  exists row, commands (committed (h_world h')) !! cd_ID dl = Some row /\ past_delivery row.
Proof.
  cbn [sys_exec]. unfold io_exec. destruct (consume_command _ w ck msg h) as [[r h1] l1] eqn:Hrun. intros [= <- <-] Hpub Hcommit.
  pose proof (consume_command_commits _ _ _ _ _ _ _ _ Hrun) as Hc. destruct r as [e|].
  { exfalso. unfold commits_once in Hc. assert (0 < count is_commit l1)%nat by (apply count_pos; by exists (CommitOffset msg)). lia. }
  destruct (consume_command_sent_before_commit _ _ _ _ _ _ _ _ _ Hrun Hpub) as (row & Hrow & Hst & _).
  exists row. split; [done|]. by exists Sent.
Qed.


(** An acknowledgement of a command of a device, with the result it leaves:
    the API's, one on the device's own topic, or the replay of one that came on
    it. *)
Definition acknowledges (s : SysStep) (id t d res : string) : Prop :=
  match s with
  | RpcAckCommand _ id' t' d' (Some input) =>
    id' = id /\ t' = t /\ d' = d /\ exists n, NormalizeCommandResult input = Ok n /\ result_text n res
  | WorkerAck _ _ _ msg =>
    ParseDeviceTopic (mm_Topic msg) = Some (t, d, TopicSuffixAck)
    /\ exists ack, DecodeRequestJSON decode_ack (mm_Payload msg) = Ok ack /\ am_CommandID ack = id /\ result_text (ack_result ack) res
  | ReplayDeadLetters _ fs =>
    exists msg now item value ack n, FetchedRecord msg now ∈ fs /\ unmarshal_dead_letter (km_Value msg) = Ok item
      /\ dl_Stage item = StageCommandAck /\ ParseDeviceTopic (dl_SourceTopic item) = Some (t, d, TopicSuffixAck)
      /\ DecodeString StdEncoding (dl_ValueBase64 item) = Some value /\ DecodeRequestJSON decode_ack value = Ok ack
      /\ am_CommandID ack = id /\ NormalizeCommandResult (ack_result ack) = Ok n /\ result_text n res
  | _ => False
  end.

Lemma ack_call_acknowledges s now id t d input res :
  step_calls s (CallAck now id t d input) -> result_text input res -> acknowledges s id t d res.
Proof.
  intros Hc Hres. destruct s; simpl in Hc; try done; try (destruct Hc as (? & ? & ?); done).
  - destruct Hc as (i & n & -> & Hn & [= -> -> -> -> ->]). simpl. eauto 10.
  - destruct Hc as (ack & t0 & d0 & Hdec & Htopic & [= -> -> -> -> ->]). simpl. eauto.
  - destruct Hc as (msg & now0 & item & value & ack & t0 & d0 & n & ? & ? & ? & ? & ? & ? & ? & [= -> -> -> -> ->]). simpl.
    exists msg, now0, item, value, ack, n. by split_and!.
Qed.

(** C6: no result is ever forged: over any run of all the services, the result
    a command ends up with came from an acknowledgement that names the command
    and is for its own tenant and device: one of the API, one received on the
    acknowledgement topic of that very device, or the replay of a dead letter of
    one received there. *)
Theorem result_authentic ss fs os h' tr id row res :
  sys_run ss (MkHost (MkWorld empty_db fs) os) = (h', tr) ->
  commands (committed (h_world h')) !! id = Some row -> cr_result row = Some res ->
  exists s, s ∈ ss /\ acknowledges s id (cr_tenant_id row) (cr_device_id row) res.
Proof.
  intros Hrun Hrow Hres. destruct (effect_origin _ _ _ _ _ (sys_run_effect _ _ _ _ Hrun) Hrow) as [_ Hor].
  destruct (Hor _ Hres) as [(r0 & Hr0 & _)|(now & input & (s & Hs & Hc) & Htext)]; [by apply empty_no_command in Hr0|].
  exists s. split; [done|]. by eapply ack_call_acknowledges.
Qed.
End system.

(** ** A run of the system *)
#[local] Existing Instance sample_unicode.
#[local] Existing Instance sample_pg.
#[local] Existing Instance sample_client.
#[local] Existing Instance sample_taos.
#[local] Existing Instance PageProperties.sample_cursor.

Definition sample_decode_command (raw : string) : result Command :=
  if String.eqb raw "" then Err [Opaque "json"] else Ok (MkCommand raw "acme" "d1" CommandStatusCreated "{}" 10 100 1 zero_time None).
Definition sample_message (id : string) : KMessage := MkKMessage "iot.command" 0 7 "d1" id 200.
Definition sample_iteration (at_ : Z) : Iteration := MkIteration false (MkStoreEnv at_ ∅) None (MkStoreEnv (at_ + 1) ∅).

(** Two commands of one device are created, dispatched and delivered; Kafka
    redelivers the first; the device answers it. *)
Definition sample_steps : list SysStep :=
  [RpcCreateTenant "acme" "Acme";
   RpcCreateDevice 1 "acme" "d1" "p1" "s3cret";
   RpcCreateCommand 10 (Ok "c1") "acme" "d1" "" "{}";
   RpcCreateCommand 20 (Ok "c2") "acme" "d1" "" "{}";
   RunDispatcher "iot.command" (NewCommandDispatcher 0) [Dispatch [sample_iteration 100; sample_iteration 102]];
   WorkerCommand sample_worker (MkClock 200 200) (sample_message "c1");
   WorkerCommand sample_worker (MkClock 210 210) (sample_message "c1");
   WorkerCommand sample_worker (MkClock 220 220) (sample_message "c2");
   WorkerAck sample_worker 300 false sample_ack_msg].

Definition sample_sys : Host * list (SysStep * list Event) :=
  sys_run (fun _ => Err [Opaque "json"]) sample_decode_command (fun _ => Err [Opaque "json"]) (fun _ => Err [Opaque "json"])
    (fun _ => Ok sample_ack_message) sample_steps (MkHost (MkWorld empty_db []) []).

Definition sample_sent (id : string) (created marked : Z) : CommandDownlink :=
  MkCommandDownlink id "acme" "d1" CommandStatusPublished "{}" created marked.

Example sample_sys_events :
  map (fun st => filter (fun e => is_publish e.1 = true \/ is_commit e.1 = true) st.2) sample_sys.2
  = [ []; []; []; []; [];
      [(MqttPublish "tenant/acme/device/d1/command" (sample_sent "c1" 10 101), true); (CommitOffset (sample_message "c1"), true)];
      [(CommitOffset (sample_message "c1"), true)];
      [(MqttPublish "tenant/acme/device/d1/command" (sample_sent "c2" 20 103), true); (CommitOffset (sample_message "c2"), true)];
      [] ].
Proof. vm_compute. reflexivity. Qed.

Definition sample_topic : string := "tenant/acme/device/d1/command".
Definition sample_delivery (id : string) (created marked : Z) : list Event :=
  [(MqttPublish sample_topic (sample_sent id created marked), true); (Metric "device_worker" ["command"; "ok"], true);
   (CommitOffset (sample_message id), true)].

Lemma delivery_authentic_witness :
  BuildCommandTopic "acme" "d1" = Ok sample_topic
  /\ exists j now key payload, (j < 5)%nat
       /\ sample_steps !! j = Some (RpcCreateCommand now (Ok "c1") "acme" "d1" key payload)
       /\ stored_payload payload "{}".
Proof.
  refine (delivery_authentic (fun _ => Err [Opaque "json"]) sample_decode_command (fun _ => Err [Opaque "json"]) (fun _ => Err [Opaque "json"])
    (fun _ => Ok sample_ack_message) sample_steps [] [] sample_sys.1 sample_sys.2 5
    (WorkerCommand sample_worker (MkClock 200 200) (sample_message "c1")) (sample_delivery "c1" 10 101)
    sample_topic (sample_sent "c1" 10 101) true _ _ _).
  - exact (surjective_pairing sample_sys).
  - vm_compute. reflexivity.
  - left.
Defined.


Definition sample_result : string := sample_encoded sample_normal.
Definition sample_final : CommandRow :=
  MkCommandRow "acme" "d1" CommandStatusAcked "{}" (100 + 30 * Second) 1 (Some (200 + 5 * Minute)) 10 300 None (Some sample_result).

Lemma result_authentic_witness :
  exists s, s ∈ sample_steps
    /\ acknowledges (fun _ => Err [Opaque "json"]) (fun _ => Ok sample_ack_message) s "c1" "acme" "d1" sample_result.
Proof.
  refine (result_authentic (fun _ => Err [Opaque "json"]) sample_decode_command (fun _ => Err [Opaque "json"]) (fun _ => Err [Opaque "json"])
    (fun _ => Ok sample_ack_message) sample_steps [] [] sample_sys.1 sample_sys.2 "c1" sample_final sample_result
    (surjective_pairing sample_sys) _ _); [vm_compute; reflexivity|reflexivity].
Defined.
