(* ===== verification/PipelineProgress.v ===== *)
(** * A command's way to its device and back

    When nothing fails, the services together do what a request asks for: the
    command is created, dispatched, delivered and acknowledged. *)
From stdpp Require Import prelude strings gmap sorting.
From Stdlib Require Import ZArith Lia.
From S2P Require Import Prelude GoStrings Contracts CommandState GoJson Base64 Payload Domain TimeText Pagination Postgres PostgresStore PostgresCommands Lifecycle PostgresRefine StoreProperties CommandProperties DispatchProperties Host StoreEffects Kafka Bridge TDengine Worker WorkerProperties Acks Dispatcher DlqReplay CoreService Pipeline.

Local Open Scope Z_scope.

Section progress.
Context `{Unicode} `{PgEnv} `{CursorEnv} `{KafkaClient} `{TaosDriver}.
Context (unmarshal_telemetry : string -> result TelemetryRecord) (unmarshal_command : string -> result Command)
        (unmarshal_envelope : string -> result Envelope) (unmarshal_dead_letter : string -> result DeadLetter)
        (decode_ack : string -> result CommandAckMessage).

Notation exec := (sys_exec unmarshal_telemetry unmarshal_command unmarshal_envelope unmarshal_dead_letter decode_ack).
Notation run := (sys_run unmarshal_telemetry unmarshal_command unmarshal_envelope unmarshal_dead_letter decode_ack).

(** ** Creation *)

(** What the API and the store ask of a request, and the text they keep. *)
Record request_ok (db : DB) (id t d key payload stored : string) : Prop := {
  rq_tenant : IsValidTenantID t = true /\ t <> "";
  rq_device : IsValidTopicPart d = true /\ d <> "" /\ is_Some (devices db !! (t, d));
  rq_payload : ValidateCommandInput t d payload = Ok tt;
  rq_stored : exists norm, jsonb_cast (if len payload =? 0 then "{}" else payload) = Ok norm
    /\ ValidateCommandInput t d norm = Ok tt /\ jsonb_cast norm = Ok stored;
  rq_key : ValidateIdempotencyKey key = Ok tt /\ forall k, nullif_empty key = Some k -> find_key t k db = None;
  rq_fresh : commands db !! id = None }.

Definition created_row (now : Z) (t d key stored : string) : CommandRow :=
  MkCommandRow t d CommandStatusCreated stored (pg_time now) 0 None (pg_time now) (pg_time now) (nullif_empty key) None.

Lemma create_stage now id t d key payload stored w :
  faults w = [] -> request_ok (committed w) id t d key payload stored ->
  exists w', exec (RpcCreateCommand now (Ok id) t d key payload) (MkHost w []) = (MkHost w' [], [])
    /\ faults w' = [] /\ commands (committed w') = <[id := created_row now t d key stored]> (commands (committed w)).
Proof.
  intros Hw [[Ht Ht0] (Hd & Hd0 & Hdev) Hpay (norm & Hn & Hv & Hs) [Hk Hfind] Hfresh].
  cbn [sys_exec]. unfold io_exec, CoreService.CreateCommand.
  apply String.eqb_neq in Ht0 as ->. apply String.eqb_neq in Hd0 as ->. rewrite Ht, Hd, Hpay, Hk. cbn [orb negb is_ok].
  unfold repo, on_store, mbind, io_bind, CreateCommandWithKey, op_bind, check. rewrite Hpay, Hk. cbn [h_world h_outcomes].
  unfold mbind, op_bind. rewrite begin_tx_no_fault by done.
  unfold meaning, create_command_tx, requireDevice, sql_device_exists, query. cbn [tx_meaning mbind result_bind].
  rewrite bool_decide_true by done. cbn [negb tx_meaning]. unfold sql_jsonb, query. cbn [mbind result_bind]. rewrite Hn. cbn.
  rewrite Hv. cbn [tx_meaning]. unfold sql_insert_command. cbn [cmd_Payload cmd_ID cmd_TenantID cmd_DeviceID cmd_Status].
  unfold mbind, result_bind. rewrite Hs.
  destruct (nullif_empty key) as [k|] eqn:Hnk; cbn; rewrite ?(Hfind k eq_refl), Hfresh; cbn; eexists; unfold created_row; rewrite Hnk; by split_and!.
Qed.

(** ** Dispatch *)

(** A batch where one row is due. *)
Lemma select_single locked (pred : CommandRow -> bool) n db id row :
  (1 <= n)%nat -> commands db !! id = Some row -> pred row = true -> id ∉ locked ->
  (forall i r, commands db !! i = Some r -> i <> id -> pred r = false) ->
  select_batch locked pred n db = [(id, row)].
Proof.
  intros Hn Hrow Hp Hl Hothers. unfold select_batch.
  assert (Hf : filter (fun kr => pred kr.2 = true /\ kr.1 ∉ locked) (map_to_list (commands db)) = [(id, row)]).
  { apply Permutation_singleton_r, NoDup_Permutation; [apply NoDup_filter, NoDup_map_to_list|apply NoDup_singleton|].
    intros [i r]. rewrite list_elem_of_filter, elem_of_map_to_list, list_elem_of_singleton. simpl. split.
    - intros [[Hr _] Hi]. destruct (decide (i = id)) as [->|Hne]; [congruence|]. by rewrite (Hothers i r) in Hr.
    - intros [= -> ->]. done. }
  rewrite Hf. destruct n; [lia|]. cbn. by rewrite take_nil.
Qed.

(** A statement of a database that does not fail. *)
Lemma exec_no_fault {A} (st : Stmt A) w a db' :
  faults w = [] -> st (committed w) = Ok (a, db') -> db_exec st w = (Ok a, MkWorld db' []).
Proof. intros Hw Hst. unfold db_exec. rewrite next_fault_none by done. by rewrite Hst, Hw. Qed.

Lemma claim_single locked dbnow lease l w id row cmd :
  faults w = [] -> pg_interval lease = Ok l -> commands (committed w) !! id = Some row -> claimable dbnow row = true ->
  id ∉ locked -> (forall i r, commands (committed w) !! i = Some r -> i <> id -> claimable dbnow r = false) ->
  scanCommandRow id (claim_row dbnow l row) = Ok cmd ->
  ClaimCommandsForDispatchContext locked dbnow 1 lease w
  = (Ok [cmd], MkWorld (set_commands (update_rows [id] (claim_row dbnow l) (commands (committed w))) (committed w)) []).
Proof.
  intros Hw Hl Hrow Hdue Hlock Hothers Hscan. unfold ClaimCommandsForDispatchContext. change (1 <? 1) with false. cbv iota.
  unfold mbind, op_bind. erewrite exec_no_fault; [|done|].
  2:{ unfold sql_claim, mbind, result_bind. rewrite Hl. cbn zeta. rewrite (select_single _ _ _ _ id row); [done|simpl; lia|done..]. }
  unfold check. simpl. unfold mbind, result_bind. by rewrite Hscan.
Qed.

(** An update of one row that matches. *)
Lemma update_single (pred : CommandRow -> bool) f event w id row :
  faults w = [] -> commands (committed w) !! id = Some row -> pred row = true ->
  exists w', db_exec (updateCommandsWithEvent (where_id id pred) f event) w = (Ok 1, w') /\ faults w' = []
    /\ devices (committed w') = devices (committed w) /\ commands (committed w') !! id = Some (f row).
Proof.
  intros Hw Hrow Hp. eexists. split; [apply exec_no_fault; [done|]; unfold updateCommandsWithEvent, where_id; by rewrite Hrow, Hp|].
  split_and!; [done..|]. simpl. rewrite lookup_update_rows, Hrow. simpl. by rewrite bool_decide_true by (by apply list_elem_of_singleton).
Qed.

Definition dispatched_row (dbnow lease marked : Z) (row : CommandRow) : CommandRow :=
  with_status CommandStatusPublished marked (claim_row dbnow lease row).

Lemma dispatch_stage topic disp it lease w id row cmd :
  faults w = [] -> (1 <= disp_batchSize disp)%nat -> it_cancelled it = false -> it_publish it = None ->
  pg_interval (disp_lease disp) = Ok lease -> se_dbnow (it_mark it) < se_dbnow (it_claim it) + lease ->
  commands (committed w) !! id = Some row -> claimable (se_dbnow (it_claim it)) row = true -> id ∉ se_locked (it_claim it) ->
  (forall i r, commands (committed w) !! i = Some r -> i <> id -> claimable (se_dbnow (it_claim it)) r = false) ->
  scanCommandRow id (claim_row (se_dbnow (it_claim it)) lease row) = Ok cmd ->
  exists w', exec (RunDispatcher topic disp [Dispatch [it]]) (MkHost w [])
      = (MkHost w' [], [(KafkaWrite topic (cmd_DeviceID cmd) (VCommand cmd), true)])
    /\ faults w' = []
    /\ commands (committed w') !! id = Some (dispatched_row (se_dbnow (it_claim it)) lease (se_dbnow (it_mark it)) row).
Proof.
  intros Hw Hb Hc Hpub Hl Hlt Hrow Hdue Hlock Hothers Hscan. cbn [sys_exec dispatcher_run]. unfold dispatchPending.
  destruct (disp_batchSize disp) as [|n] eqn:En; [lia|]. cbn [dispatch_loop h_world]. rewrite Hc.
  cbn [ClaimCommandsForDispatch MarkCommandPublished postgres_dispatch].
  erewrite claim_single by done. rewrite Hpub.
  assert (Hcmd : cmd_ID cmd = id /\ cmd_DispatchAttempts cmd = cr_dispatch_attempts row + 1).
  { by apply result_bind_ok in Hscan as (res & _ & [= <-]). }
  destruct Hcmd as [-> ->]. set (w1 := MkWorld _ []).
  assert (Hrow1 : commands (committed w1) !! id = Some (claim_row (se_dbnow (it_claim it)) lease row)).
  { simpl. rewrite lookup_update_rows, Hrow. simpl. by rewrite bool_decide_true by (by apply list_elem_of_singleton). }
  destruct (update_single (holds_claim (se_dbnow (it_mark it)) (cr_dispatch_attempts row + 1))
    (with_status CommandStatusPublished (se_dbnow (it_mark it))) "published" w1 id _ eq_refl Hrow1) as (w2 & Hmark & Hw2 & _ & Hrow2).
  { unfold claimable in Hdue. apply andb_true_iff in Hdue as [[Hst _]%andb_true_iff _]. unfold holds_claim. simpl.
    unfold status_is in *. simpl. rewrite Hst, Z.eqb_refl. by apply Z.ltb_lt in Hlt as ->. }
  unfold MarkCommandPublishedContext. rewrite Hmark. exists w2. by destruct n.
Qed.

(** ** Delivery *)
Definition sent_row (dbnow deadline : Z) (row : CommandRow) : CommandRow :=
  with_deadline (pg_time deadline) (with_status CommandStatusSent dbnow row).

Lemma delivery_stage wk ck msg event w id row cmd topic :
  faults w = [] -> wk_store wk = true -> wk_mqtt wk = true ->
  unmarshal_command (km_Value msg) = Ok event -> 0 <= cmd_DispatchAttempts event -> tenantAllowed wk (cmd_TenantID event) = true ->
  cmd_ID event = id -> cmd_TenantID event = cr_tenant_id row -> cmd_DeviceID event = cr_device_id row ->
  commands (committed w) !! id = Some row -> cr_status row = CommandStatusPublished -> scanCommandRow id row = Ok cmd ->
  BuildCommandTopic (cr_tenant_id row) (cr_device_id row) = Ok topic -> marshal_downlink (downlink cmd) = None ->
  exists w', exec (WorkerCommand wk ck msg) (MkHost w [])
      = (MkHost w' [], [(MqttPublish topic (downlink cmd), true); (Metric "device_worker" ["command"; "ok"], true); (CommitOffset msg, true)])
    /\ faults w' = [] /\ commands (committed w') !! id = Some (sent_row (ck_dbnow ck) (ck_now ck + wk_ackTimeout wk) row).
Proof.
  intros Hw Hst Hmq Hun Hatt Hallow <- Het Hed Hrow Hpub Hscan Htopic Hmar.
  pose proof (scan_row_fields _ _ _ Hscan) as (Ci & Ct & Cd & Cs).
  destruct (update_single (fun row => status_is CommandStatusCreated row || status_is CommandStatusPublished row)
    (fun row => sent_row (ck_dbnow ck) (ck_now ck + wk_ackTimeout wk) row) "delivered" w (cmd_ID event) row Hw Hrow) as (w2 & Hmark & Hw2 & _ & Hrow2).
  { unfold status_is. rewrite Hpub. by rewrite orb_true_r. }
  exists w2. split; [|done]. cbn [sys_exec]. unfold io_exec, consume_command. rewrite Hun.
  apply Z.ltb_ge in Hatt as ->. rewrite Hallow. cbn [negb].
  unfold commandForDelivery. rewrite Hst. cbn [negb]. unfold mbind, io_bind, on_store. cbn [h_world].
  assert (Hget : GetCommandForDelivery (cmd_ID event) w = (Ok cmd, w)).
  { unfold GetCommandForDelivery, GetCommandContext, mbind, op_bind. erewrite exec_no_fault; [|done|].
    2:{ unfold sql_get_command, query, mbind, result_bind. by rewrite Hrow. }
    rewrite (world_eta w Hw). unfold check. by rewrite Hscan. }
  rewrite Hget. rewrite Ct, Cd, Cs, Het, Hed, !String.eqb_refl, Hpub. cbn [negb orb].
  replace (_ || _) with true by (vm_compute; reflexivity).
  unfold mret, io_ret. cbn [app]. rewrite Hmq. cbn [negb]. unfold deliver_command. rewrite Ct, Cd, Htopic, Hmar.
  unfold mbind, io_bind, attempt, next_outcome, on_store. cbn. rewrite Ci.
  unfold MarkCommandSentContext. unfold sent_row in Hmark. by rewrite Hmark.
Qed.

(** ** Acknowledgement *)
Lemma ack_stage wk now amsg ack n enc e w row :
  faults w = [] -> wk_store wk = true -> DecodeRequestJSON decode_ack (mm_Payload amsg) = Ok ack -> am_CommandID ack <> "" ->
  ParseDeviceTopic (mm_Topic amsg) = Some (am_TenantID ack, am_DeviceID ack, TopicSuffixAck) ->
  ack_accepted (am_CommandID ack) (am_TenantID ack) (am_DeviceID ack) (ack_result ack) n enc -> jsonb_cast enc = Ok e ->
  commands (committed w) !! am_CommandID ack = Some row -> cr_status row = CommandStatusSent -> cr_result row = None ->
  cr_tenant_id row = am_TenantID ack -> cr_device_id row = am_DeviceID ack ->
  exists w', exec (WorkerAck wk now false amsg) (MkHost w [])
      = (MkHost w' [], [(Metric "device_worker" ["ack"; "ok"], true); (MqttAck, true)])
    /\ commands (committed w') !! am_CommandID ack = Some (with_result e (with_status (res_Status n) (pg_time now) row)).
Proof.
  intros Hw Hst Hdec Hid Htopic Hacc Hcast Hrow Hsent Hnone Ht Hd.
  assert (Hscan : exists cmd, scanCommandRow (am_CommandID ack) row = Ok cmd) by (unfold scanCommandRow; rewrite Hnone; by eexists).
  destruct Hscan as [cmd Hscan].
  assert (Hadv : AdvanceCommandStatus (cr_status row) (res_Status n) = Ok (res_Status n)).
  { destruct Hacc as (_ & _ & [->| ->]%normalize_status & _); by rewrite Hsent. }
  set (w' := MkWorld (add_events [MkEventRow (am_CommandID ack) (res_Status n) e]
    (add_ack (MkAckRow (am_CommandID ack) (am_TenantID ack) (am_DeviceID ack) (res_Status n) e (pg_time now))
       (set_commands (<[am_CommandID ack := with_result e (with_status (res_Status n) (pg_time now) row)]> (commands (committed w))) (committed w)))) []).
  exists w'. split; [|simpl; by rewrite lookup_insert_eq].
  assert (Hop : exists c, AckCommandResultContext now (am_CommandID ack) (am_TenantID ack) (am_DeviceID ack) (ack_result ack) w = (Ok c, w')).
  { rewrite (ack_no_fault _ _ _ _ _ _ _ _ Hw Hacc). erewrite ack_tx_live; [|done..|by rewrite Hsent|done|done]. by eexists. }
  destruct Hop as [c Hop]. cbn [sys_exec]. unfold io_exec, handleAckMessage. rewrite Hdec, Htopic, !String.eqb_refl.
  apply String.eqb_neq in Hid as ->. cbn [negb orb]. destruct Hacc as (_ & _ & -> & _). rewrite Hst.
  unfold ackStoreAttempts, store_ack, applyAck, mbind, io_bind, on_store. cbn [h_world h_outcomes]. by rewrite Hop.
Qed.

(** ** The round trip *)

(** The surroundings of a round trip: the dispatcher's iteration, the Kafka
    message that carries what it published, the worker, and the device's
    answer. *)
Record RoundTrip := MkRoundTrip {
  rt_topic : string;
  rt_disp : CommandDispatcher;
  rt_it : Iteration;
  rt_worker : Worker;
  rt_clock : Clock;
  rt_msg : KMessage;
  rt_ack_at : Z;
  rt_ack : MqttMessage }.

Definition round_trip (now : Z) (id t d key payload : string) (rt : RoundTrip) : list SysStep :=
  [RpcCreateCommand now (Ok id) t d key payload;
   RunDispatcher (rt_topic rt) (rt_disp rt) [Dispatch [rt_it rt]];
   WorkerCommand (rt_worker rt) (rt_clock rt) (rt_msg rt);
   WorkerAck (rt_worker rt) (rt_ack_at rt) false (rt_ack rt)].

(** The command the dispatcher publishes, and the message the device gets. *)
Definition claimed_command (now claimed_at : Z) (id t d stored : string) : Command :=
  MkCommand id t d CommandStatusCreated stored (pg_time now) claimed_at 1 zero_time None.
Definition sent_downlink (now marked_at : Z) (id t d stored : string) : CommandDownlink :=
  MkCommandDownlink id t d CommandStatusPublished stored (pg_time now) marked_at.

(** Nothing else waits to be dispatched, the claim is marked within its lease,
    the worker serves the tenant and reads what the dispatcher wrote, and the
    device answers on its own topic with a result [n] that the store keeps as
    [kept]. *)
Record undisturbed (db : DB) (now : Z) (id t d stored topic : string) (n : CommandResult) (kept : string) (rt : RoundTrip) : Prop := {
  un_alone : forall i r, commands db !! i = Some r -> claimable (se_dbnow (it_claim (rt_it rt))) r = false;
  un_unlocked : id ∉ se_locked (it_claim (rt_it rt));
  un_due : pg_time now <= se_dbnow (it_claim (rt_it rt));
  un_batch : (1 <= disp_batchSize (rt_disp rt))%nat;
  un_publish : it_cancelled (rt_it rt) = false /\ it_publish (rt_it rt) = None;
  un_lease : exists lease, pg_interval (disp_lease (rt_disp rt)) = Ok lease
    /\ se_dbnow (it_mark (rt_it rt)) < se_dbnow (it_claim (rt_it rt)) + lease;
  un_read : unmarshal_command (km_Value (rt_msg rt)) = Ok (claimed_command now (se_dbnow (it_claim (rt_it rt))) id t d stored);
  un_worker : wk_store (rt_worker rt) = true /\ wk_mqtt (rt_worker rt) = true /\ tenantAllowed (rt_worker rt) t = true;
  un_topic : BuildCommandTopic t d = Ok topic;
  un_encodes : marshal_downlink (sent_downlink now (se_dbnow (it_mark (rt_it rt))) id t d stored) = None;
  un_answer : exists ack enc, DecodeRequestJSON decode_ack (mm_Payload (rt_ack rt)) = Ok ack
    /\ am_CommandID ack = id /\ id <> "" /\ am_TenantID ack = t /\ am_DeviceID ack = d
    /\ ParseDeviceTopic (mm_Topic (rt_ack rt)) = Some (t, d, TopicSuffixAck)
    /\ ack_accepted id t d (ack_result ack) n enc /\ jsonb_cast enc = Ok kept }.

End progress.

#[local] Existing Instance sample_unicode.
#[local] Existing Instance sample_pg.
#[local] Existing Instance sample_client.
#[local] Existing Instance sample_taos.
#[local] Existing Instance PageProperties.sample_cursor.

Definition sample_rt : RoundTrip :=
  MkRoundTrip "iot.command" (NewCommandDispatcher 0) (sample_iteration 100) sample_worker (MkClock 200 200) (sample_message "c9") 300
    (MkMqttMessage "tenant/acme/device/d1/ack" "{}").
Definition sample_answer : CommandAckMessage := MkCommandAckMessage "c9" "acme" "d1" CommandStatusAcked "" "".

