(* ===== verification/MemoryStore.v ===== *)
(** * The in-memory repository: internal/platform/{memory_store,memory_pages}.go

    Used when no store is injected.  A Go map is a [gmap]; where the code ranges
    over one, the order is the one of [map_to_list], which Go leaves open. *)
From stdpp Require Import prelude strings gmap sorting pretty.
From Stdlib Require Import ZArith Lia.
From S2P Require Import Prelude GoStrings Contracts CommandState GoJson Base64 Payload Domain TimeText Pagination Postgres PostgresLists Worker PageProperties.

Local Open Scope Z_scope.

Record memoryStore := MkMemoryStore {
  ms_ttl : Z;
  ms_tenants : gmap string Tenant;
  ms_devices : gmap string Device;
  ms_statuses : gmap string DeviceStatus;
  ms_telemetry : gmap string (list TelemetryRecord);
  ms_commandKeys : gmap string string;
  ms_commands : gmap string Command;
  ms_commandSeq : Z }.

Definition newMemoryStore (ttl : Z) : memoryStore := MkMemoryStore ttl ∅ ∅ ∅ ∅ ∅ ∅ 0.

Definition deviceKey (tenantID deviceID : string) : string := tenantID +:+ ":" +:+ deviceID.

Definition MOp (A : Type) := memoryStore -> result A * memoryStore.

#[export] Instance mop_ret : MRet MOp := fun A a s => (Ok a, s).
#[export] Instance mop_bind : MBind MOp := fun A B f m s =>
  let '(r, s) := m s in
  match r with Ok a => f a s | Err e => (Err e, s) end.
Definition mcheck {A} (r : result A) : MOp A := fun s => (r, s).
Definition mget : MOp memoryStore := fun s => (Ok s, s).
Definition mput (s : memoryStore) : MOp unit := fun _ => (Ok tt, s).

Definition put_commands (cmds : gmap string Command) (keys : gmap string string) (seq : Z) (s : memoryStore) : memoryStore :=
  MkMemoryStore (ms_ttl s) (ms_tenants s) (ms_devices s) (ms_statuses s) (ms_telemetry s) keys cmds seq.

(** [ctx.Err()] of the context of a call. *)
Definition ctx_err (cancelled : option error) : result unit := match cancelled with Some e => Err e | None => Ok tt end.

Section memory.
Context `{Unicode}.
(** [reflect.DeepEqual] of two JSON texts and of two results, each decoded into
    [any], and the error of decoding a text into [any]. *)
Context (json_deep_equal : string -> string -> bool) (result_deep_equal : CommandResult -> CommandResult -> bool)
        (json_any : string -> result unit).

(** ** Tenants and devices *)
Definition CreateTenant (t : Tenant) : MOp Tenant :=
  _ ← mcheck (ValidateTenantName (ten_Name t));
  if negb (IsValidTenantID (ten_ID t)) then mcheck (Err [ErrInvalidTopicPart])
  else
    s ← mget;
    match ms_tenants s !! ten_ID t with
    | Some _ => mcheck (Err [ErrAlreadyExists])
    | None =>
      _ ← mput (MkMemoryStore (ms_ttl s) (<[ten_ID t := t]> (ms_tenants s)) (ms_devices s) (ms_statuses s) (ms_telemetry s)
                  (ms_commandKeys s) (ms_commands s) (ms_commandSeq s));
      mret t
    end.

Definition ListTenants (s : memoryStore) : list Tenant := (map_to_list (ms_tenants s)).*2.

Definition CreateDevice (now : Z) (d : Device) : MOp Device :=
  _ ← mcheck (ValidateProductID (dev_ProductID d));
  _ ← mcheck (ValidateDeviceSecret (dev_Secret d));
  if negb (IsValidTenantID (dev_TenantID d)) || negb (IsValidTopicPart (dev_DeviceID d)) then mcheck (Err [ErrInvalidTopicPart])
  else
    s ← mget;
    match ms_tenants s !! dev_TenantID d with
    | None => mcheck (Err [ErrNotFound])
    | Some _ =>
      let key := deviceKey (dev_TenantID d) (dev_DeviceID d) in
      match ms_devices s !! key with
      | Some _ => mcheck (Err [ErrAlreadyExists])
      | None =>
        let d := MkDevice (dev_TenantID d) (dev_DeviceID d) (dev_ProductID d) (dev_Secret d) now in
        _ ← mput (MkMemoryStore (ms_ttl s) (ms_tenants s) (<[key := d]> (ms_devices s))
                    (<[key := MkDeviceStatus (dev_TenantID d) (dev_DeviceID d) false zero_time]> (ms_statuses s))
                    (ms_telemetry s) (ms_commandKeys s) (ms_commands s) (ms_commandSeq s));
        mret d
      end
    end.

Definition ListDevices (s : memoryStore) : list Device := (map_to_list (ms_devices s)).*2.
Definition GetDevice (tenantID deviceID : string) (s : memoryStore) : option Device := ms_devices s !! deviceKey tenantID deviceID.

Definition GetDeviceStatus (now : Z) (tenantID deviceID : string) (s : memoryStore) : option DeviceStatus :=
  status ← ms_statuses s !! deviceKey tenantID deviceID;
  Some (if negb (IsZero (sta_LastSeenAt status)) && (ms_ttl s <? now - sta_LastSeenAt status)
        then MkDeviceStatus (sta_TenantID status) (sta_DeviceID status) false (sta_LastSeenAt status) else status).

(** ** Telemetry *)
Definition RestoreTelemetryContext (cancelled : option error) (rec : TelemetryRecord) : MOp TelemetryRecord :=
  _ ← mcheck (ctx_err cancelled);
  _ ← mcheck (ValidateTelemetryPayload (rec_Payload rec));
  if IsZero (rec_ReceivedAt rec) then mcheck (Err [ErrInvalidEnvelope])
  else
    s ← mget;
    let key := deviceKey (rec_TenantID rec) (rec_DeviceID rec) in
    match ms_devices s !! key with
    | None => mcheck (Err [ErrNotFound])
    | Some _ =>
      let seen := match ms_statuses s !! key with Some st => sta_LastSeenAt st | None => zero_time end in
      let statuses := if IsZero seen || (seen <? rec_ReceivedAt rec)
                      then <[key := MkDeviceStatus (rec_TenantID rec) (rec_DeviceID rec) true (rec_ReceivedAt rec)]> (ms_statuses s)
                      else ms_statuses s in
      _ ← mput (MkMemoryStore (ms_ttl s) (ms_tenants s) (ms_devices s) statuses
                  (<[key := default [] (ms_telemetry s !! key) ++ [rec]]> (ms_telemetry s))
                  (ms_commandKeys s) (ms_commands s) (ms_commandSeq s));
      mret rec
    end.

Definition RecordTelemetry (now : Z) (env : Envelope) : MOp TelemetryRecord :=
  RestoreTelemetryContext None
    (MkTelemetryRecord (env_MsgID env) (env_TenantID env) (env_DeviceID env) (env_Ts env) (env_Type env)
       (env_Version env) (env_Payload env) false now).

Definition ListTelemetry (tenantID deviceID : string) (s : memoryStore) : list TelemetryRecord :=
  default [] (ms_telemetry s !! deviceKey tenantID deviceID).

(** ** Commands *)
Definition createCommand (now now' : Z) (tenantID deviceID payload : string) : MOp Command :=
  s ← mget;
  match ms_devices s !! deviceKey tenantID deviceID with
  | None => mcheck (Err [ErrNotFound])
  | Some _ =>
    let seq := ms_commandSeq s + 1 in
    let id := "cmd-" +:+ pretty seq in
    _ ← mput (put_commands (ms_commands s) (ms_commandKeys s) seq s);
    next ← mcheck (AdvanceCommandStatus CommandStatusCreated CommandEventPublished);
    let cmd := MkCommand id tenantID deviceID next payload now now' 0 zero_time None in
    _ ← mput (put_commands (<[id := cmd]> (ms_commands s)) (ms_commandKeys s) seq s);
    mret cmd
  end.

(** The command of the tenant that was created with the key. *)
Definition keyed (s : memoryStore) (tenantID key : string) (kc : string * Command) : Prop :=
  cmd_TenantID kc.2 = tenantID /\ default "" (ms_commandKeys s !! cmd_ID kc.2) = key.
#[export] Instance keyed_dec s t k kc : Decision (keyed s t k kc).
Proof. unfold keyed. apply _. Defined.

Definition CreateCommandWithKey (cancelled : option error) (now now' : Z) (tenantID deviceID key payload : string) : MOp Command :=
  _ ← mcheck (ValidateCommandInput tenantID deviceID payload);
  _ ← mcheck (ctx_err cancelled);
  _ ← mcheck (ValidateIdempotencyKey key);
  let payload := if len payload =? 0 then "{}" else payload in
  _ ← mcheck (json_any payload);
  s ← mget;
  match (if negb (String.eqb key "") then list_find (keyed s tenantID key) (map_to_list (ms_commands s)) else None) with
  | Some (_, (_, cmd)) =>
    if negb (String.eqb (cmd_DeviceID cmd) deviceID) || negb (json_deep_equal (cmd_Payload cmd) payload)
    then mcheck (Err [ErrIdempotencyConflict]) else mret cmd
  | None =>
    cmd ← createCommand now now' tenantID deviceID payload;
    s ← mget;
    _ ← mput (if negb (String.eqb key "")
              then put_commands (ms_commands s) (<[cmd_ID cmd := key]> (ms_commandKeys s)) (ms_commandSeq s) s else s);
    mret cmd
  end.

Definition CreateCommand (now now' : Z) (tenantID deviceID payload : string) : MOp Command :=
  CreateCommandWithKey None now now' tenantID deviceID "" payload.

Definition AckCommandResultContext (cancelled : option error) (now : Z) (id tenantID deviceID : string) (input : CommandResult) : MOp Command :=
  _ ← mcheck (ctx_err cancelled);
  _ ← mcheck (ValidateDeviceIdentity tenantID deviceID);
  _ ← mcheck (ValidateCommandID id);
  result_ ← mcheck (NormalizeCommandResult input);
  s ← mget;
  match ms_commands s !! id with
  | None => mcheck (Err [ErrNotFound])
  | Some cmd =>
    if negb (String.eqb (cmd_TenantID cmd) tenantID) || negb (String.eqb (cmd_DeviceID cmd) deviceID)
    then mcheck (Err [ErrNotFound])
    else if commandAlreadyDelivered (cmd_Status cmd) && negb (String.eqb (cmd_Status cmd) CommandStatusSent) then
      match cmd_Result cmd with
      | Some old => if negb (result_deep_equal old result_) then mcheck (Err [ErrAcknowledgementConflict]) else mret cmd
      | None => mret cmd
      end
    else
      next ← mcheck (AdvanceCommandStatus (cmd_Status cmd) (res_Status result_));
      let cmd := MkCommand (cmd_ID cmd) (cmd_TenantID cmd) (cmd_DeviceID cmd) next (cmd_Payload cmd) (cmd_CreatedAt cmd) now
                   (cmd_DispatchAttempts cmd) (cmd_DeadlineAt cmd) (Some result_) in
      _ ← mput (put_commands (<[id := cmd]> (ms_commands s)) (ms_commandKeys s) (ms_commandSeq s) s);
      mret cmd
  end.

Definition AckCommand (now : Z) (id tenantID deviceID : string) : MOp Command :=
  AckCommandResultContext None now id tenantID deviceID (MkCommandResult CommandStatusAcked "" "").

Definition ListCommands (s : memoryStore) : list Command := (map_to_list (ms_commands s)).*2.
Definition GetCommand (id : string) (s : memoryStore) : option Command := ms_commands s !! id.

(** ** Pages *)
Section pages.
Context `{PgEnv} `{CursorEnv}.

Definition by_device (a b : Device) : Prop := String.leb (dev_DeviceID a) (dev_DeviceID b) = true.
#[export] Instance by_device_dec a b : Decision (by_device a b).
Proof. unfold by_device. apply _. Defined.

Definition without_secret (d : Device) : Device :=
  MkDevice (dev_TenantID d) (dev_DeviceID d) (dev_ProductID d) "" (dev_CreatedAt d).

Definition ListDevicesPageContext (cancelled : option error) (page : PageRequest) (s : memoryStore) : result (list Device * string) :=
  _ ← ctx_err cancelled;
  page ← NormalizeListRequest page "devices";
  match decodeDeviceCursor (pg_Cursor page) with
  | Err _ => Err errInvalidCursor
  | Ok (tenant, after_) =>
    if negb (String.eqb tenant "") && negb (String.eqb tenant (pg_TenantID page)) then Err errInvalidCursor
    else
      let rows := map without_secret
        (filter (fun d => dev_TenantID d = pg_TenantID page /\ String.ltb after_ (dev_DeviceID d) = true) (ListDevices s)) in
      finish (fun last => encodeDeviceCursor (dev_TenantID last) (dev_DeviceID last))
        (fill_page deviceListBytes (pg_Size page) (map Ok (merge_sort by_device rows)))
  end.

(** [!less b a]: not after [b] in the order asked for. *)
Definition page_le {T} (key : T -> Z * string) (asc : bool) (a b : T) : Prop :=
  let '(ta, ia) := key a in let '(tb, ib) := key b in
  if asc then ta < tb \/ (ta = tb /\ String.leb ia ib = true) else tb < ta \/ (ta = tb /\ String.leb ib ia = true).
#[export] Instance page_le_dec {T} (key : T -> Z * string) asc a b : Decision (page_le key asc a b).
Proof. unfold page_le. destruct (key a), (key b), asc; apply _. Defined.

(** Whether a row lies beyond the cursor. *)
Definition beyond_cursor (asc : bool) (cursor : string) (at_ : Z) (id : string) (stamp : Z) (rid : string) : bool :=
  if String.eqb cursor "" then true
  else if asc then (at_ <? stamp) || ((stamp =? at_) && String.ltb id rid)
  else (stamp <? at_) || ((stamp =? at_) && String.ltb rid id).

Definition memoryPage {T} (page : PageRequest) (kind : string) (rows : list T) (key : T -> Z * string) (size : T -> Z)
    : result (list T * string) :=
  cursor ← decodePageCursor page kind;
  let asc := String.eqb (pg_Sort page) "asc" in
  let rows := filter (fun row => beyond_cursor asc (pg_Cursor page) cursor.1 cursor.2 (key row).1 (key row).2 = true)
                (merge_sort (page_le key asc) rows) in
  finish (fun last => encodePageCursor page kind (key last).1 (key last).2) (fill_page size (pg_Size page) (map Ok rows)).

Definition in_period (page : PageRequest) (stamp : Z) : bool :=
  negb (pg_HasStartTime page && (stamp <? pg_StartTime page)) && negb (pg_HasEndTime page && negb (stamp <? pg_EndTime page)).

Definition ListCommandsPageContext (cancelled : option error) (page : PageRequest) (s : memoryStore) : result (list Command * string) :=
  _ ← ctx_err cancelled;
  page ← NormalizeListRequest page "commands";
  let rows := filter (fun c => cmd_TenantID c = pg_TenantID page /\ (pg_DeviceID page = "" \/ cmd_DeviceID c = pg_DeviceID page)
                /\ (pg_Status page = "" \/ cmd_Status c = pg_Status page) /\ in_period page (cmd_CreatedAt c) = true) (ListCommands s) in
  memoryPage page "commands" rows (fun c => (cmd_CreatedAt c, cmd_ID c)) commandListBytes.

Definition ListTelemetryPageContext (cancelled : option error) (page : PageRequest) (s : memoryStore) : result (list TelemetryRecord * string) :=
  _ ← ctx_err cancelled;
  page ← NormalizeListRequest page "telemetry";
  let rows := filter (fun r => (pg_Type page = "" \/ rec_Type r = pg_Type page) /\ in_period page (rec_Ts r * Millisecond) = true)
                (ListTelemetry (pg_TenantID page) (pg_DeviceID page) s) in
  memoryPage page "telemetry" rows (fun r => (rec_Ts r * Millisecond, rec_MsgID r)) telemetryListBytes.
End pages.

(** ** Commands follow the lifecycle here too *)
Inductive MemoryCall :=
| MCreateTenant (t : Tenant)
| MCreateDevice (now : Z) (d : Device)
| MRestoreTelemetry (cancelled : option error) (rec : TelemetryRecord)
| MCreateCommand (cancelled : option error) (now now' : Z) (tenant device key payload : string)
| MAckCommand (cancelled : option error) (now : Z) (id tenant device : string) (input : CommandResult).

Definition memory_call (c : MemoryCall) (s : memoryStore) : memoryStore :=
  match c with
  | MCreateTenant t => (CreateTenant t s).2
  | MCreateDevice now d => (CreateDevice now d s).2
  | MRestoreTelemetry ce rec => (RestoreTelemetryContext ce rec s).2
  | MCreateCommand ce n n' t d k p => (CreateCommandWithKey ce n n' t d k p s).2
  | MAckCommand ce n id t d input => (AckCommandResultContext ce n id t d input s).2
  end.

Definition memory_calls (cs : list MemoryCall) (s : memoryStore) : memoryStore := foldl (flip memory_call) s cs.

(** Every command is stored under its own identifier, one that was drawn. *)
Definition memory_ok (s : memoryStore) : Prop := 0 <= ms_commandSeq s /\
  forall id cmd, ms_commands s !! id = Some cmd ->
    cmd_ID cmd = id /\ exists n, 0 < n <= ms_commandSeq s /\ id = "cmd-" +:+ pretty n.

(** What may become of a command: nothing, or an acknowledgement along an edge
    of the lifecycle that leaves its identity alone. *)
Definition command_follows (cmd cmd' : Command) : Prop :=
  cmd' = cmd \/
  (cmd_ID cmd' = cmd_ID cmd /\ cmd_TenantID cmd' = cmd_TenantID cmd /\ cmd_DeviceID cmd' = cmd_DeviceID cmd
   /\ cmd_Payload cmd' = cmd_Payload cmd /\ cmd_CreatedAt cmd' = cmd_CreatedAt cmd
   /\ exists st ev st', cmd_Status cmd = status_string st /\ cmd_Status cmd' = status_string st' /\ edge st ev st').

Definition store_follows (s s' : memoryStore) : Prop := forall id cmd,
  ms_commands s !! id = Some cmd -> exists cmd', ms_commands s' !! id = Some cmd' /\ command_follows cmd cmd'.

Lemma store_follows_same s s' : ms_commands s' = ms_commands s -> store_follows s s'.
Proof. intros E id cmd Hc. exists cmd. rewrite E. split; [done|by left]. Qed.

Lemma keep_commands s s' :
  memory_ok s -> ms_commands s' = ms_commands s -> ms_commandSeq s <= ms_commandSeq s' -> memory_ok s' /\ store_follows s s'.
Proof.
  intros [Hs Hok] Hc Hq. split; [|by apply store_follows_same]. split; [lia|]. intros id cmd. rewrite Hc.
  intros (? & n & ? & ?)%Hok. split; [done|]. exists n. split; [lia|done].
Qed.

Lemma create_command_follows now now' t d p s :
  memory_ok s -> memory_ok (createCommand now now' t d p s).2 /\ store_follows s (createCommand now now' t d p s).2.
Proof.
  intros [Hs Hok]. unfold createCommand, mbind, mop_bind, mget, mcheck, mput, mret, mop_ret.
  destruct (ms_devices s !! _); [|by apply keep_commands]. cbn [snd fst AdvanceCommandStatus String.eqb].
  change (AdvanceCommandStatus CommandStatusCreated CommandEventPublished) with (Ok (A:=string) CommandStatusPublished).
  cbn [snd fst]. set (id := "cmd-" +:+ pretty (ms_commandSeq s + 1)). 
  assert (Hfresh : ms_commands s !! id = None).
  { destruct (ms_commands s !! id) as [c|] eqn:E; [|done]. destruct (Hok _ _ E) as (_ & n & Hn & Hid).
    unfold id in Hid. injection Hid as Hid. pose proof (pretty_Z_inj _ _ Hid). lia. }
  split; [split; [simpl; lia|]|].
  - intros i c. simpl. rewrite lookup_insert_Some. intros [[<- <-]|[_ Hc]].
    + split; [done|]. exists (ms_commandSeq s + 1). split; [lia|done].
    + destruct (Hok _ _ Hc) as (? & n & ? & ?). split; [done|]. exists n. split; [lia|done].
  - intros i c Hc. exists c. simpl. rewrite lookup_insert_ne by congruence. split; [done|by left].
Qed.

Lemma create_command_key_follows ce now now' t d k p s :
  memory_ok s -> memory_ok (CreateCommandWithKey ce now now' t d k p s).2 /\ store_follows s (CreateCommandWithKey ce now now' t d k p s).2.
Proof.
  intros Hok. pose (P := fun s' => memory_ok s' /\ store_follows s s').
  assert (Hsame : P s) by (apply keep_commands; [done..|lia]).
  change (P (CreateCommandWithKey ce now now' t d k p s).2).
  unfold CreateCommandWithKey, mbind, mop_bind, mcheck, mget.
  destruct (ValidateCommandInput t d p); [|exact Hsame]. destruct (ctx_err ce); [|exact Hsame].
  destruct (ValidateIdempotencyKey k); [|exact Hsame]. destruct (json_any _); [|exact Hsame].
  destruct (if negb (String.eqb k "") then _ else _) as [[i [ki cmd]]|].
  { destruct (_ || _); exact Hsame. }
  pose proof (create_command_follows now now' t d (if len p =? 0 then "{}" else p) s Hok) as Hf1.
  unfold mput, mret, mop_ret. destruct (createCommand _ _ _ _ _ s) as [[cmd|e] s1]; [|exact Hf1].
  cbn [fst snd] in *. by destruct (negb _).
Qed.

Lemma ack_command_follows ce now id t d input s :
  memory_ok s -> memory_ok (AckCommandResultContext ce now id t d input s).2
              /\ store_follows s (AckCommandResultContext ce now id t d input s).2.
Proof.
  intros Hok. assert (Hsame : memory_ok s /\ store_follows s s) by (apply keep_commands; [done..|lia]).
  unfold AckCommandResultContext, mbind, mop_bind, mcheck, mget, mput, mret, mop_ret.
  destruct (ctx_err ce); [|exact Hsame]. destruct (ValidateDeviceIdentity t d); [|exact Hsame].
  destruct (ValidateCommandID id); [|exact Hsame]. destruct (NormalizeCommandResult input) as [res|]; [|exact Hsame].
  destruct (ms_commands s !! id) as [cmd|] eqn:Hc; [|exact Hsame]. destruct (_ || _); [exact Hsame|].
  destruct (_ && _); [destruct (cmd_Result cmd); [destruct (negb _)|]; exact Hsame|].
  destruct (AdvanceCommandStatus _ _) as [next|] eqn:Ha; [|exact Hsame]. cbn [fst snd].
  apply advance_sound in Ha as (st & st' & Hst & -> & Htr). destruct Hok as [Hs Hok]. destruct (Hok _ _ Hc) as [Hid Hn].
  split; [split; [done|]|].
  - intros i c. simpl. rewrite lookup_insert_Some. intros [[<- <-]|[_ Hi]]; [split; done|by apply Hok].
  - intros i c Hi. simpl. destruct (decide (id = i)) as [<-|Hne].
    + rewrite lookup_insert_eq. eexists. split; [done|]. assert (c = cmd) as -> by congruence. right. simpl. split_and!; try done.
      exists st, (res_Status res), st'. split_and!; [done|done|]. destruct Htr; auto with lifecycle.
    + rewrite lookup_insert_ne by done. exists c. split; [done|by left].
Qed.

Lemma memory_call_follows c s : memory_ok s -> memory_ok (memory_call c s) /\ store_follows s (memory_call c s).
Proof.
  intros Hok. destruct c; simpl; [| | |by apply create_command_key_follows|by apply ack_command_follows].
  all: apply keep_commands; [done| |];
    unfold CreateTenant, CreateDevice, RestoreTelemetryContext, mbind, mop_bind, mcheck, mget, mput, mret, mop_ret;
    repeat (case_match; simplify_eq/=); try done; try lia.
Qed.

Lemma memory_calls_ok cs s : memory_ok s -> memory_ok (memory_calls cs s).
Proof. revert s. induction cs as [|c cs IH]; intros s Hok; [done|]. apply IH, memory_call_follows, Hok. Qed.

Lemma terminal_follows cmd cmd' st :
  cmd_Status cmd = status_string st -> terminal st = true -> command_follows cmd cmd' -> cmd' = cmd.
Proof.
  intros Hst Ht [->|(_ & _ & _ & _ & _ & s & ev & s' & Hs & _ & He)]; [done|].
  rewrite Hs in Hst. apply status_string_inj in Hst as ->. by destruct He as [|s [-> | ->]| |s|s|]; simpl in *; try done; congruence.
Qed.

(** C38: the in-memory repository keeps the command contract: from an empty
    store, whatever calls are made, a command once created stays under its
    identifier with the identity, payload and creation time it was given, each
    call moves its status by at most one edge of the lifecycle, and one that is
    acked, failed or timed out never changes again. *)
Theorem memory_commands_lifecycle ttl cs c cs' id cmd :
  let s := memory_calls cs (newMemoryStore ttl) in
  ms_commands s !! id = Some cmd ->
  cmd_ID cmd = id
  /\ (exists cmd', ms_commands (memory_call c s) !! id = Some cmd' /\ command_follows cmd cmd')
  /\ (forall st, cmd_Status cmd = status_string st -> terminal st = true -> ms_commands (memory_calls cs' s) !! id = Some cmd).
Proof.
  intros s Hc. assert (Hok : memory_ok s) by (apply memory_calls_ok; split; [done|]; intros i k Hk; simpl in Hk; by rewrite lookup_empty in Hk).
  destruct (proj2 Hok _ _ Hc) as [Hid _]. split; [done|]. split; [by apply memory_call_follows|].
  intros st Hst Ht. clear Hid. clearbody s. revert s Hok Hc. induction cs' as [|k cs' IH]; intros s Hok Hc; [done|].
  destruct (memory_call_follows k s Hok) as [Hok' Hf]. destruct (Hf _ _ Hc) as (cmd' & Hc' & Hcf).
  rewrite (terminal_follows _ _ _ Hst Ht Hcf) in Hc'. by apply IH.
Qed.

(** The repository is documented as behaviourally aligned with the PostgreSQL
    store, which keeps one row per message; this one keeps every copy. *)
Lemma memory_telemetry_duplicates rec s d s1 s2 r1 r2 :
  ms_devices s !! deviceKey (rec_TenantID rec) (rec_DeviceID rec) = Some d ->
  RestoreTelemetryContext None rec s = (Ok r1, s1) -> RestoreTelemetryContext None rec s1 = (Ok r2, s2) ->
  ListTelemetry (rec_TenantID rec) (rec_DeviceID rec) s2 = ListTelemetry (rec_TenantID rec) (rec_DeviceID rec) s ++ [rec; rec].
Proof.
  intros Hd. unfold RestoreTelemetryContext, mbind, mop_bind, mcheck, mget, mput, mret, mop_ret. cbn [ctx_err].
  destruct (ValidateTelemetryPayload _); [|done]. destruct (IsZero _); [done|]. rewrite Hd. intros [= <- <-]. simpl. rewrite Hd.
  intros [= <- <-]. unfold ListTelemetry. simpl. rewrite !lookup_insert_eq. simpl. by rewrite <- app_assoc.
Qed.
End memory.

(** A command created off a microsecond ends a page with a cursor that the next
    call refuses. *)
Lemma memory_cursor_refused `{CursorLaws} page at_ id :
  ValidateStorageField "cursor id" id 64 = Ok tt -> -62167219200 * Second <= at_ < 253402300800 * Second -> at_ mod 1000 <> 0 ->
  decodePageCursor (with_cursor page (encodePageCursor page "commands" at_ id)) "commands" = Err errInvalidCursor.
Proof.
  intros Hid Hr Hm. pose proof (cursor_field_ok _ _ _ Hid) as (Hne & Hl & Hu & _).
  unfold decodePageCursor. cbn [pg_Cursor with_cursor]. unfold encodePageCursor.
  destruct (String.eqb_spec (EncodeToString RawURLEncoding
    (marshal_cursor (MkListCursor 1 (cursorScope page "commands") (format_rfc3339nano at_) id))) "") as [E|_].
  { exfalso. eapply encode_nonempty; [|exact E]. apply len_pos_nonempty. apply cursor_text. }
  destruct (4096 <? _); [done|]. rewrite base64_roundtrip, cursor_decodes by (first [done|apply digest_utf8|apply format_utf8]).
  cbn [lc_Version lc_Scope lc_Time lc_ID]. destruct (_ || _); [done|]. rewrite Hid, format_parses by done. cbn [negb is_ok].
  cbn [String.eqb Ascii.eqb Bool.eqb andb orb]. by rewrite (proj2 (Z.eqb_neq _ _) Hm).
Qed.

(** ** Example: a device reports a failure, and later an acknowledgement arrives
    that must not revive the command. *)
#[local] Existing Instance StoreProperties.sample_unicode.

Definition sample_calls : list MemoryCall :=
  [MCreateTenant (MkTenant "acme" "Acme"); MCreateDevice 5 (MkDevice "acme" "d1" "p" "secret" zero_time);
   MCreateCommand None 10 11 "acme" "d1" "k" "{}"; MAckCommand None 20 "cmd-1" "acme" "d1" (MkCommandResult "failed" "E1" "")].
Definition sample_late : list MemoryCall := [MAckCommand None 30 "cmd-1" "acme" "d1" (MkCommandResult "acked" "" "")].

Lemma memory_commands_lifecycle_witness :
  let run cs s := memory_calls String.eqb (fun a b => bool_decide (a = b)) (fun _ => Ok tt) cs s in
  let s := run sample_calls (newMemoryStore 100) in
  exists cmd, ms_commands s !! "cmd-1" = Some cmd /\ cmd_Status cmd = CommandStatusFailed
    /\ ms_commands (run sample_late s) !! "cmd-1" = Some cmd.
Proof.
  intros run s. destruct (ms_commands s !! "cmd-1") as [cmd|] eqn:E; [|vm_compute in E; discriminate E].
  assert (Hst : cmd_Status cmd = CommandStatusFailed) by (vm_compute in E; injection E as <-; reflexivity).
  exists cmd. split; [reflexivity|]. split; [exact Hst|].
  destruct (memory_commands_lifecycle String.eqb (fun a b => bool_decide (a = b)) (fun _ => Ok tt) 100 sample_calls
    (MCreateTenant (MkTenant "x" "X")) sample_late "cmd-1" cmd E) as (_ & _ & Hfinal).
  exact (Hfinal Failed Hst eq_refl).
Defined.
