(* ===== verification/Repository.v ===== *)
(** * The repository interface: internal/platform/interfaces.go

    [Repository] is what the HTTP application asks of a store, as a record of
    operations, and [RepositoryLaws] what it may rely on.  There are two
    implementations: the methods of [PostgresStore] that run in a background
    context (postgres_store.go), and the in-memory store. *)
From stdpp Require Import prelude strings gmap sorting.
From Stdlib Require Import ZArith Lia.
From S2P Require Import Prelude GoStrings Contracts CommandState GoJson Base64 Payload Domain TimeText Pagination Postgres PostgresStore PostgresCommands PostgresLists Lifecycle PostgresRefine StoreProperties CommandProperties TelemetryProperties PageProperties Host Kafka Worker MemoryStore.

Local Open Scope Z_scope.

(** ** Errors of the interface *)
Definition IsNotFound (err : error) : bool := errors_is err ErrNotFound.
Definition IsAlreadyExists (err : error) : bool := errors_is err ErrAlreadyExists.
Definition IsTelemetryDuplicate (err : error) : bool := errors_is err ErrDuplicateTelemetry.

(** [noopPublisher] *)
Definition noop_PublishTelemetry (rec : TelemetryRecord) : IO (option error) := mret None.
Definition noop_PublishCommand (cmd : Command) : IO (option error) := mret None.

(** ** The interface *)

(** What a call reads besides its arguments: the clock, twice, and the
    generator of identifiers. *)
Record Readings := MkReadings { rd_now : Z; rd_now' : Z; rd_newID : result string }.

Record Repository (S : Type) := MkRepository {
  CreateTenant : Tenant -> S -> result Tenant * S;
  ListTenants : S -> list Tenant * S;
  CreateDevice : Readings -> Device -> S -> result Device * S;
  ListDevices : S -> list Device * S;
  GetDevice : string -> string -> S -> option Device * S;
  RecordTelemetry : Readings -> Envelope -> S -> result TelemetryRecord * S;
  ListTelemetry : string -> string -> S -> list TelemetryRecord * S;
  GetDeviceStatus : Readings -> string -> string -> S -> option DeviceStatus * S;
  CreateCommand : Readings -> string -> string -> string -> S -> result Command * S;
  AckCommand : Readings -> string -> string -> string -> S -> result Command * S;
  ListCommands : S -> list Command * S;
  GetCommand : string -> S -> option Command * S }.
Arguments CreateTenant {S} r t s.
Arguments ListTenants {S} r s.
Arguments CreateDevice {S} r rd d s.
Arguments ListDevices {S} r s.
Arguments GetDevice {S} r t d s.
Arguments RecordTelemetry {S} r rd env s.
Arguments ListTelemetry {S} r t d s.
Arguments GetDeviceStatus {S} r rd t d s.
Arguments CreateCommand {S} r rd t d payload s.
Arguments AckCommand {S} r rd id t d s.
Arguments ListCommands {S} r s.
Arguments GetCommand {S} r id s.

Definition terminal_status (st : string) : Prop := exists s, st = status_string s /\ terminal s = true.

(** What was stored is found again, nobody else's command is acknowledged, and
    nothing is stored for who is not registered; in states that [ready] admits. *)
Class RepositoryLaws {S : Type} (R : Repository S) (ready : S -> Prop) := {
  tenant_created t t' s s' : ready s -> CreateTenant R t s = (Ok t', s') -> ready s' /\ t' = t
    /\ forall name r s'', CreateTenant R (MkTenant (ten_ID t) name) s' = (r, s'') -> s'' = s' /\ is_ok r = false;
  device_found rd d d' s s' : ready s -> CreateDevice R rd d s = (Ok d', s') -> ready s'
    /\ exists x, (GetDevice R (dev_TenantID d) (dev_DeviceID d) s').1 = Some x
         /\ dev_TenantID x = dev_TenantID d /\ dev_DeviceID x = dev_DeviceID d /\ dev_ProductID x = dev_ProductID d;
  telemetry_listed rd env rec s s' : ready s -> RecordTelemetry R rd env s = (Ok rec, s') -> ready s'
    /\ exists rec', rec' ∈ (ListTelemetry R (env_TenantID env) (env_DeviceID env) s').1
         /\ rec_MsgID rec' = env_MsgID env /\ rec_Ts rec' = env_Ts env /\ rec_Type rec' = env_Type env /\ rec_Version rec' = env_Version env;
  telemetry_registered rd env r s s' : ready s -> (GetDevice R (env_TenantID env) (env_DeviceID env) s).1 = None ->
    RecordTelemetry R rd env s = (r, s') -> s' = s /\ is_ok r = false;
  command_found rd t d payload c s s' : ready s -> CreateCommand R rd t d payload s = (Ok c, s') -> ready s'
    /\ is_Some (GetDevice R t d s).1
    /\ exists c', (GetCommand R (cmd_ID c) s').1 = Some c' /\ cmd_TenantID c' = t /\ cmd_DeviceID c' = d
         /\ cmd_Status c' = cmd_Status c /\ cmd_Result c' = None;
  ack_own rd id t d c s s' : ready s -> AckCommand R rd id t d s = (Ok c, s') -> ready s'
    /\ exists c', (GetCommand R id s').1 = Some c' /\ cmd_TenantID c' = t /\ cmd_DeviceID c' = d
         /\ cmd_Status c' = cmd_Status c /\ terminal_status (cmd_Status c');
  ack_foreign rd id t d r s s' : ready s ->
    (forall c, (GetCommand R id s).1 = Some c -> cmd_TenantID c = t -> cmd_DeviceID c <> d) ->
    AckCommand R rd id t d s = (r, s') -> s' = s /\ is_ok r = false }.

(** ** postgres_store.go: the methods without a context *)
Module Pg.
Section pg.
Context `{Unicode} `{PgEnv} `{CursorEnv}.

(** A failed list is empty, a failed lookup finds nothing. *)
Definition listed {A} (op : Op (list A)) (w : World) : list A * World := let '(r, w) := op w in (match r with Ok rows => rows | Err _ => [] end, w).
Definition found {A} (op : Op A) (w : World) : option A * World := let '(r, w) := op w in (match r with Ok a => Some a | Err _ => None end, w).

Definition CreateTenant (t : Tenant) : Op Tenant := CreateTenantContext t.
Definition ListTenants : World -> list Tenant * World := listed ListTenantsContext.
Definition ListTenantsPage (page : PageRequest) : Op (list Tenant * string) := PostgresLists.ListTenantsPageContext page.
Definition ListDevicesPage (page : PageRequest) : Op (list Device * string) := PostgresLists.ListDevicesPageContext page.
Definition CreateDevice (now : Z) (d : Device) : Op Device := CreateDeviceContext now d.
Definition ListDevices : World -> list Device * World := listed ListDevicesContext.
Definition GetDevice (tenantID deviceID : string) : World -> option Device * World := found (GetDeviceContext tenantID deviceID).
Definition AuthenticateDevice (tenantID deviceID secret : string) : World -> bool * World := AuthenticateDeviceContext tenantID deviceID secret.

(** The record comes with the error when it is a duplicate. *)
Definition RecordTelemetry (received now : Z) (env : Envelope) : Op TelemetryRecord := fun w =>
  let '(r, w) := PostgresStore.RecordTelemetryContext received now env w in
  (match r with Ok (Fresh rec) => Ok rec | Ok (Duplicate _) => Err [ErrDuplicateTelemetry] | Err e => Err e end, w).

Definition MarkTelemetryTDengineWritten (msgID tenantID deviceID : string) : Op unit := MarkTelemetryTDengineWrittenContext msgID tenantID deviceID.
Definition ListTelemetry (tenantID deviceID : string) : World -> list TelemetryRecord * World := listed (ListTelemetryContext tenantID deviceID).
Definition ListTelemetryPage (page : PageRequest) : Op (list TelemetryRecord * string) := PostgresLists.ListTelemetryPageContext page.
Definition GetDeviceStatus (ttl now : Z) (tenantID deviceID : string) : World -> option DeviceStatus * World :=
  found (GetDeviceStatusContext ttl now tenantID deviceID).
Definition AckCommand (now : Z) (id tenantID deviceID : string) : Op Command := AckCommandContext now id tenantID deviceID.
Definition ClaimCommandsForDispatch (locked : gset string) (dbnow limit lease : Z) : Op (list Command) :=
  ClaimCommandsForDispatchContext locked dbnow limit lease.
Definition MarkCommandPublished (dbnow : Z) (id : string) (attempt : Z) : Op Z := MarkCommandPublishedContext dbnow id attempt.
Definition MarkCommandSent (dbnow : Z) (id : string) (deadline : Z) : Op Z := MarkCommandSentContext dbnow id deadline.
Definition RescheduleCommand (dbnow : Z) (id : string) (attempt retryAfter : Z) : Op unit := RescheduleCommandContext dbnow id attempt retryAfter.
Definition RequeueCommand (dbnow : Z) (id : string) (retryAfter : Z) : Op Z := RequeueCommandContext dbnow id retryAfter.
Definition ExpireCommands (locked : gset string) (now nullDeadlineGrace : Z) : Op Z := ExpireCommandsContext locked now nullDeadlineGrace.
Definition RecoverStaleCommands (locked1 locked2 : gset string) (dbnow1 dbnow2 staleBefore maxAttempts : Z) : Op (Z * Z) :=
  RecoverStaleCommandsContext locked1 locked2 dbnow1 dbnow2 staleBefore maxAttempts.
Definition ListCommands : World -> list Command * World := listed ListCommandsContext.
Definition ListCommandsPage (page : PageRequest) : Op (list Command * string) := PostgresLists.ListCommandsPageContext page.
Definition GetCommand (id : string) : World -> option Command * World := found (GetCommandContext id).

(** The probe of the connection. *)
Definition PingContext : Op unit := db_exec (query (fun _ => Ok tt)).

(** [ttl] is the liveness window the store was opened with. *)
Definition repository (ttl : Z) : Repository World :=
  MkRepository World CreateTenant ListTenants (fun rd => CreateDevice (rd_now rd)) ListDevices GetDevice
    (fun rd => RecordTelemetry (rd_now rd) (rd_now' rd)) ListTelemetry (fun rd => GetDeviceStatus ttl (rd_now rd))
    (fun rd => PostgresCommands.CreateCommand (rd_now rd) (rd_newID rd)) (fun rd => AckCommand (rd_now rd)) ListCommands GetCommand.
End pg.
End Pg.

(** ** worker_storage.go and service.go: the methods with a context, when the store has them *)
Section stored.
Context {S A : Type}.

Definition restoreStoredTelemetry (restorer : option (TelemetryRecord -> S -> A * S)) (inbox : option (Envelope -> S -> A * S))
    (record : Envelope -> S -> A * S) (rec : TelemetryRecord) : S -> A * S :=
  match restorer with
  | Some restore => restore rec
  | None =>
    let env := MkEnvelope (rec_MsgID rec) (rec_TenantID rec) (rec_DeviceID rec) (rec_Ts rec) (rec_Type rec) (rec_Version rec) "" "" "" 0 (rec_Payload rec) in
    match inbox with Some scoped => scoped env | None => record env end
  end.

Definition markStoredCommandSent (scoped : option (string -> Z -> S -> A * S)) (plain : string -> Z -> S -> A * S) (id : string) (deadline : Z) : S -> A * S :=
  match scoped with Some f => f id deadline | None => plain id deadline end.

Definition requeueStoredCommand (scoped : option (string -> Z -> S -> A * S)) (plain : string -> Z -> S -> A * S) (id : string) (backoff : Z) : S -> A * S :=
  match scoped with Some f => f id backoff | None => plain id backoff end.

Definition recordTelemetry (inbox : option (Envelope -> S -> A * S)) (record : Envelope -> S -> A * S) (env : Envelope) : S -> A * S :=
  match inbox with Some scoped => scoped env | None => record env end.
End stored.

(** ** The in-memory store *)
Definition memory_repository `{Unicode} (json_deep_equal : string -> string -> bool)
    (result_deep_equal : CommandResult -> CommandResult -> bool) (json_any : string -> result unit) : Repository memoryStore :=
  MkRepository memoryStore MemoryStore.CreateTenant (fun s => (MemoryStore.ListTenants s, s)) (fun rd => MemoryStore.CreateDevice (rd_now rd))
    (fun s => (MemoryStore.ListDevices s, s)) (fun t d s => (MemoryStore.GetDevice t d s, s))
    (fun rd => MemoryStore.RecordTelemetry (rd_now rd)) (fun t d s => (MemoryStore.ListTelemetry t d s, s))
    (fun rd t d s => (MemoryStore.GetDeviceStatus (rd_now rd) t d s, s))
    (fun rd => MemoryStore.CreateCommand json_deep_equal json_any (rd_now rd) (rd_now' rd))
    (fun rd => MemoryStore.AckCommand result_deep_equal (rd_now rd)) (fun s => (MemoryStore.ListCommands s, s))
    (fun id s => (MemoryStore.GetCommand id s, s)).

(** *** It keeps the contract *)
Section memory_laws.
Context `{Unicode}.
Variables (json_deep_equal : string -> string -> bool) (result_deep_equal : CommandResult -> CommandResult -> bool) (json_any : string -> result unit).

#[local] Notation R := (memory_repository json_deep_equal result_deep_equal json_any).

(** One case of a run of the in-memory store; the runs that contradict the
    outcome are gone. *)
Ltac mcase x := destruct x eqn:?; simpl in *; try (by simplify_eq/=).
Ltac mstart := simpl; unfold mbind, mop_bind, mcheck, mget, mput, mret, mop_ret; simpl.

Lemma memory_tenant_created t t' s s' : CreateTenant R t s = (Ok t', s') ->
  t' = t /\ forall name r s'', CreateTenant R (MkTenant (ten_ID t) name) s' = (r, s'') -> s'' = s' /\ is_ok r = false.
Proof.
  simpl. unfold MemoryStore.CreateTenant. mstart. intros E. mcase (ValidateTenantName (ten_Name t)). mcase (IsValidTenantID (ten_ID t)).
  mcase (ms_tenants s !! ten_ID t). simplify_eq/=. split; [done|]. intros name r s'' E. mcase (ValidateTenantName name).
  rewrite lookup_insert_eq in E. by simplify_eq/=.
Qed.

Lemma memory_device_found rd d d' s s' : CreateDevice R rd d s = (Ok d', s') ->
  exists x, (GetDevice R (dev_TenantID d) (dev_DeviceID d) s').1 = Some x
    /\ dev_TenantID x = dev_TenantID d /\ dev_DeviceID x = dev_DeviceID d /\ dev_ProductID x = dev_ProductID d.
Proof.
  simpl. unfold MemoryStore.CreateDevice, MemoryStore.GetDevice. mstart. intros E.
  mcase (ValidateProductID (dev_ProductID d)). mcase (ValidateDeviceSecret (dev_Secret d)).
  mcase (negb (IsValidTenantID (dev_TenantID d)) || negb (IsValidTopicPart (dev_DeviceID d))).
  mcase (ms_tenants s !! dev_TenantID d). mcase (ms_devices s !! deviceKey (dev_TenantID d) (dev_DeviceID d)).
  simplify_eq/=. rewrite lookup_insert_eq. eauto.
Qed.

Lemma memory_record rd env r s s' : RecordTelemetry R rd env s = (r, s') ->
  (exists rec l, r = Ok rec /\ is_Some (ms_devices s !! deviceKey (env_TenantID env) (env_DeviceID env))
    /\ (ListTelemetry R (env_TenantID env) (env_DeviceID env) s').1 = l ++ [rec]
    /\ rec_MsgID rec = env_MsgID env /\ rec_Ts rec = env_Ts env /\ rec_Type rec = env_Type env /\ rec_Version rec = env_Version env)
  \/ s' = s /\ is_ok r = false.
Proof.
  simpl. unfold MemoryStore.RecordTelemetry, MemoryStore.RestoreTelemetryContext, MemoryStore.ListTelemetry. mstart. intros E.
  destruct (ValidateTelemetryPayload (env_Payload env)); simpl in E; [|simplify_eq/=; by right].
  destruct (IsZero (rd_now rd)); simpl in E; [simplify_eq/=; by right|].
  destruct (ms_devices s !! _) eqn:Hd; simpl in E; [|simplify_eq/=; by right].
  simplify_eq/=. left. rewrite lookup_insert_eq. simpl. by eauto 12.
Qed.

Lemma memory_command_found rd t d payload c s s' : CreateCommand R rd t d payload s = (Ok c, s') ->
  is_Some (GetDevice R t d s).1
  /\ exists c', (GetCommand R (cmd_ID c) s').1 = Some c' /\ cmd_TenantID c' = t /\ cmd_DeviceID c' = d
       /\ cmd_Status c' = cmd_Status c /\ cmd_Result c' = None.
Proof.
  simpl. unfold MemoryStore.CreateCommand, MemoryStore.CreateCommandWithKey, createCommand, MemoryStore.GetCommand, MemoryStore.GetDevice. mstart.
  intros E. mcase (ValidateCommandInput t d payload). mcase (json_any (if len payload =? 0 then "{}" else payload)).
  mcase (ms_devices s !! deviceKey t d). simplify_eq/=. rewrite lookup_insert_eq. by eauto 10.
Qed.
Lemma delivered_terminal st : commandAlreadyDelivered st && negb (String.eqb st CommandStatusSent) = true -> terminal_status st.
Proof.
  unfold commandAlreadyDelivered. intros [Hd Hn]%andb_true_iff. apply negb_true_iff in Hn. rewrite Hn in Hd. cbn [orb] in Hd.
  apply orb_true_iff in Hd as [[Ha%String.eqb_eq|Ht%String.eqb_eq]%orb_true_iff|Hf%String.eqb_eq]; subst;
    [by exists Acked|by exists TimedOut|by exists Failed].
Qed.

Lemma advance_result st res next : res = CommandStatusAcked \/ res = CommandStatusFailed ->
  AdvanceCommandStatus st res = Ok next -> terminal_status next.
Proof.
  intros Hres (c & n & _ & -> & Htr)%advance_sound. exists n. split; [done|]. destruct Hres as [->| ->]; by inversion Htr.
Qed.

Lemma memory_ack rd id t d r s s' : AckCommand R rd id t d s = (r, s') ->
  (exists c c', r = Ok c /\ (exists c0, ms_commands s !! id = Some c0 /\ cmd_TenantID c0 = t /\ cmd_DeviceID c0 = d)
    /\ (GetCommand R id s').1 = Some c' /\ cmd_TenantID c' = t /\ cmd_DeviceID c' = d /\ cmd_Status c' = cmd_Status c /\ terminal_status (cmd_Status c'))
  \/ s' = s /\ is_ok r = false.
Proof.
  simpl. unfold MemoryStore.AckCommand, MemoryStore.AckCommandResultContext, MemoryStore.GetCommand. mstart. intros E.
  destruct (ValidateDeviceIdentity t d); simpl in E; [|simplify_eq/=; by right].
  destruct (ValidateCommandID id); simpl in E; [|simplify_eq/=; by right].
  destruct (ms_commands s !! id) as [c0|] eqn:Hc; simpl in E; [|simplify_eq/=; by right].
  destruct (String.eqb_spec (cmd_TenantID c0) t) as [Ht|], (String.eqb_spec (cmd_DeviceID c0) d) as [Hd|]; simpl in E; try (simplify_eq/=; by right).
  destruct (commandAlreadyDelivered _ && _) eqn:Hdel; simpl in E.
  - apply delivered_terminal in Hdel. destruct (cmd_Result c0) as [old|]; [destruct (result_deep_equal old _)|]; simplify_eq/=; try (by right); left; eauto 12.
  - destruct (AdvanceCommandStatus _ _) as [next|] eqn:Ha; simpl in E; [|simplify_eq/=; by right]. apply advance_result in Ha; [|by left].
    simplify_eq/=. left. rewrite lookup_insert_eq. eauto 12.
Qed.

#[export] Instance memory_repository_laws : RepositoryLaws R (fun _ => True).
Proof.
  split.
  - intros t t' s s' _ E%memory_tenant_created. done.
  - intros rd d d' s s' _ E%memory_device_found. done.
  - intros rd env rec s s' _ [(rec' & l & [= <-] & _ & Hl & Hf)|[_ Hr]]%memory_record; [|done]. split; [done|]. exists rec. split; [|done].
    rewrite Hl. apply elem_of_app. right. left.
  - intros rd env r s s' _ Hno [(rec' & l & _ & [x Hx] & _)|Hr]%memory_record; [|done]. simpl in Hno. unfold MemoryStore.GetDevice in Hno. congruence.
  - intros rd t d payload c s s' _ E%memory_command_found. done.
  - intros rd id t d c s s' _ [(c0 & c' & [= <-] & _ & Hf)|[_ Hr]]%memory_ack; [|done]. eauto.
  - intros rd id t d r s s' _ Hno [(c0 & c' & _ & (c1 & Hc & Ht & Hd) & _)|Hr]%memory_ack; [|done]. by destruct (Hno c1 Hc Ht).
Qed.
End memory_laws.

(** ** The contract on PostgreSQL, while no round trip fails *)
Section pg_laws.
Context `{Unicode} `{PgEnv} (ttl : Z).

#[local] Notation R := (Pg.repository ttl).

#[local] Notation healthy w := (faults w = []).

Lemma exec_healthy {A} (st : Stmt A) w : healthy w ->
  db_exec st w = match st (committed w) with Ok (a, db') => (Ok a, MkWorld db' []) | Err e => (Err e, w) end.
Proof. intros Hw. unfold db_exec. rewrite next_fault_none by done. destruct (st (committed w)) as [[a db']|e]; [by rewrite Hw|done]. Qed.

Lemma tx_healthy {A} (t : Tx A) w r w' : healthy w -> BeginTx t w = (r, w') ->
  w' = MkWorld (meaning t (committed w)).2 [] /\ r = (meaning t (committed w)).1.
Proof. intros Hw. rewrite begin_tx_no_fault by done. destruct (meaning t (committed w)). by intros [= <- <-]. Qed.

Lemma get_device_pg t d w : healthy w ->
  (GetDevice R t d w).1 = (fun r => MkDevice t d (dr_product_id r) "" (dr_created_at r)) <$> devices (committed w) !! (t, d).
Proof.
  intros Hw. cbn [GetDevice Pg.repository]. unfold Pg.GetDevice, Pg.found, GetDeviceContext, mbind, op_bind, sql_get_device.
  rewrite exec_healthy by done. simpl. by destruct (devices (committed w) !! (t, d)).
Qed.

Lemma get_command_pg id w : healthy w ->
  (GetCommand R id w).1 = row ← commands (committed w) !! id; match scanCommandRow id row with Ok c => Some c | Err _ => None end.
Proof.
  intros Hw. cbn [GetCommand Pg.repository]. unfold Pg.GetCommand, Pg.found, GetCommandContext, mbind, op_bind, sql_get_command.
  rewrite exec_healthy by done. simpl. by destruct (commands (committed w) !! id).
Qed.

Lemma tenant_created_pg t t' s s' : healthy s -> CreateTenant R t s = (Ok t', s') -> healthy s' /\ t' = t
  /\ forall name r s'', CreateTenant R (MkTenant (ten_ID t) name) s' = (r, s'') -> s'' = s' /\ is_ok r = false.
Proof.
  intros Hw. cbn [CreateTenant Pg.repository]. unfold Pg.CreateTenant, CreateTenantContext, mbind, op_bind, check, map_err.
  destruct (ValidateTenantName (ten_Name t)); [|done]. destruct (IsValidTenantID (ten_ID t)) eqn:Hv; [|done]. cbn [negb].
  rewrite exec_healthy by done. unfold sql_insert_tenant at 1. destruct (tenants (committed s) !! ten_ID t); [done|]. intros [= <- <-].
  split_and!; [done|done|]. intros name r s''. cbn [ten_ID ten_Name]. destruct (ValidateTenantName name); [|intros E; by simplify_eq/=].
  rewrite Hv. cbn [negb]. rewrite exec_healthy by done. unfold sql_insert_tenant. cbn [committed tenants ten_ID]. rewrite lookup_insert_eq. by intros [= <- <-].
Qed.

Lemma device_found_pg rd d d' s s' : healthy s -> CreateDevice R rd d s = (Ok d', s') -> healthy s'
  /\ exists x, (GetDevice R (dev_TenantID d) (dev_DeviceID d) s').1 = Some x
       /\ dev_TenantID x = dev_TenantID d /\ dev_DeviceID x = dev_DeviceID d /\ dev_ProductID x = dev_ProductID d.
Proof.
  intros Hw. cbn [CreateDevice Pg.repository]. unfold Pg.CreateDevice, CreateDeviceContext, mbind, op_bind, check.
  destruct (ValidateProductID _); [|done]. destruct (_ || _); [done|]. intros [-> Hm]%tx_healthy; [|done]. split; [done|].
  rewrite get_device_pg by done. unfold meaning, create_device_tx in *. cbn [tx_meaning] in *. unfold sql_tenant_exists, query in *. cbn [mbind result_bind] in *.
  case_bool_decide; cbn [negb tx_meaning] in *; [|done]. destruct (HashDeviceSecret _) as [hash|]; [|done]. cbn [tx_meaning] in *.
  unfold sql_insert_device in *. cbn [dev_TenantID dev_DeviceID] in *.
  destruct (devices (committed s) !! _); [done|]. destruct (tenants (committed s) !! _); [|done]. cbn in *.
  rewrite lookup_insert_eq. eexists. split; [done|]. by cbn.
Qed.
Lemma record_pg rd env r s s' : healthy s -> RecordTelemetry R rd env s = (r, s') ->
  (exists rec row, r = Ok rec /\ healthy s' /\ is_Some (devices (committed s) !! (env_TenantID env, env_DeviceID env))
    /\ telemetry_records (committed s') !! (env_MsgID env, env_TenantID env, env_DeviceID env) = Some row
    /\ tr_ts row = env_Ts env /\ tr_type row = env_Type env /\ tr_version row = env_Version env)
  \/ s' = s /\ is_ok r = false.
Proof.
  intros Hw. cbn [RecordTelemetry Pg.repository]. unfold Pg.RecordTelemetry, PostgresStore.RecordTelemetryContext.
  set (rec := MkTelemetryRecord _ _ _ _ _ _ _ _ _). unfold PostgresStore.RestoreTelemetryContext, mbind, op_bind, check.
  assert (Hs : MkWorld (committed s) [] = s) by (by apply world_eta).
  destruct (ValidateTelemetryPayload _); [|intros [= <- <-]; by right]. destruct (IsZero _); [intros [= <- <-]; by right|].
  destruct (BeginTx _ s) as [r0 w0] eqn:Hb. apply tx_healthy in Hb as [-> ->]; [|done].
  destruct (meaning _ (committed s)) as [r0 db'] eqn:Hm. apply restore_meaning in Hm. intros [= <- <-].
  destruct r0 as [[rec'|stored]|e]; simpl in Hm.
  - destruct Hm as (-> & _ & Hdev & row & st & Ht & Hts & _ & _ & _ & _ & Hty & Hv). left. exists (clear_written rec), row.
    split_and!; try done. simpl. by rewrite Ht, lookup_insert_eq.
  - destruct Hm as [-> _]. right. by rewrite Hs.
  - subst. right. by rewrite Hs.
Qed.

Lemma list_telemetry_pg t d w msg row : healthy w -> telemetry_records (committed w) !! (msg, t, d) = Some row ->
  telemetry_scan ((msg, t, d), row) ∈ (ListTelemetry R t d w).1.
Proof.
  intros Hw Hrow. cbn [ListTelemetry Pg.repository]. unfold Pg.ListTelemetry, Pg.listed, PostgresLists.ListTelemetryContext, mbind, op_bind.
  rewrite exec_healthy by done. simpl. apply list_elem_of_fmap. eexists. split; [done|]. rewrite merge_sort_Permutation.
  apply list_elem_of_filter. split; [done|]. by apply elem_of_map_to_list.
Qed.
Lemma command_found_pg rd t d payload c s s' : healthy s -> CreateCommand R rd t d payload s = (Ok c, s') -> healthy s'
  /\ is_Some (GetDevice R t d s).1
  /\ exists c', (GetCommand R (cmd_ID c) s').1 = Some c' /\ cmd_TenantID c' = t /\ cmd_DeviceID c' = d
       /\ cmd_Status c' = cmd_Status c /\ cmd_Result c' = None.
Proof.
  intros Hw. cbn [CreateCommand Pg.repository].
  unfold PostgresCommands.CreateCommand, PostgresCommands.CreateCommandWithKey, mbind, op_bind, check.
  destruct (ValidateCommandInput t d payload); [|done]. destruct (ValidateIdempotencyKey ""); [|done].
  intros [-> Hm]%tx_healthy; [|done]. split; [done|]. rewrite get_device_pg, get_command_pg by done.
  unfold meaning, create_command_tx, requireDevice in *. cbn [tx_meaning] in *. unfold sql_device_exists, query in *. cbn [mbind result_bind] in *.
  case_bool_decide as Hdev; cbn [negb tx_meaning] in *; [|done]. split; [by apply fmap_is_Some|].
  unfold sql_jsonb, query in *. destruct (jsonb_cast _) as [norm|]; cbn [mbind result_bind] in *; [|done].
  destruct (ValidateCommandInput t d norm); [|done]. destruct (rd_newID rd) as [id|]; [|done]. cbn [tx_meaning] in *.
  unfold sql_insert_command in *. cbn [cmd_Payload cmd_ID cmd_TenantID cmd_DeviceID cmd_Status] in *.
  destruct (jsonb_cast norm) as [stored|]; cbn [mbind result_bind option_bind nullif_empty String.eqb] in *; [|done].
  destruct (commands (committed s) !! id); [done|]. cbn in *. injection Hm as ->. rewrite lookup_insert_eq. cbn. eauto 10.
Qed.

Lemma terminal_status_of st : is_terminal_status st = true -> terminal_status st.
Proof.
  unfold is_terminal_status. intros [[Ha%String.eqb_eq|Ht%String.eqb_eq]%orb_true_iff|Hf%String.eqb_eq]%orb_true_iff; subst;
    [by exists Acked|by exists TimedOut|by exists Failed].
Qed.

(** Opens the transaction up to the row it reads. *)
Ltac ack_open Hrow := unfold meaning, ack_command_tx, sql_get_command, query; simpl; rewrite Hrow; simpl.

(** The transaction of an acknowledgement: refused without change, or recorded
    for a command of the device. *)
Lemma ack_meaning rd id t d n enc db :
  result_readable -> res_Status n = CommandStatusAcked \/ res_Status n = CommandStatusFailed -> marshal_result n = Ok enc ->
  let '(r, db') := meaning (ack_command_tx (rd_now rd) id t d n enc) db in
  let get db := row ← commands db !! id; match scanCommandRow id row with Ok c => Some c | Err _ => None end in
  (db' = db /\ is_ok r = false)
  \/ exists c c0 c', r = Ok c /\ get db = Some c0 /\ cmd_TenantID c0 = t /\ cmd_DeviceID c0 = d
       /\ get db' = Some c' /\ cmd_TenantID c' = t /\ cmd_DeviceID c' = d /\ cmd_Status c' = cmd_Status c /\ terminal_status (cmd_Status c').
Proof.
  intros Hread Hn Henc. destruct (commands db !! id) as [row|] eqn:Hrow.
  2: { ack_open Hrow. by left. }
  destruct (scanCommandRow id row) as [cmd|e] eqn:Hscan.
  2: { ack_open Hrow. rewrite Hscan. simpl. by left. }
  pose proof (scan_row_fields _ _ _ Hscan) as (_ & Et & Ed & Es).
  destruct (decide (cr_tenant_id row = t /\ cr_device_id row = d)) as [[Ht Hd]|Hne].
  2: { ack_open Hrow. rewrite Hscan, Et, Ed.
       destruct (String.eqb_spec (cr_tenant_id row) t), (String.eqb_spec (cr_device_id row) d); simpl; try (by left). by destruct Hne. }
  destruct (is_terminal_status (cr_status row)) eqn:Hterm.
  - rewrite (ack_tx_terminal _ _ _ _ _ _ _ row cmd) by done. apply terminal_status_of in Hterm.
    assert (Hsame : forall P : Prop, P \/ exists c c0 c', Ok cmd = Ok c /\ (row ← commands db !! id; match scanCommandRow id row with Ok c => Some c | Err _ => None end) = Some c0
       /\ cmd_TenantID c0 = t /\ cmd_DeviceID c0 = d
       /\ (row ← commands db !! id; match scanCommandRow id row with Ok c => Some c | Err _ => None end) = Some c'
       /\ cmd_TenantID c' = t /\ cmd_DeviceID c' = d /\ cmd_Status c' = cmd_Status c /\ terminal_status (cmd_Status c')).
    { intros P. right. exists cmd, cmd, cmd. rewrite Hrow. simpl. rewrite Hscan. split_and!; congruence. }
    destruct (cmd_Result cmd); [destruct (sql_result_equals id enc db) as [[[] ?]|]|]; try (by left); apply Hsame.
  - destruct (AdvanceCommandStatus (cr_status row) (res_Status n)) as [next|e] eqn:Hadv.
    2: { ack_open Hrow. rewrite Hscan, Et, Ed, Es, Ht, Hd, !String.eqb_refl, Hterm. simpl. rewrite Hadv. simpl. by left. }
    destruct (jsonb_cast enc) as [e|] eqn:Hcast.
    + erewrite ack_tx_live by done. right. destruct (Hread _ _ _ Henc Hcast) as (Hlen & r' & Hr').
      exists (acknowledged cmd next (rd_now rd) n), cmd. simpl. rewrite Hrow, lookup_insert_eq. simpl. rewrite Hscan.
      unfold scanCommandRow. simpl. apply Z.eqb_neq in Hlen. rewrite Hlen, Hr'. simpl. eexists. split_and!; try done; simpl; try congruence.
      by eapply advance_result.
    + ack_open Hrow.
      rewrite Hscan, Et, Ed, Es, Ht, Hd, !String.eqb_refl, Hterm. simpl. rewrite Hadv. simpl.
      unfold sql_set_result. rewrite Hcast. simpl. by left.
Qed.

Lemma ack_pg rd id t d r s s' : result_readable -> healthy s -> AckCommand R rd id t d s = (r, s') ->
  (exists c c', r = Ok c /\ healthy s' /\ (exists c0, (GetCommand R id s).1 = Some c0 /\ cmd_TenantID c0 = t /\ cmd_DeviceID c0 = d)
    /\ (GetCommand R id s').1 = Some c' /\ cmd_TenantID c' = t /\ cmd_DeviceID c' = d /\ cmd_Status c' = cmd_Status c /\ terminal_status (cmd_Status c'))
  \/ s' = s /\ is_ok r = false.
Proof.
  intros Hread Hw. cbn [AckCommand Pg.repository]. unfold Pg.AckCommand, AckCommandContext, PostgresCommands.AckCommandResultContext, mbind, op_bind, check.
  assert (Hs : MkWorld (committed s) [] = s) by (by apply world_eta).
  destruct (ValidateDeviceIdentity t d); [|intros [= <- <-]; by right]. destruct (ValidateCommandID id); [|intros [= <- <-]; by right].
  destruct (NormalizeCommandResult _) as [n|] eqn:Hn; [|intros [= <- <-]; by right]. apply normalize_status in Hn.
  destruct (marshal_result n) as [enc|] eqn:Henc; [|intros [= <- <-]; by right].
  intros [-> ->]%tx_healthy; [|done]. rewrite !get_command_pg by done. cbn [committed].
  pose proof (ack_meaning rd id t d n enc (committed s) Hread Hn Henc) as Hm.
  destruct (meaning _ (committed s)) as [r db']. cbn [fst snd] in *. destruct Hm as [[-> Hr]|(c & c0 & c' & -> & Hg & Hg1 & Hg2 & Hg3 & Hg4 & Hg5 & Hg6 & Hg7)].
  - right. by rewrite Hs.
  - left. exists c, c'. split_and!; try done. by exists c0.
Qed.

#[export] Instance pg_repository_laws : result_readable -> RepositoryLaws R (fun w => healthy w).
Proof.
  intros Hread. split.
  - intros t t' s s' Hw E. by eapply tenant_created_pg.
  - intros rd d d' s s' Hw E. by eapply device_found_pg.
  - intros rd env rec s s' Hw E. destruct (record_pg _ _ _ _ _ Hw E) as [(rec' & row & _ & Hw' & _ & Hrow & Hts & Hty & Hv)|[_ Hr]]; [|done].
    split; [done|]. eexists. split; [by apply (list_telemetry_pg _ _ _ (env_MsgID env) row)|]. done.
  - intros rd env r s s' Hw Hno E. destruct (record_pg _ _ _ _ _ Hw E) as [(rec' & row & _ & _ & [x Hx] & _)|Hr]; [|done].
    rewrite get_device_pg, Hx in Hno by done. done.
  - intros rd t d payload c s s' Hw E. by eapply command_found_pg.
  - intros rd id t d c s s' Hw E. destruct (ack_pg _ _ _ _ _ _ _ Hread Hw E) as [(c0 & c' & [= <-] & Hw' & _ & Hf)|[_ Hr]]; [|done]. eauto.
  - intros rd id t d r s s' Hw Hno E. destruct (ack_pg _ _ _ _ _ _ _ Hread Hw E) as [(c0 & c' & _ & _ & (c1 & Hc & Ht & Hd) & _)|Hr]; [|done].
    by destruct (Hno c1 Hc Ht).
Qed.
End pg_laws.


#[local] Existing Instance sample_unicode.
#[local] Existing Instance sample_pg.

