(* ===== verification/AdminApi.v ===== *)
(** * The management API: internal/adminapi/server.go

    A REST gateway in front of the core service.  Handlers call the core through
    a [CoreServiceClient]; each call may fail in transit, before the core saw it
    or after it acted.  Texts of errors are left out, and a response is its
    status and the value that is encoded as its body. *)
From stdpp Require Import prelude strings gmap.
From Stdlib Require Import ZArith Lia Ascii.
From S2P Require Import Prelude GoStrings Contracts CommandState GoJson Base64 Payload Domain GoNet TimeText Pagination HttpParams HttpAuth Postgres PostgresStore PostgresCommands PostgresLists Host Kafka Bridge CoreService.

Local Open Scope Z_scope.

(** ** The client of the core *)
Record CoreServiceClient := MkCoreServiceClient {
  rpc_CreateTenant : string -> string -> IO (rpc Tenant);
  rpc_ListTenants : Z -> string -> IO (rpc (list Tenant * string));
  rpc_CreateDevice : string -> string -> string -> string -> IO (rpc PbDevice);
  rpc_ListDevices : Z -> string -> string -> IO (rpc (list PbDevice * string));
  rpc_GetDevice : string -> string -> IO (rpc PbDevice);
  rpc_GetDeviceStatus : string -> string -> IO (rpc PbDeviceStatus);
  rpc_ListTelemetry : Z -> string -> string -> string -> option (option Z) -> option (option Z) -> string -> string
                      -> IO (rpc (list PbTelemetry * string));
  rpc_IngestTelemetry : TelemetryRequest -> IO (rpc PbTelemetry);
  rpc_CreateCommand : string -> string -> string -> string -> IO (rpc PbCommand);
  rpc_ListCommands : Z -> string -> string -> string -> option (option Z) -> option (option Z) -> string -> string
                     -> IO (rpc (list PbCommand * string));
  rpc_GetCommand : string -> string -> IO (rpc PbCommand);
  rpc_AckCommand : string -> string -> string -> option CommandResult -> IO (rpc PbCommand) }.

(** What became of a call in transit. *)
Inductive Transport :=
| Delivered
| NotSent (c : code)
| ReplyLost (c : code).

Definition over_grpc {A} (tr : Transport) (m : IO (rpc A)) : IO (rpc A) :=
  match tr with
  | Delivered => m
  | NotSent c => mret (Status c)
  | ReplyLost c => _ ← m; mret (Status c)
  end.

(** ** Representations *)

(** contracts/responses.go *)
Record CommandResponse := MkCommandResponse {
  cp_ID : string;
  cp_TenantID : string;
  cp_DeviceID : string;
  cp_Status : string;
  cp_Payload : string;
  cp_CreatedAt : Z;
  cp_UpdatedAt : Z;
  cp_Result : option CommandResult }.

Inductive Body :=
| BText (status : string)
| BSchema
| BError
| BTenant (t : Tenant)
| BTenants (items : list Tenant) (nextCursor : string)
| BDevice (d : Device)
| BDevices (items : list Device) (nextCursor : string)
| BDeviceStatus (s : DeviceStatus)
| BTelemetry (rec : TelemetryRecord)
| BTelemetries (items : list TelemetryRecord) (nextCursor : string)
| BCommand (c : CommandResponse)
| BCommands (items : list CommandResponse) (nextCursor : string).

Record Response := MkResponse { rs_Status : Z; rs_Body : Body }.

Definition writeJSON (status : Z) (v : Body) : IO Response := mret (MkResponse status v).
Definition writeError (status : Z) : IO Response := writeJSON status BError.

Definition httpStatusFromGRPC (c : code) : Z :=
  match c with
  | OK => 200
  | InvalidArgument | FailedPrecondition | OutOfRange => 400
  | NotFound => 404
  | AlreadyExists | Aborted => 409
  | Unauthenticated => 401
  | PermissionDenied => 403
  | ResourceExhausted => 429
  | DeadlineExceeded => 504
  | Unavailable => 502
  | _ => 500
  end.

Definition writeRPCError (c : code) : IO Response := writeError (httpStatusFromGRPC c).

Definition timestampToTime (ts : option Z) : Z := match ts with None => zero_time | Some t => t end.

Definition deviceFromPB (device : option PbDevice) : Device :=
  match device with
  | None => MkDevice "" "" "" "" zero_time
  | Some d => MkDevice (pd_TenantId d) (pd_DeviceId d) (pd_ProductId d) "" (timestampToTime (pd_CreatedAt d))
  end.

Definition deviceStatusFromPB (status : option PbDeviceStatus) : DeviceStatus :=
  match status with
  | None => MkDeviceStatus "" "" false zero_time
  | Some s => MkDeviceStatus (ps_TenantId s) (ps_DeviceId s) (ps_Online s) (timestampToTime (ps_LastSeenAt s))
  end.

Definition telemetryFromPB (record : option PbTelemetry) : TelemetryRecord :=
  match record with
  | None => MkTelemetryRecord "" "" "" 0 "" "" "" false zero_time
  | Some t => MkTelemetryRecord (pt_MsgId t) (pt_TenantId t) (pt_DeviceId t) (pt_Ts t) (pt_Type t) (pt_Version t)
                (pt_Payload t) false (timestampToTime (pt_ReceivedAt t))
  end.

Definition resultFromPB (result : option CommandResult) : option CommandResult :=
  match result with
  | None => None
  | Some r => Some (MkCommandResult (res_Status r) (res_ErrorCode r) (res_Payload r))
  end.

Definition commandFromPB (command : option PbCommand) : CommandResponse :=
  match command with
  | None => MkCommandResponse "" "" "" "" "" zero_time zero_time None
  | Some c => MkCommandResponse (pc_Id c) (pc_TenantId c) (pc_DeviceId c) (pc_Status c) (pc_Payload c)
                (timestampToTime (pc_CreatedAt c)) (timestampToTime (pc_UpdatedAt c)) (resultFromPB (pc_Result c))
  end.

(** ** Requests *)

(** Decoding a body into the struct of a handler, unknown fields refused. *)
Class RequestDecoders := {
  decode_tenant : string -> result (string * string);
  decode_device : string -> result (string * string * string);
  decode_telemetry : string -> result (string * Z * string * string * string);
  decode_command : string -> result string;
  decode_result : string -> result CommandResult }.

Definition maxRequestBodyBytes : Z := 1048576.

Section api.
Context `{Unicode} `{TimeText} `{RequestDecoders}.

(** [decodeJSON] behind [limitRequestBodyMiddleware]: reading past the limit is
    an error. *)
Definition decodeJSON {A} (decode : string -> result A) (r : Request) : result A :=
  if maxRequestBodyBytes <? len (rq_Body r) then Err [Opaque "http: request body too large"]
  else DecodeRequestJSON decode (rq_Body r).

(** The status a handler answers when its path or query is not accepted. *)
Definition requestParameters (r : Request) : ManagementParameters + Z :=
  match ManagementRequest r with
  | Err e => inr (if errors_is e ErrNotFound then 404 else 400)
  | Ok params => inl params
  end.

Definition pageFromRequest (r : Request) : result (Z * string) :=
  params ← ManagementRequest r;
  let raw := values_get (mp_Query params) "pageSize" in
  size ← (if String.eqb raw "" then Ok 0 else match Atoi raw with Some n => Ok n | None => Err [Opaque "strconv.Atoi"] end);
  page ← NormalizePageRequest size (values_get (mp_Query params) "cursor");
  Ok (pg_Size page, pg_Cursor page).

Definition commandDeviceFilter (p : ManagementParameters) : string :=
  if negb (String.eqb (mp_DeviceID p) "") then mp_DeviceID p else values_get (mp_Query p) "deviceId".

(** [timestamppb.Timestamp.CheckValid] *)
Definition timestamp_valid (t : Z) : bool := (zero_time <=? t) && (t <? 253402300800 * Second).

Definition request_time (raw : string) : result (option (option Z)) :=
  if String.eqb raw "" then Ok None
  else match parse_rfc3339nano raw with
       | None => Err [Opaque "time filters must be RFC3339 with at most millisecond precision"]
       | Some stamp =>
         if negb (stamp mod Millisecond =? 0) then Err [Opaque "time filters must be RFC3339 with at most millisecond precision"]
         else if negb (timestamp_valid stamp) then Err [Opaque "timestamp out of range"]
         else Ok (Some (Some stamp))
       end.

Definition requestTimes (start end_ : string) : result (option (option Z) * option (option Z)) :=
  a ← request_time start; b ← request_time end_; Ok (a, b).

(** ** Handlers *)
Section handlers.
Context (client : CoreServiceClient) (tr : Transport).

(** A call whose failure is mapped by its code. *)
Definition call {A} (m : IO (rpc A)) (k : A -> IO Response) : IO Response :=
  resp ← over_grpc tr m;
  match resp with
  | Status c => writeRPCError c
  | Reply a => k a
  end.

Definition healthHandler (r : Request) : IO Response := writeJSON 200 (BText "ok").

Definition readyHandler (r : Request) : IO Response :=
  resp ← over_grpc tr (rpc_ListTenants client 1 "");
  match resp with
  | Status _ => writeError 503
  | Reply _ => writeJSON 200 (BText "ready")
  end.

Definition mqttEnvelopeSchemaHandler (r : Request) : IO Response := writeJSON 200 BSchema.

Definition createTenantHandler (r : Request) : IO Response :=
  match decodeJSON decode_tenant r with
  | Err _ => writeError 400
  | Ok (id, name) => call (rpc_CreateTenant client id name) (fun t => writeJSON 201 (BTenant (MkTenant (ten_ID t) (ten_Name t))))
  end.

Definition listTenantsHandler (r : Request) : IO Response :=
  match pageFromRequest r with
  | Err _ => writeError 400
  | Ok (pageSize, cursor) =>
    call (rpc_ListTenants client pageSize cursor)
      (fun resp => writeJSON 200 (BTenants (map (fun t => MkTenant (ten_ID t) (ten_Name t)) resp.1) resp.2))
  end.

Definition createDeviceHandler (r : Request) : IO Response :=
  match requestParameters r with
  | inr status => writeError status
  | inl params =>
    match decodeJSON decode_device r with
    | Err _ => writeError 400
    | Ok (device, product, secret) =>
      call (rpc_CreateDevice client (mp_TenantID params) device product secret) (fun d => writeJSON 201 (BDevice (deviceFromPB (Some d))))
    end
  end.

Definition listDevicesHandler (r : Request) : IO Response :=
  match requestParameters r with
  | inr status => writeError status
  | inl params =>
    match pageFromRequest r with
    | Err _ => writeError 400
    | Ok (pageSize, cursor) =>
      call (rpc_ListDevices client pageSize cursor (mp_TenantID params))
        (fun resp => writeJSON 200 (BDevices (map (fun d => deviceFromPB (Some d)) resp.1) resp.2))
    end
  end.

Definition getDeviceHandler (r : Request) : IO Response :=
  match requestParameters r with
  | inr status => writeError status
  | inl params =>
    call (rpc_GetDevice client (mp_TenantID params) (mp_DeviceID params)) (fun d => writeJSON 200 (BDevice (deviceFromPB (Some d))))
  end.

Definition getDeviceStatusHandler (r : Request) : IO Response :=
  match requestParameters r with
  | inr status => writeError status
  | inl params =>
    call (rpc_GetDeviceStatus client (mp_TenantID params) (mp_DeviceID params))
      (fun s => writeJSON 200 (BDeviceStatus (deviceStatusFromPB (Some s))))
  end.

Definition listTelemetryHandler (r : Request) : IO Response :=
  match requestParameters r with
  | inr status => writeError status
  | inl params =>
    match pageFromRequest r with
    | Err _ => writeError 400
    | Ok (pageSize, cursor) =>
      match requestTimes (values_get (mp_Query params) "startTime") (values_get (mp_Query params) "endTime") with
      | Err _ => writeError 400
      | Ok (start, end_) =>
        call (rpc_ListTelemetry client pageSize cursor (mp_TenantID params) (mp_DeviceID params) start end_
                (values_get (mp_Query params) "sort") (values_get (mp_Query params) "type"))
          (fun resp => writeJSON 200 (BTelemetries (map (fun t => telemetryFromPB (Some t)) resp.1) resp.2))
      end
    end
  end.

Definition ingestTelemetryHandler (r : Request) : IO Response :=
  match requestParameters r with
  | inr status => writeError status
  | inl params =>
    match decodeJSON decode_telemetry r with
    | Err _ => writeError 400
    | Ok (msgID, ts, type, version, payload) =>
      call (rpc_IngestTelemetry client (MkTelemetryRequest msgID (mp_TenantID params) (mp_DeviceID params) ts type version payload))
        (fun t => writeJSON 202 (BTelemetry (telemetryFromPB (Some t))))
    end
  end.

Definition createCommandHandler (r : Request) : IO Response :=
  match requestParameters r with
  | inr status => writeError status
  | inl params =>
    match decodeJSON decode_command r with
    | Err _ => writeError 400
    | Ok payload =>
      call (rpc_CreateCommand client (mp_TenantID params) (mp_DeviceID params) (header_get r "Idempotency-Key") payload)
        (fun c => writeJSON 201 (BCommand (commandFromPB (Some c))))
    end
  end.

Definition listCommandsHandler (r : Request) : IO Response :=
  match requestParameters r with
  | inr status => writeError status
  | inl params =>
    match pageFromRequest r with
    | Err _ => writeError 400
    | Ok (pageSize, cursor) =>
      match requestTimes (values_get (mp_Query params) "startTime") (values_get (mp_Query params) "endTime") with
      | Err _ => writeError 400
      | Ok (start, end_) =>
        call (rpc_ListCommands client pageSize cursor (mp_TenantID params) (commandDeviceFilter params) start end_
                (values_get (mp_Query params) "sort") (values_get (mp_Query params) "status"))
          (fun resp => writeJSON 200 (BCommands (map (fun c => commandFromPB (Some c)) resp.1) resp.2))
      end
    end
  end.

Definition getCommandHandler (r : Request) : IO Response :=
  match requestParameters r with
  | inr status => writeError status
  | inl params =>
    call (rpc_GetCommand client (mp_CommandID params) (mp_TenantID params)) (fun c => writeJSON 200 (BCommand (commandFromPB (Some c))))
  end.

Definition ackCommandHandler (r : Request) : IO Response :=
  match requestParameters r with
  | inr status => writeError status
  | inl params =>
    match decodeJSON decode_result r with
    | Err _ => writeError 400
    | Ok req =>
      call (rpc_AckCommand client (mp_CommandID params) (mp_TenantID params) (mp_DeviceID params)
              (Some (MkCommandResult (res_Status req) (res_ErrorCode req) (res_Payload req))))
        (fun c => writeJSON 200 (BCommand (commandFromPB (Some c))))
    end
  end.
End handlers.

(** ** Routes *)
Inductive Handler :=
| HHealth | HReady | HSchema | HCreateTenant | HListTenants | HCreateDevice | HListDevices | HGetDevice | HGetDeviceStatus
| HListTelemetry | HIngestTelemetry | HCreateCommand | HListCommands | HGetCommand | HAckCommand.

Definition run_handler (client : CoreServiceClient) (tr : Transport) (h : Handler) : Request -> IO Response :=
  match h with
  | HHealth => healthHandler
  | HReady => readyHandler client tr
  | HSchema => mqttEnvelopeSchemaHandler
  | HCreateTenant => createTenantHandler client tr
  | HListTenants => listTenantsHandler client tr
  | HCreateDevice => createDeviceHandler client tr
  | HListDevices => listDevicesHandler client tr
  | HGetDevice => getDeviceHandler client tr
  | HGetDeviceStatus => getDeviceStatusHandler client tr
  | HListTelemetry => listTelemetryHandler client tr
  | HIngestTelemetry => ingestTelemetryHandler client tr
  | HCreateCommand => createCommandHandler client tr
  | HListCommands => listCommandsHandler client tr
  | HGetCommand => getCommandHandler client tr
  | HAckCommand => ackCommandHandler client tr
  end.

Definition routes : list (string * string * Handler) :=
  [("GET", "/healthz", HHealth);
   ("GET", "/readyz", HReady);
   ("GET", "/schemas/mqtt-envelope.json", HSchema);
   ("POST", "/api/v1/tenants", HCreateTenant);
   ("GET", "/api/v1/tenants", HListTenants);
   ("POST", "/api/v1/tenants/:tenantId/devices", HCreateDevice);
   ("GET", "/api/v1/tenants/:tenantId/devices", HListDevices);
   ("GET", "/api/v1/tenants/:tenantId/devices/:deviceId", HGetDevice);
   ("GET", "/api/v1/tenants/:tenantId/devices/:deviceId/status", HGetDeviceStatus);
   ("GET", "/api/v1/tenants/:tenantId/devices/:deviceId/telemetry", HListTelemetry);
   ("POST", "/api/v1/tenants/:tenantId/devices/:deviceId/telemetry", HIngestTelemetry);
   ("POST", "/api/v1/tenants/:tenantId/devices/:deviceId/commands", HCreateCommand);
   ("GET", "/api/v1/tenants/:tenantId/devices/:deviceId/commands", HListCommands);
   ("GET", "/api/v1/tenants/:tenantId/commands", HListCommands);
   ("GET", "/api/v1/tenants/:tenantId/commands/:commandId", HGetCommand);
   ("POST", "/api/v1/tenants/:tenantId/devices/:deviceId/commands/:commandId/acknowledgements", HAckCommand)].
End api.

(** ** The router of go-zero *)

(** A segment of a pattern that starts with a colon matches any segment. *)
Fixpoint segments_match (pattern path : list string) : bool :=
  match pattern, path with
  | [], [] => true
  | p :: ps, s :: ss => (has_prefix p ":" || String.eqb p s) && segments_match ps ss
  | _, _ => false
  end.

Definition pattern_matches (pattern path : string) : bool := segments_match (split_byte "/" pattern) (split_byte "/" path).

(** The second function says that the path is registered for another method; it
    is asked when the first one finds nothing. *)
Class Router := { route_search : string -> string -> option Handler; route_other_method : string -> string -> bool }.

(** A handler is only selected by a registered route of the method that matches
    the path as it was sent, or cleaned lexically. *)
Class RouterLaws `{Router} := {
  route_sound method path h : route_search method path = Some h ->
    exists pattern, (method, pattern, h) ∈ routes
      /\ (pattern_matches pattern path = true \/ pattern_matches pattern (path_clean path) = true) }.

(** What the server does with a request: the route, then the middleware, then
    the handler. *)
Section server.
Context `{Unicode} `{TimeText} `{RequestDecoders} `{Router}.

Definition unrouted_status (r : Request) : Z := if route_other_method (rq_Method r) (rq_Path r) then 405 else 404.

Definition serve (client : CoreServiceClient) (tr : Transport) (token : string) (tenantTokens : gmap string string) (r : Request) : IO Response :=
  match route_search (rq_Method r) (rq_Path r) with
  | None => writeError (unrouted_status r)
  | Some h => BearerTokenMiddlewareWithTenants writeError token tenantTokens (run_handler client tr h) r
  end.
End server.
