(* ===== verification/AdminProperties.v ===== *)
(** * What a token of the management API can do

    The gateway is proved against an interface: a client of the core that keeps
    every call about a tenant inside that tenant ([CoreConfined]); the core
    service keeps it. *)
From stdpp Require Import prelude strings gmap.
From Stdlib Require Import ZArith Lia Ascii.
From S2P Require Import Prelude GoStrings Contracts CommandState GoJson Base64 Payload Domain GoNet TimeText Pagination HttpParams HttpAuth Postgres PostgresStore PostgresCommands PostgresLists PostgresRefine StoreProperties TelemetryProperties PageProperties TenantFrame Host Kafka Bridge CoreService AdminApi.

Local Open Scope Z_scope.

(** ** The interface *)
Definition io_confined {A} (t : string) (P : A -> Prop) (m : IO (rpc A)) : Prop := forall h r h' l,
  m h = (r, h', l) -> confined t (committed (h_world h)) (committed (h_world h')) /\ forall a, r = Reply a -> P a.

Class CoreConfined (c : CoreServiceClient) := {
  cc_list_tenants t n cursor : io_confined t (fun _ => True) (rpc_ListTenants c n cursor);
  cc_create_device t d p s : io_confined t (fun pb => pd_TenantId pb = t) (rpc_CreateDevice c t d p s);
  cc_list_devices t n cursor : io_confined t (fun r => Forall (fun pb => pd_TenantId pb = t) r.1) (rpc_ListDevices c n cursor t);
  cc_get_device t d : io_confined t (fun pb => pd_TenantId pb = t) (rpc_GetDevice c t d);
  cc_get_status t d : io_confined t (fun pb => ps_TenantId pb = t) (rpc_GetDeviceStatus c t d);
  cc_list_telemetry t n cursor d s e so ty :
    io_confined t (fun r => Forall (fun pb => pt_TenantId pb = t) r.1) (rpc_ListTelemetry c n cursor t d s e so ty);
  cc_ingest req : io_confined (tq_TenantId req) (fun pb => pt_TenantId pb = tq_TenantId req) (rpc_IngestTelemetry c req);
  cc_create_command t d k p : io_confined t (fun pb => pc_TenantId pb = t) (rpc_CreateCommand c t d k p);
  cc_list_commands t n cursor d s e so st :
    io_confined t (fun r => Forall (fun pb => pc_TenantId pb = t) r.1) (rpc_ListCommands c n cursor t d s e so st);
  cc_get_command t id : io_confined t (fun pb => pc_TenantId pb = t) (rpc_GetCommand c id t);
  cc_ack t id d r : io_confined t (fun pb => pc_TenantId pb = t) (rpc_AckCommand c id t d r) }.

Lemma io_confined_ret {A} t (P : A -> Prop) (r : rpc A) : (forall a, r = Reply a -> P a) -> io_confined t P (mret r).
Proof. intros Hr h r0 h' l (<- & -> & _)%io_ret_inv. split; [apply confined_refl|done]. Qed.

Lemma io_confined_grpc {A} t (P : A -> Prop) tr (m : IO (rpc A)) : io_confined t P m -> io_confined t P (over_grpc tr m).
Proof.
  intros Hm. destruct tr as [|c|c]; [exact Hm|by apply io_confined_ret|].
  intros h r h' l (r0 & h1 & l1 & l2 & S1%Hm & (<- & -> & _)%io_ret_inv & _)%io_bind_inv. destruct S1 as [Hc _]. done.
Qed.

(** ** The core service keeps it *)
Section core.
Context `{!Unicode} `{!PgEnv} `{!CursorEnv} `{!KafkaClient}.

(** What the server reads besides the request: clocks, the fresh identifier, the
    liveness window and the publisher. *)
Record CoreEnv := MkCoreEnv {
  ce_now : Z; ce_received : Z; ce_stored_at : Z; ce_ttl : Z; ce_newID : result string; ce_publisher : option KafkaPublisher }.

Definition core_client (e : CoreEnv) : CoreServiceClient :=
  MkCoreServiceClient CoreService.CreateTenant CoreService.ListTenants (CoreService.CreateDevice (ce_now e)) CoreService.ListDevices
    CoreService.GetDevice (CoreService.GetDeviceStatus (ce_ttl e) (ce_now e)) CoreService.ListTelemetry
    (IngestTelemetry (ce_publisher e) (ce_now e) (ce_received e) (ce_stored_at e))
    (CoreService.CreateCommand (ce_now e) (ce_newID e)) CoreService.ListCommands CoreService.GetCommand (CoreService.AckCommand (ce_now e)).

Lemma repo_confined {A B} t (P : A -> Prop) (Q : B -> Prop) (op : Op A) (k : A -> B) :
  op_confined t P op -> (forall a, P a -> Q (k a)) -> io_confined t Q (repo op k).
Proof.
  intros Hop Hk h r h' l (r0 & h1 & l1 & l2 & [S1 ->]%on_store_inv & (<- & -> & _)%io_ret_inv & _)%io_bind_inv.
  apply Hop in S1 as [Hc Hp]. split; [done|]. intros b. destruct r0; [|done]. intros [= <-]. auto.
Qed.

(** Steps through the guards of an RPC. *)
Ltac rpc_guards :=
  repeat match goal with
  | |- io_confined _ _ (mret (Status _)) => by apply io_confined_ret
  | |- io_confined _ _ (match ?x with _ => _ end) => destruct x eqn:?
  end.

Lemma list_page_tenant size cursor t d s e so k st kind page :
  listPageFromRPC size cursor t d s e so k st kind = Ok page -> pg_TenantID page = t.
Proof. unfold listPageFromRPC. intros Hp. repeat case_match; try done; by apply normalize_tenant in Hp as (-> & _). Qed.

Lemma publish_same p rec h r h' l : PublishTelemetry p rec h = (r, h', l) -> h_world h' = h_world h.
Proof. intros (_ & Hw & _)%publish_telemetry_quiet. done. Qed.

Lemma ingest_confined pub now received stored_at req :
  io_confined (tq_TenantId req) (fun pb => pt_TenantId pb = tq_TenantId req) (IngestTelemetry pub now received stored_at req).
Proof.
  unfold IngestTelemetry. destruct (ValidateEnvelope now _); [|by apply io_confined_ret].
  intros h r h' l (r0 & h1 & l1 & l2 & [S1 ->]%on_store_inv & Hrun & _)%io_bind_inv.
  apply restore_telemetry_confined in S1 as [Hc Hp]. cbn [rec_TenantID envelopeFromPB env_TenantID] in *.
  destruct r0 as [rec|]; [|apply io_ret_inv in Hrun as (<- & -> & _); done]. specialize (Hp rec eq_refl).
  destruct pub as [p|]; [|apply io_ret_inv in Hrun as (<- & -> & _); split; [done|by intros ? [= <-]]].
  apply io_bind_inv in Hrun as (err & h2 & l3 & l4 & Hw%publish_same & Hrun & _).
  destruct err; apply io_ret_inv in Hrun as (<- & -> & _); rewrite Hw; (split; [done|]); [done|by intros ? [= <-]].
Qed.

#[export] Instance core_client_confined e : CoreConfined (core_client e).
Proof.
  split; intros; cbn [core_client rpc_ListTenants rpc_CreateDevice rpc_ListDevices rpc_GetDevice rpc_GetDeviceStatus
    rpc_ListTelemetry rpc_IngestTelemetry rpc_CreateCommand rpc_ListCommands rpc_GetCommand rpc_AckCommand].
  - unfold ListTenants. rpc_guards. eapply repo_confined; [apply list_tenants_unchanged|done].
  - unfold CreateDevice. rpc_guards. eapply repo_confined; [apply (create_device_confined (ce_now e) (MkDevice t d p s zero_time))|done].
  - unfold ListDevices. rpc_guards. match goal with E : NormalizeListRequest _ _ = Ok _ |- _ => apply normalize_tenant in E as (E & _); simpl in E; subst t end.
    eapply repo_confined; [apply list_devices_confined|]. intros [out nx] Hf. by apply Forall_fmap.
  - unfold GetDevice. rpc_guards. eapply repo_confined; [apply get_device_confined|done].
  - unfold GetDeviceStatus. rpc_guards. eapply repo_confined; [apply get_status_confined|done].
  - unfold ListTelemetry. rpc_guards. match goal with E : listPageFromRPC _ _ _ _ _ _ _ _ _ _ = Ok _ |- _ => apply list_page_tenant in E as <- end.
    eapply repo_confined; [apply list_telemetry_confined|]. intros [out nx] Hf. by apply Forall_fmap.
  - apply ingest_confined.
  - unfold CreateCommand. rpc_guards. eapply repo_confined; [apply create_command_confined|done].
  - unfold ListCommands. rpc_guards. match goal with E : listPageFromRPC _ _ _ _ _ _ _ _ _ _ = Ok _ |- _ => apply list_page_tenant in E as <- end.
    eapply repo_confined; [apply list_commands_confined|]. intros [out nx] Hf. by apply Forall_fmap.
  - unfold GetCommand. rpc_guards.
    intros h r h' l (r0 & h1 & l1 & l2 & [S1 ->]%on_store_inv & (<- & -> & _)%io_ret_inv & _)%io_bind_inv.
    apply (get_command_unchanged t) in S1 as [Hc _]. split; [done|]. intros pb. destruct r0 as [c|]; [|done].
    destruct (String.eqb_spec (cmd_TenantID c) t) as [<-|]; [|done]. by intros [= <-].
  - unfold AckCommand. rpc_guards. eapply repo_confined; [apply ack_command_confined|done].
Qed.
End core.

(** ** A cleaned path never turns a tenant's path into the list of tenants *)
Lemma clean_elems_no_slash rooted es : forall out,
  Forall (fun q => contains_byte "/" q = false) out -> Forall (fun q => contains_byte "/" q = false) es ->
  Forall (fun q => contains_byte "/" q = false) (clean_elems rooted out es).
Proof.
  induction es as [|e es IH]; intros out Hout Hes; [done|]. apply Forall_cons in Hes as [He Hes]. cbn [clean_elems].
  destruct (_ || _); [auto|]. destruct (String.eqb e "..").
  - destruct out as [|p out']; [destruct rooted; apply IH; auto; repeat constructor|].
    destruct (String.eqb p ".."); apply IH; auto. by apply Forall_cons in Hout as [_ ?].
  - apply IH; auto.
Qed.

Lemma segments_no_slash p segs :
  scope_ok p -> resource_segments p = Some segs -> Forall (fun q => contains_byte "/" q = false) segs.
Proof. intros Hok Hs. rewrite <- (split_segments p segs Hok Hs). apply split_byte_no_sep. Qed.

(** The elements that are left of the path of a tenant's resource. *)
Lemma clean_segments p segs :
  scope_ok p -> resource_segments p = Some segs -> mp_TenantID p <> "" -> mp_TenantID p <> "." ->
  clean_elems true ["v1"; "api"] segs <> ["tenants"; "v1"; "api"].
Proof.
  intros Hok Hs Hne Hdot. destruct Hok as [Ht Hd Hc]. unfold listed in Ht, Hd, Hc. unfold resource_segments in Hs. cbv zeta in Hs.
  apply String.eqb_neq in Hne, Hdot.
  repeat match type of Hs with
  | (if String.eqb ?r ?s then _ else _) = _ =>
      let E := fresh "E" in destruct (String.eqb_spec r s) as [E|]; [rewrite E in Ht, Hd, Hc; injection Hs as <-|]
  end; [simpl in Ht; by rewrite Ht in Hne|..|done].
  all: cbn [clean_elems String.eqb Ascii.eqb orb Bool.eqb]; rewrite Hne, Hdot; cbn [orb];
    repeat match goal with
    | |- context [String.eqb (mp_TenantID ?p) ?s] => destruct (String.eqb (mp_TenantID p) s) eqn:?
    | |- context [String.eqb (mp_DeviceID ?p) ?s] => destruct (String.eqb (mp_DeviceID p) s) eqn:?
    | |- context [String.eqb (mp_CommandID ?p) ?s] => destruct (String.eqb (mp_CommandID p) s) eqn:?
    | H : ?b = _ |- context [?b] => rewrite H
    | |- _ => progress cbn [clean_elems String.eqb Ascii.eqb orb Bool.eqb]
    end; congruence.
Qed.

Lemma segments_match_fixed pattern path :
  forallb (fun p => negb (has_prefix p ":")) pattern = true -> segments_match pattern path = true -> pattern = path.
Proof.
  revert path. induction pattern as [|p ps IH]; intros [|s ss]; try done. cbn [forallb segments_match].
  intros [Hp%negb_true_iff Hps]%andb_true_iff. rewrite Hp. cbn [orb]. intros [->%String.eqb_eq Hss]%andb_true_iff. f_equal. auto.
Qed.

Lemma tenants_pattern path : pattern_matches "/api/v1/tenants" path = true -> path = "/api/v1/tenants".
Proof. intros H%segments_match_fixed; [|done]. by rewrite <- (join_split "/" path), <- H. Qed.

Lemma cleaned_not_tenants path p :
  addresses path p -> mp_TenantID p <> "" -> mp_TenantID p <> "." -> path_clean path <> "/api/v1/tenants".
Proof.
  intros (segs & Hs & -> & Hok & _) Hne Hdot. pose proof (segments_no_slash p segs Hok Hs) as Hf.
  change (api_prefix +:+ join_byte "/" segs) with ("/api/v1/" +:+ join_byte "/" segs).
  assert (Hj : "/api/v1/" +:+ join_byte "/" segs = join_byte "/" ("" :: "api" :: "v1" :: segs)).
  { destruct segs as [|q qs]; [by apply String.eqb_neq in Hne; unfold resource_segments in Hs; repeat case_match|done]. }
  unfold path_clean. change (has_prefix ("/api/v1/" +:+ join_byte "/" segs) "/") with true. cbv iota. rewrite Hj, split_join by (by repeat constructor).
  cbn [clean_elems String.eqb Ascii.eqb orb Bool.eqb]. set (out := clean_elems true ["v1"; "api"] segs).
  intros E. assert (Hrev : rev out = ["api"; "v1"; "tenants"]).
  { assert (Hout : Forall (fun q => contains_byte "/" q = false) (rev out)).
    { apply Forall_rev, clean_elems_no_slash; [by repeat constructor|done]. }
    destruct (rev out) as [|q qs]; [done|]. rewrite <- (split_join "/" q qs Hout).
    rewrite str_app_cons, str_app_nil_l in E. injection E as E.
    change (join_byte "/" (q :: qs) = "api/v1/tenants") in E. by rewrite E. }
  apply (f_equal (@rev string)) in Hrev. rewrite rev_involutive in Hrev. by apply (clean_segments p segs).
Qed.

(** ** The gateway *)
Definition body_tenants (b : Body) : list string :=
  match b with
  | BText _ | BSchema | BError => []
  | BTenant t => [ten_ID t]
  | BTenants ts _ => map ten_ID ts
  | BDevice d => [dev_TenantID d]
  | BDevices ds _ => map dev_TenantID ds
  | BDeviceStatus s => [sta_TenantID s]
  | BTelemetry r => [rec_TenantID r]
  | BTelemetries rs _ => map rec_TenantID rs
  | BCommand c => [cp_TenantID c]
  | BCommands cs _ => map cp_TenantID cs
  end.

(** Every run answers with data of [t] and changes data of [t] only. *)
Definition resp_confined (t : string) (m : IO Response) : Prop := forall h resp h' l,
  m h = (resp, h', l) ->
  confined t (committed (h_world h)) (committed (h_world h')) /\ Forall (fun t' => t' = t) (body_tenants (rs_Body resp)).

Lemma write_confined t status b : Forall (fun t' => t' = t) (body_tenants b) -> resp_confined t (writeJSON status b).
Proof. intros Hb h resp h' l (<- & -> & _)%io_ret_inv. split; [apply confined_refl|done]. Qed.

Lemma error_confined t status : resp_confined t (writeError status).
Proof. by apply write_confined. Qed.

Lemma call_confined {A} t (P : A -> Prop) tr m status (b : A -> Body) :
  io_confined t P m -> (forall a, P a -> Forall (fun t' => t' = t) (body_tenants (b a))) ->
  resp_confined t (call tr m (fun a => writeJSON status (b a))).
Proof.
  intros Hm%(io_confined_grpc _ _ tr) Hb h resp h' l (r & h1 & l1 & l2 & S1%Hm & Hrun & _)%io_bind_inv. destruct S1 as [Hc Hp].
  destruct r as [a|c]; apply io_ret_inv in Hrun as (<- & -> & _); (split; [done|]); [by apply Hb, Hp|constructor].
Qed.

Lemma map_tenants {A B} (f : A -> B) (g : B -> string) (k : A -> string) t l :
  (forall a, g (f a) = k a) -> Forall (fun a => k a = t) l -> Forall (fun t' => t' = t) (map g (map f l)).
Proof. intros Hg Hl. rewrite map_map. apply Forall_fmap. eapply Forall_impl; [exact Hl|]. intros a <-. apply Hg. Qed.

Section gateway.
Context `{!Unicode} `{!TimeText} `{!RequestDecoders} (client : CoreServiceClient) `{!CoreConfined client} (tr : Transport).

(** Steps through the guards of a handler. *)
Ltac handler_guards :=
  repeat match goal with
  | |- resp_confined _ (writeError _) => apply error_confined
  | |- resp_confined _ (let '(_, _) := ?x in _) => destruct x
  | |- resp_confined _ (match ?x with _ => _ end) => destruct x
  end.

Lemma handler_confined h r params :
  rq_Params r = Some params -> h <> HCreateTenant -> h <> HListTenants ->
  resp_confined (mp_TenantID params) (run_handler client tr h r).
Proof.
  intros Hp Hc Hl.
  assert (Hr : requestParameters r = inl params) by (unfold requestParameters, ManagementRequest; by rewrite Hp).
  destruct h; try done; cbn [run_handler].
  - by apply write_confined.
  - intros h0 resp h' l (r0 & h1 & l1 & l2 & S1 & Hrun & _)%io_bind_inv.
    apply (io_confined_grpc (mp_TenantID params) _ tr _ (cc_list_tenants (mp_TenantID params) 1 "")) in S1 as [Hcf _].
    destruct r0; apply io_ret_inv in Hrun as (<- & -> & _); (split; [done|constructor]).
  - by apply write_confined.
  - unfold createDeviceHandler. rewrite Hr. handler_guards.
    eapply call_confined; [apply cc_create_device|]. intros pb Hpb. by repeat constructor.
  - unfold listDevicesHandler. rewrite Hr. handler_guards.
    eapply call_confined; [apply cc_list_devices|]. intros [pbs nx] Hpb. by eapply map_tenants; [|exact Hpb].
  - unfold getDeviceHandler. rewrite Hr. eapply call_confined; [apply cc_get_device|]. intros pb Hpb. by repeat constructor.
  - unfold getDeviceStatusHandler. rewrite Hr. eapply call_confined; [apply cc_get_status|]. intros pb Hpb. by repeat constructor.
  - unfold listTelemetryHandler. rewrite Hr. handler_guards.
    eapply call_confined; [apply cc_list_telemetry|]. intros [pbs nx] Hpb. by eapply map_tenants; [|exact Hpb].
  - unfold ingestTelemetryHandler. rewrite Hr. handler_guards.
    eapply call_confined; [apply cc_ingest|]. intros pb Hpb. by repeat constructor.
  - unfold createCommandHandler. rewrite Hr. handler_guards.
    eapply call_confined; [apply cc_create_command|]. intros pb Hpb. by repeat constructor.
  - unfold listCommandsHandler. rewrite Hr. handler_guards.
    eapply call_confined; [apply cc_list_commands|]. intros [pbs nx] Hpb. by eapply map_tenants; [|exact Hpb].
  - unfold getCommandHandler. rewrite Hr. eapply call_confined; [apply cc_get_command|]. intros pb Hpb. by repeat constructor.
  - unfold ackCommandHandler. rewrite Hr. handler_guards.
    eapply call_confined; [apply cc_ack|]. intros pb Hpb. by repeat constructor.
Qed.
End gateway.

Section server.
Context `{!Unicode} `{!TimeText} `{!RequestDecoders} `{!Router} `{!RouterLaws} (client : CoreServiceClient) `{!CoreConfined client} (tr : Transport).

Lemma with_params_read r params : rq_Params (withManagementParameters r params) = Some params.
Proof. done. Qed.

(** The list of tenants is only served on its own path. *)
Lemma tenants_route r h p :
  route_search (rq_Method r) (rq_Path r) = Some h -> addresses (rq_Path r) p -> mp_TenantID p <> "" -> mp_TenantID p <> "." ->
  h <> HCreateTenant /\ h <> HListTenants.
Proof.
  intros (pattern & Hin & Hm)%route_sound Ha Hne Hdot.
  assert (Hno : pattern <> "/api/v1/tenants").
  { intros ->. destruct Hm as [Hm%tenants_pattern|Hm%tenants_pattern]; [|by eapply cleaned_not_tenants].
    rewrite Hm in Ha. apply management_path_complete in Ha. injection Ha as <-. done. }
  unfold routes in Hin. split; intros ->; apply Hno; set_unfold in Hin; naive_solver.
Qed.

(** C19: a tenant-bound token cannot leave its tenant: whatever request it is sent
    with, whatever route the router selects and whatever fails in transit or in
    the database, the response holds data of that tenant only and the database
    changes for that tenant only; proved for every core that confines a call to
    the tenant it names, and for every tenant but the one that is spelled as a
    dot, whose paths the router may collapse. *)
Theorem bound_token_confined token tokens r provided tenant :
  fresh r -> public_path (rq_Path r) = false -> presents r provided -> ~ global_token token provided ->
  tokens !! provided = Some tenant -> tenant <> "." ->
  resp_confined tenant (serve client tr token tokens r).
Proof.
  intros Hfresh Hpub Hpres Hglob Hbound Hdot. unfold serve.
  destruct (route_search _ _) as [h|] eqn:Hroute; [|apply error_confined].
  pose proof (bearer_outcome writeError token tokens (run_handler client tr h) r Hpub) as Ho.
  destruct Ho as [status _|q params Hq _ Hg _|q t params Hq _ Hb Hm Ht Hne]; [apply error_confined|exfalso|].
  { unfold presents in *. rewrite Hpres in Hq. apply (f_equal (cut_prefix "Bearer ")) in Hq. rewrite !cut_prefix_app in Hq. by simplify_eq. }
  assert (q = provided) as ->.
  { unfold presents in *. rewrite Hpres in Hq. apply (f_equal (cut_prefix "Bearer ")) in Hq. rewrite !cut_prefix_app in Hq. by simplify_eq. }
  assert (t = tenant) as -> by congruence. apply management_request_read in Hm; [|done].
  destruct (tenants_route r h (with_query params ∅)) as [Hc Hl]; [done|by destruct Hm|cbn [mp_TenantID with_query]; congruence..|].
  rewrite <- Ht. by apply handler_confined.
Qed.

(** C20: without a valid token nothing but the probes and the public schema is
    served: the response holds no data of any tenant and no tenant's data
    changes, and off the three public paths the answer is Unauthorized, or Not
    Found or Method Not Allowed where there is no route. *)
Theorem unauthenticated_refused token tokens r :
  (forall provided, presents r provided -> provided = "" \/ ~ global_token token provided /\ tokens !! provided = None) ->
  (forall t, resp_confined t (serve client tr token tokens r))
  /\ (public_path (rq_Path r) = false -> forall h resp h' l,
        serve client tr token tokens r h = (resp, h', l) -> h' = h /\ l = [] /\ rs_Status resp ∈ [401; 404; 405]).
Proof.
  intros Hno. destruct (public_path (rq_Path r)) eqn:Hpub.
  - split; [|done]. intros t. unfold serve. destruct (route_search _ _) as [h|] eqn:Hroute; [|apply error_confined].
    apply route_sound in Hroute as (pattern & Hin & Hm).
    assert (Hh : h = HHealth \/ h = HReady \/ h = HSchema).
    { unfold public_path in Hpub. rewrite !orb_true_iff, !String.eqb_eq in Hpub.
      assert (Hcl : path_clean (rq_Path r) = rq_Path r) by (by destruct Hpub as [[-> | ->] | ->]).
      rewrite Hcl in Hm. assert (Hm' : pattern_matches pattern (rq_Path r) = true) by (by destruct Hm).
      unfold routes in Hin. rewrite !elem_of_cons, elem_of_nil in Hin.
      destruct Hpub as [[Ep|Ep]|Ep]; rewrite Ep in Hm';
        repeat (destruct Hin as [Hin|Hin]; [injection Hin as _ -> ->; try discriminate Hm'; auto|]); done. }
    unfold BearerTokenMiddlewareWithTenants. rewrite Hpub. destruct Hh as [->|[->| ->]]; cbn [run_handler].
    + by apply write_confined.
    + intros h0 resp h' l (r0 & h1 & l1 & l2 & S1 & Hrun & _)%io_bind_inv.
      apply (io_confined_grpc t _ tr _ (cc_list_tenants t 1 "")) in S1 as [Hcf _].
      destruct r0; apply io_ret_inv in Hrun as (<- & -> & _); (split; [done|constructor]).
    + by apply write_confined.
  - assert (Hs : exists status, status ∈ [401; 404; 405] /\ serve client tr token tokens r = writeError status).
    { unfold serve, unrouted_status. destruct (route_search _ _) as [h|]; [|destruct (route_other_method _ _); eexists; (split; [|done]); set_solver]. exists 401. split; [set_solver|].
      unfold BearerTokenMiddlewareWithTenants. rewrite Hpub. destruct (cut_prefix "Bearer " _) as [provided|] eqn:Hc; [|done].
      apply cut_prefix_Some in Hc. destruct (String.eqb_spec provided "") as [|Hne]; [done|].
      destruct (Hno provided Hc) as [?|[Hg ->]]; [done|].
      destruct (String.eqb_spec token ""); [done|]. destruct (String.eqb_spec provided token) as [->|]; [|done].
      exfalso. apply Hg. by split. }
    destruct Hs as (status & Hst & ->). split; [intros t; apply error_confined|].
    intros _ h resp h' l (<- & -> & ->)%io_ret_inv. by split_and!.
Qed.
End server.

(** ** Representations *)
Lemma timestamp_roundtrip t : timestampToTime (toTimestamp t) = t.
Proof. unfold toTimestamp, IsZero. destruct (Z.eqb_spec t zero_time); [by subst|done]. Qed.

(** The public view of a command: everything but the bookkeeping of dispatch. *)
Definition public_command (c : Command) : CommandResponse :=
  MkCommandResponse (cmd_ID c) (cmd_TenantID c) (cmd_DeviceID c) (cmd_Status c) (cmd_Payload c) (cmd_CreatedAt c) (cmd_UpdatedAt c) (cmd_Result c).

(** What crosses the gateway is what the core stored: a command, a device, a
    device status and a telemetry record come out of the protobuf messages as
    they went in, the zero time included, except for what is not public: the
    bookkeeping of dispatch, the device secret and the TDengine mark. *)
Theorem rest_representation_faithful c d s rec :
  commandFromPB (Some (commandToPB c)) = public_command c
  /\ deviceFromPB (Some (deviceToPB d)) = MkDevice (dev_TenantID d) (dev_DeviceID d) (dev_ProductID d) "" (dev_CreatedAt d)
  /\ deviceStatusFromPB (Some (deviceStatusToPB s)) = s
  /\ telemetryFromPB (Some (telemetryToPB rec)) = clear_written rec.
Proof.
  destruct c as [? ? ? ? ? ? ? ? ? [[]|]], d, s, rec; split_and!;
    unfold commandFromPB, deviceFromPB, deviceStatusFromPB, telemetryFromPB, public_command, clear_written; simpl; by rewrite ?timestamp_roundtrip.
Qed.

(** ** A concrete router, and examples *)
#[local] Instance clean_router : Router := {|
  route_search method path :=
    snd <$> find (fun '(m, pattern, _) => String.eqb method m && pattern_matches pattern (path_clean path)) routes;
  route_other_method _ path := existsb (fun '(_, pattern, _) => pattern_matches pattern (path_clean path)) routes |}.

#[local] Instance clean_router_laws : RouterLaws.
Proof.
  split. intros method path h Hs. cbn [route_search clean_router] in Hs.
  apply fmap_Some in Hs as ([[m pattern] h'] & Hf & ->). apply find_some in Hf as [Hin [->%String.eqb_eq Hm]%andb_prop].
  exists pattern. split; [by apply list_elem_of_In|by right].
Qed.

#[local] Instance no_bodies : RequestDecoders := {|
  decode_tenant _ := Err []; decode_device _ := Err []; decode_telemetry _ := Err []; decode_command _ := Ok "{}"; decode_result _ := Err [] |}.

#[local] Existing Instance sample_unicode.
#[local] Existing Instance sample_pg.
#[local] Existing Instance sample_client.
#[local] Existing Instance sample_cursor.

Definition sample_core : CoreServiceClient := core_client (MkCoreEnv 1000 1000 1000 60 (Ok "c2") None).
Definition bearer_get (token path : string) : Request := MkRequest "GET" path "" {["Authorization" := ["Bearer " +:+ token]]} "" None.
Definition bearer_post (token path : string) : Request := MkRequest "POST" path "" {["Authorization" := ["Bearer " +:+ token]]} "{}" None.
Definition sample_api_host : Host := MkHost (MkWorld (sample_db CommandStatusSent 1 None) []) [].

(** A bound token creates a command of its own tenant. *)
Lemma bound_token_confined_witness :
  let run := serve sample_core Delivered "root" {["tok" := "acme"]} (bearer_post "tok" "/api/v1/tenants/acme/devices/d1/commands") sample_api_host in
  rs_Status run.1.1 = 201 /\ body_tenants (rs_Body run.1.1) = ["acme"]
  /\ confined "acme" (sample_db CommandStatusSent 1 None) (committed (h_world run.1.2)).
Proof.
  intros run. split; [vm_compute; reflexivity|]. split; [vm_compute; reflexivity|].
  destruct run as [[resp h'] l] eqn:E. unfold run in E.
  refine (proj1 (bound_token_confined sample_core Delivered "root" {["tok" := "acme"]} _ "tok" "acme" _ _ _ _ _ _ _ _ _ _ E));
    [reflexivity|reflexivity|reflexivity|intros [_ Hg]; discriminate Hg|reflexivity|discriminate].
Defined.

Lemma unauthenticated_refused_witness :
  rs_Status (serve sample_core Delivered "root" {["tok" := "acme"]} (bearer_get "guess" "/api/v1/tenants") sample_api_host).1.1 = 401.
Proof.
  pose (r := bearer_get "guess" "/api/v1/tenants"). pose (run := serve sample_core Delivered "root" {["tok" := "acme"]} r sample_api_host).
  change (rs_Status run.1.1 = 401). destruct run as [[resp h'] l] eqn:E. unfold run in E.
  destruct (proj2 (unauthenticated_refused sample_core Delivered "root" {["tok" := "acme"]} r
    ltac:(intros q Hq; right; apply (f_equal (cut_prefix "Bearer ")) in Hq; rewrite cut_prefix_app in Hq; injection Hq as <-;
          split; [intros [_ Hg]; discriminate Hg|reflexivity])) eq_refl _ _ _ _ E) as (_ & _ & Hs).
  apply elem_of_cons in Hs as [Hs|Hs]; [exact Hs|]. vm_compute in E. injection E as <- _ _. set_solver.
Defined.

(** Why the dot is excluded: the router collapses the path of a device of the
    tenant "." into the list of all tenants, after the token was accepted. *)
Lemma dot_tenant_escapes :
  let run := serve sample_core Delivered "root" {["tok" := "."]} (bearer_get "tok" "/api/v1/tenants/./devices/..") sample_api_host in
  rs_Status run.1.1 = 200 /\ "acme" ∈ body_tenants (rs_Body run.1.1).
Proof. split; [vm_compute; reflexivity|]. vm_compute. left. Qed.
