(* ===== verification/PlatformApp.v ===== *)
(** * The HTTP application of the services: internal/platform/{platform,handlers,http_helpers}.go

    Probes and metrics for every service, and, only when it is asked for, a REST
    surface over the repository that the end-to-end tests use.  The repository
    is the in-memory one, which [New] falls back to.  What can fail on the way
    (the readiness check, the ping of the store, publishing) takes its outcome
    from a list, as in [Host]. *)
From stdpp Require Import prelude strings gmap.
From Stdlib Require Import ZArith Lia Ascii.
From S2P Require Import Prelude GoStrings Contracts CommandState GoJson Base64 Payload Domain GoNet TimeText Pagination HttpParams Postgres PostgresLists Host Worker MemoryStore CoreService AdminApi.

Local Open Scope Z_scope.

(** What a request does besides answering. *)
Inductive AppEvent :=
| CountRequest (route method status : string)
| CountTenant (result : string)
| CountDevice (result : string)
| CountTelemetry (result : string)
| CountCommand (operation result : string)
| PublishedTelemetry (rec : TelemetryRecord)
| PublishedCommand (cmd : Command).

Record AppState := MkAppState { as_store : memoryStore; as_outcomes : list (option error) }.

Definition AppM (A : Type) := AppState -> A * AppState * list AppEvent.

#[export] Instance app_ret : MRet AppM := fun A a s => (a, s, []).
#[export] Instance app_bind : MBind AppM := fun A B f m s =>
  let '(a, s1, l) := m s in let '(b, s2, l') := f a s1 in (b, s2, l ++ l').

Definition app_emit (e : AppEvent) : AppM unit := fun s => (tt, s, [e]).
Definition app_store {A} (op : MOp A) : AppM (result A) := fun s =>
  let '(r, store) := op (as_store s) in (r, MkAppState store (as_outcomes s), []).
Definition app_read {A} (f : memoryStore -> A) : AppM A := fun s => (f (as_store s), s, []).
Definition app_attempt : AppM (option error) := fun s =>
  match as_outcomes s with [] => (None, s, []) | o :: rest => (o, MkAppState (as_store s) rest, []) end.

(** The clock readings of one request. *)
Record AppClock := MkAppClock { ac_now : Z; ac_now' : Z }.

Record AppConfig := MkAppConfig {
  cfg_ServiceName : string;
  cfg_DeviceHeartbeatTTL : Z;
  cfg_HasReadinessCheck : bool;
  cfg_StorePings : bool;
  cfg_EnableBusinessAPI : bool }.

Record App := MkApp { app_serviceName : string; app_ttl : Z; app_readiness : bool; app_pings : bool; app_enableAPI : bool }.

(** The store of a fresh application is an empty one. *)
Definition New (cfg : AppConfig) : App * memoryStore :=
  let ttl := if cfg_DeviceHeartbeatTTL cfg <=? 0 then 300 * Second else cfg_DeviceHeartbeatTTL cfg in
  (MkApp (cfg_ServiceName cfg) ttl (cfg_HasReadinessCheck cfg) (cfg_StorePings cfg) (cfg_EnableBusinessAPI cfg), newMemoryStore ttl).

Module App.
Section app.
Context `{Unicode} `{RequestDecoders}.
Context (json_deep_equal : string -> string -> bool) (result_deep_equal : CommandResult -> CommandResult -> bool)
        (json_any : string -> result unit).

Definition respond (status : Z) (v : Body) : AppM Response := mret (MkResponse status v).
Definition writeError (status : Z) : AppM Response := respond status BError.
Definition decode {A} (f : string -> result A) (r : Request) : result A := DecodeRequestJSON f (rq_Body r).

(** The parameters the router has put into the context; the zero value when
    they are not there and cannot be read. *)
Definition parameters (r : Request) : ManagementParameters :=
  match ManagementRequest r with Ok p => p | Err _ => scope "" "" "" "" end.

Definition is_get (r : Request) : bool := String.eqb (rq_Method r) "GET".
Definition is_post (r : Request) : bool := String.eqb (rq_Method r) "POST".

(** ** Probes *)
Definition healthHandler (a : App) (r : Request) : AppM Response :=
  if negb (is_get r) then writeError 405 else respond 200 (BText "ok").

(** One step that may fail, when the application has it. *)
Definition probe (present : bool) : AppM bool :=
  if present then err ← app_attempt; mret (match err with None => true | Some _ => false end) else mret true.

Definition readyHandler (a : App) (r : Request) : AppM Response :=
  if negb (is_get r) then writeError 405
  else
    ready ← probe (app_readiness a);
    if negb ready then writeError 503
    else
      reachable ← probe (app_pings a);
      if negb reachable then writeError 503
      else
        again ← probe (app_readiness a);
        if negb again then writeError 503 else respond 200 (BText "ready").

Definition mqttEnvelopeSchemaHandler (r : Request) : AppM Response :=
  if negb (is_get r) then writeError 405 else respond 200 BSchema.

(** ** Tenants *)
Definition handleTenants (r : Request) : AppM Response :=
  if is_post r then
    match decode decode_tenant r with
    | Err _ => writeError 400
    | Ok (id, name) =>
      if String.eqb id "" || String.eqb name "" then _ ← app_emit (CountTenant "error"); writeError 400
      else if negb (IsValidTenantID id) then _ ← app_emit (CountTenant "error"); writeError 400
      else
        created ← app_store (MemoryStore.CreateTenant (MkTenant id name));
        match created with
        | Err _ => _ ← app_emit (CountTenant "error"); writeError 409
        | Ok tenant => _ ← app_emit (CountTenant "ok"); respond 201 (BTenant tenant)
        end
    end
  else if is_get r then items ← app_read MemoryStore.ListTenants; respond 200 (BTenants items "")
  else writeError 405.

(** [observeBusinessOutcome]: counts the outcome of a POST once it is known. *)
Definition observeBusinessOutcome (count : string -> AppEvent) (r : Request) (handler : AppM Response) : AppM Response :=
  if is_post r then
    response ← handler;
    _ ← app_emit (count (if 400 <=? rs_Status response then "error" else "ok"));
    mret response
  else handler.

(** ** Devices *)
Definition handleDevices (ck : AppClock) (r : Request) : AppM Response :=
  observeBusinessOutcome CountDevice r (
    let p := parameters r in
    if is_get r then
      all ← app_read MemoryStore.ListDevices;
      respond 200 (BDevices (map without_secret (filter (fun d => dev_TenantID d = mp_TenantID p) all)) "")
    else
      match decode decode_device r with
      | Err _ => writeError 400
      | Ok (deviceID, productID, secret) =>
        created ← app_store (MemoryStore.CreateDevice (ac_now ck) (MkDevice (mp_TenantID p) deviceID productID secret zero_time));
        match created with
        | Err _ => writeError 400
        | Ok d => respond 201 (BDevice (without_secret d))
        end
      end).

Definition handleDeviceByID (ck : AppClock) (r : Request) : AppM Response :=
  let p := parameters r in
  if String.eqb (mp_Resource p) "device" then
    found ← app_read (MemoryStore.GetDevice (mp_TenantID p) (mp_DeviceID p));
    match found with Some d => respond 200 (BDevice (without_secret d)) | None => writeError 404 end
  else if String.eqb (mp_Resource p) "status" then
    found ← app_read (MemoryStore.GetDeviceStatus (ac_now ck) (mp_TenantID p) (mp_DeviceID p));
    match found with Some st => respond 200 (BDeviceStatus st) | None => writeError 404 end
  else if String.eqb (mp_Resource p) "telemetry" then
    items ← app_read (MemoryStore.ListTelemetry (mp_TenantID p) (mp_DeviceID p));
    respond 200 (BTelemetries items "")
  else writeError 404.

(** ** Telemetry

    A duplicate goes on with what the store answered, here the zero record. *)
Definition handleTelemetry (ck : AppClock) (r : Request) : AppM Response :=
  observeBusinessOutcome CountTelemetry r (
    let p := parameters r in
    match decode decode_telemetry r with
    | Err _ => writeError 400
    | Ok (msgID, ts, type, version, payload) =>
      let env := MkEnvelope msgID (mp_TenantID p) (mp_DeviceID p) ts type version "" "" "" 0 payload in
      match ValidateEnvelope (ac_now ck) env with
      | Err _ => writeError 400
      | Ok _ =>
        let publish rec :=
          _ ← app_emit (PublishedTelemetry rec);
          err ← app_attempt;
          match err with Some _ => writeError 502 | None => respond 202 (BTelemetry rec) end in
        stored ← app_store (MemoryStore.RecordTelemetry (ac_now' ck) env);
        match stored with
        | Err e => if errors_is e ErrDuplicateTelemetry then publish (MkTelemetryRecord "" "" "" 0 "" "" "" false zero_time)
                   else writeError 400
        | Ok rec => publish rec
        end
      end
    end).

(** ** Commands *)
Definition commandResponse (cmd : Command) : CommandResponse :=
  MkCommandResponse (cmd_ID cmd) (cmd_TenantID cmd) (cmd_DeviceID cmd) (cmd_Status cmd) (cmd_Payload cmd)
    (cmd_CreatedAt cmd) (cmd_UpdatedAt cmd) (cmd_Result cmd).
Definition commandResponses (cmds : list Command) : list CommandResponse := map commandResponse cmds.

Definition handleCommands (ck : AppClock) (r : Request) : AppM Response :=
  observeBusinessOutcome (CountCommand "created") r (
    let p := parameters r in
    if is_get r then
      all ← app_read MemoryStore.ListCommands;
      respond 200 (BCommands (commandResponses (filter (fun c => cmd_TenantID c = mp_TenantID p) all)) "")
    else
      match decode decode_command r with
      | Err _ => writeError 400
      | Ok payload =>
        match ValidateCommandInput (mp_TenantID p) (mp_DeviceID p) payload with
        | Err _ => writeError 400
        | Ok _ =>
          let key := header_get r "Idempotency-Key" in
          match ValidateIdempotencyKey key with
          | Err _ => writeError 400
          | Ok _ =>
            created ← app_store (MemoryStore.CreateCommandWithKey json_deep_equal json_any None (ac_now ck) (ac_now' ck)
                                   (mp_TenantID p) (mp_DeviceID p) key payload);
            match created with
            | Err e => writeError (if errors_is e ErrIdempotencyConflict then 409 else 400)
            | Ok cmd =>
              _ ← app_emit (PublishedCommand cmd);
              err ← app_attempt;
              match err with Some _ => writeError 502 | None => respond 201 (BCommand (commandResponse cmd)) end
            end
          end
        end
      end).

Definition handleCommandByID (ck : AppClock) (r : Request) : AppM Response :=
  observeBusinessOutcome (CountCommand "acked") r (
    let p := parameters r in
    if is_get r then
      found ← app_read (MemoryStore.GetCommand (mp_CommandID p));
      match found with
      | Some cmd => if negb (String.eqb (cmd_TenantID cmd) (mp_TenantID p)) then writeError 404
                    else respond 200 (BCommand (commandResponse cmd))
      | None => writeError 404
      end
    else
      match decode decode_result r with
      | Err _ => writeError 400
      | Ok result =>
        acked ← app_store (MemoryStore.AckCommandResultContext result_deep_equal None (ac_now ck) (mp_CommandID p) (mp_TenantID p) (mp_DeviceID p) result);
        match acked with
        | Err e => writeError (if errors_is e ErrAcknowledgementConflict then 409 else 400)
        | Ok cmd => respond 200 (BCommand (commandResponse cmd))
        end
      end).

(** ** Routes *)
Inductive AppHandler := Health | Ready | MetricsPage | Schema | Tenants | Devices | DeviceByID | Telemetry | Commands | CommandByID.

Definition routes (a : App) : list (string * AppHandler) :=
  [("/healthz", Health); ("/readyz", Ready); ("/metrics", MetricsPage)]
  ++ (if app_enableAPI a then
        [("/schemas/mqtt-envelope.json", Schema);
         ("GET /api/v1/tenants", Tenants); ("POST /api/v1/tenants", Tenants);
         ("GET /api/v1/tenants/{tenantId}/devices", Devices); ("POST /api/v1/tenants/{tenantId}/devices", Devices);
         ("GET /api/v1/tenants/{tenantId}/devices/{deviceId}", DeviceByID);
         ("GET /api/v1/tenants/{tenantId}/devices/{deviceId}/status", DeviceByID);
         ("GET /api/v1/tenants/{tenantId}/devices/{deviceId}/telemetry", DeviceByID);
         ("POST /api/v1/tenants/{tenantId}/devices/{deviceId}/telemetry", Telemetry);
         ("POST /api/v1/tenants/{tenantId}/devices/{deviceId}/commands", Commands);
         ("GET /api/v1/tenants/{tenantId}/commands", Commands);
         ("GET /api/v1/tenants/{tenantId}/commands/{commandId}", CommandByID);
         ("POST /api/v1/tenants/{tenantId}/devices/{deviceId}/commands/{commandId}/acknowledgements", CommandByID)]
      else []).

Definition business (h : AppHandler) : bool := match h with Health | Ready | MetricsPage | Schema => false | _ => true end.

Definition run_handler (a : App) (ck : AppClock) (h : AppHandler) (r : Request) : AppM Response :=
  match h with
  | Health => healthHandler a r
  | Ready => readyHandler a r
  | MetricsPage => respond 200 (BText "metrics")
  | Schema => mqttEnvelopeSchemaHandler r
  | Tenants => handleTenants r
  | Devices => handleDevices ck r
  | DeviceByID => handleDeviceByID ck r
  | Telemetry => handleTelemetry ck r
  | Commands => handleCommands ck r
  | CommandByID => handleCommandByID ck r
  end.

(** Business routes read the parameters first. *)
Definition dispatch (a : App) (ck : AppClock) (h : AppHandler) (r : Request) : AppM Response :=
  if business h then
    match ManagementRequest r with
    | Err _ => writeError 400
    | Ok p => run_handler a ck h (withManagementParameters r p)
    end
  else run_handler a ck h r.

(** What [http.ServeMux] makes of a request: a registered handler, or an answer
    of its own (not found, method not allowed, redirect).  A pattern without
    wildcards is chosen for that very path only. *)
Inductive MuxChoice := Chosen (h : AppHandler) | OwnAnswer (status : Z).

Definition mux_sound (mux : App -> Request -> MuxChoice) : Prop := forall a r,
  (forall h, mux a r = Chosen h -> exists pattern, (pattern, h) ∈ routes a)
  /\ (mux a r = Chosen Tenants -> rq_Path r = "/api/v1/tenants").

Definition observeHTTP (r : Request) (next : AppM Response) : AppM Response :=
  if String.eqb (rq_Path r) "/metrics" then next
  else
    response ← next;
    _ ← app_emit (CountRequest (routeLabel (rq_Path r)) (rq_Method r) (statusLabel (rs_Status response)));
    mret response.

Definition serve (mux : App -> Request -> MuxChoice) (a : App) (ck : AppClock) (r : Request) : AppM Response :=
  observeHTTP r (match mux a r with Chosen h => dispatch a ck h r | OwnAnswer status => writeError status end).
End app.
End App.

(** ** Tenants do not see or touch each other *)

(** The tenant of what an answer carries. *)
Definition body_tenants (b : Body) : list string :=
  match b with
  | BDevice d => [dev_TenantID d]
  | BDevices items _ => map dev_TenantID items
  | BDeviceStatus s => [sta_TenantID s]
  | BTelemetry rec => [rec_TenantID rec]
  | BTelemetries items _ => map rec_TenantID items
  | BCommand c => [cp_TenantID c]
  | BCommands items _ => map cp_TenantID items
  | _ => []
  end.

Definition body_secrets (b : Body) : list string :=
  match b with BDevice d => [dev_Secret d] | BDevices items _ => map dev_Secret items | _ => [] end.

(** Every record is under the key of its own tenant and device. *)
Record store_keyed (s : memoryStore) : Prop := {
  sk_devices : forall t d x, ms_devices s !! deviceKey t d = Some x -> IsValidTenantID t = true -> dev_TenantID x = t;
  sk_statuses : forall t d x, ms_statuses s !! deviceKey t d = Some x -> IsValidTenantID t = true -> sta_TenantID x = t;
  sk_telemetry : forall t d l x, ms_telemetry s !! deviceKey t d = Some l -> IsValidTenantID t = true -> x ∈ l -> rec_TenantID x = t;
  sk_commands : memory_ok s }.

(** Nothing of another tenant has changed. *)
Record store_confined (t : string) (s s' : memoryStore) : Prop := {
  sc_devices : forall t' d, IsValidTenantID t' = true -> t' <> t -> ms_devices s' !! deviceKey t' d = ms_devices s !! deviceKey t' d;
  sc_statuses : forall t' d, IsValidTenantID t' = true -> t' <> t -> ms_statuses s' !! deviceKey t' d = ms_statuses s !! deviceKey t' d;
  sc_telemetry : forall t' d, IsValidTenantID t' = true -> t' <> t -> ms_telemetry s' !! deviceKey t' d = ms_telemetry s !! deviceKey t' d;
  sc_commands : forall id c, cmd_TenantID c <> t -> ms_commands s' !! id = Some c <-> ms_commands s !! id = Some c;
  sc_tenants : ms_tenants s' = ms_tenants s }.

Lemma device_key_tenant t d t' d' :
  IsValidTenantID t = true -> IsValidTenantID t' = true -> deviceKey t d = deviceKey t' d' -> t = t' /\ d = d'.
Proof.
  intros Ht%tenant_id_no_colon Ht'%tenant_id_no_colon E. apply (f_equal (cut_byte ":"%char)) in E. unfold deviceKey in E.
  change (t +:+ ":" +:+ d) with (t +:+ String ":"%char d) in E. change (t' +:+ ":" +:+ d') with (t' +:+ String ":"%char d') in E.
  rewrite !cut_byte_app in E by done. by injection E.
Qed.

Lemma app_confined_refl t s : store_confined t s s.
Proof. by split. Qed.

Lemma insert_other {A} (m : gmap string A) t d x t' d' :
  IsValidTenantID t = true -> IsValidTenantID t' = true -> t' <> t -> <[deviceKey t d := x]> m !! deviceKey t' d' = m !! deviceKey t' d'.
Proof. intros Ht Ht' Hne. rewrite lookup_insert_ne; [done|]. intros E%device_key_tenant; [|done..]. by destruct E. Qed.

Lemma insert_keyed {A} (m : gmap string A) (P : string -> A -> Prop) t d x :
  IsValidTenantID t = true -> P t x ->
  (forall t' d' y, m !! deviceKey t' d' = Some y -> IsValidTenantID t' = true -> P t' y) ->
  forall t' d' y, <[deviceKey t d := x]> m !! deviceKey t' d' = Some y -> IsValidTenantID t' = true -> P t' y.
Proof.
  intros Ht Hx Hm t' d' y [[E <-]|[_ Hy]]%lookup_insert_Some Ht'; [|by eapply Hm].
  apply device_key_tenant in E as [-> _]; done.
Qed.

(** A branch that leaves the store alone and answers an error. *)
Ltac no_change := by simplify_eq/=; split_and!; [done|apply app_confined_refl|].

Section confined.
Context `{Unicode} `{RequestDecoders}.
Context (json_deep_equal : string -> string -> bool) (result_deep_equal : CommandResult -> CommandResult -> bool)
        (json_any : string -> result unit).

#[local] Notation call_ok := (memory_call_follows json_deep_equal result_deep_equal json_any).

Lemma app_create_device_confined now d s r s' : MemoryStore.CreateDevice now d s = (r, s') -> store_keyed s ->
  store_keyed s' /\ store_confined (dev_TenantID d) s s' /\ (forall x, r = Ok x -> dev_TenantID x = dev_TenantID d).
Proof.
  intros E Hk. pose proof (call_ok (MCreateDevice now d) s (sk_commands s Hk)) as [Hok _]. simpl in Hok. rewrite E in Hok. simpl in Hok.
  pose proof Hk as [Hd Hs Ht Hc]. unfold MemoryStore.CreateDevice, mbind, mop_bind, mcheck, mget, mput, mret, mop_ret in E.
  destruct (ValidateProductID (dev_ProductID d)); [|no_change].
  destruct (ValidateDeviceSecret (dev_Secret d)); [|no_change].
  destruct (IsValidTenantID (dev_TenantID d)) eqn:Hv, (IsValidTopicPart (dev_DeviceID d)); simpl in E;
    try no_change.
  destruct (ms_tenants s !! dev_TenantID d); [|no_change].
  destruct (ms_devices s !! deviceKey (dev_TenantID d) (dev_DeviceID d)); [no_change|].
  simplify_eq/=. split_and!; [| |by intros x [= <-]].
  - split; simpl; [| |done|done].
    + apply (insert_keyed _ (fun t x => dev_TenantID x = t)); [done|done|exact Hd].
    + apply (insert_keyed _ (fun t x => sta_TenantID x = t)); [done|done|exact Hs].
  - split; simpl; intros; try done; by apply insert_other.
Qed.

Lemma app_restore_telemetry_confined rec s r s' :
  IsValidTenantID (rec_TenantID rec) = true -> MemoryStore.RestoreTelemetryContext None rec s = (r, s') -> store_keyed s ->
  store_keyed s' /\ store_confined (rec_TenantID rec) s s' /\ (forall x, r = Ok x -> rec_TenantID x = rec_TenantID rec).
Proof.
  intros Hv E Hk. pose proof (call_ok (MRestoreTelemetry None rec) s (sk_commands s Hk)) as [Hok _]. simpl in Hok.
  rewrite E in Hok. simpl in Hok. pose proof Hk as [Hd Hs Ht Hc].
  unfold MemoryStore.RestoreTelemetryContext, mbind, mop_bind, mcheck, mget, mput, mret, mop_ret in E. simpl in E.
  destruct (ValidateTelemetryPayload (rec_Payload rec)); [|no_change]. destruct (IsZero (rec_ReceivedAt rec)); [no_change|].
  destruct (ms_devices s !! deviceKey (rec_TenantID rec) (rec_DeviceID rec)); [|no_change].
  simplify_eq/=. split_and!; [| |by intros x [= <-]].
  - split; simpl; [done| | |done].
    + case_match; [|done]. apply (insert_keyed _ (fun t x => sta_TenantID x = t)); [done|done|exact Hs].
    + intros t1 d1 l x Hl Hvt Hx.
      refine (insert_keyed (ms_telemetry s) (fun t l => forall x, x ∈ l -> rec_TenantID x = t) _ _ _ Hv _ _ t1 d1 l Hl Hvt x Hx).
      * intros y [Hy|Hy]%elem_of_app; [|by apply list_elem_of_singleton in Hy as ->].
        destruct (ms_telemetry s !! deviceKey (rec_TenantID rec) (rec_DeviceID rec)) eqn:El; [|by apply elem_of_nil in Hy].
        by eapply Ht.
      * intros t' d' l' Hl' Hvt' y Hy. by eapply Ht.
  - split; simpl; intros; try done; [case_match; [by apply insert_other|done]|by apply insert_other].
Qed.

Lemma app_create_command_confined now now' t d key payload s r s' :
  MemoryStore.CreateCommandWithKey json_deep_equal json_any None now now' t d key payload s = (r, s') -> store_keyed s ->
  store_keyed s' /\ store_confined t s s' /\ (forall c, r = Ok c -> cmd_TenantID c = t).
Proof.
  intros E Hk. pose proof (call_ok (MCreateCommand None now now' t d key payload) s (sk_commands s Hk)) as [Hok _]. simpl in Hok.
  rewrite E in Hok. simpl in Hok. pose proof Hk as [Hd Hs Ht Hc].
  unfold MemoryStore.CreateCommandWithKey, mbind, mop_bind, mcheck, mget in E. simpl in E.
  destruct (ValidateCommandInput t d payload); [|no_change]. destruct (ValidateIdempotencyKey key); [|no_change].
  destruct (json_any _); [|no_change]. destruct (if negb (String.eqb key "") then _ else _) as [[i [id cmd]]|] eqn:Ef.
  { assert (Hcmd : cmd_TenantID cmd = t).
    { revert Ef. destruct (negb (String.eqb key "")); [|done]. intros Ef. apply list_find_Some in Ef as (_ & [Hc1 _] & _). exact Hc1. }
    destruct (_ || _); [no_change|]. injection E as <- <-. split_and!; [done|apply app_confined_refl|by intros c [= <-]]. }
  unfold createCommand, mbind, mop_bind, mcheck, mget, mput, mret, mop_ret in E. simpl in E.
  destruct (ms_devices s !! deviceKey t d); [|no_change].
  change (AdvanceCommandStatus CommandStatusCreated CommandEventPublished) with (Ok (A:=string) CommandStatusPublished) in E.
  simpl in E. injection E as <- <-.
  set (id := "cmd-" +:+ pretty.pretty (ms_commandSeq s + 1)) in *.
  assert (Hfresh : ms_commands s !! id = None).
  { destruct (ms_commands s !! id) as [c|] eqn:E; [|done]. destruct (proj2 Hc _ _ E) as (_ & n & Hn & Hid).
    unfold id in Hid. injection Hid as Hid. pose proof (pretty.pretty_Z_inj _ _ Hid). lia. }
  split_and!; [| |by intros c [= <-]].
  - by destruct (negb (String.eqb key "")).
  - destruct (negb (String.eqb key "")); split; simpl; try done; intros i c Hne; rewrite lookup_insert_Some; split.
    all: try (by intros [[_ <-]|[_ ?]]). all: intros Hi; right; split; [congruence|done].
Qed.

Lemma app_ack_command_confined now id t d input s r s' :
  MemoryStore.AckCommandResultContext result_deep_equal None now id t d input s = (r, s') -> store_keyed s ->
  store_keyed s' /\ store_confined t s s' /\ (forall c, r = Ok c -> cmd_TenantID c = t).
Proof.
  intros E Hk. pose proof (call_ok (MAckCommand None now id t d input) s (sk_commands s Hk)) as [Hok _]. simpl in Hok.
  rewrite E in Hok. simpl in Hok. pose proof Hk as [Hd Hs Ht Hc].
  unfold MemoryStore.AckCommandResultContext, mbind, mop_bind, mcheck, mget, mput, mret, mop_ret in E. simpl in E.
  destruct (ValidateDeviceIdentity t d); [|no_change]. destruct (ValidateCommandID id); [|no_change].
  destruct (NormalizeCommandResult input) as [res|]; [|no_change]. destruct (ms_commands s !! id) as [cmd|] eqn:Hcmd; [|no_change].
  destruct (String.eqb_spec (cmd_TenantID cmd) t) as [Ht'|]; [|simpl in E; no_change].
  destruct (String.eqb (cmd_DeviceID cmd) d); simpl in E; [|no_change].
  assert (Hsame : r = Ok cmd -> s' = s -> store_keyed s' /\ store_confined t s s' /\ (forall c, r = Ok c -> cmd_TenantID c = t)).
  { intros -> ->. split_and!; [done|apply app_confined_refl|by intros c [= <-]]. }
  destruct (_ && _); [destruct (cmd_Result cmd); [destruct (result_deep_equal _ _); simpl in E|]; first [no_change|injection E as <- <-; by apply Hsame]|].
  destruct (AdvanceCommandStatus _ _); [|no_change]. simplify_eq/=. split_and!; [done| |by intros c [= <-]].
  split; simpl; try done. intros i c Hne. rewrite lookup_insert_Some. split.
  - intros [[<- <-]|[_ ?]]; done.
  - intros Hi. right. split; [|done]. intros <-. congruence.
Qed.

(** *** Computations that stay with tenant [t] *)
Definition frame {A} (t : string) (m : AppM A) (Q : A -> Prop) : Prop := forall st a st' l,
  m st = (a, st', l) -> store_keyed (as_store st) ->
  store_keyed (as_store st') /\ store_confined t (as_store st) (as_store st') /\ Q a.

Lemma confined_trans t s1 s2 s3 : store_confined t s1 s2 -> store_confined t s2 s3 -> store_confined t s1 s3.
Proof.
  intros [A1 B1 C1 D1 E1] [A2 B2 C2 D2 E2]. split; [intros; by rewrite A2, A1|intros; by rewrite B2, B1|intros; by rewrite C2, C1| |congruence].
  intros id c Hne. by rewrite D2, D1.
Qed.

Lemma frame_bind {A B} t (m : AppM A) (f : A -> AppM B) Q R :
  frame t m Q -> (forall a, Q a -> frame t (f a) R) -> frame t (m ≫= f) R.
Proof.
  intros Hm Hf st b st' l E Hk. unfold mbind, app_bind in E. destruct (m st) as [[a st1] l1] eqn:E1.
  destruct (f a st1) as [[b' st2] l2] eqn:E2. injection E as <- <- _.
  destruct (Hm _ _ _ _ E1 Hk) as (Hk1 & Hc1 & Ha). destruct (Hf a Ha _ _ _ _ E2 Hk1) as (Hk2 & Hc2 & Hb).
  eauto using confined_trans.
Qed.
Lemma frame_ret {A} t (a : A) (Q : A -> Prop) : Q a -> frame t (mret a) Q.
Proof. intros Ha st b st' l [= <- <- _] Hk. eauto using app_confined_refl. Qed.
Lemma frame_emit t e : frame t (app_emit e) (fun _ => True).
Proof. intros st b st' l [= <- <- _] Hk. eauto using app_confined_refl. Qed.
Lemma frame_attempt t : frame t app_attempt (fun _ => True).
Proof. intros st b st' l E Hk. unfold app_attempt in E. destruct (as_outcomes st); injection E as <- <- _; eauto using app_confined_refl. Qed.
Lemma frame_read {A} t (f : memoryStore -> A) : frame t (app_read f) (fun a => exists s, store_keyed s /\ a = f s).
Proof. intros st b st' l [= <- <- _] Hk. eauto using app_confined_refl. Qed.
Lemma frame_store {A} t (op : MOp A) (Q : result A -> Prop) :
  (forall s r s', op s = (r, s') -> store_keyed s -> store_keyed s' /\ store_confined t s s' /\ Q r) -> frame t (app_store op) Q.
Proof.
  intros Hop st r st' l E Hk. unfold app_store in E. destruct (op (as_store st)) as [r' s'] eqn:Eo. injection E as <- <- _.
  by apply Hop.
Qed.

Definition body_ok (t : string) (resp : Response) : Prop :=
  Forall (fun x => x = t) (body_tenants (rs_Body resp)) /\ Forall (fun x => x = "") (body_secrets (rs_Body resp)).

Lemma frame_respond t status b : body_ok t (MkResponse status b) -> frame t (App.respond status b) (body_ok t).
Proof. apply frame_ret. Qed.
Lemma frame_error t status : frame t (App.writeError status) (body_ok t).
Proof. apply frame_respond. by split. Qed.

Lemma frame_observe t count r handler : frame t handler (body_ok t) -> frame t (App.observeBusinessOutcome count r handler) (body_ok t).
Proof.
  intros Hh. unfold App.observeBusinessOutcome. destruct (App.is_post r); [|done].
  eapply frame_bind; [exact Hh|]. intros resp Hresp. eapply frame_bind; [apply frame_emit|]. intros _ _. by apply frame_ret.
Qed.

(** Publishing, then the answer that shows what was published. *)
Lemma frame_publish t e status b :
  body_ok t (MkResponse status b) ->
  frame t (_ ← app_emit e; err ← app_attempt; match err with Some _ => App.writeError 502 | None => App.respond status b end) (body_ok t).
Proof.
  intros Hb. eapply frame_bind; [apply frame_emit|]. intros _ _. eapply frame_bind; [apply frame_attempt|].
  intros [e'|] _; [apply frame_error|by apply frame_respond].
Qed.

Variable t : string.
Hypothesis t_valid : IsValidTenantID t = true.

Lemma devices_frame ck r p : ManagementRequest r = Ok p -> mp_TenantID p = t -> frame t (App.handleDevices ck r) (body_ok t).
Proof.
  intros Hp Ht. apply frame_observe. unfold App.parameters. rewrite Hp, Ht. destruct (App.is_get r).
  - eapply frame_bind; [apply frame_read|]. intros all (s & _ & ->). apply frame_respond. split; simpl.
    + apply Forall_forall. intros x (d & -> & (d' & -> & [<- _]%list_elem_of_filter)%list_elem_of_fmap)%list_elem_of_fmap. done.
    + apply Forall_forall. by intros x (d & -> & (d' & -> & _)%list_elem_of_fmap)%list_elem_of_fmap.
  - destruct (App.decode decode_device r) as [[[deviceID productID] secret]|e]; [|apply frame_error].
    eapply frame_bind.
    { apply (frame_store t _ (fun r => forall d, r = Ok d -> dev_TenantID d = t)). intros s r' s' E Hk.
      exact (app_create_device_confined _ (MkDevice t deviceID productID secret zero_time) _ _ _ E Hk). }
    intros [d|e] Hd; [|apply frame_error]. apply frame_respond. split; simpl; repeat constructor. by apply Hd.
Qed.

Lemma device_by_id_frame ck r p : ManagementRequest r = Ok p -> mp_TenantID p = t -> frame t (App.handleDeviceByID ck r) (body_ok t).
Proof.
  intros Hp Ht. unfold App.handleDeviceByID, App.parameters. rewrite Hp, Ht.
  destruct (String.eqb (mp_Resource p) "device"); [|destruct (String.eqb (mp_Resource p) "status"); [|destruct (String.eqb (mp_Resource p) "telemetry"); [|apply frame_error]]].
  - eapply frame_bind; [apply frame_read|]. intros [d|] (s & Hk & E); [|apply frame_error].
    apply frame_respond. split; simpl; repeat constructor. unfold MemoryStore.GetDevice in E. symmetry in E. by eapply sk_devices.
  - eapply frame_bind; [apply frame_read|]. intros [st|] (s & Hk & E); [|apply frame_error].
    apply frame_respond. split; simpl; repeat constructor. unfold MemoryStore.GetDeviceStatus in E. symmetry in E.
    apply bind_Some in E as (st0 & E0 & E). pose proof (sk_statuses s Hk _ _ _ E0 t_valid).
    injection E as <-. by destruct (_ && _).
  - eapply frame_bind; [apply frame_read|]. intros items (s & Hk & ->). apply frame_respond. split; simpl; [|constructor].
    apply Forall_forall. intros x (rec & -> & Hin)%list_elem_of_fmap. unfold MemoryStore.ListTelemetry in Hin.
    destruct (ms_telemetry s !! deviceKey t (mp_DeviceID p)) eqn:El; [|by apply elem_of_nil in Hin]. by eapply sk_telemetry.
Qed.

Lemma record_telemetry_confined now env s r s' :
  env_TenantID env = t -> ValidateTelemetryPayload (env_Payload env) = Ok tt -> MemoryStore.RecordTelemetry now env s = (r, s') -> store_keyed s ->
  store_keyed s' /\ store_confined t s s' /\ match r with Ok x => rec_TenantID x = t | Err e => errors_is e ErrDuplicateTelemetry = false end.
Proof.
  intros Ht Hp E Hk. unfold MemoryStore.RecordTelemetry in E. rewrite Ht in E.
  match type of E with MemoryStore.RestoreTelemetryContext _ ?rec _ = _ =>
    destruct (app_restore_telemetry_confined rec _ _ _ t_valid E Hk) as (Hk' & Hc & Hr) end. split_and!; [done..|].
  destruct r as [x|e]; [by apply Hr|]. clear Hr.
  unfold MemoryStore.RestoreTelemetryContext, mbind, mop_bind, mcheck, mget, mput, mret, mop_ret in E. cbn in E. rewrite Hp in E.
  destruct (IsZero now); [by injection E as <- _|]. destruct (ms_devices s !! _); [done|by injection E as <- _].
Qed.

Lemma telemetry_frame ck r p : ManagementRequest r = Ok p -> mp_TenantID p = t -> frame t (App.handleTelemetry ck r) (body_ok t).
Proof.
  intros Hp Ht. apply frame_observe. unfold App.parameters. rewrite Hp, Ht.
  destruct (App.decode decode_telemetry r) as [[[[[msgID ts] type] version] payload]|e]; [|apply frame_error].
  destruct (ValidateEnvelope _ _) eqn:Hv; [|apply frame_error]. unfold ValidateEnvelope, validateEnvelopeAt in Hv.
  apply result_bind_ok in Hv as ([] & Hpay & _). eapply frame_bind.
  { apply frame_store. intros s r' s' E Hk. refine (record_telemetry_confined _ _ _ _ _ _ Hpay E Hk). done. }
  intros [rec|e'] Hrec; [|rewrite Hrec; apply frame_error]. apply frame_publish. split; simpl; repeat constructor. exact Hrec.
Qed.

Lemma commands_frame ck r p : ManagementRequest r = Ok p -> mp_TenantID p = t ->
  frame t (App.handleCommands json_deep_equal json_any ck r) (body_ok t).
Proof.
  intros Hp Ht. apply frame_observe. unfold App.parameters. rewrite Hp, Ht. destruct (App.is_get r).
  - eapply frame_bind; [apply frame_read|]. intros all (s & _ & ->). apply frame_respond. split; simpl; [|constructor].
    apply Forall_forall. intros x (c & -> & (c' & -> & [<- _]%list_elem_of_filter)%list_elem_of_fmap)%list_elem_of_fmap. done.
  - destruct (App.decode decode_command r) as [payload|e]; [|apply frame_error].
    destruct (ValidateCommandInput t (mp_DeviceID p) payload); [|apply frame_error].
    destruct (ValidateIdempotencyKey _); [|apply frame_error]. eapply frame_bind.
    { apply frame_store. intros s r' s' E Hk. exact (app_create_command_confined _ _ _ _ _ _ _ _ _ E Hk). }
    intros [cmd|e] Hc; [|apply frame_error]. apply frame_publish. split; simpl; repeat constructor. by apply Hc.
Qed.

Lemma command_by_id_frame ck r p : ManagementRequest r = Ok p -> mp_TenantID p = t ->
  frame t (App.handleCommandByID result_deep_equal ck r) (body_ok t).
Proof.
  intros Hp Ht. apply frame_observe. unfold App.parameters. rewrite Hp, Ht. destruct (App.is_get r).
  - eapply frame_bind; [apply frame_read|]. intros [c|] (s & _ & _); [|apply frame_error].
    destruct (String.eqb_spec (cmd_TenantID c) t) as [Hc|]; simpl; [|apply frame_error]. apply frame_respond. split; simpl; by repeat constructor.
  - destruct (App.decode decode_result r) as [result|e]; [|apply frame_error]. eapply frame_bind.
    { apply frame_store. intros s r' s' E Hk. exact (app_ack_command_confined _ _ _ _ _ _ _ _ E Hk). }
    intros [cmd|e] Hc; [|apply frame_error]. apply frame_respond. split; simpl; repeat constructor. by apply Hc.
Qed.

Lemma business_frame a ck h r p : ManagementRequest r = Ok p -> mp_TenantID p = t -> App.business h = true -> h <> App.Tenants ->
  frame t (App.run_handler json_deep_equal result_deep_equal json_any a ck h r) (body_ok t).
Proof.
  intros Hp Ht Hb Hne. destruct h; try done; simpl;
    eauto using devices_frame, device_by_id_frame, telemetry_frame, commands_frame, command_by_id_frame.
Qed.

Lemma probe_frame present : frame t (App.probe present) (fun _ => True).
Proof. unfold App.probe. destruct present; [|by apply frame_ret]. eapply frame_bind; [apply frame_attempt|]. intros; by apply frame_ret. Qed.

Lemma ready_frame a r : frame t (App.readyHandler a r) (body_ok t).
Proof.
  unfold App.readyHandler. destruct (App.is_get r); [|apply frame_error]. simpl.
  eapply frame_bind; [apply probe_frame|]. intros [] _; [|apply frame_error]. simpl.
  eapply frame_bind; [apply probe_frame|]. intros [] _; [|apply frame_error]. simpl.
  eapply frame_bind; [apply probe_frame|]. intros [] _; [|apply frame_error]. by apply frame_respond.
Qed.

Lemma public_frame a ck h r : App.business h = false ->
  frame t (App.run_handler json_deep_equal result_deep_equal json_any a ck h r) (body_ok t).
Proof.
  intros Hb. destruct h; try done; simpl; [|apply ready_frame|by apply frame_respond|].
  all: unfold App.healthHandler, App.mqttEnvelopeSchemaHandler; destruct (App.is_get r); simpl; [by apply frame_respond|apply frame_error].
Qed.

Lemma serve_frame mux a ck r p :
  App.mux_sound mux -> ManagementRequest r = Ok p -> fresh r -> mp_TenantID p = t -> rq_Path r <> "/api/v1/tenants" ->
  frame t (App.serve json_deep_equal result_deep_equal json_any mux a ck r) (body_ok t).
Proof.
  intros Hmux Hp Hfresh Ht Hpath. unfold App.serve, App.observeHTTP.
  assert (Hin : frame t (match mux a r with
                         | App.Chosen h => App.dispatch json_deep_equal result_deep_equal json_any a ck h r
                         | App.OwnAnswer status => App.writeError status
                         end) (body_ok t)).
  { destruct (mux a r) as [h|status] eqn:Em; [|apply frame_error]. unfold App.dispatch.
    destruct (App.business h) eqn:Hb; [|by apply public_frame]. rewrite Hp. apply (business_frame _ _ _ _ p); [|done..|].
    - done.
    - intros ->. by apply (proj2 (Hmux a r) ) in Em. }
  destruct (String.eqb (rq_Path r) "/metrics"); [done|]. eapply frame_bind; [exact Hin|]. intros resp Hresp.
  eapply frame_bind; [apply frame_emit|]. intros _ _. by apply frame_ret.
Qed.
End confined.

Lemma new_store_keyed ttl : store_keyed (newMemoryStore ttl).
Proof. split; simpl; try (intros *; rewrite lookup_empty; done). split; [simpl; lia|]. simpl. intros *. by rewrite lookup_empty. Qed.

Lemma request_tenant_valid r p : fresh r -> ManagementRequest r = Ok p -> mp_TenantID p <> "" ->
  IsValidTenantID (mp_TenantID p) = true /\ rq_Path r <> "/api/v1/tenants".
Proof.
  intros Hf Hp Ht. unfold ManagementRequest in Hp. rewrite Hf in Hp. apply result_bind_ok in Hp as (p0 & Hpath & Hp).
  apply result_bind_ok in Hp as (_ & _ & Hp). assert (Et : mp_TenantID p0 = mp_TenantID p /\ mp_Resource p0 = mp_Resource p).
  { destruct (ParseQuery _); [|done]. repeat (case_match; [done|]). by injection Hp as <-. }
  destruct Et as [Et Er]. split.
  - apply management_path_sound in Hpath as (segs & _ & _ & [Hten _ _] & _). rewrite Et in Hten. by destruct (listed ["tenants"] p0).
  - intros E. rewrite E in Hpath. vm_compute in Hpath. injection Hpath as <-. simpl in Et. by symmetry in Et.
Qed.

(** Whatever request for a tenant's resources the application serves, the
    answer shows records of the tenant in the path only and never a device
    secret, and nothing stored for another tenant is changed; the store keeps
    every record under its own tenant and device. *)
Theorem app_tenant_confined `{Unicode} `{RequestDecoders} deep_equal result_equal json_any mux a ck r p st resp st' l :
  App.mux_sound mux -> fresh r -> ManagementRequest r = Ok p -> mp_TenantID p <> "" -> store_keyed (as_store st) ->
  App.serve deep_equal result_equal json_any mux a ck r st = (resp, st', l) ->
  Forall (fun x => x = mp_TenantID p) (body_tenants (rs_Body resp)) /\ Forall (fun x => x = "") (body_secrets (rs_Body resp))
  /\ store_confined (mp_TenantID p) (as_store st) (as_store st') /\ store_keyed (as_store st').
Proof.
  intros Hmux Hf Hp Ht Hk E. destruct (request_tenant_valid r p Hf Hp Ht) as [Hv Hpath].
  destruct (serve_frame deep_equal result_equal json_any (mp_TenantID p) Hv mux a ck r p Hmux Hp Hf eq_refl Hpath _ _ _ _ E Hk)
    as (Hk' & Hc & Hb & Hs). done.
Qed.

(** Without the business API no request changes the store. *)
Lemma app_probes_only `{Unicode} `{RequestDecoders} deep_equal result_equal json_any mux a ck r st :
  App.mux_sound mux -> app_enableAPI a = false -> as_store (App.serve deep_equal result_equal json_any mux a ck r st).1.2 = as_store st.
Proof.
  intros Hmux Ha.
  assert (Hprobe : forall b s, as_store (App.probe b s).1.2 = as_store s).
  { intros [] s; [|done]. unfold App.probe, mbind, app_bind, app_attempt. by destruct (as_outcomes s). }
  assert (Hbind : forall A B (m : AppM A) (f : A -> AppM B) s,
            as_store (m s).1.2 = as_store s -> (forall x s1, as_store (f x s1).1.2 = as_store s1) -> as_store ((m ≫= f) s).1.2 = as_store s).
  { intros A B m f s Hm Hf. unfold mbind, app_bind. destruct (m s) as [[x s1] l1]. specialize (Hf x s1).
    destruct (f x s1) as [[y s2] l2]. simpl in *. congruence. }
  assert (Hh : forall h, h = App.Health \/ h = App.Ready \/ h = App.MetricsPage ->
            forall s, as_store (App.dispatch deep_equal result_equal json_any a ck h r s).1.2 = as_store s).
  { intros h [->|[->| ->]] s; unfold App.dispatch; simpl; [unfold App.healthHandler; by destruct (App.is_get r)| |done].
    unfold App.readyHandler. destruct (App.is_get r); [simpl|done].
    apply Hbind; [apply Hprobe|]. intros [] s1; [simpl|done]. apply Hbind; [apply Hprobe|]. intros [] s2; [simpl|done].
    apply Hbind; [apply Hprobe|]. by intros [] s3. }
  assert (Hin : forall s, as_store (match mux a r with
                                    | App.Chosen h => App.dispatch deep_equal result_equal json_any a ck h r
                                    | App.OwnAnswer status => App.writeError status end s).1.2 = as_store s).
  { intros s. destruct (mux a r) as [h|status] eqn:Em; [|done]. apply Hh. destruct (proj1 (Hmux a r) h Em) as [pattern Hin].
    unfold App.routes in Hin. rewrite Ha in Hin. set_solver. }
  unfold App.serve, App.observeHTTP. destruct (String.eqb (rq_Path r) "/metrics"); [apply Hin|]. apply Hbind; [apply Hin|done].
Qed.

(** ** Example *)
#[local] Existing Instance StoreProperties.sample_unicode.
#[local] Instance sample_app_decoders : RequestDecoders := {|
  decode_tenant _ := Ok ("acme", "Acme");
  decode_device _ := Ok ("d1", "p", "0123456789abcdef");
  decode_telemetry _ := Err [];
  decode_command s := Ok s;
  decode_result _ := Err [] |}.

Definition sample_mux (a : App) (r : Request) : App.MuxChoice :=
  if app_enableAPI a && String.eqb (rq_Path r) "/api/v1/tenants/acme/devices" then App.Chosen App.Devices else App.OwnAnswer 404.

Lemma sample_mux_sound : App.mux_sound sample_mux.
Proof.
  intros a r. unfold sample_mux. destruct (app_enableAPI a) eqn:Ha, (String.eqb _ _); simpl; (split; [|done]); try done.
  intros h [= <-]. exists "GET /api/v1/tenants/{tenantId}/devices". unfold App.routes. rewrite Ha. set_solver.
Qed.

Lemma app_tenant_confined_witness :
  let a := MkApp "svc" 0 false false true in
  let r := MkRequest "POST" "/api/v1/tenants/acme/devices" "" ∅ "{}" None in
  let st := MkAppState (MkMemoryStore 0 {[ "acme" := MkTenant "acme" "Acme" ]} ∅ ∅ ∅ ∅ ∅ 0) [] in
  let out := App.serve String.eqb (fun _ _ => true) (fun _ => Ok tt) sample_mux a (MkAppClock 5 6) r st in
  rs_Status out.1.1 = 201 /\ Forall (fun x => x = "acme") (body_tenants (rs_Body out.1.1)).
Proof.
  intros a r st out. split; [vm_compute; reflexivity|].
  assert (E : ManagementRequest r = Ok (scope "devices" "acme" "" "")) by (vm_compute; reflexivity).
  apply (app_tenant_confined String.eqb (fun _ _ => true) (fun _ => Ok tt) sample_mux a (MkAppClock 5 6) r (scope "devices" "acme" "" "") st out.1.1 out.1.2 out.2
           sample_mux_sound eq_refl E ltac:(discriminate)); [|by rewrite <- !surjective_pairing].
  destruct (new_store_keyed 0) as [Hd Hs Ht Hc]. split; [exact Hd|exact Hs|exact Ht|exact Hc].
Defined.
