(* ===== verification/Bootstrap.v ===== *)
(** * Starting and stopping the services: internal/bootstrap/run.go, internal/core/server.go

    What a service opens, in which order, what it releases on every way out, and
    the configuration it reads on the way.  Opening a database, binding a port
    and loading a certificate take their outcome from a list; provisioning the
    topics is [KafkaTopics]. *)
From stdpp Require Import prelude strings gmap.
From Stdlib Require Import ZArith Lia Ascii.
From S2P Require Import Prelude GoStrings Contracts Domain GoNet RuntimeConfig KafkaTopics KafkaTopicProperties Postgres Host Kafka Bridge TDengine Worker WorkerSetup.

Local Open Scope Z_scope.

(** ** strconv.ParseBool *)
Definition ParseBool (s : string) : option bool :=
  if bool_decide (s ∈ ["1"; "t"; "T"; "TRUE"; "true"; "True"]) then Some true
  else if bool_decide (s ∈ ["0"; "f"; "F"; "FALSE"; "false"; "False"]) then Some false
  else None.

(** ** Transport credentials: internal/platform/grpc_tls.go *)
Inductive Role := ServerRole | ClientRole.
Record TLSConfig := MkTLSConfig { tls_role : Role; tls_cert : string; tls_key : string; tls_ca : string; tls_ServerName : string }.

Section tls.
(** [tls.LoadX509KeyPair], and reading a pool of PEM certificates. *)
Context (LoadX509KeyPair : string -> string -> result unit) (ReadFile : string -> result string) (AppendCertsFromPEM : string -> bool).
Context (env : Env).

Definition grpcTLSPaths : string * string * string := (env "IOT_CORE_TLS_CERT", env "IOT_CORE_TLS_KEY", env "IOT_CORE_TLS_CA").

Definition loadCertPool (caPath : string) : result unit :=
  pem ← ReadFile caPath; if AppendCertsFromPEM pem then Ok tt else Err [Opaque "no valid PEM certificate"].

(** Both functions of the file; [None] keeps the connection in plain text. *)
Definition GRPCTLSCredentials (role : Role) : result (option TLSConfig) :=
  let '(certPath, keyPath, caPath) := grpcTLSPaths in
  let none s := String.eqb s "" in
  if none certPath && none keyPath && none caPath then Ok None
  else if none certPath || none keyPath || none caPath then Err [Opaque "gRPC TLS needs all three paths"]
  else
    _ ← LoadX509KeyPair certPath keyPath;
    _ ← loadCertPool caPath;
    Ok (Some (MkTLSConfig role certPath keyPath caPath (match role with ServerRole => "" | ClientRole => env "IOT_CORE_TLS_SERVER_NAME" end))).

(** Plain text is used only by a deployment that sets none of the three. *)
Lemma plaintext_iff role : GRPCTLSCredentials role = Ok None <-> grpcTLSPaths = ("", "", "").
Proof.
  unfold GRPCTLSCredentials. destruct grpcTLSPaths as [[c k] a].
  destruct (String.eqb_spec c "") as [->|Hc], (String.eqb_spec k "") as [->|Hk], (String.eqb_spec a "") as [->|Ha]; simpl;
    try (split; [done|intros [=]; done]).
  split; [|by intros [= -> -> ->]]. destruct (LoadX509KeyPair c k); [simpl|done]. by destruct (loadCertPool a).
Qed.
End tls.

(** ** What is read from the environment *)
Section env.
Context (env : Env).

Definition listenAddr : string := ListenAddr env "LISTEN_ADDR" "PORT" ":8080".
Definition rpcListenOn : string := if negb (String.eqb (env "IOT_CORE_LISTEN_ON") "") then env "IOT_CORE_LISTEN_ON" else ":9001".
Definition iotCorePrometheusHost : string := EnvOrDefault env "IOT_CORE_PROMETHEUS_HOST" "0.0.0.0".
Definition iotCorePrometheusPort : Z := Int env "IOT_CORE_PROMETHEUS_PORT" 9101.

Definition mqttClientID (key fallback : string) : string :=
  let clientID := EnvOrDefault env key fallback in
  let suffix := trim_space (env "EMQX_CLIENT_ID_SUFFIX") in
  if negb (String.eqb suffix "") then clientID +:+ "-" +:+ suffix else clientID.

Definition kafka_brokers : list string := SplitCSV (EnvOrDefault env "KAFKA_BROKERS" "localhost:9092").

Definition publisher_config : KafkaPublisherConfig :=
  MkKafkaPublisherConfig kafka_brokers (EnvOrDefault env "KAFKA_TELEMETRY_TOPIC" "iot.telemetry")
    (EnvOrDefault env "KAFKA_COMMAND_TOPIC" "iot.command") (topicConfigFromEnv env).

Definition SharedTelemetryTopicFilter : string := "$share/iot-telemetry/tenant/+/device/+/telemetry".
Definition SharedAckTopicFilter : string := "$share/iot-device-worker/tenant/+/device/+/ack".

Definition bridge_config (inbox : option TelemetryInbox) : MQTTBridgeConfig :=
  MkMQTTBridgeConfig (EnvOrDefault env "EMQX_URL" "tcp://127.0.0.1:1883")
    (mqttClientID "EMQX_TELEMETRY_INGESTOR_CLIENT_ID" "iot-telemetry-ingestor") (env "EMQX_USERNAME") (env "EMQX_PASSWORD")
    (EnvOrDefault env "EMQX_TOPIC_FILTER" SharedTelemetryTopicFilter) 0 0 kafka_brokers
    (EnvOrDefault env "KAFKA_DLQ_TOPIC" "iot.dlq") (dlqTopicConfigFromEnv env) inbox.

Definition worker_config (FirstOffset : Z) : WorkerConfig :=
  MkWorkerConfig kafka_brokers "iot-device-worker" FirstOffset
    (EnvOrDefault env "KAFKA_TELEMETRY_TOPIC" "iot.telemetry") (EnvOrDefault env "KAFKA_COMMAND_TOPIC" "iot.command")
    (EnvOrDefault env "KAFKA_DLQ_TOPIC" "iot.dlq") (EnvOrDefault env "EMQX_ACK_TOPIC_FILTER" SharedAckTopicFilter) []
    (SplitCSV (env "DEVICE_WORKER_TENANT_IDS")) (EnvOrDefault env "EMQX_URL" "tcp://127.0.0.1:1883")
    (mqttClientID "EMQX_DEVICE_WORKER_CLIENT_ID" "iot-device-worker") (env "EMQX_USERNAME") (env "EMQX_PASSWORD")
    (Duration env "COMMAND_ACK_TIMEOUT" (300 * Second)) (topicConfigFromEnv env) (dlqTopicConfigFromEnv env).
End env.

(** ** Opening and releasing *)
Inductive Resource := RPostgres | RPublisher | RTDengine | RListener (name addr : string).
#[export] Instance resource_eq_dec : EqDecision Resource.
Proof. solve_decision. Defined.

(** What a starting or stopping service does; [BStarted] is a goroutine that
    uses the resources, [BCancelled] the end of the context it runs under. *)
Inductive BootEvent :=
| BOpened (r : Resource)
| BClosed (r : Resource)
| BStarted (name : string)
| BServing (addr : string)
| BCancelled
| BShutdownHTTP
| BAwaited (finished : bool).

Section boot.
Context `{KafkaAdmin} `{Digest}.

(** [bw_closers] is the [closers] of the resources being built. *)
Record BootWorld := MkBootWorld { bw_kafka : ka_state; bw_outcomes : list (option error); bw_closers : list Resource }.
Definition BootM (A : Type) := BootWorld -> option (result A * BootWorld * list BootEvent).

#[export] Instance boot_ret : MRet BootM := fun A a w => Some (Ok a, w, []).
#[export] Instance boot_bind : MBind BootM := fun A B f m w =>
  match m w with
  | None => None
  | Some (Err e, w1, l) => Some (Err e, w1, l)
  | Some (Ok a, w1, l) => match f a w1 with None => None | Some (r, w2, l') => Some (r, w2, l ++ l') end
  end.

Definition boot_fail {A} (e : error) : BootM A := fun w => Some (Err e, w, []).
Definition boot_act (e : BootEvent) : BootM unit := fun w => Some (Ok tt, w, [e]).
Definition boot_acts (l : list BootEvent) : BootM unit := fun w => Some (Ok tt, w, l).
(** Something that may fail. *)
Definition boot_attempt : BootM unit := fun w =>
  match bw_outcomes w with
  | [] => Some (Ok tt, w, [])
  | o :: rest => Some (match o with None => Ok tt | Some e => Err e end, MkBootWorld (bw_kafka w) rest (bw_closers w), [])
  end.
Definition boot_result {A} (r : result A) : BootM A := fun w => Some (r, w, []).
Definition add_closer (r : Resource) : BootM unit := fun w =>
  Some (Ok tt, MkBootWorld (bw_kafka w) (bw_outcomes w) (bw_closers w ++ [r]), []).
Definition boot_setup {A} (m : Setup A) : BootM A := fun w =>
  match m (bw_kafka w) with
  | None => None
  | Some (r, k, _) => Some (r, MkBootWorld k (bw_outcomes w) (bw_closers w), [])
  end.

(** [m], or [l] and its error when it fails. *)
Definition or_else {A} (m : BootM A) (l : list BootEvent) : BootM A := fun w =>
  match m w with
  | Some (Err e, w1, l1) => Some (Err e, w1, l1 ++ l)
  | other => other
  end.

(** postgres_store.go: open, ping, and the schema when it is asked for; a handle
    that cannot be used is closed again. *)
Definition OpenPostgresStore (autoMigrate : bool) : BootM unit :=
  _ ← boot_attempt;
  _ ← boot_act (BOpened RPostgres);
  or_else (_ ← boot_attempt; if autoMigrate then boot_attempt else mret tt) [BClosed RPostgres].

(** tdengine_writer.go: the precision of the database, read back, must be [ms]. *)
Definition td_ensureSchema (precision : string) : BootM unit :=
  _ ← boot_attempt;
  _ ← boot_attempt;
  if negb (String.eqb precision "ms") then boot_fail [Opaque "tdengine database has unsupported precision"]
  else boot_attempt.

Definition NewTDengineWriter (precision : string) (DSN Database Table : string) : BootM (option TDengineWriter) :=
  if String.eqb DSN "" then mret None
  else
    _ ← boot_attempt;
    _ ← boot_act (BOpened RTDengine);
    _ ← or_else (_ ← boot_attempt; td_ensureSchema precision) [BClosed RTDengine];
    mret (Some (MkTDengineWriter (or_default Database "iot") (or_default Table "telemetry_v2") false)).

Section services.
Context (env : Env) (FirstOffset : Z) (precision : string) (inbox : option TelemetryInbox).

(** The same in run.go and server.go. *)
Definition buildStore : BootM unit :=
  match ParseBool (EnvOrDefault env "POSTGRES_AUTO_MIGRATE" "true") with
  | None => boot_fail [Opaque "POSTGRES_AUTO_MIGRATE must be true or false"]
  | Some autoMigrate => OpenPostgresStore autoMigrate
  end.

Definition buildPublisher : BootM (option KafkaPublisher) :=
  publisher ← boot_setup (NewKafkaPublisher (publisher_config env));
  match publisher with
  | None => mret None
  | Some p => _ ← boot_act (BOpened RPublisher); mret (Some p)
  end.

Definition buildTDengineWriter : BootM (option TDengineWriter) :=
  NewTDengineWriter precision (EnvOrDefault env "TDENGINE_DSN" "root:taosdata@http(127.0.0.1:6041)/iot")
    (EnvOrDefault env "TDENGINE_DATABASE" "iot") (EnvOrDefault env "TDENGINE_TABLE" "telemetry_v2").

Record runtimeResources := MkResources {
  rr_publisher : option KafkaPublisher;
  rr_bridge : option BridgeParts;
  rr_worker : option WorkerParts }.

(** A nil writer's [Close] does nothing. *)
Definition closer_if (present : bool) (r : Resource) : BootM unit := if present then add_closer r else mret tt.
Definition present {A} (o : option A) : bool := match o with Some _ => true | None => false end.

Definition build_body (serviceName : string) : BootM runtimeResources :=
  _ ← buildStore;
  _ ← add_closer RPostgres;
  publisher ← buildPublisher;
  _ ← closer_if (present publisher) RPublisher;
  if String.eqb serviceName "telemetry-ingestor" then
    match inbox with
    | None => boot_fail [Opaque "telemetry-ingestor requires a durable telemetry inbox"]
    | Some _ =>
      bridge ← boot_setup (NewMQTTBridge (bridge_config env inbox) publisher);
      mret (MkResources publisher bridge None)
    end
  else if String.eqb serviceName "device-worker" then
    writer ← buildTDengineWriter;
    _ ← closer_if (present writer) RTDengine;
    worker ← boot_setup (NewWorker FirstOffset (worker_config env FirstOffset) true writer);
    mret (MkResources publisher None (Some worker))
  else mret (MkResources publisher None None).

(** The deferred function closes what was built so far, last first. *)
Definition close_all (closers : list Resource) : list BootEvent := map BClosed (rev closers).

Definition buildRuntime (serviceName : string) : BootM runtimeResources := fun w =>
  match build_body serviceName (MkBootWorld (bw_kafka w) (bw_outcomes w) []) with
  | Some (Err e, w1, l) => Some (Err e, w1, l ++ close_all (bw_closers w1))
  | other => other
  end.

(** The readiness check of [newRuntimeApp]: [bridge_ready] and [worker_ready]
    are the answers of [CheckReady]. *)
Definition runtime_ready (serviceName : string) (r : runtimeResources) (bridge_ready worker_ready : bool) : bool :=
  if String.eqb serviceName "telemetry-ingestor" && negb (present (rr_bridge r)) then false
  else if String.eqb serviceName "device-worker" && negb (present (rr_worker r)) then false
  else if present (rr_bridge r) && negb bridge_ready then false
  else if present (rr_worker r) then worker_ready else true.

(** How the final [select] ends: a signal, with the outcome of shutting the HTTP
    server down, or the first of the goroutines to return. *)
Inductive RunEnd := OnSignal (shutdown : option error) | OnReturn (err : option error) (server_closed : bool).

Definition run_result (how : RunEnd) : option error :=
  match how with
  | OnSignal (Some e) => Some (Opaque "shutdown" :: e)
  | OnSignal None => None
  | OnReturn err server_closed => if server_closed then None else err
  end.

(** The deferred closers of a run that ends so. *)
Definition close_built (how : RunEnd) : BootM (option error) := fun w =>
  Some (Ok (run_result how), w, close_all (bw_closers w)).

(** [finished]: the goroutines ended within the five seconds they are given. *)
Definition Run (serviceName : string) (how : RunEnd) (finished : bool) : BootM (option error) :=
  resources ← buildRuntime serviceName;
  _ ← boot_acts (if present (rr_bridge resources) then [BStarted "bridge"] else []);
  _ ← boot_acts (if present (rr_worker resources) then [BStarted "worker"] else []);
  _ ← boot_act (BServing (listenAddr env));
  _ ← boot_act BCancelled;
  _ ← boot_acts (match how with OnSignal _ => [BShutdownHTTP] | OnReturn _ _ => [] end);
  _ ← boot_act (BAwaited finished);
  close_built how.

(** ** iot-core *)

(** [m], then [l] however it ends: a deferred function. *)
Definition with_defer {A} (m : BootM A) (l : list BootEvent) : BootM A := fun w =>
  match m w with Some (r, w1, l1) => Some (r, w1, l1 ++ l) | None => None end.

Definition newAuxHTTPServer (name addr : string) : BootM Resource :=
  _ ← boot_attempt; _ ← boot_act (BOpened (RListener name addr)); mret (RListener name addr).

Definition closeAuxServers (servers : list Resource) : list BootEvent := map BClosed servers.

(** The servers bind before the gRPC server starts.  [tls] is the outcome of
    loading the credentials, [drained] whether the auxiliary servers were drained in time. *)
Definition core_serve (tls : result (option TLSConfig)) (drained : bool) (publisher : option KafkaPublisher) : BootM unit :=
  _ ← boot_acts (if present publisher then [BStarted "dispatcher"] else []);
  _ ← boot_result tls;
  mqttAuth ← newAuxHTTPServer "mqtt-auth" (EnvOrDefault env "IOT_CORE_MQTT_AUTH_LISTEN" ":9090");
  metrics ← or_else (newAuxHTTPServer "metrics" (iotCorePrometheusHost env +:+ ":" +:+ Itoa (iotCorePrometheusPort env)))
              (closeAuxServers [mqttAuth]);
  _ ← boot_act (BServing (rpcListenOn env));
  _ ← boot_act BCancelled;
  _ ← boot_acts (closeAuxServers [mqttAuth; metrics]);
  boot_act (BAwaited drained).

Definition core_Run (tls : result (option TLSConfig)) (drained : bool) : BootM unit :=
  _ ← buildStore;
  with_defer (
    publisher ← buildPublisher;
    with_defer (core_serve tls drained publisher) (if present publisher then [BClosed RPublisher] else [])) [BClosed RPostgres].
End services.

(** ** Every way out releases what was opened *)

(** What a trace leaves open, and whether something it started still runs.  A
    trace that opens twice or closes what is not open has no outcome; nor has
    one that closes while something runs, when [quiet] asks for that. *)
Fixpoint left_held (quiet : bool) (l : list BootEvent) (open : list Resource) (running : bool) : option (list Resource * bool) :=
  match l with
  | [] => Some (open, running)
  | BOpened r :: rest => if bool_decide (r ∈ open) then None else left_held quiet rest (r :: open) running
  | BClosed r :: rest =>
    if bool_decide (r ∈ open) && negb (quiet && running)
    then left_held quiet rest (List.filter (fun x => negb (bool_decide (x = r))) open) running else None
  | BStarted _ :: rest => left_held quiet rest open true
  | BCancelled :: rest => left_held quiet rest open false
  | _ :: rest => left_held quiet rest open running
  end.

Lemma left_held_app quiet l l' open running :
  left_held quiet (l ++ l') open running
  = match left_held quiet l open running with Some (open', running') => left_held quiet l' open' running' | None => None end.
Proof.
  revert open running. induction l as [|e l IH]; intros open running; [done|]. destruct e as [r|r|n|a| | |f]; simpl; rewrite ?IH; try done.
  - by case_bool_decide.
  - by destruct (_ && _).
Qed.

Lemma filter_others (r : Resource) l : r ∉ l -> List.filter (fun x => negb (bool_decide (x = r))) l = l.
Proof.
  intros Hnin. apply forallb_filter_id, forallb_forall. intros x Hx%list_elem_of_In.
  apply negb_true_iff, bool_decide_eq_false_2. by intros ->.
Qed.

Lemma filter_others_cons (r x : Resource) l :
  List.filter (fun x => negb (bool_decide (x = r))) (x :: l)
  = if bool_decide (x = r) then List.filter (fun x => negb (bool_decide (x = r))) l
    else x :: List.filter (fun x => negb (bool_decide (x = r))) l.
Proof. simpl. by destruct (bool_decide (x = r)). Qed.

(** What was built is closed again, last first. *)
Lemma left_held_close_all quiet closers :
  NoDup closers -> left_held quiet (close_all closers) (rev closers) false = Some ([], false).
Proof.
  unfold close_all. intros Hnd. assert (Hr : NoDup (rev closers)) by (by rewrite <- Permutation_rev).
  induction Hr as [|r l Hnin _ IH]; [done|]. simpl. rewrite bool_decide_eq_true_2 by set_solver. simpl. rewrite andb_false_r. simpl.
  rewrite bool_decide_eq_true_2 by done. simpl. by rewrite filter_others.
Qed.

Lemma boot_bind_inv {A B} (m : BootM A) (f : A -> BootM B) w r w' l :
  (m ≫= f) w = Some (r, w', l) ->
  (exists e, m w = Some (Err e, w', l) /\ r = Err e)
  \/ (exists a w1 l1 l2, m w = Some (Ok a, w1, l1) /\ f a w1 = Some (r, w', l2) /\ l = l1 ++ l2).
Proof.
  unfold mbind, boot_bind. destruct (m w) as [[[[a|e] w1] l1]|]; [|intros [= <- <- <-]; eauto|done].
  destruct (f a w1) as [[[b w2] l2]|] eqn:E2; [|done]. intros [= <- <- <-]. right. eauto 10.
Qed.

Lemma or_else_inv {A} (m : BootM A) l0 w r w' l : or_else m l0 w = Some (r, w', l) ->
  (exists a, r = Ok a /\ m w = Some (Ok a, w', l)) \/ (exists e l1, r = Err e /\ m w = Some (Err e, w', l1) /\ l = l1 ++ l0).
Proof. unfold or_else. destruct (m w) as [[[[a|e] w1] l1]|]; intros [= <- <- <-]; [left|right]; eauto 10. Qed.

Lemma boot_attempt_inv w r w' l : boot_attempt w = Some (r, w', l) -> l = [] /\ bw_closers w' = bw_closers w.
Proof. unfold boot_attempt. destruct (bw_outcomes w) as [|[e|] rest]; by intros [= <- <- <-]. Qed.

Lemma boot_setup_inv {A} (m : Setup A) w r w' l : boot_setup m w = Some (r, w', l) -> l = [] /\ bw_closers w' = bw_closers w.
Proof. unfold boot_setup. destruct (m _) as [[[x k] ?]|]; by intros [= <- <- <-]. Qed.

(** Opening [r]: nothing happens to the closers, and it is open afterwards only on success. *)
Definition opening {A} (has : A -> bool) (r : Resource) (m : BootM A) : Prop := forall w res w' l,
  m w = Some (res, w', l) ->
  bw_closers w' = bw_closers w
  /\ match res with
     | Ok a => l = if has a then [BOpened r] else []
     | Err _ => l = [] \/ l = [BOpened r; BClosed r]
     end.

Ltac boot_inv H :=
  let e := fresh "e" in let a := fresh "a" in let w := fresh "w" in let l1 := fresh "l" in let l2 := fresh "l" in
  let Hm := fresh "Hm" in
  let Hr := fresh "Hr" in
  apply boot_bind_inv in H as [(e & Hm & Hr)|(a & w & l1 & l2 & Hm & H & ->)]; [simplify_eq|].
Ltac boot_cases :=
  repeat match goal with
  | H : (_ ≫= _) _ = Some _ |- _ => boot_inv H
  | H : or_else _ _ _ = Some _ |- _ =>
    let a := fresh "a" in let e := fresh "e" in let l := fresh "l" in
    let Hr := fresh "Hr" in
    apply or_else_inv in H as [(a & Hr & H)|(e & l & Hr & H & ->)]; simplify_eq
  | H : boot_attempt _ = Some _ |- _ => let Hc := fresh "Hc" in apply boot_attempt_inv in H as [-> Hc]
  | H : boot_setup _ _ = Some _ |- _ => let Hc := fresh "Hc" in apply boot_setup_inv in H as [-> Hc]
  | H : (if ?b then _ else _) _ = Some _ |- _ => destruct b eqn:?
  | H : boot_act _ _ = Some _ |- _ => unfold boot_act in H; simplify_eq
  | H : boot_acts _ _ = Some _ |- _ => unfold boot_acts in H; simplify_eq
  | H : boot_fail _ _ = Some _ |- _ => unfold boot_fail in H; simplify_eq
  | H : boot_result _ _ = Some _ |- _ => unfold boot_result in H; simplify_eq
  | H : add_closer _ _ = Some _ |- _ => unfold add_closer in H; simplify_eq
  | H : mret _ _ = Some _ |- _ => unfold mret, boot_ret in H; simplify_eq
  end.

Lemma opening_store auto : opening (fun _ => true) RPostgres (OpenPostgresStore auto).
Proof. intros w res w' l E. unfold OpenPostgresStore in E. boot_cases; (split; [congruence|try done; auto]). Qed.

Lemma opening_writer precision dsn database table : opening present RTDengine (NewTDengineWriter precision dsn database table).
Proof. intros w res w' l E. unfold NewTDengineWriter, td_ensureSchema in E. boot_cases; (split; [congruence|try done; auto]). Qed.

Section services_release.
Context (env : Env) (FirstOffset : Z) (precision : string) (inbox : option TelemetryInbox).

Lemma opening_build_store : opening (fun _ => true) RPostgres (buildStore env).
Proof.
  intros w res w' l E. unfold buildStore in E. destruct (ParseBool _) as [auto|]; [by apply (opening_store auto) in E|].
  boot_cases. by split; [|left].
Qed.

Lemma opening_publisher : opening present RPublisher (buildPublisher env).
Proof. intros w res w' l E. unfold buildPublisher in E. boot_cases; [by split; [|left]|]. destruct a; boot_cases; by split. Qed.

Lemma opening_build_writer : opening present RTDengine (buildTDengineWriter env precision).
Proof. apply opening_writer. Qed.

Ltac open_cases :=
  repeat (boot_cases;
    match goal with
    | H : buildStore _ _ = Some _ |- _ => let Hc := fresh "Hc" in apply opening_build_store in H as [Hc H]
    | H : buildPublisher _ _ = Some _ |- _ => let Hc := fresh "Hc" in apply opening_publisher in H as [Hc H]
    | H : buildTDengineWriter _ _ _ = Some _ |- _ => let Hc := fresh "Hc" in apply opening_build_writer in H as [Hc H]
    | H : closer_if ?b _ _ = Some _ |- _ => unfold closer_if in H
    | H : context [match inbox with _ => _ end] |- _ => destruct inbox
    | H : _ \/ _ |- _ => destruct H
    end; subst).

(** What building leaves open is what it registered to be closed. *)
Lemma build_body_held quiet svc k o r w' l :
  build_body env FirstOffset precision inbox svc (MkBootWorld k o []) = Some (r, w', l) ->
  NoDup (bw_closers w') /\ left_held quiet l [] false = Some (rev (bw_closers w'), false).
Proof.
  intros E. unfold build_body in E. open_cases.
  all: try match goal with H : context [present ?a] |- _ => destruct (present a); boot_cases end.
  all: repeat match goal with H : bw_closers ?w = _ |- context [bw_closers ?w] => rewrite H; simpl end.
  all: split; [|simpl; rewrite ?andb_false_r; reflexivity].
  all: repeat first [apply NoDup_nil_2 | apply NoDup_cons_2; [set_solver|]].
Qed.


Lemma with_defer_inv {A} (m : BootM A) l0 w r w' l :
  with_defer m l0 w = Some (r, w', l) -> exists l1, m w = Some (r, w', l1) /\ l = l1 ++ l0.
Proof. unfold with_defer. destruct (m w) as [[[x w1] l1]|]; [|done]. intros [= <- <- <-]. eauto. Qed.

(** The two listeners of iot-core, bound in order and released. *)
Lemma listener_held open A running : A ∉ open -> left_held false [BOpened A; BClosed A] open running = Some (open, running).
Proof.
  intros HA. cbn [left_held]. rewrite (bool_decide_eq_false_2 (A ∈ open)) by done. rewrite bool_decide_eq_true_2 by set_solver.
  cbn [andb negb]. rewrite filter_others_cons, bool_decide_eq_true_2 by done. by rewrite filter_others.
Qed.

Lemma listeners_held open A M a d running :
  A ∉ open -> M ∉ open -> A <> M ->
  left_held false [BOpened A; BOpened M; BServing a; BCancelled; BClosed A; BClosed M; BAwaited d] open running = Some (open, false).
Proof.
  intros HA HM Hne. cbn [left_held]. rewrite (bool_decide_eq_false_2 (A ∈ open)) by done.
  rewrite (bool_decide_eq_false_2 (M ∈ _)) by set_solver. rewrite (bool_decide_eq_true_2 (A ∈ _)) by set_solver. cbn [andb negb].
  rewrite !filter_others_cons, (bool_decide_eq_false_2 (M = A)), (bool_decide_eq_true_2 (A = A)), (filter_others A) by done.
  rewrite bool_decide_eq_true_2 by set_solver. cbn [andb negb]. by rewrite !filter_others_cons, bool_decide_eq_true_2, filter_others.
Qed.

Lemma core_serve_held tls drained publisher w r w' l open :
  (forall name addr, RListener name addr ∉ open) ->
  core_serve env tls drained publisher w = Some (r, w', l) -> exists running, left_held false l open false = Some (open, running).
Proof.
  intros Hopen E. unfold core_serve, newAuxHTTPServer, closeAuxServers in E. boot_cases.
  all: rewrite left_held_app; destruct (present publisher); cbn [left_held]; eexists; simpl app.
  all: first [reflexivity | apply listener_held | apply listeners_held]; first [apply Hopen | discriminate].
Qed.

(** iot-core releases its databases, writers and listeners on every way out. *)
Lemma core_releases_resources tls drained w r w' l :
  core_Run env tls drained w = Some (r, w', l) -> exists running, left_held false l [] false = Some ([], running).
Proof.
  intros E. unfold core_Run in E. boot_inv E.
  { apply opening_build_store in Hm as [_ [->| ->]]; by exists false. }
  apply opening_build_store in Hm as [_ ->]. apply with_defer_inv in E as (lp & E & ->). boot_inv E.
  { apply opening_publisher in Hm as [_ [->| ->]]; by exists false. }
  apply opening_publisher in Hm as [_ ->]. apply with_defer_inv in E as (lc & E & ->). destruct (present a0); simpl app.
  - eapply (core_serve_held _ _ _ _ _ _ _ [RPublisher; RPostgres]) in E as [running E]; [|set_solver]. exists running.
    cbn [left_held]. rewrite !bool_decide_eq_false_2 by set_solver. by rewrite <- app_assoc, left_held_app, E.
  - eapply (core_serve_held _ _ _ _ _ _ _ [RPostgres]) in E as [running E]; [|set_solver]. exists running.
    cbn [left_held]. rewrite !bool_decide_eq_false_2 by set_solver. rewrite app_nil_r. by rewrite left_held_app, E.
Qed.
End services_release.
End boot.

#[local] Existing Instance toy_admin.
#[local] Instance boot_digest : Digest := {| sha256_hex s := s; decimal _ := "" |}.

