(* ===== verification/CoreServer.v ===== *)
(** * iot-core as a server: internal/core/server.go

    The configuration of the gRPC server, the interceptors every call goes
    through, the two auxiliary HTTP servers and how they are drained. *)
From stdpp Require Import prelude strings gmap.
From Stdlib Require Import ZArith Lia Ascii SpecFloat.
From S2P Require Import Prelude GoStrings Contracts CommandState GoJson Base64 Payload Domain GoNet RuntimeConfig KafkaTopics TraceFile TimeText Pagination HttpParams Observability Tracing Postgres PostgresStore MqttAuth Host Kafka Bridge Metrics CoreService Bootstrap.

Local Open Scope Z_scope.

(** ** The gRPC server *)

(** [corev1.CoreService_ServiceDesc] *)
Definition ServiceName : string := "core.v1.CoreService".
Definition ServiceMethods : list string :=
  ["CreateTenant"; "ListTenants"; "CreateDevice"; "ListDevices"; "GetDevice"; "GetDeviceStatus"; "ListTelemetry"; "IngestTelemetry";
   "RecordTelemetry"; "CreateCommand"; "ListCommands"; "GetCommand"; "AckCommand"].

Record RpcServerConf := MkRpcServerConf {
  rv_Name : string; rv_Telemetry : TraceSettings; rv_ListenOn : string;
  rv_Trace : bool; rv_Recover : bool; rv_Stat : bool; rv_IgnoreContentMethods : list string; rv_Prometheus : bool; rv_Breaker : bool }.

Definition full_method (method : string) : string := "/" +:+ ServiceName +:+ "/" +:+ method.

Definition rpcServerConf (env : Env) (ParseFloat : string -> result spec_float) : RpcServerConf :=
  let ignored := map full_method ServiceMethods in
  MkRpcServerConf "iot-core" (TraceConfig env ParseFloat "iot-core") (rpcListenOn env) true true true ignored true true.

(** Every method is seeded, and none has its content logged. *)
Lemma rpc_content_ignored env ParseFloat method :
  method ∈ ServiceMethods -> full_method method ∈ rv_IgnoreContentMethods (rpcServerConf env ParseFloat) /\ full_method method ∈ core_methods.
Proof. intros Hm. split; [by apply list_elem_of_fmap; eauto|]. change core_methods with (map full_method ServiceMethods). apply list_elem_of_fmap. eauto. Qed.

(** [codes.Code.String] *)
Definition code_string (c : code) : string :=
  match c with
  | OK => "OK" | Canceled => "Canceled" | Unknown => "Unknown" | InvalidArgument => "InvalidArgument" | DeadlineExceeded => "DeadlineExceeded"
  | NotFound => "NotFound" | AlreadyExists => "AlreadyExists" | PermissionDenied => "PermissionDenied" | ResourceExhausted => "ResourceExhausted"
  | FailedPrecondition => "FailedPrecondition" | CoreService.Aborted => "Aborted" | OutOfRange => "OutOfRange" | Unimplemented => "Unimplemented"
  | Internal => "Internal" | Unavailable => "Unavailable" | DataLoss => "DataLoss" | Unauthenticated => "Unauthenticated"
  end.

Definition rpc_code {A} (r : rpc A) : code := match r with Reply _ => OK | Status c => c end.

(** A call through the interceptors, the identifier first: what the handler sees
    as the identifier is also the header of the reply. *)
Definition rpc_exchange {A} (method fresh : string) (incoming : list string) (handler : Ctx -> IO (rpc A)) (m : Metrics) : IO (rpc A * string * Metrics) :=
  let '(ctx, id) := UnaryServerRequestIDInterceptor fresh None incoming in
  resp ← handler ctx;
  mret (resp, id, observe_grpc (full_method method) (code_string (rpc_code resp)) m).

Lemma code_string_inj c c' : code_string c = code_string c' -> c = c'.
Proof. by destruct c, c'. Qed.

(** A call is counted once, under its method and the code it was answered with,
    and nothing else is; the handler and the reply have the caller's identifier. *)
Theorem rpc_counted {A} method fresh id (handler : Ctx -> IO (rpc A)) m h resp id' m' h' l :
  usable_id fresh -> usable_id id ->
  rpc_exchange method fresh [id] handler m h = (resp, id', m', h', l) ->
  id' = id /\ handler (Some id) h = (resp, h', l)
  /\ forall key, mt_counters m' !! key
       = if bool_decide (key = ("grpc_requests", [full_method method; code_string (rpc_code resp)]))
         then Some (default 0 (mt_counters m !! key) + 1) else mt_counters m !! key.
Proof.
  intros Hf Hid. unfold rpc_exchange. rewrite server_keeps_id by done.
  intros (r & h1 & l1 & l2 & Hr & (E & -> & ->)%io_ret_inv & ->)%io_bind_inv. injection E as <- <- <-. rewrite app_nil_r. split_and!; [done|done|].
  intros key. unfold observe_grpc. rewrite add_counter_lookup. by case_bool_decide as E1; case_bool_decide as E2; subst.
Qed.

(** ** The auxiliary servers *)
Definition auxShutdownTimeout : Z := 2 * Second.

Record auxHTTPServer := MkAuxHTTPServer { ax_name : string; ax_addr : string; ax_ReadHeaderTimeout : Z }.
Definition aux_server (name addr : string) : auxHTTPServer := MkAuxHTTPServer name addr (5 * Second).

Section mqtt_auth_mux.
Context `{Unicode} `{PgEnv} (decode_auth : string -> result MQTTAuthRequest).

(** [own] is what [http.ServeMux] answers itself to another path: not found, or
    a redirect to the cleaned path. *)
Definition mqttAuthMux (own : string -> Z) (internalPassword callbackToken path : string) (r : HttpRequest) (w : World) : HttpResponse * World :=
  if String.eqb path "/internal/mqtt/authenticate" then MQTTAuthenticationHandler decode_auth internalPassword callbackToken r w
  else (StatusError (own path), w).
End mqtt_auth_mux.

(** What a serving goroutine logs when the server stops. *)
Definition aux_Serve (name : string) (served : option error) : list string :=
  ["starting iot-core " +:+ name +:+ " server"]
  ++ match served with
     | None => []
     | Some e => if errors_is e (Opaque "http: Server closed") then [] else ["iot-core " +:+ name +:+ " server stopped"]
     end.

(** [Shutdown] at [now] of a server whose requests need [busy] more time, under
    a deadline: the time it returns, and whether it drained. *)
Definition Shutdown (deadline now busy : Z) : Z * bool :=
  if now + busy <=? deadline then (now + busy, true) else (Z.max now deadline, false).

(** One deadline for all of them; the time it ends, and who was drained. *)
Fixpoint shutdown_each (deadline now : Z) (busy : list (string * Z)) : Z * list (string * bool) :=
  match busy with
  | [] => (now, [])
  | (name, b) :: rest =>
    let '(now', ok) := Shutdown deadline now b in
    let '(last, oks) := shutdown_each deadline now' rest in (last, (name, ok) :: oks)
  end.

Definition shutdownAuxServers (now : Z) (busy : list (string * Z)) : Z * list (string * bool) :=
  shutdown_each (now + auxShutdownTimeout) now busy.

Lemma sum_nonneg (l : list (string * Z)) : Forall (fun s => 0 <= s.2) l -> 0 <= foldr Z.add 0 (map snd l).
Proof. induction 1; simpl in *; lia. Qed.

Lemma shutdown_each_bound deadline now busy : now <= deadline -> Forall (fun s => 0 <= s.2) busy ->
  now <= (shutdown_each deadline now busy).1 <= deadline
  /\ map fst (shutdown_each deadline now busy).2 = map fst busy
  /\ (now + foldr Z.add 0 (map snd busy) <= deadline -> Forall (fun s => s.2 = true) (shutdown_each deadline now busy).2).
Proof.
  intros Hd Hb. revert now Hd. induction Hb as [|[name b] busy Hb0 Hb' IH]; intros now Hd; [simpl; split_and!; [lia|lia|done|constructor]|].
  simpl in Hb0. cbn [shutdown_each]. unfold Shutdown. destruct (Z.leb_spec (now + b) deadline) as [Hle|Hgt].
  - specialize (IH (now + b) Hle). destruct (shutdown_each deadline (now + b) busy) as [last oks]. simpl in *.
    destruct IH as (Hlast & Hn & Hok). split_and!; [lia|lia|by f_equal|]. intros Hs. constructor; [done|]. apply Hok. lia.
  - specialize (IH (Z.max now deadline) ltac:(lia)). destruct (shutdown_each deadline (Z.max now deadline) busy) as [last oks]. simpl in *.
    destruct IH as (Hlast & Hn & Hok). split_and!; [lia|lia|by f_equal|]. intros Hs.
    assert (0 <= foldr Z.add 0 (map snd busy)); [by apply sum_nonneg|lia].
Qed.

(** Draining the auxiliary servers ends within the two seconds it is given, so
    well before the framework kills the process; every server is asked, and all
    are drained when what they have in flight fits. *)
Theorem aux_shutdown_bounded now busy : Forall (fun s => 0 <= s.2) busy ->
  let '(last, drained) := shutdownAuxServers now busy in
  now <= last <= now + auxShutdownTimeout /\ map fst drained = map fst busy
  /\ (foldr Z.add 0 (map snd busy) <= auxShutdownTimeout -> Forall (fun s => s.2 = true) drained).
Proof.
  intros Hb. unfold shutdownAuxServers. destruct (shutdown_each_bound (now + auxShutdownTimeout) now busy) as (Hl & Hn & Hd); [unfold auxShutdownTimeout, Second; lia|done|].
  destruct (shutdown_each _ _ _) as [last drained]. simpl in *. split_and!; [lia|lia|done|]. intros Hs. apply Hd. lia.
Qed.

(** ** What the core builds from the environment, as in run.go *)
Section build.
Context `{KafkaAdmin} `{Digest} (env : Env).

Definition core_buildStore : BootM unit := buildStore env.
Definition core_buildPublisher : BootM (option KafkaPublisher) := buildPublisher env.
Definition core_topicConfigFromEnv : KafkaTopicConfig := topicConfigFromEnv env.
End build.
