(* ===== verification/ManagementServer.v ===== *)
(** * The management API as a process: Run and the middleware of internal/adminapi/server.go

    How the gateway starts and stops, and the chain every routed request goes
    through: the body limit (in [decodeJSON]), the request identifier, the access
    log, the metrics, the bearer token, the handler. *)
From stdpp Require Import prelude strings gmap.
From Stdlib Require Import ZArith Lia Ascii SpecFloat.
From S2P Require Import Prelude GoStrings Contracts CommandState GoJson Base64 Payload Domain GoNet RuntimeConfig TraceFile TimeText Pagination HttpParams HttpAuth Observability Tracing Postgres PostgresStore StoreProperties PageProperties Host Kafka Bridge Metrics CoreService AdminApi AdminProperties Bootstrap.

Local Open Scope Z_scope.

(** ** Settings *)
Section settings.
Context (env : Env) (ParseFloat : string -> result spec_float).

Definition listenHost : string := ListenHost env "LISTEN_ADDR" "0.0.0.0".
Definition listenPort : Z := ListenPort env "LISTEN_ADDR" "PORT" 8080.
Definition managementAPIMetricsHost : string := EnvOrDefault env "MANAGEMENT_API_METRICS_HOST" "0.0.0.0".
Definition managementAPIMetricsPort : Z := Int env "MANAGEMENT_API_METRICS_PORT" 9100.

(** The address and the path of the metrics listener. *)
Definition serveManagementAPIMetrics (host : string) (port : Z) (path : string) : string * string :=
  (host +:+ ":" +:+ Itoa port, path).

Record RpcClientConf := MkRpcClientConf { rc_Endpoints : list string; rc_App : string; rc_Token : string; rc_Trace : bool; rc_Timeout : Z }.

(** [dflt] is the timeout of the framework's own configuration. *)
Definition rpcClientConf (dflt : Z) : RpcClientConf :=
  MkRpcClientConf (SplitCSV (EnvOrDefault env "IOT_CORE_ENDPOINTS" "127.0.0.1:9001")) "management-api" "" true dflt.

(** The parts of the framework's HTTP configuration the service sets. *)
Record RestConf := MkRestConf {
  rt_Name : string; rt_Telemetry : TraceSettings; rt_Host : string; rt_Port : Z; rt_Timeout : Z;
  rt_Trace : bool; rt_Log : bool; rt_Prometheus : bool; rt_Recover : bool; rt_Metrics : bool; rt_TimeoutOn : bool;
  rt_TraceIgnorePaths : list string }.

Definition managementHTTPConf : RestConf :=
  MkRestConf "management-api" (TraceConfig env ParseFloat "management-api") listenHost listenPort 3000
    false false true false true true ["/healthz"; "/readyz"; "/metrics"].

(** ** Starting and stopping *)
Inductive MgmtEvent :=
| MDial (conf : RpcClientConf) (tls : bool) (ok : bool)
| MSleep (d : Z)
| MLogger (service : string)
| MTraceStart
| MTraceStop
| MMetrics (addr path : string)
| MServe (conf : RestConf)
| MHTTPStop
| MClientClose.

(** The attempts left, and what each of them answers, success when they run out. *)
Fixpoint dial (conf : RpcClientConf) (tls : bool) (left_ : nat) (answers : list (option error)) (lastErr : option error)
  : (unit + option error) * list MgmtEvent :=
  match left_ with
  | O => (inr lastErr, [])
  | S left' =>
    match answers with
    | [] | None :: _ => (inl tt, [MDial conf tls true])
    | Some e :: rest => let '(r, l) := dial conf tls left' rest (Some e) in (r, MDial conf tls false :: MSleep Second :: l)
    end
  end.

Definition newRPCClient (tls : result (option TLSConfig)) (answers : list (option error)) : (unit + option error) * list MgmtEvent :=
  match tls with
  | Err e => (inr (Some e), [])
  | Ok creds =>
    let conf := rpcClientConf 0 in
    let conf := MkRpcClientConf (rc_Endpoints conf) (rc_App conf) (rc_Token conf) (rc_Trace conf) 5000 in
    dial conf (match creds with Some _ => true | None => false end) 30 answers None
  end.

(** The error [Run] returns, if any; its deferred calls are the last events. *)
Definition management_Run (tls : result (option TLSConfig)) (answers : list (option error)) : option error * list MgmtEvent :=
  match newRPCClient tls answers with
  | (inr err, l) => (err, l)
  | (inl _, l) =>
    let l := l ++ [MLogger "management-api"; MTraceStart] in
    match ParseTenantBoundTokens (EnvOrDefault env "MANAGEMENT_API_TOKENS" "") with
    | Err _ => (Some [Opaque "invalid MANAGEMENT_API_TOKENS configuration"], l ++ [MTraceStop; MClientClose])
    | Ok _ =>
      let '(addr, path) := serveManagementAPIMetrics managementAPIMetricsHost managementAPIMetricsPort
                             (EnvOrDefault env "MANAGEMENT_API_METRICS_PATH" "/metrics") in
      (None, l ++ [MMetrics addr path; MServe managementHTTPConf; MHTTPStop; MTraceStop; MClientClose])
    end
  end.

Definition is_dial (e : MgmtEvent) : bool := match e with MDial _ _ _ => true | _ => false end.
Definition is_serve (e : MgmtEvent) : bool := match e with MServe _ => true | _ => false end.

Lemma dial_outcome conf tls left_ answers lastErr :
  match dial conf tls left_ answers lastErr with
  | (inl _, l) => exists k, (k < left_)%nat
      /\ l = concat (repeat [MDial conf tls false; MSleep Second] k) ++ [MDial conf tls true]
      /\ Forall (fun a => a <> None) (take k answers)
  | (inr err, l) => l = concat (repeat [MDial conf tls false; MSleep Second] left_)
      /\ (left_ <> 0%nat -> err = default None (answers !! (left_ - 1)%nat) /\ err <> None)
  end.
Proof.
  revert answers lastErr. induction left_ as [|n IH]; intros answers lastErr; cbn [dial]; [done|].
  destruct answers as [|[e|] answers]; [exists 0%nat; split_and!; [lia|done|constructor]| |exists 0%nat; split_and!; [lia|done|constructor]].
  specialize (IH answers (Some e)). destruct (dial conf tls n answers (Some e)) as [[u|err] l] eqn:Ed.
  - destruct IH as (k & Hk & -> & Hf). exists (S k). split_and!; [lia|done|]. simpl. by constructor.
  - destruct IH as [-> Herr]. split; [done|]. intros _. destruct n as [|n].
    + cbn [dial] in Ed. by simplify_eq.
    + destruct (Herr ltac:(done)) as [-> Hne]. simpl in *. rewrite Nat.sub_0_r in *. done.
Qed.

Lemma failed_dials conf tls k :
  length (List.filter is_dial (concat (repeat [MDial conf tls false; MSleep Second] k))) = k
  /\ Forall (fun e => match e with MDial _ _ _ | MSleep _ => True | _ => False end) (concat (repeat [MDial conf tls false; MSleep Second] k)).
Proof. induction k as [|k [IH1 IH2]]; [done|]. simpl. split; [by rewrite IH1|]. by repeat constructor. Qed.

Lemma rpc_client_events tls answers r l : newRPCClient tls answers = (r, l) ->
  (length (List.filter is_dial l) <= 30)%nat
  /\ Forall (fun e => match e with MDial _ _ _ | MSleep _ => True | _ => False end) l
  /\ match r with inl _ => exists l' conf tls', l = l' ++ [MDial conf tls' true] | inr err => err <> None end.
Proof.
  unfold newRPCClient. destruct tls as [creds|e]; [|by intros [= <- <-]; split_and!; [simpl; lia|constructor|]].
  set (conf := MkRpcClientConf _ _ _ _ _). set (tls' := match creds with Some _ => true | None => false end).
  pose proof (dial_outcome conf tls' 30 answers None) as Hd. intros E. rewrite E in Hd. destruct r as [u|err].
  - destruct Hd as (k & Hk & -> & _). destruct (failed_dials conf tls' k) as [Hn Hf]. split_and!; [|apply Forall_app; by repeat constructor|eauto].
    rewrite List.filter_app, length_app, Hn. simpl. lia.
  - destruct Hd as [-> Herr]. destruct (failed_dials conf tls' 30) as [Hn Hf]. split_and!; [lia|done|]. by apply Herr.
Qed.

(** A gateway that starts has connected within thirty attempts, and serves only
    when its tokens are well formed; whatever way [Run] ends, tracing is stopped
    and the connection closed, in that order, exactly when they were opened, and
    a run that served nothing reports why. *)
Theorem management_run_outcome tls answers err l : management_Run tls answers = (err, l) ->
  (length (List.filter is_dial l) <= 30)%nat
  /\ (existsb is_serve l = true <-> err = None)
  /\ (existsb is_serve l = true -> is_ok (ParseTenantBoundTokens (EnvOrDefault env "MANAGEMENT_API_TOKENS" "")) = true)
  /\ (MTraceStart ∈ l <-> exists l', l = l' ++ [MTraceStop; MClientClose]).
Proof.
  unfold management_Run. destruct (newRPCClient tls answers) as [r l0] eqn:Hc.
  destruct (rpc_client_events _ _ _ _ Hc) as (Hn & Hf & Hr). rewrite Forall_forall in Hf.
  assert (Hserve : existsb is_serve l0 = false).
  { apply not_true_is_false. intros (e & He%list_elem_of_In & Hs)%existsb_exists. specialize (Hf e He). by destruct e. }
  destruct r as [u|err0].
  - destruct Hr as (l1 & conf & tls' & ->).
    assert (Hlen : forall l2, Forall (fun e => is_dial e = false) l2 -> (length (List.filter is_dial ((l1 ++ [MDial conf tls' true]) ++ l2)) <= 30)%nat).
    { intros l2 Hl2. rewrite List.filter_app, length_app. assert (List.filter is_dial l2 = []) as ->; [|simpl; lia].
      induction Hl2 as [|e l2 He _ IH]; [done|]. simpl. by rewrite He. }
    destruct (ParseTenantBoundTokens _) eqn:Ht; intros [= <- <-]; rewrite <- !app_assoc; rewrite app_assoc; rewrite existsb_app, Hserve.
    + refine (conj _ (conj _ (conj _ _))); [apply Hlen; repeat apply Forall_cons_2; done|done|done|]. split; [intros _|intros _; apply elem_of_app; right; set_solver].
      eexists (((l1 ++ [MDial conf tls' true]) ++ [MLogger "management-api"; MTraceStart; MMetrics _ _; MServe _; MHTTPStop])).
      by rewrite <- (app_assoc (l1 ++ [MDial conf tls' true])).
    + refine (conj _ (conj _ (conj _ _))); [apply Hlen; repeat apply Forall_cons_2; done|done|done|]. split; [intros _|intros _; apply elem_of_app; right; set_solver].
      exists ((l1 ++ [MDial conf tls' true]) ++ [MLogger "management-api"; MTraceStart]).
      by rewrite <- (app_assoc (l1 ++ [MDial conf tls' true])).
  - intros [= <- <-]. rewrite Hserve. refine (conj _ (conj _ (conj _ _))); [done|by split; [done|]|done|]. split.
    + intros Hin%Hf. done.
    + intros (l' & ->). exfalso. apply (Hf MTraceStop). apply elem_of_app. right. left.
Qed.
End settings.

Lemma management_run_outcome_witness :
  exists err l, management_Run (fun _ => "") (fun _ => Err [Opaque "syntax"]) (Ok None) [Some [Opaque "connection refused"]; None] = (err, l)
    /\ (MTraceStart ∈ l <-> exists l', l = l' ++ [MTraceStop; MClientClose]) /\ existsb is_serve l = true.
Proof.
  eexists _, _. split; [reflexivity|].
  destruct (management_run_outcome (fun _ => "") (fun _ => Err [Opaque "syntax"]) (Ok None) [Some [Opaque "connection refused"]; None] _ _ eq_refl)
    as (_ & Hs & _ & Hc).
  split; [exact Hc|]. apply Hs. reflexivity.
Defined.

(** ** One request through the middleware

    The order is the one of the [Use] calls, the first outermost: the span, the
    body limit, the identifier, the access log, the counters, the token.  What
    the framework does around the chain (its deadline, its own metrics) is not
    part of it. *)

Record Exchange := MkExchange {
  ex_response : accessLogResponse; ex_header : option string; ex_log : list LogEntry; ex_span : option Span; ex_metrics : Metrics }.

Definition wire_act (e : Wire) : HandlerAct := match e with SentHeader code => HWriteHeader code | SentBody bytes => HWrite bytes end.

(** What the clock, the generator of identifiers and the runtime answer. *)
Record RequestEnv := MkRequestEnv { re_fresh : string; re_durationMs : Z; re_stack : string }.

Definition middleware_chain (e : RequestEnv) (m : Metrics) (r : Request) (acts : list HandlerAct) (how : HandlerEnd) : Exchange :=
  let '(ctx, id) := RequestIDHTTPMiddleware (re_fresh e) None r in
  let '(response, log, repanic) := SafeHTTPLoggingMiddleware (re_stack e) (re_durationMs e) ctx r acts how in
  MkExchange response (Some id) log
    (SafeHTTPTracingMiddleware r (map wire_act (al_sent response)) (if repanic then Observability.Aborted else Returned))
    (HTTPMiddleware r acts how new_response m).2.

Section exchange.
Context `{Unicode} `{TimeText} `{RequestDecoders} `{Router}.
(** [encode] is the JSON text of a body. *)
Context (encode : Body -> string).

Definition response_acts (resp : Response) : list HandlerAct := [HWriteHeader (rs_Status resp); HWrite (encode (rs_Body resp))].

(** Outside the routes there is the safe span and the answer of the router. *)
Definition not_found (e : RequestEnv) (m : Metrics) (r : Request) : Exchange :=
  let acts := [HWriteHeader 404; HWrite ("404 page not found" +:+ String "010" "")] in
  MkExchange (Observability.run_handler acts new_response) None [] (SafeHTTPTracingMiddleware r acts Returned) m.

Definition not_allowed (e : RequestEnv) (m : Metrics) (r : Request) : Exchange :=
  MkExchange (Observability.run_handler [HWriteHeader 405] new_response) None [] None m.

Definition management_exchange (client : CoreServiceClient) (tr : Transport) (token : string) (tenantTokens : gmap string string)
    (e : RequestEnv) (m : Metrics) (r : Request) : IO Exchange :=
  match route_search (rq_Method r) (rq_Path r) with
  | None => mret (if route_other_method (rq_Method r) (rq_Path r) then not_allowed e m r else not_found e m r)
  | Some h =>
    resp ← BearerTokenMiddlewareWithTenants writeError token tenantTokens (AdminApi.run_handler client tr h) r;
    mret (middleware_chain e m r (response_acts resp) Returned)
  end.
End exchange.

(** *** The writers agree *)
Lemma observed_transparent acts w : ow_inner (foldl observed_act w acts) = Observability.run_handler acts (ow_inner w).
Proof. revert w. induction acts as [|[code|bytes] acts IH]; intros w; [done|exact (IH _)|exact (IH _)]. Qed.

Lemma counters_transparent r acts how w m : (HTTPMiddleware r acts how w m).1 = Observability.run_handler acts w.
Proof. unfold HTTPMiddleware. destruct (String.eqb _ _); [done|]. apply observed_transparent. Qed.

(** A response with a final status is on the wire as it was written. *)
Lemma answered_once status body : 200 <= status ->
  Observability.run_handler [HWriteHeader status; HWrite body] new_response = MkAccessLogResponse status true [SentHeader status; SentBody body].
Proof.
  intros Hs. cbn [Observability.run_handler foldl handler_act]. unfold WriteHeader. cbn [al_wroteHeader new_response].
  by rewrite (proj2 (Z.leb_le _ _) Hs).
Qed.

(** *** The statuses of the handlers *)
Definition answers (P : Z -> Prop) (m : IO Response) : Prop := forall h resp h' l, m h = (resp, h', l) -> P (rs_Status resp).

Lemma answers_write (P : Z -> Prop) status v : P status -> answers P (writeJSON status v).
Proof. by intros Hs h resp h' l (<- & _)%io_ret_inv. Qed.
Lemma answers_error (P : Z -> Prop) status : P status -> answers P (writeError status).
Proof. apply answers_write. Qed.
Lemma answers_bind {A} P (m : IO A) k : (forall a, answers P (k a)) -> answers P (m ≫= k).
Proof. intros Hk h resp h' l (a & h1 & l1 & l2 & _ & E & _)%io_bind_inv. by eapply Hk. Qed.
Lemma answers_call {A} P tr (m : IO (rpc A)) k : (forall c, P (httpStatusFromGRPC c)) -> (forall a, answers P (k a)) -> answers P (call tr m k).
Proof. intros Hc Hk. apply answers_bind. intros [a|c]; [apply Hk|apply answers_error, Hc]. Qed.

Definition statuses : list Z := [200; 201; 202; 400; 401; 403; 404; 409; 429; 500; 502; 503; 504].

Lemma grpc_status c : httpStatusFromGRPC c ∈ statuses.
Proof. unfold statuses. destruct c; simpl; set_solver. Qed.

Lemma parameters_status `{Unicode} `{TimeText} r status : requestParameters r = inr status -> status ∈ statuses.
Proof. unfold requestParameters. case_match; [done|]. intros [= <-]. unfold statuses. case_match; set_solver. Qed.

Lemma statuses_final status : status ∈ statuses -> 200 <= status.
Proof. unfold statuses. rewrite !elem_of_cons, elem_of_nil. lia. Qed.

Section handler_statuses.
Context `{Unicode} `{TimeText} `{RequestDecoders}.

Lemma handler_status client tr h r : answers (fun s => s ∈ statuses) (AdminApi.run_handler client tr h r).
Proof.
  destruct h; cbn [AdminApi.run_handler];
    unfold healthHandler, readyHandler, mqttEnvelopeSchemaHandler, createTenantHandler, listTenantsHandler, createDeviceHandler, listDevicesHandler,
      getDeviceHandler, getDeviceStatusHandler, listTelemetryHandler, ingestTelemetryHandler, createCommandHandler, listCommandsHandler,
      getCommandHandler, ackCommandHandler;
    repeat (match goal with
            | |- answers _ (match requestParameters ?r with _ => _ end) => destruct (requestParameters r) eqn:?
            | |- answers _ (match ?x with _ => _ end) => destruct x
            | |- answers _ (call _ _ _) => apply answers_call; [apply grpc_status|intros ?]
            | |- answers _ (writeError ?s) => apply answers_error; first [by eapply parameters_status | unfold statuses; set_solver]
            | |- answers _ (writeJSON _ _) => apply answers_write; unfold statuses; set_solver
            | |- answers _ (_ ≫= _) => apply answers_bind; intros ?
            end).
Qed.

Lemma bearer_status token tokens next r :
  (forall r, answers (fun s => s ∈ statuses) (next r)) ->
  answers (fun s => s ∈ statuses) (BearerTokenMiddlewareWithTenants writeError token tokens next r).
Proof.
  intros Hn. destruct (public_path (rq_Path r)) eqn:Hp; [unfold BearerTokenMiddlewareWithTenants; by rewrite Hp|].
  destruct (bearer_outcome writeError token tokens next r Hp); [|apply Hn|apply Hn].
  apply answers_error. unfold statuses. set_solver.
Qed.
End handler_statuses.

Section accounting.
Context `{!Unicode} `{!TimeText} `{!RequestDecoders} `{!Router} `{!RouterLaws} (encode : Body -> string).

Lemma metrics_not_routed method h : route_search method "/metrics" = Some h -> False.
Proof.
  intros (pattern & Hin & Hm)%route_sound. assert (Hm' : pattern_matches pattern "/metrics" = true) by (by destruct Hm).
  clear Hm. unfold routes in Hin. rewrite !elem_of_cons, elem_of_nil in Hin.
  repeat (destruct Hin as [Hin|Hin]; [injection Hin as _ -> _; discriminate Hm'|]); done.
Qed.

(** The chain around a handler that answers once. *)
Lemma chain_answered e m r fresh' fresh'' status body :
  usable_id (re_fresh e) -> usable_id fresh'' -> 200 <= status -> rq_Path r <> "/metrics" ->
  exists id, usable_id id
    /\ UnaryClientRequestIDInterceptor fresh' (Some id) [] = (Some id, [id])
    /\ UnaryServerRequestIDInterceptor fresh'' None [id] = (Some id, id)
    /\ (trim_space (header_get r "X-Request-Id") <> "" -> id = trim_space (header_get r "X-Request-Id"))
    /\ let ex := middleware_chain e m r [HWriteHeader status; HWrite body] Returned in
       ex_response ex = MkAccessLogResponse status true [SentHeader status; SentBody body]
       /\ ex_header ex = Some id
       /\ ex_log ex = [LogRequest (if 500 <=? status then LError else LInfo) (rq_Method r) (routeLabel (rq_Path r)) status (re_durationMs e) id]
       /\ (forall sp, ex_span ex = Some sp -> sp_status sp = Some status /\ sp_route sp = routeLabel (rq_Path r))
       /\ ex_metrics ex = ObserveHTTPRequest (routeLabel (rq_Path r)) (rq_Method r) status m.
Proof.
  intros Hfresh Hcore Hs Hpath.
  destruct (request_id_end_to_end (re_fresh e) fresh' fresh'' r Hfresh Hcore) as (id & Husable & Hid & Hclient & Hserver & Hown).
  exists id. do 4 (split; [done|]). unfold middleware_chain. rewrite Hid. cbv zeta beta.
  unfold SafeHTTPLoggingMiddleware. rewrite (answered_once _ _ Hs). cbv zeta.
  cbn [ex_response ex_header ex_log ex_span ex_metrics al_status al_sent map wire_act RequestIDFromContext from_option default].
  split_and!; [done|done|done| |].
  - intros sp. unfold SafeHTTPTracingMiddleware. destruct (_ || _ || _); [done|]. rewrite (answered_once _ _ Hs). by intros [= <-].
  - unfold HTTPMiddleware. apply String.eqb_neq in Hpath. by rewrite Hpath.
Qed.


(** A handler that panics before it wrote anything is answered 500 and logged as an error; it is not
    counted. *)
Theorem panic_answered_not_counted e m r :
  let ex := middleware_chain e m r [] Panicked in
  omap final_status (al_sent (ex_response ex)) = [500] /\ ex_metrics ex = m
  /\ exists id, ex_log ex = [LogPanic (routeLabel (rq_Path r)) (re_stack e);
                             LogRequest LError (rq_Method r) (routeLabel (rq_Path r)) 500 (re_durationMs e) id].
Proof.
  unfold middleware_chain. destruct (RequestIDHTTPMiddleware _ _ _) as [ctx id]. simpl. split_and!; [done| |eauto].
  unfold HTTPMiddleware. by destruct (String.eqb _ _).
Qed.
End accounting.

#[local] Existing Instance sample_unicode.
#[local] Existing Instance sample_time.
#[local] Existing Instance sample_pg.
#[local] Existing Instance clean_router.
#[local] Existing Instance clean_router_laws.
#[local] Existing Instance no_bodies.

