(* ===== verification/DemoRuntime.v ===== *)
(** * The demo simulator as a process: internal/demo/runtime.go

    The HTTP client of the management API, the MQTT bus with its subscriptions,
    the health server and [Run].  The client is put in front of the gateway of
    AdminApi, so that what it asks for can be compared with what is read there. *)
From stdpp Require Import prelude strings gmap.
From Stdlib Require Import ZArith Lia Ascii.
From S2P Require Import Prelude GoStrings Contracts CommandState GoJson Base64 Payload Domain JsonText GoNet RuntimeConfig TimeText Pagination HttpParams HttpAuth Observability Postgres PostgresStore StoreProperties Host Kafka Bridge CoreService AdminApi AdminProperties Demo.

Local Open Scope Z_scope.

(** ** net/url *)

(** What [url.PathEscape] leaves as it is. *)
Definition path_safe (c : ascii) : bool :=
  let b := bval c in
  ((97 <=? b) && (b <=? 122)) || ((65 <=? b) && (b <=? 90)) || ((48 <=? b) && (b <=? 57)) || contains_byte c "-_.~$&+:=@".

Definition upper_hex (n : Z) : ascii := chr (if n <? 10 then 48 + n else 55 + n).

Fixpoint PathEscape (s : string) : string :=
  match s with
  | EmptyString => EmptyString
  | String c r =>
    if path_safe c then String c (PathEscape r)
    else String "%" (String (upper_hex (bval c / 16)) (String (upper_hex (bval c mod 16)) (PathEscape r)))
  end.

Fixpoint PathUnescape (s : string) : option string :=
  match s with
  | EmptyString => Some EmptyString
  | String c r =>
    if Ascii.eqb c "%" then
      match r with
      | String a (String b r') => x ← hex_val a; y ← hex_val b; t ← PathUnescape r'; Some (String (chr (16 * x + y)) t)
      | _ => None
      end
    else t ← PathUnescape r; Some (String c t)
  end.

Record URL := MkURL { u_Host : string; u_Path : string; u_RawQuery : string }.

Class UrlParser := { url_Parse : string -> result URL }.

(** An absolute URL with an authority only, extended with a path of printable
    bytes, keeps its authority and has that path, unescaped, and no query. *)
Class UrlParserLaws `{UrlParser} := {
  url_extend scheme authority u target path :
    contains_byte ":" scheme = false ->
    authority <> "" -> contains_byte "/" authority = false -> contains_byte "?" authority = false -> contains_byte "#" authority = false ->
    url_Parse (scheme +:+ "://" +:+ authority) = Ok u ->
    has_prefix target "/" = true -> plain target = true -> contains_byte "?" target = false -> contains_byte "#" target = false ->
    PathUnescape target = Some path ->
    url_Parse (scheme +:+ "://" +:+ authority +:+ target) = Ok (MkURL (u_Host u) path "") }.

(** ** The client of the management API *)
Record httpManagementAPIClient := MkHttpClient { hc_baseURL : string; hc_token : string; hc_Timeout : Z }.

Fixpoint trim_right_byte (c : ascii) (s : string) : string :=
  match s with
  | EmptyString => EmptyString
  | String d r => match trim_right_byte c r with
                  | EmptyString => if Ascii.eqb c d then EmptyString else String d EmptyString
                  | t => String d t
                  end
  end.

Definition newHTTPManagementAPIClient (env : Env) (baseURL : string) : result httpManagementAPIClient :=
  let baseURL := trim_right_byte "/" baseURL in
  if String.eqb baseURL "" then Err [Opaque "DEMO_MANAGEMENT_API_URL is required"]
  else Ok (MkHttpClient baseURL (EnvOrDefault env "DEMO_MANAGEMENT_API_TOKEN" "") (10 * Second)).

Section client.
Context `{UrlParser} (c : httpManagementAPIClient).

(** The request [postJSON] sends; [injected] are the headers of the propagator
    and [payload] the encoded body. *)
Definition post_request (injected : list (string * string)) (requestID url payload : string) : result Request :=
  u ← url_Parse url;
  let header := <["X-Request-Id" := [requestID]]> (<["Content-Type" := ["application/json"]]> ∅) in
  let header := if negb (String.eqb (hc_token c) "") then <["Authorization" := ["Bearer " +:+ hc_token c]]> header else header in
  let header := foldl (fun md kv => <[kv.1 := [kv.2]]> md) header injected in
  Ok (MkRequest "POST" (u_Path u) (u_RawQuery u) header payload None).

(** What the transport makes of a request: an error, or the status of the answer
    and the outcome of decoding its body. *)
Definition RoundTripper := Request -> result (Z * option error).

(** [body] is the outcome of [json.Marshal]; [out] whether the caller wants the answer. *)
Definition postJSON (Do : RoundTripper) (injected : list (string * string)) (fresh : string) (ctx : Ctx)
    (url : string) (body : result string) (out : bool) (okStatuses : list Z) : option error :=
  let '(ctx, requestID) := EnsureRequestID fresh ctx "" in
  match body with
  | Err e => Some e
  | Ok payload =>
    match post_request injected requestID url payload with
    | Err e => Some e
    | Ok req =>
      match Do req with
      | Err e => Some e
      | Ok (status, decoded) => post_outcome okStatuses status (if out then Some decoded else None)
      end
    end
  end.

Definition tenants_url : string := hc_baseURL c +:+ "/api/v1/tenants".
Definition devices_url (tenantID : string) : string := hc_baseURL c +:+ "/api/v1/tenants/" +:+ PathEscape tenantID +:+ "/devices".
Definition commands_url (tenantID deviceID : string) : string :=
  hc_baseURL c +:+ "/api/v1/tenants/" +:+ PathEscape tenantID +:+ "/devices/" +:+ PathEscape deviceID +:+ "/commands".

Definition client_CreateTenant Do injected fresh ctx (id name : string) : option error :=
  postJSON Do injected fresh ctx tenants_url (Ok (marshal_object [("id", id); ("name", name)])) false [409].

Definition client_CreateDevice Do injected fresh ctx (tenantID deviceID productID : string) : option error :=
  postJSON Do injected fresh ctx (devices_url tenantID)
    (Ok (marshal_object [("deviceId", deviceID); ("productId", productID); ("secret", "demo-secret")])) false [409].

(** [compact] is how the encoder writes a raw message, an error when it is not JSON. *)
Definition client_CreateCommand Do injected fresh ctx (compact : string -> result string) (tenantID deviceID payload : string) : option error :=
  postJSON Do injected fresh ctx (commands_url tenantID deviceID)
    (p ← compact payload; Ok ("{" +:+ marshal_string "payload" +:+ ":" +:+ p +:+ "}")) true [].

Definition client_Close : option error := None.
End client.

(** ** Escaping *)
Lemma upper_hex_val n : 0 <= n < 16 -> hex_val (upper_hex n) = Some n.
Proof.
  intros Hn. assert (HF : Forall (fun n => hex_val (upper_hex n) = Some n) (seqZ 0 16)) by (by repeat constructor).
  rewrite Forall_forall in HF. apply HF, elem_of_seqZ. lia.
Qed.

Lemma path_unescape_app s t s' : PathUnescape s = Some s' -> PathUnescape (s +:+ t) = (fun t' => s' +:+ t') <$> PathUnescape t.
Proof.
  revert s'. induction s as [s IH] using (induction_ltof1 _ String.length). unfold ltof in IH. intros s'. destruct s as [|c r].
  - intros [= <-]. rewrite str_app_nil_l. by destruct (PathUnescape t).
  - rewrite str_app_cons. cbn [PathUnescape]. destruct (Ascii.eqb c "%").
    + destruct r as [|a [|b r']]; [done|done|]. rewrite !str_app_cons. destruct (hex_val a) as [x|], (hex_val b) as [y|]; try done. cbn [mbind option_bind].
      destruct (PathUnescape r') as [t'|] eqn:E; [|done]. intros [= <-]. rewrite (IH r' ltac:(simpl; lia) _ E). by destruct (PathUnescape t).
    + destruct (PathUnescape r) as [t'|] eqn:E; [|done]. intros [= <-]. rewrite (IH r ltac:(simpl; lia) _ E). by destruct (PathUnescape t).
Qed.

(** Escaping a segment is undone by the reader of the path. *)
Lemma path_unescape_escape s : PathUnescape (PathEscape s) = Some s.
Proof.
  induction s as [|c s IH]; [done|]. cbn [PathEscape]. pose proof (bval_range c). destruct (path_safe c) eqn:Hs; cbn [PathUnescape].
  - assert (Ascii.eqb c "%" = false) as ->; [|by rewrite IH]. apply Ascii.eqb_neq. intros ->. done.
  - rewrite Ascii.eqb_refl, !upper_hex_val by (first [apply Z.mod_pos_bound; lia | split; [apply Z.div_pos; lia|apply Z.div_lt_upper_bound; lia]]).
    rewrite IH. cbn [mbind option_bind]. do 2 f_equal. rewrite <- Z.div_mod by lia. apply chr_bval.
Qed.

(** The bytes of an escaped segment. *)
Definition url_byte (c : ascii) : bool := path_safe c || Ascii.eqb c "%" || Ascii.eqb c "/".
Fixpoint url_text (s : string) : bool := match s with EmptyString => true | String c r => url_byte c && url_text r end.

Lemma url_byte_ok c : url_byte c = true -> plain_byte c = true /\ Ascii.eqb "?" c = false /\ Ascii.eqb "#" c = false.
Proof. by destruct c as [[] [] [] [] [] [] [] []]. Qed.

Lemma url_text_ok s : url_text s = true -> plain s = true /\ contains_byte "?" s = false /\ contains_byte "#" s = false.
Proof.
  induction s as [|c s IH]; [done|]. cbn [url_text plain contains_byte]. intros [Hc Hs]%andb_true_iff.
  destruct (url_byte_ok c Hc) as (-> & -> & ->). by destruct (IH Hs) as (-> & -> & ->).
Qed.

Lemma url_text_app s t : url_text (s +:+ t) = url_text s && url_text t.
Proof. induction s as [|c s IH]; [done|]. rewrite str_app_cons. cbn [url_text]. by rewrite IH, andb_assoc. Qed.

Lemma upper_hex_url n : 0 <= n < 16 -> url_byte (upper_hex n) = true.
Proof.
  intros Hn. assert (HF : Forall (fun n => url_byte (upper_hex n) = true) (seqZ 0 16)) by (by repeat constructor).
  rewrite Forall_forall in HF. apply HF, elem_of_seqZ. lia.
Qed.

Lemma escape_url_text s : url_text (PathEscape s) = true.
Proof.
  induction s as [|c s IH]; [done|]. cbn [PathEscape]. pose proof (bval_range c). destruct (path_safe c) eqn:Hs; cbn [url_text]; rewrite IH.
  - unfold url_byte. by rewrite Hs.
  - rewrite !upper_hex_url by (first [apply Z.mod_pos_bound; lia | split; [apply Z.div_pos; lia|apply Z.div_lt_upper_bound; lia]]). done.
Qed.

(** ** What the gateway reads of a request of the client *)
Definition propagated (injected : list (string * string)) : Prop :=
  Forall (fun kv => kv.1 ∈ ["Traceparent"; "Tracestate"; "Baggage"]) injected.

Lemma injected_other injected header key : propagated injected -> key ∉ ["Traceparent"; "Tracestate"; "Baggage"] ->
  foldl (fun md kv => <[kv.1 := [kv.2]]> md) header injected !! key = (header : gmap string (list string)) !! key.
Proof.
  revert header. induction injected as [|kv injected IH]; intros header Hi Hk; [done|]. inversion Hi; subst. cbn [foldl].
  rewrite IH by done. apply lookup_insert_ne. intros E. apply Hk. by rewrite <- E.
Qed.

Section reading.
Context `{!UrlParser} `{!UrlParserLaws} `{!Unicode} `{!TimeText} `{!RequestDecoders} `{!Router}.
Variables (c : httpManagementAPIClient) (scheme authority : string) (u : URL).
Hypothesis Hbase : hc_baseURL c = scheme +:+ "://" +:+ authority.
Hypothesis Hscheme : contains_byte ":" scheme = false.
Hypothesis Hauth : authority <> "" /\ contains_byte "/" authority = false /\ contains_byte "?" authority = false /\ contains_byte "#" authority = false.
Hypothesis Hparse : url_Parse (hc_baseURL c) = Ok u.

Lemma target_parsed target path : has_prefix target "/" = true -> url_text target = true -> PathUnescape target = Some path ->
  url_Parse (hc_baseURL c +:+ target) = Ok (MkURL (u_Host u) path "").
Proof.
  intros Hp (Hpl & Hq & Hh)%url_text_ok Hu. destruct Hauth as (Hne & Hsl & Hqu & Hfr). rewrite Hbase in *. rewrite !str_app_assoc.
  by apply (url_extend scheme authority u target path).
Qed.

Lemma posted injected requestID target path payload :
  propagated injected -> has_prefix target "/" = true -> url_text target = true -> PathUnescape target = Some path ->
  exists r, post_request c injected requestID (hc_baseURL c +:+ target) payload = Ok r
    /\ rq_Method r = "POST" /\ rq_Path r = path /\ rq_RawQuery r = "" /\ rq_Body r = payload /\ rq_Params r = None
    /\ header_get r "X-Request-Id" = requestID
    /\ header_get r "Authorization" = (if String.eqb (hc_token c) "" then "" else "Bearer " +:+ hc_token c)
    /\ header_values r "Idempotency-Key" = [].
Proof.
  intros Hi Hp Ht Hu. unfold post_request. rewrite (target_parsed target path Hp Ht Hu). cbn [mbind result_bind]. eexists. split; [reflexivity|].
  unfold header_get, header_values, values_get. cbn [rq_Method rq_Path rq_RawQuery rq_Body rq_Params rq_Header u_Path u_RawQuery].
  rewrite !injected_other by (done || set_solver). destruct (String.eqb (hc_token c) ""); cbn [negb]; split_and!; done.
Qed.

(** A posted request for a resource is accepted with the client's token and read
    as that resource. *)
Lemma posted_read {A} injected requestID target p payload (refuse : Z -> A) tokens next :
  propagated injected -> has_prefix target "/" = true -> url_text target = true ->
  (exists path, PathUnescape target = Some path /\ addresses path p) -> mp_CommandID p = "" -> hc_token c <> "" ->
  exists r, post_request c injected requestID (hc_baseURL c +:+ target) payload = Ok r
    /\ rq_Method r = "POST" /\ rq_Body r = payload /\ header_get r "X-Request-Id" = requestID
    /\ BearerTokenMiddlewareWithTenants refuse (hc_token c) tokens next r = next (withManagementParameters r p).
Proof.
  intros Hi Hp Ht (path & Hu & Ha) Hcmd Htok.
  destruct (posted injected requestID target path payload Hi Hp Ht Hu) as (r & Hr & Hm & Hpath & Hq & Hb & Hpar & Hx & Haz & Hk).
  exists r. split_and!; try done. apply String.eqb_neq in Htok as Htok'. rewrite Htok' in Haz.
  assert (Hread : ManagementRequest r = Ok p).
  { apply management_request_read; [done|]. pose proof (addresses_no_query _ _ Ha) as Hnq.
    assert (Hqe : mp_Query p = ∅) by (rewrite <- Hnq; done). split; rewrite ?Hpath, ?Hq, ?Hqe, ?Hk; try done.
    - by rewrite Hnq.
    - by left.
    - simpl. lia. }
  assert (Hpub : public_path (rq_Path r) = false).
  { rewrite Hpath. destruct Ha as (segs & _ & -> & _). done. }
  unfold BearerTokenMiddlewareWithTenants. rewrite Hpub, Haz, cut_prefix_app, Htok', String.eqb_refl. cbn [negb andb]. by rewrite Hread.
Qed.
(** The three targets. *)
Lemma tenants_target : url_text "/api/v1/tenants" = true /\ PathUnescape "/api/v1/tenants" = Some "/api/v1/tenants"
  /\ addresses "/api/v1/tenants" (scope "tenants" "" "" "").
Proof. split_and!; [done|done|]. exists ["tenants"]. by repeat split. Qed.

Lemma devices_target t : IsValidTenantID t = true ->
  let target := "/api/v1/tenants/" +:+ PathEscape t +:+ "/devices" in
  url_text target = true /\ PathUnescape target = Some ("/api/v1/tenants/" +:+ t +:+ "/devices")
  /\ addresses ("/api/v1/tenants/" +:+ t +:+ "/devices") (scope "devices" t "" "").
Proof.
  intros Ht target. unfold target. split_and!.
  - by rewrite !url_text_app, escape_url_text.
  - rewrite (path_unescape_app "/api/v1/tenants/" _ _ eq_refl), (path_unescape_app _ _ t (path_unescape_escape t)). done.
  - exists ["tenants"; t; "devices"]. by repeat split.
Qed.

Lemma commands_target t d : IsValidTenantID t = true -> IsValidTopicPart d = true ->
  let target := "/api/v1/tenants/" +:+ PathEscape t +:+ "/devices/" +:+ PathEscape d +:+ "/commands" in
  url_text target = true /\ PathUnescape target = Some ("/api/v1/tenants/" +:+ t +:+ "/devices/" +:+ d +:+ "/commands")
  /\ addresses ("/api/v1/tenants/" +:+ t +:+ "/devices/" +:+ d +:+ "/commands") (scope "deviceCommands" t d "").
Proof.
  intros Ht Hd target. unfold target. split_and!.
  - by rewrite !url_text_app, !escape_url_text.
  - rewrite (path_unescape_app "/api/v1/tenants/" _ _ eq_refl), (path_unescape_app _ _ t (path_unescape_escape t)),
      (path_unescape_app "/devices/" _ _ eq_refl), (path_unescape_app _ _ d (path_unescape_escape d)). done.
  - exists ["tenants"; t; "devices"; d; "commands"]. by repeat split.
Qed.

(** ** The client in front of the gateway *)
Variables (core : CoreServiceClient) (tr : Transport) (tokens : gmap string string) (h : Host).

(** The gateway answers; the body of the answer can be decoded. *)
Definition gateway : RoundTripper := fun r => Ok (rs_Status (serve core tr (hc_token c) tokens r h).1.1, None).

(** The outcome of a call the gateway passes on. *)
Definition call_outcome {A} (okStatuses : list Z) (m : IO (rpc A)) : option error :=
  match (over_grpc tr m h).1.1 with Reply _ => None | Status k => post_outcome okStatuses (httpStatusFromGRPC k) (Some None) end.

Lemma call_status {A} (m : IO (rpc A)) k created : 200 <= created < 300 -> (forall a, exists v, k a = writeJSON created v) ->
  rs_Status (call tr m k h).1.1 = match (over_grpc tr m h).1.1 with Reply _ => created | Status st => httpStatusFromGRPC st end.
Proof.
  intros Hc Hk. unfold call, mbind, io_bind. destruct (over_grpc tr m h) as [[[a|st] h1] l1]; cbn [fst].
  - destruct (Hk a) as [v ->]. done.
  - done.
Qed.

Lemma outcome_of_call {A} ok out (m : IO (rpc A)) k : (forall a, exists v, k a = writeJSON 201 v) ->
  post_outcome ok (rs_Status (call tr m k h).1.1) (if out : bool then Some None else None) = call_outcome ok m.
Proof.
  intros Hk. rewrite (call_status m k 201) by (done || lia). unfold call_outcome. destruct ((over_grpc tr m h).1.1) as [a|st].
  - unfold post_outcome. destruct (existsb _ ok); [done|]. by destruct out.
  - unfold post_outcome. destruct (existsb _ ok); [done|]. destruct ((_ <? 200) || _); by destruct out.
Qed.
(** A call of the client is the call of the core the handler makes of it. *)
Lemma client_call {A B} hd injected fresh ctx target p body dec (v : B) out ok (m : IO (rpc A)) (k : A -> IO Response) :
  propagated injected -> hc_token c <> "" -> url_text target = true -> has_prefix target "/" = true -> mp_CommandID p = "" ->
  (exists path, PathUnescape target = Some path /\ addresses path p /\ route_search "POST" path = Some hd) ->
  (forall r, rq_Body r = body -> decodeJSON dec r = Ok v) ->
  (forall r, ManagementRequest r = Ok p -> header_get r "Idempotency-Key" = "" -> decodeJSON dec r = Ok v -> AdminApi.run_handler core tr hd r = call tr m k) ->
  (forall a, exists v, k a = writeJSON 201 v) ->
  postJSON c gateway injected fresh ctx (hc_baseURL c +:+ target) (Ok body) out ok = call_outcome ok m.
Proof.
  intros Hi Htok Hut Hp Hcmd (path & Hu & Ha & Hr) Hdec Hh Hk. unfold postJSON. destruct (EnsureRequestID fresh ctx "") as [ctx' id].
  destruct (posted_read injected id target p body writeError tokens (AdminApi.run_handler core tr hd) Hi Hp Hut (ex_intro _ path (conj Hu Ha)) Hcmd Htok)
    as (r & Hpost & Hm & Hb & Hx & Hnext).
  destruct (posted injected id target path body Hi Hp Hut Hu) as (r' & Hpost' & _ & Hpath & _ & _ & _ & _ & _ & Hkey).
  rewrite Hpost in Hpost'. injection Hpost' as <-. rewrite Hpost. unfold gateway, serve. rewrite Hm, Hpath, Hr, Hnext.
  rewrite Hh; [by apply outcome_of_call|done| |by apply Hdec].
  unfold header_get, values_get. unfold header_values in Hkey. cbn [withManagementParameters rq_Header].
  destruct (rq_Header r !! "Idempotency-Key") as [[|]|]; done.
Qed.

End reading.

(** *** An example *)
#[local] Instance http_urls : UrlParser := {|
  url_Parse s :=
    match cut_byte ":" s with
    | None => Err [Opaque "missing protocol scheme"]
    | Some (_, rest) =>
      match cut_prefix "//" rest with
      | None => Err [Opaque "no authority"]
      | Some rest =>
        let '(authority, path) := match cut_byte "/" rest with Some (a, p) => (a, "/" +:+ p) | None => (rest, "") end in
        match PathUnescape path with Some p => Ok (MkURL authority p "") | None => Err [Opaque "invalid URL escape"] end
      end
    end |}.

#[local] Instance http_urls_laws : UrlParserLaws.
Proof.
  split. intros scheme authority u target path Hs Hne Hsl _ _ Hb Hp _ _ _ Hu. cbn [url_Parse http_urls] in *.
  change ("://" +:+ authority) with (String ":" ("//" +:+ authority)) in Hb.
  change ("://" +:+ authority +:+ target) with (String ":" ("//" +:+ (authority +:+ target))).
  rewrite cut_byte_app in * by done. rewrite cut_prefix_app in *. destruct target as [|b target]; [done|].
  assert (b = "/"%char) as -> by (by destruct b as [[] [] [] [] [] [] [] []]).
  rewrite cut_byte_app by done. change ("/" +:+ target) with (String "/" target). rewrite Hu.
  destruct (cut_byte "/" authority) as [[a p]|] eqn:E; [|cbn [PathUnescape] in Hb; by injection Hb as <-].
  apply cut_byte_Some in E as [-> _]. by rewrite contains_byte_app, orb_false_iff in Hsl; destruct Hsl.
Qed.

#[local] Instance demo_bodies : RequestDecoders := {|
  decode_tenant s := match json_parse s with Some (JObj [(_, JStr id); (_, JStr name)]) => Ok (id, name) | _ => Err [] end;
  decode_device s := match json_parse s with Some (JObj [(_, JStr d); (_, JStr p); (_, JStr x)]) => Ok (d, p, x) | _ => Err [] end;
  decode_telemetry _ := Err []; decode_command _ := Ok "{}"; decode_result _ := Err [] |}.

#[local] Existing Instance sample_unicode.
#[local] Existing Instance sample_time.
#[local] Existing Instance clean_router.


(** ** The bus of a tenant *)
Record ClientOptions := MkClientOptions { co_Broker : string; co_ClientID : string; co_OrderMatters : bool; co_Username : string; co_Password : string; co_AutoReconnect : bool }.

Fixpoint replace_byte (from to : ascii) (s : string) : string :=
  match s with EmptyString => EmptyString | String c r => String (if Ascii.eqb c from then to else c) (replace_byte from to r) end.

Definition bus_options (BrokerURL Username Password ClientPref tenantID : string) (nano : Z) : ClientOptions :=
  MkClientOptions BrokerURL (ClientPref +:+ "-" +:+ replace_byte "/" "-" tenantID +:+ "-" +:+ Itoa nano) false Username Password true.

(** The handlers by filter, whether there is a connection, and the filters the
    broker holds for it; a session is clean, so a new one starts with none. *)
Record mqttBus {H : Type} := MkMqttBus { mb_subs : gmap string H; mb_connected : bool; mb_broker : gset string }.
Arguments mqttBus : clear implicits.

Section bus.
Context {H : Type}.

(** [OnConnect]: every filter again; an answer that refuses is not looked at. *)
Definition on_connect (accepts : string -> bool) (b : mqttBus H) : mqttBus H :=
  MkMqttBus _ (mb_subs b) true (filter (fun topic => accepts topic = true) (dom (mb_subs b))).

Definition newMQTTBus (connected : option error) : result (mqttBus H) :=
  match connected with
  | Some e => Err e
  | None => Ok (on_connect (fun _ => true) (MkMqttBus _ ∅ false ∅))
  end.

Definition bus_Publish (outcome : option error) (b : mqttBus H) : option error := outcome.

(** The handler is installed first, whatever the broker answers. *)
Definition bus_Subscribe (topic : string) (handler : H) (outcome : option error) (b : mqttBus H) : option error * mqttBus H :=
  let subs := <[topic := handler]> (mb_subs b) in
  match outcome with
  | None => (None, MkMqttBus _ subs (mb_connected b) ({[topic]} ∪ mb_broker b))
  | Some e => (Some e, MkMqttBus _ subs (mb_connected b) (mb_broker b))
  end.

(** A nil bus has nothing to close. *)
Definition bus_Close (b : option (mqttBus H)) : option (mqttBus H) := (fun b => MkMqttBus _ (mb_subs b) false ∅) <$> b.

Inductive BusEvent := BSubscribe (topic : string) (handler : H) (outcome : option error) | BLost | BConnected (accepts : string -> bool).

Definition bus_step (b : mqttBus H) (e : BusEvent) : mqttBus H :=
  match e with
  | BSubscribe topic handler outcome => (bus_Subscribe topic handler outcome b).2
  | BLost => MkMqttBus _ (mb_subs b) false ∅
  | BConnected accepts => on_connect accepts b
  end.

Definition bus_run (b : mqttBus H) (es : list BusEvent) : mqttBus H := foldl bus_step b es.

(** The broker takes what it is asked for while there is a connection, and only then. *)
Fixpoint broker_willing (connected : bool) (es : list BusEvent) : Prop :=
  match es with
  | [] => True
  | BSubscribe _ _ outcome :: rest => (outcome = None <-> connected = true) /\ broker_willing connected rest
  | BLost :: rest => broker_willing false rest
  | BConnected accepts :: rest => (forall topic, accepts topic = true) /\ broker_willing true rest
  end.

Definition subscribed_topics (es : list BusEvent) : gset string :=
  list_to_set (omap (fun e => match e with BSubscribe topic _ _ => Some topic | _ => None end) es).

(** Every subscription survives the losses of the connection: after any sequence
    of subscriptions, losses and connections, a connected bus holds at the broker
    exactly the filters that were ever asked for, those that failed for want of
    a connection included. *)
Theorem bus_resubscribes b es :
  (mb_connected b = true -> mb_broker b = dom (mb_subs b)) -> broker_willing (mb_connected b) es ->
  let b' := bus_run b es in
  dom (mb_subs b') = dom (mb_subs b) ∪ subscribed_topics es /\ (mb_connected b' = true -> mb_broker b' = dom (mb_subs b')).
Proof.
  unfold subscribed_topics. revert b. induction es as [|e es IH]; intros b Hb Hw; [split; [set_solver|done]|].
  unfold bus_run in *. cbn [foldl]. destruct e as [topic handler outcome| |accepts]; cbn [broker_willing bus_step] in *.
  - destruct Hw as [Ho Hw]. destruct (IH (bus_Subscribe topic handler outcome b).2) as [Hd Hc].
    + unfold bus_Subscribe. destruct outcome as [e|]; cbn [snd mb_connected mb_broker mb_subs]; intros Hcon.
      * apply Ho in Hcon. done.
      * rewrite (Hb Hcon), dom_insert_L. done.
    + unfold bus_Subscribe. by destruct outcome.
    + split; [|exact Hc]. rewrite Hd. unfold bus_Subscribe. destruct outcome; cbn [snd mb_subs omap list_omap list_to_set]; rewrite dom_insert_L; set_solver.
  - destruct (IH (MkMqttBus _ (mb_subs b) false ∅)) as [Hd Hc]; [done|done|]. split; [exact Hd|exact Hc].
  - destruct Hw as [Ha Hw]. destruct (IH (on_connect accepts b)) as [Hd Hc].
    + intros _. unfold on_connect. cbn [mb_broker mb_subs]. set_solver.
    + exact Hw.
    + split; [exact Hd|exact Hc].
Qed.
End bus.

(** ** The service as a loop *)
Inductive WaitOutcome := Ready | Cancelled | StillWaiting.

(** Whether the context is done at each wait, in turn; the delays that passed. *)
Fixpoint waitForTopology (backoff : Z) (cancelled : list bool) (s : Service) : DemoM (WaitOutcome * Service * list Z) :=
  attempt ← EnsureTopology s;
  match attempt with
  | (None, s') => mret (Ready, s', [])
  | (Some _, s') =>
    match cancelled with
    | [] => mret (StillWaiting, s', [])
    | true :: _ => mret (Cancelled, s', [])
    | false :: rest =>
      again ← waitForTopology (next_backoff backoff) rest s';
      let '(outcome, s'', waits) := again in mret (outcome, s'', backoff :: waits)
    end
  end.

(** A burst before each tick, until the context is done. *)
Fixpoint run_bursts (draws : list Draws) (s : Service) : DemoM unit :=
  match draws with [] => mret tt | draw :: rest => _ ← runBurst draw s; run_bursts rest s end.

(** [service.Run]: the error, unless the topology is still being waited for. *)
Definition service_Run (cancelled : list bool) (first : Draws) (ticks : list Draws) (s : Service) : DemoM (option (option error) * Service) :=
  waited ← waitForTopology (500 * Millisecond) cancelled s;
  match waited with
  | (Ready, s', _) => _ ← run_bursts (first :: ticks) s'; mret (Some None, s')
  | (Cancelled, s', _) => mret (Some (Some [ContextCanceled]), s')
  | (StillWaiting, s', _) => mret (None, s')
  end.

Lemma topology_ready s w s' w' l : EnsureTopology s w = ((None, s'), w', l) -> ds_tenants s = [] ->
  length (ds_tenants s') = Z.to_nat (dc_TenantCount (ds_cfg s)).
Proof.
  unfold EnsureTopology. intros E Hnil. rewrite Hnil in E. demo_inv E. destruct a as [ts|e]; [|by injection E].
  demo_inv E. destruct a as [ags|e]; [|by injection E]. demo_inv E. injection E as <- _ _.
  apply (create_tenants_net "") in Hrun as [_ Hn]. by destruct (Hn ts eq_refl).
Qed.

(** The delays between the attempts double from half a second on, and a service
    that is ready has its topology. *)
Lemma wait_delays backoff cancelled s w o s' waits w' l :
  waitForTopology backoff cancelled s w = ((o, s', waits), w', l) ->
  waits = map (fun i => Nat.iter i next_backoff backoff) (seq 0 (length waits)) /\ (length waits <= length cancelled)%nat
  /\ (o = Ready -> ds_tenants s = [] -> length (ds_tenants s') = Z.to_nat (dc_TenantCount (ds_cfg s))).
Proof.
  revert backoff s w o s' waits w' l. induction cancelled as [|b cancelled IH]; intros backoff s w o s' waits w' l E; cbn [waitForTopology] in E;
    demo_inv E; destruct a as [[e|] s1].
  1: by injection E as <- <- <- <- <-.
  1, 3: injection E as <- <- <- <- <-; split_and!; [done|simpl; lia|intros _; eapply topology_ready; exact Hrun].
  pose proof (demo_topology_atomic _ _ _ _ _ _ "" Hrun) as [-> _]. destruct b; [injection E as <- <- <- <- <-; split_and!; [done|simpl; lia|done]|].
  demo_inv E. destruct a as [[o' s2] waits']. injection E as <- <- <- <- <-. destruct (IH _ _ _ _ _ _ _ _ Hrun0) as (Hw & Hlen & Hready).
  split_and!; [|simpl; lia|done]. cbn [length seq map]. f_equal. rewrite Hw at 1. rewrite <- seq_shift, map_map.
  apply map_ext. intros i. by rewrite Nat.iter_succ_r.
Qed.

(** The service emits nothing before its topology is there, and never waits
    longer than eight seconds between two attempts. *)
Theorem service_waits_for_topology cancelled s w o s' waits w' l :
  waitForTopology (500 * Millisecond) cancelled s w = ((o, s', waits), w', l) ->
  Forall (fun d => 500 * Millisecond <= d <= 8 * Second) waits
  /\ (o = Ready -> ds_tenants s = [] -> length (ds_tenants s') = Z.to_nat (dc_TenantCount (ds_cfg s))).
Proof.
  intros (Hw & _ & Hr)%wait_delays. split; [|done]. rewrite Hw. apply Forall_fmap, Forall_forall. intros i _. apply topology_backoff_bounds.
Qed.

(** ** The process *)

(** The handler of /healthz. *)
Definition demo_health (r : Request) : list HandlerAct :=
  if negb (String.eqb (rq_Method r) "GET") then [HWriteHeader 405]
  else [HWrite ("{" +:+ marshal_string "status" +:+ ":" +:+ marshal_string "ok" +:+ "," +:+ marshal_string "serviceName" +:+ ":" +:+ marshal_string "demo" +:+ "}")].

Definition ErrServerClosed : sentinel := Opaque "http: Server closed".

(** [served] is what [ListenAndServe] returned; a shut down server is no error. *)
Definition runHealthServer (served : error) : option error := if errors_is served ErrServerClosed then None else Some served.

Definition listenAddr (env : Env) : string := ListenAddr env "LISTEN_ADDR" "PORT" ":8080".

Inductive ProcessEvent := PLogger (service : string) | PTraceStart | PServe (addr : string) | PService (cfg : Config) | PCancel | PFactoryClose | PClientClose | PTraceStop.

(** What [select] receives first. *)
Inductive FirstDone := RunDone (err : option error) | ServerDone (served : error) | Signalled.

(** The deferred calls run in reverse order. *)
Definition demo_Run (env : Env) (first : FirstDone) : option error * list ProcessEvent :=
  let started := [PLogger "demo"; PTraceStart] in
  match newHTTPManagementAPIClient env (EnvOrDefault env "DEMO_MANAGEMENT_API_URL" "http://127.0.0.1:8080") with
  | Err e => (Some e, started ++ [PTraceStop])
  | Ok managementAPI =>
    match newMQTTBusFactory (EnvOrDefault env "DEMO_MQTT_URL" "tcp://127.0.0.1:1883") (EnvOrDefault env "DEMO_CLIENT_ID_PREFIX" "iot-demo") with
    | Err e => (Some e, started ++ [PClientClose; PTraceStop])
    | Ok factory =>
      let running := started ++ [PServe (listenAddr env); PService (normalizeConfig (demo_config env))] in
      let stopped := [PCancel; PFactoryClose; PClientClose; PTraceStop] in
      match first with
      | RunDone err => (err, running ++ [PCancel] ++ stopped)
      | ServerDone served => (runHealthServer served, running ++ [PCancel] ++ stopped)
      | Signalled => (None, running ++ stopped)
      end
    end
  end.
